(* ===== verification/_CoqProject ===== *)
-Q . S2P
Prelude.v
CString.v
Disk.v
FatTypes.v
Fat32.v
FatView.v
FatRead.v
FatWrite.v
FatCreate.v
FatSample.v
FatDelete.v
FatDir.v
FatInit.v
FatInvariant.v
FatHistory.v
FatMap.v
HostTool.v
Paging.v
PagingSpec.v
Process.v
ProcessSpec.v
ProcessSample.v
Ports.v
Ata.v
Scheduler.v
ProcessTypes.v
Framebuffer.v
FramebufferSpec.v
Keyboard.v
Interrupt.v
InterruptSpec.v
Descriptors.v
Kernel.v
ShellBoot.v
Terminal.v
Shell.v
Commands.v
ShellRules.v
ShellPath.v
ShellInput.v
ShellParse.v
ShellPlace.v
ShellCd.v
ShellFiles.v
ShellMkdir.v
ShellCat.v
ShellCp.v
ShellList.v
ShellFind.v
ShellRound.v
ShellSession.v
ShellSample.v
ShellFileSample.v
ShellSessionSample.v
ShellFindSample.v
UserCalls.v
Clock.v
ClockSpec.v
