(* ===== verification/Prelude.v ===== *)
(** * A verification of the BEBAS kernel

    BEBAS is a 32-bit x86 teaching kernel in C: a FAT-like file system over an
    ATA disk, paging with 4 MiB pages, processes with a round-robin scheduler, a
    text console, a keyboard driver, and a user shell on top of a table of
    system calls.  This library is a shallow embedding of its C code (under
    src/src/) and the theorems that say what the code does, on good input, on
    bad input, and where it goes wrong.

    ** How C is modelled

    Code that changes a state [St] is a value of [M St A]: a function to a
    result [Ret (a, s)], [Undef] (an access outside an object) or [NoFuel] (no
    result within the fuel).  [wp c Q s] says that [c] returns from [s] with [Q],
    so every theorem of that form includes that the code terminates and accesses
    no object out of bounds.  Integers are [Z], reduced by [u8], [u16], [u32],
    [i8] and [i32] where a C type does so; structs are records; enums are
    inductive types; memory is a map of bytes with little-endian loads and
    stores.  Where the layout in bytes matters (the driver object of fat32.c,
    the blocks on the disk, the screen, user memory) the model has the bytes.
    Uninitialised locals and memory behind a string literal are arguments
    ([junk], [tail]) about which nothing is assumed unless a theorem says so.

    ** The parts

    - String library.  CString.v: every function of string.c; pointers are
      addresses, the strings of the byte functions are any memory.
    - Block device.  Disk.v: the interface of disk.h as a class [Disk] with the
      laws [DiskSpec], and the image of external-inserter.c (Module [Inserter]),
      which satisfies them.  Ata.v: disk.c (Module [Pio]) over any machine with
      the class [AtaDrive], an abstract drive of the ATA standard; the driver is
      an instance of [DiskSpec], so what is proved of the file system holds for
      the kernel and for the host tool.
    - File system.  FatTypes.v: fat32.h, the 32-byte entries, the driver object
      [memory] of fat32.c as bytes, [fs]; Fat32.v: each function of fat32.c over
      any [Disk]; FatView.v: the disk as clusters ([disk_is]), the cluster map
      ([fat]), directories ([dir]) and chains ([chain]), with the rules of the
      cluster operations; FatRead.v, FatWrite.v, FatCreate.v, FatDelete.v,
      FatDir.v, FatInit.v: the theorems on reading, on the two loops of
      [write], on whole writes, on deleting, on directories and on starting;
      FatInvariant.v: the invariant [fs_ok] of the tree of directories;
      FatHistory.v: that it holds after any sequence of requests; FatMap.v: the
      map from directories and names to nodes that the operations refine;
      FatSample.v: a concrete image on which the theorems are applied.
    - Paging.  Paging.v: paging.c, with the directories as objects at their
      addresses, CR3 and the invalidated addresses as state; PagingSpec.v: the
      invariant [paging_ok] and the theorems.
    - Processes.  Process.v: process.c over [kernel], which joins the page
      manager, the driver of the file system, the disk, physical memory and the
      process table; user addresses go through the directory in CR3.
      ProcessSpec.v: the theorems; ProcessTypes.v: the types of the table, with
      the scheduler; ProcessSample.v: a concrete kernel.
    - Scheduler.  Scheduler.v: scheduler.c and its theorems.  The context that
      is given to the assembly [process_context_switch] is the result.
    - Hardware behind ports.  Ports.v: portio.c over the class [Ports], the
      programming of the interrupt controllers and the timer, and an instance
      [pics] with two controllers.
    - Console.  Framebuffer.v: framebuffer.c; FramebufferSpec.v: its theorems,
      for any controller with cursor registers (class [Crtc]).
    - Keyboard.  Keyboard.v: keyboard.c with its table, and its theorems.
    - Interrupts.  Interrupt.v: the handler and the system calls of interrupt.c
      on the whole [machine]; InterruptSpec.v: their theorems.
    - Descriptor tables.  Descriptors.v: gdt.c and idt.c, with the packed words
      and how the processor decodes them.
    - Start.  Kernel.v: [kernel_setup] of kernel.c, the composition of the
      other parts, and the theorem that it ends in the shell.
    - Host tool.  HostTool.v: [main] of external-inserter.c, which runs the file
      system on an image; ShellBoot.v: the tool and the kernel together, from a
      blank storage to the running shell.
    - Shell.  Terminal.v: the console and the keyboard as a user program sees
      them, the class [Terminal] with [TerminalSpec], a script of keys and the
      kernel's drivers as its instances; Shell.v: the state, the system calls
      and the functions of user-shell.c; Commands.v: [parseCommand], one
      definition for each command, [handleInput] and the loop; ShellRules.v: the
      view of the state in which the theorems are stated, and a rule for each
      call; ShellPath.v, ShellInput.v, ShellParse.v, ShellPlace.v, ShellCd.v,
      ShellMkdir.v, ShellCat.v, ShellCp.v, ShellList.v, ShellFind.v,
      ShellRound.v: the theorems (ShellFiles.v has what the commands on files
      share); ShellSession.v: sessions, the commands that change directories over
      the map of FatMap.v; ShellSample.v, ShellFileSample.v, ShellSessionSample.v,
      ShellFindSample.v: concrete states; UserCalls.v: that the machine serves the calls as the shell's code
      takes them to be.
    - Clock.  Clock.v: clock.c over the class [Cmos]; ClockSpec.v: its theorems.

    The calls of the C code are the uses of these definitions: [syscall] calls
    the file system, the console, the keyboard and the process manager;
    [process_create_user_process] calls the page manager and [read];
    [main_interrupt_handler] calls the scheduler, the keyboard and [syscall].
    The shell calls the definitions behind the system calls directly; UserCalls.v
    relates these calls to [main_interrupt_handler].

    ** What is shown

    - File system, functional: a file written is in the first unused entry, its
      clusters are the first free ones, chained in order, and hold its bytes,
      and nothing else changes ([write_file_ok]); reading it back gives the
      bytes, unless its size is a whole number of clusters
      ([write_read_roundtrip]); [read] follows the chain, and the size of the
      buffer does not limit it ([read_file_ok], [read_ignores_buffer_size]); directories are created with their two entries
      ([write_directory_ok]); deletion ([delete_file_ok],
      [delete_directory_ok]); formatting and loading ([initialize_formats],
      [initialize_loads]).  Errors: the code of every rejected request, and that
      it changes nothing ([read_errors], [write_rejected], [delete_rejected],
      [read_directory_correct]).
    - File system, as a map: [write], [delete] and [read] are insertion, removal
      and lookup in a map from directories and names to directories and file
      contents ([requests_refine_map]; [read_refines_map], which also says what
      [read] makes of directories and of files of whole clusters).
    - File system, invariant: from formatting on, through any legal requests, the
      directories are a tree, files have chains that end and no cluster belongs
      to two entries ([filesystem_invariant]); why a deletion must not remove the
      directory itself ([delete_own_directory]).
    - File system, flaws: files of whole clusters ([read_whole_clusters_undefined]),
      full directories ([write_file_full_directory]), directories read as files
      ([read_accepts_directory]), space never given back ([delete_file_ok]).
    - Disk: both block devices refine the interface ([ata_read_correct],
      [ata_write_correct], the instances of [DiskSpec]).
    - Paging: the allocator's invariant over any sequence of operations
      ([paging_sequence_ok]), the functional behaviour of allocation, and the
      leak of [paging_free_page_directory].
    - Processes: creation ([create_process_ok]), isolation of address spaces
      ([create_process_isolation]), error paths, destruction; that the process
      table stays well typed through any operations ([process_table_typed]).
    - Scheduler: termination and choice ([scheduler_switch_correct]), fairness
      ([scheduler_fair]), divergence without a process
      ([scheduler_switch_diverges]), which block gets the saved context
      ([save_context_correct]).
    - Console: every character ([putchar_advances], [putchar_backspace]), and
      that no string leaves the screen ([puts_safe]).
    - Interrupts: the tick, and where the context of the interrupted process
      goes ([timer_tick_correct]), ignored calls and
      exceptions, [get_process_info], the move of a directory entry.
    - Tables and start: [gdt_install_tss_correct], [initialize_idt_correct],
      [pic_remap_correct], [kernel_setup_runs_shell]; from a blank storage to
      the running shell: [inserter_correct], [installed_shell_boots].
    - Shell: a round of the loop ([shell_round_correct], [shell_round_cd]), the
      line editor ([handle_input_correct], [backspace_keeps_character]), the
      dispatch ([parse_command_dispatch]), the displayed path
      ([print_dir_tree_correct]), the invariant of the position, with what
      happens at the end of its array, for which the code has no bound
      ([shell_place_invariant]), and each command: [cd_correct],
      [cd_back_roundtrip], [cd_overflow], [mkdir_correct], [rm_correct],
      [mkdir_rm_roundtrip], [cat_correct], [cat_overflow], [cp_correct],
      [mv_never_moves], [ls_correct], [find_correct], [ps_never_returns].
      cp is treated on any stack; find on any stack as far as its answers are
      right when it returns, and on a clear one as the reference search.
    - Shell and file system together: through any lines with cd, mkdir, rm and ls
      that are allowed (paths that exist, names that are not empty, no removal of
      a directory that "cd .." leads back to) the file system is in order, the position is in its tree, and every line is
      served as the map says ([shell_session_refines]); why rm must not remove a
      directory that "cd .." leads back to ([rm_on_trail]).
    - System calls: call 1 from both sides ([read_directory_call_refines]); that
      the interrupts for the calls 4 to 8 and the key presses keep the laws of the
      terminal the shell is proved against ([terminal_calls_refine]).
    - Clock: [read_rtc_terminates], [read_rtc_correct], [clock_round_correct].

    ** Bounds and fuel

    The loops of fat32.c that search the map and a directory have [scan_fuel],
    600: a map has 512 entries and the tables 128.  [delete] takes its fuel as
    an argument, at least the length of the chain, which is at most 512; the
    system call passes 600.  The scheduler has 16, one for each slot; the search
    of a backspace 80, one row (enough for a screen on which every row above the
    cursor holds a character, which [puts_safe] keeps); the busy loops of disk.c
    one more than the drive's patience; the string functions the length of the
    string and one, in the shell 4096.  The shell's [fuel] bounds the directories
    of a path, the keys of a line and the depth of a search, and must be greater
    than these; the clock's is three more than the accesses until the registers
    are calm.  The theorems prove that this fuel is enough.

    ** What is not modelled

    Assembly (the interrupt stubs, the context switch, loading GDTR, IDTR and
    the task register), linker scripts and build files.  The disk, the console
    hardware and the interrupt controllers are separate components of the
    machine, although all are behind ports: an access to one does not affect the
    others.  Interrupts do not arrive in the middle of kernel code, which runs
    with interrupts disabled after an interrupt gate.  System calls reach user memory only: the kernel's
    objects are not at user addresses.  Device errors of the disk do not occur.
    The local objects of the shell are apart from each other: an access outside
    one is undefined and never reaches another; what is behind an object, or in
    it before it is written, is arbitrary.  The statements of mv behind its three
    returns cannot be reached and have no definition.  [out_byte] and [in_byte],
    which clock.c declares, are defined nowhere in the repository and are a
    class.  The host tool gets the memory it asks for and can write its file.

    This file is the prelude: bytes and integers of fixed width, byte-addressed
    memory, the monad with [wp] and its rules, loops, and the lemmas on them
    that the other files share. *)
From Stdlib Require Import ZArith Lia.
From Stdlib Require Strings.Byte Strings.String.
From stdpp Require Import base numbers option strings zmap list.

#[global] Open Scope Z_scope.

(** ** Bytes and fixed-width integers *)

Abbreviation byte := (Corelib.Init.Byte.byte).

(** A byte as the value of a [uint8_t]. *)
Definition b2z (b : byte) : Z := Z.of_N (Strings.Byte.to_N b).

(** Conversion of an integer to [uint8_t] (reduction modulo 256). *)
Definition z2b (x : Z) : byte :=
  match Strings.Byte.of_N (Z.to_N (x mod 256)) with
  | Some b => b
  | None => Corelib.Init.Byte.x00
  end.

Definition u8 (x : Z) : Z := x mod 256.
Definition u16 (x : Z) : Z := x mod 65536.
Definition u32 (x : Z) : Z := x mod 4294967296.

(** Conversion to [int8_t] and [int32_t]: two's complement. *)
Definition i8 (x : Z) : Z := (x + 128) mod 256 - 128.
Definition i32 (x : Z) : Z := (x + 2147483648) mod 4294967296 - 2147483648.

#[export] Instance byte_eq_dec : EqDecision byte := Strings.Byte.byte_eq_dec.

(** Little-endian encoding of an [n]-byte unsigned integer, the layout of
    every multi-byte field on i386. *)
Fixpoint le_bytes (n : nat) (x : Z) : list byte :=
  match n with
  | O => []
  | S n' => z2b x :: le_bytes n' (x / 256)
  end.

Fixpoint le_val (bs : list byte) : Z :=
  match bs with
  | [] => 0
  | b :: bs' => b2z b + 256 * le_val bs'
  end.

(** The bytes of a C string literal, without its terminator. *)
Definition cstring (s : String.string) : list byte :=
  Strings.String.list_byte_of_string s.
Arguments cstring s%_string_scope.

Definition zeros (n : nat) : list byte := replicate n (z2b 0).

(** ** Byte-addressed memory *)

(** A memory object: every address holds a byte, zero unless written.  The
    offset of a byte from the start of the object is its address. *)
Abbreviation mem := (Zmap byte).

Definition mget (m : mem) (a : Z) : byte := default (z2b 0) (m !! a).

Fixpoint load (m : mem) (a : Z) (n : nat) : list byte :=
  match n with
  | O => []
  | S n' => mget m a :: load m (a + 1) n'
  end.

Fixpoint store (m : mem) (a : Z) (bs : list byte) : mem :=
  match bs with
  | [] => m
  | b :: bs' => store (<[a := b]> m) (a + 1) bs'
  end.

(** Loads and stores of an [n]-byte unsigned integer. *)
Definition load_le (n : nat) (m : mem) (a : Z) : Z := le_val (load m a n).
Definition store_le (n : nat) (m : mem) (a : Z) (x : Z) : mem :=
  store m a (le_bytes n x).

(** Two memories with the same bytes; coarser than equality, since an absent
    address and an address holding zero read the same. *)
#[export] Instance mem_equiv : Equiv mem := fun m1 m2 => forall a, mget m1 a = mget m2 a.

(** ** Results and the state monad of the C code *)

(** The outcome of running a piece of C: a value, undefined behaviour (an
    access outside the object), or no result within the fuel given. *)
Inductive res (A : Type) : Type :=
| Ret (a : A)
| Undef
| NoFuel.
Arguments Ret {A} a.
Arguments Undef {A}.
Arguments NoFuel {A}.

Definition res_bind {A B} (r : res A) (f : A -> res B) : res B :=
  match r with
  | Ret a => f a
  | Undef => Undef
  | NoFuel => NoFuel
  end.

#[export] Instance res_ret : MRet res := fun A a => Ret a.
#[export] Instance res_mbind : MBind res := fun A B f r => res_bind r f.

(** Code that reads and writes a state [St]. *)
Definition M (St A : Type) : Type := St -> res (A * St).

#[export] Instance M_ret (St : Type) : MRet (M St) := fun A a s => Ret (a, s).
#[export] Instance M_bind (St : Type) : MBind (M St) := fun A B f c s =>
  match c s with
  | Ret (a, s') => f a s'
  | Undef => Undef
  | NoFuel => NoFuel
  end.

Definition gets {St A} (f : St -> A) : M St A := fun s => Ret (f s, s).
Definition modify {St} (f : St -> St) : M St unit := fun s => Ret (tt, f s).
Definition undefined {St A} : M St A := fun _ => Undef.
Definition out_of_fuel {St A} : M St A := fun _ => NoFuel.

(** [for (i = lo; i < lo + n; i++) body(i)] with no early exit. *)
Fixpoint for_up {St} (body : Z -> M St unit) (i : Z) (n : nat) : M St unit :=
  match n with
  | O => mret tt
  | S n' => body i ;; for_up body (i + 1) n'
  end.

(** [for (i = lo; i < lo + n; i++) if (p(i)) break;]: the first index of the
    range at which the test holds. *)
Fixpoint find_up (p : Z -> bool) (i : Z) (n : nat) : option Z :=
  match n with
  | O => None
  | S n' => if p i then Some i else find_up p (i + 1) n'
  end.

(** Total correctness: [c] run from [s] returns, and what it returns and the
    state it leaves satisfy [Q]. *)
Definition wp {St A} (c : M St A) (Q : A -> St -> Prop) (s : St) : Prop :=
  match c s with
  | Ret (a, s') => Q a s'
  | Undef | NoFuel => False
  end.

(** ** Bytes and integers: lemmas *)

Create HintDb kernel.
Create Rewrite HintDb kernel_len.

Lemma b2z_range b : 0 <= b2z b < 256.
Proof.
  unfold b2z. pose proof (Strings.Byte.to_N_bounded b). lia.
Qed.

Lemma b2z_z2b x : b2z (z2b x) = x mod 256.
Proof.
  unfold b2z, z2b. pose proof (Z.mod_pos_bound x 256 eq_refl) as Hx.
  destruct (Strings.Byte.of_N (Z.to_N (x mod 256))) as [b|] eqn:E.
  - apply Strings.Byte.to_of_N in E. rewrite E. lia.
  - apply Strings.Byte.of_N_None_iff in E. lia.
Qed.

Lemma z2b_b2z b : z2b (b2z b) = b.
Proof.
  pose proof (b2z_range b) as Hb. unfold z2b. rewrite Z.mod_small by lia.
  unfold b2z. rewrite N2Z.id, Strings.Byte.of_to_N. done.
Qed.

Lemma b2z_inj b1 b2 : b2z b1 = b2z b2 -> b1 = b2.
Proof. intros H. rewrite <- (z2b_b2z b1), <- (z2b_b2z b2). congruence. Qed.

Lemma z2b_mod x : z2b (x mod 256) = z2b x.
Proof. apply b2z_inj. rewrite !b2z_z2b. apply Z.mod_mod. lia. Qed.

Lemma length_le_bytes n x : length (le_bytes n x) = n.
Proof. revert x. induction n as [|n IH]; intros x; simpl; [done|]. by rewrite IH. Qed.

Lemma le_val_range bs : 0 <= le_val bs < 256 ^ Z.of_nat (length bs).
Proof.
  induction bs as [|b bs IH]; simpl le_val; [simpl; lia|].
  pose proof (b2z_range b). cbn [length].
  rewrite Nat2Z.inj_succ, Z.pow_succ_r by lia. lia.
Qed.

Lemma le_val_le_bytes n x : le_val (le_bytes n x) = x mod 256 ^ Z.of_nat n.
Proof.
  revert x. induction n as [|n IH]; intros x; cbn [le_bytes le_val].
  - simpl. by rewrite Z.mod_1_r.
  - rewrite b2z_z2b, IH, Nat2Z.inj_succ, Z.pow_succ_r by lia.
    rewrite (Z.rem_mul_r x 256) by lia. lia.
Qed.

Lemma le_bytes_le_val bs : le_bytes (length bs) (le_val bs) = bs.
Proof.
  induction bs as [|b bs IH]; cbn [length le_bytes le_val]; [done|].
  pose proof (b2z_range b) as Hb. f_equal.
  - apply b2z_inj. rewrite b2z_z2b.
    rewrite (Z.mul_comm 256), Z.mod_add by lia. by rewrite Z.mod_small by lia.
  - replace ((b2z b + 256 * le_val bs) / 256) with (le_val bs); [done|].
    rewrite (Z.mul_comm 256), Z.div_add by lia. rewrite Z.div_small by lia. lia.
Qed.

Lemma u32_small x : 0 <= x < 4294967296 -> u32 x = x.
Proof. intros H. by apply Z.mod_small. Qed.

Lemma u32_range x : 0 <= u32 x < 4294967296.
Proof. unfold u32. apply Z.mod_pos_bound. lia. Qed.

Lemma u16_small x : 0 <= x < 65536 -> u16 x = x.
Proof. intros H. by apply Z.mod_small. Qed.

Lemma i32_small x : -2147483648 <= x < 2147483648 -> i32 x = x.
Proof. intros H. unfold i32. rewrite Z.mod_small by lia. lia. Qed.

Lemma i32_range x : -2147483648 <= i32 x < 2147483648.
Proof.
  unfold i32. pose proof (Z.mod_pos_bound (x + 2147483648) 4294967296 eq_refl). lia.
Qed.

(** ** Memory: lemmas *)

Lemma length_load m a n : length (load m a n) = n.
Proof. revert a. induction n as [|n IH]; intros a; simpl; [done|]. by rewrite IH. Qed.

Lemma lookup_load m a n i : (i < n)%nat -> load m a n !! i = Some (mget m (a + Z.of_nat i)).
Proof.
  revert a i. induction n as [|n IH]; intros a i Hi; [lia|].
  destruct i as [|i]; cbn [load lookup list_lookup].
  - by rewrite Z.add_0_r.
  - rewrite IH by lia. do 2 f_equal. lia.
Qed.

Lemma mget_insert m a b k : mget (<[a := b]> m) k = if decide (a = k) then b else mget m k.
Proof. unfold mget. rewrite lookup_insert. by case_decide. Qed.

Lemma mget_store_out m a bs k :
  k < a \/ a + Z.of_nat (length bs) <= k -> mget (store m a bs) k = mget m k.
Proof.
  revert m a. induction bs as [|b bs IH]; intros m a Hk; cbn [store length] in *; [done|].
  rewrite IH by lia. rewrite mget_insert. rewrite decide_False by lia. done.
Qed.

Lemma mget_store_in m a bs k b :
  a <= k -> bs !! Z.to_nat (k - a) = Some b -> mget (store m a bs) k = b.
Proof.
  revert m a. induction bs as [|b' bs IH]; intros m a Hk Hb; [done|].
  cbn [store]. destruct (decide (k = a)) as [->|Hne].
  - rewrite Z.sub_diag in Hb. injection Hb as ->.
    rewrite mget_store_out by lia. rewrite mget_insert. by rewrite decide_True.
  - apply IH; [lia|]. replace (Z.to_nat (k - a)) with (S (Z.to_nat (k - (a + 1)))) in Hb by lia.
    done.
Qed.

(** Two loads agree when the memories agree on the range. *)
Lemma load_ext m1 m2 a1 a2 n :
  (forall i, 0 <= i < Z.of_nat n -> mget m1 (a1 + i) = mget m2 (a2 + i)) ->
  load m1 a1 n = load m2 a2 n.
Proof.
  intros H. apply list_eq_same_length with (n := n); rewrite ?length_load; try done.
  intros i x y Hi. rewrite !lookup_load by done. intros [= <-] [= <-]. apply H. lia.
Qed.

(** What a store left, read back through any window inside it. *)
Lemma load_store_within m a bs b n :
  a <= b -> b + Z.of_nat n <= a + Z.of_nat (length bs) ->
  load (store m a bs) b n = take n (drop (Z.to_nat (b - a)) bs).
Proof.
  intros Hb Hn. apply list_eq_same_length with (n := n); rewrite ?length_load; try done.
  { rewrite length_take, length_drop. lia. }
  intros i x y Hi. rewrite lookup_load by done. intros [= <-].
  rewrite lookup_take_lt by done. rewrite lookup_drop. intros Hy.
  apply mget_store_in; [lia|]. rewrite <- Hy. f_equal. lia.
Qed.

Lemma load_store_eq m a bs n : n = length bs -> load (store m a bs) a n = bs.
Proof.
  intros ->. rewrite load_store_within by lia.
  rewrite Z.sub_diag. simpl. by rewrite firstn_all.
Qed.

Lemma load_store_ne m a bs b n :
  b + Z.of_nat n <= a \/ a + Z.of_nat (length bs) <= b ->
  load (store m a bs) b n = load m b n.
Proof. intros H. apply load_ext. intros i Hi. apply mget_store_out. lia. Qed.

(** A window of a load is a load. *)
Lemma load_window m a n i k :
  (i + k <= n)%nat -> take k (drop i (load m a n)) = load m (a + Z.of_nat i) k.
Proof.
  intros H. apply list_eq_same_length with (n := k); rewrite ?length_load; try done.
  { rewrite length_take, length_drop, length_load. lia. }
  intros j x y Hj. rewrite lookup_take_lt, lookup_drop, !lookup_load by lia.
  intros [= <-] [= <-]. f_equal. lia.
Qed.

Lemma load_app m a n k : load m a (n + k) = load m a n ++ load m (a + Z.of_nat n) k.
Proof.
  revert a. induction n as [|n IH]; intros a; simpl; [by rewrite Z.add_0_r|].
  rewrite IH. do 3 f_equal. lia.
Qed.

Lemma store_app m a bs1 bs2 :
  store m a (bs1 ++ bs2) = store (store m a bs1) (a + Z.of_nat (length bs1)) bs2.
Proof.
  revert m a. induction bs1 as [|b bs1 IH]; intros m a; simpl; [by rewrite Z.add_0_r|].
  rewrite IH. f_equal. lia.
Qed.

Lemma load_le_range n m a : 0 <= load_le n m a < 256 ^ Z.of_nat n.
Proof. unfold load_le. pose proof (le_val_range (load m a n)) as H. by rewrite length_load in H. Qed.

Lemma load_le_store_eq n m a x : load_le n (store_le n m a x) a = x mod 256 ^ Z.of_nat n.
Proof.
  unfold load_le, store_le. rewrite load_store_eq by by rewrite length_le_bytes.
  apply le_val_le_bytes.
Qed.

Lemma load_le_store_ne n k m a x b :
  b + Z.of_nat n <= a \/ a + Z.of_nat k <= b ->
  load_le n (store_le k m a x) b = load_le n m b.
Proof.
  intros H. unfold load_le, store_le. rewrite load_store_ne; [done|].
  rewrite length_le_bytes. lia.
Qed.

#[export] Instance mem_equiv_equivalence : Equivalence (≡@{mem}).
Proof.
  split.
  - intros m a. done.
  - intros m1 m2 H a. by rewrite H.
  - intros m1 m2 m3 H1 H2 a. by rewrite H1.
Qed.

#[export] Instance mget_proper : Proper ((≡@{mem}) ==> (=) ==> (=)) mget.
Proof. intros m1 m2 H a b ->. apply H. Qed.

#[export] Instance load_proper : Proper ((≡@{mem}) ==> (=) ==> (=) ==> (=)) load.
Proof. intros m1 m2 H a b -> n k ->. apply load_ext. intros i _. apply H. Qed.

#[export] Instance store_proper : Proper ((≡@{mem}) ==> (=) ==> (=) ==> (≡@{mem})) store.
Proof.
  intros m1 m2 H a b -> bs bs' -> k.
  destruct (decide (b <= k < b + Z.of_nat (length bs'))) as [Hk|Hk].
  - destruct (lookup_lt_is_Some_2 bs' (Z.to_nat (k - b)) ltac:(lia)) as [x Hx].
    by rewrite !(mget_store_in _ _ _ _ x) by (done || lia).
  - rewrite !mget_store_out by lia. apply H.
Qed.

Lemma store_load_id m a n : store m a (load m a n) ≡ m.
Proof.
  intros k. destruct (decide (a <= k < a + Z.of_nat n)) as [Hk|Hk].
  - apply mget_store_in; [lia|]. rewrite lookup_load by lia. do 2 f_equal. lia.
  - apply mget_store_out. rewrite length_load. lia.
Qed.

(** ** The monad: lemmas *)

Lemma wp_ret {St A} (a : A) (Q : A -> St -> Prop) s : Q a s -> wp (mret a) Q s.
Proof. done. Qed.

Lemma wp_bind {St A B} (c : M St A) (f : A -> M St B) Q s :
  wp c (fun a s' => wp (f a) Q s') s -> wp (c ≫= f) Q s.
Proof. unfold wp, mbind, M_bind. by destruct (c s) as [[a s']| |]. Qed.

Lemma wp_mono {St A} (c : M St A) (Q Q' : A -> St -> Prop) s :
  wp c Q s -> (forall a s', Q a s' -> Q' a s') -> wp c Q' s.
Proof. unfold wp. destruct (c s) as [[a s']| |]; auto. Qed.

Lemma wp_gets {St A} (f : St -> A) (Q : A -> St -> Prop) s : Q (f s) s -> wp (gets f) Q s.
Proof. done. Qed.

Lemma wp_modify {St} (f : St -> St) (Q : unit -> St -> Prop) s : Q tt (f s) -> wp (modify f) Q s.
Proof. done. Qed.

(** [wp] says that the code returns. *)
Lemma wp_elim {St A} (c : M St A) Q s : wp c Q s -> exists a s', c s = Ret (a, s') /\ Q a s'.
Proof. unfold wp. destruct (c s) as [[a s']| |]; naive_solver. Qed.

Lemma wp_intro {St A} (c : M St A) (Q : A -> St -> Prop) s a s' : c s = Ret (a, s') -> Q a s' -> wp c Q s.
Proof. unfold wp. by intros ->. Qed.

Lemma wp_eval {St A} (c : M St A) (Q : A -> St -> Prop) s a s' :
  c s = Ret (a, s') -> wp c Q s -> Q a s'.
Proof. unfold wp. by intros ->. Qed.

(** Computations taken apart: where a result comes from, the next step when the
    first is known, and a computation whose first part returns to a state from
    which the outcome of the rest satisfies [P]; the outcome may be undefined or
    without a result. *)
Lemma bind_Ret_inv {St A B} (c : M St A) (k : A -> M St B) s x :
  (c ≫= k) s = Ret x -> exists a s', c s = Ret (a, s') /\ k a s' = Ret x.
Proof. unfold mbind, M_bind. destruct (c s) as [[a s']| |]; [eauto|done..]. Qed.

Lemma bind_eval {St A B} (c : M St A) (k : A -> M St B) s a s' : c s = Ret (a, s') -> (c ≫= k) s = k a s'.
Proof. unfold mbind, M_bind. by intros ->. Qed.

(** [wp] as a property of a result, for goals that are not a [wp] themselves. *)
Definition ends {St A} (Q : A -> St -> Prop) (r : res (A * St)) : Prop :=
  match r with Ret (a, s') => Q a s' | _ => False end.

Lemma wp_ends {St A} (c : M St A) Q s : wp c Q s = ends Q (c s).
Proof. done. Qed.

Lemma wp_bind_in {St A B} (P : res (B * St) -> Prop) (c : M St A) (k : A -> M St B) s :
  wp c (fun a s' => P (k a s')) s -> P ((c ≫= k) s).
Proof. unfold wp, mbind, M_bind. by destruct (c s) as [[a s']| |]. Qed.

(** What holds of the result of code that may also have none. *)
Definition partial {St A} (Q : A -> St -> Prop) (r : res (A * St)) : Prop :=
  match r with Ret (a, s') => Q a s' | _ => True end.

Lemma partial_wp {St A} (c : M St A) Q s : wp c Q s -> partial Q (c s).
Proof. unfold wp. by destruct (c s) as [[a s']| |]. Qed.

Lemma partial_bind {St A B} (c : M St A) (k : A -> M St B) Q s :
  partial (fun a s' => partial Q (k a s')) (c s) -> partial Q ((c ≫= k) s).
Proof. unfold partial, mbind, M_bind. by destruct (c s) as [[a s']| |]. Qed.

Lemma partial_mono {St A} (Q Q' : A -> St -> Prop) r : partial Q r -> (forall a s', Q a s' -> Q' a s') -> partial Q' r.
Proof. unfold partial. destruct r as [[a s']| |]; auto. Qed.

(** A counted loop keeps an invariant indexed by the loop variable. *)
Lemma wp_for {St} (I : Z -> St -> Prop) (body : Z -> M St unit) i n (Q : unit -> St -> Prop) s :
  I i s ->
  (forall j s', i <= j < i + Z.of_nat n -> I j s' -> wp (body j) (fun _ => I (j + 1)) s') ->
  (forall s', I (i + Z.of_nat n) s' -> Q tt s') ->
  wp (for_up body i n) Q s.
Proof.
  revert i s. induction n as [|n IH]; intros i s Hi Hbody HQ; cbn [for_up].
  - apply wp_ret, HQ. by rewrite Z.add_0_r.
  - apply wp_bind. eapply wp_mono; [apply Hbody; [lia|done]|].
    intros [] s' Hs'. apply IH; [done| |].
    + intros j s'' Hj. apply Hbody. lia.
    + intros s'' Hs''. apply HQ. by replace (i + Z.of_nat (S n)) with (i + 1 + Z.of_nat n) by lia.
Qed.

(** ** What code keeps *)

(** Whenever [c] returns, it keeps the property [I] of the state. *)
Definition keeps {St A} (I : St -> Prop) (c : M St A) : Prop :=
  forall s a s', c s = Ret (a, s') -> I s -> I s'.

Lemma keeps_ret {St A} (I : St -> Prop) (a : A) : keeps I (mret a).
Proof. by intros s b s' [= <- <-]. Qed.

Lemma keeps_bind {St A B} (I : St -> Prop) (c : M St A) (f : A -> M St B) :
  keeps I c -> (forall a, keeps I (f a)) -> keeps I (c ≫= f).
Proof.
  intros Hc Hf s b s' Hr Hs. unfold mbind, M_bind in Hr.
  destruct (c s) as [[a s1]| |] eqn:E; [|done..]. eapply Hf; [exact Hr|]. by eapply Hc.
Qed.

Lemma keeps_gets {St A} (I : St -> Prop) (f : St -> A) : keeps I (gets f).
Proof. by intros s b s' [= <- <-]. Qed.

Lemma keeps_modify {St} (I : St -> Prop) (f : St -> St) : (forall s, I s -> I (f s)) -> keeps I (modify f).
Proof. intros H s b s' [= <- <-]. apply H. Qed.

Lemma keeps_undefined {St A} (I : St -> Prop) : keeps I (@undefined St A).
Proof. by intros s b s'. Qed.

Lemma keeps_out_of_fuel {St A} (I : St -> Prop) : keeps I (@out_of_fuel St A).
Proof. by intros s b s'. Qed.

Lemma keeps_for {St} (I : St -> Prop) (body : Z -> M St unit) i n :
  (forall j, keeps I (body j)) -> keeps I (for_up body i n).
Proof.
  intros Hb. revert i. induction n as [|n IH]; intros i; [apply keeps_ret|].
  apply keeps_bind; [apply Hb|]. intros _. apply IH.
Qed.

Lemma wp_keeps {St A} (I : St -> Prop) (c : M St A) (Q : A -> St -> Prop) s :
  wp c Q s -> keeps I c -> I s -> wp c (fun a s' => Q a s' /\ I s') s.
Proof.
  unfold wp. intros Hwp Hk Hs. destruct (c s) as [[a s']| |] eqn:E; [|done..].
  split; [done|]. by eapply Hk.
Qed.

(** From [I] the code leads to [J] whenever it returns. *)
Definition leads {St A} (I J : St -> Prop) (c : M St A) : Prop :=
  forall s a s', c s = Ret (a, s') -> I s -> J s'.

Lemma leads_bind {St A B} (I J K : St -> Prop) (c : M St A) (f : A -> M St B) :
  leads I J c -> (forall a, leads J K (f a)) -> leads I K (c ≫= f).
Proof. intros Hc Hf s b s' (a & s1 & H1 & H2)%bind_Ret_inv Hs. eapply Hf; [exact H2|]. by eapply Hc. Qed.

Lemma leads_modify {St} (I J : St -> Prop) (f : St -> St) : (forall s, I s -> J (f s)) -> leads I J (modify f).
Proof. intros H s a s' [= <- <-]. apply H. Qed.

Lemma gets_Ret_inv {St A} (f : St -> A) s a s' : gets f s = Ret (a, s') -> a = f s /\ s' = s.
Proof. unfold gets. intros E. by inversion E. Qed.

(** What is read is known of the state that it is read from. *)
Lemma leads_gets {St A B} (I J : St -> Prop) (f : St -> A) (g : A -> M St B) :
  (forall a, leads (fun s => I s /\ f s = a) J (g a)) -> leads I J (gets f ≫= g).
Proof. intros Hg s b s' (a & s1 & [= <- <-] & Hr)%bind_Ret_inv Hs. by eapply Hg. Qed.

Lemma leads_weaken {St A} (I I' J J' : St -> Prop) (c : M St A) :
  leads I' J' c -> (forall s, I s -> I' s) -> (forall s, J' s -> J s) -> leads I J c.
Proof. intros Hc HI HJ s a s' Hr Hs. eapply HJ, Hc; [exact Hr|by apply HI]. Qed.

Lemma leads_ret {St A} (I J : St -> Prop) (a : A) : (forall s, I s -> J s) -> leads I J (mret a).
Proof. intros HI s b s' [= <- <-]. apply HI. Qed.

(** A call that keeps [I] and returns a value with the property [P]. *)
Lemma leads_call {St A B} (I J : St -> Prop) (P : A -> Prop) (c : M St A) (g : A -> M St B) :
  keeps I c -> (forall s a s', c s = Ret (a, s') -> P a) -> (forall a, P a -> leads I J (g a)) -> leads I J (c ≫= g).
Proof. intros Hc Hp Hg s b s' (a & s1 & H1 & H2)%bind_Ret_inv Hs. eapply Hg; [by eapply Hp|exact H2|]. by eapply Hc. Qed.

Create HintDb keeps.
#[export] Hint Resolve keeps_ret keeps_bind keeps_gets keeps_modify keeps_undefined
  keeps_out_of_fuel keeps_for : keeps.

(** ** The search loop: lemmas *)

Lemma find_up_Some p i n k :
  find_up p i n = Some k <->
  i <= k < i + Z.of_nat n /\ p k = true /\ (forall j, i <= j < k -> p j = false).
Proof.
  revert i. induction n as [|n IH]; intros i; cbn [find_up].
  - split; [done|lia].
  - destruct (p i) eqn:Hp.
    + split.
      * intros [= <-]. repeat split; (done || lia).
      * intros (Hk & Hpk & Hj). f_equal. destruct (decide (i = k)) as [|Hne]; [done|].
        rewrite Hj in Hp by lia. done.
    + rewrite IH. split.
      * intros (Hk & Hpk & Hj). repeat split; [lia|lia|done|].
        intros j Hjk. destruct (decide (j = i)) as [->|]; [done|]. apply Hj. lia.
      * intros (Hk & Hpk & Hj). assert (k <> i) by congruence.
        repeat split; [lia|lia|done|]. intros j Hjk. apply Hj. lia.
Qed.

Lemma find_up_None p i n :
  find_up p i n = None <-> (forall j, i <= j < i + Z.of_nat n -> p j = false).
Proof.
  revert i. induction n as [|n IH]; intros i; cbn [find_up].
  - split; [lia|done].
  - destruct (p i) eqn:Hp.
    + split; [done|]. intros H. rewrite H in Hp by lia. done.
    + rewrite IH. split.
      * intros H j Hj. destruct (decide (j = i)) as [->|]; [done|]. apply H. lia.
      * intros H j Hj. apply H. lia.
Qed.

Lemma find_up_ext p q i n :
  (forall j, i <= j < i + Z.of_nat n -> p j = q j) -> find_up p i n = find_up q i n.
Proof.
  revert i. induction n as [|n IH]; intros i H; cbn [find_up]; [done|].
  rewrite H by lia. destruct (q i); [done|]. apply IH. intros j Hj. apply H. lia.
Qed.

#[export] Hint Resolve wp_ret wp_bind wp_gets wp_modify : kernel.
#[export] Hint Rewrite length_load length_le_bytes @length_app @length_take @length_drop
  @length_replicate : kernel_len.

(** Searching from a later start is searching with the test moved. *)
Lemma find_up_shift p k i n :
  find_up p (i + k) n = (fun x => x + k) <$> find_up (fun d => p (d + k)) i n.
Proof.
  revert i. induction n as [|n IH]; intros i; cbn [find_up]; [done|].
  destruct (p (i + k)); [done|]. rewrite <- IH. f_equal. lia.
Qed.

(** ** Sums over lists *)

(** Changing one element changes the sum by the difference. *)
Lemma sum_list_with_insert {A} (f : A -> nat) (l : list A) i x y :
  l !! i = Some x -> (sum_list_with f (<[i := y]> l) + f x = sum_list_with f l + f y)%nat.
Proof.
  revert i. induction l as [|z l IH]; intros [|i] Hi; simplify_eq/=; [lia|].
  specialize (IH i Hi). lia.
Qed.
