(* ===== verification/CString.v ===== *)
(** The freestanding C string library of src/src/string.c, over byte memory:
    a pointer is an address of a [mem]; loops over NUL-terminated strings take
    fuel, one unit for each character they look at. *)
From Stdlib Require Import ZArith Lia.
From stdpp Require Import base numbers option strings zmap list.
From S2P Require Import Prelude.

(** ** Definitions *)

(** A plain [char] is signed on i386. *)
Definition char_at (m : mem) (a : Z) : Z := i8 (b2z (mget m a)).

Fixpoint memset_loop (m : mem) (buf c i : Z) (n : nat) : mem :=
  match n with
  | O => m
  | S n' => memset_loop (<[buf + i := z2b c]> m) buf c (i + 1) n'
  end.

Definition memset (m : mem) (s c : Z) (n : nat) : mem := memset_loop m s c 0 n.

(** The operands of [memcpy] are [restrict]: source and destination are read
    from two memories, which may be one object when they do not overlap. *)
Fixpoint memcpy_loop (md : mem) (dest : Z) (ms : mem) (src i : Z) (n : nat) : mem :=
  match n with
  | O => md
  | S n' => memcpy_loop (<[dest + i := mget ms (src + i)]> md) dest ms src (i + 1) n'
  end.

Definition memcpy (md : mem) (dest : Z) (ms : mem) (src : Z) (n : nat) : mem :=
  memcpy_loop md dest ms src 0 n.

Fixpoint memcmp_loop (m1 : mem) (s1 : Z) (m2 : mem) (s2 i : Z) (n : nat) : Z :=
  match n with
  | O => 0
  | S n' =>
      if b2z (mget m1 (s1 + i)) <? b2z (mget m2 (s2 + i)) then -1
      else if b2z (mget m1 (s1 + i)) >? b2z (mget m2 (s2 + i)) then 1
      else memcmp_loop m1 s1 m2 s2 (i + 1) n'
  end.

Definition memcmp (m1 : mem) (s1 : Z) (m2 : mem) (s2 : Z) (n : nat) : Z :=
  memcmp_loop m1 s1 m2 s2 0 n.

(** [memmove] reads and writes one memory, so each step sees what the earlier
    steps wrote. *)
Fixpoint memmove_up (m : mem) (dest src i : Z) (n : nat) : mem :=
  match n with
  | O => m
  | S n' => memmove_up (<[dest + i := mget m (src + i)]> m) dest src (i + 1) n'
  end.

Fixpoint memmove_down (m : mem) (dest src : Z) (i : nat) : mem :=
  match i with
  | O => m
  | S i' =>
      memmove_down (<[dest + Z.of_nat i' := mget m (src + Z.of_nat i')]> m) dest src i'
  end.

Definition memmove (m : mem) (dest src : Z) (n : nat) : mem :=
  if dest <? src then memmove_up m dest src 0 n else memmove_down m dest src n.

Fixpoint strchr (fuel : nat) (m : mem) (str c : Z) : res (option Z) :=
  match fuel with
  | O => NoFuel
  | S fuel' =>
      if char_at m str =? 0 then Ret (if c =? 0 then Some str else None)
      else if char_at m str =? c then Ret (Some str)
      else strchr fuel' m (str + 1) c
  end.

(** The loop of [strtok]; [next] is the static [next_token]. *)
Fixpoint strtok_loop (fuel : nat) (m : mem) (next delimiters : Z) : res (mem * Z) :=
  match fuel with
  | O => NoFuel
  | S fuel' =>
      if char_at m next =? 0 then Ret (m, next)
      else
        match strchr fuel m delimiters (char_at m next) with
        | Ret (Some _) => Ret (<[next := z2b 0]> m, next + 1)
        | Ret None => strtok_loop fuel' m (next + 1) delimiters
        | Undef => Undef
        | NoFuel => NoFuel
        end
  end.

(** [strtok]: the token (a pointer, [None] for NULL), the memory and the
    static [next_token] it leaves. *)
Definition strtok (fuel : nat) (m : mem) (next_token str : option Z) (delimiters : Z)
  : res (option Z * mem * option Z) :=
  match (match str with Some _ => str | None => next_token end) with
  | None => Ret (None, m, None)
  | Some start =>
      match strtok_loop fuel m start delimiters with
      | Ret (m', next) => Ret (Some start, m', Some next)
      | Undef => Undef
      | NoFuel => NoFuel
      end
  end.

(** The inner loop of [strspn]: does the character occur in the delimiters? *)
Fixpoint strspn_member (fuel : nat) (m : mem) (p a : Z) : res bool :=
  match fuel with
  | O => NoFuel
  | S fuel' =>
      if char_at m a =? 0 then Ret false
      else if char_at m p =? char_at m a then Ret true
      else strspn_member fuel' m p (a + 1)
  end.

Fixpoint strspn_loop (fuel : nat) (m : mem) (p str2 count : Z) : res Z :=
  match fuel with
  | O => NoFuel
  | S fuel' =>
      if char_at m p =? 0 then Ret count
      else
        match strspn_member fuel m p str2 with
        | Ret true => strspn_loop fuel' m (p + 1) str2 (count + 1)
        | Ret false => Ret count
        | Undef => Undef
        | NoFuel => NoFuel
        end
  end.

Definition strspn (fuel : nat) (m : mem) (str1 str2 : Z) : res Z :=
  strspn_loop fuel m str1 str2 0.

Fixpoint strcmp (fuel : nat) (m1 : mem) (str1 : Z) (m2 : mem) (str2 : Z) : res Z :=
  match fuel with
  | O => NoFuel
  | S fuel' =>
      if negb (char_at m1 str1 =? 0) && (char_at m1 str1 =? char_at m2 str2)
      then strcmp fuel' m1 (str1 + 1) m2 (str2 + 1)
      else Ret (b2z (mget m1 str1) - b2z (mget m2 str2))
  end.

Fixpoint strcpy (fuel : nat) (md : mem) (dest : Z) (ms : mem) (src : Z) : res mem :=
  match fuel with
  | O => NoFuel
  | S fuel' =>
      let md' := <[dest := mget ms src]> md in
      if char_at ms src =? 0 then Ret md' else strcpy fuel' md' (dest + 1) ms (src + 1)
  end.

(** The second loop of [strncpy] pads from index [i]. *)
Fixpoint strncpy_pad (md : mem) (dest i : Z) (n : nat) : mem :=
  match n with
  | O => md
  | S n' => strncpy_pad (<[dest + i := z2b 0]> md) dest (i + 1) n'
  end.

(** The first loop copies while [i < n] and the source has characters. *)
Fixpoint strncpy_loop (md : mem) (dest : Z) (ms : mem) (src i : Z) (n : nat) : mem :=
  match n with
  | O => md
  | S n' =>
      if char_at ms (src + i) =? 0 then strncpy_pad md dest i n
      else strncpy_loop (<[dest + i := mget ms (src + i)]> md) dest ms src (i + 1) n'
  end.

Definition strncpy (md : mem) (dest : Z) (ms : mem) (src : Z) (n : nat) : mem :=
  strncpy_loop md dest ms src 0 n.

(** Memory at [a] holds the string [s] and its terminator. *)
Definition is_cstr (m : mem) (a : Z) (s : list byte) : Prop :=
  load m a (length s) = s /\ mget m (a + Z.of_nat (length s)) = z2b 0 /\ z2b 0 ∉ s.

#[export] Instance is_cstr_dec m a s : Decision (is_cstr m a s).
Proof. unfold is_cstr. apply _. Defined.

(** Lexicographic comparison of byte sequences, the reference for [memcmp]. *)
Fixpoint lex_compare (l1 l2 : list byte) : Z :=
  match l1, l2 with
  | b1 :: l1', b2 :: l2' =>
      match b2z b1 ?= b2z b2 with Lt => -1 | Gt => 1 | Eq => lex_compare l1' l2' end
  | _, _ => 0
  end.

(** ** Characters *)

Lemma i8_inj x y : 0 <= x < 256 -> 0 <= y < 256 -> i8 x = i8 y -> x = y.
Proof.
  intros Hx Hy H. unfold i8 in H.
  assert (Hm : (x + 128) mod 256 = (y + 128) mod 256) by lia. clear H.
  pose proof (Z.div_mod (x + 128) 256). pose proof (Z.div_mod (y + 128) 256). lia.
Qed.

Lemma char_at_eq m1 a1 m2 a2 : char_at m1 a1 = char_at m2 a2 <-> mget m1 a1 = mget m2 a2.
Proof.
  unfold char_at. split; [|congruence].
  intros H. apply b2z_inj. eapply i8_inj; eauto using b2z_range.
Qed.

Lemma char_at_zero m a : char_at m a = 0 <-> mget m a = z2b 0.
Proof.
  unfold char_at. split; [|by intros ->].
  intros H. apply b2z_inj. eapply i8_inj; eauto using b2z_range.
Qed.

Lemma is_cstr_char m a s i b :
  is_cstr m a s -> s !! i = Some b ->
  mget m (a + Z.of_nat i) = b /\ char_at m (a + Z.of_nat i) <> 0.
Proof.
  intros (Hl & _ & Hn) Hi. pose proof (lookup_lt_Some _ _ _ Hi) as Hlt.
  pose proof (lookup_load m a _ _ Hlt) as Hb. rewrite Hl, Hi in Hb. injection Hb as ->.
  split; [done|]. rewrite char_at_zero. intros E. apply Hn.
  rewrite <- E. by apply list_elem_of_lookup_2 with i.
Qed.

Lemma is_cstr_nil m a : is_cstr m a [] <-> mget m a = z2b 0.
Proof.
  unfold is_cstr. cbn [length load]. rewrite Z.add_0_r.
  split; [by intros (_ & ? & _)|]. intros H. repeat split; [done|]. apply not_elem_of_nil.
Qed.

Lemma is_cstr_cons m a b s :
  is_cstr m a (b :: s) <-> mget m a = b /\ b <> z2b 0 /\ is_cstr m (a + 1) s.
Proof.
  unfold is_cstr. cbn [length load].
  replace (a + 1 + Z.of_nat (length s)) with (a + Z.of_nat (S (length s))) by lia.
  rewrite not_elem_of_cons. split.
  - intros (Hl & Hz & Hne & Hs). injection Hl as Hb Hl. repeat split; congruence.
  - intros (Hb & Hne & Hl & Hz & Hs). repeat split; congruence.
Qed.

Lemma is_cstr_ext m1 m2 a s :
  (forall i, (0 <= i <= Z.of_nat (length s)) -> mget m1 (a + i) = mget m2 (a + i)) ->
  is_cstr m1 a s -> is_cstr m2 a s.
Proof.
  intros H (Hl & Hz & Hn). repeat split; [|rewrite <- H by lia; done|done].
  rewrite <- Hl at 2. apply load_ext. intros i Hi. symmetry. apply H. lia.
Qed.

(** ** memset, memcpy, memcmp, memmove *)

Lemma memset_loop_store m buf c i n :
  memset_loop m buf c i n = store m (buf + i) (replicate n (z2b c)).
Proof.
  revert m i. induction n as [|n IH]; intros m i; simpl; [done|].
  rewrite IH. f_equal. lia.
Qed.

Lemma memset_store m s c n : memset m s c n = store m s (replicate n (z2b c)).
Proof. unfold memset. rewrite memset_loop_store. by rewrite Z.add_0_r. Qed.

Lemma memcpy_loop_store md dest ms src i n :
  memcpy_loop md dest ms src i n = store md (dest + i) (load ms (src + i) n).
Proof.
  revert md i. induction n as [|n IH]; intros md i; simpl; [done|].
  rewrite IH. f_equal; [lia|]. f_equal. lia.
Qed.

Lemma memcpy_store md dest ms src n : memcpy md dest ms src n = store md dest (load ms src n).
Proof. unfold memcpy. rewrite memcpy_loop_store. by rewrite !Z.add_0_r. Qed.

Lemma memcmp_loop_lex m1 s1 m2 s2 i n :
  memcmp_loop m1 s1 m2 s2 i n = lex_compare (load m1 (s1 + i) n) (load m2 (s2 + i) n).
Proof.
  revert i. induction n as [|n IH]; intros i; cbn [memcmp_loop load lex_compare]; [done|].
  rewrite Z.gtb_ltb. destruct (Z.compare_spec (b2z (mget m1 (s1 + i))) (b2z (mget m2 (s2 + i))))
    as [E|E|E].
  - rewrite E, Z.ltb_irrefl, IH. f_equal; f_equal; lia.
  - by apply Z.ltb_lt in E as ->.
  - assert (E' : (b2z (mget m1 (s1 + i)) <? b2z (mget m2 (s2 + i))) = false) by (apply Z.ltb_ge; lia).
    apply Z.ltb_lt in E. by rewrite E', E.
Qed.

Lemma lex_compare_refl l : lex_compare l l = 0.
Proof. induction l as [|b l IH]; simpl; [done|]. by rewrite Z.compare_refl. Qed.

Lemma lex_compare_zero l1 l2 : length l1 = length l2 -> (lex_compare l1 l2 = 0 <-> l1 = l2).
Proof.
  intros Hl. split; [|intros ->; apply lex_compare_refl].
  revert l2 Hl. induction l1 as [|b1 l1 IH]; intros [|b2 l2] Hl; simpl in *; try done.
  destruct (Z.compare_spec (b2z b1) (b2z b2)) as [E|E|E]; try done.
  intros H. apply b2z_inj in E. subst. f_equal. apply IH; [lia|done].
Qed.

Lemma lex_compare_swap l1 l2 :
  length l1 = length l2 -> lex_compare l2 l1 = - lex_compare l1 l2.
Proof.
  revert l2. induction l1 as [|b1 l1 IH]; intros [|b2 l2] Hl; simpl in *; try done.
  rewrite (Z.compare_antisym (b2z b1)). destruct (b2z b1 ?= b2z b2) eqn:E; simpl; [|done..].
  apply IH. lia.
Qed.

Lemma memcmp_zero m1 s1 m2 s2 n :
  memcmp m1 s1 m2 s2 n = 0 <-> load m1 s1 n = load m2 s2 n.
Proof.
  unfold memcmp. rewrite memcmp_loop_lex, !Z.add_0_r.
  apply lex_compare_zero. by rewrite !length_load.
Qed.

Lemma memmove_up_get m dest src i n k :
  dest < src ->
  mget (memmove_up m dest src i n) k =
    (if decide (dest + i <= k < dest + i + Z.of_nat n) then mget m (src + (k - dest)) else mget m k).
Proof.
  intros Hlt. revert m i. induction n as [|n IH]; intros m i; cbn [memmove_up].
  - by rewrite decide_False by lia.
  - rewrite IH, !mget_insert. repeat case_decide; try lia; try done.
    f_equal. lia.
Qed.

Lemma memmove_down_get m dest src i k :
  src <= dest ->
  mget (memmove_down m dest src i) k =
    (if decide (dest <= k < dest + Z.of_nat i) then mget m (src + (k - dest)) else mget m k).
Proof.
  intros Hle. revert m. induction i as [|i IH]; intros m; cbn [memmove_down].
  - by rewrite decide_False by lia.
  - rewrite IH, !mget_insert. repeat case_decide; try lia; try done.
    f_equal. lia.
Qed.

Lemma mget_store_load m1 d m2 s n k :
  mget (store m1 d (load m2 s n)) k =
    (if decide (d <= k < d + Z.of_nat n) then mget m2 (s + (k - d)) else mget m1 k).
Proof.
  case_decide.
  - apply mget_store_in; [lia|]. rewrite lookup_load by lia. do 2 f_equal. lia.
  - apply mget_store_out. rewrite length_load. lia.
Qed.

(** ** Searching and copying strings *)

Lemma strchr_spec fuel m a s c :
  is_cstr m a s -> (length s < fuel)%nat -> c <> 0 ->
  exists r, strchr fuel m a c = Ret r /\
    match r with
    | Some p => exists i, p = a + Z.of_nat i /\ (i < length s)%nat /\ char_at m p = c /\
        (forall j, (j < i)%nat -> char_at m (a + Z.of_nat j) <> c)
    | None => forall j, (j < length s)%nat -> char_at m (a + Z.of_nat j) <> c
    end.
Proof.
  revert fuel a. induction s as [|b s IH]; intros fuel a Hs Hf Hc.
  - destruct fuel as [|fuel]; [simpl in Hf; lia|]. apply is_cstr_nil, char_at_zero in Hs.
    cbn [strchr]. rewrite Hs, (proj2 (Z.eqb_neq c 0) Hc). simpl.
    eexists; split; [done|]. simpl. lia.
  - destruct fuel as [|fuel]; [simpl in Hf; lia|].
    destruct (is_cstr_char _ _ _ 0 b Hs eq_refl) as [_ Hnz]. rewrite Z.add_0_r in Hnz.
    apply is_cstr_cons in Hs as (_ & _ & Hs). cbn [strchr length] in *.
    rewrite (proj2 (Z.eqb_neq _ _) Hnz). destruct (char_at m a =? c) eqn:E.
    + apply Z.eqb_eq in E. eexists; split; [done|]. exists 0%nat.
      repeat split; try lia.
    + apply Z.eqb_neq in E.
      destruct (IH fuel (a + 1) Hs ltac:(lia) Hc) as (r & -> & Hr).
      eexists; split; [done|].
      assert (Hj0 : forall (P : nat -> Prop) n, P 0%nat -> (forall j, (j < n)%nat -> P (S j)) ->
        forall j, (j < S n)%nat -> P j).
      { intros P n H0 HS [|j] Hj; [done|apply HS; lia]. }
      destruct r as [p|].
      * destruct Hr as (i & -> & Hi & Hp & Hj). exists (S i).
        replace (a + Z.of_nat (S i)) with (a + 1 + Z.of_nat i) by lia.
        repeat split; [lia|done|]. apply Hj0; [by rewrite Z.add_0_r|].
        intros j Hj'. replace (a + Z.of_nat (S j)) with (a + 1 + Z.of_nat j) by lia. by apply Hj.
      * apply Hj0; [by rewrite Z.add_0_r|].
        intros j Hj'. replace (a + Z.of_nat (S j)) with (a + 1 + Z.of_nat j) by lia. by apply Hr.
Qed.

Lemma strcmp_spec fuel m1 a1 m2 a2 s1 s2 :
  is_cstr m1 a1 s1 -> is_cstr m2 a2 s2 -> (length s1 < fuel)%nat ->
  exists d, strcmp fuel m1 a1 m2 a2 = Ret d /\ ((d = 0) <-> s1 = s2).
Proof.
  revert fuel a1 a2 s2. induction s1 as [|b1 s1 IH]; intros fuel a1 a2 s2 H1 H2 Hf;
    (destruct fuel as [|fuel]; [simpl in Hf; lia|]); cbn [strcmp].
  - apply is_cstr_nil in H1. rewrite (proj2 (char_at_zero _ _) H1). simpl.
    eexists; split; [done|]. rewrite H1. destruct s2 as [|b2 s2].
    + apply is_cstr_nil in H2. rewrite H2. split; [done|lia].
    + apply is_cstr_cons in H2 as (Hb & Hnz & _). split; [|done]. intros E.
      exfalso. apply Hnz. rewrite <- Hb. apply b2z_inj. lia.
  - apply is_cstr_cons in H1 as (Hb1 & Hnz1 & H1).
    assert (Hc1 : (char_at m1 a1 =? 0) = false).
    { apply Z.eqb_neq. rewrite char_at_zero. congruence. }
    rewrite Hc1. cbn [negb andb]. destruct (char_at m1 a1 =? char_at m2 a2) eqn:E.
    + apply Z.eqb_eq, char_at_eq in E. destruct s2 as [|b2 s2].
      * apply is_cstr_nil in H2. congruence.
      * apply is_cstr_cons in H2 as (Hb2 & Hnz2 & H2).
        destruct (IH fuel (a1 + 1) (a2 + 1) s2 H1 H2 ltac:(simpl in Hf; lia)) as (d & -> & Hd).
        eexists; split; [done|]. rewrite Hd. split; [intros ->; congruence|intros H; by injection H].
    + apply Z.eqb_neq in E. rewrite char_at_eq in E. eexists; split; [done|].
      split; [intros Hd; exfalso; apply E, b2z_inj; lia|].
      intros <-. exfalso. apply is_cstr_cons in H2 as (Hb2 & _). congruence.
Qed.

Lemma strcpy_spec fuel md dest ms src s :
  is_cstr ms src s -> (length s < fuel)%nat ->
  strcpy fuel md dest ms src = Ret (store md dest (s ++ [z2b 0])).
Proof.
  revert fuel md dest src. induction s as [|b s IH]; intros fuel md dest src Hs Hf;
    (destruct fuel as [|fuel]; [simpl in Hf; lia|]); cbn [strcpy].
  - apply is_cstr_nil in Hs. rewrite (proj2 (char_at_zero _ _) Hs), Hs. done.
  - apply is_cstr_cons in Hs as (Hb & Hnz & Hs).
    rewrite (proj2 (Z.eqb_neq _ _)) by (rewrite char_at_zero; congruence).
    rewrite Hb. simpl. apply IH; [done|]. simpl in Hf. lia.
Qed.

Lemma strncpy_pad_store md dest i n : strncpy_pad md dest i n = store md (dest + i) (zeros n).
Proof.
  revert md i. induction n as [|n IH]; intros md i; simpl; [done|].
  rewrite IH. f_equal. lia.
Qed.

Lemma strncpy_loop_spec md dest ms src i n s :
  is_cstr ms (src + i) s ->
  strncpy_loop md dest ms src i n = store md (dest + i) (take n s ++ zeros (n - length s)).
Proof.
  revert md i s. induction n as [|n IH]; intros md i s Hs; cbn [strncpy_loop]; [done|].
  destruct s as [|b s].
  - apply is_cstr_nil, char_at_zero in Hs. rewrite Hs. cbn [Z.eqb].
    by rewrite strncpy_pad_store.
  - apply is_cstr_cons in Hs as (Hb & Hnz & Hs).
    rewrite (proj2 (Z.eqb_neq _ _)) by (rewrite char_at_zero; congruence).
    rewrite (IH _ _ s) by by rewrite Z.add_assoc. cbn [take length app store Nat.sub].
    rewrite Hb. f_equal. lia.
Qed.

(** ** Tokens *)

(** The first position of [s] that holds one of the delimiters. *)
Definition token_end (ds s : list byte) : option nat := fst <$> list_find (fun b => b ∈ ds) s.

Lemma strchr_member fuel m a ds p :
  is_cstr m a ds -> (length ds < fuel)%nat -> char_at m p <> 0 ->
  exists r, strchr fuel m a (char_at m p) = Ret r /\ (r = None <-> mget m p ∉ ds).
Proof.
  intros Hds Hf Hp. destruct (strchr_spec fuel m a ds (char_at m p) Hds Hf Hp) as (r & -> & Hr).
  eexists; split; [done|].
  assert (Hget : forall j b, ds !! j = Some b -> mget m (a + Z.of_nat j) = b).
  { intros j b Hj. by destruct (is_cstr_char _ _ _ _ _ Hds Hj). }
  destruct r as [q|].
  - split; [done|]. intros Hn. exfalso. apply Hn. destruct Hr as (i & -> & Hi & Hc & _).
    apply char_at_eq in Hc. rewrite <- Hc.
    destruct (lookup_lt_is_Some_2 ds i Hi) as [b Hb]. rewrite (Hget i b Hb).
    by apply list_elem_of_lookup_2 with i.
  - split; [|done]. intros _ Hin. apply list_elem_of_lookup in Hin as [j Hj].
    apply (Hr j); [by apply lookup_lt_Some in Hj|]. apply char_at_eq. by apply Hget.
Qed.

Lemma token_end_cons ds b s :
  token_end ds (b :: s) = if decide (b ∈ ds) then Some 0%nat else S <$> token_end ds s.
Proof.
  unfold token_end. simpl. case_decide; [done|]. by destruct (list_find _ s) as [[i x]|].
Qed.

Lemma strtok_loop_spec fuel m a s d ds :
  is_cstr m a s -> is_cstr m d ds -> (length s < fuel)%nat -> (length s + length ds < fuel)%nat ->
  strtok_loop fuel m a d =
    Ret match token_end ds s with
        | Some i => (<[a + Z.of_nat i := z2b 0]> m, a + Z.of_nat i + 1)
        | None => (m, a + Z.of_nat (length s))
        end.
Proof.
  revert fuel a. induction s as [|b s IH]; intros fuel a Hs Hds Hf Hfd;
    (destruct fuel as [|fuel]; [lia|]); cbn [strtok_loop].
  - apply is_cstr_nil, char_at_zero in Hs. rewrite Hs. cbn. by rewrite Z.add_0_r.
  - apply is_cstr_cons in Hs as (Hb & Hnz & Hs). cbn [length] in *.
    assert (Hc : char_at m a <> 0) by (rewrite char_at_zero; congruence).
    rewrite (proj2 (Z.eqb_neq _ _) Hc), token_end_cons.
    destruct (strchr_member (S fuel) m d ds a Hds ltac:(lia) Hc) as (r & -> & Hr).
    rewrite Hb in Hr. case_decide as Hin.
    + destruct r; [|tauto]. by rewrite Z.add_0_r.
    + destruct r; [by destruct Hr as [_ Hr]; discriminate (Hr Hin)|]. rewrite IH by (done || lia).
      destruct (token_end ds s) as [i|]; cbn [fmap option_fmap option_map]; do 2 f_equal; try lia.
      f_equal. lia.
Qed.

Lemma token_end_lt ds s i : token_end ds s = Some i -> (i < length s)%nat.
Proof.
  unfold token_end. intros H. apply fmap_Some in H as ([j x] & Hf & ->).
  apply list_find_Some in Hf as (Hx & _). by apply lookup_lt_Some in Hx.
Qed.

Lemma is_cstr_split m a s i :
  is_cstr m a s -> (i < length s)%nat ->
  let m' := <[a + Z.of_nat i := z2b 0]> m in
  is_cstr m' a (take i s) /\ is_cstr m' (a + Z.of_nat i + 1) (drop (S i) s).
Proof.
  intros (Hl & Hz & Hn) Hi m'. unfold m'. split; unfold is_cstr.
  - rewrite length_take, Nat.min_l by lia. repeat split.
    + rewrite <- Hl at 1. replace i with (0 + i)%nat at 1 by lia.
      rewrite <- (drop_0 (load m a (length s))), load_window, Z.add_0_r by lia.
      apply load_ext. intros j Hj. rewrite mget_insert. by rewrite decide_False by lia.
    + rewrite mget_insert. by rewrite decide_True.
    + intros Hin. apply Hn. by apply elem_of_take in Hin as (? & ?%list_elem_of_lookup_2 & _).
  - rewrite length_drop. repeat split.
    + rewrite <- Hl at 2. rewrite <- (firstn_all (drop _ _)), length_drop, length_load.
      rewrite load_window by lia. apply load_ext. intros j Hj. rewrite mget_insert.
      rewrite decide_False by lia. f_equal. lia.
    + rewrite mget_insert. rewrite decide_False by lia.
      rewrite <- Hz. f_equal. lia.
    + intros Hin. apply Hn. apply list_elem_of_lookup in Hin as [j Hj].
      rewrite lookup_drop in Hj. by apply list_elem_of_lookup_2 in Hj.
Qed.

(** ** The properties *)

(** [memmove] copies correctly however the two areas overlap: afterwards the
    destination holds the bytes the source held before the call, and every
    other byte is unchanged. *)
Theorem memmove_correct m dest src n :
  memmove m dest src n ≡ store m dest (load m src n).
Proof.
  intros k. unfold memmove. rewrite mget_store_load. destruct (Z.ltb_spec dest src).
  - rewrite memmove_up_get by done. by rewrite Z.add_0_r.
  - by apply memmove_down_get.
Qed.

(** [memcmp] compares the two areas as sequences of unsigned bytes: its
    result is the lexicographic order, it is zero exactly when the areas hold
    the same bytes, and exchanging the operands negates it. *)
Theorem memcmp_correct m1 s1 m2 s2 n :
  memcmp m1 s1 m2 s2 n = lex_compare (load m1 s1 n) (load m2 s2 n) /\
  (memcmp m1 s1 m2 s2 n = 0 <-> load m1 s1 n = load m2 s2 n) /\
  memcmp m2 s2 m1 s1 n = - memcmp m1 s1 m2 s2 n.
Proof.
  assert (H : forall m1 s1 m2 s2, memcmp m1 s1 m2 s2 n = lex_compare (load m1 s1 n) (load m2 s2 n)).
  { intros. unfold memcmp. by rewrite memcmp_loop_lex, !Z.add_0_r. }
  repeat split; [apply H|apply memcmp_zero..|].
  rewrite !H. apply lex_compare_swap. by rewrite !length_load.
Qed.

(** [strtok] on a string [s]: it returns the start of the string; when a
    delimiter occurs it overwrites the first one with NUL, so the token is the
    prefix before it and the saved pointer is at the rest of the string;
    otherwise the token is the whole string, and the saved pointer is left at
    its terminator, so that the next call returns a pointer to the empty string
    and never NULL. *)
Theorem strtok_correct fuel m next_token str a s d ds :
  (match str with Some _ => str | None => next_token end) = Some a ->
  is_cstr m a s -> is_cstr m d ds -> (length s + length ds < fuel)%nat ->
  exists m' rest,
    strtok fuel m next_token str d = Ret (Some a, m', Some rest) /\
    match token_end ds s with
    | Some i => rest = a + Z.of_nat i + 1 /\
        is_cstr m' a (take i s) /\ is_cstr m' rest (drop (S i) s)
    | None => m' = m /\ is_cstr m' rest [] /\
        strtok fuel m' (Some rest) None d = Ret (Some rest, m', Some rest)
    end.
Proof.
  intros Ha Hs Hds Hf. unfold strtok. rewrite Ha.
  rewrite (strtok_loop_spec _ _ _ s _ ds) by (done || lia).
  destruct (token_end ds s) as [i|] eqn:Hi; eexists _, _; (split; [done|]).
  - split; [done|]. apply is_cstr_split; [done|]. by eapply token_end_lt.
  - assert (Hnil : is_cstr m (a + Z.of_nat (length s)) []) by (by apply is_cstr_nil; apply Hs).
    repeat split; [apply Hnil..|].
    rewrite (strtok_loop_spec _ _ _ [] _ ds) by (simpl; done || lia).
    cbn. by rewrite Z.add_0_r.
Qed.

(** [strncpy] writes exactly [n] bytes: the first [n] characters of the
    source, padded with NUL when the source is shorter; a source of [n]
    characters or more leaves the destination without a terminator. *)
Theorem strncpy_correct md dest ms src n s :
  is_cstr ms src s ->
  let md' := strncpy md dest ms src n in
  load md' dest n = take n s ++ zeros (n - length s) /\
  (forall k, k < dest \/ dest + Z.of_nat n <= k -> mget md' k = mget md k) /\
  ((exists i, (i < n)%nat /\ mget md' (dest + Z.of_nat i) = z2b 0) <-> (length s < n)%nat).
Proof.
  intros Hs md'. unfold md', strncpy.
  rewrite (strncpy_loop_spec _ _ _ _ _ _ s) by by rewrite Z.add_0_r.
  rewrite Z.add_0_r. set (bs := take n s ++ zeros (n - length s)).
  assert (Hlen : length bs = n).
  { unfold bs, zeros. autorewrite with kernel_len. lia. }
  assert (Hl : load (store md dest bs) dest n = bs) by by apply load_store_eq.
  repeat split; [done| |..].
  - intros k Hk. apply mget_store_out. lia.
  - intros (i & Hi & Hz). destruct (decide (length s < n)%nat) as [|Hge]; [done|]. exfalso.
    pose proof (lookup_load (store md dest bs) dest n i Hi) as Hb. rewrite Hl, Hz in Hb.
    unfold bs in Hb. rewrite lookup_app_l in Hb by (rewrite length_take; lia).
    rewrite lookup_take_lt in Hb by done. apply Hs. by apply list_elem_of_lookup_2 with i.
  - intros Hlt. exists (length s). split; [done|]. apply mget_store_in; [lia|].
    replace (Z.to_nat _) with (length s) by lia. unfold bs, zeros.
    rewrite lookup_app_r by (rewrite length_take; lia).
    rewrite length_take, Nat.min_r, Nat.sub_diag by lia. apply lookup_replicate_2. lia.
Qed.

(** A memory with the string "cd a" at 0 and the delimiter " " at 16. *)
Definition strtok_example : mem := store (store ∅ 0 (cstring "cd a" ++ zeros 1)) 16 (cstring " " ++ zeros 1).

Lemma strtok_correct_witness :
  exists m' rest,
    strtok 10 strtok_example None (Some 0) 16 = Ret (Some 0, m', Some rest) /\
    rest = 3 /\ is_cstr m' 0 (cstring "cd") /\ is_cstr m' rest (cstring "a").
Proof.
  pose proof (strtok_correct 10 strtok_example None (Some 0) 0 (cstring "cd a") 16 (cstring " ")
    eq_refl) as H.
  destruct H as (m' & rest & H1 & H2 & H3 & H4).
  - by apply (bool_decide_unpack _).
  - by apply (bool_decide_unpack _).
  - vm_compute. lia.
  - exists m', rest. repeat split; [exact H1|exact H2|apply H3..|apply H4|apply H4|apply H4].
Defined.

Lemma strncpy_correct_witness :
  load (strncpy ∅ 100 strtok_example 0 8) 100 8 = cstring "cd a" ++ zeros 4.
Proof.
  apply (strncpy_correct ∅ 100 strtok_example 0 8 (cstring "cd a")).
  by apply (bool_decide_unpack _).
Defined.
