(* ===== verification/Disk.v ===== *)
(** The block device of src/src/header/filesystem/disk.h.  fat32.c is compiled
    against two implementations of [read_blocks] and [write_blocks]: the ATA
    driver of disk.c in the kernel and the image in memory of
    external-inserter.c in the host tool.  The interface is the class [Disk]
    with the laws [DiskSpec]; this file has the image of the inserter, and the
    ATA driver is in Ata.v. *)
From Stdlib Require Import ZArith Lia.
From stdpp Require Import base numbers option zmap list.
From S2P Require Import Prelude CString.

(** ** The interface *)

Definition BLOCK_SIZE : Z := 512.
Definition HALF_BLOCK_SIZE : Z := 256.

(** [read_blocks m ptr lba count] stores the blocks at [ptr] of [m];
    [write_blocks m ptr lba count] writes the bytes of [m] at [ptr]. *)
Class Disk (D : Type) := {
  read_blocks : mem -> Z -> Z -> Z -> M D mem;
  write_blocks : mem -> Z -> Z -> Z -> M D unit;
}.

(** The contents of [n] consecutive sectors. *)
Fixpoint sectors (sec : Z -> list byte) (lba : Z) (n : nat) : list byte :=
  match n with
  | O => []
  | S n' => sec lba ++ sectors sec (lba + 1) n'
  end.

(** What a disk promises: it holds [capacity] sectors of 512 bytes, at least
    the 2048 that the 512 clusters of the file system need; inside the capacity
    a transfer of 1 to 255 sectors succeeds: a read stores the sectors and changes none, and a write replaces exactly
    the sectors addressed. *)
Class DiskSpec (D : Type) `{Disk D} := {
  disk_ok : D -> Prop;
  capacity : Z;
  sector : D -> Z -> list byte;
  capacity_clusters : 2048 <= capacity;
  sector_length d b : disk_ok d -> 0 <= b < capacity -> length (sector d b) = Z.to_nat BLOCK_SIZE;
  read_blocks_ok d m ptr lba (n : nat) :
    disk_ok d -> 0 <= lba -> lba + Z.of_nat n <= capacity -> (0 < n < 256)%nat ->
    exists d', read_blocks m ptr lba (Z.of_nat n) d = Ret (store m ptr (sectors (sector d) lba n), d') /\
      disk_ok d' /\ forall b, 0 <= b < capacity -> sector d' b = sector d b;
  write_blocks_ok d m ptr lba (n : nat) :
    disk_ok d -> 0 <= lba -> lba + Z.of_nat n <= capacity -> (0 < n < 256)%nat ->
    exists d', write_blocks m ptr lba (Z.of_nat n) d = Ret (tt, d') /\
      disk_ok d' /\ forall b, 0 <= b < capacity ->
        sector d' b = if decide (lba <= b < lba + Z.of_nat n)
                      then load m (ptr + BLOCK_SIZE * (b - lba)) (Z.to_nat BLOCK_SIZE)
                      else sector d b;
}.

(** ** The image of the inserter *)

Module Inserter.

(** [image_storage], [malloc(4*1024*1024)]. *)
Record image := Image { image_storage : mem }.
Definition image_bytes : Z := 4 * 1024 * 1024.

(** [image_storage + BLOCK_SIZE*(logical_block_address+i)]: the sum and the
    product are computed in [uint32_t]. *)
Definition block_offset (lba i : Z) : Z := u32 (BLOCK_SIZE * u32 (lba + i)).

Fixpoint read_blocks_loop (m : mem) (ptr lba : Z) (img : mem) (i : Z) (n : nat) : res mem :=
  match n with
  | O => Ret m
  | S n' =>
      if block_offset lba i + BLOCK_SIZE <=? image_bytes
      then read_blocks_loop
             (memcpy m (ptr + BLOCK_SIZE * i) img (block_offset lba i) (Z.to_nat BLOCK_SIZE))
             ptr lba img (i + 1) n'
      else Undef
  end.

Definition read_blocks (m : mem) (ptr logical_block_address block_count : Z) : M image mem :=
  fun d =>
    m' ← read_blocks_loop m ptr logical_block_address (image_storage d) 0 (Z.to_nat (u8 block_count));
    Ret (m', d).

Fixpoint write_blocks_loop (m : mem) (ptr lba : Z) (img : mem) (i : Z) (n : nat) : res mem :=
  match n with
  | O => Ret img
  | S n' =>
      if block_offset lba i + BLOCK_SIZE <=? image_bytes
      then write_blocks_loop m ptr lba
             (memcpy img (block_offset lba i) m (ptr + BLOCK_SIZE * i) (Z.to_nat BLOCK_SIZE))
             (i + 1) n'
      else Undef
  end.

Definition write_blocks (m : mem) (ptr logical_block_address block_count : Z) : M image unit :=
  fun d =>
    img ← write_blocks_loop m ptr logical_block_address (image_storage d) 0 (Z.to_nat (u8 block_count));
    Ret (tt, Image img).

End Inserter.

#[export] Instance inserter_disk : Disk Inserter.image := {
  read_blocks := Inserter.read_blocks;
  write_blocks := Inserter.write_blocks;
}.

(** The sectors of the image. *)
Definition image_sector (d : Inserter.image) (b : Z) : list byte :=
  load (Inserter.image_storage d) (BLOCK_SIZE * b) (Z.to_nat BLOCK_SIZE).

(** ** The image satisfies the interface *)

Lemma length_sectors sec lba n k :
  (forall b, lba <= b < lba + Z.of_nat n -> length (sec b) = k) -> length (sectors sec lba n) = (n * k)%nat.
Proof.
  revert lba. induction n as [|n IH]; intros lba H; cbn [sectors]; [done|].
  rewrite length_app, H by lia. rewrite IH; [done|]. intros b Hb. apply H. lia.
Qed.

Lemma sectors_ext sec1 sec2 lba n :
  (forall b, lba <= b < lba + Z.of_nat n -> sec1 b = sec2 b) -> sectors sec1 lba n = sectors sec2 lba n.
Proof.
  revert lba. induction n as [|n IH]; intros lba H; cbn [sectors]; [done|].
  rewrite H by lia. f_equal. apply IH. intros b Hb. apply H. lia.
Qed.

Lemma sectors_load m a lba n :
  sectors (fun b => load m (a + BLOCK_SIZE * (b - lba)) (Z.to_nat BLOCK_SIZE)) lba n =
  load m a (n * Z.to_nat BLOCK_SIZE).
Proof.
  assert (H : forall lba' a', a' = a + BLOCK_SIZE * (lba' - lba) ->
    sectors (fun b => load m (a + BLOCK_SIZE * (b - lba)) (Z.to_nat BLOCK_SIZE)) lba' n =
    load m a' (n * Z.to_nat BLOCK_SIZE)).
  { induction n as [|n IH]; intros lba' a' Ha; [done|].
    cbn [sectors Nat.mul]. rewrite load_app, <- Ha. f_equal. apply IH. unfold BLOCK_SIZE in *. lia. }
  apply H. lia.
Qed.

Lemma block_offset_small lba i :
  0 <= lba + i < 8192 ->
  Inserter.block_offset lba i = BLOCK_SIZE * (lba + i) /\
  (Inserter.block_offset lba i + BLOCK_SIZE <=? Inserter.image_bytes) = true.
Proof.
  intros H. unfold Inserter.block_offset, Inserter.image_bytes, BLOCK_SIZE.
  rewrite (u32_small (lba + i)) by lia. rewrite u32_small by lia.
  split; [done|]. apply Z.leb_le. lia.
Qed.

Lemma image_read_loop m ptr lba d i n :
  0 <= lba + i -> lba + i + Z.of_nat n <= 8192 ->
  Inserter.read_blocks_loop m ptr lba (Inserter.image_storage d) i n =
    Ret (store m (ptr + BLOCK_SIZE * i) (sectors (image_sector d) (lba + i) n)).
Proof.
  revert m i. induction n as [|n IH]; intros m i H1 H2; cbn [Inserter.read_blocks_loop sectors].
  - done.
  - destruct (block_offset_small lba i) as [-> ->]; [lia|].
    rewrite IH, memcpy_store, store_app by lia. unfold image_sector at 3. rewrite length_load.
    do 2 f_equal; unfold BLOCK_SIZE; [lia|]. f_equal. lia.
Qed.

Lemma image_write_loop m ptr lba img i n :
  0 <= lba + i -> lba + i + Z.of_nat n <= 8192 ->
  exists img', Inserter.write_blocks_loop m ptr lba img i n = Ret img' /\
    forall b, 0 <= b < 8192 ->
      image_sector (Inserter.Image img') b =
        if decide (lba + i <= b < lba + i + Z.of_nat n)
        then load m (ptr + BLOCK_SIZE * (b - lba)) (Z.to_nat BLOCK_SIZE)
        else image_sector (Inserter.Image img) b.
Proof.
  revert img i. induction n as [|n IH]; intros img i H1 H2; cbn [Inserter.write_blocks_loop].
  - eexists; split; [done|]. intros b Hb. by rewrite decide_False by lia.
  - destruct (block_offset_small lba i) as [-> ->]; [lia|]. rewrite memcpy_store.
    edestruct IH as (img' & -> & Himg'); [lia..|]. eexists; split; [done|].
    intros b Hb. rewrite Himg' by done. unfold image_sector. cbn [Inserter.image_storage].
    destruct (decide (b = lba + i)) as [->|Hne].
    + rewrite decide_False by lia. rewrite decide_True by lia.
      rewrite load_store_eq by by rewrite length_load. do 2 f_equal. lia.
    + rewrite load_store_ne by (rewrite length_load; unfold BLOCK_SIZE; lia).
      destruct (decide (lba + (i + 1) <= b < _)); [by rewrite decide_True by lia|].
      by rewrite decide_False by lia.
Qed.

#[export, program] Instance inserter_spec : DiskSpec Inserter.image := {
  disk_ok _ := True;
  capacity := 8192;
  sector := image_sector;
}.
Next Obligation. lia. Qed.
Next Obligation. intros d b _ _. apply length_load. Qed.
Next Obligation.
  intros d m ptr lba n _ H1 H2 H3. exists d. split; [|done].
  cbn. unfold Inserter.read_blocks, u8. rewrite Z.mod_small, Nat2Z.id by lia.
  rewrite image_read_loop by lia. cbn. by rewrite !Z.add_0_r.
Qed.
Next Obligation.
  intros d m ptr lba n _ H1 H2 H3. cbn. unfold Inserter.write_blocks, u8.
  rewrite Z.mod_small, Nat2Z.id by lia.
  destruct (image_write_loop m ptr lba (Inserter.image_storage d) 0 n) as (img' & -> & Himg); [lia..|].
  exists (Inserter.Image img'). split; [done|]. split; [done|]. intros b Hb.
  rewrite Himg, Z.add_0_r by done. by destruct d.
Qed.
