(* ===== verification/FatTypes.v ===== *)
(** The data of the file system: constants, on-disk structures and driver state
    of src/src/header/filesystem/fat32.h, and the accesses the driver makes to
    them.  The static struct [memory] of fat32.c is one packed object of 6144
    bytes; an array index that leaves its array but stays inside the object
    reads the neighbouring field, and one that leaves the object is undefined. *)
From Stdlib Require Import ZArith Lia.
From stdpp Require Import base numbers option strings zmap list.
From S2P Require Import Prelude CString Disk.

(** ** Constants *)

Definition BOOT_SECTOR : Z := 0.
Definition CLUSTER_BLOCK_COUNT : Z := 4.
Definition CLUSTER_SIZE : Z := BLOCK_SIZE * CLUSTER_BLOCK_COUNT.
Definition CLUSTER_MAP_SIZE : Z := 512.
Definition CLUSTER_0_VALUE : Z := 0x0FFFFFF0.
Definition CLUSTER_1_VALUE : Z := 0x0FFFFFFF.
Definition FAT32_FAT_END_OF_FILE : Z := 0x0FFFFFFF.
Definition FAT32_FAT_EMPTY_ENTRY : Z := 0.
Definition FAT_CLUSTER_NUMBER : Z := 1.
Definition ROOT_CLUSTER_NUMBER : Z := 2.
Definition ATTR_SUBDIRECTORY : Z := 16.
Definition UATTR_NOT_EMPTY : Z := 170.

(** [CLUSTER_SIZE / sizeof(struct FAT32DirectoryEntry)]. *)
Definition sizeof_DirectoryEntry : Z := 32.
Definition TABLE_ENTRIES : Z := CLUSTER_SIZE / sizeof_DirectoryEntry.

(** [fs_signature], the contents of the boot sector. *)
Definition fs_signature : list byte :=
  cstring "Course          " ++ cstring "Designed by     " ++ cstring "Lab Sister ITB  " ++
  cstring "Made with <3    " ++ cstring "-----------2024" ++ [z2b 10] ++
  zeros 430 ++ cstring "Ok".

(** ** Directory entries *)

(** [struct FAT32DirectoryEntry]. *)
Record dirent := Dirent {
  name : list byte;
  ext : list byte;
  attribute : Z;
  user_attribute : Z;
  undelete : Z;
  create_time : Z;
  create_date : Z;
  access_date : Z;
  cluster_high : Z;
  modified_time : Z;
  modified_date : Z;
  cluster_low : Z;
  filesize : Z;
}.

(** The fields of an entry in their order. *)
Definition entry_fields (e : dirent) : list (list byte) :=
  [name e; ext e; le_bytes 1 (attribute e); le_bytes 1 (user_attribute e);
   le_bytes 1 (undelete e); le_bytes 2 (create_time e); le_bytes 2 (create_date e);
   le_bytes 2 (access_date e); le_bytes 2 (cluster_high e); le_bytes 2 (modified_time e);
   le_bytes 2 (modified_date e); le_bytes 2 (cluster_low e); le_bytes 4 (filesize e)].

(** The packed layout of an entry, 32 bytes. *)
Definition entry_bytes (e : dirent) : list byte := concat (entry_fields e).

(** The entry stored at address [a]. *)
Definition entry_at (m : mem) (a : Z) : dirent := {|
  name := load m a 8;
  ext := load m (a + 8) 3;
  attribute := load_le 1 m (a + 11);
  user_attribute := load_le 1 m (a + 12);
  undelete := load_le 1 m (a + 13);
  create_time := load_le 2 m (a + 14);
  create_date := load_le 2 m (a + 16);
  access_date := load_le 2 m (a + 18);
  cluster_high := load_le 2 m (a + 20);
  modified_time := load_le 2 m (a + 22);
  modified_date := load_le 2 m (a + 24);
  cluster_low := load_le 2 m (a + 26);
  filesize := load_le 4 m (a + 28);
|}.

(** The cluster an entry points to, [cluster_high << 16 | cluster_low]. *)
Definition entry_cluster (e : dirent) : Z :=
  u32 (Z.lor (Z.shiftl (cluster_high e) 16) (cluster_low e)).

(** Every field is in the range of its type. *)
Definition dirent_ok (e : dirent) : Prop :=
  length (name e) = 8%nat /\ length (ext e) = 3%nat /\
  (0 <= attribute e < 256 /\ 0 <= user_attribute e < 256 /\ 0 <= undelete e < 256) /\
  (0 <= create_time e < 65536 /\ 0 <= create_date e < 65536 /\ 0 <= access_date e < 65536) /\
  (0 <= cluster_high e < 65536 /\ 0 <= modified_time e < 65536 /\
   0 <= modified_date e < 65536 /\ 0 <= cluster_low e < 65536) /\
  0 <= filesize e < 4294967296.

(** ** Driver state and requests *)

(** Offsets of the fields of [struct FAT32DriverState] and its size. *)
Definition fat_table : Z := 0.
Definition dir_table_buf : Z := 2048.
Definition cluster_buf : Z := 4096.
Definition sizeof_DriverState : Z := 6144.

(** The state the driver runs in: its static object [memory], the disk, and the
    memory that the [buf] pointers of the requests point to. *)
Record fs (D : Type) := Fs { memory : mem; disk : D; user : mem }.
Arguments Fs {D} memory disk user.
Arguments memory {D} f.
Arguments disk {D} f.
Arguments user {D} f.

Definition set_memory {D} (m : mem) (s : fs D) : fs D := Fs m (disk s) (user s).
Definition set_disk {D} (d : D) (s : fs D) : fs D := Fs (memory s) d (user s).
Definition set_user {D} (m : mem) (s : fs D) : fs D := Fs (memory s) (disk s) m.

(** [struct FAT32DriverRequest]. *)
Record request := Request {
  buf : Z;
  req_name : list byte;
  req_ext : list byte;
  parent_cluster_number : Z;
  buffer_size : Z;
}.

Definition request_ok (r : request) : Prop :=
  length (req_name r) = 8%nat /\ length (req_ext r) = 3%nat /\
  0 <= parent_cluster_number r < 4294967296 /\ 0 <= buffer_size r < 4294967296.

(** An object of its own holding the given bytes: a request field, a literal. *)
Definition obj (bs : list byte) : mem := store ∅ 0 bs.

(** ** Accesses to [memory] *)

(** The range [a, a+n) lies inside the object. *)
Definition in_memory (a n : Z) : bool := (0 <=? a) && (a + n <=? sizeof_DriverState).

(** [memory.fat_table.cluster_map[i]] as it stands in the object [m]. *)
Definition cluster_map (m : mem) (i : Z) : Z := load_le 4 m (fat_table + 4 * i).

(** The address of [table[i]] in a directory table at [base]. *)
Definition entry_addr (base i : Z) : Z := base + sizeof_DirectoryEntry * i.

Definition table_entry (m : mem) (base i : Z) : dirent := entry_at m (entry_addr base i).

(** [memcmp(table[i].name, name, 8) == 0]. *)
Definition same_name (m : mem) (base i : Z) (nm : list byte) : bool :=
  memcmp m (entry_addr base i) (obj nm) 0 8 =? 0.

(** [memcmp(table[i].ext, ext, 3) == 0]. *)
Definition same_ext (m : mem) (base i : Z) (ex : list byte) : bool :=
  memcmp m (entry_addr base i + 8) (obj ex) 0 3 =? 0.

(** [table[i].user_attribute]. *)
Definition table_user_attribute (m : mem) (base i : Z) : Z := user_attribute (table_entry m base i).

Section Access.
Context {D : Type}.

(** [memory.fat_table.cluster_map[i]], read and written. *)
Definition cluster_map_get (i : Z) : M (fs D) Z :=
  if in_memory (fat_table + 4 * i) 4 then gets (fun s => cluster_map (memory s) i) else undefined.

Definition cluster_map_set (i v : Z) : M (fs D) unit :=
  if in_memory (fat_table + 4 * i) 4
  then modify (fun s => set_memory (store_le 4 (memory s) (fat_table + 4 * i) v) s)
  else undefined.

(** [memory.dir_table_buf.table[i].user_attribute], read. *)
Definition user_attribute_get (i : Z) : M (fs D) Z :=
  if in_memory (entry_addr dir_table_buf i) sizeof_DirectoryEntry
  then gets (fun s => table_user_attribute (memory s) dir_table_buf i)
  else undefined.

(** [memory.dir_table_buf.table[i] = e]. *)
Definition table_set (i : Z) (e : dirent) : M (fs D) unit :=
  if in_memory (entry_addr dir_table_buf i) sizeof_DirectoryEntry
  then modify (fun s => set_memory (store (memory s) (entry_addr dir_table_buf i) (entry_bytes e)) s)
  else undefined.

(** [memset] of a part of [memory]. *)
Definition memory_memset (a c : Z) (n : nat) : M (fs D) unit :=
  modify (fun s => set_memory (memset (memory s) a c n) s).

(** [memcpy] into [memory] from an object [src]. *)
Definition memory_memcpy (a : Z) (src : mem) (b : Z) (n : nat) : M (fs D) unit :=
  modify (fun s => set_memory (memcpy (memory s) a src b n) s).

(** A disk operation inside the driver. *)
Definition lift_disk {A} (c : M D A) : M (fs D) A := fun s =>
  '(a, d) ← c (disk s);
  Ret (a, set_disk d s).

End Access.

(** ** Layout lemmas *)

Lemma length_entry_bytes e : dirent_ok e -> length (entry_bytes e) = 32%nat.
Proof.
  intros (Hn & He & _). unfold entry_bytes, entry_fields. cbn [concat].
  autorewrite with kernel_len. rewrite Hn, He. done.
Qed.

(** A chunk of a concatenation, found at the sum of the lengths before it. *)
Lemma concat_chunk {A} (cs : list (list A)) k c o n :
  cs !! k = Some c -> o = length (concat (take k cs)) -> n = length c ->
  take n (drop o (concat cs)) = c.
Proof.
  intros Hk -> ->. rewrite <- (take_drop_middle _ _ _ Hk) at 2.
  rewrite concat_app. cbn [concat]. rewrite drop_app_length. apply take_app_length.
Qed.

Lemma load_entry_field m a e k c o n :
  dirent_ok e -> entry_fields e !! k = Some c ->
  o = Z.of_nat (length (concat (take k (entry_fields e)))) -> n = length c ->
  load (store m a (entry_bytes e)) (a + o) n = c.
Proof.
  intros He Hk -> ->.
  assert (Hlen : (length (concat (take k (entry_fields e))) + length c <= 32)%nat).
  { rewrite <- (length_entry_bytes e He). unfold entry_bytes.
    rewrite <- (take_drop_middle _ _ _ Hk) at 2. rewrite concat_app. cbn [concat].
    autorewrite with kernel_len. lia. }
  rewrite load_store_within by (rewrite ?length_entry_bytes by done; lia).
  apply concat_chunk with k; [done| |done]. lia.
Qed.

Lemma load_le_entry_field m a e k n x o :
  dirent_ok e -> entry_fields e !! k = Some (le_bytes n x) ->
  o = Z.of_nat (length (concat (take k (entry_fields e)))) -> 0 <= x < 256 ^ Z.of_nat n ->
  load_le n (store m a (entry_bytes e)) (a + o) = x.
Proof.
  intros He Hk Ho Hx. unfold load_le.
  rewrite (load_entry_field m a e k (le_bytes n x)) by (done || by rewrite length_le_bytes).
  rewrite le_val_le_bytes. by apply Z.mod_small.
Qed.

Lemma le_bytes_load_le n m a : le_bytes n (load_le n m a) = load m a n.
Proof. unfold load_le. rewrite <- (length_load m a n) at 1. apply le_bytes_le_val. Qed.

Lemma entry_bytes_at m a : entry_bytes (entry_at m a) = load m a 32.
Proof.
  unfold entry_bytes, entry_fields, entry_at. cbn [concat name ext attribute user_attribute
    undelete create_time create_date access_date cluster_high modified_time modified_date
    cluster_low filesize]. rewrite !le_bytes_load_le. cbn [load app].
  repeat (f_equal; try lia).
Qed.

Lemma entry_at_ok m a : dirent_ok (entry_at m a).
Proof.
  unfold dirent_ok, entry_at. cbn [name ext attribute user_attribute undelete create_time
    create_date access_date cluster_high modified_time modified_date cluster_low filesize].
  rewrite !length_load. repeat split; apply load_le_range.
Qed.

Lemma entry_at_store m a e : dirent_ok e -> entry_at (store m a (entry_bytes e)) a = e.
Proof.
  intros He.
  pose proof He as (Hn & Hx & (Ha & Hu & Hd) & (Hct & Hcd & Had) & (Hh & Hmt & Hmd & Hl) & Hf).
  assert (Hlen : forall k, length (concat (take k (entry_fields e))) =
    nth k [0; 8; 11; 12; 13; 14; 16; 18; 20; 22; 24; 26; 28]%nat (length (concat (take k (entry_fields e))))).
  { intros k. do 13 (destruct k as [|k];
      [unfold entry_fields; cbn [take concat nth]; autorewrite with kernel_len; rewrite ?Hn, ?Hx; done|]).
    by destruct k. }
  unfold entry_at. destruct e. f_equal.
  - rewrite <- (Z.add_0_r a) at 2.
    apply (load_entry_field _ _ _ 0); [done|done|by rewrite Hlen|done].
  - apply (load_entry_field _ _ _ 1); [done|done|by rewrite Hlen|done].
  - apply (load_le_entry_field _ _ _ 2); [done|done|by rewrite Hlen|done].
  - apply (load_le_entry_field _ _ _ 3); [done|done|by rewrite Hlen|done].
  - apply (load_le_entry_field _ _ _ 4); [done|done|by rewrite Hlen|done].
  - apply (load_le_entry_field _ _ _ 5); [done|done|by rewrite Hlen|done].
  - apply (load_le_entry_field _ _ _ 6); [done|done|by rewrite Hlen|done].
  - apply (load_le_entry_field _ _ _ 7); [done|done|by rewrite Hlen|done].
  - apply (load_le_entry_field _ _ _ 8); [done|done|by rewrite Hlen|done].
  - apply (load_le_entry_field _ _ _ 9); [done|done|by rewrite Hlen|done].
  - apply (load_le_entry_field _ _ _ 10); [done|done|by rewrite Hlen|done].
  - apply (load_le_entry_field _ _ _ 11); [done|done|by rewrite Hlen|done].
  - apply (load_le_entry_field _ _ _ 12); [done|done|by rewrite Hlen|done].
Qed.

(** the layout of a directory entry is faithful: storing any entry whose
    fields fit their types and reading the 32 bytes back gives the entry, and
    the entry read from any 32 bytes fits its types and encodes to those bytes. *)
Theorem entry_roundtrip m a :
  (forall e, dirent_ok e -> entry_at (store m a (entry_bytes e)) a = e) /\
  dirent_ok (entry_at m a) /\ entry_bytes (entry_at m a) = load m a 32.
Proof. eauto using entry_at_store, entry_at_ok, entry_bytes_at. Qed.
