(* ===== verification/Fat32.v ===== *)
(** The operations of src/src/fat32.c, over any [Disk].  Each C function is one
    definition, run on the driver state [fs D]; the return codes are the
    [int8_t] values of the source. *)
From Stdlib Require Import ZArith Lia.
From stdpp Require Import base numbers option strings zmap list.
From S2P Require Import Prelude CString Disk FatTypes.

(** [ceil(x)] for the rational [x = num/den], which the only call forms exactly
    in a [double] ([num < 2^32], [den = 2^11]); [(int) x] truncates. *)
Definition ceil (num den : Z) : Z :=
  let intPart := num / den in
  if num >? intPart * den then intPart + 1 else intPart.

Definition cluster_to_lba (cluster : Z) : Z := u32 (cluster * CLUSTER_BLOCK_COUNT).

(** Fuel of the two search loops: they visit at most 513 clusters and 128
    entries before they stop or leave the object. *)
Definition scan_fuel : nat := 600.

Section Fat32.
Context {D : Type} `{!Disk D}.

(** ** Clusters *)

(** [read_clusters(ptr, cluster_number, cluster_count)] into the object [m]. *)
Definition read_clusters (m : mem) (ptr cluster_number cluster_count : Z) : M D mem :=
  read_blocks m ptr (cluster_to_lba cluster_number) (u8 (u8 cluster_count * CLUSTER_BLOCK_COUNT)).

Definition write_clusters (m : mem) (ptr cluster_number cluster_count : Z) : M D unit :=
  write_blocks m ptr (cluster_to_lba cluster_number) (u8 (u8 cluster_count * CLUSTER_BLOCK_COUNT)).

(** The same with the destination or source in [memory], in the memory of the
    request's buffer, and in a local object. *)
Definition read_clusters_memory (ptr cluster_number cluster_count : Z) : M (fs D) unit :=
  m ← gets memory;
  m' ← lift_disk (read_clusters m ptr cluster_number cluster_count);
  modify (set_memory m').

Definition read_clusters_user (ptr cluster_number cluster_count : Z) : M (fs D) unit :=
  m ← gets user;
  m' ← lift_disk (read_clusters m ptr cluster_number cluster_count);
  modify (set_user m').

Definition read_clusters_local (cluster_number cluster_count : Z) : M (fs D) mem :=
  lift_disk (read_clusters ∅ 0 cluster_number cluster_count).

Definition write_clusters_memory (ptr cluster_number cluster_count : Z) : M (fs D) unit :=
  m ← gets memory;
  lift_disk (write_clusters m ptr cluster_number cluster_count).

(** ** Initialisation *)

Definition is_empty_storage : M (fs D) bool :=
  fs_signature_check ← lift_disk (read_blocks ∅ 0 BOOT_SECTOR 1);
  mret (negb (memcmp fs_signature_check 0 (obj fs_signature) 0 (Z.to_nat BLOCK_SIZE) =? 0)).

(** The first free cluster from 1, [-1] as [uint32_t] when there is none. *)
Definition first_free (m : mem) : Z :=
  match find_up (fun i => cluster_map m i =? FAT32_FAT_EMPTY_ENTRY) 1 511 with
  | Some i => i
  | None => u32 (-1)
  end.

(** The entry of a new directory in cluster [index]. *)
Definition self_entry (index : Z) (nm : list byte) : dirent := {|
  name := nm; ext := zeros 3;
  attribute := ATTR_SUBDIRECTORY; user_attribute := UATTR_NOT_EMPTY;
  undelete := 0; create_time := 0; create_date := 0; access_date := 0;
  cluster_high := Z.land (Z.shiftr index 16) 65535;
  modified_time := 0; modified_date := 0;
  cluster_low := Z.land index 65535;
  filesize := 0;
|}.

(** [memcpy(parententry.name, "..\0\0\0\0\0\0", 8)]. *)
Definition with_name (nm : list byte) (e : dirent) : dirent := {|
  name := nm; ext := ext e; attribute := attribute e; user_attribute := user_attribute e;
  undelete := undelete e; create_time := create_time e; create_date := create_date e;
  access_date := access_date e; cluster_high := cluster_high e;
  modified_time := modified_time e; modified_date := modified_date e;
  cluster_low := cluster_low e; filesize := filesize e;
|}.

Definition dot_dot : list byte := cstring ".." ++ zeros 6.

(** The first entry of a directory table that is not in use. *)
Definition free_slot (m : mem) (base : Z) : option Z :=
  find_up (fun i => negb (table_user_attribute m base i =? UATTR_NOT_EMPTY)) 0 (Z.to_nat TABLE_ENTRIES).

(** The branch of [init_directory_table] for a directory that is not the root:
    put [self] in the parent's table; the parent's own entry is the result.
    [tempindex = -1] indexes the local table out of bounds. *)
Definition init_in_parent (self : dirent) (parent_dir_cluster : Z) : M (fs D) dirent :=
  parentdirtable ← read_clusters_local parent_dir_cluster 1;
  match free_slot parentdirtable 0 with
  | None => undefined
  | Some tempindex =>
      let parentdirtable := store parentdirtable (entry_addr 0 tempindex) (entry_bytes self) in
      memory_memset cluster_buf 0 (Z.to_nat CLUSTER_SIZE) ;;
      memory_memcpy cluster_buf parentdirtable 0 (Z.to_nat CLUSTER_SIZE) ;;
      write_clusters_memory cluster_buf parent_dir_cluster 1 ;;
      mret (table_entry parentdirtable 0 0)
  end.

(** [init_directory_table(&memory.dir_table_buf, name, parent_dir_cluster)]:
    both callers pass the driver's own table. *)
Definition init_directory_table (nm : list byte) (parent_dir_cluster : Z) : M (fs D) unit :=
  index ← gets (fun s => first_free (memory s));
  cluster_map_set index FAT32_FAT_END_OF_FILE ;;
  m ← gets memory;
  memory_memcpy cluster_buf m fat_table (Z.to_nat CLUSTER_SIZE) ;;
  write_clusters_memory cluster_buf FAT_CLUSTER_NUMBER 1 ;;
  let self := self_entry index nm in
  parententry ← (if negb (index =? ROOT_CLUSTER_NUMBER)
                 then init_in_parent self parent_dir_cluster
                 else mret self);
  table_set 0 self ;;
  table_set 1 (with_name dot_dot parententry) ;;
  memory_memset cluster_buf 0 (Z.to_nat CLUSTER_SIZE) ;;
  m ← gets memory;
  memory_memcpy cluster_buf m dir_table_buf (Z.to_nat (sizeof_DirectoryEntry * 2)) ;;
  write_clusters_memory cluster_buf index 1.

(** [create_fat32]: [memcpy(self.name, "root", 8)] reads 3 bytes past the
    literal "root"; [tail] is what is stored there. *)
Definition create_fat32 (tail : list byte) : M (fs D) unit :=
  lift_disk (write_blocks (obj fs_signature) 0 BOOT_SECTOR 1) ;;
  cluster_map_set 0 CLUSTER_0_VALUE ;;
  cluster_map_set 1 CLUSTER_1_VALUE ;;
  buff ← gets (fun s => memcpy ∅ 0 (memory s) fat_table (Z.to_nat CLUSTER_SIZE));
  lift_disk (write_clusters buff 0 1 1) ;;
  init_directory_table (cstring "root" ++ zeros 1 ++ tail) ROOT_CLUSTER_NUMBER.

Definition initialize_filesystem_fat32 (tail : list byte) : M (fs D) unit :=
  empty ← is_empty_storage;
  if empty : bool then create_fat32 tail
  else
    buffer ← read_clusters_local 1 1;
    memory_memcpy fat_table buffer 0 (Z.to_nat CLUSTER_SIZE) ;;
    buffer ← read_clusters_local 2 1;
    memory_memcpy dir_table_buf buffer 0 (Z.to_nat CLUSTER_SIZE).

(** ** Reading *)

(** The index of the first of the 64 entries with the given name and extension. *)
Definition find_entry (m : mem) (nm ex : list byte) : option Z :=
  find_up (fun i => same_name m dir_table_buf i nm && same_ext m dir_table_buf i ex) 0 64.

Definition read_directory (r : request) : M (fs D) Z :=
  memory_memset dir_table_buf 0 (Z.to_nat (64 * sizeof_DirectoryEntry)) ;;
  read_clusters_memory dir_table_buf (parent_cluster_number r) 1 ;;
  m ← gets memory;
  let idx :=
    if memcmp (obj (req_name r)) 0 (obj (cstring "." ++ zeros 7)) 0 8 =? 0 then Some 0
    else find_up (fun i => same_name m dir_table_buf i (req_name r)) 1 63 in
  match idx with
  | None => mret 2
  | Some idx =>
      read_clusters_user (buf r) (entry_cluster (table_entry m dir_table_buf idx)) 1 ;;
      mret 0
  end.

(** The loop of [read]: [n] clusters from the [j]th, following the chain. *)
Fixpoint read_loop (ptr : Z) (cluster_number j : Z) (n : nat) : M (fs D) unit :=
  match n with
  | O => mret tt
  | S n' =>
      read_clusters_user (ptr + u32 (j * CLUSTER_SIZE)) cluster_number 1 ;;
      next ← cluster_map_get cluster_number;
      read_loop ptr next (j + 1) n'
  end.

Definition read (r : request) : M (fs D) Z :=
  memory_memset dir_table_buf 0 (Z.to_nat (64 * sizeof_DirectoryEntry)) ;;
  read_clusters_memory dir_table_buf (parent_cluster_number r) 1 ;;
  m ← gets memory;
  match find_entry m (req_name r) (req_ext r) with
  | None => mret 2
  | Some idx =>
      let e := table_entry m dir_table_buf idx in
      if (attribute e =? 1) || (buffer_size r =? 0) then mret 1
      else
        let cluster_count := u32 (filesize e / CLUSTER_SIZE + 1) in
        (if u32 (cluster_count * CLUSTER_SIZE) <? filesize e then mret tt
         else read_loop (buf r) (entry_cluster e) 0 (Z.to_nat cluster_count)) ;;
        mret 0
  end.

(** ** Writing *)

(** [while (cluster_map[i] != EMPTY && i < CLUSTER_MAP_SIZE) i++]: the bound is
    tested after the access, which reaches [cluster_map[512]]. *)
Fixpoint scan_free (fuel : nat) (i : Z) : M (fs D) Z :=
  match fuel with
  | O => out_of_fuel
  | S fuel' =>
      v ← cluster_map_get i;
      if negb (v =? FAT32_FAT_EMPTY_ENTRY) && (i <? CLUSTER_MAP_SIZE)
      then scan_free fuel' (i + 1) else mret i
  end.

(** [while (table[j].user_attribute == UATTR_NOT_EMPTY && j < limit) j++]; the
    search for the entry of a new file has no [limit]. *)
Fixpoint scan_slot (fuel : nat) (limit : option Z) (j : Z) : M (fs D) Z :=
  match fuel with
  | O => out_of_fuel
  | S fuel' =>
      v ← user_attribute_get j;
      if (v =? UATTR_NOT_EMPTY) && (match limit with Some l => j <? l | None => true end)
      then scan_slot fuel' limit (j + 1) else mret j
  end.

(** [struct FAT32DirectoryEntry new_entry] of a file. *)
Definition file_entry (r : request) (tempindex : Z) : dirent := {|
  name := req_name r; ext := req_ext r;
  attribute := 0; user_attribute := UATTR_NOT_EMPTY;
  undelete := 0; create_time := 0; create_date := 0; access_date := 0;
  cluster_high := Z.land (Z.shiftr tempindex 16) 65535;
  modified_time := 0; modified_date := 0;
  cluster_low := Z.land tempindex 65535;
  filesize := buffer_size r;
|}.

(** The first loop of [write]: [n] clusters are still to be taken.  [None] is
    the early [return -1], otherwise the value of [firstindex]. *)
Fixpoint alloc_loop (r : request) (directory_idx required_clusters : Z) (n : nat)
    (i tempindex previndex firstindex : Z) : M (fs D) (option Z) :=
  match n with
  | O => mret (Some firstindex)
  | S n' =>
      tempindex ← scan_free scan_fuel tempindex;
      if tempindex =? CLUSTER_MAP_SIZE then mret None
      else
        (if i =? 0 then table_set directory_idx (file_entry r tempindex) else mret tt) ;;
        (if negb (previndex =? -1) then cluster_map_set previndex tempindex else mret tt) ;;
        (if i =? required_clusters - 1 then cluster_map_set tempindex FAT32_FAT_END_OF_FILE
         else mret tt) ;;
        alloc_loop r directory_idx required_clusters n' (i + 1) (tempindex + 1) tempindex
          (if i =? 0 then tempindex else firstindex)
  end.

(** The second loop of [write]: the data, cluster by cluster along the chain.
    A negative [writesize] is a huge [size_t] in [memcpy]. *)
Fixpoint data_loop (r : request) (n : nat) (i tempindex totalsize : Z) : M (fs D) unit :=
  match n with
  | O => mret tt
  | S n' =>
      let full := totalsize >=? CLUSTER_SIZE in
      let writesize := if full then CLUSTER_SIZE else totalsize in
      let totalsize := if full then totalsize - CLUSTER_SIZE else totalsize in
      memory_memset cluster_buf 0 (Z.to_nat CLUSTER_SIZE) ;;
      (if writesize <? 0 then undefined
       else
         u ← gets user;
         memory_memcpy cluster_buf u (buf r + i * CLUSTER_SIZE) (Z.to_nat writesize)) ;;
      write_clusters_memory cluster_buf tempindex 1 ;;
      tempindex ← cluster_map_get tempindex;
      data_loop r n' (i + 1) tempindex totalsize
  end.

(** The branch of [write] for a directory, [buffer_size == 0]. *)
Definition write_directory (r : request) : M (fs D) Z :=
  j ← scan_slot scan_fuel (Some 64) 0;
  if j =? 64 then mret (-1)
  else
    memory_memset dir_table_buf 0 (Z.to_nat (64 * sizeof_DirectoryEntry)) ;;
    init_directory_table (req_name r) (parent_cluster_number r) ;;
    mret 0.

(** The branch of [write] for a file; [index] is the first free cluster. *)
Definition write_file (r : request) (index : Z) : M (fs D) Z :=
  directory_idx ← scan_slot scan_fuel None 0;
  let required_clusters := ceil (buffer_size r) CLUSTER_SIZE in
  first ← alloc_loop r directory_idx required_clusters (Z.to_nat required_clusters) 0 index (-1) 0;
  match first with
  | None => mret (-1)
  | Some firstindex =>
      data_loop r (Z.to_nat required_clusters) 0 firstindex (i32 (buffer_size r)) ;;
      write_clusters_memory fat_table FAT_CLUSTER_NUMBER 1 ;;
      write_clusters_memory dir_table_buf (parent_cluster_number r) 1 ;;
      mret 0
  end.

Definition write (r : request) : M (fs D) Z :=
  read_clusters_memory dir_table_buf (parent_cluster_number r) 1 ;;
  read_clusters_memory fat_table 1 1 ;;
  index ← scan_free scan_fuel (ROOT_CLUSTER_NUMBER + 1);
  if index =? CLUSTER_MAP_SIZE then mret (-1)
  else
    m ← gets memory;
    if table_user_attribute m dir_table_buf 0 =? UATTR_NOT_EMPTY then
      match find_entry m (req_name r) (req_ext r) with
      | Some _ => mret 1
      | None => if buffer_size r =? 0 then write_directory r else write_file r index
      end
    else mret (-1).

(** ** Deleting *)

(** The loop of [delete] over the chain of a file: every cluster is overwritten
    with zeros; the cluster map is not changed. *)
Fixpoint delete_loop (fuel : nat) (currentcluster : Z) : M (fs D) unit :=
  match fuel with
  | O => out_of_fuel
  | S fuel' =>
      nextcluster ← cluster_map_get currentcluster;
      write_clusters_memory cluster_buf currentcluster 1 ;;
      if i32 nextcluster =? FAT32_FAT_END_OF_FILE then mret tt
      else delete_loop fuel' (i32 nextcluster)
  end.

(** The end of [delete]: clear the entry and write the table back. *)
Definition delete_entry (r : request) (index : Z) : M (fs D) Z :=
  memory_memset (entry_addr dir_table_buf index) 0 (Z.to_nat sizeof_DirectoryEntry) ;;
  write_clusters_memory dir_table_buf (parent_cluster_number r) 1 ;;
  mret 0.

Definition delete (fuel : nat) (r : request) : M (fs D) Z :=
  read_clusters_memory dir_table_buf (parent_cluster_number r) 1 ;;
  read_clusters_memory fat_table 1 1 ;;
  m ← gets memory;
  match find_entry m (req_name r) (req_ext r) with
  | None => mret 1
  | Some index =>
      let e := table_entry m dir_table_buf index in
      let cluster := entry_cluster e in
      if cluster =? ROOT_CLUSTER_NUMBER then mret (-1)
      else if i32 (filesize e) =? 0 then
        temp ← read_clusters_local cluster 1;
        match find_up (fun i => table_user_attribute temp 0 i =? UATTR_NOT_EMPTY) 2 62 with
        | Some _ => mret 2
        | None =>
            memory_memset cluster_buf 0 (Z.to_nat CLUSTER_SIZE) ;;
            write_clusters_memory cluster_buf cluster 1 ;;
            cluster_map_set cluster FAT32_FAT_EMPTY_ENTRY ;;
            write_clusters_memory fat_table FAT_CLUSTER_NUMBER 1 ;;
            delete_entry r index
        end
      else
        memory_memset cluster_buf 0 (Z.to_nat CLUSTER_SIZE) ;;
        delete_loop fuel (i32 cluster) ;;
        delete_entry r index
  end.

End Fat32.
