(* ===== verification/FatView.v ===== *)
(** The file system as clusters: views of the disk and of the driver's memory
    that the theorems about fat32.c are stated with, and the rules by which the
    cluster operations act on them. *)
From Stdlib Require Import ZArith Lia.
From stdpp Require Import base numbers option strings zmap functions list.
From S2P Require Import Prelude CString Disk FatTypes Fat32.

(** ** Views *)

(** The contents of the clusters, one list of 2048 bytes for each number. *)
Abbreviation clusters := (Z -> list byte).

(** Cluster [c] of a disk. *)
Definition cluster {D} `{DiskSpec D} (d : D) : clusters := fun c => sectors (sector d) (4 * c) 4.

(** The disk [d] is in order and holds the clusters [V]. *)
Definition disk_is {D} `{DiskSpec D} (d : D) (V : clusters) : Prop :=
  disk_ok d /\ forall c, 0 <= c < CLUSTER_MAP_SIZE -> cluster d c = V c.

(** The file allocation table on the disk. *)
Definition fat (V : clusters) (c : Z) : Z := cluster_map (obj (V FAT_CLUSTER_NUMBER)) c.

(** Entry [i] of the directory table in cluster [p]. *)
Definition dir (V : clusters) (p i : Z) : dirent := table_entry (obj (V p)) 0 i.

(** The first of the 64 entries of a table with the given name and extension. *)
Definition dir_find (T : Z -> dirent) (nm ex : list byte) : option Z :=
  find_up (fun i => bool_decide (name (T i) = nm /\ ext (T i) = ex)) 0 64.

(** [l] is the chain of clusters from [c] in the table [f]. *)
Inductive chain (f : Z -> Z) : Z -> list Z -> Prop :=
| chain_last c :
    0 <= c < CLUSTER_MAP_SIZE -> f c = FAT32_FAT_END_OF_FILE -> chain f c [c]
| chain_next c l :
    0 <= c < CLUSTER_MAP_SIZE -> f c <> FAT32_FAT_END_OF_FILE -> chain f (f c) l ->
    chain f c (c :: l).

(** The two memories hold the same [n] bytes at [a1] and [a2]. *)
Definition window (m1 : mem) (a1 : Z) (m2 : mem) (a2 n : Z) : Prop :=
  forall i, 0 <= i < n -> mget m1 (a1 + i) = mget m2 (a2 + i).

(** Unfold the layout constants for [lia]. *)
Ltac fat_lia :=
  unfold in_memory, entry_addr, fat_table, dir_table_buf, cluster_buf, sizeof_DriverState,
    sizeof_DirectoryEntry, TABLE_ENTRIES, CLUSTER_SIZE, CLUSTER_BLOCK_COUNT, BLOCK_SIZE,
    CLUSTER_MAP_SIZE, FAT_CLUSTER_NUMBER, ROOT_CLUSTER_NUMBER, FAT32_FAT_EMPTY_ENTRY,
    FAT32_FAT_END_OF_FILE in *;
  lia.

(** ** Windows *)

Lemma window_sym m1 a1 m2 a2 n : window m1 a1 m2 a2 n -> window m2 a2 m1 a1 n.
Proof. intros H i Hi. symmetry. by apply H. Qed.

Lemma window_trans m1 a1 m2 a2 m3 a3 n :
  window m1 a1 m2 a2 n -> window m2 a2 m3 a3 n -> window m1 a1 m3 a3 n.
Proof. intros H1 H2 i Hi. rewrite H1 by done. by apply H2. Qed.

Lemma window_sub m1 a1 m2 a2 n o k :
  window m1 a1 m2 a2 n -> 0 <= o -> o + k <= n -> window m1 (a1 + o) m2 (a2 + o) k.
Proof.
  intros H Ho Hk i Hi. rewrite <- !Z.add_assoc. apply H. lia.
Qed.

Lemma window_load m1 a1 m2 a2 n k o :
  window m1 a1 m2 a2 n -> 0 <= o -> o + Z.of_nat k <= n -> load m1 (a1 + o) k = load m2 (a2 + o) k.
Proof. intros H Ho Hk. apply load_ext. by apply (window_sub _ _ _ _ n). Qed.

Lemma window_store_obj m a bs n :
  Z.of_nat (length bs) = n -> window (store m a bs) a (obj bs) 0 n.
Proof.
  intros <- i Hi. destruct (lookup_lt_is_Some_2 bs (Z.to_nat i) ltac:(lia)) as [b Hb].
  unfold obj. rewrite !(mget_store_in _ _ _ _ b); try done; try lia; rewrite <- Hb; f_equal; lia.
Qed.

Lemma window_obj_load m a n : window (obj (load m a n)) 0 m a (Z.of_nat n).
Proof.
  intros i Hi. unfold obj. apply mget_store_in; [lia|].
  rewrite lookup_load by lia. do 2 f_equal. lia.
Qed.

Lemma window_store_ne m a bs b n :
  b + n <= a \/ a + Z.of_nat (length bs) <= b -> window (store m a bs) b m b n.
Proof. intros H i Hi. apply mget_store_out. lia. Qed.

Lemma window_entry_at m1 a1 m2 a2 : window m1 a1 m2 a2 32 -> entry_at m1 a1 = entry_at m2 a2.
Proof.
  intros H. unfold entry_at, load_le.
  rewrite (load_ext m1 m2 a1 a2 8) by (intros i Hi; apply H; lia).
  f_equal; [|f_equal..]; eapply (window_load _ _ _ _ 32); (done || lia).
Qed.

(** The directory table in [memory] and the one on the disk. *)
Lemma window_table_entry m1 b1 m2 b2 i :
  window m1 b1 m2 b2 2048 -> 0 <= i < 64 -> table_entry m1 b1 i = table_entry m2 b2 i.
Proof.
  intros H Hi. apply window_entry_at. unfold entry_addr.
  apply (window_sub _ _ _ _ 2048); [done|fat_lia..].
Qed.

Lemma window_cluster_map m1 m2 i :
  window m1 0 m2 0 2048 -> 0 <= i < 512 -> cluster_map m1 i = cluster_map m2 i.
Proof.
  intros H Hi. unfold cluster_map, load_le. f_equal. rewrite <- (Z.add_0_l (_ + _)).
  apply (window_load _ _ _ _ 2048); [done|fat_lia..].
Qed.

Lemma in_memory_true a n : 0 <= a -> a + n <= sizeof_DriverState -> in_memory a n = true.
Proof. intros H1 H2. unfold in_memory. apply andb_true_iff. split; by apply Z.leb_le. Qed.

(** ** Chains *)

Section Chain.
Variable f : Z -> Z.

Lemma chain_head c l : chain f c l -> exists l', l = c :: l'.
Proof. inversion 1; eauto. Qed.

Lemma chain_range c l : chain f c l -> Forall (fun x => 0 <= x < CLUSTER_MAP_SIZE) l.
Proof. induction 1; constructor; auto. Qed.

Lemma chain_unique c l1 l2 : chain f c l1 -> chain f c l2 -> l1 = l2.
Proof.
  intros H1. revert l2. induction H1 as [c Hc Hf|c l1 Hc Hf H1 IH]; intros l2 H2;
    inversion H2; subst; try done. f_equal. by apply IH.
Qed.

Lemma chain_suffix c l x : chain f c l -> x ∈ l -> exists l', chain f x l' /\ (length l' <= length l)%nat.
Proof.
  induction 1 as [c Hc Hf|c l Hc Hf Hch IH]; intros Hx.
  - apply list_elem_of_singleton in Hx as ->. exists [c]. split; [by constructor|done].
  - apply elem_of_cons in Hx as [->|Hx].
    + exists (c :: l). split; [by constructor|done].
    + destruct (IH Hx) as (l' & Hl' & Hlen). exists l'. split; [done|]. simpl. lia.
Qed.

(** A chain that reaches the end marker visits no cluster twice. *)
Lemma chain_NoDup c l : chain f c l -> NoDup l.
Proof.
  induction 1 as [c Hc Hf|c l Hc Hf Hch IH]; [apply NoDup_singleton|].
  constructor; [|done]. intros Hin.
  destruct (chain_suffix _ _ _ Hch Hin) as (l' & Hl' & Hlen).
  pose proof (chain_unique _ _ _ Hl' (chain_next f c l Hc Hf Hch)) as ->. simpl in Hlen. lia.
Qed.

Lemma chain_length c l : chain f c l -> (length l <= 512)%nat.
Proof.
  intros Hch. pose proof (chain_NoDup _ _ Hch) as Hnd. pose proof (chain_range _ _ Hch) as Hr.
  replace 512%nat with (length (seqZ 0 512)) by by rewrite length_seqZ.
  apply submseteq_length, NoDup_submseteq; [done|].
  intros x Hx. apply elem_of_seqZ. rewrite Forall_forall in Hr. specialize (Hr x Hx). fat_lia.
Qed.

Lemma chain_ext g c l : (forall x, x ∈ l -> g x = f x) -> chain f c l -> chain g c l.
Proof.
  intros Hg Hch. induction Hch as [c Hc Hf|c l Hc Hf Hch IH].
  - constructor; [done|]. rewrite Hg; [done|]. by apply list_elem_of_singleton.
  - assert (Hgc : g c = f c) by (apply Hg, elem_of_cons; by left).
    apply chain_next; [done|by rewrite Hgc|]. rewrite Hgc. apply IH.
    intros x Hx. apply Hg, elem_of_cons. by right.
Qed.

End Chain.

(** The clusters [l], put together. *)
Lemma length_concat_clusters (V : clusters) l :
  (forall c, c ∈ l -> length (V c) = 2048%nat) -> length (concat (V <$> l)) = (2048 * length l)%nat.
Proof.
  induction l as [|c l IH]; intros Hc; [done|]. cbn [fmap list_fmap concat length]. rewrite length_app, IH.
  - rewrite Hc by (apply elem_of_cons; by left). lia.
  - intros x Hx. apply Hc, elem_of_cons. by right.
Qed.

(** ** Names *)

Lemma same_name_spec m base i nm :
  length nm = 8%nat -> same_name m base i nm = bool_decide (name (table_entry m base i) = nm).
Proof.
  intros Hn. unfold same_name. apply eq_bool_prop_intro. rewrite bool_decide_spec.
  rewrite Is_true_true, Z.eqb_eq, memcmp_zero. unfold obj.
  by rewrite (load_store_eq _ _ nm) by done.
Qed.

Lemma same_ext_spec m base i ex :
  length ex = 3%nat -> same_ext m base i ex = bool_decide (ext (table_entry m base i) = ex).
Proof.
  intros Hn. unfold same_ext. apply eq_bool_prop_intro. rewrite bool_decide_spec.
  rewrite Is_true_true, Z.eqb_eq, memcmp_zero. unfold obj.
  by rewrite (load_store_eq _ _ ex) by done.
Qed.

Lemma dir_find_ext T1 T2 nm ex :
  (forall i, 0 <= i < 64 -> T1 i = T2 i) -> dir_find T1 nm ex = dir_find T2 nm ex.
Proof. intros H. apply find_up_ext. intros j Hj. by rewrite H. Qed.

Lemma find_entry_spec m nm ex :
  length nm = 8%nat -> length ex = 3%nat ->
  find_entry m nm ex = dir_find (table_entry m dir_table_buf) nm ex.
Proof.
  intros Hn He. apply find_up_ext. intros j Hj.
  rewrite same_name_spec, same_ext_spec by done. by rewrite bool_decide_and.
Qed.

Lemma dir_find_Some T nm ex i :
  dir_find T nm ex = Some i -> 0 <= i < 64 /\ name (T i) = nm /\ ext (T i) = ex.
Proof.
  unfold dir_find. rewrite find_up_Some. intros (Hi & Hp & _).
  apply bool_decide_eq_true in Hp. split; [lia|done].
Qed.

Lemma dir_find_None T nm ex i :
  dir_find T nm ex = None -> 0 <= i < 64 -> name (T i) = nm -> ext (T i) <> ex.
Proof.
  unfold dir_find. rewrite find_up_None. intros H Hi Hn He.
  specialize (H i ltac:(lia)). apply bool_decide_eq_false in H. tauto.
Qed.

(** ** Cluster operations on the views *)

Section Disk.
Context {D : Type} `{DiskSpec D}.
Implicit Types (d : D) (V : clusters) (s : fs D).

Lemma length_cluster d c : disk_ok d -> 0 <= c < CLUSTER_MAP_SIZE -> length (cluster d c) = 2048%nat.
Proof.
  intros Hd Hc. unfold cluster.
  rewrite (length_sectors _ _ _ (Z.to_nat BLOCK_SIZE)); [done|].
  intros b Hb. apply sector_length; [done|]. pose proof capacity_clusters. fat_lia.
Qed.

Lemma disk_is_cluster d : disk_ok d -> disk_is d (cluster d).
Proof. done. Qed.

Lemma disk_is_length d V c :
  disk_is d V -> 0 <= c < CLUSTER_MAP_SIZE -> length (V c) = 2048%nat.
Proof. intros [Hd HV] Hc. rewrite <- HV by done. by apply length_cluster. Qed.

Lemma length_chain_data d V f c l :
  disk_is d V -> chain f c l -> length (concat (V <$> l)) = (2048 * length l)%nat.
Proof.
  intros Hd Hch. apply length_concat_clusters. intros x Hx. apply (disk_is_length d); [done|].
  pose proof (chain_range _ _ _ Hch) as Hr. rewrite Forall_forall in Hr. by apply Hr.
Qed.

Lemma cluster_to_lba_small c : 0 <= c < CLUSTER_MAP_SIZE -> cluster_to_lba c = 4 * c.
Proof. intros Hc. unfold cluster_to_lba. rewrite u32_small; fat_lia. Qed.

Lemma read_clusters_spec m ptr c d V :
  disk_is d V -> 0 <= c < CLUSTER_MAP_SIZE ->
  exists d', read_clusters m ptr c 1 d = Ret (store m ptr (V c), d') /\ disk_is d' V.
Proof.
  intros [Hd HV] Hc. unfold read_clusters. rewrite cluster_to_lba_small by done.
  pose proof capacity_clusters as Hcap.
  destruct (read_blocks_ok d m ptr (4 * c) 4) as (d' & Hr & Hd' & Hs); [done|fat_lia..|].
  exists d'. split; [rewrite <- HV by done; apply Hr|]. split; [done|].
  intros c' Hc'. rewrite <- HV by done. apply sectors_ext. intros b Hb. apply Hs. fat_lia.
Qed.

Lemma write_clusters_spec m ptr c d V :
  disk_is d V -> 0 <= c < CLUSTER_MAP_SIZE ->
  exists d', write_clusters m ptr c 1 d = Ret (tt, d') /\ disk_is d' (<[c := load m ptr 2048]> V).
Proof.
  intros [Hd HV] Hc. unfold write_clusters. rewrite cluster_to_lba_small by done.
  pose proof capacity_clusters as Hcap.
  destruct (write_blocks_ok d m ptr (4 * c) 4) as (d' & Hr & Hd' & Hs); [done|fat_lia..|].
  exists d'. split; [apply Hr|]. split; [done|]. intros c' Hc'. unfold cluster.
  destruct (decide (c' = c)) as [->|Hne].
  - rewrite fn_lookup_insert.
    replace 2048%nat with (4 * Z.to_nat BLOCK_SIZE)%nat by done.
    rewrite <- (sectors_load m ptr (4 * c) 4).
    apply sectors_ext. intros b Hb. rewrite Hs by fat_lia. by rewrite decide_True by lia.
  - rewrite fn_lookup_insert_ne by done. rewrite <- HV by done.
    apply sectors_ext. intros b Hb. rewrite Hs by fat_lia. by rewrite decide_False by lia.
Qed.

(** Rules for the operations inside the driver. *)
Lemma wp_lift_disk {A} (c : M D A) (Q : A -> fs D -> Prop) s a d' :
  c (disk s) = Ret (a, d') -> Q a (set_disk d' s) -> wp (lift_disk c) Q s.
Proof. intros Hc HQ. unfold wp, lift_disk. by rewrite Hc. Qed.

Lemma wp_read_memory ptr c V s (Q : unit -> fs D -> Prop) :
  disk_is (disk s) V -> 0 <= c < CLUSTER_MAP_SIZE ->
  (forall d', disk_is d' V -> Q tt (Fs (store (memory s) ptr (V c)) d' (user s))) ->
  wp (read_clusters_memory ptr c 1) Q s.
Proof.
  intros HV Hc HQ. destruct (read_clusters_spec (memory s) ptr c _ _ HV Hc) as (d' & Hr & Hd').
  apply wp_bind, wp_gets, wp_bind. eapply wp_lift_disk; [exact Hr|]. by apply wp_modify, HQ.
Qed.

Lemma wp_read_request ptr c V s (Q : unit -> fs D -> Prop) :
  disk_is (disk s) V -> 0 <= c < CLUSTER_MAP_SIZE ->
  (forall d', disk_is d' V -> Q tt (Fs (memory s) d' (store (user s) ptr (V c)))) ->
  wp (read_clusters_user ptr c 1) Q s.
Proof.
  intros HV Hc HQ. destruct (read_clusters_spec (user s) ptr c _ _ HV Hc) as (d' & Hr & Hd').
  apply wp_bind, wp_gets, wp_bind. eapply wp_lift_disk; [exact Hr|]. by apply wp_modify, HQ.
Qed.

Lemma wp_read_local c V s (Q : mem -> fs D -> Prop) :
  disk_is (disk s) V -> 0 <= c < CLUSTER_MAP_SIZE ->
  (forall d', disk_is d' V -> Q (obj (V c)) (set_disk d' s)) ->
  wp (read_clusters_local c 1) Q s.
Proof.
  intros HV Hc HQ. destruct (read_clusters_spec ∅ 0 c _ _ HV Hc) as (d' & Hr & Hd').
  eapply wp_lift_disk; [exact Hr|]. by apply HQ.
Qed.

Lemma wp_write_memory ptr c V s (Q : unit -> fs D -> Prop) :
  disk_is (disk s) V -> 0 <= c < CLUSTER_MAP_SIZE ->
  (forall d', disk_is d' (<[c := load (memory s) ptr 2048]> V) -> Q tt (set_disk d' s)) ->
  wp (write_clusters_memory ptr c 1) Q s.
Proof.
  intros HV Hc HQ. destruct (write_clusters_spec (memory s) ptr c _ _ HV Hc) as (d' & Hr & Hd').
  apply wp_bind, wp_gets. eapply wp_lift_disk; [exact Hr|]. by apply HQ.
Qed.

(** Rules for the accesses to [memory]. *)
Lemma wp_cluster_map_get i (Q : Z -> fs D -> Prop) s :
  0 <= i <= 512 -> Q (cluster_map (memory s) i) s -> wp (cluster_map_get i) Q s.
Proof.
  intros Hi HQ. unfold cluster_map_get.
  by rewrite in_memory_true by fat_lia.
Qed.

Lemma wp_cluster_map_set i v (Q : unit -> fs D -> Prop) s :
  0 <= i < 512 ->
  Q tt (set_memory (store_le 4 (memory s) (4 * i) v) s) -> wp (cluster_map_set i v) Q s.
Proof.
  intros Hi HQ. unfold cluster_map_set.
  by rewrite in_memory_true by fat_lia.
Qed.

Lemma wp_user_attribute_get i (Q : Z -> fs D -> Prop) s :
  0 <= i < 128 -> Q (table_user_attribute (memory s) dir_table_buf i) s -> wp (user_attribute_get i) Q s.
Proof.
  intros Hi HQ. unfold user_attribute_get.
  by rewrite in_memory_true by fat_lia.
Qed.

Lemma wp_table_set i e (Q : unit -> fs D -> Prop) s :
  0 <= i < 128 ->
  Q tt (set_memory (store (memory s) (dir_table_buf + 32 * i) (entry_bytes e)) s) ->
  wp (table_set i e) Q s.
Proof.
  intros Hi HQ. unfold table_set.
  by rewrite in_memory_true by fat_lia.
Qed.

End Disk.

(** The cluster map after one entry is set. *)
Lemma cluster_map_store m i j v :
  0 <= v < 4294967296 ->
  cluster_map (store_le 4 m (4 * i) v) j = if decide (i = j) then v else cluster_map m j.
Proof.
  intros Hv. unfold cluster_map, fat_table. rewrite Z.add_0_l. case_decide as Hij.
  - subst. rewrite load_le_store_eq. by apply Z.mod_small.
  - apply load_le_store_ne. lia.
Qed.
