(* ===== verification/FatRead.v ===== *)
(** Theorems about [read] and [read_directory] of src/src/fat32.c. *)
From Stdlib Require Import ZArith Lia.
From stdpp Require Import base numbers option strings zmap functions list.
From S2P Require Import Prelude CString Disk FatTypes Fat32 FatView.

Section Read.
Context {D : Type} `{DiskSpec D}.
Implicit Types (d : D) (V : clusters) (s : fs D).

(** What a directory lookup leaves: the table of [p] in [dir_table_buf], the
    rest of [memory] as it was. *)
Definition dir_loaded (V : clusters) (p : Z) (m m' : mem) : Prop :=
  window m' dir_table_buf (obj (V p)) 0 2048 /\ window m' 0 m 0 2048.

Lemma wp_load_table {A} p (k : M (fs D) A) V s (Q : A -> fs D -> Prop) :
  disk_is (disk s) V -> 0 <= p < CLUSTER_MAP_SIZE ->
  (forall s', disk_is (disk s') V -> user s' = user s ->
    dir_loaded V p (memory s) (memory s') -> wp k Q s') ->
  wp (memory_memset dir_table_buf 0 (Z.to_nat (64 * sizeof_DirectoryEntry)) ;;
      read_clusters_memory dir_table_buf p 1 ;; k) Q s.
Proof.
  intros HV Hp HQ. apply wp_bind, wp_modify, wp_bind. eapply wp_read_memory; [exact HV|done|].
  intros d' Hd'. apply HQ; [done..|]. cbn [memory set_memory].
  pose proof (disk_is_length _ _ _ HV Hp) as Hlen. split.
  - apply window_store_obj. lia.
  - rewrite memset_store. eapply window_trans; apply window_store_ne; left; fat_lia.
Qed.

Lemma dir_loaded_entry V p m m' i :
  dir_loaded V p m m' -> 0 <= i < 64 -> table_entry m' dir_table_buf i = dir V p i.
Proof. intros [Hw _] Hi. by apply window_table_entry. Qed.

Lemma dir_loaded_find V p m m' nm ex :
  dir_loaded V p m m' -> length nm = 8%nat -> length ex = 3%nat ->
  find_entry m' nm ex = dir_find (dir V p) nm ex.
Proof.
  intros Hl Hn He. rewrite find_entry_spec by done. apply dir_find_ext.
  intros i Hi. by eapply dir_loaded_entry.
Qed.

Lemma dir_loaded_map V p m m' c :
  dir_loaded V p m m' -> 0 <= c < 512 -> cluster_map m' c = cluster_map m c.
Proof. intros [_ Hw] Hc. by apply window_cluster_map. Qed.

(** The loop of [read] copies the chain, cluster after cluster. *)
Lemma wp_read_loop V l : forall ptr c j s (Q : unit -> fs D -> Prop),
  disk_is (disk s) V -> chain (cluster_map (memory s)) c l ->
  0 <= j -> (j + Z.of_nat (length l)) * CLUSTER_SIZE <= 4294967296 ->
  (forall s', disk_is (disk s') V -> memory s' = memory s ->
    user s' = store (user s) (ptr + j * CLUSTER_SIZE) (concat (V <$> l)) -> Q tt s') ->
  wp (read_loop ptr c j (length l)) Q s.
Proof.
  induction l as [|c' l IH]; intros ptr c j s Q HV Hch Hj Hlen HQ; [inversion Hch|].
  assert (Hc : c' = c /\ 0 <= c < CLUSTER_MAP_SIZE) by (inversion Hch; subst; done).
  destruct Hc as [-> Hc]. cbn [length read_loop]. apply wp_bind.
  eapply wp_read_request; [exact HV|done|]. intros d' Hd'. apply wp_bind.
  apply wp_cluster_map_get; [fat_lia|]. cbn [memory].
  rewrite u32_small by (cbn [length] in Hlen; fat_lia).
  inversion Hch as [c1 Hc1 Hf|c1 l1 Hc1 Hf Hch']; subst.
  - apply wp_ret, HQ; [done..|]. cbn [user fmap list_fmap concat]. by rewrite app_nil_r.
  - apply IH; [done|exact Hch'|lia|cbn [length] in Hlen; lia|].
    intros s' Hs' Hm Hu. apply HQ; [done..|]. rewrite Hu. cbn [user fmap list_fmap concat].
    rewrite store_app, (disk_is_length _ _ _ HV Hc). f_equal. fat_lia.
Qed.

(** The loop asked for one cluster more than the chain has leaves the table. *)
Lemma read_user_memory ptr c n s a s' :
  read_clusters_user ptr c n s = Ret (a, s') -> memory s' = memory s.
Proof.
  unfold read_clusters_user. intros Hr. apply bind_Ret_inv in Hr as (m & s1 & [= <- <-] & Hr).
  apply bind_Ret_inv in Hr as (m' & s2 & Hr & [= _ <-]).
  unfold lift_disk in Hr. destruct (read_clusters _ _ _ _ _) as [[m'' d]| |]; [|done..].
  by injection Hr as <- <-.
Qed.

Lemma cluster_map_get_inv i s a s' :
  cluster_map_get i s = Ret (a, s') -> a = cluster_map (memory s) i /\ s' = s /\ in_memory (fat_table + 4 * i) 4 = true.
Proof. unfold cluster_map_get. destruct (in_memory _ _); [|done]. by intros [= <- <-]. Qed.

Lemma read_loop_overrun l : forall ptr c j s x,
  chain (cluster_map (memory s)) c l -> read_loop ptr c j (S (length l)) s <> Ret x.
Proof.
  induction l as [|c' l IH]; intros ptr c j s x Hch Hr; [inversion Hch|].
  cbn [read_loop] in Hr.
  apply bind_Ret_inv in Hr as (? & s1 & H1 & Hr). apply read_user_memory in H1.
  apply bind_Ret_inv in Hr as (? & s2 & (-> & -> & Hi)%cluster_map_get_inv & Hr).
  rewrite H1 in Hr. inversion Hch as [c1 Hc1 Hf|c1 l1 Hc1 Hf Hch']; subst.
  - rewrite Hf in Hr. cbn [length read_loop] in Hr.
    apply bind_Ret_inv in Hr as (? & s2 & H2 & Hr).
    by apply bind_Ret_inv in Hr as (? & s3 & (_ & _ & [=])%cluster_map_get_inv & _).
  - rewrite <- H1 in Hch' at 1. by apply (IH _ _ _ _ _ Hch' Hr).
Qed.

Lemma load_table_inv {A} p (k : M (fs D) A) V s x :
  disk_is (disk s) V -> 0 <= p < CLUSTER_MAP_SIZE ->
  (memory_memset dir_table_buf 0 (Z.to_nat (64 * sizeof_DirectoryEntry)) ;;
   read_clusters_memory dir_table_buf p 1 ;; k) s = Ret x ->
  exists s', dir_loaded V p (memory s) (memory s') /\ k s' = Ret x.
Proof.
  intros HV Hp Hx.
  apply bind_Ret_inv in Hx as (a1 & s1 & H1 & Hx). apply bind_Ret_inv in Hx as (a2 & s2 & H2 & Hx).
  exists s2. split; [|done].
  assert (Hwp : wp (memory_memset dir_table_buf 0 (Z.to_nat (64 * sizeof_DirectoryEntry)) ;;
    read_clusters_memory dir_table_buf p 1 ;; mret tt)
    (fun _ s' => dir_loaded V p (memory s) (memory s')) s).
  { eapply wp_load_table; [exact HV|done|]. intros s' _ _ Hl. by apply wp_ret. }
  refine (wp_eval _ (fun _ s' => dir_loaded V p (memory s) (memory s')) s tt s2 _ Hwp).
  unfold mbind, M_bind. by rewrite H1, H2.
Qed.

(** The checks of [read] before it touches the file. *)
Definition readable (e : dirent) (r : request) : bool :=
  negb ((attribute e =? 1) || (buffer_size r =? 0)).

(** The requests that [read] turns down. *)
Lemma wp_read_error r V s (Q : Z -> fs D -> Prop) :
  request_ok r -> disk_is (disk s) V -> 0 <= parent_cluster_number r < CLUSTER_MAP_SIZE ->
  let T := dir V (parent_cluster_number r) in
  let found := dir_find T (req_name r) (req_ext r) in
  match found with None => True | Some i => readable (T i) r = false end ->
  (forall s', disk_is (disk s') V -> user s' = user s ->
     (forall c, (0 <= c < 512) -> cluster_map (memory s') c = cluster_map (memory s) c) ->
     Q (if found is Some _ then 1 else 2) s') ->
  wp (read r) Q s.
Proof.
  intros (Hn & He & _) HV Hp T found Hcase HQ.
  unfold read. eapply wp_load_table; [exact HV|done|]. intros s' Hd' Hu' Hl.
  specialize (HQ s' Hd' Hu' (fun c Hc => dir_loaded_map _ _ _ _ _ Hl Hc)).
  apply wp_bind, wp_gets. rewrite (dir_loaded_find _ _ _ _ _ _ Hl) by done. fold T found.
  destruct found as [i|] eqn:Hf; [|by apply wp_ret].
  apply dir_find_Some in Hf as (Hi & _). rewrite (dir_loaded_entry _ _ _ _ _ Hl) by done.
  fold T. unfold readable in Hcase. apply negb_false_iff in Hcase. rewrite Hcase. by apply wp_ret.
Qed.

(** C38: [read] of a name that the directory does not hold returns 2; of an entry
    with attribute 1, or with an empty buffer, 1; in both cases neither the
    disk, nor the caller's memory, nor the cached cluster map is changed. *)
Theorem read_errors r V s :
  request_ok r -> disk_is (disk s) V -> 0 <= parent_cluster_number r < CLUSTER_MAP_SIZE ->
  let T := dir V (parent_cluster_number r) in
  let found := dir_find T (req_name r) (req_ext r) in
  match found with None => True | Some i => readable (T i) r = false end ->
  exists s',
    read r s = Ret ((if found is Some _ then 1 else 2), s') /\
    disk_is (disk s') V /\ user s' = user s /\
    (forall c, (0 <= c < 512) -> cluster_map (memory s') c = cluster_map (memory s) c).
Proof.
  intros Hr HV Hp T found Hcase.
  enough (Hwp : wp (read r) (fun a s' => a = (if found is Some _ then 1 else 2) /\ disk_is (disk s') V /\
    user s' = user s /\
    (forall c, (0 <= c < 512) -> cluster_map (memory s') c = cluster_map (memory s) c)) s).
  { apply wp_elim in Hwp as (a & s' & Hx & -> & Hs'). eauto. }
  by apply (wp_read_error r V).
Qed.

(** A file whose chain has the [filesize / CLUSTER_SIZE + 1] clusters that
    [read] asks for. *)
Lemma wp_read_file r V s i l (Q : Z -> fs D -> Prop) :
  request_ok r -> disk_is (disk s) V -> 0 <= parent_cluster_number r < CLUSTER_MAP_SIZE ->
  let e := dir V (parent_cluster_number r) i in
  dir_find (dir V (parent_cluster_number r)) (req_name r) (req_ext r) = Some i ->
  readable e r = true ->
  chain (cluster_map (memory s)) (entry_cluster e) l ->
  Z.of_nat (length l) = filesize e / CLUSTER_SIZE + 1 ->
  (forall s', user s' = store (user s) (buf r) (concat (V <$> l)) -> disk_is (disk s') V ->
     (forall c, (0 <= c < 512) -> cluster_map (memory s') c = cluster_map (memory s) c) -> Q 0 s') ->
  wp (read r) Q s.
Proof.
  intros (Hn & He & _) HV Hp e Hfind Hread Hch Hlen HQ.
  unfold read. eapply wp_load_table; [exact HV|done|]. intros s1 Hd1 Hu1 Hl.
  apply wp_bind, wp_gets. rewrite (dir_loaded_find _ _ _ _ _ _ Hl), Hfind by done.
  pose proof (dir_find_Some _ _ _ _ Hfind) as (Hi & _).
  rewrite (dir_loaded_entry _ _ _ _ _ Hl) by done. fold e.
  unfold readable in Hread. apply negb_true_iff in Hread. rewrite Hread.
  pose proof (chain_length _ _ _ Hch) as Hlen512.
  assert (Hc : u32 (filesize e / CLUSTER_SIZE + 1) = Z.of_nat (length l)).
  { rewrite <- Hlen. apply u32_small. lia. }
  rewrite Hc, Nat2Z.id. apply wp_bind.
  assert (Hle : (u32 (Z.of_nat (length l) * CLUSTER_SIZE) <? filesize e) = false).
  { apply Z.ltb_ge. rewrite u32_small by fat_lia. rewrite Hlen.
    pose proof (Z.mod_pos_bound (filesize e) CLUSTER_SIZE eq_refl).
    pose proof (Z.div_mod (filesize e) CLUSTER_SIZE). fat_lia. }
  rewrite Hle. eapply wp_read_loop; [exact Hd1| |lia|fat_lia|].
  { apply (chain_ext (cluster_map (memory s))); [|exact Hch]. intros c Hx.
    pose proof (chain_range _ _ _ Hch) as Hr. rewrite Forall_forall in Hr.
    eapply dir_loaded_map; [exact Hl|]. apply Hr in Hx. fat_lia. }
  intros s2 Hd2 Hm2 Hu2. apply wp_ret, HQ; [|done|].
  - by rewrite Hu2, Hu1, Z.mul_0_l, Z.add_0_r.
  - intros c Hc'. rewrite Hm2. by eapply dir_loaded_map.
Qed.

(** C19: [read] of a file copies its clusters, in the order of the chain and
    each one whole, to the caller's buffer and returns 0, when the chain has the
    [filesize / CLUSTER_SIZE + 1] clusters that [read] asks for, which the chain
    of a file of a whole number of clusters does not have; nothing else of the
    caller's memory, of the disk or of the cached cluster map changes.  The whole
    chain is copied for any size of the buffer but 0, also for one smaller than
    the file ([read_ignores_buffer_size]). *)
Theorem read_file_ok r V s i l :
  request_ok r -> disk_is (disk s) V -> 0 <= parent_cluster_number r < CLUSTER_MAP_SIZE ->
  let e := dir V (parent_cluster_number r) i in
  dir_find (dir V (parent_cluster_number r)) (req_name r) (req_ext r) = Some i ->
  readable e r = true ->
  chain (cluster_map (memory s)) (entry_cluster e) l ->
  Z.of_nat (length l) = filesize e / CLUSTER_SIZE + 1 ->
  exists s',
    read r s = Ret (0, s') /\
    user s' = store (user s) (buf r) (concat (V <$> l)) /\
    disk_is (disk s') V /\
    (forall c, (0 <= c < 512) -> cluster_map (memory s') c = cluster_map (memory s) c).
Proof.
  intros Hr HV Hp e Hfind Hread Hch Hlen.
  enough (Hwp : wp (read r) (fun a s' => a = 0 /\
    user s' = store (user s) (buf r) (concat (V <$> l)) /\ disk_is (disk s') V /\
    (forall c, (0 <= c < 512) -> cluster_map (memory s') c = cluster_map (memory s) c)) s).
  { apply wp_elim in Hwp as (a & s' & Hx & -> & Hs'). eauto. }
  by eapply wp_read_file.
Qed.

(** [read] never returns on a file whose size is a multiple of the cluster
    size and whose chain has exactly the clusters the size needs: it asks for
    one cluster more, follows the end marker as a cluster number and indexes
    [cluster_map] outside the driver's object. *)
Theorem read_whole_clusters_undefined r V s i l :
  request_ok r -> disk_is (disk s) V -> 0 <= parent_cluster_number r < CLUSTER_MAP_SIZE ->
  let e := dir V (parent_cluster_number r) i in
  dir_find (dir V (parent_cluster_number r)) (req_name r) (req_ext r) = Some i ->
  readable e r = true ->
  chain (cluster_map (memory s)) (entry_cluster e) l ->
  filesize e = Z.of_nat (length l) * CLUSTER_SIZE ->
  ~ exists x, read r s = Ret x.
Proof.
  intros (Hn & He & _) HV Hp e Hfind Hread Hch Hlen [x Hx]. unfold read in Hx.
  apply load_table_inv with (V := V) in Hx as (s1 & Hl & Hx); [|done..].
  apply bind_Ret_inv in Hx as (? & s2 & [= <- <-] & Hx).
  rewrite (dir_loaded_find _ _ _ _ _ _ Hl), Hfind in Hx by done.
  pose proof (dir_find_Some _ _ _ _ Hfind) as (Hi & _).
  rewrite (dir_loaded_entry _ _ _ _ _ Hl) in Hx by done. fold e in Hx.
  unfold readable in Hread. apply negb_true_iff in Hread. rewrite Hread in Hx.
  pose proof (chain_length _ _ _ Hch) as Hlen512.
  apply bind_Ret_inv in Hx as (? & s2 & Hx & _).
  rewrite Hlen, Z.div_mul in Hx by done.
  rewrite (u32_small (Z.of_nat (length l) + 1)) in Hx by lia.
  rewrite (proj2 (Z.ltb_ge _ _)) in Hx by (rewrite u32_small; fat_lia).
  replace (Z.to_nat (Z.of_nat (length l) + 1)) with (S (length l)) in Hx by lia.
  eapply read_loop_overrun; [|exact Hx].
  apply (chain_ext (cluster_map (memory s))); [|exact Hch]. intros c Hc.
  pose proof (chain_range _ _ _ Hch) as Hr. rewrite Forall_forall in Hr.
  eapply dir_loaded_map; [exact Hl|]. apply Hr in Hc. fat_lia.
Qed.

(** The entry of a directory: [read] asks for one cluster. *)
Lemma wp_read_table r V s i (Q : Z -> fs D -> Prop) :
  request_ok r -> disk_is (disk s) V -> 0 <= parent_cluster_number r < CLUSTER_MAP_SIZE ->
  let e := dir V (parent_cluster_number r) i in
  dir_find (dir V (parent_cluster_number r)) (req_name r) (req_ext r) = Some i ->
  readable e r = true -> filesize e = 0 -> 0 <= entry_cluster e < CLUSTER_MAP_SIZE ->
  (forall s', user s' = store (user s) (buf r) (V (entry_cluster e)) -> disk_is (disk s') V ->
     (forall c, (0 <= c < 512) -> cluster_map (memory s') c = cluster_map (memory s) c) -> Q 0 s') ->
  wp (read r) Q s.
Proof.
  intros (Hn & He & _) HV Hp e Hfind Hread Hsz Hc HQ.
  unfold read. eapply wp_load_table; [exact HV|done|]. intros s1 Hd1 Hu1 Hl.
  apply wp_bind, wp_gets. rewrite (dir_loaded_find _ _ _ _ _ _ Hl), Hfind by done.
  pose proof (dir_find_Some _ _ _ _ Hfind) as (Hi & _).
  rewrite (dir_loaded_entry _ _ _ _ _ Hl) by done. fold e.
  unfold readable in Hread. apply negb_true_iff in Hread. rewrite Hread, Hsz. apply wp_bind.
  cbn [read_loop Z.div Z.add]. apply wp_bind. eapply wp_read_request; [exact Hd1|done|]. intros d' Hd'. apply wp_bind.
  apply wp_cluster_map_get; [fat_lia|]. apply wp_ret, wp_ret, HQ; [|done|].
  - cbn [user]. rewrite Hu1. f_equal. apply Z.add_0_r.
  - intros c Hc'. by eapply dir_loaded_map.
Qed.

(** [read] does not recognise directories: on the entry of a directory (its
    attribute is [ATTR_SUBDIRECTORY], not the 1 that is tested) it returns 0 and
    copies the directory table to the buffer. *)
Theorem read_accepts_directory r V s i :
  request_ok r -> disk_is (disk s) V -> 0 <= parent_cluster_number r < CLUSTER_MAP_SIZE ->
  let e := dir V (parent_cluster_number r) i in
  dir_find (dir V (parent_cluster_number r)) (req_name r) (req_ext r) = Some i ->
  attribute e = ATTR_SUBDIRECTORY -> filesize e = 0 -> buffer_size r <> 0 ->
  0 <= entry_cluster e < CLUSTER_MAP_SIZE ->
  exists s', read r s = Ret (0, s') /\ user s' = store (user s) (buf r) (V (entry_cluster e)).
Proof.
  intros Hr HV Hp e Hfind Ha Hsz Hb Hc.
  destruct (wp_elim (read r) (fun a s' => a = 0 /\ user s' = store (user s) (buf r) (V (entry_cluster e))) s)
    as (a & s' & Hx & -> & Hs'); [|by exists s'].
  apply (wp_read_table r V s i); try done.
  unfold readable. fold e. rewrite Ha. apply negb_true_iff, orb_false_iff. split; [done|]. by apply Z.eqb_neq.
Qed.

(** The size of the buffer does not limit a [read]: what it returns and copies is
    the same for every size but 0. *)
Theorem read_ignores_buffer_size b nm ex p n1 n2 s :
  n1 <> 0 -> n2 <> 0 -> read (D := D) (Request b nm ex p n1) s = read (Request b nm ex p n2) s.
Proof.
  intros H1 H2. unfold read. cbn [buf req_name req_ext parent_cluster_number buffer_size].
  by rewrite (proj2 (Z.eqb_neq _ _) H1), (proj2 (Z.eqb_neq _ _) H2).
Qed.

(** The entry that [read_directory] takes: entry 0 for the name ".", otherwise
    the first entry from 1 with the name; the extension is not looked at. *)
Definition directory_index (T : Z -> dirent) (nm : list byte) : option Z :=
  if bool_decide (nm = cstring "." ++ zeros 7) then Some 0
  else find_up (fun i => bool_decide (name (T i) = nm)) 1 63.

(** [read_directory] as a rule: what it returns and leaves. *)
Lemma wp_read_directory r V s :
  request_ok r -> disk_is (disk s) V -> 0 <= parent_cluster_number r < CLUSTER_MAP_SIZE ->
  let T := dir V (parent_cluster_number r) in
  let found := directory_index T (req_name r) in
  match found with None => True | Some i => 0 <= entry_cluster (T i) < CLUSTER_MAP_SIZE end ->
  wp (read_directory r) (fun a s' => a = (if found is Some _ then 0 else 2) /\
    user s' = (if found is Some i then store (user s) (buf r) (V (entry_cluster (T i))) else user s) /\
    disk_is (disk s') V /\
    (forall c, (0 <= c < 512) -> cluster_map (memory s') c = cluster_map (memory s) c)) s.
Proof.
  intros (Hn & He & _) HV Hp T found Hcase.
  unfold read_directory. eapply wp_load_table; [exact HV|done|]. intros s1 Hd1 Hu1 Hl.
  apply wp_bind, wp_gets. cbv zeta.
  match goal with |- wp (match ?x with _ => _ end) _ _ => replace x with found end.
  2: { unfold found, directory_index.
       rewrite (bool_decide_ext (_ = _) (memcmp (obj (req_name r)) 0 (obj (cstring "." ++ zeros 7)) 0 8 = 0)).
       2: { rewrite memcmp_zero. unfold obj. by rewrite !load_store_eq by done. }
       case_bool_decide as E.
       - by rewrite (proj2 (Z.eqb_eq _ _) E).
       - rewrite (proj2 (Z.eqb_neq _ _) E). apply find_up_ext. intros j Hj.
         rewrite same_name_spec by done. by rewrite (dir_loaded_entry _ _ _ _ _ Hl) by lia. }
  destruct found as [i|] eqn:Hf.
  - assert (Hi : 0 <= i < 64).
    { unfold found, directory_index in Hf. case_bool_decide; [injection Hf as <-; lia|].
      apply find_up_Some in Hf as (Hi & _). lia. }
    rewrite (dir_loaded_entry _ _ _ _ _ Hl) by done. fold T. apply wp_bind.
    eapply wp_read_request; [exact Hd1|done|]. intros d' Hd'. apply wp_ret.
    split; [done|]. cbn [user disk memory]. rewrite Hu1. split; [done|]. split; [done|].
    intros c Hc. by eapply dir_loaded_map.
  - apply wp_ret. split; [done|]. split; [done|]. split; [done|].
    intros c Hc. by eapply dir_loaded_map.
Qed.

(** [read_directory] returns 2 and changes nothing of the caller's when the
    name is not there, and otherwise copies the one cluster of the entry to the
    buffer and returns 0, whatever the attribute of the entry is. *)
Theorem read_directory_correct r V s :
  request_ok r -> disk_is (disk s) V -> 0 <= parent_cluster_number r < CLUSTER_MAP_SIZE ->
  let T := dir V (parent_cluster_number r) in
  let found := directory_index T (req_name r) in
  match found with None => True | Some i => 0 <= entry_cluster (T i) < CLUSTER_MAP_SIZE end ->
  exists s',
    read_directory r s = Ret ((if found is Some _ then 0 else 2), s') /\
    user s' = (if found is Some i then store (user s) (buf r) (V (entry_cluster (T i))) else user s) /\
    disk_is (disk s') V /\
    (forall c, (0 <= c < 512) -> cluster_map (memory s') c = cluster_map (memory s) c).
Proof.
  intros Hreq HV Hp T found Hcase.
  pose proof (wp_read_directory r V s Hreq HV Hp Hcase) as Hwp.
  apply wp_elim in Hwp as (a & s' & Hr & -> & Hs'). eauto.
Qed.

End Read.
