(* ===== verification/FatWrite.v ===== *)
(** Theorems about [write] of src/src/fat32.c: creating files. *)
From Stdlib Require Import ZArith Lia.
From stdpp Require Import base numbers option strings zmap functions list.
From S2P Require Import Prelude CString Disk FatTypes Fat32 FatView FatRead.

(** ** Reference definitions *)

(** The free clusters of the table [f] from [t] on, in ascending order. *)
Definition free_list (f : Z -> Z) (t : Z) : list Z :=
  filter (fun c => f c = FAT32_FAT_EMPTY_ENTRY) (seqZ t (CLUSTER_MAP_SIZE - t)).

(** The clusters [l] linked after [prev] ([-1] for none), the last one marked as
    the end of the chain. *)
Fixpoint link (m : mem) (prev : Z) (l : list Z) : mem :=
  match l with
  | [] => m
  | c :: l' =>
      let m := if prev =? -1 then m else store_le 4 m (4 * prev) c in
      let m := match l' with [] => store_le 4 m (4 * c) FAT32_FAT_END_OF_FILE | _ => m end in
      link m c l'
  end.

(** Cluster [i] of the [size] bytes at [ptr], filled up with zeros. *)
Definition data_cluster (u : mem) (ptr size i : Z) : list byte :=
  let n := Z.to_nat (Z.min CLUSTER_SIZE (size - i * CLUSTER_SIZE)) in
  load u (ptr + i * CLUSTER_SIZE) n ++ zeros (2048 - n).

(** The clusters [l] filled with the data from its [i]th cluster on. *)
Fixpoint put_data (u : mem) (ptr size i : Z) (l : list Z) (V : clusters) : clusters :=
  match l with
  | [] => V
  | c :: l' => put_data u ptr size (i + 1) l' (<[c := data_cluster u ptr size i]> V)
  end.

(** ** The free list *)

Lemma free_list_ext f g t :
  (forall c, t <= c < CLUSTER_MAP_SIZE -> f c = g c) -> free_list f t = free_list g t.
Proof.
  intros H. unfold free_list.
  assert (Hl : forall c, c ∈ seqZ t (CLUSTER_MAP_SIZE - t) -> f c = g c).
  { intros c Hc%elem_of_seqZ. apply H. lia. }
  induction (seqZ _ _) as [|c l IH]; [done|]. rewrite !filter_cons.
  rewrite (Hl c) by (apply elem_of_cons; by left).
  rewrite IH; [done|]. intros c' Hc'. apply Hl, elem_of_cons. by right.
Qed.

Lemma free_list_unfold f t :
  t < CLUSTER_MAP_SIZE ->
  free_list f t = (if decide (f t = FAT32_FAT_EMPTY_ENTRY) then [t] else []) ++ free_list f (t + 1).
Proof.
  intros Ht. unfold free_list. rewrite seqZ_cons by lia. rewrite filter_cons.
  replace (Z.pred (CLUSTER_MAP_SIZE - t)) with (CLUSTER_MAP_SIZE - (t + 1)) by lia.
  replace (Z.succ t) with (t + 1) by lia. by case_decide.
Qed.

Lemma free_list_end f t : CLUSTER_MAP_SIZE <= t -> free_list f t = [].
Proof. intros Ht. unfold free_list. by rewrite seqZ_nil by lia. Qed.

Lemma elem_of_free_list f t c :
  c ∈ free_list f t <-> f c = FAT32_FAT_EMPTY_ENTRY /\ t <= c < CLUSTER_MAP_SIZE.
Proof.
  unfold free_list. rewrite list_elem_of_filter, elem_of_seqZ. intuition lia.
Qed.

Lemma NoDup_free_list f t : NoDup (free_list f t).
Proof. apply NoDup_filter, NoDup_seqZ. Qed.

(** The free list from its head on. *)
Lemma free_list_cons f t c l :
  free_list f t = c :: l -> free_list f (c + 1) = l /\ t <= c < CLUSTER_MAP_SIZE /\ f c = FAT32_FAT_EMPTY_ENTRY.
Proof.
  intros H. assert (Hc : c ∈ free_list f t) by (rewrite H; apply elem_of_cons; by left).
  apply elem_of_free_list in Hc as (Hf & Hc). split; [|done].
  assert (Hgen : forall n t, c - t = Z.of_nat n -> free_list f t = c :: l -> free_list f (c + 1) = l).
  { clear t H Hc. intros n. induction n as [|n IH]; intros t Hn H.
    - replace t with c in H by lia. rewrite free_list_unfold in H.
      + rewrite decide_True in H by done. by injection H.
      + destruct (decide (c < CLUSTER_MAP_SIZE)); [done|]. by rewrite free_list_end in H by lia.
    - destruct (decide (t < CLUSTER_MAP_SIZE)); [|by rewrite free_list_end in H by lia].
      rewrite free_list_unfold in H by done. case_decide; [injection H as -> _; lia|].
      apply (IH (t + 1)); [lia|done]. }
  by apply (Hgen (Z.to_nat (c - t)) t); [lia|].
Qed.

(** ** Linking clusters *)

Lemma link_map_other m prev l j :
  j ∉ l -> j <> prev -> Forall (fun c => 0 <= c < CLUSTER_MAP_SIZE) l ->
  cluster_map (link m prev l) j = cluster_map m j.
Proof.
  revert m prev. induction l as [|c l IH]; intros m prev Hj Hp Hl; cbn [link]; [done|].
  apply not_elem_of_cons in Hj as [Hjc Hj]. apply Forall_cons in Hl as [Hc Hl].
  rewrite IH by done.
  assert (He : forall m, cluster_map (if prev =? -1 then m else store_le 4 m (4 * prev) c) j = cluster_map m j).
  { intros m'. destruct (prev =? -1); [done|]. rewrite cluster_map_store by fat_lia.
    by rewrite decide_False. }
  destruct l; [|apply He]. rewrite cluster_map_store by fat_lia. rewrite decide_False by done. apply He.
Qed.

Lemma link_map_prev m prev c l :
  prev <> -1 -> prev ∉ c :: l -> Forall (fun c => 0 <= c < CLUSTER_MAP_SIZE) (c :: l) ->
  cluster_map (link m prev (c :: l)) prev = c.
Proof.
  intros Hp Hn Hl. apply not_elem_of_cons in Hn as [Hpc Hn]. apply Forall_cons in Hl as [Hc Hl].
  cbn [link]. rewrite link_map_other by done. rewrite (proj2 (Z.eqb_neq _ _) Hp).
  destruct l; rewrite !cluster_map_store by fat_lia.
  - rewrite decide_False by done. by rewrite decide_True.
  - by rewrite decide_True.
Qed.

(** The linked clusters form a chain. *)
Lemma link_chain m prev c l :
  NoDup (c :: l) -> prev ∉ c :: l -> Forall (fun c => 0 <= c < CLUSTER_MAP_SIZE) (c :: l) ->
  chain (cluster_map (link m prev (c :: l))) c (c :: l).
Proof.
  revert m prev c. induction l as [|c' l IH]; intros m prev c Hnd Hp Hl;
    apply Forall_cons in Hl as [Hc Hl]; inversion Hnd as [|? ? Hcl Hnd']; subst.
  - constructor; [done|]. cbn [link]. rewrite cluster_map_store by fat_lia. by rewrite decide_True.
  - set (m1 := if prev =? -1 then m else store_le 4 m (4 * prev) c).
    change (link m prev (c :: c' :: l)) with (link m1 c (c' :: l)).
    assert (Hnext : cluster_map (link m1 c (c' :: l)) c = c') by (apply link_map_prev; [lia|done..]).
    apply Forall_cons in Hl as Hl'. destruct Hl' as [Hc' _].
    apply chain_next; [done|rewrite Hnext; fat_lia|]. rewrite Hnext. by apply IH.
Qed.

(** Linking stays inside the cluster map. *)
Lemma link_window m prev l n :
  -1 <= prev < CLUSTER_MAP_SIZE -> Forall (fun c => 0 <= c < CLUSTER_MAP_SIZE) l ->
  window (link m prev l) 2048 m 2048 n.
Proof.
  revert m prev. induction l as [|c l IH]; intros m prev Hp Hl; cbn [link]; [done|].
  apply Forall_cons in Hl as [Hc Hl]. eapply window_trans; [apply IH; [lia|done]|].
  assert (He : forall m c' v, 0 <= c' < CLUSTER_MAP_SIZE -> window (store_le 4 m (4 * c') v) 2048 m 2048 n).
  { intros. apply window_store_ne. right. rewrite length_le_bytes. fat_lia. }
  assert (He' : forall m, window (if prev =? -1 then m else store_le 4 m (4 * prev) c) 2048 m 2048 n).
  { intros m'. destruct (Z.eqb_spec prev (-1)); [done|]. apply He. lia. }
  destruct l; [|apply He']. eapply window_trans; [by apply He|apply He'].
Qed.

(** ** The loops of [write] *)

Section Loops.
Context {D : Type} `{DiskSpec D}.
Implicit Types (d : D) (V : clusters) (s : fs D).

(** The first free cluster from [t], 512 when there is none. *)
Definition first_of (l : list Z) : Z := default CLUSTER_MAP_SIZE (head l).

Lemma wp_scan_free fuel t (Q : Z -> fs D -> Prop) s :
  0 <= t <= CLUSTER_MAP_SIZE -> CLUSTER_MAP_SIZE - t < Z.of_nat fuel ->
  Q (first_of (free_list (cluster_map (memory s)) t)) s -> wp (scan_free fuel t) Q s.
Proof.
  revert t. induction fuel as [|fuel IH]; intros t Ht Hf HQ; [lia|].
  cbn [scan_free]. apply wp_bind, wp_cluster_map_get; [fat_lia|].
  destruct (Z.ltb_spec t CLUSTER_MAP_SIZE) as [Hlt|Hge].
  - rewrite free_list_unfold in HQ by done.
    destruct (Z.eqb_spec (cluster_map (memory s) t) FAT32_FAT_EMPTY_ENTRY) as [E|E]; cbn [negb andb].
    + rewrite decide_True in HQ by done. by apply wp_ret.
    + rewrite decide_False in HQ by done. apply IH; [lia..|done].
  - rewrite andb_false_r. rewrite free_list_end in HQ by lia. apply wp_ret.
    replace t with CLUSTER_MAP_SIZE by lia. done.
Qed.

Lemma wp_scan_slot fuel limit j k (Q : Z -> fs D -> Prop) s :
  0 <= j <= k -> k < 128 -> k - j < Z.of_nat fuel ->
  (forall i, j <= i < k -> table_user_attribute (memory s) dir_table_buf i = UATTR_NOT_EMPTY /\
     (if limit is Some l then i < l else True)) ->
  table_user_attribute (memory s) dir_table_buf k <> UATTR_NOT_EMPTY \/ limit = Some k ->
  Q k s -> wp (scan_slot fuel limit j) Q s.
Proof.
  revert j. induction fuel as [|fuel IH]; intros j Hj Hk Hf Hocc Hend HQ; [lia|].
  cbn [scan_slot]. apply wp_bind, wp_user_attribute_get; [lia|].
  destruct (decide (j = k)) as [->|Hne].
  - assert (Hb : ((table_user_attribute (memory s) dir_table_buf k =? UATTR_NOT_EMPTY) &&
      match limit with Some l => k <? l | None => true end) = false).
    { destruct Hend as [Hu| ->]; [by rewrite (proj2 (Z.eqb_neq _ _) Hu)|].
      by rewrite Z.ltb_irrefl, andb_false_r. }
    rewrite Hb. by apply wp_ret.
  - destruct (Hocc j) as [Hu Hl]; [lia|]. rewrite Hu, Z.eqb_refl.
    assert (Hb : match limit with Some l => j <? l | None => true end = true).
    { destruct limit; [|done]. by apply Z.ltb_lt. }
    rewrite Hb. cbn [andb]. apply IH; try done; try lia. intros i Hi. apply Hocc. lia.
Qed.

(** What one round of the first loop does to [memory] once it found [c]. *)
Definition alloc_body (r : request) (k req i c prev : Z) (m : mem) : mem :=
  let m := if i =? 0 then store m (dir_table_buf + 32 * k) (entry_bytes (file_entry r c)) else m in
  let m := if negb (prev =? -1) then store_le 4 m (4 * prev) c else m in
  if i =? req - 1 then store_le 4 m (4 * c) FAT32_FAT_END_OF_FILE else m.

(** It leaves the cluster map after [c]. *)
Lemma alloc_body_free r k req i c prev m :
  0 <= k -> prev <= c -> dirent_ok (file_entry r c) ->
  free_list (cluster_map (alloc_body r k req i c prev m)) (c + 1) = free_list (cluster_map m) (c + 1).
Proof.
  intros Hk Hp Hok. apply free_list_ext. intros x Hx. unfold alloc_body.
  assert (Hs : forall m v c', c' <= c -> cluster_map (store_le 4 m (4 * c') v) x = cluster_map m x).
  { intros m' v c' Hc'. unfold cluster_map. apply load_le_store_ne. fat_lia. }
  assert (Ht : cluster_map (store m (dir_table_buf + 32 * k) (entry_bytes (file_entry r c))) x = cluster_map m x).
  { unfold cluster_map, load_le. rewrite load_store_ne; [done|].
    rewrite length_entry_bytes by done. fat_lia. }
  repeat case_match; rewrite ?Hs by lia; done.
Qed.

Lemma wp_alloc_step r k req n i t prev first s (Q : option Z -> fs D -> Prop) c L :
  0 <= k < 128 -> -1 <= prev < CLUSTER_MAP_SIZE -> 0 <= t <= CLUSTER_MAP_SIZE ->
  free_list (cluster_map (memory s)) t = c :: L ->
  wp (alloc_loop r k req n (i + 1) (c + 1) c (if i =? 0 then c else first)) Q
     (set_memory (alloc_body r k req i c prev (memory s)) s) ->
  wp (alloc_loop r k req (S n) i t prev first) Q s.
Proof.
  intros Hk Hprev Ht HL HQ. destruct (free_list_cons _ _ _ _ HL) as (_ & Hc & _).
  cbn [alloc_loop]. apply wp_bind, wp_scan_free; [lia|unfold scan_fuel; fat_lia|].
  rewrite HL. change (first_of (c :: L)) with c. cbv beta.
  rewrite (proj2 (Z.eqb_neq c CLUSTER_MAP_SIZE)) by lia.
  destruct s as [m d u]. unfold alloc_body in HQ. cbn [memory set_memory disk user] in HQ.
  apply wp_bind. destruct (i =? 0); [apply wp_table_set; [done|]|apply wp_ret]; cbn [memory set_memory disk user];
    (apply wp_bind; destruct (Z.eqb_spec prev (-1)); cbn [negb] in HQ |- *;
      [apply wp_ret|apply wp_cluster_map_set; [fat_lia|]]; cbn [memory set_memory disk user];
      (apply wp_bind; destruct (i =? req - 1);
        [apply wp_cluster_map_set; [fat_lia|]|apply wp_ret]; exact HQ)).
Qed.

(** The first loop from its second round on: the next [n] free clusters are
    linked after [prev]. *)
Lemma wp_alloc_rest r k n : forall i t prev first s (Q : option Z -> fs D -> Prop),
  0 <= k < 128 -> (forall c, dirent_ok (file_entry r c)) ->
  0 < i -> 0 <= prev < t -> t <= CLUSTER_MAP_SIZE ->
  (n <= length (free_list (cluster_map (memory s)) t))%nat ->
  Q (Some first) (set_memory (link (memory s) prev (take n (free_list (cluster_map (memory s)) t))) s) ->
  wp (alloc_loop r k (i + Z.of_nat n) n i t prev first) Q s.
Proof.
  induction n as [|n IH]; intros i t prev first s Q Hk Hok Hi Hprev Ht Hn HQ.
  - apply wp_ret. by destruct s.
  - destruct (free_list (cluster_map (memory s)) t) as [|c L] eqn:HL; [simpl in Hn; lia|].
    destruct (free_list_cons _ _ _ _ HL) as (HL' & Hc & Hfc).
    eapply wp_alloc_step; [done|lia|lia|exact HL|].
    replace (i + Z.of_nat (S n)) with (i + 1 + Z.of_nat n) by lia.
    assert (Hfl := alloc_body_free r k (i + 1 + Z.of_nat n) i c prev (memory s)
      ltac:(lia) ltac:(lia) (Hok c)). rewrite HL' in Hfl.
    apply IH; cbn [memory set_memory]; rewrite ?Hfl; [done|done|lia..|simpl in Hn; lia|].
    rewrite (proj2 (Z.eqb_neq i 0)) by lia.
    enough (link (alloc_body r k (i + 1 + Z.of_nat n) i c prev (memory s)) c (take n L) =
      link (memory s) prev (take (S n) (c :: L))) as -> by done.
    unfold alloc_body. cbn [take link]. rewrite (proj2 (Z.eqb_neq i 0)) by lia.
    rewrite (proj2 (Z.eqb_neq prev (-1))) by lia. cbn [negb]. simpl in Hn.
    destruct n as [|n]; [by replace (i =? _) with true by (symmetry; apply Z.eqb_eq; lia)|].
    replace (i =? _) with false by (symmetry; apply Z.eqb_neq; lia).
    by destruct L; [simpl in Hn; lia|].
Qed.

(** The whole first loop, when there are enough free clusters. *)
Lemma wp_alloc_ok r k n t first s (Q : option Z -> fs D -> Prop) c L :
  0 <= k < 128 -> 0 <= t <= CLUSTER_MAP_SIZE -> (forall c, dirent_ok (file_entry r c)) ->
  free_list (cluster_map (memory s)) t = c :: L -> (n <= length L)%nat ->
  Q (Some c) (set_memory (link (store (memory s) (dir_table_buf + 32 * k) (entry_bytes (file_entry r c)))
                  (-1) (c :: take n L)) s) ->
  wp (alloc_loop r k (Z.of_nat (S n)) (S n) 0 t (-1) first) Q s.
Proof.
  intros Hk Ht Hok HL Hn HQ. destruct (free_list_cons _ _ _ _ HL) as (HL' & Hc & Hfc).
  eapply wp_alloc_step; [done|fat_lia|lia|exact HL|].
  replace (Z.of_nat (S n)) with (0 + 1 + Z.of_nat n) by lia.
  assert (Hfl := alloc_body_free r k (0 + 1 + Z.of_nat n) 0 c (-1) (memory s) ltac:(lia) ltac:(lia) (Hok c)).
  rewrite HL' in Hfl.
  apply wp_alloc_rest; cbn [memory set_memory]; rewrite ?Hfl; [done|done|lia..|].
  rewrite Z.eqb_refl.
  enough (link (alloc_body r k (0 + 1 + Z.of_nat n) 0 c (-1) (memory s)) c (take n L) =
    link (store (memory s) (dir_table_buf + 32 * k) (entry_bytes (file_entry r c))) (-1) (c :: take n L)) as -> by done.
  unfold alloc_body. cbn [link]. rewrite !Z.eqb_refl. cbn [negb].
  destruct n as [|n]; [done|].
  replace (0 =? _) with false by (symmetry; apply Z.eqb_neq; lia).
  by destruct L; [simpl in Hn; lia|].
Qed.

(** With too few free clusters the loop gives up; only [memory] has changed. *)
Lemma wp_alloc_full r k n : forall req i t prev first s (Q : option Z -> fs D -> Prop),
  0 <= k < 128 -> (forall c, dirent_ok (file_entry r c)) ->
  -1 <= prev < CLUSTER_MAP_SIZE -> prev < t -> 0 <= t <= CLUSTER_MAP_SIZE ->
  (length (free_list (cluster_map (memory s)) t) < n)%nat ->
  (forall m, Q None (set_memory m s)) ->
  wp (alloc_loop r k req n i t prev first) Q s.
Proof.
  induction n as [|n IH]; intros req i t prev first s Q Hk Hok Hprev Hpt Ht Hn HQ; [lia|].
  destruct (free_list (cluster_map (memory s)) t) as [|c L] eqn:HL.
  - cbn [alloc_loop]. apply wp_bind, wp_scan_free; [lia|unfold scan_fuel; fat_lia|]. rewrite HL.
    apply wp_ret. specialize (HQ (memory s)). by destruct s.
  - destruct (free_list_cons _ _ _ _ HL) as (HL' & Hc & Hfc).
    eapply wp_alloc_step; [done|done|lia|exact HL|]. simpl in Hn.
    apply IH; cbn [memory set_memory]; try done; try lia.
    rewrite alloc_body_free, HL' by (done || lia). lia.
Qed.

(** A cluster buffer of zeros with data at its front. *)
Lemma load_zero_filled m a bs :
  (length bs <= 2048)%nat ->
  load (store (store m a (zeros 2048)) a bs) a 2048 = bs ++ zeros (2048 - length bs).
Proof.
  intros Hlen. replace 2048%nat with (length bs + (2048 - length bs))%nat at 2 by lia.
  rewrite load_app. f_equal; [by apply load_store_eq|].
  rewrite load_store_ne by lia. rewrite load_store_within.
  - unfold zeros. rewrite drop_replicate, take_replicate. f_equal. lia.
  - lia.
  - unfold zeros. rewrite length_replicate. lia.
Qed.

Lemma window_chain m m' c l :
  window m' 0 m 0 2048 -> chain (cluster_map m) c l -> chain (cluster_map m') c l.
Proof.
  intros Hw Hch. apply (chain_ext (cluster_map m)); [|done]. intros x Hx.
  pose proof (chain_range _ _ _ Hch) as Hr. rewrite Forall_forall in Hr. apply Hr in Hx.
  apply window_cluster_map; [done|fat_lia].
Qed.

(** The second loop writes the data to the clusters of the chain. *)
Lemma wp_data_loop r l : forall V i c s (Q : unit -> fs D -> Prop),
  disk_is (disk s) V -> chain (cluster_map (memory s)) c l -> 0 <= i ->
  (i + Z.of_nat (length l) - 1) * CLUSTER_SIZE < buffer_size r <= (i + Z.of_nat (length l)) * CLUSTER_SIZE ->
  (forall s', disk_is (disk s') (put_data (user s) (buf r) (buffer_size r) i l V) ->
     user s' = user s -> window (memory s') 0 (memory s) 0 4096 -> Q tt s') ->
  wp (data_loop r (length l) i c (buffer_size r - i * CLUSTER_SIZE)) Q s.
Proof.
  induction l as [|c' l IH]; intros V i c s Q HV Hch Hi Hsize HQ; [inversion Hch|].
  assert (Hc : c' = c /\ 0 <= c < CLUSTER_MAP_SIZE) by (inversion Hch; subst; done).
  destruct Hc as [-> Hc]. cbn [length data_loop]. cbv zeta.
  set (tot := buffer_size r - i * CLUSTER_SIZE).
  set (w := if tot >=? CLUSTER_SIZE then CLUSTER_SIZE else tot).
  assert (Hw : w = Z.min CLUSTER_SIZE tot /\ 0 < w <= 2048).
  { unfold w. rewrite Z.geb_leb. cbn [length] in Hsize.
    destruct (Z.leb_spec CLUSTER_SIZE tot); unfold tot in *; fat_lia. }
  destruct Hw as [Hw Hw0].
  apply wp_bind, wp_modify, wp_bind. rewrite (proj2 (Z.ltb_ge w 0)) by lia.
  apply wp_bind, wp_gets, wp_modify, wp_bind.
  rewrite memset_store, memcpy_store. cbn [memory set_memory user].
  eapply wp_write_memory; [exact HV|done|]. intros d' Hd'.
  cbn [memory set_memory disk set_disk] in Hd' |- *.
  change (replicate (Z.to_nat CLUSTER_SIZE) (z2b 0)) with (zeros 2048) in *.
  rewrite load_zero_filled in Hd' by (rewrite length_load; lia).
  rewrite length_load, Hw in Hd'.
  set (m1 := store _ cluster_buf _).
  assert (Hwin : window m1 0 (memory s) 0 4096).
  { unfold m1. eapply window_trans; apply window_store_ne; left; fat_lia. }
  assert (Hch1 : chain (cluster_map m1) c (c :: l)).
  { eapply window_chain; [|exact Hch]. intros x Hx. apply Hwin. lia. }
  apply wp_bind, wp_cluster_map_get; [fat_lia|]. cbn [memory set_memory set_disk].
  inversion Hch1 as [c1 Hc1 Hf|c1 l1 Hc1 Hf Hch']; subst.
  - apply wp_ret, HQ; [exact Hd'|done|exact Hwin].
  - assert (Hl : (0 < length l)%nat) by (inversion Hch'; simpl; lia).
    assert (Hfull : (tot >=? CLUSTER_SIZE) = true).
    { rewrite Z.geb_leb. apply Z.leb_le. unfold tot. cbn [length] in Hsize. fat_lia. }
    rewrite Hfull. unfold tot.
    replace (buffer_size r - i * CLUSTER_SIZE - CLUSTER_SIZE) with (buffer_size r - (i + 1) * CLUSTER_SIZE) by fat_lia.
    eapply IH; [exact Hd'|exact Hch'|lia|cbn [length] in Hsize; fat_lia|].
    intros s' Hs' Hu Hws. apply HQ; [exact Hs'|exact Hu|].
    eapply window_trans; [exact Hws|exact Hwin].
Qed.

End Loops.

(** ** The data on the disk *)

Lemma put_data_other u ptr size i l V c : c ∉ l -> put_data u ptr size i l V c = V c.
Proof.
  revert i V. induction l as [|c' l IH]; intros i V Hc; cbn [put_data]; [done|].
  apply not_elem_of_cons in Hc as [Hne Hc]. rewrite IH by done. by rewrite fn_lookup_insert_ne.
Qed.

Lemma put_data_lookup u ptr size i l V j c :
  NoDup l -> l !! j = Some c -> put_data u ptr size i l V c = data_cluster u ptr size (i + Z.of_nat j).
Proof.
  revert i V j. induction l as [|c' l IH]; intros i V j Hnd Hj; cbn [put_data]; [done|].
  apply NoDup_cons in Hnd as [Hc' Hnd]. destruct j as [|j].
  - injection Hj as ->. rewrite put_data_other by done. by rewrite fn_lookup_insert, Z.add_0_r.
  - cbn in Hj. rewrite (IH _ _ j) by done.
    by replace (i + 1 + Z.of_nat j) with (i + Z.of_nat (S j)) by lia.
Qed.

Lemma file_entry_ok r c : request_ok r -> dirent_ok (file_entry r c).
Proof.
  intros (Hn & He & _ & Hb). unfold dirent_ok, file_entry. cbn [name ext attribute user_attribute
    undelete create_time create_date access_date cluster_high modified_time modified_date
    cluster_low filesize].
  pose proof (Z.mod_pos_bound (Z.shiftr c 16) 65536 eq_refl) as H1.
  pose proof (Z.mod_pos_bound c 65536 eq_refl) as H2.
  change 65535 with (Z.ones 16). rewrite !Z.land_ones by lia. change (2 ^ 16) with 65536.
  unfold UATTR_NOT_EMPTY. repeat split; try done; try lia.
Qed.

Lemma entry_cluster_low high low e :
  cluster_high e = Z.land (Z.shiftr high 16) 65535 -> cluster_low e = Z.land low 65535 ->
  0 <= high < 65536 -> 0 <= low < 65536 -> entry_cluster e = low.
Proof.
  intros Hh Hl H1 H2. unfold entry_cluster. rewrite Hh, Hl.
  change 65535 with (Z.ones 16). rewrite !Z.land_ones, Z.shiftr_div_pow2 by lia.
  change (2 ^ 16) with 65536. rewrite (Z.div_small high) by lia. cbn.
  rewrite (Z.mod_small low) by lia. apply u32_small. lia.
Qed.
