(* ===== verification/FatCreate.v ===== *)
(** Theorems about [write] of src/src/fat32.c as a whole: the file it creates,
    the requests it rejects, and reading back what was written. *)
From Stdlib Require Import ZArith Lia.
From stdpp Require Import base numbers option strings zmap functions list.
From S2P Require Import Prelude CString Disk FatTypes Fat32 FatView FatRead FatWrite.

(** ** The specification of a new file *)

(** The number of clusters of a file of [size] bytes. *)
Definition clusters_needed (size : Z) : Z := (size + CLUSTER_SIZE - 1) / CLUSTER_SIZE.

(** [V'] is [V] with a file of the request [r], its data taken from [u], in the
    clusters [l] and with entry [k] of the parent directory. *)
Record file_created (V V' : clusters) (u : mem) (r : request) (k : Z) (l : list Z) : Prop := {
  created_entry i : 0 <= i < 64 ->
    dir V' (parent_cluster_number r) i =
      if decide (i = k) then file_entry r (first_of l) else dir V (parent_cluster_number r) i;
  created_chain : chain (fat V') (first_of l) l;
  created_fat c : 0 <= c < CLUSTER_MAP_SIZE -> c ∉ l -> fat V' c = fat V c;
  created_data j c : l !! j = Some c ->
    V' c = data_cluster u (buf r) (buffer_size r) (Z.of_nat j);
  created_frame c : 0 <= c < CLUSTER_MAP_SIZE -> c ∉ l ->
    c <> FAT_CLUSTER_NUMBER -> c <> parent_cluster_number r -> V' c = V c;
}.

(** The first entry of a table that is not in use. *)
Definition dir_free (T : Z -> dirent) : option Z :=
  find_up (fun i => negb (user_attribute (T i) =? UATTR_NOT_EMPTY)) 0 64.

(** A directory in cluster [p] of an image: inside the table, not the table
    itself, allocated, and its own entry in use. *)
Definition directory (V : clusters) (p : Z) : Prop :=
  0 <= p < CLUSTER_MAP_SIZE /\ p <> FAT_CLUSTER_NUMBER /\ fat V p <> FAT32_FAT_EMPTY_ENTRY /\
  user_attribute (dir V p 0) = UATTR_NOT_EMPTY.

(** The state of the driver agrees with the table on the disk. *)
Definition fat_cached {D} `{DiskSpec D} (s : fs D) (V : clusters) : Prop :=
  forall c, 0 <= c < CLUSTER_MAP_SIZE -> cluster_map (memory s) c = fat V c.

(** ** Arithmetic *)

Lemma ceil_clusters size : 0 <= size -> ceil size CLUSTER_SIZE = clusters_needed size.
Proof.
  intros Hs. unfold ceil, clusters_needed. rewrite Z.gtb_ltb.
  pose proof (Z.div_mod size CLUSTER_SIZE). pose proof (Z.mod_pos_bound size CLUSTER_SIZE eq_refl).
  pose proof (Z.div_mod (size + CLUSTER_SIZE - 1) CLUSTER_SIZE).
  pose proof (Z.mod_pos_bound (size + CLUSTER_SIZE - 1) CLUSTER_SIZE eq_refl).
  destruct (Z.ltb_spec (size / CLUSTER_SIZE * CLUSTER_SIZE) size); fat_lia.
Qed.

Lemma clusters_needed_bounds size :
  0 < size -> 1 <= clusters_needed size /\
  (clusters_needed size - 1) * CLUSTER_SIZE < size <= clusters_needed size * CLUSTER_SIZE.
Proof.
  intros Hs. unfold clusters_needed.
  pose proof (Z.div_mod (size + CLUSTER_SIZE - 1) CLUSTER_SIZE).
  pose proof (Z.mod_pos_bound (size + CLUSTER_SIZE - 1) CLUSTER_SIZE eq_refl). fat_lia.
Qed.

Section Create.
Context {D : Type} `{DiskSpec D}.
Implicit Types (d : D) (V : clusters) (s : fs D).

(** ** The tables that [write] and [delete] load *)

(** [memory] holds the table of directory [p] and the cluster map of [V]; the
    rest is as it was in [m0]. *)
Definition tables_loaded (V : clusters) (p : Z) (m0 m : mem) : Prop :=
  window m dir_table_buf (obj (V p)) 0 2048 /\ window m 0 (obj (V FAT_CLUSTER_NUMBER)) 0 2048 /\
  window m cluster_buf m0 cluster_buf 2048.

Lemma wp_load_tables {A} p (k : M (fs D) A) V s (Q : A -> fs D -> Prop) :
  disk_is (disk s) V -> 0 <= p < CLUSTER_MAP_SIZE ->
  (forall s', disk_is (disk s') V -> user s' = user s ->
    tables_loaded V p (memory s) (memory s') -> wp k Q s') ->
  wp (read_clusters_memory dir_table_buf p 1 ;; read_clusters_memory fat_table 1 1 ;; k) Q s.
Proof.
  intros HV Hp HQ. apply wp_bind. eapply wp_read_memory; [exact HV|done|]. intros d1 Hd1.
  apply wp_bind. eapply wp_read_memory; [exact Hd1|fat_lia|]. intros d2 Hd2.
  apply HQ; [done..|]. cbn [memory disk].
  pose proof (disk_is_length _ _ _ HV Hp) as Hlp.
  pose proof (disk_is_length _ _ FAT_CLUSTER_NUMBER HV ltac:(fat_lia)) as Hlf.
  fold FAT_CLUSTER_NUMBER in *. unfold tables_loaded. repeat split.
  - eapply window_trans; [apply window_store_ne; right; rewrite Hlf; fat_lia|].
    apply window_store_obj. lia.
  - apply window_store_obj. lia.
  - eapply window_trans; apply window_store_ne; right; rewrite ?Hlf, ?Hlp; fat_lia.
Qed.

Lemma tables_entry V p m0 m i :
  tables_loaded V p m0 m -> 0 <= i < 64 -> table_entry m dir_table_buf i = dir V p i.
Proof. intros (Hw & _) Hi. by apply window_table_entry. Qed.

Lemma tables_map V p m0 m c :
  tables_loaded V p m0 m -> 0 <= c < CLUSTER_MAP_SIZE -> cluster_map m c = fat V c.
Proof. intros (_ & Hw & _) Hc. by apply window_cluster_map. Qed.

Lemma tables_find V p m0 m nm ex :
  tables_loaded V p m0 m -> length nm = 8%nat -> length ex = 3%nat ->
  find_entry m nm ex = dir_find (dir V p) nm ex.
Proof.
  intros Hl Hn He. rewrite find_entry_spec by done. apply dir_find_ext.
  intros i Hi. by eapply tables_entry.
Qed.

Lemma tables_free V p m0 m t :
  tables_loaded V p m0 m -> 0 <= t -> free_list (cluster_map m) t = free_list (fat V) t.
Proof. intros Hl Ht. apply free_list_ext. intros c Hc. eapply tables_map; [done|lia]. Qed.

(** ** Creating a file *)

(** The table written back by [write_file]: the entry [e] at [k], the others as
    they were loaded from the cluster [bs]. *)
Lemma written_table m m2 bs k e l i :
  dirent_ok e -> Forall (fun c => 0 <= c < CLUSTER_MAP_SIZE) l ->
  window m dir_table_buf (obj bs) 0 2048 ->
  window m2 0 (link (store m (dir_table_buf + 32 * k) (entry_bytes e)) (-1) l) 0 4096 -> 0 <= i < 64 ->
  table_entry (obj (load m2 dir_table_buf 2048)) 0 i = if decide (i = k) then e else table_entry (obj bs) 0 i.
Proof.
  intros He Hr0 Hdir Hm2 Hi. pose proof (length_entry_bytes e He) as Hlen. set (m1 := store m _ _) in *.
  rewrite (window_table_entry _ 0 m2 dir_table_buf) by (done || apply (window_obj_load m2 _ 2048)).
  rewrite (window_table_entry m2 dir_table_buf (link m1 (-1) l) dir_table_buf).
  2: { apply (window_sub _ 0 _ 0 4096 2048 2048); [exact Hm2|lia..]. } 2: done.
  rewrite (window_table_entry _ dir_table_buf m1 dir_table_buf) by (done || apply link_window; fat_lia || done).
  case_decide as Hik.
  - subst k. unfold table_entry, m1, entry_addr, sizeof_DirectoryEntry. by rewrite entry_at_store.
  - transitivity (table_entry m dir_table_buf i); [|by apply window_table_entry].
    apply window_entry_at, window_store_ne. rewrite Hlen. fat_lia.
Qed.

(** The clusters after the three kinds of writes of [write_file]. *)
Lemma file_created_intro V u r k l m m2 :
  request_ok r -> directory V (parent_cluster_number r) -> 0 <= k < 128 ->
  (forall c, c ∈ l -> fat V c = FAT32_FAT_EMPTY_ENTRY) -> NoDup l -> l <> [] ->
  Forall (fun c => 3 <= c < CLUSTER_MAP_SIZE) l ->
  window m dir_table_buf (obj (V (parent_cluster_number r))) 0 2048 ->
  window m 0 (obj (V FAT_CLUSTER_NUMBER)) 0 2048 ->
  window m2 0 (link (store m (dir_table_buf + 32 * k) (entry_bytes (file_entry r (first_of l)))) (-1) l) 0 4096 ->
  file_created V
    (<[parent_cluster_number r := load m2 dir_table_buf 2048]>
      (<[FAT_CLUSTER_NUMBER := load m2 fat_table 2048]>
        (put_data u (buf r) (buffer_size r) 0 l V))) u r k l /\
  (forall c, 0 <= c < CLUSTER_MAP_SIZE ->
     cluster_map m2 c = fat (<[parent_cluster_number r := load m2 dir_table_buf 2048]>
      (<[FAT_CLUSTER_NUMBER := load m2 fat_table 2048]>
        (put_data u (buf r) (buffer_size r) 0 l V))) c).
Proof.
  intros Hr (Hp & Hp1 & Hpf & Hpu) Hk Hfree Hnd Hne Hrange Hdir Hfat Hm2.
  set (p := parent_cluster_number r) in *. set (e := file_entry r (first_of l)) in *.
  set (m1 := store m _ _) in *.
  assert (He : dirent_ok e) by by apply file_entry_ok.
  assert (Hr0 : Forall (fun c => 0 <= c < CLUSTER_MAP_SIZE) l).
  { eapply Forall_impl; [exact Hrange|]. simpl. lia. }
  assert (Hp_l : p ∉ l) by (intros Hin; apply Hpf, Hfree, Hin).
  assert (H1_l : FAT_CLUSTER_NUMBER ∉ l).
  { intros Hin. rewrite Forall_forall in Hrange. specialize (Hrange _ Hin). fat_lia. }
  set (V' := <[p := _]> _).
  assert (HV1 : V' FAT_CLUSTER_NUMBER = load m2 fat_table 2048).
  { unfold V'. rewrite fn_lookup_insert_ne by done. by rewrite fn_lookup_insert. }
  assert (HVp : V' p = load m2 dir_table_buf 2048) by (unfold V'; by rewrite fn_lookup_insert).
  assert (Hmap : forall c, 0 <= c < CLUSTER_MAP_SIZE -> cluster_map m2 c = fat V' c).
  { intros c Hc. unfold fat. rewrite HV1. symmetry.
    apply window_cluster_map; [apply (window_obj_load m2 0 2048)|done]. }
  assert (Hlink : forall c, 0 <= c < CLUSTER_MAP_SIZE -> cluster_map m2 c = cluster_map (link m1 (-1) l) c).
  { intros c Hc. apply window_cluster_map; [|done]. intros x Hx. apply Hm2. lia. }
  assert (Hm1 : forall c, 0 <= c < CLUSTER_MAP_SIZE -> cluster_map m1 c = fat V c).
  { intros c Hc. unfold fat. rewrite <- (window_cluster_map m (obj (V FAT_CLUSTER_NUMBER))) by done.
    apply window_cluster_map; [|done]. apply window_store_ne. left. fat_lia. }
  split; [|exact Hmap]. split.
  - intros i Hi. unfold dir at 1. fold p. rewrite HVp. eapply written_table; [done|done|exact Hdir|exact Hm2|done].
  - destruct l as [|c l]; [done|]. cbn [first_of head default].
    apply (chain_ext (cluster_map (link m1 (-1) (c :: l)))).
    + intros x Hx. rewrite Forall_forall in Hr0. specialize (Hr0 x Hx).
      by rewrite <- Hmap, Hlink by done.
    + apply link_chain; [done| |done]. intros Hin. rewrite Forall_forall in Hr0.
      specialize (Hr0 _ Hin). lia.
  - intros c Hc Hcl. rewrite <- Hmap, Hlink by done. rewrite link_map_other by (done || lia).
    by apply Hm1.
  - intros j c Hj. assert (Hin : c ∈ l) by by apply list_elem_of_lookup_2 with j.
    assert (c <> p) by (intros ->; done). assert (c <> FAT_CLUSTER_NUMBER) by (intros ->; done).
    unfold V'. rewrite !fn_lookup_insert_ne by (apply not_eq_sym; assumption).
    by rewrite (put_data_lookup _ _ _ _ _ _ j) by done.
  - intros c Hc Hcl H1 Hcp. unfold V'. rewrite !fn_lookup_insert_ne by (apply not_eq_sym; assumption).
    by apply put_data_other.
Qed.

Lemma free_list_from_head f t c L : free_list f t = c :: L -> free_list f c = c :: L.
Proof.
  intros HL. destruct (free_list_cons _ _ _ _ HL) as (HL' & Hc & Hf).
  rewrite free_list_unfold by lia. by rewrite decide_True, HL'.
Qed.

Lemma take_first_of n c (L : list Z) : (0 < n)%nat -> first_of (take n (c :: L)) = c.
Proof. by destruct n; [lia|]. Qed.

(** The clusters that a new file takes are free, in range and distinct. *)
Lemma taken_clusters V n L : free_list (fat V) 3 = L ->
  (forall x, x ∈ take n L -> x ∈ free_list (fat V) 3) /\
  Forall (fun x => 3 <= x < CLUSTER_MAP_SIZE) (take n L) /\ NoDup (take n L).
Proof.
  intros HL. assert (Hin : forall x, x ∈ take n L -> x ∈ free_list (fat V) 3).
  { intros x Hx. rewrite HL. apply elem_of_take in Hx as (i & Hi & _). by apply list_elem_of_lookup_2 in Hi. }
  split; [done|]. split.
  - apply Forall_forall. intros x Hx. by apply Hin, elem_of_free_list in Hx as (_ & Hx).
  - eapply sublist_NoDup; [|apply sublist_take]. rewrite <- HL. apply NoDup_free_list.
Qed.

(** [write_file], the directory slot [k] found; the slot may lie past the end
    of the table, in the part of [memory] behind it. *)
Lemma wp_write_file r V s m0 k c L (Q : Z -> fs D -> Prop) :
  request_ok r -> disk_is (disk s) V -> directory V (parent_cluster_number r) ->
  tables_loaded V (parent_cluster_number r) m0 (memory s) ->
  0 < buffer_size r < 2147483648 -> 0 <= k < 128 ->
  (forall i, (0 <= i < k) -> table_user_attribute (memory s) dir_table_buf i = UATTR_NOT_EMPTY) ->
  table_user_attribute (memory s) dir_table_buf k <> UATTR_NOT_EMPTY ->
  free_list (fat V) 3 = c :: L ->
  clusters_needed (buffer_size r) <= Z.of_nat (length (c :: L)) ->
  (forall s' V', disk_is (disk s') V' -> user s' = user s -> fat_cached s' V' ->
     file_created V V' (user s) r k (take (Z.to_nat (clusters_needed (buffer_size r))) (c :: L)) -> Q 0 s') ->
  wp (write_file r c) Q s.
Proof.
  intros Hr HV Hdir Hl Hsize Hk Hocc Hslot HL Hneed HQ. unfold write_file.
  apply wp_bind, (wp_scan_slot _ _ _ k); [lia|lia|unfold scan_fuel; lia| |by left|].
  { intros i Hi. split; [apply Hocc; lia|done]. }
  rewrite ceil_clusters by lia. destruct (clusters_needed_bounds (buffer_size r)) as [Hn1 Hn2]; [lia|].
  set (n := clusters_needed (buffer_size r)) in *. cbv zeta.
  assert (HLm : free_list (cluster_map (memory s)) c = c :: L).
  { erewrite tables_free; [by apply free_list_from_head with 3|exact Hl|].
    destruct (free_list_cons _ _ _ _ HL) as (_ & Hc & _). lia. }
  destruct (free_list_cons _ _ _ _ HL) as (_ & Hc & _).
  assert (Hlen : length (take (Z.to_nat n) (c :: L)) = Z.to_nat n).
  { rewrite length_take. lia. }
  set (l := take (Z.to_nat n) (c :: L)) in *.
  assert (Hl0 : l = c :: take (pred (Z.to_nat n)) L).
  { unfold l. by replace (Z.to_nat n) with (S (pred (Z.to_nat n))) at 1 by lia. }
  destruct (taken_clusters _ (Z.to_nat n) _ HL) as (Hin & Hrange & Hnd). fold l in Hin, Hrange, Hnd.
  apply wp_bind. replace n with (Z.of_nat (S (pred (Z.to_nat n)))) at 1 by lia.
  replace (Z.to_nat n) with (S (pred (Z.to_nat n))) by lia.
  eapply wp_alloc_ok; [done|lia|intros; by apply file_entry_ok|exact HLm|simpl in Hneed; lia|].
  rewrite <- Hl0. apply wp_bind. rewrite i32_small by lia.
  replace (buffer_size r) with (buffer_size r - 0 * CLUSTER_SIZE) at 1 by lia.
  replace (S (pred (Z.to_nat n))) with (length l) by lia.
  assert (Hr0 : Forall (fun c => 0 <= c < CLUSTER_MAP_SIZE) l).
  { eapply Forall_impl; [exact Hrange|]. simpl. lia. }
  eapply wp_data_loop; [exact HV| |lia|rewrite Hlen; lia|].
  { cbn [memory set_memory]. rewrite Hl0. apply link_chain; rewrite <- Hl0; [done| |done].
    intros Hx. rewrite Forall_forall in Hr0. specialize (Hr0 _ Hx). lia. }
  cbn [memory set_memory user]. intros s1 Hd1 Hu1 Hw1.
  apply wp_bind. eapply wp_write_memory; [exact Hd1|fat_lia|]. intros d2 Hd2.
  apply wp_bind. destruct Hdir as (Hp & Hdir').
  eapply wp_write_memory; [exact Hd2|done|]. intros d3 Hd3. apply wp_ret.
  cbn [memory set_disk disk] in *.
  assert (Hc0 : first_of l = c) by by rewrite Hl0.
  destruct (file_created_intro V (user s) r k l (memory s) (memory s1)) as [Hcr Hmap]; try done.
  { intros x Hx. by apply Hin, elem_of_free_list in Hx as (Hx & _). }
  { by rewrite Hl0. }
  { apply Hl. }
  { apply Hl. }
  { by rewrite Hc0. }
  eapply HQ; [exact Hd3|exact Hu1|exact Hmap|exact Hcr].
Qed.

(** The steps of [write] that come before the file or directory is created. *)
Lemma wp_write_checks r V s (Q : Z -> fs D -> Prop) :
  request_ok r -> disk_is (disk s) V -> 0 <= parent_cluster_number r < CLUSTER_MAP_SIZE ->
  (forall s1, disk_is (disk s1) V -> user s1 = user s ->
     tables_loaded V (parent_cluster_number r) (memory s) (memory s1) ->
     match free_list (fat V) 3 with
     | [] => Q (-1) s1
     | c :: _ =>
         if user_attribute (dir V (parent_cluster_number r) 0) =? UATTR_NOT_EMPTY then
           match dir_find (dir V (parent_cluster_number r)) (req_name r) (req_ext r) with
           | Some _ => Q 1 s1
           | None => wp (if buffer_size r =? 0 then write_directory r else write_file r c) Q s1
           end
         else Q (-1) s1
     end) ->
  wp (write r) Q s.
Proof.
  intros (Hn & He & _) HV Hp HQ. unfold write. eapply wp_load_tables; [exact HV|done|].
  intros s1 Hd1 Hu1 Hl. specialize (HQ s1 Hd1 Hu1 Hl).
  apply wp_bind, wp_scan_free; [fat_lia|unfold scan_fuel; fat_lia|].
  change (ROOT_CLUSTER_NUMBER + 1) with 3. rewrite (tables_free _ _ _ _ 3 Hl) by lia.
  destruct (free_list (fat V) 3) as [|c L] eqn:HL; [done|].
  destruct (free_list_cons _ _ _ _ HL) as (_ & Hc & _).
  change (first_of (c :: L)) with c. rewrite (proj2 (Z.eqb_neq c CLUSTER_MAP_SIZE)) by lia.
  apply wp_bind, wp_gets. unfold table_user_attribute. rewrite (tables_entry _ _ _ _ 0 Hl) by lia.
  rewrite (tables_find _ _ _ _ _ _ Hl) by done.
  by repeat case_match.
Qed.

(** A file written into a directory with room. *)
Lemma wp_write_new r V s k (Q : Z -> fs D -> Prop) :
  request_ok r -> disk_is (disk s) V -> directory V (parent_cluster_number r) ->
  0 < buffer_size r < 2147483648 ->
  dir_find (dir V (parent_cluster_number r)) (req_name r) (req_ext r) = None ->
  dir_free (dir V (parent_cluster_number r)) = Some k ->
  clusters_needed (buffer_size r) <= Z.of_nat (length (free_list (fat V) 3)) ->
  (forall s' V', disk_is (disk s') V' -> user s' = user s -> fat_cached s' V' ->
     file_created V V' (user s) r k
       (take (Z.to_nat (clusters_needed (buffer_size r))) (free_list (fat V) 3)) -> Q 0 s') ->
  wp (write r) Q s.
Proof.
  intros Hr HV Hdir Hsize Hfind Hfree Hneed HQ.
  apply find_up_Some in Hfree as (Hk & Hku & Hbelow).
  assert (Hneed1 := clusters_needed_bounds (buffer_size r) ltac:(lia)).
  destruct (free_list (fat V) 3) as [|c L] eqn:HL; [simpl in Hneed; lia|].
  apply (wp_write_checks r V); [done|done|apply Hdir|]. intros s1 Hd1 Hu1 Hl.
  rewrite HL, Hfind. destruct Hdir as (Hp & Hdir'). rewrite (proj2 (proj2 Hdir')), Z.eqb_refl.
  rewrite (proj2 (Z.eqb_neq (buffer_size r) 0)) by lia.
  eapply (wp_write_file r V s1 (memory s) k); [exact Hr|exact Hd1|done|exact Hl|done|lia| | |exact HL|done|].
  - intros i Hi. unfold table_user_attribute. rewrite (tables_entry _ _ _ _ i Hl) by lia.
    specialize (Hbelow i Hi). apply negb_false_iff, Z.eqb_eq in Hbelow. done.
  - unfold table_user_attribute. rewrite (tables_entry _ _ _ _ k Hl) by lia.
    apply negb_true_iff, Z.eqb_neq in Hku. done.
  - intros s' V' Hd' Hu' Hc' Hcr. apply (HQ s' V'); [exact Hd'|congruence|exact Hc'|].
    by rewrite <- Hu1.
Qed.

(** C6: [write] of a file: in a directory without an entry of that name and with
    an unused one, and with enough free clusters, it returns 0; the first unused
    entry now describes the file, the first free clusters are its chain and hold
    its bytes filled up with zeros, the cached cluster map is the one on the
    disk, and nothing else on the disk has changed. *)
Theorem write_file_ok r V s k :
  request_ok r -> disk_is (disk s) V -> directory V (parent_cluster_number r) ->
  0 < buffer_size r < 2147483648 ->
  dir_find (dir V (parent_cluster_number r)) (req_name r) (req_ext r) = None ->
  dir_free (dir V (parent_cluster_number r)) = Some k ->
  clusters_needed (buffer_size r) <= Z.of_nat (length (free_list (fat V) 3)) ->
  exists s' V',
    write r s = Ret (0, s') /\ disk_is (disk s') V' /\ user s' = user s /\ fat_cached s' V' /\
    file_created V V' (user s) r k
      (take (Z.to_nat (clusters_needed (buffer_size r))) (free_list (fat V) 3)).
Proof.
  intros Hr HV Hdir Hsize Hfind Hfree Hneed.
  enough (Hwp : wp (write r) (fun a s' => a = 0 /\ exists V', disk_is (disk s') V' /\ user s' = user s /\
    fat_cached s' V' /\ file_created V V' (user s) r k
      (take (Z.to_nat (clusters_needed (buffer_size r))) (free_list (fat V) 3))) s).
  { apply wp_elim in Hwp as (a & s' & Hw & -> & V' & HV'). eauto. }
  eapply wp_write_new; [exact Hr|exact HV|exact Hdir|exact Hsize|exact Hfind|exact Hfree|exact Hneed|].
  intros s' V' Hd Hu Hc Hcr. eauto 10.
Qed.

(** a full directory is not detected when a file is created: the search for
    an unused entry has no bound, runs into the rest of the driver's memory and
    stops at an index [k] past the table.  [write] then returns 0, and the chain
    of the file is taken from the free clusters and filled, but no entry of the
    directory describes it. *)
Theorem write_file_full_directory r V s k :
  request_ok r -> disk_is (disk s) V -> directory V (parent_cluster_number r) ->
  0 < buffer_size r < 2147483648 ->
  dir_find (dir V (parent_cluster_number r)) (req_name r) (req_ext r) = None ->
  dir_free (dir V (parent_cluster_number r)) = None ->
  64 <= k < 128 ->
  (forall i, (64 <= i < k) -> table_user_attribute (memory s) dir_table_buf i = UATTR_NOT_EMPTY) ->
  table_user_attribute (memory s) dir_table_buf k <> UATTR_NOT_EMPTY ->
  clusters_needed (buffer_size r) <= Z.of_nat (length (free_list (fat V) 3)) ->
  exists s' V',
    write r s = Ret (0, s') /\ disk_is (disk s') V' /\
    (forall i, (0 <= i < 64) -> dir V' (parent_cluster_number r) i = dir V (parent_cluster_number r) i) /\
    chain (fat V') (first_of (free_list (fat V) 3))
      (take (Z.to_nat (clusters_needed (buffer_size r))) (free_list (fat V) 3)).
Proof.
  intros Hr HV Hdir Hsize Hfind Hfull Hk Hocc Hslot Hneed.
  assert (Hneed1 := clusters_needed_bounds (buffer_size r) ltac:(lia)).
  destruct (free_list (fat V) 3) as [|c L] eqn:HL; [simpl in Hneed; lia|].
  enough (Hwp : wp (write r) (fun a s' => a = 0 /\ exists V', disk_is (disk s') V' /\
    file_created V V' (user s) r k (take (Z.to_nat (clusters_needed (buffer_size r))) (c :: L))) s).
  { apply wp_elim in Hwp as (a & s' & Hw & -> & V' & HV' & Hcr). exists s', V'.
    split; [done|]. split; [done|]. split.
    - intros i Hi. rewrite (created_entry _ _ _ _ _ _ Hcr) by done. by rewrite decide_False by lia.
    - pose proof (created_chain _ _ _ _ _ _ Hcr) as Hch.
      rewrite take_first_of in Hch by lia. done. }
  apply (wp_write_checks r V); [done|done|apply Hdir|]. intros s1 Hd1 Hu1 Hl.
  rewrite HL, Hfind. destruct Hdir as (Hp & Hdir'). rewrite (proj2 (proj2 Hdir')), Z.eqb_refl.
  rewrite (proj2 (Z.eqb_neq (buffer_size r) 0)) by lia.
  assert (Hbehind : forall i, 64 <= i < 128 -> table_user_attribute (memory s1) dir_table_buf i =
    table_user_attribute (memory s) dir_table_buf i).
  { intros i Hi. unfold table_user_attribute, table_entry. f_equal. apply window_entry_at.
    destruct Hl as (_ & _ & Hw).
    replace (entry_addr dir_table_buf i) with (cluster_buf + 32 * (i - 64)) by fat_lia.
    apply (window_sub _ _ _ _ 2048); [done|lia..]. }
  eapply (wp_write_file r V s1 (memory s) k); [exact Hr|exact Hd1|done|exact Hl|done|lia| | |exact HL|done|].
  - intros i Hi. destruct (decide (i < 64)).
    + unfold table_user_attribute. rewrite (tables_entry _ _ _ _ i Hl) by lia.
      apply find_up_None with (j := i) in Hfull; [|lia]. by apply negb_false_iff, Z.eqb_eq in Hfull.
    + rewrite Hbehind by lia. apply Hocc. lia.
  - by rewrite Hbehind.
  - intros s' V' Hd' Hu' Hc' Hcr. split; [done|]. exists V'. rewrite Hu1 in *. done.
Qed.

(** The code that [write] answers with when it creates nothing, [None] when it
    creates the file or directory. *)
Definition write_rejects (V : clusters) (r : request) : option Z :=
  if bool_decide (free_list (fat V) 3 = []) then Some (-1)
  else if negb (user_attribute (dir V (parent_cluster_number r) 0) =? UATTR_NOT_EMPTY) then Some (-1)
  else if dir_find (dir V (parent_cluster_number r)) (req_name r) (req_ext r) is Some _ then Some 1
  else if buffer_size r =? 0 then
    (if dir_free (dir V (parent_cluster_number r)) is None then Some (-1) else None)
  else if Z.of_nat (length (free_list (fat V) 3)) <? clusters_needed (buffer_size r) then Some (-1)
  else None.

(** The one request whose search for an entry leaves the table: a new file in a
    directory that is full, when there is a free cluster. *)
Definition overruns (V : clusters) (r : request) : Prop :=
  free_list (fat V) 3 <> [] /\ user_attribute (dir V (parent_cluster_number r) 0) = UATTR_NOT_EMPTY /\
  dir_find (dir V (parent_cluster_number r)) (req_name r) (req_ext r) = None /\
  buffer_size r <> 0 /\ dir_free (dir V (parent_cluster_number r)) = None.

(** The rejected requests of [write] as a rule. *)
Lemma wp_write_rejected r V s code :
  request_ok r -> disk_is (disk s) V -> 0 <= parent_cluster_number r < CLUSTER_MAP_SIZE -> ~ overruns V r ->
  write_rejects V r = Some code ->
  wp (write r) (fun a s' => a = code /\ disk_is (disk s') V /\ user s' = user s) s.
Proof.
  intros Hr HV Hp Hover Hrej.
  apply (wp_write_checks r V); [done|done|done|]. intros s1 Hd1 Hu1 Hl. unfold write_rejects in Hrej. unfold overruns in Hover.
  destruct (free_list (fat V) 3) as [|c L] eqn:HL; [by injection Hrej as <-|].
  rewrite bool_decide_eq_false_2 in Hrej by done.
  destruct (Z.eqb_spec (user_attribute (dir V (parent_cluster_number r) 0)) UATTR_NOT_EMPTY) as [Hua|]; cbn [negb] in Hrej; [|by injection Hrej as <-].
  destruct (dir_find _ _ _) as [i|] eqn:Hfind; [by injection Hrej as <-|].
  destruct (Z.eqb_spec (buffer_size r) 0) as [E|E].
  - destruct (dir_free _) as [k|] eqn:Hfull; [done|]. injection Hrej as <-. unfold write_directory.
    apply wp_bind, (wp_scan_slot _ _ _ 64); [lia|lia|unfold scan_fuel; lia| |by right|].
    + intros i Hi. split; [|lia]. unfold table_user_attribute. rewrite (tables_entry _ _ _ _ i Hl) by lia.
      apply find_up_None with (j := i) in Hfull; [|lia]. by apply negb_false_iff, Z.eqb_eq in Hfull.
    + by apply wp_ret.
  - destruct (Z.ltb_spec (Z.of_nat (length (c :: L))) (clusters_needed (buffer_size r))) as [Hlt|]; [|done].
    injection Hrej as <-. unfold write_file. destruct (dir_free _) as [k|] eqn:Hk; [|by destruct Hover].
    apply find_up_Some in Hk as (Hk & Hku & Hbelow).
    apply wp_bind, (wp_scan_slot _ _ _ k); [lia|lia|unfold scan_fuel; lia| |left|].
    { intros i Hi. split; [|done]. unfold table_user_attribute. rewrite (tables_entry _ _ _ _ i Hl) by lia.
      specialize (Hbelow i Hi). by apply negb_false_iff, Z.eqb_eq in Hbelow. }
    { unfold table_user_attribute. rewrite (tables_entry _ _ _ _ k Hl) by lia.
      by apply negb_true_iff, Z.eqb_neq in Hku. }
    destruct (free_list_cons _ _ _ _ HL) as (_ & Hc & _).
    rewrite ceil_clusters by apply Hr. apply wp_bind, wp_alloc_full; [lia|intros; by apply file_entry_ok|fat_lia|lia|lia| |].
    + erewrite tables_free, free_list_from_head by (done || lia). lia.
    + intros m. by apply wp_ret.
Qed.

(** C37: a rejected [write] leaves no trace: with no free cluster, in a parent
    whose own entry is not in use, for a name that exists, for a directory when
    the parent is full, and for a file larger than the free space, it returns
    the error code and neither the disk nor the caller's memory has changed.
    (An invalid parent gives -1, not the documented 2.)  The one request left out
    is a new file in a full directory, where the search for a free entry has no
    bound and leaves the table ([overruns]); a file in a full directory whose
    name exists is rejected like any other. *)
Theorem write_rejected r V s code :
  request_ok r -> disk_is (disk s) V -> 0 <= parent_cluster_number r < CLUSTER_MAP_SIZE -> ~ overruns V r ->
  write_rejects V r = Some code ->
  exists s', write r s = Ret (code, s') /\ disk_is (disk s') V /\ user s' = user s.
Proof.
  intros Hr HV Hp Hover Hrej.
  pose proof (wp_write_rejected r V s code Hr HV Hp Hover Hrej) as Hwp.
  apply wp_elim in Hwp as (a & s' & Hw & -> & Hs'). eauto.
Qed.

End Create.

(** ** Reading back *)

(** The clusters of the data, put together. *)
Lemma concat_data_clusters u ptr size i n :
  0 <= i -> (i + Z.of_nat (S n) - 1) * CLUSTER_SIZE < size <= (i + Z.of_nat (S n)) * CLUSTER_SIZE ->
  concat ((fun j => data_cluster u ptr size (i + Z.of_nat j)) <$> seq 0 (S n)) =
  load u (ptr + i * CLUSTER_SIZE) (Z.to_nat (size - i * CLUSTER_SIZE)) ++
  zeros (Z.to_nat ((i + Z.of_nat (S n)) * CLUSTER_SIZE - size)).
Proof.
  revert i. induction n as [|n IH]; intros i Hi Hsize.
  - cbn [seq fmap list_fmap concat]. rewrite app_nil_r, Z.add_0_r. unfold data_cluster.
    rewrite Z.min_r by lia. do 2 f_equal. fat_lia.
  - replace (seq 0 (S (S n))) with (0%nat :: (S <$> seq 0 (S n))) by by rewrite fmap_S_seq.
    rewrite fmap_cons. cbn [concat]. rewrite <- list_fmap_compose.
    rewrite (list_fmap_ext _ (fun j => data_cluster u ptr size (i + 1 + Z.of_nat j))).
    2: { intros k j _. unfold compose. f_equal. lia. }
    rewrite IH by lia. rewrite Z.add_0_r, app_assoc. unfold data_cluster. f_equal.
    + rewrite Z.min_l by fat_lia.
      replace (Z.to_nat (size - i * CLUSTER_SIZE))
        with (Z.to_nat CLUSTER_SIZE + Z.to_nat (size - (i + 1) * CLUSTER_SIZE))%nat by fat_lia.
      rewrite load_app. change (2048 - Z.to_nat CLUSTER_SIZE)%nat with 0%nat. cbn [zeros replicate].
      rewrite app_nil_r. f_equal. f_equal. fat_lia.
    + do 2 f_equal. lia.
Qed.

Lemma created_concat V V' u r k l :
  file_created V V' u r k l -> Z.of_nat (length l) = clusters_needed (buffer_size r) -> 0 < buffer_size r ->
  concat (V' <$> l) = load u (buf r) (Z.to_nat (buffer_size r)) ++
    zeros (Z.to_nat (clusters_needed (buffer_size r) * CLUSTER_SIZE - buffer_size r)).
Proof.
  intros Hcr Hlen Hsize. destruct (clusters_needed_bounds _ Hsize) as [Hn1 Hn2].
  destruct (length l) as [|n] eqn:Hl; [lia|].
  replace (V' <$> l) with ((fun j => data_cluster u (buf r) (buffer_size r) (0 + Z.of_nat j)) <$> seq 0 (S n)).
  - rewrite concat_data_clusters by lia. rewrite Z.mul_0_l, Z.add_0_r, Z.sub_0_r.
    do 3 f_equal. lia.
  - apply list_eq_same_length with (n := S n); rewrite ?length_fmap, ?length_seq; try done.
    intros i x y Hi. rewrite !list_lookup_fmap, lookup_seq_lt by done.
    destruct (lookup_lt_is_Some_2 l i ltac:(lia)) as [c Hc]. rewrite Hc. intros [= <-] [= <-].
    by rewrite (created_data _ _ _ _ _ _ Hcr i c Hc).
Qed.

Section RoundTrip.
Context {D : Type} `{DiskSpec D}.
Implicit Types (V : clusters) (s : fs D).

(** The same file asked for again, into the buffer at [ptr]. *)
Definition read_request (r : request) (ptr size : Z) : request :=
  Request ptr (req_name r) (req_ext r) (parent_cluster_number r) size.

(** The created entry is the one a search by name finds. *)
Lemma created_find V V' u r k l :
  file_created V V' u r k l -> 0 <= k < 64 ->
  dir_find (dir V (parent_cluster_number r)) (req_name r) (req_ext r) = None ->
  dir_find (dir V' (parent_cluster_number r)) (req_name r) (req_ext r) = Some k.
Proof.
  intros Hcr Hk Hnone. apply find_up_Some. split; [lia|]. split.
  - rewrite (created_entry _ _ _ _ _ _ Hcr), decide_True by done. by apply bool_decide_eq_true.
  - intros j Hj. rewrite (created_entry _ _ _ _ _ _ Hcr), decide_False by lia.
    apply bool_decide_eq_false. intros [Hn He].
    by apply (dir_find_None _ _ _ j Hnone ltac:(lia) Hn).
Qed.

(** C7: round trip: a file whose size is not a multiple of the cluster size (the
    read of any other is undefined), written and then read back under its name,
    gives the bytes that were written, followed by zeros up to the end of its last
    cluster.  The size given for the read is any but 0 and does not limit what is
    copied ([read_ignores_buffer_size]). *)
Theorem write_read_roundtrip r V s k ptr size :
  request_ok r -> disk_is (disk s) V -> directory V (parent_cluster_number r) ->
  0 < buffer_size r < 2147483648 -> buffer_size r mod CLUSTER_SIZE <> 0 ->
  dir_find (dir V (parent_cluster_number r)) (req_name r) (req_ext r) = None ->
  dir_free (dir V (parent_cluster_number r)) = Some k ->
  clusters_needed (buffer_size r) <= Z.of_nat (length (free_list (fat V) 3)) ->
  0 < size < 4294967296 ->
  exists s1 s2,
    write r s = Ret (0, s1) /\ read (read_request r ptr size) s1 = Ret (0, s2) /\
    user s2 = store (user s) ptr
      (load (user s) (buf r) (Z.to_nat (buffer_size r)) ++
       zeros (Z.to_nat (clusters_needed (buffer_size r) * CLUSTER_SIZE - buffer_size r))).
Proof.
  intros Hr HV Hdir Hsize Hmod Hfind Hfree Hneed Hsz.
  enough (Hwp : wp (write r) (fun a s1 => a = 0 /\ exists s2, read (read_request r ptr size) s1 = Ret (0, s2) /\
    user s2 = store (user s) ptr (load (user s) (buf r) (Z.to_nat (buffer_size r)) ++
       zeros (Z.to_nat (clusters_needed (buffer_size r) * CLUSTER_SIZE - buffer_size r)))) s).
  { apply wp_elim in Hwp as (a & s1 & Hw & -> & s2 & Hs2). eauto. }
  eapply wp_write_new; [exact Hr|exact HV|exact Hdir|exact Hsize|exact Hfind|exact Hfree|exact Hneed|].
  intros s1 V' HV' Hu Hcache Hcr. split; [done|]. set (l := take _ _) in Hcr.
  destruct (clusters_needed_bounds (buffer_size r)) as [Hn1 Hn2]; [lia|].
  assert (Hlen : Z.of_nat (length l) = clusters_needed (buffer_size r)).
  { unfold l. rewrite length_take. lia. }
  assert (Hk : 0 <= k < 64) by (apply find_up_Some in Hfree; lia).
  assert (Hentry : dir V' (parent_cluster_number r) k = file_entry r (first_of l)).
  { rewrite (created_entry _ _ _ _ _ _ Hcr) by done. by rewrite decide_True. }
  pose proof (created_chain _ _ _ _ _ _ Hcr) as Hch.
  assert (Hfirst : 0 <= first_of l < CLUSTER_MAP_SIZE) by (inversion Hch; done).
  assert (Hec : entry_cluster (file_entry r (first_of l)) = first_of l).
  { eapply entry_cluster_low; [done|done|fat_lia..]. }
  enough (Hwp : wp (read (read_request r ptr size)) (fun a s2 => a = 0 /\
    user s2 = store (user s1) ptr (concat (V' <$> l))) s1).
  { apply wp_elim in Hwp as (a & s2 & Hr2 & -> & Hu2). exists s2. split; [done|]. rewrite Hu2, Hu.
    f_equal. eapply created_concat; [exact Hcr|exact Hlen|lia]. }
  apply (wp_read_file (read_request r ptr size) V' s1 k l).
  - destruct Hr as (Hn & He & Hpr & _). repeat split; try done; cbn; lia.
  - done.
  - apply Hdir.
  - cbn. by apply (created_find V V' (user s) r k l).
  - unfold readable. cbn [parent_cluster_number read_request buffer_size]. rewrite Hentry. cbn.
    apply negb_true_iff, Z.eqb_neq. lia.
  - cbn [parent_cluster_number read_request]. rewrite Hentry, Hec.
    apply (chain_ext (fat V')); [|done]. intros x Hx. apply Hcache.
    pose proof (chain_range _ _ _ Hch) as Hrg. rewrite Forall_forall in Hrg. by apply Hrg.
  - cbn [parent_cluster_number read_request]. rewrite Hentry, Hlen. cbn [filesize file_entry].
    pose proof (Z.div_mod (buffer_size r) CLUSTER_SIZE ltac:(done)).
    pose proof (Z.mod_pos_bound (buffer_size r) CLUSTER_SIZE eq_refl). fat_lia.
  - intros s2 Hu2 _ _. done.
Qed.

End RoundTrip.
