(* ===== verification/FatSample.v ===== *)
(** A concrete image of the file system, on which the theorems about fat32.c
    are applied: a root directory with a small file, a sub-directory that is
    full and a file of exactly one cluster. *)
From Stdlib Require Import ZArith Lia.
From stdpp Require Import base numbers option strings zmap functions list.
From S2P Require Import Prelude CString Disk FatTypes Fat32 FatView FatRead FatWrite FatCreate.

(** ** Images read directly *)

Lemma image_cluster_window d p :
  0 <= p < CLUSTER_MAP_SIZE ->
  window (obj (cluster (D := Inserter.image) d p)) 0 (Inserter.image_storage d) (2048 * p) 2048.
Proof.
  intros Hp. unfold cluster. cbn [sector inserter_spec].
  replace (sectors (image_sector d) (4 * p) 4) with (load (Inserter.image_storage d) (2048 * p) 2048).
  - apply (window_obj_load _ _ 2048).
  - replace 2048%nat with (4 * Z.to_nat BLOCK_SIZE)%nat by done.
    rewrite <- (sectors_load _ _ (4 * p) 4). apply sectors_ext. intros b Hb.
    unfold image_sector. f_equal. fat_lia.
Qed.

Lemma image_dir d p i :
  0 <= p < CLUSTER_MAP_SIZE -> 0 <= i < 64 ->
  dir (cluster (D := Inserter.image) d) p i = entry_at (Inserter.image_storage d) (2048 * p + 32 * i).
Proof.
  intros Hp Hi. unfold dir.
  rewrite (window_table_entry _ 0 (Inserter.image_storage d) (2048 * p)); [done| |done].
  by apply image_cluster_window.
Qed.

Lemma image_fat d c :
  0 <= c < CLUSTER_MAP_SIZE ->
  fat (cluster (D := Inserter.image) d) c = load_le 4 (Inserter.image_storage d) (2048 + 4 * c).
Proof.
  intros Hc. unfold fat, cluster_map, load_le. f_equal.
  rewrite <- (Z.add_0_l (fat_table + _)). unfold fat_table. rewrite Z.add_0_l.
  apply (window_load _ 0 _ 2048 2048); [|fat_lia..].
  apply (image_cluster_window d FAT_CLUSTER_NUMBER). fat_lia.
Qed.

Lemma image_dir_find d p nm ex :
  0 <= p < CLUSTER_MAP_SIZE ->
  dir_find (dir (cluster (D := Inserter.image) d) p) nm ex =
    dir_find (fun i => entry_at (Inserter.image_storage d) (2048 * p + 32 * i)) nm ex.
Proof. intros Hp. apply dir_find_ext. intros i Hi. by apply image_dir. Qed.

Lemma image_dir_free d p :
  0 <= p < CLUSTER_MAP_SIZE ->
  dir_free (dir (cluster (D := Inserter.image) d) p) =
    dir_free (fun i => entry_at (Inserter.image_storage d) (2048 * p + 32 * i)).
Proof. intros Hp. apply find_up_ext. intros i Hi. by rewrite image_dir by lia. Qed.

(** One free cluster is enough for a small file. *)
Lemma free_list_pos f c :
  3 <= c < CLUSTER_MAP_SIZE -> f c = FAT32_FAT_EMPTY_ENTRY -> (1 <= length (free_list f 3))%nat.
Proof.
  intros Hc Hf. destruct (free_list f 3) eqn:E; [|simpl; lia].
  assert (Hin : c ∈ free_list f 3) by (apply elem_of_free_list; split; [done|lia]).
  rewrite E in Hin. by apply elem_of_nil in Hin.
Qed.

(** ** The image *)

Module Sample.

Definition pad (n : nat) (s : list byte) : list byte := take n (s ++ zeros n).
Definition nm (s : list byte) : list byte := pad 8 s.

Definition a_txt (size : Z) : request := Request 0 (nm (cstring "a")) (cstring "txt") 2 size.
Definition whole (size : Z) : request := Request 0 (nm (cstring "whole")) (zeros 3) 2 size.
Definition sub (size : Z) : request := Request 0 (nm (cstring "sub")) (zeros 3) 2 size.
Definition absent (parent size : Z) : request := Request 0 (nm (cstring "b")) (zeros 3) parent size.

Definition root_table : list dirent :=
  [self_entry 2 (nm (cstring "root")); with_name dot_dot (self_entry 2 (nm (cstring "root")));
   file_entry (a_txt 5) 3; self_entry 4 (nm (cstring "sub")); file_entry (whole 2048) 5;
   self_entry 6 (nm (cstring "empty"))].

Definition full_table : list dirent := replicate 64 (self_entry 4 (nm (cstring "sub"))).

Definition empty_table : list dirent :=
  [self_entry 6 (nm (cstring "empty")); with_name dot_dot (self_entry 2 (nm (cstring "root")))].

Definition map_bytes : list byte :=
  concat (le_bytes 4 <$> [CLUSTER_0_VALUE; CLUSTER_1_VALUE; FAT32_FAT_END_OF_FILE;
    FAT32_FAT_END_OF_FILE; FAT32_FAT_END_OF_FILE; FAT32_FAT_END_OF_FILE; FAT32_FAT_END_OF_FILE]).

Definition image : Inserter.image :=
  Inserter.Image
    (store (store (store (store (store ∅ 2048 map_bytes) 4096 (concat (entry_bytes <$> root_table)))
       6144 (cstring "data!")) 8192 (concat (entry_bytes <$> full_table)))
       12288 (concat (entry_bytes <$> empty_table))).

Definition V : clusters := cluster image.

(** The driver after it has loaded the cluster map; the user's memory holds
    eight bytes. *)
Definition state : fs Inserter.image := Fs (store ∅ 0 map_bytes) image (store ∅ 0 (cstring "contents")).

End Sample.

Lemma sample_disk : disk_is (disk Sample.state) Sample.V.
Proof. by apply disk_is_cluster. Qed.

Lemma sample_directory p :
  p = 2 \/ p = 4 -> directory Sample.V p.
Proof.
  intros Hp. unfold directory, Sample.V.
  rewrite image_fat, image_dir by (fat_lia || lia).
  destruct Hp as [-> | ->]; (split; [fat_lia|]; split; [fat_lia|]; split; [vm_compute; discriminate|vm_compute; reflexivity]).
Qed.

(** Evaluate a lookup in the sample image. *)
Ltac sample_parent := cbn [parent_cluster_number Sample.absent Sample.a_txt Sample.whole Sample.sub].
Ltac sample_range := sample_parent; fat_lia.
Ltac sample :=
  sample_parent; unfold Sample.V; rewrite ?image_dir_find, ?image_dir_free, ?image_dir by fat_lia; vm_compute; reflexivity.
Ltac sample_request := by apply (bool_decide_unpack _).

Lemma sample_free : 1 <= Z.of_nat (length (free_list (fat Sample.V) 3)).
Proof.
  pose proof (free_list_pos (fat Sample.V) 7 ltac:(fat_lia)) as H.
  unfold Sample.V in *. rewrite image_fat in H by fat_lia. specialize (H eq_refl). lia.
Qed.

(** ** The theorems at the sample image *)

Lemma read_errors_witness :
  exists s', read (Sample.absent 2 8) Sample.state = Ret (2, s') /\ user s' = user Sample.state.
Proof.
  assert (Hnone : dir_find (dir Sample.V 2) (req_name (Sample.absent 2 8)) (req_ext (Sample.absent 2 8)) = None)
    by sample.
  destruct (read_errors (Sample.absent 2 8) Sample.V Sample.state) as (s' & Hr & _ & Hu & _).
  - sample_request.
  - exact sample_disk.
  - sample_range.
  - cbv zeta. cbn [parent_cluster_number Sample.absent] in *. rewrite Hnone. exact I.
  - cbn [parent_cluster_number Sample.absent] in *. rewrite Hnone in Hr. exists s'. split; [exact Hr|exact Hu].
Defined.

Lemma read_file_ok_witness :
  exists s', read (Sample.a_txt 8) Sample.state = Ret (0, s') /\
    user s' = store (user Sample.state) 0 (Sample.V 3).
Proof.
  destruct (read_file_ok (Sample.a_txt 8) Sample.V Sample.state 2 [3]) as (s' & Hr & Hu & _).
  - sample_request.
  - exact sample_disk.
  - sample_range.
  - sample.
  - sample.
  - cbn [parent_cluster_number Sample.a_txt]. unfold Sample.V. rewrite image_dir by fat_lia.
    replace (entry_cluster _) with 3 by (vm_compute; reflexivity).
    apply chain_last; [fat_lia|vm_compute; reflexivity].
  - sample.
  - exists s'. split; [exact Hr|]. rewrite Hu. cbn [fmap list_fmap concat buf Sample.a_txt].
    by rewrite app_nil_r.
Defined.

Lemma read_whole_clusters_undefined_witness :
  ~ exists x, read (Sample.whole 2048) Sample.state = Ret x.
Proof.
  apply (read_whole_clusters_undefined (Sample.whole 2048) Sample.V Sample.state 4 [5]).
  - sample_request.
  - exact sample_disk.
  - sample_range.
  - sample.
  - sample.
  - cbn [parent_cluster_number Sample.whole]. unfold Sample.V. rewrite image_dir by fat_lia.
    replace (entry_cluster _) with 5 by (vm_compute; reflexivity).
    apply chain_last; [fat_lia|vm_compute; reflexivity].
  - sample.
Defined.

Lemma read_accepts_directory_witness :
  exists s', read (Sample.sub 2048) Sample.state = Ret (0, s') /\
    user s' = store (user Sample.state) 0 (Sample.V (entry_cluster (dir Sample.V 2 3))).
Proof.
  apply (read_accepts_directory (Sample.sub 2048) Sample.V Sample.state 3).
  - sample_request.
  - exact sample_disk.
  - sample_range.
  - sample.
  - sample.
  - sample.
  - done.
  - cbn [parent_cluster_number Sample.sub]. unfold Sample.V. rewrite image_dir by fat_lia.
    replace (entry_cluster _) with 4 by (vm_compute; reflexivity). fat_lia.
Defined.

Lemma read_directory_correct_witness :
  exists s', read_directory (Sample.sub 2048) Sample.state = Ret (0, s').
Proof.
  assert (Hi : directory_index (dir Sample.V 2) (req_name (Sample.sub 2048)) = Some 3).
  { transitivity (directory_index (fun i => entry_at (Inserter.image_storage Sample.image) (2048 * 2 + 32 * i))
      (req_name (Sample.sub 2048))); [|vm_compute; reflexivity].
    unfold directory_index. case_bool_decide; [done|]. apply find_up_ext. intros j Hj.
    unfold Sample.V. by rewrite image_dir by fat_lia. }
  destruct (read_directory_correct (Sample.sub 2048) Sample.V Sample.state) as (s' & Hr & _).
  - sample_request.
  - exact sample_disk.
  - sample_range.
  - cbv zeta. cbn [parent_cluster_number Sample.sub] in *. rewrite Hi.
    unfold Sample.V. rewrite image_dir by fat_lia.
    replace (entry_cluster _) with 4 by (vm_compute; reflexivity). fat_lia.
  - exists s'. rewrite Hr. cbn [parent_cluster_number Sample.sub] in *. by rewrite Hi.
Defined.

Lemma write_file_ok_witness :
  exists s' V', write (Sample.absent 2 5) Sample.state = Ret (0, s') /\ disk_is (disk s') V' /\
    user s' = user Sample.state /\ fat_cached s' V' /\
    file_created Sample.V V' (user Sample.state) (Sample.absent 2 5) 6
      (take (Z.to_nat (clusters_needed (buffer_size (Sample.absent 2 5)))) (free_list (fat Sample.V) 3)).
Proof.
  apply (write_file_ok (Sample.absent 2 5) Sample.V Sample.state 6).
  - sample_request.
  - exact sample_disk.
  - apply sample_directory. by left.
  - cbn. lia.
  - sample.
  - sample.
  - exact sample_free.
Defined.

Lemma write_file_full_directory_witness :
  exists s' V', write (Sample.absent 4 5) Sample.state = Ret (0, s') /\ disk_is (disk s') V' /\
    (forall i, (0 <= i < 64) -> dir V' 4 i = dir Sample.V 4 i) /\
    chain (fat V') (first_of (free_list (fat Sample.V) 3)) (take 1 (free_list (fat Sample.V) 3)).
Proof.
  apply (write_file_full_directory (Sample.absent 4 5) Sample.V Sample.state 64).
  - sample_request.
  - exact sample_disk.
  - apply sample_directory. by right.
  - cbn. lia.
  - sample.
  - sample.
  - lia.
  - lia.
  - vm_compute. discriminate.
  - exact sample_free.
Defined.

(** A file whose name exists, in the full directory. *)
Definition taken : request := Request 0 (Sample.nm (cstring "sub")) (zeros 3) 4 5.

Lemma write_rejected_witness :
  exists s', write taken Sample.state = Ret (1, s') /\ disk_is (disk s') Sample.V /\
    user s' = user Sample.state /\ dir_free (dir Sample.V 4) = None.
Proof.
  assert (Hfind : dir_find (dir Sample.V (parent_cluster_number taken)) (req_name taken) (req_ext taken) = Some 0)
    by (unfold taken; sample).
  destruct (write_rejected taken Sample.V Sample.state 1) as (s' & Hw & Hd & Hu).
  - sample_request.
  - exact sample_disk.
  - unfold taken. sample_range.
  - intros (_ & _ & Hnone & _). congruence.
  - unfold write_rejects. pose proof sample_free as Hfree. rewrite Hfind.
    rewrite bool_decide_eq_false_2 by (intros E; rewrite E in Hfree; simpl in Hfree; lia).
    unfold taken. sample.
  - exists s'. do 3 (split; [done|]). sample.
Defined.

Lemma write_read_roundtrip_witness :
  exists s1 s2, write (Sample.absent 2 5) Sample.state = Ret (0, s1) /\
    read (read_request (Sample.absent 2 5) 100 5) s1 = Ret (0, s2) /\
    user s2 = store (user Sample.state) 100 (cstring "conte" ++ zeros 2043).
Proof.
  destruct (write_read_roundtrip (Sample.absent 2 5) Sample.V Sample.state 6 100 5) as (s1 & s2 & Hw & Hr & Hu).
  - sample_request.
  - exact sample_disk.
  - apply sample_directory. by left.
  - cbn. lia.
  - vm_compute. discriminate.
  - sample.
  - sample.
  - exact sample_free.
  - lia.
  - exists s1, s2. split; [exact Hw|]. split; [exact Hr|]. rewrite Hu. f_equal.
Defined.
