(* ===== verification/FatDelete.v ===== *)
(** Theorems about [delete] of src/src/fat32.c. *)
From Stdlib Require Import ZArith Lia.
From stdpp Require Import base numbers option strings zmap functions list.
From S2P Require Import Prelude CString Disk FatTypes Fat32 FatView FatRead FatWrite FatCreate FatSample.

(** ** Reference definitions *)

(** The entry of 32 zero bytes. *)
Definition empty_entry : dirent := entry_at ∅ 0.

(** The clusters [l] overwritten with zeros. *)
Fixpoint zero_clusters (l : list Z) (V : clusters) : clusters :=
  match l with
  | [] => V
  | c :: l' => zero_clusters l' (<[c := zeros 2048]> V)
  end.

(** The entries from 2 of the directory in cluster [c] are not in use. *)
Definition dir_empty (V : clusters) (c : Z) : bool :=
  match find_up (fun i => user_attribute (dir V c i) =? UATTR_NOT_EMPTY) 2 62 with
  | Some _ => false
  | None => true
  end.

(** The entry [k] of the parent, and nothing else of the parent, is cleared. *)
Definition entry_removed (V V' : clusters) (p k : Z) : Prop :=
  forall i, 0 <= i < 64 -> dir V' p i = if decide (i = k) then empty_entry else dir V p i.

(** ** Lemmas *)

Lemma zero_clusters_out l V c : c ∉ l -> zero_clusters l V c = V c.
Proof.
  revert V. induction l as [|x l IH]; intros V Hc; [done|]. apply not_elem_of_cons in Hc as [Hx Hc].
  cbn [zero_clusters]. rewrite IH by done. by rewrite fn_lookup_insert_ne.
Qed.

Lemma zero_clusters_in l V c : c ∈ l -> zero_clusters l V c = zeros 2048.
Proof.
  revert V. induction l as [|x l IH]; intros V Hc; [by apply elem_of_nil in Hc|]. cbn [zero_clusters].
  destruct (decide (c ∈ l)) as [Hin|Hout]; [by apply IH|].
  apply elem_of_cons in Hc as [->|Hc]; [|done]. rewrite zero_clusters_out by done. apply fn_lookup_insert.
Qed.

Section Delete.
Context {D : Type} `{DiskSpec D}.
Implicit Types (d : D) (V W : clusters) (s : fs D).

(** The loop over a chain: every cluster is overwritten, [memory] is not
    changed. *)
Lemma wp_delete_loop fuel l : forall V c s (Q : unit -> fs D -> Prop),
  disk_is (disk s) V -> chain (cluster_map (memory s)) c l -> (length l <= fuel)%nat ->
  load (memory s) cluster_buf 2048 = zeros 2048 ->
  (forall d', disk_is d' (zero_clusters l V) -> Q tt (set_disk d' s)) ->
  wp (delete_loop fuel c) Q s.
Proof.
  revert l. induction fuel as [|fuel IH]; intros l V c s Q HV Hch Hlen Hbuf HQ.
  { inversion Hch; subst; simpl in Hlen; lia. }
  assert (Hc : 0 <= c < CLUSTER_MAP_SIZE) by (inversion Hch; done).
  cbn [delete_loop]. apply wp_bind, wp_cluster_map_get; [fat_lia|].
  apply wp_bind. eapply wp_write_memory; [exact HV|done|]. intros d' Hd'. rewrite Hbuf in Hd'.
  inversion Hch as [c1 Hc1 Hf|c1 l1 Hc1 Hf Hch']; subst.
  - rewrite Hf. change (i32 FAT32_FAT_END_OF_FILE =? FAT32_FAT_END_OF_FILE) with true. apply wp_ret. by apply HQ.
  - assert (Hn : 0 <= cluster_map (memory s) c < CLUSTER_MAP_SIZE) by (inversion Hch'; done).
    rewrite i32_small by fat_lia. rewrite (proj2 (Z.eqb_neq _ _) Hf).
    eapply IH; [exact Hd'|exact Hch'|simpl in Hlen; lia|exact Hbuf|]. intros d2 Hd2. apply (HQ d2 Hd2).
Qed.

(** The last step: the entry is cleared and the table written back. *)
Lemma wp_delete_entry r k V W s (Q : Z -> fs D -> Prop) :
  let p := parent_cluster_number r in
  disk_is (disk s) W -> 0 <= p < CLUSTER_MAP_SIZE -> 0 <= k < 64 ->
  window (memory s) dir_table_buf (obj (V p)) 0 2048 ->
  (forall s' V', disk_is (disk s') V' -> user s' = user s -> entry_removed V V' p k ->
     (forall c, c <> p -> V' c = W c) ->
     (forall c, (0 <= c < 512) -> cluster_map (memory s') c = cluster_map (memory s) c) -> Q 0 s') ->
  wp (delete_entry r k) Q s.
Proof.
  intros p HV Hp Hk Hw HQ. unfold delete_entry.
  apply wp_bind, wp_modify, wp_bind. rewrite memset_store.
  change (replicate (Z.to_nat sizeof_DirectoryEntry) (z2b 0)) with (zeros 32).
  eapply wp_write_memory; [exact HV|done|]. intros d' Hd'. apply wp_ret. cbn [memory set_memory] in Hd'.
  set (m := store _ _ (zeros 32)) in *.
  apply (HQ (set_disk d' (set_memory m s)) _ Hd'); [done| |by intros c Hc; rewrite fn_lookup_insert_ne|].
  - intros i Hi. unfold dir at 1. fold p. rewrite fn_lookup_insert.
    rewrite (window_table_entry _ 0 m dir_table_buf) by (done || apply (window_obj_load m _ 2048)).
    case_decide as E.
    + subst i. unfold table_entry, empty_entry. apply window_entry_at. intros x Hx.
      unfold m. rewrite (mget_store_in _ _ _ _ (z2b 0)); [unfold mget; by rewrite lookup_empty|lia|].
      apply lookup_replicate_2. lia.
    + transitivity (table_entry (memory s) dir_table_buf i); [|by apply window_table_entry].
      apply window_entry_at, window_store_ne. unfold zeros. rewrite length_replicate. fat_lia.
  - intros c Hc. apply window_cluster_map; [|done]. apply window_store_ne. fat_lia.
Qed.

(** The steps of [delete] up to the entry. *)
Lemma wp_delete_load fuel r V s (Q : Z -> fs D -> Prop) :
  request_ok r -> disk_is (disk s) V -> 0 <= parent_cluster_number r < CLUSTER_MAP_SIZE ->
  let T := dir V (parent_cluster_number r) in
  (forall s1, disk_is (disk s1) V -> user s1 = user s ->
     tables_loaded V (parent_cluster_number r) (memory s) (memory s1) ->
     match dir_find T (req_name r) (req_ext r) with
     | None => Q 1 s1
     | Some index =>
         let cluster := entry_cluster (T index) in
         if cluster =? ROOT_CLUSTER_NUMBER then Q (-1) s1
         else if filesize (T index) =? 0 then
           (if dir_empty V cluster then
              wp (memory_memset cluster_buf 0 (Z.to_nat CLUSTER_SIZE) ;;
                  write_clusters_memory cluster_buf cluster 1 ;;
                  cluster_map_set cluster FAT32_FAT_EMPTY_ENTRY ;;
                  write_clusters_memory fat_table FAT_CLUSTER_NUMBER 1 ;;
                  delete_entry r index) Q s1
            else Q 2 s1)
         else wp (memory_memset cluster_buf 0 (Z.to_nat CLUSTER_SIZE) ;;
                  delete_loop fuel (i32 cluster) ;;
                  delete_entry r index) Q s1
     end) ->
  (if dir_find T (req_name r) (req_ext r) is Some i then
     filesize (T i) = 0 -> 0 <= entry_cluster (T i) < CLUSTER_MAP_SIZE else True) ->
  wp (delete fuel r) Q s.
Proof.
  intros (Hn & He & _) HV Hp T HQ Hrange. unfold delete. apply (wp_load_tables _ _ V); [done|done|].
  intros s1 Hd1 Hu1 Hl. apply wp_bind, wp_gets. rewrite (tables_find _ _ _ _ _ _ Hl) by done. fold T.
  destruct (dir_find T (req_name r) (req_ext r)) as [index|] eqn:Hf; [|by apply wp_ret, HQ].
  apply dir_find_Some in Hf as (Hi & _). rewrite (tables_entry _ _ _ _ _ Hl) by done. fold T. cbv zeta in *.
  destruct (entry_cluster (T index) =? ROOT_CLUSTER_NUMBER); [by apply wp_ret, HQ|].
  assert (Hz : (i32 (filesize (T index)) =? 0) = (filesize (T index) =? 0)).
  { pose proof (load_le_range 4 (obj (V (parent_cluster_number r))) (entry_addr 0 index + 28)) as Hr.
    change (load_le 4 _ _) with (filesize (T index)) in Hr. change (256 ^ Z.of_nat 4) with 4294967296 in Hr.
    unfold i32. apply eq_bool_prop_intro. rewrite !Is_true_true, !Z.eqb_eq. Z.div_mod_to_equations. lia. }
  rewrite Hz. destruct (Z.eqb_spec (filesize (T index)) 0) as [E|E]; [|by apply HQ].
  apply wp_bind. eapply wp_read_local; [exact Hd1|by apply Hrange|]. intros d' Hd'.
  specialize (HQ (set_disk d' s1) Hd' Hu1 Hl). unfold dir_empty in HQ.
  change (find_up (fun i => table_user_attribute (obj (V (entry_cluster (T index)))) 0 i =? UATTR_NOT_EMPTY) 2 62)
    with (find_up (fun i => user_attribute (dir V (entry_cluster (T index)) i) =? UATTR_NOT_EMPTY) 2 62).
  destruct (find_up _ 2 62) as [x|]; [by apply wp_ret|exact HQ].
Qed.

(** The code that [delete] answers with when it removes nothing. *)
Definition delete_rejects (V : clusters) (r : request) : option Z :=
  let T := dir V (parent_cluster_number r) in
  match dir_find T (req_name r) (req_ext r) with
  | None => Some 1
  | Some i =>
      if entry_cluster (T i) =? ROOT_CLUSTER_NUMBER then Some (-1)
      else if (filesize (T i) =? 0) && negb (dir_empty V (entry_cluster (T i))) then Some 2
      else None
  end.

(** The rejected requests of [delete] as a rule. *)
Lemma wp_delete_rejected fuel r V s code :
  request_ok r -> disk_is (disk s) V -> 0 <= parent_cluster_number r < CLUSTER_MAP_SIZE ->
  (forall i, dir_find (dir V (parent_cluster_number r)) (req_name r) (req_ext r) = Some i ->
     0 <= entry_cluster (dir V (parent_cluster_number r) i) < CLUSTER_MAP_SIZE) ->
  delete_rejects V r = Some code ->
  wp (delete fuel r) (fun a s' => a = code /\ disk_is (disk s') V /\ user s' = user s) s.
Proof.
  intros Hr HV Hp Hc Hrej.
  unfold delete_rejects in Hrej. apply (wp_delete_load _ _ V); [done..| |].
  - intros s1 Hd1 Hu1 Hl. cbv zeta. destruct (dir_find _ _ _) as [i|]; [|by injection Hrej as <-].
    destruct (_ =? ROOT_CLUSTER_NUMBER); [by injection Hrej as <-|].
    destruct (filesize _ =? 0); [|done]. cbn [andb] in Hrej.
    destruct (dir_empty _ _); [done|]. by injection Hrej as <-.
  - destruct (dir_find _ _ _) as [i|]; [|done]. intros _. by apply Hc.
Qed.

(** [delete] of a name that is not there returns 1, of an entry that points
    to the root directory -1, and of a directory with entries besides its own
    two 2; the disk is not changed. *)
Theorem delete_rejected fuel r V s code :
  request_ok r -> disk_is (disk s) V -> 0 <= parent_cluster_number r < CLUSTER_MAP_SIZE ->
  (forall i, dir_find (dir V (parent_cluster_number r)) (req_name r) (req_ext r) = Some i ->
     0 <= entry_cluster (dir V (parent_cluster_number r) i) < CLUSTER_MAP_SIZE) ->
  delete_rejects V r = Some code ->
  exists s', delete fuel r s = Ret (code, s') /\ disk_is (disk s') V /\ user s' = user s.
Proof.
  intros Hr HV Hp Hc Hrej.
  pose proof (wp_delete_rejected fuel r V s code Hr HV Hp Hc Hrej) as Hwp.
  apply wp_elim in Hwp as (a & s' & Hx & -> & Hs'). eauto.
Qed.

(** [delete] of an empty directory as a rule; the directory may be the one that
    the request names as the parent. *)
Lemma wp_delete_directory fuel r V s k :
  request_ok r -> disk_is (disk s) V -> directory V (parent_cluster_number r) ->
  let c := entry_cluster (dir V (parent_cluster_number r) k) in
  dir_find (dir V (parent_cluster_number r)) (req_name r) (req_ext r) = Some k ->
  filesize (dir V (parent_cluster_number r) k) = 0 -> dir_empty V c = true ->
  0 <= c < CLUSTER_MAP_SIZE -> c <> ROOT_CLUSTER_NUMBER -> c <> FAT_CLUSTER_NUMBER ->
  wp (delete fuel r) (fun a s' => a = 0 /\ exists V', disk_is (disk s') V' /\ user s' = user s /\
    fat_cached s' V' /\ entry_removed V V' (parent_cluster_number r) k /\ (c <> parent_cluster_number r -> V' c = zeros 2048) /\
    (forall x, (0 <= x < CLUSTER_MAP_SIZE) -> fat V' x = if decide (x = c) then FAT32_FAT_EMPTY_ENTRY else fat V x) /\
    (forall x, x <> c -> x <> FAT_CLUSTER_NUMBER -> x <> parent_cluster_number r -> V' x = V x)) s.
Proof.
  intros Hr HV (Hp & Hp1 & _ & _) c Hfind Hsize Hempty Hc Hroot Hfat.
  pose proof (dir_find_Some _ _ _ _ Hfind) as (Hk & _).
  apply (wp_delete_load _ _ V); [done..| |rewrite Hfind; by intros _].
  intros s1 Hd1 Hu1 Hl. rewrite Hfind. cbv zeta. fold c.
  rewrite (proj2 (Z.eqb_neq _ _) Hroot), Hsize, Z.eqb_refl, Hempty.
  apply wp_bind, wp_modify. rewrite memset_store.
  change (replicate (Z.to_nat CLUSTER_SIZE) (z2b 0)) with (zeros 2048).
  apply wp_bind. eapply wp_write_memory; [exact Hd1|exact Hc|]. intros d2 Hd2. cbn [memory set_memory] in Hd2.
  rewrite (load_store_eq _ _ (zeros 2048)) in Hd2 by done.
  apply wp_bind, wp_cluster_map_set; [fat_lia|]. cbn [memory set_memory set_disk].
  set (m2 := store_le 4 _ (4 * c) _).
  apply wp_bind. eapply wp_write_memory; [exact Hd2|fat_lia|]. intros d3 Hd3. cbn [memory set_memory set_disk] in Hd3.
  assert (Hw : window m2 dir_table_buf (obj (V (parent_cluster_number r))) 0 2048).
  { eapply window_trans; [|apply Hl]. eapply window_trans; apply window_store_ne;
      rewrite ?length_le_bytes; unfold zeros; rewrite ?length_replicate; fat_lia. }
  assert (Hm : forall x, 0 <= x < 512 -> cluster_map m2 x = if decide (x = c) then 0 else fat V x).
  { intros x Hx. unfold m2. rewrite cluster_map_store by fat_lia. case_decide as E1; case_decide as E2; try lia; try done.
    rewrite <- (tables_map _ _ _ _ x Hl) by fat_lia. apply window_cluster_map; [|done].
    apply window_store_ne. fat_lia. }
  eapply wp_delete_entry; [exact Hd3|done|done|exact Hw|].
  intros s' V' HV' Hu' Hrem Hoth Hmap. split; [done|]. exists V'. cbn [memory set_memory set_disk user] in *.
  assert (HV1 : V' FAT_CLUSTER_NUMBER = load m2 fat_table 2048).
  { rewrite Hoth by (apply not_eq_sym; assumption). apply fn_lookup_insert. }
  assert (Hf : forall x, 0 <= x < CLUSTER_MAP_SIZE -> fat V' x = cluster_map m2 x).
  { intros x Hx. unfold fat. rewrite HV1. apply window_cluster_map; [apply (window_obj_load m2 0 2048)|fat_lia]. }
  split; [done|]. split; [by rewrite Hu'|]. split; [|split; [done|split; [|split]]].
  - intros x Hx. rewrite Hf by done. rewrite Hmap by fat_lia. done.
  - intros Hpar. rewrite Hoth by done. rewrite fn_lookup_insert_ne by (apply not_eq_sym; assumption). apply fn_lookup_insert.
  - intros x Hx. rewrite Hf by done. by apply Hm.
  - intros x H1 H2 H3. rewrite Hoth by done. by rewrite !fn_lookup_insert_ne by (apply not_eq_sym; assumption).
Qed.

(** C22: [delete] of an empty directory returns 0: its entry is cleared, its
    cluster is overwritten and free again, and no other entry of the parent, no
    other cluster and no other entry of the table changes. *)
Theorem delete_directory_ok fuel r V s k :
  request_ok r -> disk_is (disk s) V -> directory V (parent_cluster_number r) ->
  let c := entry_cluster (dir V (parent_cluster_number r) k) in
  dir_find (dir V (parent_cluster_number r)) (req_name r) (req_ext r) = Some k ->
  filesize (dir V (parent_cluster_number r) k) = 0 -> dir_empty V c = true ->
  0 <= c < CLUSTER_MAP_SIZE -> c <> ROOT_CLUSTER_NUMBER -> c <> FAT_CLUSTER_NUMBER -> c <> parent_cluster_number r ->
  exists s' V',
    delete fuel r s = Ret (0, s') /\ disk_is (disk s') V' /\ user s' = user s /\ fat_cached s' V' /\
    entry_removed V V' (parent_cluster_number r) k /\ V' c = zeros 2048 /\
    (forall x, (0 <= x < CLUSTER_MAP_SIZE) -> fat V' x = if decide (x = c) then FAT32_FAT_EMPTY_ENTRY else fat V x) /\
    (forall x, x <> c -> x <> FAT_CLUSTER_NUMBER -> x <> parent_cluster_number r -> V' x = V x).
Proof.
  intros Hr HV Hdir c Hfind Hsize Hempty Hc Hroot Hfat Hpar.
  pose proof (wp_delete_directory fuel r V s k Hr HV Hdir Hfind Hsize Hempty Hc Hroot Hfat) as Hwp.
  apply wp_elim in Hwp as (a & s' & Hx & -> & V' & Hd & Hu & Hca & Hrem & Hz & Hs'). exists s', V'. specialize (Hz Hpar). done.
Qed.

(** [delete] of a file as a rule. *)
Lemma wp_delete_file fuel r V s k l :
  request_ok r -> disk_is (disk s) V -> directory V (parent_cluster_number r) ->
  let e := dir V (parent_cluster_number r) k in
  dir_find (dir V (parent_cluster_number r)) (req_name r) (req_ext r) = Some k ->
  filesize e <> 0 -> entry_cluster e <> ROOT_CLUSTER_NUMBER ->
  chain (fat V) (entry_cluster e) l -> FAT_CLUSTER_NUMBER ∉ l -> parent_cluster_number r ∉ l ->
  (length l <= fuel)%nat ->
  wp (delete fuel r) (fun a s' => a = 0 /\ exists V', disk_is (disk s') V' /\ user s' = user s /\
    fat_cached s' V' /\ entry_removed V V' (parent_cluster_number r) k /\ (forall c, c ∈ l -> V' c = zeros 2048) /\
    (forall c, c ∉ l -> c <> parent_cluster_number r -> V' c = V c)) s.
Proof.
  intros Hr HV (Hp & Hp1 & _ & _) e Hfind Hsize Hroot Hch Hfl Hpl Hfuel.
  pose proof (dir_find_Some _ _ _ _ Hfind) as (Hk & _).
  assert (Hc : 0 <= entry_cluster e < CLUSTER_MAP_SIZE) by (inversion Hch; done).
  apply (wp_delete_load _ _ V); [done..| |by rewrite Hfind].
  intros s1 Hd1 Hu1 Hl. rewrite Hfind. cbv zeta. fold e.
  rewrite (proj2 (Z.eqb_neq _ _) Hroot), (proj2 (Z.eqb_neq _ _) Hsize).
  apply wp_bind, wp_modify. rewrite memset_store.
  change (replicate (Z.to_nat CLUSTER_SIZE) (z2b 0)) with (zeros 2048).
  rewrite i32_small by fat_lia. set (m1 := store _ cluster_buf _).
  assert (Hm1 : window m1 0 (memory s1) 0 4096) by (apply window_store_ne; left; fat_lia).
  apply wp_bind. eapply (wp_delete_loop fuel l); [exact Hd1| |done|by apply load_store_eq|].
  { apply (chain_ext (fat V)); [|done]. intros x Hx. cbn [memory set_memory].
    pose proof (chain_range _ _ _ Hch) as Hrg. rewrite Forall_forall in Hrg. specialize (Hrg x Hx).
    rewrite <- (tables_map _ _ _ _ x Hl) by done. apply window_cluster_map; [|fat_lia].
    intros y Hy. apply Hm1. lia. }
  intros d2 Hd2. cbn [set_disk set_memory memory user].
  eapply (wp_delete_entry r k V); [exact Hd2|done|done| |].
  { cbn [memory]. eapply window_trans; [|apply Hl]. apply window_store_ne. left. fat_lia. }
  intros s' V' HV' Hu' Hrem Hoth Hmap. split; [done|]. exists V'. cbn [memory user] in *.
  split; [done|]. split; [by rewrite Hu'|]. split; [|split; [done|split]].
  - intros x Hx. rewrite Hmap by fat_lia. unfold fat. rewrite Hoth by (apply not_eq_sym; assumption).
    rewrite zero_clusters_out by done. change (cluster_map (obj (V FAT_CLUSTER_NUMBER)) x) with (fat V x).
    rewrite <- (tables_map _ _ _ _ x Hl) by done.
    apply window_cluster_map; [|fat_lia]. intros y Hy. apply Hm1. lia.
  - intros c Hcl. rewrite Hoth by (intros ->; done). by apply zero_clusters_in.
  - intros c Hcl Hcp. rewrite Hoth by done. by apply zero_clusters_out.
Qed.

(** C21: [delete] of a file returns 0: its entry is cleared and every cluster of
    its chain is overwritten with zeros, within as many rounds as the chain is
    long.  But the table still holds the whole chain: none of its clusters is
    free again, so deleting files never gives space back. *)
Theorem delete_file_ok fuel r V s k l :
  request_ok r -> disk_is (disk s) V -> directory V (parent_cluster_number r) ->
  let e := dir V (parent_cluster_number r) k in
  dir_find (dir V (parent_cluster_number r)) (req_name r) (req_ext r) = Some k ->
  filesize e <> 0 -> entry_cluster e <> ROOT_CLUSTER_NUMBER ->
  chain (fat V) (entry_cluster e) l -> FAT_CLUSTER_NUMBER ∉ l -> parent_cluster_number r ∉ l ->
  (length l <= fuel)%nat ->
  exists s' V',
    delete fuel r s = Ret (0, s') /\ disk_is (disk s') V' /\ user s' = user s /\ fat_cached s' V' /\
    entry_removed V V' (parent_cluster_number r) k /\
    (forall c, c ∈ l -> V' c = zeros 2048) /\
    chain (fat V') (entry_cluster e) l /\
    free_list (fat V') 3 = free_list (fat V) 3 /\
    (forall c, c ∉ l -> c <> parent_cluster_number r -> V' c = V c).
Proof.
  intros Hr HV Hdir e Hfind Hsize Hroot Hch Hfl Hpl Hfuel.
  pose proof (wp_delete_file fuel r V s k l Hr HV Hdir Hfind Hsize Hroot Hch Hfl Hpl Hfuel) as Hwp.
  apply wp_elim in Hwp as (a & s' & Hx & -> & V' & Hd' & Hu' & Hca & Hrem & Hz & Hoth). exists s', V'.
  destruct Hdir as (_ & Hp1 & _).
  assert (Hf : forall x, fat V' x = fat V x).
  { intros x. unfold fat. by rewrite Hoth by (done || apply not_eq_sym; assumption). }
  do 6 (split; [done|]). split; [by apply (chain_ext (fat V))|]. split; [|done].
  apply free_list_ext. intros x _. apply Hf.
Qed.

End Delete.

(** ** The theorems at the sample image *)

(** The requests for the empty directory (entry 5, cluster 6), for the full one
    (entry 3, cluster 4) and for the small file (entry 2, cluster 3). *)
Definition empty_request : request := Request 0 (Sample.nm (cstring "empty")) (zeros 3) 2 0.

Lemma sample_dir_empty :
  dir_empty Sample.V 6 = true.
Proof.
  unfold dir_empty.
  rewrite (find_up_ext _ (fun i => user_attribute (entry_at (Inserter.image_storage Sample.image) (2048 * 6 + 32 * i)) =? UATTR_NOT_EMPTY)).
  - vm_compute. reflexivity.
  - intros j Hj. unfold Sample.V. by rewrite image_dir by fat_lia.
Qed.

Lemma delete_rejected_witness :
  exists s', delete 600 (Sample.sub 0) Sample.state = Ret (2, s') /\ disk_is (disk s') Sample.V /\ user s' = user Sample.state.
Proof.
  assert (Hf : dir_find (dir Sample.V 2) (req_name (Sample.sub 0)) (req_ext (Sample.sub 0)) = Some 3) by sample.
  assert (Hc : entry_cluster (dir Sample.V 2 3) = 4) by sample.
  apply (delete_rejected 600 (Sample.sub 0) Sample.V Sample.state 2).
  - sample_request.
  - exact sample_disk.
  - sample_range.
  - intros i Hi. sample_parent. cbn [parent_cluster_number Sample.sub] in Hi. rewrite Hf in Hi. injection Hi as <-.
    rewrite Hc. fat_lia.
  - unfold delete_rejects. sample_parent. rewrite Hf, Hc. change (4 =? ROOT_CLUSTER_NUMBER) with false.
    replace (filesize _ =? 0) with true by (symmetry; sample).
    replace (dir_empty Sample.V 4) with false; [reflexivity|]. symmetry. unfold dir_empty.
    rewrite (find_up_ext _ (fun i => user_attribute (entry_at (Inserter.image_storage Sample.image) (2048 * 4 + 32 * i)) =? UATTR_NOT_EMPTY)).
    + vm_compute. reflexivity.
    + intros j Hj. unfold Sample.V. by rewrite image_dir by fat_lia.
Defined.

Lemma delete_directory_ok_witness :
  exists s' V', delete 600 empty_request Sample.state = Ret (0, s') /\ disk_is (disk s') V' /\
    fat V' 6 = FAT32_FAT_EMPTY_ENTRY.
Proof.
  assert (Hf : dir_find (dir Sample.V 2) (req_name empty_request) (req_ext empty_request) = Some 5) by sample.
  assert (Hc : entry_cluster (dir Sample.V 2 5) = 6) by sample.
  destruct (delete_directory_ok 600 empty_request Sample.V Sample.state 5) as (s' & V' & H1 & H2 & _ & _ & _ & _ & H3 & _);
    cbn [parent_cluster_number empty_request]; rewrite ?Hc; try fat_lia.
  - sample_request.
  - exact sample_disk.
  - apply sample_directory. by left.
  - exact Hf.
  - sample.
  - exact sample_dir_empty.
  - exists s', V'. split; [exact H1|]. split; [exact H2|].
    cbn [parent_cluster_number empty_request] in H3. rewrite Hc in H3. by rewrite (H3 6) by fat_lia.
Defined.

Lemma delete_file_ok_witness :
  exists s' V', delete 600 (Sample.a_txt 0) Sample.state = Ret (0, s') /\ disk_is (disk s') V' /\
    V' 3 = zeros 2048 /\ free_list (fat V') 3 = free_list (fat Sample.V) 3.
Proof.
  assert (Hc : entry_cluster (dir Sample.V 2 2) = 3) by sample.
  destruct (delete_file_ok 600 (Sample.a_txt 0) Sample.V Sample.state 2 [3])
    as (s' & V' & H1 & H2 & _ & _ & _ & H3 & _ & H4 & _); cbn [parent_cluster_number Sample.a_txt]; rewrite ?Hc.
  - sample_request.
  - exact sample_disk.
  - apply sample_directory. by left.
  - sample.
  - unfold Sample.V. rewrite image_dir by fat_lia. vm_compute. discriminate.
  - fat_lia.
  - apply chain_last; [fat_lia|]. unfold Sample.V. rewrite image_fat by fat_lia. vm_compute. reflexivity.
  - rewrite list_elem_of_singleton. fat_lia.
  - rewrite list_elem_of_singleton. fat_lia.
  - cbn. lia.
  - exists s', V'. split; [exact H1|]. split; [exact H2|]. split; [|exact H4].
    apply H3, list_elem_of_singleton. reflexivity.
Defined.
