(* ===== verification/FatDir.v ===== *)
(** Theorems about creating directories in src/src/fat32.c: [write] with an
    empty buffer and [init_directory_table]. *)
From Stdlib Require Import ZArith Lia.
From stdpp Require Import base numbers option strings zmap functions list.
From S2P Require Import Prelude CString Disk FatTypes Fat32 FatView FatRead FatWrite FatCreate FatSample FatDelete.

(** ** Reference definitions *)

(** Cluster [c] is a directory table with its own entry, the entry of its
    parent and nothing else. *)
Definition fresh_directory (V : clusters) (c : Z) (self parent : dirent) : Prop :=
  dir V c 0 = self /\ dir V c 1 = with_name dot_dot parent /\
  forall i, 2 <= i < 64 -> dir V c i = empty_entry.

(** [V'] is [V] with a new directory of the request [r] in cluster [c], described
    by entry [k] of the parent. *)
Record directory_created (V V' : clusters) (r : request) (k c : Z) : Prop := {
  mkdir_entry i : 0 <= i < 64 ->
    dir V' (parent_cluster_number r) i =
      if decide (i = k) then self_entry c (req_name r) else dir V (parent_cluster_number r) i;
  mkdir_table : fresh_directory V' c (self_entry c (req_name r)) (dir V (parent_cluster_number r) 0);
  mkdir_fat x : 0 <= x < CLUSTER_MAP_SIZE ->
    fat V' x = if decide (x = c) then FAT32_FAT_END_OF_FILE else fat V x;
  mkdir_frame x : x <> c -> x <> FAT_CLUSTER_NUMBER -> x <> parent_cluster_number r -> V' x = V x;
}.

(** ** Lemmas *)

Lemma self_entry_ok c nm : length nm = 8%nat -> dirent_ok (self_entry c nm).
Proof.
  intros Hn. unfold dirent_ok, self_entry. cbn [name ext attribute user_attribute
    undelete create_time create_date access_date cluster_high modified_time modified_date cluster_low filesize].
  pose proof (Z.mod_pos_bound (Z.shiftr c 16) 65536 eq_refl) as H1.
  pose proof (Z.mod_pos_bound c 65536 eq_refl) as H2.
  change 65535 with (Z.ones 16). rewrite !Z.land_ones by lia. change (2 ^ 16) with 65536.
  unfold UATTR_NOT_EMPTY, ATTR_SUBDIRECTORY. repeat split; try done; try lia.
Qed.

Lemma with_name_ok nm e : length nm = 8%nat -> dirent_ok e -> dirent_ok (with_name nm e).
Proof. intros Hn (_ & He). split; [done|exact He]. Qed.

Lemma window_store_load m a m' b n : window (store m a (load m' b n)) a m' b (Z.of_nat n).
Proof.
  eapply window_trans; [apply window_store_obj; by rewrite length_load|]. apply window_obj_load.
Qed.

Lemma window_refl m a n : window m a m a n.
Proof. intros i _. done. Qed.

Lemma first_free_list m t L :
  (forall x, 1 <= x < 3 -> cluster_map m x <> FAT32_FAT_EMPTY_ENTRY) ->
  free_list (cluster_map m) 3 = t :: L -> first_free m = t.
Proof.
  intros H12 HL. destruct (free_list_cons _ _ _ _ HL) as (_ & Ht & Hf). unfold first_free.
  rewrite (proj2 (find_up_Some _ 1 511 t)); [done|]. split; [fat_lia|]. split; [by apply Z.eqb_eq|].
  intros j Hj. apply Z.eqb_neq. destruct (decide (j < 3)); [apply H12; lia|]. intros Hz.
  assert (Hin : j ∈ free_list (cluster_map m) 3) by (apply elem_of_free_list; split; [done|lia]).
  unfold free_list in HL, Hin. rewrite HL in Hin.
  apply elem_of_cons in Hin as [->|Hin]; [lia|].
  destruct (free_list_cons (cluster_map m) 3 t L HL) as (HL' & _). rewrite <- HL' in Hin.
  apply elem_of_free_list in Hin. lia.
Qed.

Section Directory.
Context {D : Type} `{DiskSpec D}.
Implicit Types (d : D) (V : clusters) (s : fs D).

Lemma window_entry m1 a1 m2 a2 o : window m1 a1 m2 a2 (o + 32) -> 0 <= o ->
  entry_at m1 (a1 + o) = entry_at m2 (a2 + o).
Proof. intros Hw Ho. apply window_entry_at. by apply (window_sub _ _ _ _ (o + 32)); [|lia..]. Qed.

Lemma fat_ext V V' x : V FAT_CLUSTER_NUMBER = V' FAT_CLUSTER_NUMBER -> fat V x = fat V' x.
Proof. unfold fat. by intros ->. Qed.

Lemma fat_cached_window s s' V : window (memory s') 0 (memory s) 0 2048 -> fat_cached s V -> fat_cached s' V.
Proof.
  intros Hw Hc x Hx. rewrite <- Hc by done. apply window_cluster_map; [exact Hw|fat_lia].
Qed.

(** The first part of [init_directory_table]: cluster [c] becomes the end of a
    chain, in the driver's table and on the disk. *)
Lemma wp_write_map {A} c (K : M (fs D) A) V s (Q : A -> fs D -> Prop) :
  disk_is (disk s) V -> 0 <= c < CLUSTER_MAP_SIZE ->
  (forall s' V', disk_is (disk s') V' -> user s' = user s -> fat_cached s' V' ->
     (forall x, 0 <= x < CLUSTER_MAP_SIZE ->
        fat V' x = if decide (x = c) then FAT32_FAT_END_OF_FILE else cluster_map (memory s) x) ->
     (forall x, x <> FAT_CLUSTER_NUMBER -> V' x = V x) -> wp K Q s') ->
  wp (cluster_map_set c FAT32_FAT_END_OF_FILE ;;
      m ← gets memory;
      memory_memcpy cluster_buf m fat_table (Z.to_nat CLUSTER_SIZE) ;;
      write_clusters_memory cluster_buf FAT_CLUSTER_NUMBER 1 ;; K) Q s.
Proof.
  intros HV Hc HQ. apply wp_bind, wp_cluster_map_set; [fat_lia|]. cbn [memory set_memory].
  set (m1 := store_le 4 _ (4 * c) _). apply wp_bind, wp_gets, wp_bind, wp_modify. cbn [memory set_memory].
  rewrite memcpy_store. change (Z.to_nat CLUSTER_SIZE) with 2048%nat.
  apply wp_bind. eapply wp_write_memory; [exact HV|fat_lia|].
  intros d1 Hd1. cbn [memory set_memory] in Hd1. rewrite load_store_eq in Hd1 by by rewrite length_load.
  set (V' := <[FAT_CLUSTER_NUMBER := _]> V) in *.
  assert (Hm1 : forall x, 0 <= x < CLUSTER_MAP_SIZE -> fat V' x = cluster_map m1 x).
  { intros x Hx. unfold fat. replace (V' FAT_CLUSTER_NUMBER) with (load m1 fat_table 2048) by (symmetry; apply fn_lookup_insert).
    apply window_cluster_map; [apply (window_obj_load m1 0 2048)|fat_lia]. }
  apply (HQ _ V'); [exact Hd1|done| | |].
  - intros x Hx. rewrite Hm1 by done. apply window_cluster_map; [|fat_lia]. apply window_store_ne. left. fat_lia.
  - intros x Hx. rewrite Hm1 by done. unfold m1. rewrite cluster_map_store by fat_lia.
    by case_decide; case_decide; [|lia..|].
  - intros x Hx. unfold V'. by rewrite fn_lookup_insert_ne by (apply not_eq_sym; assumption).
Qed.

(** Its middle part, for a directory below another. *)
Lemma wp_init_in_parent self p k V s (Q : dirent -> fs D -> Prop) :
  dirent_ok self -> disk_is (disk s) V -> fat_cached s V -> 0 <= p < CLUSTER_MAP_SIZE -> p <> FAT_CLUSTER_NUMBER ->
  dir_free (dir V p) = Some k -> k <> 0 ->
  (forall s' V', disk_is (disk s') V' -> user s' = user s -> fat_cached s' V' ->
     (forall i, 0 <= i < 64 -> dir V' p i = if decide (i = k) then self else dir V p i) ->
     (forall x, x <> p -> V' x = V x) -> Q (dir V p 0) s') ->
  wp (init_in_parent self p) Q s.
Proof.
  intros Hs HV Hca Hp Hp1 Hk Hk0 HQ. pose proof (length_entry_bytes _ Hs) as Hsl. unfold init_in_parent.
  apply wp_bind. eapply wp_read_local; [exact HV|done|]. intros d2 Hd2.
  change (free_slot (obj (V p)) 0) with (dir_free (dir V p)). rewrite Hk.
  pose proof Hk as Hk'. apply find_up_Some in Hk' as (Hkr & _).
  set (pm := store (obj (V p)) (entry_addr 0 k) (entry_bytes self)).
  apply wp_bind, wp_modify, wp_bind, wp_modify. cbn [memory set_memory set_disk]. rewrite memset_store, memcpy_store.
  apply wp_bind. eapply wp_write_memory; [exact Hd2|exact Hp|]. intros d3 Hd3. cbn [memory set_memory set_disk] in Hd3.
  rewrite load_store_eq in Hd3 by by rewrite length_load. apply wp_ret.
  assert (Hne : forall i, 0 <= i < 64 -> i <> k -> table_entry pm 0 i = dir V p i).
  { intros i Hi Hik. apply window_entry_at, window_store_ne. rewrite Hsl. fat_lia. }
  rewrite Hne by lia. eapply HQ; [exact Hd3|done| | |].
  - apply (fat_cached_window s).
    + eapply window_trans; apply window_store_ne; rewrite ?length_load, ?length_replicate; left; fat_lia.
    + intros x Hx. rewrite Hca by done. apply fat_ext. symmetry. by apply fn_lookup_insert_ne.
  - intros i Hi. unfold dir at 1. rewrite fn_lookup_insert.
    rewrite (window_table_entry _ 0 pm 0) by (done || apply (window_obj_load pm 0 2048)).
    case_decide as E; [|by apply Hne]. subst i. unfold table_entry, pm. by rewrite entry_at_store.
  - intros x Hx. by rewrite fn_lookup_insert_ne by (apply not_eq_sym; assumption).
Qed.

(** Its last part: the new table is written to cluster [c]. *)
Lemma wp_write_table self parent c V s (Q : unit -> fs D -> Prop) :
  dirent_ok self -> dirent_ok parent -> disk_is (disk s) V -> fat_cached s V ->
  0 <= c < CLUSTER_MAP_SIZE -> c <> FAT_CLUSTER_NUMBER ->
  (forall s' V', disk_is (disk s') V' -> user s' = user s -> fat_cached s' V' ->
     dir V' c 0 = self -> dir V' c 1 = parent -> (forall i, 2 <= i < 64 -> dir V' c i = empty_entry) ->
     (forall x, x <> c -> V' x = V x) -> Q tt s') ->
  wp (table_set 0 self ;; table_set 1 parent ;;
      memory_memset cluster_buf 0 (Z.to_nat CLUSTER_SIZE) ;;
      m ← gets memory;
      memory_memcpy cluster_buf m dir_table_buf (Z.to_nat (sizeof_DirectoryEntry * 2)) ;;
      write_clusters_memory cluster_buf c 1) Q s.
Proof.
  intros Hs Hpo HV Hca Hc Hc1 HQ. pose proof (length_entry_bytes _ Hs) as Hsl. pose proof (length_entry_bytes _ Hpo) as Hpl.
  apply wp_bind, wp_table_set; [lia|]. cbn [memory set_memory set_disk].
  apply wp_bind, wp_table_set; [lia|]. cbn [memory set_memory set_disk].
  set (m4 := store (store (memory s) _ (entry_bytes self)) _ (entry_bytes parent)).
  apply wp_bind, wp_modify. cbn [memory set_memory set_disk]. rewrite memset_store.
  change (replicate (Z.to_nat CLUSTER_SIZE) (z2b 0)) with (zeros 2048). set (m5 := store m4 cluster_buf (zeros 2048)).
  apply wp_bind, wp_gets. cbn [memory set_memory]. apply wp_bind, wp_modify. cbn [memory set_memory].
  rewrite memcpy_store. change (Z.to_nat (sizeof_DirectoryEntry * 2)) with 64%nat.
  set (m6 := store m5 cluster_buf (load m5 dir_table_buf 64)).
  eapply wp_write_memory; [exact HV|exact Hc|]. intros d4 Hd4. cbn [memory set_memory] in Hd4.
  set (V' := <[c := _]> V) in *.
  assert (Htab : forall i, 0 <= i < 64 -> dir V' c i = entry_at m6 (cluster_buf + 32 * i)).
  { intros i Hi. unfold dir. replace (V' c) with (load m6 cluster_buf 2048) by (symmetry; apply fn_lookup_insert).
    apply (window_table_entry _ 0 m6 cluster_buf i); [|done]. apply (window_obj_load m6 cluster_buf 2048). }
  assert (Hfront : window m6 cluster_buf m4 dir_table_buf 64).
  { eapply window_trans; [apply (window_store_load m5 cluster_buf m5 dir_table_buf 64)|].
    apply window_store_ne. fat_lia. }
  apply (HQ (Fs m6 d4 (user s)) V' Hd4); [done| | | | |].
  - apply (fat_cached_window s); [|intros x Hx; rewrite Hca by done; apply fat_ext; symmetry; by apply fn_lookup_insert_ne].
    unfold m6, m5, m4. cbn [memory]. repeat (eapply window_trans; [apply window_store_ne;
      rewrite ?Hsl, ?Hpl, ?length_load; left; fat_lia|]). apply window_refl.
  - rewrite Htab by lia. rewrite (window_entry _ cluster_buf m4 dir_table_buf (32 * 0)).
    2: { apply (window_sub _ _ _ _ 64 0 32) in Hfront; [|lia..]. by rewrite !Z.add_0_r in Hfront. } 2: lia.
    unfold m4. transitivity (entry_at (store (memory s) (dir_table_buf + 32 * 0) (entry_bytes self)) (dir_table_buf + 32 * 0)).
    + apply window_entry_at, window_store_ne. left. fat_lia.
    + by apply entry_at_store.
  - rewrite Htab by lia. rewrite (window_entry _ cluster_buf m4 dir_table_buf (32 * 1)) by (done || lia).
    unfold m4. by apply entry_at_store.
  - intros i Hi. rewrite Htab by lia. unfold empty_entry. apply window_entry_at. intros x Hx.
    unfold m6. rewrite mget_store_out by (rewrite length_load; lia). unfold m5.
    rewrite (mget_store_in _ _ _ _ (z2b 0)); [unfold mget; by rewrite lookup_empty|lia|].
    apply lookup_replicate_2. fat_lia.
  - intros x Hx. unfold V'. by rewrite fn_lookup_insert_ne by (apply not_eq_sym; assumption).
Qed.

(** [init_directory_table] for a directory below another. *)
Lemma wp_init_table nm p c k V s (Q : unit -> fs D -> Prop) :
  length nm = 8%nat -> disk_is (disk s) V -> 3 <= c < CLUSTER_MAP_SIZE -> first_free (memory s) = c ->
  (forall x, 0 <= x < CLUSTER_MAP_SIZE -> cluster_map (memory s) x = fat V x) ->
  0 <= p < CLUSTER_MAP_SIZE -> p <> FAT_CLUSTER_NUMBER -> p <> c ->
  dir_free (dir V p) = Some k -> k <> 0 ->
  (forall s' V', disk_is (disk s') V' -> user s' = user s -> fat_cached s' V' ->
     directory_created V V' (Request 0 nm [] p 0) k c -> Q tt s') ->
  wp (init_directory_table nm p) Q s.
Proof.
  intros Hnm HV Hc Hfree Hmap Hp Hp1 Hpc Hk Hk0 HQ. unfold init_directory_table.
  pose proof (self_entry_ok c nm Hnm) as Hs.
  apply wp_bind, wp_gets. rewrite Hfree. eapply wp_write_map; [exact HV|fat_lia|].
  intros s1 V1 Hd1 Hu1 Hca1 Hf1 Hfr1. rewrite (proj2 (Z.eqb_neq c ROOT_CLUSTER_NUMBER)) by fat_lia. cbn [negb].
  assert (Hdp : forall i, dir V1 p i = dir V p i) by (intros i; unfold dir; by rewrite Hfr1 by done).
  apply wp_bind. apply (wp_init_in_parent _ _ k V1); [done..| |done|].
  { rewrite <- Hk. apply find_up_ext. intros i Hi. by rewrite Hdp. }
  intros s2 V2 Hd2 Hu2 Hca2 Hdir2 Hfr2. eapply wp_write_table; [done| |exact Hd2|done|fat_lia|fat_lia|].
  { apply with_name_ok; [done|apply entry_at_ok]. }
  intros s3 V3 Hd3 Hu3 Hca3 He0 He1 He2 Hfr3. apply (HQ _ V3); [done|congruence|done|].
  assert (Hc1 : FAT_CLUSTER_NUMBER <> c) by fat_lia.
  split; cbn [parent_cluster_number req_name].
  - intros i Hi. unfold dir at 1. rewrite Hfr3 by done. fold (dir V2 p i). rewrite Hdir2 by done. by rewrite Hdp.
  - split; [done|]. split; [|done]. by rewrite He1, Hdp.
  - intros x Hx. rewrite (fat_ext V3 V2), (fat_ext V2 V1), Hf1, Hmap by auto. done.
  - intros x Hx1 Hx2 Hx3. by rewrite Hfr3, Hfr2, Hfr1.
Qed.

(** [write] of a directory as a rule. *)
Lemma wp_write_directory r V s k c L :
  request_ok r -> disk_is (disk s) V -> directory V (parent_cluster_number r) -> buffer_size r = 0 ->
  fat V FAT_CLUSTER_NUMBER <> FAT32_FAT_EMPTY_ENTRY -> fat V ROOT_CLUSTER_NUMBER <> FAT32_FAT_EMPTY_ENTRY ->
  dir_find (dir V (parent_cluster_number r)) (req_name r) (req_ext r) = None ->
  dir_free (dir V (parent_cluster_number r)) = Some k ->
  free_list (fat V) 3 = c :: L ->
  wp (write r) (fun a s' => a = 0 /\ exists V', disk_is (disk s') V' /\ user s' = user s /\
    fat_cached s' V' /\ directory_created V V' r k c) s.
Proof.
  intros Hr HV (Hp & Hp1 & Hpf & Hpu) Hsize H1 H2 Hfind Hfree HL.
  apply (wp_write_checks r V); [done|done|done|]. intros s1 Hd1 Hu1 Hl.
  rewrite HL, Hpu, Z.eqb_refl, Hfind, Hsize, Z.eqb_refl. unfold write_directory.
  pose proof Hfree as Hk. apply find_up_Some in Hk as (Hk & Hku & Hbelow).
  destruct (free_list_cons _ _ _ _ HL) as (_ & Hc & Hcf).
  assert (Hk0 : k <> 0).
  { intros ->. rewrite Hpu in Hku. done. }
  apply wp_bind, (wp_scan_slot _ _ _ k); [lia|lia|unfold scan_fuel; lia| |left|].
  { intros i Hi. unfold table_user_attribute. rewrite (tables_entry _ _ _ _ i Hl) by lia.
    specialize (Hbelow i Hi). apply negb_false_iff, Z.eqb_eq in Hbelow. split; [done|lia]. }
  { unfold table_user_attribute. rewrite (tables_entry _ _ _ _ k Hl) by lia. by apply negb_true_iff, Z.eqb_neq in Hku. }
  rewrite (proj2 (Z.eqb_neq k 64)) by lia. apply wp_bind, wp_modify. rewrite memset_store.
  set (m1 := store _ dir_table_buf _).
  assert (Hw : window m1 0 (memory s1) 0 2048) by (apply window_store_ne; left; fat_lia).
  assert (Hm : forall x, 0 <= x < CLUSTER_MAP_SIZE -> cluster_map m1 x = fat V x).
  { intros x Hx. rewrite <- (tables_map _ _ _ _ x Hl) by done. apply window_cluster_map; [done|fat_lia]. }
  apply wp_bind. eapply (wp_init_table (req_name r) _ c k V); cbn [memory set_memory disk user]; try done.
  - apply Hr.
  - eapply (first_free_list m1 c L).
    + intros x Hx. rewrite Hm by fat_lia. destruct (decide (x = 1)) as [->|]; [done|].
      assert (x = 2) as -> by lia. done.
    + rewrite <- HL. apply free_list_ext. intros x Hx. apply Hm. lia.
  - intros E. rewrite E in Hpf. done.
  - intros s' V' Hd' Hu' Hca Hcr. apply wp_ret. split; [done|]. exists V'. split; [done|].
    split; [by rewrite Hu'|]. split; [done|]. destruct Hcr as [He Ht Hf Hfr]. by split.
Qed.

(** C20: [write] of a directory, in a parent without an entry of that name and
    with an unused one, with a free cluster: it returns 0; the first free
    cluster is a table with its own entry, an entry ".." that points where the
    parent's own entry points, and no other; the parent's first unused entry
    describes it; the cluster is marked as the end of its chain; nothing else on
    the disk changes and the cached table is the one on the disk. *)
Theorem write_directory_ok r V s k c L :
  request_ok r -> disk_is (disk s) V -> directory V (parent_cluster_number r) -> buffer_size r = 0 ->
  fat V FAT_CLUSTER_NUMBER <> FAT32_FAT_EMPTY_ENTRY -> fat V ROOT_CLUSTER_NUMBER <> FAT32_FAT_EMPTY_ENTRY ->
  dir_find (dir V (parent_cluster_number r)) (req_name r) (req_ext r) = None ->
  dir_free (dir V (parent_cluster_number r)) = Some k ->
  free_list (fat V) 3 = c :: L ->
  exists s' V',
    write r s = Ret (0, s') /\ disk_is (disk s') V' /\ user s' = user s /\ fat_cached s' V' /\
    directory_created V V' r k c.
Proof.
  intros Hr HV Hdir Hsize H1 H2 Hfind Hfree HL.
  pose proof (wp_write_directory r V s k c L Hr HV Hdir Hsize H1 H2 Hfind Hfree HL) as Hwp.
  apply wp_elim in Hwp as (a & s' & Hw & -> & V' & HV'). eauto.
Qed.

(** What a request that [write] accepts leaves: a directory when no size is
    given, otherwise a file with the data in [u]. *)
Definition written (V V' : clusters) (u : mem) (r : request) : Prop :=
  if buffer_size r =? 0 then
    exists k c L, dir_free (dir V (parent_cluster_number r)) = Some k /\ free_list (fat V) 3 = c :: L /\
      directory_created V V' r k c
  else
    exists k, dir_free (dir V (parent_cluster_number r)) = Some k /\
      file_created V V' u r k (take (Z.to_nat (clusters_needed (buffer_size r))) (free_list (fat V) 3)).

Lemma write_rejects_code V r code : write_rejects V r = Some code -> code = -1 \/ code = 1.
Proof. unfold write_rejects. repeat case_match; intros [= <-]; auto. Qed.

(** [write] in all its outcomes, but for files in a full directory. *)
Lemma wp_write_any r V s :
  request_ok r -> disk_is (disk s) V -> 0 <= parent_cluster_number r < CLUSTER_MAP_SIZE ->
  parent_cluster_number r <> FAT_CLUSTER_NUMBER -> fat V (parent_cluster_number r) <> FAT32_FAT_EMPTY_ENTRY ->
  fat V FAT_CLUSTER_NUMBER <> FAT32_FAT_EMPTY_ENTRY -> fat V ROOT_CLUSTER_NUMBER <> FAT32_FAT_EMPTY_ENTRY ->
  buffer_size r < 2147483648 -> (buffer_size r <> 0 -> is_Some (dir_free (dir V (parent_cluster_number r)))) ->
  wp (write r) (fun code s' => exists V', disk_is (disk s') V' /\
    match write_rejects V r with
    | Some c => code = c /\ V' = V
    | None => code = 0 /\ written V V' (user s) r
    end) s.
Proof.
  intros Hr HV Hp Hp1 Hpf Hz1 Hz2 Hmax Hslot. destruct (write_rejects V r) as [code|] eqn:Hrej.
  - eapply wp_mono; [apply (wp_write_rejected r V s code Hr HV Hp); [|done]|]; [intros (_ & _ & _ & E & Hn); by destruct (Hslot E); congruence|]. intros a s' (-> & Hd & _). by exists V.
  - unfold write_rejects in Hrej. destruct (free_list (fat V) 3) as [|c L] eqn:HL; [done|].
    rewrite bool_decide_eq_false_2 in Hrej by done.
    destruct (Z.eqb_spec (user_attribute (dir V (parent_cluster_number r) 0)) UATTR_NOT_EMPTY) as [Hu|]; [|done].
    cbn [negb] in Hrej. assert (Hdir : directory V (parent_cluster_number r)) by done.
    destruct (dir_find _ _ _) eqn:Hfind; [done|]. unfold written. destruct (Z.eqb_spec (buffer_size r) 0) as [E|E].
    + destruct (dir_free _) as [k|] eqn:Hfree; [|done].
      eapply wp_mono; [by apply (wp_write_directory r V s k c L)|].
      intros a s' (-> & V' & Hd & _ & _ & Hcr). exists V'. split; [done|]. split; [done|]. by exists k, c, L.
    + destruct (Hslot E) as [k Hfree]. rewrite <- HL in Hrej.
      destruct (Z.ltb_spec (Z.of_nat (length (free_list (fat V) 3))) (clusters_needed (buffer_size r))); [done|].
      assert (0 < buffer_size r) by (destruct Hr as (_ & _ & _ & Hs); lia).
      eapply wp_write_new; [exact Hr|exact HV|exact Hdir|lia|exact Hfind|exact Hfree|done|].
      intros s' V' Hd _ _ Hcr. exists V'. split; [done|]. split; [done|]. by exists k.
Qed.

End Directory.

Lemma write_directory_ok_witness :
  exists c s' V', write (Sample.absent 2 0) Sample.state = Ret (0, s') /\ disk_is (disk s') V' /\
    fat V' c = FAT32_FAT_END_OF_FILE.
Proof.
  pose proof sample_free as Hfree. destruct (free_list (fat Sample.V) 3) as [|c L] eqn:HL; [simpl in Hfree; lia|].
  destruct (free_list_cons _ _ _ _ HL) as (_ & Hc & _).
  destruct (write_directory_ok (Sample.absent 2 0) Sample.V Sample.state 6 c L) as (s' & V' & Hw & Hd & _ & _ & Hcr).
  - sample_request.
  - exact sample_disk.
  - apply sample_directory. by left.
  - reflexivity.
  - unfold Sample.V. rewrite image_fat by fat_lia. vm_compute. discriminate.
  - unfold Sample.V. rewrite image_fat by fat_lia. vm_compute. discriminate.
  - sample.
  - sample.
  - exact HL.
  - exists c, s', V'. split; [exact Hw|]. split; [exact Hd|].
    rewrite (mkdir_fat _ _ _ _ _ Hcr) by fat_lia. by rewrite decide_True.
Defined.
