(* ===== verification/FatInit.v ===== *)
(** Theorems about starting the file system of src/src/fat32.c:
    [is_empty_storage], [create_fat32] and [initialize_filesystem_fat32]. *)
From Stdlib Require Import ZArith Lia.
From stdpp Require Import base numbers option strings zmap functions list.
From S2P Require Import Prelude CString Disk FatTypes Fat32 FatView FatRead FatWrite FatCreate FatSample FatDelete FatDir.

(** ** Reference definitions *)

(** The boot sector, the first of the four sectors of cluster 0. *)
Definition boot_sector (V : clusters) : list byte := take 512 (V 0).

(** The name [create_fat32] gives the root: the literal "root" with its
    terminator, and three bytes that happen to follow it. *)
Definition root_name (tail : list byte) : list byte := cstring "root" ++ zeros 1 ++ tail.

(** An empty file system: the signature, a cluster map with nothing but the two
    reserved clusters and the root, and a root directory whose own entry and
    parent are itself. *)
Record formatted (V : clusters) (tail : list byte) : Prop := {
  formatted_boot : boot_sector V = fs_signature;
  formatted_map x : 0 <= x < CLUSTER_MAP_SIZE ->
    fat V x = if decide (x = 0) then CLUSTER_0_VALUE
              else if decide (x = 1) then CLUSTER_1_VALUE
              else if decide (x = 2) then FAT32_FAT_END_OF_FILE else FAT32_FAT_EMPTY_ENTRY;
  formatted_root : fresh_directory V ROOT_CLUSTER_NUMBER
    (self_entry ROOT_CLUSTER_NUMBER (root_name tail)) (self_entry ROOT_CLUSTER_NUMBER (root_name tail));
}.

(** ** Lemmas *)

Lemma length_fs_signature : length fs_signature = 512%nat.
Proof. reflexivity. Qed.

(** The table of a driver object that is zero. *)
Lemma cluster_map_zero x : cluster_map ∅ x = FAT32_FAT_EMPTY_ENTRY.
Proof. unfold cluster_map, load_le. cbn [load]. unfold mget. rewrite !lookup_empty. reflexivity. Qed.

Lemma formatted_directory V tail : formatted V tail -> directory V ROOT_CLUSTER_NUMBER.
Proof.
  intros [_ Hm (Hs & _)]. split; [fat_lia|]. split; [done|]. split; [by rewrite Hm by fat_lia|]. by rewrite Hs.
Qed.

(** The first unused entry and the free clusters of an empty file system. *)
Lemma formatted_free V tail : formatted V tail -> dir_free (dir V ROOT_CLUSTER_NUMBER) = Some 2.
Proof.
  intros [_ _ (H0 & H1 & H2)]. apply find_up_Some. split; [lia|]. split; [by rewrite H2 by lia|].
  intros j Hj. assert (j = 0 \/ j = 1) as [-> | ->] by lia; by rewrite ?H0, ?H1.
Qed.

Lemma formatted_free_list V tail : formatted V tail -> free_list (fat V) 3 = seqZ 3 509.
Proof.
  intros Hf. rewrite (free_list_ext _ (fun _ => FAT32_FAT_EMPTY_ENTRY)); [by vm_compute|].
  intros c Hc. rewrite (formatted_map _ _ Hf) by fat_lia. by rewrite !decide_False by lia.
Qed.

(** An empty file system takes a file or a directory of any name that is not in
    the root's two entries or all zeros. *)
Lemma formatted_accepts V tail r :
  formatted V tail -> parent_cluster_number r = ROOT_CLUSTER_NUMBER ->
  req_name r <> root_name tail -> req_name r <> dot_dot -> req_name r <> name empty_entry ->
  clusters_needed (buffer_size r) <= 509 ->
  dir_find (dir V ROOT_CLUSTER_NUMBER) (req_name r) (req_ext r) = None /\ write_rejects V r = None.
Proof.
  intros Hf Hp H1 H2 H3 Hn. pose proof (formatted_root _ _ Hf) as (E0 & E1 & E2).
  assert (Hfind : dir_find (dir V ROOT_CLUSTER_NUMBER) (req_name r) (req_ext r) = None).
  { apply find_up_None. intros i Hi. apply bool_decide_eq_false. intros [Hnm _].
    assert (i = 0 \/ i = 1 \/ 2 <= i < 64) as [->|[->|Hi']] by lia.
    - rewrite E0 in Hnm. by apply H1.
    - rewrite E1 in Hnm. by apply H2.
    - rewrite E2 in Hnm by lia. by apply H3. }
  split; [done|]. unfold write_rejects. rewrite (formatted_free_list _ _ Hf), Hp, Hfind, E0.
  rewrite bool_decide_eq_false_2 by done. cbn [self_entry user_attribute]. rewrite Z.eqb_refl, (formatted_free _ _ Hf). cbn [negb].
  destruct (_ =? 0); [done|]. rewrite length_seqZ. by rewrite (proj2 (Z.ltb_ge _ _)) by lia.
Qed.

Section Init.
Context {D : Type} `{DiskSpec D}.
Implicit Types (d : D) (V : clusters) (s : fs D).

Lemma cluster_boot d : disk_ok d -> take 512 (cluster d 0) = sector d 0.
Proof.
  intros Hd. unfold cluster. change (4 * 0) with 0. cbn [sectors].
  assert (Hl : length (sector d 0) = 512%nat).
  { apply sector_length; [done|]. pose proof capacity_clusters. lia. }
  rewrite take_app_le by lia. rewrite <- Hl. apply firstn_all.
Qed.

Lemma wp_is_empty_storage V s (Q : bool -> fs D -> Prop) :
  disk_is (disk s) V ->
  (forall d, disk_is d V -> Q (bool_decide (boot_sector V <> fs_signature)) (set_disk d s)) ->
  wp is_empty_storage Q s.
Proof.
  intros HV HQ. pose proof HV as [Hd Hc]. pose proof capacity_clusters as Hcap.
  destruct (read_blocks_ok (disk s) ∅ 0 0 1) as (d' & Hr & Hd' & Hs); [done|lia..|].
  unfold is_empty_storage, BOOT_SECTOR. apply wp_bind. eapply wp_lift_disk; [exact Hr|]. apply wp_ret.
  assert (Hcl : disk_is d' V).
  { split; [done|]. intros c' Hc'. rewrite <- Hc by done. apply sectors_ext. intros b Hb. apply Hs. fat_lia. }
  assert (Hb : boot_sector V = sector (disk s) 0) by (unfold boot_sector; rewrite <- Hc by fat_lia; by apply cluster_boot).
  assert (Hl : length (sector (disk s) 0) = 512%nat) by (apply sector_length; [done|lia]).
  replace (negb _) with (bool_decide (boot_sector V <> fs_signature)); [by apply HQ|].
  cbn [sectors]. rewrite app_nil_r, Hb. symmetry.
  destruct (Z.eqb_spec (memcmp (store ∅ 0 (sector (disk s) 0)) 0 (obj fs_signature) 0 (Z.to_nat BLOCK_SIZE)) 0) as [E|E];
    (rewrite memcmp_zero in E); change (Z.to_nat BLOCK_SIZE) with 512%nat in E;
    unfold obj in E; rewrite !load_store_eq in E by (done || by rewrite Hl).
  - rewrite bool_decide_eq_false_2; [done|]. intros Hn. by apply Hn.
  - by rewrite bool_decide_eq_true_2.
Qed.

(** The signature is written to the boot sector. *)
Lemma write_boot d V : disk_is d V ->
  exists d', write_blocks (obj fs_signature) 0 BOOT_SECTOR 1 d = Ret (tt, d') /\
    disk_is d' (<[0 := fs_signature ++ drop 512 (V 0)]> V).
Proof.
  intros [Hd Hc]. pose proof capacity_clusters as Hcap. unfold BOOT_SECTOR.
  destruct (write_blocks_ok d (obj fs_signature) 0 0 1) as (d' & Hr & Hd' & Hs); [done|lia..|].
  exists d'. split; [exact Hr|]. split; [done|]. intros c Hcr.
  destruct (decide (c = 0)) as [->|Hne].
  - rewrite fn_lookup_insert, <- Hc by fat_lia. unfold cluster. change (4 * 0) with 0. cbn [sectors].
    rewrite !Hs by lia. rewrite decide_True by lia. rewrite !decide_False by lia.
    assert (Hl : length (sector d 0) = 512%nat) by (apply sector_length; [done|lia]).
    rewrite drop_app_le, drop_ge by lia.
    f_equal.
  - rewrite fn_lookup_insert_ne by done. rewrite <- Hc by done. apply sectors_ext. intros b Hb.
    rewrite Hs by fat_lia. by rewrite decide_False by lia.
Qed.

(** [init_directory_table] for the root: the first free cluster is 2. *)
Lemma wp_init_root nm p V s (Q : unit -> fs D -> Prop) :
  length nm = 8%nat -> disk_is (disk s) V -> first_free (memory s) = ROOT_CLUSTER_NUMBER ->
  (forall s' V', disk_is (disk s') V' -> user s' = user s -> fat_cached s' V' ->
     fresh_directory V' ROOT_CLUSTER_NUMBER (self_entry ROOT_CLUSTER_NUMBER nm) (self_entry ROOT_CLUSTER_NUMBER nm) ->
     (forall x, 0 <= x < CLUSTER_MAP_SIZE ->
        fat V' x = if decide (x = ROOT_CLUSTER_NUMBER) then FAT32_FAT_END_OF_FILE else cluster_map (memory s) x) ->
     (forall x, x <> FAT_CLUSTER_NUMBER -> x <> ROOT_CLUSTER_NUMBER -> V' x = V x) -> Q tt s') ->
  wp (init_directory_table nm p) Q s.
Proof.
  intros Hnm HV Hfree HQ. unfold init_directory_table.
  pose proof (self_entry_ok ROOT_CLUSTER_NUMBER nm Hnm) as Hs.
  apply wp_bind, wp_gets. rewrite Hfree. eapply wp_write_map; [exact HV|fat_lia|].
  intros s1 V1 Hd1 Hu1 Hca1 Hf1 Hfr1. cbn [negb Z.eqb Pos.eqb ROOT_CLUSTER_NUMBER].
  apply wp_bind, wp_ret. eapply wp_write_table; [done| |exact Hd1|done|fat_lia|done|].
  { by apply with_name_ok. }
  intros s3 V3 Hd3 Hu3 Hca3 He0 He1 He2 Hfr3. apply (HQ _ V3); [done|congruence|done|done| |].
  - intros x Hx. rewrite (fat_ext V3 V1), Hf1 by auto. done.
  - intros x Hx1 Hx2. by rewrite Hfr3, Hfr1.
Qed.

Lemma wp_create_fat32 tail V s (Q : unit -> fs D -> Prop) :
  length tail = 3%nat -> disk_is (disk s) V ->
  (forall x, 0 <= x < CLUSTER_MAP_SIZE -> cluster_map (memory s) x = FAT32_FAT_EMPTY_ENTRY) ->
  (forall s' V', disk_is (disk s') V' -> user s' = user s -> fat_cached s' V' -> formatted V' tail ->
     (forall x, 3 <= x -> V' x = V x) -> Q tt s') ->
  wp (create_fat32 tail) Q s.
Proof.
  intros Ht HV Hz HQ. unfold create_fat32. destruct (write_boot _ _ HV) as (d1 & Hr1 & Hd1).
  apply wp_bind. eapply wp_lift_disk; [exact Hr1|].
  apply wp_bind, wp_cluster_map_set; [lia|]. apply wp_bind, wp_cluster_map_set; [lia|]. cbn [memory set_memory set_disk].
  set (m2 := store_le 4 (store_le 4 (memory s) _ _) _ _).
  assert (Hm2 : forall x, 0 <= x < CLUSTER_MAP_SIZE ->
    cluster_map m2 x = if decide (1 = x) then CLUSTER_1_VALUE else if decide (0 = x) then CLUSTER_0_VALUE else FAT32_FAT_EMPTY_ENTRY).
  { intros x Hx. unfold m2. rewrite !cluster_map_store by done. by rewrite Hz. }
  apply wp_bind, wp_gets. cbn [memory set_memory set_disk].
  destruct (write_clusters_spec (memcpy ∅ 0 m2 fat_table (Z.to_nat CLUSTER_SIZE)) 0 1 _ _ Hd1) as (d2 & Hr2 & Hd2); [fat_lia|].
  apply wp_bind. eapply wp_lift_disk; [exact Hr2|].
  eapply wp_init_root; [|exact Hd2| |].
  - rewrite !length_app, Ht. reflexivity.
  - unfold first_free. cbn [memory set_memory set_disk]. rewrite (proj2 (find_up_Some _ 1 511 2)); [done|].
    split; [lia|]. split.
    + rewrite Hm2 by fat_lia. by rewrite !decide_False by lia.
    + intros j Hj. rewrite Hm2 by fat_lia. by rewrite decide_True by lia.
  - intros s' V' Hd' Hu' Hca Hroot Hmap Hfr. apply (HQ _ V'); [done|done|done| |].
    + split; [|intros x Hx|exact Hroot].
      * unfold boot_sector. rewrite Hfr by done. rewrite fn_lookup_insert_ne, fn_lookup_insert by done.
        rewrite take_app_le by done. apply (firstn_all fs_signature).
      * rewrite Hmap by done. cbn [memory set_memory set_disk]. rewrite Hm2 by done. change ROOT_CLUSTER_NUMBER with 2.
        repeat case_decide; congruence || lia || done.
    + intros x Hx. rewrite Hfr by fat_lia. by rewrite !fn_lookup_insert_ne by lia.
Qed.

(** [initialize_filesystem_fat32] on a disk without the signature, as a rule. *)
Lemma wp_formats tail V s (Q : unit -> fs D -> Prop) :
  length tail = 3%nat -> disk_is (disk s) V -> boot_sector V <> fs_signature ->
  (forall x, 0 <= x < CLUSTER_MAP_SIZE -> cluster_map (memory s) x = FAT32_FAT_EMPTY_ENTRY) ->
  (forall s' V', disk_is (disk s') V' -> user s' = user s -> fat_cached s' V' -> formatted V' tail ->
     (forall x, 3 <= x -> V' x = V x) -> Q tt s') ->
  wp (initialize_filesystem_fat32 tail) Q s.
Proof.
  intros Ht HV Hb Hz HQ. unfold initialize_filesystem_fat32. apply wp_bind. apply (wp_is_empty_storage V); [done|].
  intros d Hd. rewrite bool_decide_eq_true_2 by done. by apply (wp_create_fat32 _ V).
Qed.

(** C23: on a storage whose boot sector is not the signature, and with the driver
    object still zero, [initialize_filesystem_fat32] formats: the signature, the
    cluster map and the root directory are on the disk, the driver's table is
    the one on the disk, the root is a directory the other operations accept,
    and the data clusters are not touched.  A second start sees the signature. *)
Theorem initialize_formats tail V s :
  length tail = 3%nat -> disk_is (disk s) V -> boot_sector V <> fs_signature ->
  (forall x, 0 <= x < CLUSTER_MAP_SIZE -> cluster_map (memory s) x = FAT32_FAT_EMPTY_ENTRY) ->
  exists s' V',
    initialize_filesystem_fat32 tail s = Ret (tt, s') /\ disk_is (disk s') V' /\ user s' = user s /\
    fat_cached s' V' /\ formatted V' tail /\ directory V' ROOT_CLUSTER_NUMBER /\
    (forall x, 3 <= x -> V' x = V x) /\
    exists d, is_empty_storage s' = Ret (false, set_disk d s').
Proof.
  intros Ht HV Hb Hz.
  destruct (wp_elim (initialize_filesystem_fat32 tail) (fun _ s' => exists V', disk_is (disk s') V' /\ user s' = user s /\
    fat_cached s' V' /\ formatted V' tail /\ forall x, 3 <= x -> V' x = V x) s)
    as ([] & s' & Hr & V' & Hd' & Hu' & Hca & Hf & Hfr).
  { apply (wp_formats _ V); [done..|]. intros s' V' Hd' Hu' Hca Hf Hfr. by exists V'. }
  exists s', V'. do 5 (split; [done|]). split; [by eapply formatted_directory|]. split; [done|].
  destruct (wp_elim is_empty_storage (fun b s2 => b = false /\ exists d, s2 = set_disk d s') s') as (b & s2 & Hr2 & -> & d & ->).
  { apply (wp_is_empty_storage V'); [done|]. intros d _. split; [|by exists d].
    apply bool_decide_eq_false_2. intros Hn. apply Hn. apply (formatted_boot _ _ Hf). }
  by exists d.
Qed.

Lemma wp_initialize_loads tail V s (Q : unit -> fs D -> Prop) :
  disk_is (disk s) V -> boot_sector V = fs_signature ->
  (forall s', disk_is (disk s') V -> user s' = user s -> fat_cached s' V ->
     (forall i, 0 <= i < 64 -> table_entry (memory s') dir_table_buf i = dir V ROOT_CLUSTER_NUMBER i) -> Q tt s') ->
  wp (initialize_filesystem_fat32 tail) Q s.
Proof.
  intros HV Hb HQ. unfold initialize_filesystem_fat32. apply wp_bind. apply (wp_is_empty_storage V); [done|]. intros d Hd.
  rewrite bool_decide_eq_false_2 by (intros Hn; by apply Hn).
  apply wp_bind. eapply wp_read_local; [exact Hd|fat_lia|]. intros d1 Hd1. apply wp_bind, wp_modify.
  apply wp_bind. eapply wp_read_local; [exact Hd1|fat_lia|]. intros d2 Hd2. apply wp_modify.
  cbn [memory set_memory set_disk disk user]. rewrite !memcpy_store. change (Z.to_nat CLUSTER_SIZE) with 2048%nat.
  unfold obj. rewrite !load_store_eq by (by rewrite (disk_is_length _ _ _ HV) by fat_lia).
  assert (Hl : forall c, 0 <= c < CLUSTER_MAP_SIZE -> length (V c) = 2048%nat) by (intros c Hc; by eapply disk_is_length).
  apply HQ; [done|done| |].
  - intros x Hx. unfold fat. apply window_cluster_map; [|fat_lia]. eapply window_trans.
    + apply window_store_ne. left. fat_lia.
    + apply window_store_obj. by rewrite Hl by fat_lia.
  - intros i Hi. unfold dir. apply window_table_entry; [|done].
    apply window_store_obj. by rewrite Hl by fat_lia.
Qed.

(** on a storage with the signature [initialize_filesystem_fat32] changes no
    sector: it loads the cluster map and the root directory into the driver. *)
Theorem initialize_loads tail V s :
  disk_is (disk s) V -> boot_sector V = fs_signature ->
  exists s',
    initialize_filesystem_fat32 tail s = Ret (tt, s') /\ disk_is (disk s') V /\ user s' = user s /\
    fat_cached s' V /\
    (forall i, 0 <= i < 64 -> table_entry (memory s') dir_table_buf i = dir V ROOT_CLUSTER_NUMBER i).
Proof.
  intros HV Hb.
  destruct (wp_elim (initialize_filesystem_fat32 tail) (fun _ s' => disk_is (disk s') V /\ user s' = user s /\
    fat_cached s' V /\ forall i, 0 <= i < 64 -> table_entry (memory s') dir_table_buf i = dir V ROOT_CLUSTER_NUMBER i) s)
    as ([] & s' & Hr & Hs'); [|by exists s'].
  by apply (wp_initialize_loads _ V).
Qed.

End Init.

(** ** A blank image and a formatted one *)

Definition blank_image : Inserter.image := Inserter.Image ∅.
Definition signed : Inserter.image := Inserter.Image (store ∅ 0 fs_signature).

Lemma initialize_formats_witness :
  exists s' V', initialize_filesystem_fat32 (zeros 3) (Fs ∅ blank_image ∅) = Ret (tt, s') /\ disk_is (disk s') V' /\
    formatted V' (zeros 3).
Proof.
  destruct (initialize_formats (zeros 3) (cluster blank_image) (Fs ∅ blank_image ∅)) as (s' & V' & Hr & Hd & _ & _ & Hf & _).
  - reflexivity.
  - by apply disk_is_cluster.
  - vm_compute. discriminate.
  - intros x _. unfold cluster_map, load_le, mget. cbn [load memory]. unfold mget. rewrite !lookup_empty. reflexivity.
  - exists s', V'. split; [exact Hr|]. split; [exact Hd|exact Hf].
Defined.

Lemma initialize_loads_witness :
  exists s', initialize_filesystem_fat32 (zeros 3) (Fs ∅ signed ∅) = Ret (tt, s') /\ user s' = ∅.
Proof.
  destruct (initialize_loads (zeros 3) (cluster signed) (Fs ∅ signed ∅)) as (s' & Hr & _ & Hu & _).
  - by apply disk_is_cluster.
  - vm_compute. reflexivity.
  - exists s'. split; [exact Hr|exact Hu].
Defined.
