(* ===== verification/FatInvariant.v ===== *)
(** The invariant of the file system: the tree of directories with the clusters
    that its entries own, that a change of one entry keeps it, and that the
    effects of [write] and [delete] are such changes. *)
From Stdlib Require Import ZArith Lia.
From stdpp Require Import base numbers option strings zmap functions list.
From S2P Require Import Prelude CString Disk FatTypes Fat32 FatView FatRead FatWrite FatCreate FatDelete FatDir.

(** ** The invariant *)

Definition used (e : dirent) : Prop := user_attribute e = UATTR_NOT_EMPTY.

(** An entry in use behind the directory's own and the one of its parent. *)
Definition slot (V : clusters) (p i : Z) : Prop := 2 <= i < 64 /\ used (dir V p i).

(** The directories of the tree; the code takes an entry without a size for a
    directory. *)
Inductive reach (V : clusters) : Z -> Prop :=
| reach_root : reach V ROOT_CLUSTER_NUMBER
| reach_sub p i : reach V p -> slot V p i -> filesize (dir V p i) = 0 -> reach V (entry_cluster (dir V p i)).

(** The clusters of an entry: one for a directory, and for a file a chain with as
    many as its size needs. *)
Definition owns (V : clusters) (e : dirent) (l : list Z) : Prop :=
  if filesize e =? 0 then l = [entry_cluster e]
  else chain (fat V) (entry_cluster e) l /\ Z.of_nat (length l) = clusters_needed (filesize e).

(** Two entries with the same name. *)
Definition same_names (e1 e2 : dirent) : Prop := name e1 = name e2 /\ ext e1 = ext e2.

(** The table of the directory [p] with the parent [q]: its own entry and the one
    of its parent, and no name in an entry that is not in use. *)
Record table_ok (V : clusters) (p q : Z) : Prop := {
  table_directory : directory V p;
  table_self : entry_cluster (dir V p 0) = p /\ filesize (dir V p 0) = 0;
  table_parent : used (dir V p 1) /\ entry_cluster (dir V p 1) = q /\ filesize (dir V p 1) = 0;
  table_unused i : 0 <= i < 64 -> ~ used (dir V p i) -> name (dir V p i) = zeros 8 /\ ext (dir V p i) = zeros 3;
}.

(** The tables are as they should be, every entry has clusters that are
    allocated, no cluster belongs to two entries, and no name to two entries of a
    directory. *)
Record fs_ok (V : clusters) : Prop := {
  ok_map : fat V FAT_CLUSTER_NUMBER <> FAT32_FAT_EMPTY_ENTRY;
  ok_root : table_ok V ROOT_CLUSTER_NUMBER ROOT_CLUSTER_NUMBER;
  ok_folder p i : reach V p -> slot V p i -> filesize (dir V p i) = 0 -> table_ok V (entry_cluster (dir V p i)) p;
  ok_owns p i : reach V p -> slot V p i ->
    exists l, owns V (dir V p i) l /\ forall c, c ∈ l -> 3 <= c < CLUSTER_MAP_SIZE /\ fat V c <> FAT32_FAT_EMPTY_ENTRY;
  ok_disjoint p i q j l1 l2 c : reach V p -> slot V p i -> reach V q -> slot V q j ->
    owns V (dir V p i) l1 -> owns V (dir V q j) l2 -> c ∈ l1 -> c ∈ l2 -> p = q /\ i = j;
  ok_names p i j : reach V p -> slot V p i -> 0 <= j < 64 -> used (dir V p j) -> same_names (dir V p i) (dir V p j) -> i = j;
  ok_attribute p i : reach V p -> slot V p i -> attribute (dir V p i) <> 1;
}.

(** ** Lemmas *)

Lemma owns_unique V e l1 l2 : owns V e l1 -> owns V e l2 -> l1 = l2.
Proof. unfold owns. destruct (_ =? 0); [by intros -> ->|]. intros [H1 _] [H2 _]. by eapply chain_unique. Qed.

Lemma owns_folder V e : filesize e = 0 -> owns V e [entry_cluster e].
Proof. unfold owns. by intros ->. Qed.

Lemma owns_ext V V' e l : (forall c, c ∈ l -> fat V' c = fat V c) -> owns V e l -> owns V' e l.
Proof. unfold owns. destruct (_ =? 0); [done|]. intros Hf [Hch Hl]. split; [by eapply chain_ext|done]. Qed.

Lemma owns_file V e l :
  filesize e <> 0 -> owns V e l -> chain (fat V) (entry_cluster e) l /\ Z.of_nat (length l) = clusters_needed (filesize e).
Proof. unfold owns. intros Hz. by rewrite (proj2 (Z.eqb_neq _ _) Hz). Qed.

Lemma reach_inv V c : reach V c ->
  c = ROOT_CLUSTER_NUMBER \/ exists p i, reach V p /\ slot V p i /\ filesize (dir V p i) = 0 /\ c = entry_cluster (dir V p i).
Proof. destruct 1 as [|p i Hp Hs Hf]; [by left|]. right. by exists p, i. Qed.

Section Tree.
Context (V : clusters) (Hok : fs_ok V).

Lemma reach_table p : reach V p -> exists q, table_ok V p q.
Proof. intros [->|(q & i & Hq & Hs & Hf & ->)]%reach_inv; [eexists; apply Hok|]. exists q. by apply Hok. Qed.

Lemma reach_directory p : reach V p -> directory V p.
Proof. intros (q & Ht)%reach_table. apply Ht. Qed.

Lemma folder_cluster p i :
  reach V p -> slot V p i -> filesize (dir V p i) = 0 ->
  3 <= entry_cluster (dir V p i) < CLUSTER_MAP_SIZE /\ fat V (entry_cluster (dir V p i)) <> FAT32_FAT_EMPTY_ENTRY.
Proof.
  intros Hp Hs Hf. destruct (ok_owns _ Hok p i Hp Hs) as (l & Ho & Hl).
  rewrite (owns_unique _ _ _ _ Ho (owns_folder V _ Hf)) in Hl. apply Hl, list_elem_of_singleton. done.
Qed.

(** The clusters of an entry belong to a directory only when the entry is the one
    of that directory. *)
Lemma owned_reach p i l c :
  reach V p -> slot V p i -> owns V (dir V p i) l -> c ∈ l -> reach V c -> filesize (dir V p i) = 0 /\ c = entry_cluster (dir V p i).
Proof.
  intros Hp Hs Ho Hc [->|(q & j & Hq & Hsq & Hf & ->)]%reach_inv.
  - destruct (ok_owns _ Hok p i Hp Hs) as (l' & Ho' & Hl'). rewrite (owns_unique _ _ _ _ Ho Ho') in Hc. apply Hl' in Hc. fat_lia.
  - destruct (ok_disjoint _ Hok p i q j l _ (entry_cluster (dir V q j)) Hp Hs Hq Hsq Ho (owns_folder V _ Hf) Hc) as [-> ->]; [|done].
    by apply list_elem_of_singleton.
Qed.

(** The entries of the directory itself and of its parent have no size. *)
Lemma sized_slot p i : reach V p -> 0 <= i < 64 -> used (dir V p i) -> filesize (dir V p i) <> 0 -> slot V p i.
Proof.
  intros (q & Ht)%reach_table Hi Hu Hz. split; [|done].
  destruct (decide (i = 0)) as [->|]; [by destruct (table_self _ _ _ Ht)|].
  destruct (decide (i = 1)) as [->|]; [by destruct (table_parent _ _ _ Ht) as (_ & _ & ?)|]. lia.
Qed.

(** No directory is an entry of itself. *)
Lemma no_loop p : reach V p -> forall i, slot V p i -> filesize (dir V p i) = 0 -> entry_cluster (dir V p i) <> p.
Proof.
  induction 1 as [|q j Hq IH Hs Hf]; intros i Hi Hfi Heq.
  - destruct (folder_cluster _ i (reach_root V) Hi Hfi) as [Hc _]. fat_lia.
  - assert (Hp : reach V (entry_cluster (dir V q j))) by by apply reach_sub.
    destruct (ok_disjoint _ Hok _ i q j _ _ (entry_cluster (dir V q j)) Hp Hi Hq Hs (owns_folder V _ Hfi) (owns_folder V _ Hf)) as [Hqq Hij].
    + rewrite Heq. by apply list_elem_of_singleton.
    + by apply list_elem_of_singleton.
    + rewrite Hqq in Hi, Hfi, Heq. by apply (IH i Hi Hfi).
Qed.

Lemma free_slot_behind p k : reach V p -> dir_free (dir V p) = Some k -> 2 <= k < 64 /\ ~ used (dir V p k).
Proof.
  intros (q & Ht)%reach_table. unfold dir_free. rewrite find_up_Some. intros (Hk & Hu & _).
  apply negb_true_iff, Z.eqb_neq in Hu. split; [|done].
  destruct (decide (k = 0)) as [->|]; [by destruct Hu, (table_directory _ _ _ Ht) as (_ & _ & _ & ?)|].
  destruct (decide (k = 1)) as [->|]; [by destruct (table_parent _ _ _ Ht)|]. lia.
Qed.

End Tree.

(** ** A change of one entry *)

(** [V'] is [V] with the entry [e] at index [k] of the directory [P]: the clusters
    [gone] are no longer allocated, those of [new] are now. *)
Record edited (V V' : clusters) (P k : Z) (e : dirent) (gone new : list Z) : Prop := {
  edit_place : 2 <= k < 64;
  edit_dir p i : reach V p -> p ∉ gone -> 0 <= i < 64 ->
    dir V' p i = if decide (p = P /\ i = k) then e else dir V p i;
  edit_fat c : 0 <= c < CLUSTER_MAP_SIZE -> c ∉ gone -> c ∉ new -> fat V' c = fat V c;
  edit_gone c : c ∈ gone ->
    slot V P k /\ filesize (dir V P k) = 0 /\ c = entry_cluster (dir V P k) /\ forall i, ~ slot V c i;
  edit_new c : c ∈ new -> 3 <= c < CLUSTER_MAP_SIZE /\ fat V c = FAT32_FAT_EMPTY_ENTRY /\ fat V' c <> FAT32_FAT_EMPTY_ENTRY;
  edit_name : used e -> attribute e <> 1 /\ forall j, 0 <= j < 64 -> ~ same_names e (dir V P j);
  edit_used : used e -> owns V' e new /\
    (filesize e = 0 -> table_ok V' (entry_cluster e) P /\ forall i, ~ slot V' (entry_cluster e) i);
  edit_unused : ~ used e -> name e = zeros 8 /\ ext e = zeros 3;
}.

Section Edit.
Context (V V' : clusters) (P k : Z) (e : dirent) (gone new : list Z).
Hypothesis Hok : fs_ok V.
Hypothesis HP : reach V P.
Hypothesis Hedit : edited V V' P k e gone new.

(** A directory that is still there. *)
Definition kept (p : Z) : Prop := reach V p /\ p ∉ gone.

Lemma gone_clusters c : c ∈ gone -> 3 <= c < CLUSTER_MAP_SIZE /\ fat V c <> FAT32_FAT_EMPTY_ENTRY.
Proof. intros (Hs & Hf & -> & _)%(edit_gone _ _ _ _ _ _ _ Hedit). by apply (folder_cluster V Hok). Qed.

Lemma kept_root : kept ROOT_CLUSTER_NUMBER.
Proof. split; [constructor|]. intros [Hc _]%gone_clusters. fat_lia. Qed.

Lemma kept_parent : kept P.
Proof.
  split; [exact HP|]. intros (Hs & Hf & Hc & _)%(edit_gone _ _ _ _ _ _ _ Hedit). by apply (no_loop V Hok P HP k Hs Hf).
Qed.

(** The table of a directory that is kept. *)
Lemma kept_table p q : kept p -> table_ok V p q -> table_ok V' p q.
Proof.
  intros [Hp Hg] [(Hr & H1 & Hf & Hu) Hs Hpar Hun]. pose proof (edit_place _ _ _ _ _ _ _ Hedit) as Hk.
  assert (Hd : forall i, 0 <= i < 64 -> dir V' p i = if decide (p = P /\ i = k) then e else dir V p i).
  { intros i Hi. by apply (edit_dir _ _ _ _ _ _ _ Hedit). }
  assert (Hf' : fat V' p = fat V p).
  { apply (edit_fat _ _ _ _ _ _ _ Hedit); [done|done|]. by intros (_ & He & _)%(edit_new _ _ _ _ _ _ _ Hedit). }
  split.
  - split; [done|]. split; [done|]. split; [by rewrite Hf'|]. by rewrite Hd, decide_False by lia.
  - by rewrite Hd, decide_False by lia.
  - by rewrite Hd, decide_False by lia.
  - intros i Hi. rewrite Hd by done. destruct (decide (p = P /\ i = k)); [by apply (edit_unused _ _ _ _ _ _ _ Hedit)|by apply Hun].
Qed.

(** An entry in use of a directory that is kept, but the changed one. *)
Definition old_slot (p i : Z) : Prop :=
  kept p /\ slot V p i /\ dir V' p i = dir V p i /\ (filesize (dir V p i) = 0 -> entry_cluster (dir V p i) ∉ gone).

Lemma kept_slot p i : kept p -> slot V' p i -> (p = P /\ i = k /\ dir V' p i = e /\ used e) \/ old_slot p i.
Proof.
  intros Hp [Hi Hu]. pose proof (edit_dir _ _ _ _ _ _ _ Hedit p i (proj1 Hp) (proj2 Hp) ltac:(lia)) as Hd.
  rewrite Hd in Hu. destruct (decide (p = P /\ i = k)) as [[-> ->]|Hne]; [by left|]. right.
  assert (Hs : slot V p i) by done. split; [done|]. split; [done|]. split; [done|].
  intros Hf (Hsk & Hfk & Hc & _)%(edit_gone _ _ _ _ _ _ _ Hedit). destruct Hp as [Hp _]. apply Hne.
  apply (ok_disjoint _ Hok p i P k _ _ (entry_cluster (dir V p i)) Hp Hs HP Hsk (owns_folder V _ Hf) (owns_folder V _ Hfk)); [by apply list_elem_of_singleton|].
  rewrite Hc. by apply list_elem_of_singleton.
Qed.

(** The directories afterwards. *)
Lemma reach_after p : reach V' p -> kept p \/ (used e /\ filesize e = 0 /\ p = entry_cluster e).
Proof.
  induction 1 as [|p i _ IH Hs Hf]; [left; exact kept_root|]. destruct IH as [Hp|(Hu & He & ->)].
  - destruct (kept_slot p i Hp Hs) as [(_ & _ & Hd & Hu)|([Hr _] & Hs' & Hd & Hg)]; rewrite Hd in *; [by right|].
    left. split; [by apply reach_sub|by apply Hg].
  - destruct (edit_used _ _ _ _ _ _ _ Hedit Hu) as [_ Hn]. by destruct (proj2 (Hn He) i).
Qed.

(** The directories of before are still there, but for one that the entry named
    and names no longer; it had no directories. *)
Lemma reach_before p :
  (slot V P k -> filesize (dir V P k) = 0 -> forall i, ~ slot V (entry_cluster (dir V P k)) i) ->
  reach V p -> (slot V P k -> filesize (dir V P k) = 0 -> p <> entry_cluster (dir V P k)) -> reach V' p.
Proof.
  intros Hleaf. induction 1 as [|q i Hq IH Hs Hf]; intros Hne; [constructor|].
  assert (Hg : q ∉ gone) by (intros (_ & _ & -> & Hno)%(edit_gone _ _ _ _ _ _ _ Hedit); by destruct (Hno i)).
  assert (Hd : dir V' q i = dir V q i).
  { rewrite (edit_dir _ _ _ _ _ _ _ Hedit); [|done|done|destruct Hs; lia].
    rewrite decide_False; [done|]. intros [-> ->]. by apply (Hne Hs Hf). }
  rewrite <- Hd. apply reach_sub; [|destruct Hs; split; [done|by rewrite Hd]|by rewrite Hd].
  apply IH. intros Hsk Hfk ->. by apply (Hleaf Hsk Hfk i).
Qed.

Lemma slot_after p i : reach V' p -> slot V' p i -> (p = P /\ i = k /\ dir V' p i = e /\ used e) \/ old_slot p i.
Proof.
  intros [Hp|(Hu & He & ->)]%reach_after Hs; [by apply kept_slot|].
  destruct (edit_used _ _ _ _ _ _ _ Hedit Hu) as [_ Hn]. by destruct (proj2 (Hn He) i).
Qed.

(** The clusters of an old entry. *)
Lemma old_owns p i : old_slot p i ->
  exists l, owns V (dir V p i) l /\ owns V' (dir V p i) l /\
    forall c, c ∈ l -> 3 <= c < CLUSTER_MAP_SIZE /\ fat V c <> FAT32_FAT_EMPTY_ENTRY /\ fat V' c = fat V c.
Proof.
  intros ([Hp Hg] & Hs & Hd & Hgone). destruct (ok_owns _ Hok p i Hp Hs) as (l & Ho & Hl).
  assert (Hf : forall c, c ∈ l -> fat V' c = fat V c).
  { intros c Hc. destruct (Hl c Hc) as [Hr Hne]. apply (edit_fat _ _ _ _ _ _ _ Hedit); [lia| |].
    - intros Hcg. pose proof (edit_gone _ _ _ _ _ _ _ Hedit c Hcg) as (Hsk & Hfk & Hck & _).
      destruct (owned_reach V Hok p i l c Hp Hs Ho Hc) as [Hf0 Heq]; [rewrite Hck; by apply reach_sub|].
      apply (Hgone Hf0). by rewrite <- Heq.
    - by intros (_ & He & _)%(edit_new _ _ _ _ _ _ _ Hedit). }
  exists l. split; [done|]. split; [by eapply owns_ext|]. intros c Hc. destruct (Hl c Hc). auto.
Qed.

(** A cluster does not belong to an old entry and to the new one. *)
Lemma old_new p i l1 l2 c : old_slot p i -> used e -> owns V' (dir V p i) l1 -> owns V' e l2 -> c ∈ l1 -> c ∈ l2 -> False.
Proof.
  intros Hs Hu H1 H2 Hc1 Hc2. destruct (old_owns p i Hs) as (l & _ & Ho & Hl).
  rewrite (owns_unique _ _ _ _ H1 Ho) in Hc1. destruct (edit_used _ _ _ _ _ _ _ Hedit Hu) as [Hn _].
  rewrite (owns_unique _ _ _ _ H2 Hn) in Hc2. apply Hl in Hc1 as (_ & Hne & _).
  by apply (edit_new _ _ _ _ _ _ _ Hedit) in Hc2 as (_ & ? & _).
Qed.

Lemma old_disjoint p i q j l1 l2 c :
  old_slot p i -> old_slot q j -> owns V' (dir V p i) l1 -> owns V' (dir V q j) l2 -> c ∈ l1 -> c ∈ l2 -> p = q /\ i = j.
Proof.
  intros Hs1 Hs2 H1 H2 Hc1 Hc2.
  destruct (old_owns p i Hs1) as (m1 & Ho1 & Hn1 & _), (old_owns q j Hs2) as (m2 & Ho2 & Hn2 & _).
  rewrite (owns_unique _ _ _ _ H1 Hn1) in Hc1. rewrite (owns_unique _ _ _ _ H2 Hn2) in Hc2.
  destruct Hs1 as ([Hp _] & Hs1 & _), Hs2 as ([Hq _] & Hs2 & _). by eapply (ok_disjoint _ Hok p i q j m1 m2 c).
Qed.

(** A name does not belong to an old entry and to the new one. *)
Lemma old_names p i j :
  old_slot p i -> 0 <= j < 64 -> used (dir V' p j) -> same_names (dir V p i) (dir V' p j) -> i = j.
Proof.
  intros ([Hp Hg] & Hs & _) Hj. rewrite (edit_dir _ _ _ _ _ _ _ Hedit p j Hp Hg Hj).
  destruct (decide (p = P /\ j = k)) as [[-> ->]|_]; [|by apply Hok].
  intros Hu [Hn He]. destruct (edit_name _ _ _ _ _ _ _ Hedit Hu) as [_ Hno]. destruct (Hno i); [destruct Hs; lia|by split].
Qed.

Lemma new_name j :
  used e -> 0 <= j < 64 -> used (dir V' P j) -> same_names e (dir V' P j) -> k = j.
Proof.
  intros Hu Hj. rewrite (edit_dir _ _ _ _ _ _ _ Hedit P j HP (proj2 kept_parent) Hj).
  destruct (decide (P = P /\ j = k)) as [[_ ->]|_]; [done|]. intros _ Hsame.
  destruct (edit_name _ _ _ _ _ _ _ Hedit Hu) as [_ Hno]. by destruct (Hno j).
Qed.

(** Such a change keeps the invariant. *)
Lemma edited_ok : fs_ok V'.
Proof.
  split.
  - rewrite (edit_fat _ _ _ _ _ _ _ Hedit); [apply Hok|fat_lia| |].
    + intros [Hc _]%gone_clusters. fat_lia.
    + intros [Hc _]%(edit_new _ _ _ _ _ _ _ Hedit). fat_lia.
  - apply kept_table; [exact kept_root|apply Hok].
  - intros p i Hp Hs Hf. destruct (slot_after p i Hp Hs) as [(-> & -> & Hd & Hu)|([Hr Hg] & Hs' & Hd & Hgone)]; rewrite Hd in *.
    + by apply (edit_used _ _ _ _ _ _ _ Hedit Hu).
    + apply kept_table; [split; [by apply reach_sub|by apply Hgone]|by apply Hok].
  - intros p i Hp Hs. destruct (slot_after p i Hp Hs) as [(-> & -> & -> & Hu)|Hold].
    + exists new. split; [by apply (edit_used _ _ _ _ _ _ _ Hedit Hu)|].
      intros c (Hc & _ & Hne)%(edit_new _ _ _ _ _ _ _ Hedit). done.
    + destruct (old_owns p i Hold) as (l & _ & Ho & Hl). destruct Hold as (_ & _ & -> & _).
      exists l. split; [done|]. intros c (Hc & Hne & ->)%Hl. done.
  - intros p i q j l1 l2 c Hp Hs Hq Hsq H1 H2 Hc1 Hc2.
    destruct (slot_after p i Hp Hs) as [(-> & -> & Hd & Hu)|Hold]; destruct (slot_after q j Hq Hsq) as [(-> & -> & Hd' & Hu')|Hold'];
      [done| | |].
    + rewrite Hd in H1. pose proof Hold' as (_ & _ & Hd' & _). rewrite Hd' in H2. by destruct (old_new q j l2 l1 c).
    + rewrite Hd' in H2. pose proof Hold as (_ & _ & Hd & _). rewrite Hd in H1. by destruct (old_new p i l1 l2 c).
    + pose proof Hold as (_ & _ & Hd & _). pose proof Hold' as (_ & _ & Hd' & _). rewrite Hd in H1. rewrite Hd' in H2.
      by eapply (old_disjoint p i q j l1 l2 c).
  - intros p i j Hp Hs Hj Hu Hn. destruct (slot_after p i Hp Hs) as [(-> & -> & Hd & Hue)|Hold].
    + rewrite Hd in Hn. by apply new_name.
    + pose proof Hold as (_ & _ & Hd & _). rewrite Hd in Hn. by apply (old_names p).
  - intros p i Hp Hs. destruct (slot_after p i Hp Hs) as [(-> & -> & -> & Hue)|([Hr _] & Hs' & -> & _)].
    + by apply (edit_name _ _ _ _ _ _ _ Hedit).
    + by apply Hok.
Qed.

End Edit.

(** ** The operations are such changes *)

Lemma chain_allocated f c l x :
  chain f c l -> (forall y, y ∈ l -> 3 <= y) -> x ∈ l -> f x <> FAT32_FAT_EMPTY_ENTRY.
Proof.
  induction 1 as [c Hc Hf|c l Hc Hf Hch IH]; intros Hl Hx.
  - apply list_elem_of_singleton in Hx as ->. by rewrite Hf.
  - apply elem_of_cons in Hx as [->|Hx]; [|apply IH; [intros y Hy; apply Hl, elem_of_cons; by right|done]].
    destruct (chain_head _ _ _ Hch) as [l' ->]. intros He. specialize (Hl (f c)).
    rewrite !elem_of_cons in Hl. specialize (Hl (or_intror (or_introl eq_refl))). rewrite He in Hl. fat_lia.
Qed.

Lemma self_entry_cluster c nm : 0 <= c < CLUSTER_MAP_SIZE -> entry_cluster (self_entry c nm) = c.
Proof. intros Hc. eapply entry_cluster_low; [done|done|fat_lia..]. Qed.

Lemma dir_ext V V' p i : V' p = V p -> dir V' p i = dir V p i.
Proof. unfold dir. by intros ->. Qed.

Lemma empty_unused : ~ used empty_entry.
Proof. by vm_compute. Qed.

Lemma empty_no_name : name empty_entry = zeros 8 /\ ext empty_entry = zeros 3.
Proof. by vm_compute. Qed.

Section Operations.
Context (V V' : clusters).
Hypothesis Hok : fs_ok V.

Lemma reach_fat p : reach V p -> fat V p <> FAT32_FAT_EMPTY_ENTRY.
Proof. intros Hp. by apply (reach_directory V Hok p Hp). Qed.

(** An entry whose name was looked for and not found. *)
Lemma unnamed p e : dir_find (dir V p) (name e) (ext e) = None -> forall j, 0 <= j < 64 -> ~ same_names e (dir V p j).
Proof. intros Hno j Hj [Hn He]. by eapply (dir_find_None _ _ _ j Hno). Qed.

Lemma file_edited u r k l :
  reach V (parent_cluster_number r) -> buffer_size r <> 0 -> dir_free (dir V (parent_cluster_number r)) = Some k ->
  dir_find (dir V (parent_cluster_number r)) (req_name r) (req_ext r) = None ->
  (forall c, c ∈ l -> c ∈ free_list (fat V) 3) -> Z.of_nat (length l) = clusters_needed (buffer_size r) ->
  file_created V V' u r k l ->
  edited V V' (parent_cluster_number r) k (file_entry r (first_of l)) [] l.
Proof.
  intros HP Hsize Hk Hno Hl Hlen [Hent Hch Hfat _ Hfr]. destruct (free_slot_behind V Hok _ _ HP Hk) as [Hk2 _].
  assert (Hrange : forall c, c ∈ l -> 3 <= c < CLUSTER_MAP_SIZE /\ fat V c = FAT32_FAT_EMPTY_ENTRY).
  { intros c (He & Hc)%Hl%elem_of_free_list. done. }
  assert (Hfirst : 0 <= first_of l < CLUSTER_MAP_SIZE) by (inversion Hch; done).
  split; [done| | |by intros c ?%elem_of_nil| | | |].
  - intros p i Hp _ Hi. destruct (decide (p = parent_cluster_number r)) as [->|Hne].
    + rewrite Hent by done. destruct (decide (i = k)); [by rewrite decide_True|by rewrite decide_False by tauto].
    + rewrite decide_False by tauto. destruct (reach_directory V Hok p Hp) as (Hpr & Hp1 & Hpf & _).
      apply dir_ext, Hfr; [done| |done..]. by intros [_ He]%Hrange.
  - intros c Hc _ Hcl. by apply Hfat.
  - intros c Hc. destruct (Hrange c Hc) as [Hc3 He]. split; [done|]. split; [done|].
    eapply chain_allocated; [exact Hch| |exact Hc]. intros y [Hy _]%Hrange. lia.
  - intros _. split; [done|]. by apply unnamed.
  - intros _. split; [|done]. unfold owns. cbn [filesize file_entry]. rewrite (proj2 (Z.eqb_neq _ _) Hsize).
    split; [|done]. by replace (entry_cluster (file_entry r (first_of l))) with (first_of l) by (symmetry; eapply entry_cluster_low; [done|done|fat_lia..]).
  - by intros Hu.
Qed.

(** The table of a new directory. *)
Lemma fresh_table c nm q :
  3 <= c < CLUSTER_MAP_SIZE -> fat V' c <> FAT32_FAT_EMPTY_ENTRY -> fresh_directory V' c (self_entry c nm) q ->
  used q -> filesize q = 0 -> table_ok V' c (entry_cluster q) /\ forall i, ~ slot V' c i.
Proof.
  intros Hc Hf (H0 & H1 & H2) Hu Hz. split.
  - split.
    + split; [lia|]. split; [fat_lia|]. split; [done|]. by rewrite H0.
    + rewrite H0, self_entry_cluster by lia. done.
    + by rewrite H1.
    + intros i Hi Hn. destruct (decide (i = 0)) as [->|]; [by rewrite H0 in Hn|]. destruct (decide (i = 1)) as [->|]; [by rewrite H1 in Hn|].
      rewrite H2 by lia. exact empty_no_name.
  - intros i [Hi Hs]. rewrite H2 in Hs by done. by apply empty_unused.
Qed.

Lemma directory_edited r k c L :
  reach V (parent_cluster_number r) -> dir_free (dir V (parent_cluster_number r)) = Some k ->
  dir_find (dir V (parent_cluster_number r)) (req_name r) (req_ext r) = None -> req_ext r = zeros 3 ->
  free_list (fat V) 3 = c :: L -> directory_created V V' r k c ->
  edited V V' (parent_cluster_number r) k (self_entry c (req_name r)) [] [c].
Proof.
  intros HP Hk Hno Hext HL [Hent Htab Hfat Hfr]. rewrite Hext in Hno. destruct (free_slot_behind V Hok _ _ HP Hk) as [Hk2 _].
  destruct (reach_table V Hok _ HP) as (q & [(_ & _ & _ & Hpu) [Hself Hpz] _ _]).
  assert (Hc : c ∈ free_list (fat V) 3) by (rewrite HL; by left). apply elem_of_free_list in Hc as [He Hc].
  assert (Hfc : fat V' c <> FAT32_FAT_EMPTY_ENTRY) by by rewrite Hfat, decide_True by lia.
  split; [done| | |by intros x ?%elem_of_nil| | | |].
  - intros p i Hp _ Hi. destruct (decide (p = parent_cluster_number r)) as [->|Hne].
    + rewrite Hent by done. destruct (decide (i = k)); [by rewrite decide_True|by rewrite decide_False by tauto].
    + rewrite decide_False by tauto. destruct (reach_directory V Hok p Hp) as (Hpr & Hp1 & Hpf & _).
      apply dir_ext, Hfr; [|done..]. by intros ->.
  - intros x Hx _ Hxc. rewrite Hfat, decide_False; [done| |done]. intros ->. by apply Hxc, list_elem_of_singleton.
  - intros x ->%list_elem_of_singleton. done.
  - intros _. split; [done|]. by apply unnamed.
  - intros _. split; [rewrite <- (self_entry_cluster c (req_name r)) at 2 by lia; by apply owns_folder|].
    intros _. rewrite self_entry_cluster by lia. rewrite <- Hself at 1. by apply (fresh_table c (req_name r)).
  - by intros Hu.
Qed.

Lemma file_removed r k l :
  reach V (parent_cluster_number r) -> slot V (parent_cluster_number r) k ->
  filesize (dir V (parent_cluster_number r) k) <> 0 -> owns V (dir V (parent_cluster_number r) k) l ->
  entry_removed V V' (parent_cluster_number r) k ->
  (forall c, c ∉ l -> c <> parent_cluster_number r -> V' c = V c) -> (forall c, fat V' c = fat V c) ->
  edited V V' (parent_cluster_number r) k empty_entry [] [].
Proof.
  intros HP Hs Hz Ho Hrem Hfr Hfat. split; [apply Hs| |by intros c _ _ _|by intros c ?%elem_of_nil..|by intros ?%empty_unused| |].
  - intros p i Hp _ Hi. destruct (decide (p = parent_cluster_number r)) as [->|Hne].
    + rewrite Hrem by done. destruct (decide (i = k)); [by rewrite decide_True|by rewrite decide_False by tauto].
    + rewrite decide_False by tauto. apply dir_ext, Hfr; [|done]. intros Hin.
      by destruct (owned_reach V Hok _ k l p HP Hs Ho Hin Hp).
  - by intros Hu%empty_unused.
  - intros _. exact empty_no_name.
Qed.

Lemma directory_removed r k :
  let c := entry_cluster (dir V (parent_cluster_number r) k) in
  reach V (parent_cluster_number r) -> slot V (parent_cluster_number r) k ->
  filesize (dir V (parent_cluster_number r) k) = 0 -> dir_empty V c = true ->
  entry_removed V V' (parent_cluster_number r) k ->
  (forall x, 0 <= x < CLUSTER_MAP_SIZE -> fat V' x = if decide (x = c) then FAT32_FAT_EMPTY_ENTRY else fat V x) ->
  (forall x, x <> c -> x <> FAT_CLUSTER_NUMBER -> x <> parent_cluster_number r -> V' x = V x) ->
  edited V V' (parent_cluster_number r) k empty_entry [c] [].
Proof.
  intros c HP Hs Hz Hempty Hrem Hfat Hfr. split; [apply Hs| | | |by intros x ?%elem_of_nil|by intros ?%empty_unused| |].
  - intros p i Hp Hpc Hi. destruct (decide (p = parent_cluster_number r)) as [->|Hne].
    + rewrite Hrem by done. destruct (decide (i = k)); [by rewrite decide_True|by rewrite decide_False by tauto].
    + rewrite decide_False by tauto. destruct (reach_directory V Hok p Hp) as (Hpr & Hp1 & _).
      apply dir_ext, Hfr; [|done..]. intros ->. by apply Hpc, list_elem_of_singleton.
  - intros x Hx Hxc _. rewrite Hfat, decide_False; [done| |done]. intros ->. by apply Hxc, list_elem_of_singleton.
  - intros x ->%list_elem_of_singleton. split; [done|]. split; [done|]. split; [done|].
    intros i [Hi Hu]. unfold dir_empty in Hempty. destruct (find_up _ 2 62) eqn:Hf; [done|].
    rewrite find_up_None in Hf. specialize (Hf i ltac:(lia)). by apply Z.eqb_neq in Hf.
  - by intros Hu%empty_unused.
  - intros _. exact empty_no_name.
Qed.

End Operations.
