(* ===== verification/FatHistory.v ===== *)
(** Histories of the file system: from a disk that is formatted, through any
    requests to write and to delete, the invariant of FatInvariant.v holds. *)
From Stdlib Require Import ZArith Lia.
From stdpp Require Import base numbers option strings zmap functions list.
From S2P Require Import Prelude CString Disk FatTypes Fat32 FatView FatRead FatWrite FatCreate FatSample FatDelete FatDir FatInit FatInvariant.

(** ** The invariant on disks *)

Lemma reach_ext V V' p :
  fs_ok V -> (forall c, 0 <= c < CLUSTER_MAP_SIZE -> V' c = V c) -> reach V' p -> reach V p.
Proof.
  intros Hok HV. induction 1 as [|p i _ IH [Hi Hu] Hf]; [constructor|].
  assert (Hd : dir V' p i = dir V p i) by (apply dir_ext, HV, (reach_directory V Hok p IH)).
  rewrite Hd in *. by apply reach_sub.
Qed.

(** The invariant looks at the clusters of the disk only. *)
Lemma fs_ok_ext V V' : (forall c, 0 <= c < CLUSTER_MAP_SIZE -> V' c = V c) -> fs_ok V -> fs_ok V'.
Proof.
  intros HV Hok. assert (Hfat : fat V' = fat V) by (unfold fat; by rewrite HV by fat_lia).
  assert (Hown : owns V' = owns V) by (unfold owns; by rewrite Hfat).
  assert (Hd : forall p, reach V' p -> forall i, dir V' p i = dir V p i).
  { intros p Hp i. by apply dir_ext, HV, (reach_directory V Hok p), (reach_ext V V'). }
  assert (Hs : forall p i, reach V' p -> slot V' p i -> slot V p i) by (intros p i Hp [? Hu]; by rewrite Hd in Hu).
  assert (Ht : forall p q, 0 <= p < CLUSTER_MAP_SIZE -> table_ok V p q -> table_ok V' p q).
  { intros p q Hp [H1 H2 H3 H4]. assert (He : forall i, dir V' p i = dir V p i) by (intros i; by apply dir_ext, HV).
    split; [unfold directory; by rewrite Hfat, He|rewrite !He; exact H2|rewrite !He; exact H3|]. intros i. rewrite He. apply H4. }
  pose proof (fun p Hp => reach_ext V V' p Hok HV Hp) as Hr. split.
  - rewrite Hfat. apply Hok.
  - apply Ht; [fat_lia|apply Hok].
  - intros p i Hp Hsl. specialize (Hs _ _ Hp Hsl). rewrite Hd by done. intros Hz.
    apply Ht; [destruct (folder_cluster V Hok p i (Hr p Hp) Hs Hz); lia|by apply Hok; [apply Hr|..]].
  - intros p i Hp Hsl. rewrite Hd, Hown, Hfat by done. apply Hok; [by apply Hr|by apply Hs].
  - intros p i q j l1 l2 c Hp Hsl Hq Hsl'. rewrite !Hd, Hown by done.
    eapply (ok_disjoint _ Hok p i q j); [by apply Hr|by apply Hs|by apply Hr|by apply Hs].
  - intros p i j Hp Hsl Hj. rewrite !Hd by done. apply Hok; [by apply Hr|by apply Hs|done].
  - intros p i Hp Hsl. rewrite Hd by done. apply Hok; [by apply Hr|by apply Hs].
Qed.

(** The file system that is created on a new disk. *)
Lemma formatted_ok V tail : formatted V tail -> fs_ok V.
Proof.
  intros Hf. pose proof (formatted_directory _ _ Hf) as Hd. destruct Hf as [_ Hm (H0 & H1 & H2)].
  assert (Hno : forall i, ~ slot V ROOT_CLUSTER_NUMBER i).
  { intros i [Hi Hu]. rewrite H2 in Hu by done. by apply empty_unused. }
  assert (Hr : forall p, reach V p -> p = ROOT_CLUSTER_NUMBER) by (induction 1 as [|p i _ -> Hs _]; [done|by destruct (Hno i)]).
  split.
  - rewrite Hm by fat_lia. done.
  - split; [done|by rewrite H0|by rewrite H1|]. intros i Hi Hn.
    destruct (decide (i = 0)) as [->|]; [by rewrite H0 in Hn|]. destruct (decide (i = 1)) as [->|]; [by rewrite H1 in Hn|].
    rewrite H2 by lia. exact empty_no_name.
  - intros p i ->%Hr Hs. by destruct (Hno i).
  - intros p i ->%Hr Hs. by destruct (Hno i).
  - intros p i q j l1 l2 c ->%Hr Hs. by destruct (Hno i).
  - intros p i j ->%Hr Hs. by destruct (Hno i).
  - intros p i ->%Hr Hs. by destruct (Hno i).
Qed.

(** The rounds of [delete]: a chain has at most 512 clusters. *)
Definition delete_rounds : nat := 600.

(** ** Requests *)

(** The requests that change the disk. *)
Inductive operation :=
| Write (r : request)
| Delete (r : request).

Definition perform {D} `{Disk D} (o : operation) : M (fs D) Z :=
  match o with
  | Write r => write r
  | Delete r => delete delete_rounds r
  end.

(** What the file system relies on: the parent is a directory of the tree; a
    directory has no extension, which [write] would drop; for a file there is an
    unused entry; the name to delete is not empty, and a deletion that is accepted
    does not name the directory itself. *)
Definition legal (V : clusters) (o : operation) : Prop :=
  match o with
  | Write r => request_ok r /\ reach V (parent_cluster_number r) /\ buffer_size r < 2147483648 /\
      (buffer_size r = 0 -> req_ext r = zeros 3) /\
      (buffer_size r <> 0 -> is_Some (dir_free (dir V (parent_cluster_number r))))
  | Delete r => request_ok r /\ reach V (parent_cluster_number r) /\ ~ (req_name r = zeros 8 /\ req_ext r = zeros 3) /\
      (delete_rejects V r = None -> dir_find (dir V (parent_cluster_number r)) (req_name r) (req_ext r) <> Some 0)
  end.

Section History.
Context {D : Type} `{DiskSpec D}.
Implicit Types (d : D) (s : fs D) (V : clusters).

(** A disk in order with a file system that satisfies the invariant. *)
Definition consistent (d : D) : Prop := disk_ok d /\ fs_ok (cluster d).

Lemma disk_is_consistent d V : disk_is d V -> fs_ok V -> consistent d.
Proof. intros [Hd HV] Hok. split; [done|]. by apply (fs_ok_ext V). Qed.

(** A request that is accepted. *)
Lemma accepted V r :
  write_rejects V r = None ->
  dir_find (dir V (parent_cluster_number r)) (req_name r) (req_ext r) = None /\
  (buffer_size r <> 0 -> clusters_needed (buffer_size r) <= Z.of_nat (length (free_list (fat V) 3))).
Proof.
  unfold write_rejects. destruct (bool_decide _); [done|]. destruct (negb _); [done|]. destruct (dir_find _ _ _); [done|].
  intros Hrej. split; [done|]. intros Hs. rewrite (proj2 (Z.eqb_neq _ _) Hs) in Hrej.
  destruct (Z.ltb_spec (Z.of_nat (length (free_list (fat V) 3))) (clusters_needed (buffer_size r))); [done|lia].
Qed.

(** The clusters that a request leaves as they were: all but [touched], the
    cluster map and the table of the parent. *)
Definition untouched (V V' : clusters) (P : Z) (touched : list Z) : Prop :=
  forall c, 0 <= c < CLUSTER_MAP_SIZE -> c ∉ touched -> c <> FAT_CLUSTER_NUMBER -> c <> P -> V' c = V c.

(** What an accepted request leaves is a change of one entry. *)
Lemma written_edited V V' u r :
  fs_ok V -> legal V (Write r) -> write_rejects V r = None -> written V V' u r ->
  exists k c l, dir_free (dir V (parent_cluster_number r)) = Some k /\ 0 <= c < CLUSTER_MAP_SIZE /\
    edited V V' (parent_cluster_number r) k (if buffer_size r =? 0 then self_entry c (req_name r) else file_entry r c) [] l /\
    untouched V V' (parent_cluster_number r) l /\
    (if buffer_size r =? 0 then c = first_of (free_list (fat V) 3)
     else take (Z.to_nat (buffer_size r)) (concat (V' <$> l)) = load u (buf r) (Z.to_nat (buffer_size r))).
Proof.
  intros Hok (Hr & HP & Hmax & Hext & Hslot) Hrej Hw. destruct (accepted _ _ Hrej) as [Hno Hneed]. unfold written in Hw.
  destruct (Z.eqb_spec (buffer_size r) 0) as [E|E].
  - destruct Hw as (k & c & L & Hk & HL & Hc). exists k, c, [c].
    assert (Hin : c ∈ free_list (fat V) 3) by (rewrite HL; by left). apply elem_of_free_list in Hin as [_ Hin].
    split; [done|]. split; [lia|]. split; [|split; [|by rewrite HL]].
    + eapply (directory_edited V V' Hok); [done|done|done|by apply Hext|exact HL|done].
    + intros x _ Hx Hx1 HxP. apply (mkdir_frame _ _ _ _ _ Hc); [|done..]. intros ->. by apply Hx, list_elem_of_singleton.
  - destruct Hw as (k & Hk & Hf). assert (Hpos : 0 < buffer_size r) by (destruct Hr as (_ & _ & _ & ?); lia).
    set (l := take _ _) in Hf. assert (Hlen : Z.of_nat (length l) = clusters_needed (buffer_size r)).
    { specialize (Hneed E). unfold l. rewrite length_take. destruct (clusters_needed_bounds (buffer_size r)); lia. }
    exists k, (first_of l), l. split; [done|]. split; [pose proof (created_chain _ _ _ _ _ _ Hf) as Hch; by inversion Hch|]. split; [|split].
    + eapply (file_edited V V' Hok); [done..| |done|exact Hf].
      intros c (i & Hi & _)%elem_of_take. by eapply list_elem_of_lookup_2.
    + intros x Hx Hxl Hx1 HxP. by apply (created_frame _ _ _ _ _ _ Hf).
    + rewrite (created_concat _ _ _ _ _ _ Hf Hlen Hpos). apply take_app_length'. by rewrite length_load.
Qed.

Lemma wp_write_legal r V s :
  disk_is (disk s) V -> fs_ok V -> legal V (Write r) -> wp (write r) (fun _ s' => consistent (disk s')) s.
Proof.
  intros HV Hok Hleg. pose proof Hleg as (Hr & HP & Hmax & Hext & Hslot). destruct (reach_directory V Hok _ HP) as (Hp & Hp1 & Hpf & _).
  eapply wp_mono; [apply (wp_write_any r V s); try done; [apply Hok|apply (reach_fat V Hok); constructor]|].
  intros a s' (V' & Hd & Hcase). eapply disk_is_consistent; [exact Hd|].
  destruct (write_rejects V r) eqn:Hrej; [by destruct Hcase as [_ ->]|]. destruct Hcase as [_ Hw].
  destruct (written_edited V V' (user s) r Hok Hleg Hrej Hw) as (k & c & l & _ & _ & He & _). by eapply edited_ok.
Qed.

(** The entry that a legal deletion finds. *)
Lemma legal_delete_slot V r k :
  fs_ok V -> legal V (Delete r) -> dir_find (dir V (parent_cluster_number r)) (req_name r) (req_ext r) = Some k ->
  k = 0 \/ k = 1 \/ slot V (parent_cluster_number r) k.
Proof.
  intros Hok (_ & HP & Hnz & _) Hfind. destruct (dir_find_Some _ _ _ _ Hfind) as (Hk & Hn & He).
  destruct (reach_table V Hok _ HP) as (q & Ht).
  destruct (decide (k = 0)) as [->|]; [by left|]. destruct (decide (k = 1)) as [->|]; [by right; left|]. do 2 right. split; [lia|].
  destruct (decide (user_attribute (dir V (parent_cluster_number r) k) = UATTR_NOT_EMPTY)) as [|Hu]; [done|].
  destruct (table_unused _ _ _ Ht k Hk Hu). rewrite Hn, He in *. by destruct Hnz.
Qed.

(** The directory above is never empty. *)
Lemma parent_rejects V r :
  fs_ok V -> reach V (parent_cluster_number r) ->
  dir_find (dir V (parent_cluster_number r)) (req_name r) (req_ext r) = Some 1 ->
  (exists code, delete_rejects V r = Some code) /\ 0 <= entry_cluster (dir V (parent_cluster_number r) 1) < CLUSTER_MAP_SIZE.
Proof.
  intros Hok HP Hfind. unfold delete_rejects. rewrite Hfind.
  apply reach_inv in HP as [->|(q & i & Hq & Hs & Hz & ->)].
  - destruct (table_parent _ _ _ (ok_root V Hok)) as (_ & -> & _). split; [by eexists|fat_lia].
  - destruct (table_parent _ _ _ (ok_folder V Hok q i Hq Hs Hz)) as (_ & -> & ->).
    split; [|by apply (reach_directory V Hok q Hq)]. destruct (q =? ROOT_CLUSTER_NUMBER); [by eexists|].
    destruct (dir_empty V q) eqn:He; [|by eexists]. exfalso. unfold dir_empty in He.
    destruct (find_up _ 2 62) eqn:Hf; [done|]. rewrite find_up_None in Hf. destruct Hs as [Hi Hu].
    specialize (Hf i ltac:(lia)). by apply Z.eqb_neq in Hf.
Qed.

Lemma own_cluster V p : fs_ok V -> reach V p -> 0 <= entry_cluster (dir V p 0) < CLUSTER_MAP_SIZE.
Proof. intros Hok (q & [Hd [-> _] _ _])%(reach_table V Hok). apply Hd. Qed.

(** The effect of a deletion: the entry [k] is removed, and at most its own
    clusters are touched. *)
Definition removed (V V' : clusters) (P k : Z) : Prop :=
  exists gone touched, edited V V' P k empty_entry gone [] /\ untouched V V' P touched /\
    forall c, c ∈ touched -> exists l, owns V (dir V P k) l /\ c ∈ l.

Lemma wp_delete_file_legal r V s k :
  fs_ok V -> request_ok r -> disk_is (disk s) V -> reach V (parent_cluster_number r) ->
  dir_find (dir V (parent_cluster_number r)) (req_name r) (req_ext r) = Some k ->
  slot V (parent_cluster_number r) k -> filesize (dir V (parent_cluster_number r) k) <> 0 ->
  wp (delete delete_rounds r) (fun code s' => exists V', disk_is (disk s') V' /\ code = 0 /\ removed V V' (parent_cluster_number r) k) s.
Proof.
  intros Hok Hr HV HP Hfind Hs Hz. destruct (ok_owns V Hok _ k HP Hs) as (l & Ho & Hl). destruct (owns_file _ _ _ Hz Ho) as [Hch _].
  assert (Hfl : FAT_CLUSTER_NUMBER ∉ l) by (intros [? _]%Hl; fat_lia).
  assert (Hroot : entry_cluster (dir V (parent_cluster_number r) k) <> ROOT_CLUSTER_NUMBER).
  { destruct (chain_head _ _ _ Hch) as [l' ->]. destruct (Hl _ (list_elem_of_here _ _)). fat_lia. }
  eapply wp_mono; [apply (wp_delete_file delete_rounds r V s k l); try done; [by apply (reach_directory V Hok)| |]|].
  - intros Hin. by destruct (owned_reach V Hok _ k l _ HP Hs Ho Hin HP).
  - pose proof (chain_length _ _ _ Hch). unfold delete_rounds. lia.
  - intros a s' (-> & V' & Hd & _ & _ & Hrem & _ & Hfr). exists V'. split; [done|]. split; [done|]. exists [], l. split; [|split].
    + eapply (file_removed V V' Hok r k l); try done. intros c. unfold fat.
      rewrite Hfr; [done..|]. destruct (reach_directory V Hok _ HP) as (_ & Hp1 & _). by apply not_eq_sym.
    + intros c _ Hc _ HcP. by apply Hfr.
    + intros c Hc. by exists l.
Qed.

Lemma wp_delete_directory_legal r V s k :
  fs_ok V -> request_ok r -> disk_is (disk s) V -> reach V (parent_cluster_number r) ->
  dir_find (dir V (parent_cluster_number r)) (req_name r) (req_ext r) = Some k ->
  slot V (parent_cluster_number r) k -> filesize (dir V (parent_cluster_number r) k) = 0 ->
  dir_empty V (entry_cluster (dir V (parent_cluster_number r) k)) = true ->
  wp (delete delete_rounds r) (fun code s' => exists V', disk_is (disk s') V' /\ code = 0 /\ removed V V' (parent_cluster_number r) k) s.
Proof.
  intros Hok Hr HV HP Hfind Hs Hz Hempty. destruct (folder_cluster V Hok _ k HP Hs Hz) as [Hc _].
  eapply wp_mono; [apply (wp_delete_directory delete_rounds r V s k); try done|].
  - by apply (reach_directory V Hok).
  - lia.
  - fat_lia.
  - fat_lia.
  - intros a s' (-> & V' & Hd & _ & _ & Hrem & _ & Hfat & Hfr). exists V'. split; [done|]. split; [done|].
    exists [entry_cluster (dir V (parent_cluster_number r) k)], [entry_cluster (dir V (parent_cluster_number r) k)]. split; [|split].
    + by eapply (directory_removed V V' Hok r k).
    + intros c _ Hcg Hc1 HcP. apply Hfr; [|done..]. intros ->. by apply Hcg, list_elem_of_singleton.
    + intros c Hcg. eexists. split; [by apply owns_folder|done].
Qed.

(** [delete] in all its outcomes. *)
Lemma wp_delete_any r V s :
  disk_is (disk s) V -> fs_ok V -> legal V (Delete r) ->
  wp (delete delete_rounds r) (fun code s' => exists V', disk_is (disk s') V' /\
    match delete_rejects V r with
    | Some c => code = c /\ V' = V
    | None => code = 0 /\ exists k, dir_find (dir V (parent_cluster_number r)) (req_name r) (req_ext r) = Some k /\
        slot V (parent_cluster_number r) k /\ removed V V' (parent_cluster_number r) k
    end) s.
Proof.
  intros HV Hok Hleg. pose proof Hleg as (Hr & HP & _ & _). destruct (delete_rejects V r) as [code|] eqn:Hrej.
  - eapply wp_mono; [apply (wp_delete_rejected delete_rounds r V s code); try done; [by apply (reach_directory V Hok)|]|].
    + intros k Hk. destruct (legal_delete_slot V r k Hok Hleg Hk) as [->|[->|Hs]]; [by apply own_cluster|by apply parent_rejects|].
      destruct (ok_owns V Hok _ k HP Hs) as (l & Ho & Hl). unfold owns in Ho. destruct (filesize _ =? 0).
      * subst l. destruct (Hl _ (list_elem_of_here _ _)). lia.
      * destruct Ho as [Ho _]. by inversion Ho.
    + intros a s' (-> & Hd & _). by exists V.
  - pose proof Hrej as Hrej'. unfold delete_rejects in Hrej'. destruct (dir_find _ _ _) as [k|] eqn:Hfind; [|done].
    destruct (legal_delete_slot V r k Hok Hleg Hfind) as [->|[->|Hs]]; [by destruct Hleg as (_ & _ & _ & Hself), (Hself Hrej)| |].
    { destruct (parent_rejects V r Hok HP Hfind) as [[code Hc] _]. congruence. }
    destruct (_ =? ROOT_CLUSTER_NUMBER); [done|].
    eapply (wp_mono _ (fun code s' => exists V', disk_is (disk s') V' /\ code = 0 /\ removed V V' (parent_cluster_number r) k)).
    + destruct (Z.eqb_spec (filesize (dir V (parent_cluster_number r) k)) 0) as [E|E]; [|by eapply wp_delete_file_legal].
      destruct (dir_empty _ _) eqn:He; [|done]. by eapply wp_delete_directory_legal.
    + intros a s' (V' & Hd & -> & Hrem). exists V'. split; [done|]. split; [done|]. by exists k.
Qed.

Lemma wp_delete_legal r V s :
  disk_is (disk s) V -> fs_ok V -> legal V (Delete r) -> wp (delete delete_rounds r) (fun _ s' => consistent (disk s')) s.
Proof.
  intros HV Hok Hleg. eapply wp_mono; [by apply (wp_delete_any r V)|]. intros code s' (V' & Hd & Hcase).
  eapply disk_is_consistent; [exact Hd|]. destruct (delete_rejects V r); [by destruct Hcase as [_ ->]|].
  destruct Hcase as (_ & k & _ & _ & gone & touched & He & _). eapply edited_ok; [exact Hok|apply Hleg|exact He].
Qed.

(** A disk is reached by formatting and by legal requests; between the requests
    the memory of the driver and of its callers may change, as when the system
    is started again. *)
Inductive history : fs D -> Prop :=
| history_format tail V s s' :
    length tail = 3%nat -> disk_is (disk s) V -> boot_sector V <> fs_signature ->
    (forall x, 0 <= x < CLUSTER_MAP_SIZE -> cluster_map (memory s) x = FAT32_FAT_EMPTY_ENTRY) ->
    initialize_filesystem_fat32 tail s = Ret (tt, s') -> history s'
| history_other s s' : history s -> disk s' = disk s -> history s'
| history_perform o code s s' : history s -> legal (cluster (disk s)) o -> perform o s = Ret (code, s') -> history s'.

Lemma wp_perform o s :
  consistent (disk s) -> legal (cluster (disk s)) o -> wp (perform o) (fun _ s' => consistent (disk s')) s.
Proof.
  intros [Hd Hok] Ho. destruct o as [r|r]; cbn [perform].
  - apply (wp_write_legal r (cluster (disk s))); [by apply disk_is_cluster|done..].
  - apply (wp_delete_legal r (cluster (disk s))); [by apply disk_is_cluster|done..].
Qed.

Lemma history_consistent s : history s -> consistent (disk s).
Proof.
  induction 1 as [tail V s s' Ht HV Hb Hz Hr|s s' _ IH Hs|o code s s' _ IH Ho Hr].
  - destruct (wp_elim (initialize_filesystem_fat32 tail) (fun _ s2 => consistent (disk s2)) s) as ([] & s2 & Hr' & Hs).
    { apply (wp_formats _ V); [done..|]. intros s2 V' Hd _ _ Hf _. eapply disk_is_consistent; [exact Hd|]. by eapply formatted_ok. }
    rewrite Hr in Hr'. by injection Hr' as ->.
  - by rewrite Hs.
  - destruct (wp_elim _ _ _ (wp_perform o s IH Ho)) as (a & s2 & Hr' & Hs). rewrite Hr in Hr'. by injection Hr' as _ ->.
Qed.

(** C4: the invariant of the file system.  Whatever legal requests have been served
    since the disk was formatted, the directories form a tree whose tables name
    themselves and their parents, every entry in use has clusters that are
    allocated, a file a chain that ends and is as long as its size needs, no
    cluster belongs to two entries and no name to two entries of a directory; and
    every legal request is served: it returns a code and keeps all this.  A
    request is legal when its parent is a directory of the tree, a directory is
    asked for without an extension, a file has an unused entry to go to, and a
    deletion names something and does not remove the directory itself. *)
Theorem filesystem_invariant s :
  history s ->
  fs_ok (cluster (disk s)) /\
  forall o, legal (cluster (disk s)) o ->
    exists code s', perform o s = Ret (code, s') /\ history s' /\ fs_ok (cluster (disk s')).
Proof.
  intros Hs. pose proof (history_consistent s Hs) as Hc. split; [apply Hc|]. intros o Ho.
  destruct (wp_elim _ _ _ (wp_perform o s Hc Ho)) as (code & s' & Hr & _ & Hok).
  exists code, s'. split; [done|]. split; [by eapply history_perform|done].
Qed.

(** What is reached without the table of an empty directory that is damaged. *)
Lemma reach_around V V' p :
  fs_ok V -> dir_empty V p = true -> (forall x, x <> p -> x <> FAT_CLUSTER_NUMBER -> V' x = V x) ->
  forall x, reach V x -> x = p \/ reach V' x.
Proof.
  intros Hok Hempty HV. induction 1 as [|q i Hq IH [Hi Hu] Hf]; [right; constructor|].
  unfold dir_empty in Hempty. destruct (find_up _ 2 62) eqn:Hno; [done|]. rewrite find_up_None in Hno. specialize (Hno i ltac:(lia)).
  destruct (decide (q = p)) as [->|Hne]; [by apply Z.eqb_neq in Hno|]. right. destruct IH as [|IH]; [done|].
  assert (Hd : dir V' q i = dir V q i) by (apply dir_ext, HV; [done|apply (reach_directory V Hok q Hq)]).
  rewrite <- Hd in *. by apply reach_sub.
Qed.

(** Why a deletion must not remove the directory itself: an empty directory, other
    than the root, can be deleted from inside under its own name.  [delete]
    returns 0; the cluster of the directory is free, but the parent still has an
    entry for it, and the invariant does not hold. *)
Theorem delete_own_directory r V s :
  disk_is (disk s) V -> fs_ok V -> request_ok r -> reach V (parent_cluster_number r) ->
  parent_cluster_number r <> ROOT_CLUSTER_NUMBER -> dir_empty V (parent_cluster_number r) = true ->
  dir_find (dir V (parent_cluster_number r)) (req_name r) (req_ext r) = Some 0 ->
  exists s', delete delete_rounds r s = Ret (0, s') /\ ~ fs_ok (cluster (disk s')).
Proof.
  intros HV Hok Hr HP Hroot Hempty Hfind. destruct (reach_table V Hok _ HP) as (q0 & [Hdir [Hself Hz] _ _]).
  pose proof Hdir as (Hp & Hp1 & _).
  destruct (wp_elim _ _ _ (wp_delete_directory delete_rounds r V s 0 Hr HV Hdir Hfind Hz
    ltac:(by rewrite Hself) ltac:(by rewrite Hself) ltac:(by rewrite Hself) ltac:(by rewrite Hself)))
    as (a & s' & Hx & -> & V' & Hd & _ & _ & _ & _ & Hfat & Hfr).
  rewrite Hself in Hfat, Hfr. exists s'. split; [done|]. intros Hbad.
  assert (Hok' : fs_ok V') by (apply (fs_ok_ext (cluster (disk s'))); [intros c Hc; symmetry; by apply Hd|done]).
  pose proof (reach_around V V' _ Hok Hempty (fun x H1 H2 => Hfr x H1 H2 H1)) as Haround.
  destruct (reach_inv _ _ HP) as [|(q & i & Hq & [Hi Hu] & Hf & Hc)]; [done|].
  assert (Hqp : q <> parent_cluster_number r) by (intros ->; by apply (no_loop V Hok _ HP i)).
  assert (Hq1 : q <> FAT_CLUSTER_NUMBER) by apply (reach_directory V Hok q Hq).
  assert (He : dir V' q i = dir V q i) by by apply dir_ext, Hfr.
  destruct (Haround q Hq) as [|Hq']; [done|]. rewrite <- He in Hu, Hf, Hc.
  destruct (table_directory _ _ _ (ok_folder V' Hok' q i Hq' (conj Hi Hu) Hf)) as (_ & _ & Hbad' & _).
  rewrite <- Hc, Hfat, decide_True in Hbad' by done. done.
Qed.

End History.

(** ** A history *)

Module Blank.

(** A blank image, the driver before it is started, and two directories and a
    file to make. *)
Definition image : Inserter.image := Inserter.Image ∅.
Definition state : fs Inserter.image := Fs ∅ image ∅.
Definition docs : request := Request 0 (Sample.nm (cstring "docs")) (zeros 3) 2 0.

End Blank.

(** The driver's table is zero before the start. *)
Lemma blank_started :
  exists s, initialize_filesystem_fat32 (zeros 3) Blank.state = Ret (tt, s) /\ history s.
Proof.
  assert (Hb : boot_sector (cluster Blank.image) <> fs_signature) by (vm_compute; discriminate).
  assert (Hz : forall x, 0 <= x < CLUSTER_MAP_SIZE -> cluster_map (memory Blank.state) x = FAT32_FAT_EMPTY_ENTRY)
    by (intros x _; apply cluster_map_zero).
  pose proof (disk_is_cluster Blank.image I) as HV.
  destruct (wp_elim (initialize_filesystem_fat32 (zeros 3)) (fun _ _ => True) Blank.state) as ([] & s & Hr & _).
  { by apply (wp_formats _ (cluster Blank.image)). }
  exists s. split; [exact Hr|]. by apply (history_format (zeros 3) (cluster Blank.image) Blank.state).
Qed.

Lemma filesystem_invariant_witness :
  exists s, fs_ok (cluster (D := Inserter.image) (disk s)) /\
    exists code s', perform (Write Blank.docs) s = Ret (code, s') /\ fs_ok (cluster (D := Inserter.image) (disk s')).
Proof.
  destruct blank_started as (s & _ & Hs). exists s. destruct (filesystem_invariant s Hs) as [Hok Hserve]. split; [exact Hok|].
  assert (Hlegal : legal (cluster (disk s)) (Write Blank.docs)).
  { split; [by apply (bool_decide_unpack _)|]. split; [constructor|]. split; [reflexivity|]. split; [reflexivity|].
    intros Hne. by destruct Hne. }
  destruct (Hserve _ Hlegal) as (code & s' & Hw & _ & Hok').
  exists code, s'. split; [exact Hw|exact Hok'].
Defined.
