(* ===== verification/FatMap.v ===== *)
(** The file system as a map: what the names of the directories stand for, and
    that [write], [delete] and [read] are insertion, removal and lookup. *)
From Stdlib Require Import ZArith Lia.
From stdpp Require Import base numbers option strings zmap functions list.
From S2P Require Import Prelude CString Disk FatTypes Fat32 FatView FatRead FatWrite FatCreate FatSample FatDelete FatDir FatInit FatInvariant FatHistory.

(** ** The map *)

(** A directory, or a file with its contents. *)
Inductive node :=
| Folder (cluster : Z)
| File (size : Z) (data : list byte).

(** The chain from [c], in at most [n] steps. *)
Fixpoint chain_from (f : Z -> Z) (n : nat) (c : Z) : list Z :=
  match n with
  | O => []
  | S n' => c :: if decide (f c = FAT32_FAT_END_OF_FILE) then [] else chain_from f n' (f c)
  end.

Definition node_of (V : clusters) (e : dirent) : node :=
  if filesize e =? 0 then Folder (entry_cluster e)
  else File (filesize e) (take (Z.to_nat (filesize e)) (concat (V <$> chain_from (fat V) 512 (entry_cluster e)))).

(** What a name in the directory [p] stands for. *)
Definition names (V : clusters) (p : Z) (nm ex : list byte) : option node :=
  (fun i => node_of V (dir V p i)) <$> dir_find (dir V p) nm ex.

(** The name of an entry that is not in use is empty. *)
Definition real_name (nm ex : list byte) : Prop := ~ (nm = zeros 8 /\ ex = zeros 3).

Lemma chain_from_chain f c l : chain f c l -> forall n, (length l <= n)%nat -> chain_from f n c = l.
Proof.
  induction 1 as [c Hc Hf|c l Hc Hf Hch IH]; intros [|n] Hn; cbn [length chain_from] in *; try lia.
  - by rewrite decide_True.
  - rewrite decide_False by done. f_equal. apply IH. lia.
Qed.

Lemma node_of_file V e l :
  filesize e <> 0 -> owns V e l -> node_of V e = File (filesize e) (take (Z.to_nat (filesize e)) (concat (V <$> l))).
Proof.
  intros Hz Ho. destruct (owns_file _ _ _ Hz Ho) as [Hch _]. unfold node_of. rewrite (proj2 (Z.eqb_neq _ _) Hz).
  rewrite (chain_from_chain _ _ _ Hch); [done|]. by eapply chain_length.
Qed.

Lemma node_of_folder V e : filesize e = 0 -> node_of V e = Folder (entry_cluster e).
Proof. unfold node_of. by intros ->. Qed.

(** A name that is found is the one of an entry in use. *)
Lemma found_used V p nm ex i :
  fs_ok V -> reach V p -> real_name nm ex -> dir_find (dir V p) nm ex = Some i -> used (dir V p i).
Proof.
  intros Hok Hp Hreal (Hi & Hn & He)%dir_find_Some. destruct (reach_table V Hok p Hp) as (q & Ht).
  destruct (decide (user_attribute (dir V p i) = UATTR_NOT_EMPTY)) as [|Hu]; [done|].
  destruct (table_unused _ _ _ Ht i Hi Hu). destruct Hreal. by rewrite <- Hn, <- He.
Qed.

(** ** A change of one entry *)

Section Edit.
Context (V V' : clusters) (P k : Z) (e : dirent) (gone new : list Z).
Hypothesis Hok : fs_ok V.
Hypothesis HP : reach V P.
Hypothesis Hedit : edited V V' P k e gone new.

(** The clusters of the other files are as they were. *)
Hypothesis Hframe : forall p i l c, reach V p -> slot V p i -> ~ (p = P /\ i = k) -> filesize (dir V p i) <> 0 ->
  owns V (dir V p i) l -> c ∈ l -> V' c = V c.

Lemma kept_node p i :
  kept V gone p -> 0 <= i < 64 -> used (dir V p i) -> ~ (p = P /\ i = k) -> node_of V' (dir V' p i) = node_of V (dir V p i).
Proof.
  intros Hp Hi Hu Hne. pose proof Hp as [Hr Hg].
  assert (Hd : dir V' p i = dir V p i) by by rewrite (edit_dir _ _ _ _ _ _ _ Hedit), decide_False.
  rewrite Hd. destruct (decide (filesize (dir V p i) = 0)) as [Hz|Hz]; [by rewrite !node_of_folder|].
  pose proof (sized_slot V Hok p i Hr Hi Hu Hz) as Hs.
  assert (Hold : old_slot V V' gone p i) by done.
  destruct (old_owns V V' P k e gone new Hok HP Hedit p i Hold) as (l & Ho & Ho' & _).
  rewrite (node_of_file V' _ l), (node_of_file V _ l) by done. do 3 f_equal.
  apply list_fmap_ext. intros j c Hc%list_elem_of_lookup_2. by apply (Hframe p i l).
Qed.

(** Every name but the one of the entry, old or new, stands for what it did. *)
Lemma names_other p nm ex :
  kept V gone p -> real_name nm ex ->
  (p = P -> used e -> ~ (name e = nm /\ ext e = ex)) ->
  (p = P -> used (dir V P k) -> ~ (name (dir V P k) = nm /\ ext (dir V P k) = ex)) ->
  names V' p nm ex = names V p nm ex.
Proof.
  intros Hp Hreal Hnew Hold. pose proof Hp as [Hr Hg]. pose proof (edit_place _ _ _ _ _ _ _ Hedit) as Hk.
  assert (Hfind : dir_find (dir V' p) nm ex = dir_find (dir V p) nm ex).
  { apply find_up_ext. intros i Hi. rewrite (edit_dir _ _ _ _ _ _ _ Hedit) by (done || lia).
    destruct (decide (p = P /\ i = k)) as [[-> ->]|]; [|done]. rewrite !bool_decide_eq_false_2; [done| |].
    - intros [Hn He]. destruct (decide (user_attribute (dir V P k) = UATTR_NOT_EMPTY)) as [Hu|Hu]; [by apply Hold|].
      destruct (reach_table V Hok P HP) as (q & Ht). destruct (table_unused _ _ _ Ht k ltac:(lia) Hu). apply Hreal. by rewrite <- Hn, <- He.
    - intros [Hn He]. destruct (decide (user_attribute e = UATTR_NOT_EMPTY)) as [Hu|Hu]; [by apply Hnew|].
      destruct (edit_unused _ _ _ _ _ _ _ Hedit Hu). apply Hreal. by rewrite <- Hn, <- He. }
  unfold names. rewrite Hfind. destruct (dir_find (dir V p) nm ex) as [i|] eqn:Hi; [|done]. cbn. f_equal.
  pose proof (found_used V p nm ex i Hok Hr Hreal Hi) as Hu. destruct (dir_find_Some _ _ _ _ Hi) as (Hr64 & Hn & He).
  apply kept_node; [done|done|done|]. intros [-> ->]. by apply Hold.
Qed.

(** The name of a new entry. *)
Lemma names_new : used e -> dir_find (dir V P) (name e) (ext e) = None -> names V' P (name e) (ext e) = Some (node_of V' e).
Proof.
  intros Hu Hno. pose proof (edit_place _ _ _ _ _ _ _ Hedit) as Hk.
  pose proof (kept_parent V V' P k e gone new Hok HP Hedit) as [_ Hg].
  assert (Hd : forall i, 0 <= i < 64 -> dir V' P i = if decide (P = P /\ i = k) then e else dir V P i) by (intros i; by apply Hedit).
  assert (Hfind : dir_find (dir V' P) (name e) (ext e) = Some k).
  { apply find_up_Some. split; [lia|]. rewrite Hd, decide_True by (done || lia). split; [by apply bool_decide_eq_true_2|].
    intros j Hj. rewrite Hd, decide_False by lia. unfold dir_find in Hno. rewrite find_up_None in Hno. apply Hno. lia. }
  unfold names. rewrite Hfind. cbn. by rewrite Hd, decide_True by (done || lia).
Qed.

(** The name of an entry that was removed. *)
Lemma names_removed :
  ~ used e -> slot V P k -> real_name (name (dir V P k)) (ext (dir V P k)) ->
  names V' P (name (dir V P k)) (ext (dir V P k)) = None.
Proof.
  intros Hu Hs Hreal. pose proof (edit_place _ _ _ _ _ _ _ Hedit) as Hk.
  pose proof (kept_parent V V' P k e gone new Hok HP Hedit) as [_ Hg].
  assert (Hfind : dir_find (dir V' P) (name (dir V P k)) (ext (dir V P k)) = None); [|unfold names; by rewrite Hfind].
  apply find_up_None. intros j Hj. apply bool_decide_eq_false_2. rewrite (edit_dir _ _ _ _ _ _ _ Hedit) by (done || lia).
  destruct (decide (P = P /\ j = k)) as [_|Hne].
  - intros [Hn He]. destruct (edit_unused _ _ _ _ _ _ _ Hedit Hu). apply Hreal. by rewrite <- Hn, <- He.
  - intros [Hn He]. destruct (decide (user_attribute (dir V P j) = UATTR_NOT_EMPTY)) as [Huj|Huj].
    + apply Hne. split; [done|]. symmetry. by apply (ok_names V Hok P k j).
    + destruct (reach_table V Hok P HP) as (q & Ht). destruct (table_unused _ _ _ Ht j ltac:(lia) Huj).
      apply Hreal. by rewrite <- Hn, <- He.
Qed.

Lemma still_kept p : reach V p -> reach V' p -> kept V gone p.
Proof.
  intros Hp Hp'. destruct (reach_after V V' P k e gone new Hok HP Hedit p Hp') as [|(Hu & Hz & ->)]; [done|].
  destruct (edit_used _ _ _ _ _ _ _ Hedit Hu) as [Ho _]. unfold owns in Ho. rewrite Hz in Ho. cbn in Ho.
  destruct (edit_new _ _ _ _ _ _ _ Hedit (entry_cluster e)) as (_ & He & _); [rewrite Ho; by apply list_elem_of_singleton|].
  by destruct (reach_fat V Hok _ Hp).
Qed.

(** The map afterwards, when the entry, old and new, has the name [nm0], [ex0]. *)
Lemma names_after nm0 ex0 :
  real_name nm0 ex0 ->
  (used e -> name e = nm0 /\ ext e = ex0) -> (used (dir V P k) -> name (dir V P k) = nm0 /\ ext (dir V P k) = ex0) ->
  forall p nm ex, reach V p -> reach V' p -> real_name nm ex ->
  names V' p nm ex = if decide ((p, nm, ex) = (P, nm0, ex0)) then names V' P nm0 ex0 else names V p nm ex.
Proof.
  intros Hreal0 Hnew Hold p nm ex Hp Hp' Hreal. case_decide as E; [by injection E as -> -> ->|].
  apply names_other; [by apply still_kept|done| |]; intros -> Hu [<- <-]; apply E.
  - by destruct (Hnew Hu) as [-> ->].
  - by destruct (Hold Hu) as [-> ->].
Qed.

(** A directory that was not there holds no file. *)
Lemma names_fresh p nm ex i :
  ~ reach V p -> reach V' p -> dir_find (dir V' p) nm ex = Some i -> real_name nm ex -> exists q, names V' p nm ex = Some (Folder q).
Proof.
  intros Hno Hp Hi Hreal. unfold names. rewrite Hi. cbn. exists (entry_cluster (dir V' p i)). f_equal. apply node_of_folder.
  destruct (reach_after V V' P k e gone new Hok HP Hedit p Hp) as [[? _]|(Hu & Hz & ->)]; [done|].
  destruct (edit_used _ _ _ _ _ _ _ Hedit Hu) as [_ Hn]. destruct (Hn Hz) as [Ht Hs].
  pose proof (found_used V' _ nm ex i (edited_ok V V' P k e gone new Hok HP Hedit) Hp Hreal Hi) as Hui.
  destruct (dir_find_Some _ _ _ _ Hi) as (Hi64 & _).
  destruct (decide (i = 0)) as [->|]; [apply Ht|]. destruct (decide (i = 1)) as [->|]; [apply Ht|].
  destruct (Hs i). split; [lia|done].
Qed.

End Edit.

(** What a request may touch: free clusters, and those of the entry it removes. *)
Lemma untouched_files V V' P k (touched : list Z) :
  fs_ok V -> reach V P ->
  (forall c, c ∈ touched -> fat V c = FAT32_FAT_EMPTY_ENTRY \/
     (slot V P k /\ exists l, owns V (dir V P k) l /\ c ∈ l)) ->
  untouched V V' P touched ->
  forall p i l c, reach V p -> slot V p i -> ~ (p = P /\ i = k) -> filesize (dir V p i) <> 0 ->
    owns V (dir V p i) l -> c ∈ l -> V' c = V c.
Proof.
  intros Hok HP Ht Hfr p i l c Hp Hs Hne Hz Ho Hc.
  destruct (ok_owns V Hok p i Hp Hs) as (l' & Ho' & Hl). rewrite (owns_unique _ _ _ _ Ho Ho') in Hc.
  destruct (Hl c Hc) as [Hc3 Hcf]. apply Hfr; [lia| |fat_lia|].
  - intros [?|(Hsk & l2 & Ho2 & Hc2)]%Ht; [done|]. apply Hne. by apply (ok_disjoint V Hok p i P k l' l2 c).
  - intros ->. by destruct (owned_reach V Hok p i l' P Hp Hs Ho' Hc HP).
Qed.

(** ** The requests *)

Definition target (o : operation) : Z * list byte * list byte :=
  match o with
  | Write r | Delete r => (parent_cluster_number r, req_name r, req_ext r)
  end.

(** What the target stands for when the request has been served; [u] is the
    memory of the caller. *)
Definition outcome (V : clusters) (u : mem) (o : operation) : option node :=
  match o with
  | Write r => Some (if buffer_size r =? 0 then Folder (first_of (free_list (fat V) 3))
                     else File (buffer_size r) (load u (buf r) (Z.to_nat (buffer_size r))))
  | Delete r => None
  end.

(** The code of the answer, from what the target stands for before. *)
Definition answer (V : clusters) (o : operation) (found : option node) (code : Z) : Prop :=
  match o, found with
  | Write r, Some _ => code = 1 \/ code = -1
  | Write r, None => code = if write_rejects V r is Some _ then -1 else 0
  | Delete r, None => code = 1
  | Delete r, Some (File _ _) => code = 0
  | Delete r, Some (Folder c) => code = if c =? ROOT_CLUSTER_NUMBER then -1 else if dir_empty V c then 0 else 2
  end.

(** The map, as far as it is there before and after. *)
Definition refines (V V' : clusters) (u : mem) (o : operation) (code : Z) : Prop :=
  (forall p nm ex, reach V p -> reach V' p -> real_name nm ex ->
     names V' p nm ex = if decide (code = 0 /\ (p, nm, ex) = target o) then outcome V u o else names V p nm ex) /\
  (forall p nm ex n, ~ reach V p -> reach V' p -> real_name nm ex -> names V' p nm ex = Some n -> exists q, n = Folder q).

Lemma refines_same V u o code : code <> 0 -> refines V V u o code.
Proof. intros Hc. split; [|done]. intros p nm ex _ _ _. by rewrite decide_False by tauto. Qed.

Lemma refines_edit V V' u o P k e gone new :
  fs_ok V -> reach V P -> edited V V' P k e gone new ->
  (forall p i l c, reach V p -> slot V p i -> ~ (p = P /\ i = k) -> filesize (dir V p i) <> 0 ->
     owns V (dir V p i) l -> c ∈ l -> V' c = V c) ->
  fst (fst (target o)) = P -> real_name (snd (fst (target o))) (snd (target o)) ->
  (used e -> name e = snd (fst (target o)) /\ ext e = snd (target o)) ->
  (used (dir V P k) -> name (dir V P k) = snd (fst (target o)) /\ ext (dir V P k) = snd (target o)) ->
  names V' P (snd (fst (target o))) (snd (target o)) = outcome V u o -> refines V V' u o 0.
Proof.
  intros Hok HP He Hfr Ht Hreal Hnew Hold Hout. split.
  - intros p nm ex Hp Hp' Hn.
    rewrite (names_after V V' P k e gone new Hok HP He Hfr _ _ Hreal Hnew Hold p nm ex Hp Hp' Hn), Hout.
    destruct (target o) as [[p0 nm0] ex0]. cbn [fst snd] in *. subst p0.
    destruct (decide ((p, nm, ex) = (P, nm0, ex0))); [by rewrite decide_True|by rewrite decide_False by tauto].
  - intros p nm ex n Hno Hp' Hn Hf. pose proof Hf as Hf'. unfold names in Hf'.
    destruct (dir_find (dir V' p) nm ex) as [i|] eqn:Hi; [|done].
    destruct (names_fresh V V' P k e gone new Hok HP He p nm ex i Hno Hp' Hi Hn) as [q Hq]. exists q. congruence.
Qed.

Lemma names_found V p nm ex i : dir_find (dir V p) nm ex = Some i -> names V p nm ex = Some (node_of V (dir V p i)).
Proof. unfold names. by intros ->. Qed.

Lemma names_none V p nm ex : dir_find (dir V p) nm ex = None -> names V p nm ex = None.
Proof. unfold names. by intros ->. Qed.

Section Requests.
Context {D : Type} `{DiskSpec D}.
Implicit Types (s : fs D) (V : clusters).

(** The answer to a request to write. *)
Lemma write_answer V r :
  answer V (Write r) (names V (parent_cluster_number r) (req_name r) (req_ext r)) (default 0 (write_rejects V r)).
Proof.
  pose proof (accepted V r) as Hacc. destruct (dir_find (dir V (parent_cluster_number r)) (req_name r) (req_ext r)) as [i|] eqn:Hf.
  - rewrite (names_found _ _ _ _ _ Hf). destruct (write_rejects V r) as [code|] eqn:Hrej; [|by destruct (Hacc eq_refl)].
    cbn. destruct (write_rejects_code _ _ _ Hrej); auto.
  - rewrite (names_none _ _ _ _ Hf). unfold answer. destruct (write_rejects V r) as [code|] eqn:Hrej; [|done]. cbn.
    unfold write_rejects in Hrej. rewrite Hf in Hrej. repeat case_match; congruence.
Qed.

(** A request to write that is accepted inserts its target. *)
Lemma written_refines V V' u r :
  fs_ok V -> legal V (Write r) -> real_name (req_name r) (req_ext r) -> write_rejects V r = None -> written V V' u r ->
  fs_ok V' /\ refines V V' u (Write r) 0.
Proof.
  intros Hok Hleg Hreal Hrej Hw. pose proof Hleg as (Hr & HP & _ & Hext & _). destruct (accepted _ _ Hrej) as [Hno _].
  destruct (written_edited V V' u r Hok Hleg Hrej Hw) as (k & c & l & Hk & Hc & He & Hfr & Hdata).
  split; [by eapply edited_ok|]. set (e := if buffer_size r =? 0 then self_entry c (req_name r) else file_entry r c) in He.
  assert (Hu : used e) by (unfold e; by destruct (_ =? 0)).
  assert (Hne : name e = req_name r /\ ext e = req_ext r).
  { unfold e. destruct (Z.eqb_spec (buffer_size r) 0) as [E|]; [split; [done|symmetry; by apply Hext]|done]. }
  destruct (free_slot_behind V Hok _ _ HP Hk) as [_ Hunused]. destruct (edit_used _ _ _ _ _ _ _ He Hu) as [Ho _].
  eapply refines_edit; [exact Hok|exact HP|exact He| |done|exact Hreal|intros _; exact Hne|by intros Hx|].
  - eapply untouched_files; [exact Hok|exact HP| |exact Hfr]. intros x Hx. left. by apply (edit_new _ _ _ _ _ _ _ He).
  - cbn [target fst snd outcome]. destruct Hne as [Hn1 Hn2]. rewrite <- Hn1, <- Hn2 in Hno |- *.
    rewrite (names_new V V' _ k e [] l Hok HP He Hu Hno). f_equal. unfold e in *.
    destruct (Z.eqb_spec (buffer_size r) 0) as [E|E].
    + rewrite node_of_folder, self_entry_cluster by done. by rewrite Hdata.
    + rewrite (node_of_file V' _ l) by done. cbn [filesize file_entry]. by rewrite Hdata.
Qed.

(** A deletion removes its target. *)
Lemma removed_refines V V' u r k :
  fs_ok V -> legal V (Delete r) -> slot V (parent_cluster_number r) k -> removed V V' (parent_cluster_number r) k ->
  dir_find (dir V (parent_cluster_number r)) (req_name r) (req_ext r) = Some k ->
  fs_ok V' /\ refines V V' u (Delete r) 0.
Proof.
  intros Hok (Hr & HP & Hreal & _) Hs (gone & touched & He & Hfr & Ht) Hfind.
  destruct (dir_find_Some _ _ _ _ Hfind) as (_ & Hn & Hx). split; [by eapply edited_ok|].
  eapply refines_edit; [exact Hok|exact HP|exact He| |done|exact Hreal|by intros Hu%empty_unused|done|].
  - eapply untouched_files; [exact Hok|exact HP| |exact Hfr]. intros x Hxt. right. split; [done|by apply Ht].
  - cbn [target fst snd outcome]. rewrite <- Hn, <- Hx in Hreal |- *.
    by apply (names_removed V V' _ k empty_entry gone [] Hok HP He empty_unused Hs).
Qed.

(** The answer to a deletion. *)
Lemma delete_answer V r :
  fs_ok V -> legal V (Delete r) ->
  answer V (Delete r) (names V (parent_cluster_number r) (req_name r) (req_ext r)) (default 0 (delete_rejects V r)).
Proof.
  intros Hok Hleg. pose proof Hleg as (_ & HP & _). unfold delete_rejects.
  destruct (dir_find (dir V (parent_cluster_number r)) (req_name r) (req_ext r)) as [i|] eqn:Hf; [|by rewrite (names_none _ _ _ _ Hf)].
  rewrite (names_found _ _ _ _ _ Hf). unfold node_of.
  destruct (Z.eqb_spec (filesize (dir V (parent_cluster_number r) i)) 0) as [E|E]; cbn [answer andb].
  - destruct (_ =? ROOT_CLUSTER_NUMBER); [done|]. by destruct (dir_empty _ _).
  - destruct (reach_table V Hok _ HP) as (q & Ht).
    destruct (legal_delete_slot V r i Hok Hleg Hf) as [->|[->|Hs]];
      [by destruct (table_self _ _ _ Ht)|by destruct (table_parent _ _ _ Ht) as (_ & _ & ?)|].
    destruct (ok_owns V Hok _ i HP Hs) as (l & Ho & Hl). destruct (owns_file _ _ _ E Ho) as [Hch _].
    destruct (chain_head _ _ _ Hch) as [l' ->]. destruct (Hl _ (list_elem_of_here _ _)).
    by rewrite (proj2 (Z.eqb_neq _ _)) by fat_lia.
Qed.

(** What a request leaves of the directories that were there: all, but one that is
    removed. *)
Definition directories_kept V V' (o : operation) : Prop :=
  forall p, reach V p ->
    match o with
    | Write _ => True
    | Delete r => delete_rejects V r = None ->
        names V (parent_cluster_number r) (req_name r) (req_ext r) <> Some (Folder p)
    end -> reach V' p.

(** [write] as insertion. *)
Lemma wp_write_refines r V s :
  disk_is (disk s) V -> fs_ok V -> legal V (Write r) -> real_name (req_name r) (req_ext r) ->
  wp (write r) (fun code s' => exists V', disk_is (disk s') V' /\ fs_ok V' /\
    answer V (Write r) (names V (parent_cluster_number r) (req_name r) (req_ext r)) code /\
    refines V V' (user s) (Write r) code /\ directories_kept V V' (Write r)) s.
Proof.
  intros HV Hok Hleg Hreal. pose proof (write_answer V r) as Ha. pose proof Hleg as (Hr & HP & Hmax & Hext & Hslot).
  destruct (reach_directory V Hok _ HP) as (Hp & Hp1 & Hpf & _).
  eapply wp_mono; [apply (wp_write_any r V s); try done; [apply Hok|apply (reach_fat V Hok); constructor]|].
  intros code s' (V' & Hd & Hcase). exists V'. split; [done|]. destruct (write_rejects V r) as [c|] eqn:Hrej.
  - destruct Hcase as [-> ->]. split; [done|]. split; [exact Ha|]. split; [|by intros p Hp' _]. apply refines_same.
    by destruct (write_rejects_code _ _ _ Hrej) as [-> | ->].
  - destruct Hcase as [-> Hw]. destruct (written_refines V V' (user s) r Hok Hleg Hreal Hrej Hw) as [Hok' Href].
    do 2 (split; [done|]). split; [done|]. intros p Hp' _.
    destruct (written_edited V V' (user s) r Hok Hleg Hrej Hw) as (k & c & l & Hk & _ & He & _).
    destruct (free_slot_behind V Hok _ _ HP Hk) as [_ Hun]. by apply (reach_before V V' _ _ _ _ _ He); [intros [_ ?]|..|intros [_ ?]].
Qed.

(** [delete] as removal. *)
Lemma wp_delete_refines r V s :
  disk_is (disk s) V -> fs_ok V -> legal V (Delete r) -> 
  wp (delete delete_rounds r) (fun code s' => exists V', disk_is (disk s') V' /\ fs_ok V' /\
    answer V (Delete r) (names V (parent_cluster_number r) (req_name r) (req_ext r)) code /\
    refines V V' (user s) (Delete r) code /\ directories_kept V V' (Delete r)) s.
Proof.
  intros HV Hok Hleg. pose proof (delete_answer V r Hok Hleg) as Ha. eapply wp_mono; [by apply (wp_delete_any r V)|].
  intros code s' (V' & Hd & Hcase). exists V'. split; [done|]. destruct (delete_rejects V r) as [c|] eqn:Hrej.
  - destruct Hcase as [-> ->]. split; [done|]. split; [exact Ha|]. split; [|by intros p Hp' _]. apply refines_same.
    unfold delete_rejects in Hrej. repeat case_match; congruence.
  - destruct Hcase as (-> & k & Hf & Hs & Hrem). destruct (removed_refines V V' (user s) r k Hok Hleg Hs Hrem Hf) as [Hok' Href].
    do 2 (split; [done|]). split; [done|]. intros p Hp Hne. specialize (Hne Hrej).
    destruct Hrem as (gone & touched & He & _). apply (reach_before V V' _ _ _ _ _ He); [|done|].
    + intros _ Hz i [Hi Hu]. unfold delete_rejects in Hrej. rewrite Hf, Hz in Hrej. cbn [Z.eqb andb] in Hrej.
      destruct (_ =? ROOT_CLUSTER_NUMBER); [done|]. unfold dir_empty in Hrej.
      destruct (find_up _ 2 62) eqn:Hno; [done|]. rewrite find_up_None in Hno. specialize (Hno i ltac:(lia)). by apply Z.eqb_neq in Hno.
    + intros _ Hz ->. apply Hne. by rewrite (names_found _ _ _ _ _ Hf), node_of_folder.
Qed.

(** C3: the file system refines a map from directories and names to directories and
    files.  A legal request is answered by what its target stands for: [write]
    refuses a name that stands for something, [delete] one that stands for
    nothing or for a directory that is the root or not empty.  A request that is
    served with 0 changes the map at its target and nowhere else: [write] puts
    the bytes of the caller there, or an empty directory in the first free
    cluster, and [delete] nothing; with any other code the map is as it was.  A
    directory that is new holds no file, and no directory is lost but the one that
    is removed.  The invariant is kept, so that this applies again to the disk
    that is left. *)
Theorem requests_refine_map o V s :
  disk_is (disk s) V -> fs_ok V -> legal V o -> real_name (snd (fst (target o))) (snd (target o)) ->
  exists code s' V',
    perform o s = Ret (code, s') /\ disk_is (disk s') V' /\ fs_ok V' /\
    answer V o (names V (fst (fst (target o))) (snd (fst (target o))) (snd (target o))) code /\
    refines V V' (user s) o code /\ directories_kept V V' o.
Proof.
  intros HV Hok Hleg Hreal.
  enough (Hwp : wp (perform o) (fun code s' => exists V', disk_is (disk s') V' /\ fs_ok V' /\
    answer V o (names V (fst (fst (target o))) (snd (fst (target o))) (snd (target o))) code /\ refines V V' (user s) o code /\
    directories_kept V V' o) s).
  { destruct (wp_elim _ _ _ Hwp) as (code & s' & Hrun & V' & Hpost). by exists code, s', V'. }
  destruct o as [r|r]; [by apply wp_write_refines|by apply wp_delete_refines].
Qed.

(** The chain of a file, as the driver has it in memory. *)
Lemma cached_chain V s c l : fat_cached s V -> chain (fat V) c l -> chain (cluster_map (memory s)) c l.
Proof.
  intros Hca Hch. apply (chain_ext (fat V)); [|done]. intros x Hx. apply Hca.
  pose proof (chain_range _ _ _ Hch) as Hrg. rewrite Forall_forall in Hrg. by apply Hrg.
Qed.

(** The reads that are turned down, and what they leave. *)
Lemma refused_read r V s :
  request_ok r -> disk_is (disk s) V -> 0 <= parent_cluster_number r < CLUSTER_MAP_SIZE ->
  match dir_find (dir V (parent_cluster_number r)) (req_name r) (req_ext r) with
  | None => exists s', read r s = Ret (2, s') /\ disk_is (disk s') V /\ user s' = user s
  | Some i =>
      readable (dir V (parent_cluster_number r) i) r = false ->
      exists s', read r s = Ret (1, s') /\ disk_is (disk s') V /\ user s' = user s
  end.
Proof.
  intros Hr HV Hp. pose proof (fun Q => wp_read_error r V s Q Hr HV Hp) as Hwp. cbv zeta in Hwp.
  destruct (dir_find _ _ _) as [i|].
  - intros Hc. destruct (wp_elim (read r) (fun a s' => a = 1 /\ disk_is (disk s') V /\ user s' = user s) s)
      as (a & s' & Hrun & -> & Hs'); [|by exists s']. apply Hwp; [done|]. by intros s' Hd Hu _.
  - destruct (wp_elim (read r) (fun a s' => a = 2 /\ disk_is (disk s') V /\ user s' = user s) s)
      as (a & s' & Hrun & -> & Hs'); [|by exists s']. apply Hwp; [done|]. by intros s' Hd Hu _.
Qed.

(** The entries of a directory itself and of its parent have clusters. *)
Lemma reach_table_range V (Hok : fs_ok V) p i : reach V p -> 0 <= i < 2 -> 0 <= entry_cluster (dir V p i) < CLUSTER_MAP_SIZE.
Proof.
  intros Hp Hi. assert (Hq : exists q, table_ok V p q /\ 0 <= q < CLUSTER_MAP_SIZE).
  { pose proof Hp as [->|(q & j & Hq & Hs & Hf & ->)]%reach_inv; [by exists ROOT_CLUSTER_NUMBER; split; [apply Hok|]|].
    exists q. split; [by apply Hok|]. by destruct (reach_directory V Hok q Hq). }
  destruct Hq as (q & Ht & Hq). assert (i = 0 \/ i = 1) as [->| ->] by lia.
  - destruct (table_self _ _ _ Ht) as [-> _]. by destruct (reach_directory V Hok p Hp).
  - by destruct (table_parent _ _ _ Ht) as (_ & -> & _).
Qed.

(** The entry of a file that a name stands for. *)
Lemma names_file V p nm ex size data :
  fs_ok V -> reach V p -> real_name nm ex -> names V p nm ex = Some (File size data) ->
  exists i l, dir_find (dir V p) nm ex = Some i /\ filesize (dir V p i) = size /\ size <> 0 /\ attribute (dir V p i) <> 1 /\
    owns V (dir V p i) l /\ data = take (Z.to_nat size) (concat (V <$> l)).
Proof.
  intros Hok Hp Hreal Hf. unfold names in Hf. destruct (dir_find (dir V p) nm ex) as [i|] eqn:Hi; [|done]. cbn in Hf. injection Hf as Hf.
  destruct (decide (filesize (dir V p i) = 0)) as [Hz|Hz]; [by rewrite node_of_folder in Hf|].
  pose proof (found_used V p nm ex i Hok Hp Hreal Hi) as Hu. destruct (dir_find_Some _ _ _ _ Hi) as (Hi64 & _).
  pose proof (sized_slot V Hok p i Hp Hi64 Hu Hz) as Hs.
  destruct (ok_owns V Hok p i Hp Hs) as (l & Ho & _). rewrite (node_of_file V _ l Hz Ho) in Hf. injection Hf as <- <-.
  exists i, l. do 3 (split; [done|]). split; [by apply (ok_attribute V Hok)|]. by split.
Qed.

(** The entry of a directory that a name stands for: one of the directory, or the
    entry of the directory itself or of its parent. *)
Lemma names_folder V p nm ex c :
  fs_ok V -> reach V p -> real_name nm ex -> names V p nm ex = Some (Folder c) ->
  exists i, dir_find (dir V p) nm ex = Some i /\ filesize (dir V p i) = 0 /\ entry_cluster (dir V p i) = c /\
    0 <= c < CLUSTER_MAP_SIZE /\ (attribute (dir V p i) = 1 -> i < 2).
Proof.
  intros Hok Hp Hreal Hf. unfold names in Hf. destruct (dir_find (dir V p) nm ex) as [i|] eqn:Hi; [|done]. cbn in Hf. injection Hf as Hf.
  destruct (decide (filesize (dir V p i) = 0)) as [Hz|Hz]; [|by unfold node_of in Hf; rewrite (proj2 (Z.eqb_neq _ _) Hz) in Hf].
  rewrite node_of_folder in Hf by done. injection Hf as <-. exists i. do 3 (split; [done|]).
  pose proof (found_used V p nm ex i Hok Hp Hreal Hi) as Hu. destruct (dir_find_Some _ _ _ _ Hi) as (Hi64 & _).
  destruct (decide (i < 2)) as [H2|H2].
  - split; [|done]. apply (reach_table_range V Hok p i Hp); lia.
  - assert (Hs : slot V p i) by (split; [lia|done]). split.
    + destruct (folder_cluster V Hok p i Hp Hs Hz) as [Hc _]. lia.
    + intros Ha. by destruct (ok_attribute V Hok p i Hp Hs).
Qed.

(** A file is read when its size is not a whole number of clusters. *)
Lemma wp_read_names r V s size data :
  disk_is (disk s) V -> fs_ok V -> fat_cached s V -> request_ok r -> reach V (parent_cluster_number r) ->
  real_name (req_name r) (req_ext r) -> names V (parent_cluster_number r) (req_name r) (req_ext r) = Some (File size data) ->
  size mod CLUSTER_SIZE <> 0 -> buffer_size r <> 0 ->
  wp (read r) (fun a s' => a = 0 /\ disk_is (disk s') V /\ load (user s') (buf r) (Z.to_nat size) = data) s.
Proof.
  intros HV Hok Hca Hr HP Hreal Hn Hmod Hbuf. destruct (reach_directory V Hok _ HP) as (Hp & _).
  destruct (names_file _ _ _ _ _ _ Hok HP Hreal Hn) as (i & l & Hi & <- & Hz & Ha & Ho & ->).
  destruct (owns_file _ _ _ Hz Ho) as [Hch Hlen]. set (e := dir V (parent_cluster_number r) i) in *.
  pose proof (load_le_range 4 (obj (V (parent_cluster_number r))) (entry_addr 0 i + 28)) as Hpos. change (load_le 4 _ _) with (filesize e) in Hpos.
  destruct (clusters_needed_bounds (filesize e)) as [_ Hb]; [lia|].
  assert (Hdiv : clusters_needed (filesize e) = filesize e / CLUSTER_SIZE + 1).
  { pose proof (Z.div_mod (filesize e) CLUSTER_SIZE ltac:(done)). pose proof (Z.mod_pos_bound (filesize e) CLUSTER_SIZE eq_refl). fat_lia. }
  eapply (wp_read_file r V s i l); [done..| | | |].
  - unfold readable. fold e. by rewrite (proj2 (Z.eqb_neq _ _) Ha), (proj2 (Z.eqb_neq _ _) Hbuf).
  - by apply (cached_chain V).
  - fold e. lia.
  - intros s' Hu Hd _. split; [done|]. split; [done|]. rewrite Hu, load_store_within; [by rewrite Z.sub_diag, drop_0|done|].
    rewrite (length_chain_data _ _ _ _ _ HV Hch). fat_lia.
Qed.

(** And [read] has no defined result when it is one. *)
Lemma names_whole_undefined r V s size data :
  disk_is (disk s) V -> fs_ok V -> fat_cached s V -> request_ok r -> reach V (parent_cluster_number r) ->
  real_name (req_name r) (req_ext r) -> names V (parent_cluster_number r) (req_name r) (req_ext r) = Some (File size data) ->
  size mod CLUSTER_SIZE = 0 -> buffer_size r <> 0 -> ~ exists x, read r s = Ret x.
Proof.
  intros HV Hok Hca Hr HP Hreal Hn Hmod Hbuf. destruct (reach_directory V Hok _ HP) as (Hp & _).
  destruct (names_file _ _ _ _ _ _ Hok HP Hreal Hn) as (i & l & Hi & <- & Hz & Ha & Ho & ->).
  destruct (owns_file _ _ _ Hz Ho) as [Hch Hlen]. set (e := dir V (parent_cluster_number r) i) in *.
  pose proof (load_le_range 4 (obj (V (parent_cluster_number r))) (entry_addr 0 i + 28)) as Hpos. change (load_le 4 _ _) with (filesize e) in Hpos.
  apply (read_whole_clusters_undefined r V s i l); [done..| | |].
  - unfold readable. fold e. by rewrite (proj2 (Z.eqb_neq _ _) Ha), (proj2 (Z.eqb_neq _ _) Hbuf).
  - by apply (cached_chain V).
  - fold e. pose proof (Z.div_mod (filesize e) CLUSTER_SIZE ltac:(done)).
    destruct (clusters_needed_bounds (filesize e)) as [Hlo Hhi]; [lia|]. fat_lia.
Qed.

(** C5: [read] is lookup in the map, case by case.  A name that stands for nothing is
    answered with 2, and one that stands for something with 1 when the size of the
    buffer is 0; the memory of the caller is then as it was.  With any other size
    of the buffer, which does not limit the read: for a file whose size is not a
    whole number of clusters [read] returns 0 and the buffer starts with the bytes
    of the file; for one whose size is a whole number of clusters it has no
    defined result; for a directory it returns 0 and the bytes of the table are in
    the buffer, unless the attribute of the entry is 1, which no entry but the
    directory's own and its parent's has, and which is answered with 1.  The disk
    does not change. *)
Theorem read_refines_map r V s :
  disk_is (disk s) V -> fs_ok V -> fat_cached s V -> request_ok r -> reach V (parent_cluster_number r) ->
  real_name (req_name r) (req_ext r) ->
  match names V (parent_cluster_number r) (req_name r) (req_ext r) with
  | None => exists s', read r s = Ret (2, s') /\ disk_is (disk s') V /\ user s' = user s
  | Some n =>
      if buffer_size r =? 0 then exists s', read r s = Ret (1, s') /\ disk_is (disk s') V /\ user s' = user s
      else match n with
      | File size data =>
          if size mod CLUSTER_SIZE =? 0 then ~ exists x, read r s = Ret x
          else exists s', read r s = Ret (0, s') /\ disk_is (disk s') V /\ load (user s') (buf r) (Z.to_nat size) = data
      | Folder c =>
          exists i s', dir_find (dir V (parent_cluster_number r)) (req_name r) (req_ext r) = Some i /\ disk_is (disk s') V /\
            if attribute (dir V (parent_cluster_number r) i) =? 1 then i < 2 /\ read r s = Ret (1, s') /\ user s' = user s
            else read r s = Ret (0, s') /\ user s' = store (user s) (buf r) (V c)
      end
  end.
Proof.
  intros HV Hok Hca Hr HP Hreal. destruct (reach_directory V Hok _ HP) as (Hp & _).
  destruct (names V _ _ _) as [n|] eqn:Hn.
  2: { pose proof (refused_read r V s Hr HV Hp) as Hx. unfold names in Hn. by destruct (dir_find _ _ _). }
  destruct (buffer_size r =? 0) eqn:Hb0.
  { unfold names in Hn. destruct (dir_find _ _ _) as [i|] eqn:Hi; [|done].
    pose proof (refused_read r V s Hr HV Hp) as Hx. rewrite Hi in Hx. apply Hx. unfold readable. by rewrite Hb0, orb_true_r. }
  pose proof (proj1 (Z.eqb_neq _ _) Hb0) as Hbuf. destruct n as [c|size data].
  - destruct (names_folder _ _ _ _ _ Hok HP Hreal Hn) as (i & Hi & Hz & <- & Hc & Ha).
    destruct (attribute (dir V (parent_cluster_number r) i) =? 1) eqn:Ha1.
    + pose proof (refused_read r V s Hr HV Hp) as Hx. rewrite Hi in Hx. destruct Hx as (s' & Hrun & Hd & Hu).
      { unfold readable. by rewrite Ha1. }
      exists i, s'. rewrite Ha1. apply Z.eqb_eq in Ha1. auto.
    + destruct (wp_elim (read r) (fun a s' => a = 0 /\ disk_is (disk s') V /\
        user s' = store (user s) (buf r) (V (entry_cluster (dir V (parent_cluster_number r) i)))) s) as (a & s' & Hrun & -> & Hd & Hu).
      { apply (wp_read_table r V s i); [done..| |done|done|done]. unfold readable. by rewrite Ha1, Hb0. }
      exists i, s'. by rewrite Ha1.
  - destruct (size mod CLUSTER_SIZE =? 0) eqn:Hm; [by apply Z.eqb_eq in Hm; apply (names_whole_undefined r V s size data)|].
    destruct (wp_elim _ _ s (wp_read_names r V s size data HV Hok Hca Hr HP Hreal Hn (proj1 (Z.eqb_neq _ _) Hm) Hbuf))
      as (a & s' & Hrun & -> & Hs'). by exists s'.
Qed.

End Requests.

(** ** On a new file system *)

Module Notes.

(** Five bytes in the memory of the caller, and requests for a file with them. *)
Definition text : list byte := cstring "hello".
Definition state : fs Inserter.image := Fs ∅ Blank.image (store ∅ 0 text).
Definition request (size : Z) : request := Request 0 (Sample.nm (cstring "notes")) (cstring "txt") 2 size.

End Notes.

(** The new file system, and the one with the file. *)
Lemma notes_formatted :
  exists s V, disk_is (disk s) V /\ formatted V (zeros 3) /\ user s = user Notes.state.
Proof.
  assert (Hb : boot_sector (cluster Blank.image) <> fs_signature) by (vm_compute; discriminate).
  assert (Hz : forall x, 0 <= x < CLUSTER_MAP_SIZE -> cluster_map (memory Notes.state) x = FAT32_FAT_EMPTY_ENTRY)
    by (intros x _; apply cluster_map_zero).
  pose proof (disk_is_cluster Blank.image I) as HV.
  destruct (wp_elim (initialize_filesystem_fat32 (zeros 3)) (fun _ s => exists V, disk_is (disk s) V /\ formatted V (zeros 3) /\
    user s = user Notes.state) Notes.state) as ([] & s & _ & V & Hs); [|by exists s, V].
  apply (wp_formats _ (cluster Blank.image)); [done..|]. intros s' V' Hd Hu _ Hf _. by exists V'.
Qed.

Lemma notes_accepted V :
  formatted V (zeros 3) ->
  dir_find (dir V 2) (req_name (Notes.request 5)) (req_ext (Notes.request 5)) = None /\ write_rejects V (Notes.request 5) = None.
Proof. intros Hf. apply (formatted_accepts V (zeros 3)); try done; vm_compute; discriminate. Qed.

Lemma notes_legal V : formatted V (zeros 3) -> legal V (Write (Notes.request 5)).
Proof.
  intros Hf. split; [by apply (bool_decide_unpack _)|]. split; [constructor|]. split; [done|]. split; [done|].
  intros _. exists 2. by apply (formatted_free _ (zeros 3)).
Qed.

Lemma notes_name : real_name (req_name (Notes.request 5)) (req_ext (Notes.request 5)).
Proof. apply (bool_decide_unpack _). vm_compute. exact I. Qed.

Lemma requests_refine_map_witness :
  exists s code s' V', perform (Write (Notes.request 5)) s = Ret (code, s') /\ disk_is (D := Inserter.image) (disk s') V' /\
    code = 0 /\ names V' 2 (req_name (Notes.request 5)) (req_ext (Notes.request 5)) = Some (File 5 Notes.text).
Proof.
  destruct notes_formatted as (s & V & HV & Hf & Hu). destruct (notes_accepted V Hf) as [Hno Hrej].
  destruct (requests_refine_map (Write (Notes.request 5)) V s HV (formatted_ok _ _ Hf) (notes_legal V Hf) notes_name)
    as (code & s' & V' & Hrun & Hd & _ & Ha & [Hmap _] & _).
  assert (Hcode : code = 0).
  { rewrite names_none in Ha by exact Hno. unfold answer in Ha. rewrite Hrej in Ha. exact Ha. }
  exists s, code, s', V'. split; [exact Hrun|]. split; [exact Hd|]. split; [exact Hcode|].
  rewrite (Hmap 2 _ _ (reach_root V) (reach_root V') notes_name), decide_True by (split; [exact Hcode|reflexivity]).
  cbn [outcome]. rewrite Hu. vm_compute. reflexivity.
Defined.

(** The file has been written, and the driver's table is the one on the disk. *)
Lemma notes_written :
  exists (s : fs Inserter.image) V, disk_is (disk s) V /\ fs_ok V /\ fat_cached s V /\
    names V 2 (req_name (Notes.request 5)) (req_ext (Notes.request 5)) = Some (File 5 Notes.text).
Proof.
  destruct notes_formatted as (s & V & HV & Hf & Hu). destruct (notes_accepted V Hf) as [Hno Hrej].
  assert (Hneed : clusters_needed 5 <= Z.of_nat (length (free_list (fat V) 3))).
  { rewrite (formatted_free_list _ _ Hf), length_seqZ. vm_compute. discriminate. }
  destruct (wp_elim (write (Notes.request 5)) (fun _ s' => exists V', disk_is (disk s') V' /\ fat_cached s' V' /\
    written V V' (user s) (Notes.request 5)) s) as (a & s' & _ & V' & Hd & Hca & Hw).
  { apply (wp_write_new (Notes.request 5) V s 2); [by apply (bool_decide_unpack _)|exact HV|by eapply formatted_directory|done|exact Hno|
      by apply (formatted_free _ (zeros 3))|exact Hneed|].
    intros s' V' Hd _ Hca Hcr. exists V'. split; [done|]. split; [done|]. exists 2. split; [by apply (formatted_free _ (zeros 3))|exact Hcr]. }
  destruct (written_refines V V' (user s) _ (formatted_ok _ _ Hf) (notes_legal V Hf) notes_name Hrej Hw) as [Hok [Hmap _]].
  exists s', V'. do 3 (split; [done|]).
  rewrite (Hmap 2 _ _ (reach_root V) (reach_root V') notes_name), decide_True by (split; reflexivity).
  cbn [outcome]. rewrite Hu. vm_compute. reflexivity.
Qed.

Lemma read_refines_map_witness :
  exists s s', read (Notes.request 8) s = Ret (0, s') /\ load (user (D := Inserter.image) s') 0 5 = Notes.text.
Proof.
  destruct notes_written as (s & V & HV & Hok & Hca & Hn).
  pose proof (read_refines_map (Notes.request 8) V s HV Hok Hca ltac:(by apply (bool_decide_unpack _)) (reach_root V) notes_name) as Hread.
  change (parent_cluster_number (Notes.request 8)) with 2 in Hread.
  change (req_name (Notes.request 8)) with (req_name (Notes.request 5)) in Hread.
  change (req_ext (Notes.request 8)) with (req_ext (Notes.request 5)) in Hread. rewrite Hn in Hread.
  cbn [buffer_size Notes.request Z.eqb] in Hread. change (5 mod CLUSTER_SIZE =? 0) with false in Hread.
  destruct Hread as (s' & Hrun & _ & Hl). exists s, s'. split; [exact Hrun|exact Hl].
Defined.
