(* ===== verification/HostTool.v ===== *)
(** The host tool that puts a file into a disk image, [main] of
    src/src/external-inserter.c: it runs fat32.c on the image in memory (the
    block device of Disk.v).  The files of the host are an argument, the lines
    printed and the image that is written back are results. *)
From Stdlib Require Import ZArith Lia.
From Stdlib Require Strings.String.
From stdpp Require Import base numbers option strings zmap functions list.
From S2P Require Import Prelude CString Disk FatTypes Fat32 FatView FatRead FatWrite FatCreate FatSample FatDelete FatDir FatInit.

(** ** The host *)

(** A file: [size] bytes. *)
Record file := File { contents : mem; size : Z }.

(** What is printed; [printf] and [puts] add the newline. *)
Inductive message :=
| Usage
| Filename (name : list byte)
| Filesize (bytes : Z)
| Line (text : list byte).

(** [fread(p, 4*1024*1024, 1, f)]: at most that many bytes of the file. *)
Definition fread (p : mem) (f : file) : mem :=
  store p 0 (load (contents f) 0 (Z.to_nat (Z.min (size f) Inserter.image_bytes))).

(** White space of the C locale. *)
Definition isspace (b : byte) : bool := (b2z b =? 32) || ((9 <=? b2z b) && (b2z b <=? 13)).
Definition isdigit (b : byte) : bool := (48 <=? b2z b) && (b2z b <=? 57).

Fixpoint skip_spaces (s : list byte) : list byte :=
  match s with
  | b :: s' => if isspace b then skip_spaces s' else s
  | [] => []
  end.

(** At most [n] characters up to the next white space. *)
Fixpoint word (n : nat) (s : list byte) : list byte :=
  match n, s with
  | S n', b :: s' => if isspace b then [] else b :: word n' s'
  | _, _ => []
  end.

(** [sscanf(s, "%8s", name)] into a name of eight zeros: the characters; the
    NUL behind them is there already, for eight in the extension. *)
Definition scan_name (s : list byte) : list byte := take 8 (word 8 (skip_spaces s) ++ zeros 8).

(** The value of the leading digits. *)
Fixpoint digits (acc : Z) (s : list byte) : Z :=
  match s with
  | b :: s' => if isdigit b then digits (10 * acc + (b2z b - 48)) s' else acc
  | [] => acc
  end.

(** [sscanf(s, "%u", &n)] with [n] zero: an optional sign and digits; a value that
    does not fit is undefined. *)
Definition scan_unsigned (s : list byte) : res Z :=
  let s := skip_spaces s in
  let sign := match s with b :: _ => (b2z b =? 45) | [] => false end in
  let s := match s with b :: s' => if (b2z b =? 45) || (b2z b =? 43) then s' else s | [] => [] end in
  let v := digits 0 s in
  if v <? 4294967296 then Ret (if sign : bool then u32 (- v) else v) else Undef.

(** What is printed for the code of [write]. *)
Definition result_text (retcode : Z) : list byte :=
  match retcode with
  | 0 => cstring "Write success"
  | 1 => cstring "Error: File/folder name already exist"
  | 2 => cstring "Error: Invalid parent cluster"
  | _ => cstring "Error: Unknown error"
  end.

(** ** The program *)

(** [main(argc, argv)]: the exit code, the lines and the contents of the new
    storage file.  [junk1] and [junk2] are the two areas that [malloc] returns,
    [tail] is the memory behind the literal "root"; [fopen] gives the files that
    can be read.  Memory and the new storage file are there when asked for. *)
Definition main (junk1 junk2 : mem) (tail : list byte) (fopen : list byte -> option file) (argv : list (list byte))
  : res (Z * list message * option mem) :=
  match argv with
  | _ :: target :: parent :: storage :: _ =>
      match fopen storage with
      | None => Undef
      | Some fptr =>
          let image_storage := fread junk1 fptr in
          let '(file_buffer, filesize) :=
            match fopen target with
            | None => (junk2, 0)
            | Some fptr_target => (fread junk2 fptr_target, size fptr_target)
            end in
          parent_cluster ← scan_unsigned parent;
          let request := Request 0 (scan_name target) (zeros 3) parent_cluster (u32 filesize) in
          '(retcode, s) ← (initialize_filesystem_fat32 tail ;; write request)
                            (Fs ∅ (Inserter.Image image_storage) file_buffer);
          Ret (0, [Filename target; Filesize filesize; Line (result_text retcode)], Some (Inserter.image_storage (disk s)))
      end
  | _ => Ret (1, [Usage], None)
  end.

(** ** What it does *)

(** The names fit their field. *)
Lemma length_scan_name s : length (scan_name s) = 8%nat.
Proof. unfold scan_name. rewrite length_take, length_app. unfold zeros. rewrite length_replicate. lia. Qed.

(** The disk when [write] starts: formatted, by the tool when it was not. *)
Definition prepared (tail : list byte) (V V0 : clusters) : Prop :=
  if decide (boot_sector V = fs_signature) then V0 = V
  else formatted V0 tail /\ forall x, 3 <= x -> V0 x = V x.

Lemma wp_initialize {D} `{DiskSpec D} tail V s (Q : unit -> fs D -> Prop) :
  length tail = 3%nat -> disk_is (disk s) V ->
  (forall x, 0 <= x < CLUSTER_MAP_SIZE -> cluster_map (memory s) x = FAT32_FAT_EMPTY_ENTRY) ->
  (forall s' V0, prepared tail V V0 -> disk_is (disk s') V0 -> user s' = user s -> Q tt s') ->
  wp (initialize_filesystem_fat32 tail) Q s.
Proof.
  intros Ht HV Hz HQ. unfold prepared in HQ. destruct (decide (boot_sector V = fs_signature)) as [E|E].
  - eapply wp_initialize_loads; [exact HV|exact E|]. intros s' Hd Hu _ _. by apply (HQ s' V).
  - apply (wp_formats _ V); [done..|]. intros s' V0 Hd' Hu' _ Hf Hfr. by apply (HQ s' V0).
Qed.

(** What was read of a file. *)
Lemma mget_fread p f a : 0 <= a < size f -> a < Inserter.image_bytes -> mget (fread p f) a = mget (contents f) a.
Proof.
  intros Ha Hb. unfold fread. set (n := Z.to_nat _).
  pose proof (load_store_within p 0 (load (contents f) 0 n) a 1) as H. rewrite length_load in H.
  assert (Hn : Z.of_nat n = Z.min (size f) Inserter.image_bytes) by (unfold n; unfold Inserter.image_bytes in *; lia).
  specialize (H ltac:(lia) ltac:(lia)). cbn [load] in H. rewrite Z.sub_0_r in H.
  assert (Hl : load (contents f) 0 n !! Z.to_nat a = Some (mget (contents f) a)).
  { rewrite lookup_load by lia. f_equal. f_equal. lia. }
  rewrite (drop_S _ _ _ Hl) in H. cbn [take] in H. by injection H.
Qed.

Lemma disk_is_fread p f V :
  Inserter.image_bytes <= size f -> disk_is (Inserter.Image (contents f)) V -> disk_is (Inserter.Image (fread p f)) V.
Proof.
  intros Hs [_ HV]. split; [done|]. intros c Hc. rewrite <- (HV c Hc). unfold cluster. apply sectors_ext. intros b Hb.
  apply load_ext. intros i Hi. cbn [Inserter.image_storage].
  apply mget_fread; unfold Inserter.image_bytes, BLOCK_SIZE in *; fat_lia.
Qed.

(** The target can be written to: a cluster in use that is not the table; with a
    file to write, there is an entry to spare, since [write] runs past a full
    directory. *)
Record target_ok (V : clusters) (p n : Z) : Prop := {
  target_range : 0 <= p < CLUSTER_MAP_SIZE;
  target_table : p <> FAT_CLUSTER_NUMBER;
  target_used : fat V p <> FAT32_FAT_EMPTY_ENTRY;
  target_map : fat V FAT_CLUSTER_NUMBER <> FAT32_FAT_EMPTY_ENTRY;
  target_root : fat V ROOT_CLUSTER_NUMBER <> FAT32_FAT_EMPTY_ENTRY;
  target_room : n <> 0 -> is_Some (dir_free (dir V p));
}.

(** On a storage that is not formatted yet there is only the root. *)
Definition target_for (V : clusters) (p n : Z) : Prop :=
  if decide (boot_sector V = fs_signature) then target_ok V p n else p = ROOT_CLUSTER_NUMBER.

Lemma prepared_target tail V V0 p n : prepared tail V V0 -> target_for V p n -> target_ok V0 p n.
Proof.
  unfold prepared, target_for. case_decide; [by intros ->|]. intros [Hf _] ->.
  pose proof (formatted_map _ _ Hf) as Hm.
  split; [fat_lia|done|by rewrite Hm by fat_lia|by rewrite Hm by fat_lia|by rewrite Hm by fat_lia|].
  intros _. exists 2. by apply (formatted_free _ tail).
Qed.

Lemma written_ext V V' u u' r :
  (forall a, buf r <= a < buf r + buffer_size r -> mget u a = mget u' a) -> written V V' u r -> written V V' u' r.
Proof.
  intros Hu. unfold written. destruct (buffer_size r =? 0); [done|]. intros (k & Hk & [He Hc Hf Hd Hfr]). exists k.
  split; [done|]. split; try done. intros j c Hj. rewrite (Hd j c Hj). unfold data_cluster. f_equal.
  apply load_ext. intros i Hi. apply Hu. fat_lia.
Qed.

Lemma res_ret_bind {A B} (f : A -> res B) a : (Ret a ≫= f) = f a.
Proof. done. Qed.

Section Tool.
Context (junk1 junk2 : mem) (tail : list byte) (fopen : list byte -> option file).
Context (prog target parent storage : list byte) (rest : list (list byte)) (sf : file) (p : Z) (V : clusters).
Hypothesis tail_length : length tail = 3%nat.
Hypothesis storage_there : fopen storage = Some sf.
Hypothesis storage_size : Inserter.image_bytes <= size sf.
Hypothesis storage_disk : disk_is (Inserter.Image (contents sf)) V.
Hypothesis parent_number : scan_unsigned parent = Ret p.

(** The size that is taken for the file, and its bytes. *)
Definition target_size : Z := match fopen target with Some f => size f | None => 0 end.
Definition target_bytes : mem := match fopen target with Some f => contents f | None => ∅ end.
Definition tool_request : request := Request 0 (scan_name target) (zeros 3) p target_size.
Definition run : res (Z * list message * option mem) := main junk1 junk2 tail fopen (prog :: target :: parent :: storage :: rest).

Lemma run_main : run = main junk1 junk2 tail fopen (prog :: target :: parent :: storage :: rest).
Proof. done. Qed.

(** The two calls of fat32.c decide the result. *)
Lemma run_eval (R : Z -> Inserter.image -> Prop) :
  0 <= target_size <= Inserter.image_bytes ->
  (forall u, (forall a, 0 <= a < target_size -> mget u a = mget target_bytes a) ->
     wp (initialize_filesystem_fat32 tail ;; write tool_request) (fun code s => R code (disk s))
       (Fs ∅ (Inserter.Image (fread junk1 sf)) u)) ->
  exists code d, R code d /\
    run = Ret (0, [Filename target; Filesize target_size; Line (result_text code)], Some (Inserter.image_storage d)).
Proof.
  unfold run, main. rewrite storage_there, parent_number. unfold tool_request, target_size, target_bytes.
  intros Hn Hwp. assert (Hu : forall n, 0 <= n <= Inserter.image_bytes -> u32 n = n).
  { intros n Hr. apply u32_small. unfold Inserter.image_bytes in Hr. lia. }
  destruct (fopen target) as [f|]; cbv beta iota zeta; rewrite res_ret_bind.
  - destruct (wp_elim _ _ _ (Hwp (fread junk2 f) ltac:(intros a Ha; apply mget_fread; [done|lia]))) as (code & s & Hr & HR).
    exists code, (disk s). split; [exact HR|]. rewrite Hu, Hr, res_ret_bind by done. reflexivity.
  - destruct (wp_elim _ _ _ (Hwp junk2 ltac:(lia))) as (code & s & Hr & HR).
    exists code, (disk s). split; [exact HR|]. change (u32 0) with 0. rewrite Hr, res_ret_bind. reflexivity.
Qed.

Lemma wp_tool u :
  target_for V p target_size -> 0 <= target_size <= Inserter.image_bytes ->
  wp (initialize_filesystem_fat32 tail ;; write tool_request) (fun code s => exists V0 V', prepared tail V V0 /\
      disk_is (disk s) V' /\ code = default 0 (write_rejects V0 tool_request) /\
      match write_rejects V0 tool_request with Some _ => V' = V0 | None => written V0 V' u tool_request end)
    (Fs ∅ (Inserter.Image (fread junk1 sf)) u).
Proof.
  intros Ht Hn. apply wp_bind. eapply (wp_initialize _ V); [exact tail_length|by apply disk_is_fread|by intros x _; apply cluster_map_zero|].
  intros s V0 Hp Hd Hu. destruct (prepared_target _ _ _ _ _ Hp Ht) as [Hr Htab Hused Hmap Hroot Hroom].
  eapply wp_mono; [apply (wp_write_any tool_request V0 s); try done|].
  - split; [apply length_scan_name|]. split; [done|]. cbn. unfold Inserter.image_bytes in Hn. fat_lia.
  - cbn. unfold Inserter.image_bytes in Hn. lia.
  - intros code s' (V' & Hd' & Hout). exists V0, V'. split; [done|]. split; [done|].
    destruct (write_rejects V0 tool_request); [done|]. destruct Hout as [-> Hw]. split; [done|]. by rewrite Hu in Hw.
Qed.

Lemma tool_outcome :
  target_for V p target_size -> 0 <= target_size <= Inserter.image_bytes ->
  exists V0 V' img, prepared tail V V0 /\ disk_is (Inserter.Image img) V' /\
    run = Ret (0, [Filename target; Filesize target_size;
                   Line (result_text (default 0 (write_rejects V0 tool_request)))], Some img) /\
    match write_rejects V0 tool_request with
    | Some _ => V' = V0
    | None => written V0 V' target_bytes tool_request
    end.
Proof.
  intros Ht Hn.
  destruct (run_eval (fun code d => exists V0 V', prepared tail V V0 /\ disk_is d V' /\
      code = default 0 (write_rejects V0 tool_request) /\
      match write_rejects V0 tool_request with Some _ => V' = V0 | None => written V0 V' target_bytes tool_request end))
    as (code & d & (V0 & V' & Hp & Hd & -> & Hw) & Hrun); [done| |].
  - intros u Hu. eapply wp_mono; [by apply wp_tool|]. intros code s (V0 & V' & Hp & Hd & Hc & Hw).
    exists V0, V'. do 3 (split; [done|]). destruct (write_rejects V0 tool_request); [done|].
    eapply written_ext; [|exact Hw]. intros a Ha. apply Hu. cbn in Ha. lia.
  - exists V0, V', (Inserter.image_storage d). split; [done|]. split; [by destruct d|]. by split.
Qed.

(** C24: the host tool, on a storage of 4 MiB or more, formatted or not: it returns 0,
    prints the outcome, and writes back an image with the file system as it was
    (formatted first when it was not), and in it the file that was named, under
    the first eight characters of its name and without extension.  A request
    that [write] turns down leaves the image as it was.  A file that is empty or
    cannot be opened becomes a directory. *)
Theorem inserter_correct :
  target_for V p target_size -> 0 <= target_size <= Inserter.image_bytes ->
  exists V0 V' img text, prepared tail V V0 /\ disk_is (Inserter.Image img) V' /\
    run = Ret (0, [Filename target; Filesize target_size; Line text], Some img) /\
    match write_rejects V0 tool_request with
    | Some 1 => text = cstring "Error: File/folder name already exist" /\ V' = V0
    | Some _ => text = cstring "Error: Unknown error" /\ V' = V0
    | None => text = cstring "Write success" /\ written V0 V' target_bytes tool_request
    end.
Proof.
  intros Ht Hn. destruct (tool_outcome Ht Hn) as (V0 & V' & img & Hp & Hd & Hrun & Hw).
  exists V0, V', img, (result_text (default 0 (write_rejects V0 tool_request))). do 3 (split; [done|]).
  destruct (write_rejects V0 tool_request) as [code|] eqn:E; [|done].
  by destruct (write_rejects_code _ _ _ E) as [-> | ->].
Qed.

End Tool.

(** ** A blank storage *)

Module ToolSample.

Definition program : list byte := cstring "shell code".

Definition fopen (name : list byte) : option file :=
  if decide (name = cstring "disk.bin") then Some (File ∅ Inserter.image_bytes)
  else if decide (name = cstring "shell") then Some (File (obj program) 10)
  else None.

End ToolSample.

Lemma sample_request : tool_request ToolSample.fopen (cstring "shell") 2 = Request 0 (cstring "shell" ++ zeros 3) (zeros 3) 2 10.
Proof. reflexivity. Qed.

Lemma sample_bytes : target_bytes ToolSample.fopen (cstring "shell") = obj ToolSample.program.
Proof. reflexivity. Qed.

Lemma sample_clusters : take (Z.to_nat (clusters_needed 10)) (seqZ 3 509) = [3].
Proof. reflexivity. Qed.

Lemma inserter_correct_witness :
  exists V' img, disk_is (Inserter.Image img) V' /\
    main ∅ ∅ (zeros 3) ToolSample.fopen [cstring "inserter"; cstring "shell"; cstring "2"; cstring "disk.bin"] =
      Ret (0, [Filename (cstring "shell"); Filesize 10; Line (cstring "Write success")], Some img) /\
    exists V0, formatted V0 (zeros 3) /\
      file_created V0 V' (obj ToolSample.program) (Request 0 (cstring "shell" ++ zeros 3) (zeros 3) 2 10) 2 [3].
Proof.
  destruct (inserter_correct ∅ ∅ (zeros 3) ToolSample.fopen (cstring "inserter") (cstring "shell") (cstring "2") (cstring "disk.bin")
    [] (File ∅ Inserter.image_bytes) 2 (cluster blank_image)) as (V0 & V' & img & text & Hp & Hd & Hrun & Hw);
    [reflexivity|reflexivity|reflexivity|by apply disk_is_cluster|reflexivity|reflexivity| |].
  - split; [done|]. vm_compute. discriminate.
  - unfold prepared in Hp. rewrite decide_False in Hp by (vm_compute; discriminate). destruct Hp as [Hf _].
    rewrite sample_request, sample_bytes in Hw. rewrite run_main in Hrun.
    destruct (formatted_accepts V0 (zeros 3) (Request 0 (cstring "shell" ++ zeros 3) (zeros 3) 2 10) Hf) as [_ Hrej];
      [done|vm_compute; discriminate..|].
    rewrite Hrej in Hw. destruct Hw as [-> Hw]. exists V', img. split; [exact Hd|]. split; [exact Hrun|]. exists V0. split; [exact Hf|].
    destruct Hw as (k & Hk & Hcr). change (dir_free (dir V0 ROOT_CLUSTER_NUMBER) = Some k) in Hk.
    rewrite (formatted_free _ _ Hf) in Hk. injection Hk as <-. cbn [buffer_size] in Hcr.
    rewrite (formatted_free_list _ _ Hf), sample_clusters in Hcr. exact Hcr.
Defined.
