(* ===== verification/Paging.v ===== *)
(** Page frames and page directories: src/src/paging.c.

    A page directory is an object at the address the linker gives it; a pointer
    to one is that address.  The machine's part is the register CR3 and the TLB
    (the addresses [invlpg] was executed for).  Fields of a local struct that
    the code does not set hold arbitrary values: they are the arguments [junk]
    of the operations. *)
From Stdlib Require Import ZArith Lia.
From stdpp Require Import base numbers option strings zmap functions list.
From S2P Require Import Prelude.

(** ** Constants *)

Definition PAGE_ENTRY_COUNT : Z := 1024.
Definition PAGE_FRAME_SIZE : Z := 4194304.
Definition PAGE_FRAME_MAX_COUNT : Z := 32.
Definition PAGING_DIRECTORY_TABLE_MAX_COUNT : Z := 32.
Definition KERNEL_VIRTUAL_ADDRESS_BASE : Z := 0xC0000000.
Definition sizeof_PageDirectory : Z := 4096.

(** The directory entry of the higher half. *)
Definition KERNEL_ENTRY : Z := 0x300.

(** ** Data *)

(** [struct PageDirectoryEntryFlag]: eight one-bit fields. *)
Record PageDirectoryEntryFlag := Flag {
  present_bit : bool;
  write_bit : bool;
  user_bit : bool;
  pwt : bool;
  pcd : bool;
  accessed : bool;
  dirty : bool;
  use_pagesize_4_mb : bool;
}.

(** [struct PageDirectoryEntry]. *)
Record PageDirectoryEntry := Entry {
  flag : PageDirectoryEntryFlag;
  global_page : Z;
  ignored : Z;
  pat : Z;
  higher_address : Z;
  reserved : Z;
  lower_address : Z;
}.

(** [struct PageDirectory], its table indexed by the ten bits of a page number. *)
Abbreviation PageDirectory := (Z -> PageDirectoryEntry).

Definition zero_flag : PageDirectoryEntryFlag := Flag false false false false false false false false.
Definition zero_entry : PageDirectoryEntry := Entry zero_flag 0 0 0 0 0 0.
Definition zero_directory : PageDirectory := fun _ => zero_entry.

(** The static objects of paging.c and the machine state they drive. *)
Record paging := Paging {
  page_frame_map : list bool;
  free_page_frame_count : Z;
  page_directory_used : list bool;
  directories : Zmap PageDirectory;
  cr3 : Z;
  invalidated : list Z;
}.

Definition set_frames (m : list bool) (n : Z) (s : paging) : paging :=
  Paging m n (page_directory_used s) (directories s) (cr3 s) (invalidated s).
Definition set_used (u : list bool) (s : paging) : paging :=
  Paging (page_frame_map s) (free_page_frame_count s) u (directories s) (cr3 s) (invalidated s).
Definition set_directories (d : Zmap PageDirectory) (s : paging) : paging :=
  Paging (page_frame_map s) (free_page_frame_count s) (page_directory_used s) d (cr3 s) (invalidated s).
Definition set_cr3 (x : Z) (s : paging) : paging :=
  Paging (page_frame_map s) (free_page_frame_count s) (page_directory_used s) (directories s) x (invalidated s).
Definition set_invalidated (l : list Z) (s : paging) : paging :=
  Paging (page_frame_map s) (free_page_frame_count s) (page_directory_used s) (directories s) (cr3 s) l.

(** ** Operations *)

(** [table[i]] of the directory at [page_dir]; no directory there is undefined. *)
Definition table_get (page_dir i : Z) : M paging PageDirectoryEntry := fun s =>
  match directories s !! page_dir with
  | Some d => Ret (d i, s)
  | None => Undef
  end.

Definition table_set (page_dir i : Z) (e : PageDirectoryEntry) : M paging unit := fun s =>
  match directories s !! page_dir with
  | Some d => Ret (tt, set_directories (<[page_dir := <[i := e]> d]> (directories s)) s)
  | None => Undef
  end.

(** [((uint32_t) virtual_addr >> 22) & 0x3FF]. *)
Definition page_index (addr : Z) : Z := Z.land (Z.shiftr addr 22) 0x3FF.

Definition flush_single_tlb (virtual_addr : Z) : M paging unit :=
  modify (fun s => set_invalidated (virtual_addr :: invalidated s) s).

Definition update_page_directory_entry
    (page_dir physical_addr virtual_addr : Z) (fl : PageDirectoryEntryFlag) : M paging unit :=
  let page_index := page_index virtual_addr in
  e ← table_get page_dir page_index;
  table_set page_dir page_index
    (Entry fl (global_page e) (ignored e) (pat e) (higher_address e) (reserved e)
       (Paging.page_index physical_addr)) ;;
  flush_single_tlb virtual_addr.

Definition paging_allocate_check (amount : Z) : M paging bool :=
  gets (fun s => free_page_frame_count s >=? amount).

(** [page_frame_map[i] = b]. *)
Definition frame_set (i : Z) (b : bool) : M paging unit := fun s =>
  if (0 <=? i) && (i <? PAGE_FRAME_MAX_COUNT)
  then Ret (tt, set_frames (<[Z.to_nat i := b]> (page_frame_map s)) (free_page_frame_count s) s)
  else Undef.

Definition frame_used (s : paging) (i : Z) : bool := nth (Z.to_nat i) (page_frame_map s) true.

Definition count_add (n : Z) : M paging unit :=
  modify (fun s => set_frames (page_frame_map s) (u32 (free_page_frame_count s + n)) s).

(** [junk] is what the four bits of [flag] that are not set hold. *)
Definition paging_allocate_user_page_frame
    (junk : PageDirectoryEntryFlag) (page_dir virtual_addr : Z) : M paging bool :=
  first ← gets (fun s => find_up (fun i => negb (frame_used s i)) 0 (Z.to_nat PAGE_FRAME_MAX_COUNT));
  match first with
  | None => mret false
  | Some i =>
      frame_set i true ;;
      update_page_directory_entry page_dir (i * PAGE_FRAME_SIZE) virtual_addr
        (Flag true true true (pwt junk) (pcd junk) (accessed junk) (dirty junk) true) ;;
      count_add (-1) ;;
      mret true
  end.

Definition paging_free_user_page_frame
    (junk : PageDirectoryEntryFlag) (page_dir virtual_addr : Z) : M paging bool :=
  e ← table_get page_dir (page_index virtual_addr);
  if present_bit (flag e) then
    let physical_addr := u32 (Z.shiftl (lower_address e) 22) in
    frame_set (physical_addr / PAGE_FRAME_SIZE) false ;;
    update_page_directory_entry page_dir 0 virtual_addr
      (Flag false false false (pwt junk) (pcd junk) (accessed junk) (dirty junk) false) ;;
    count_add 1 ;;
    mret true
  else mret false.

Section Directories.
(** The addresses the linker gives to [page_directory_list] and to
    [_paging_kernel_page_directory]. *)
Context (page_directory_list kernel_page_directory : Z).

(** [&page_directory_list[i]]. *)
Definition directory_addr (i : Z) : Z := page_directory_list + sizeof_PageDirectory * i.

Definition directory_set (page_dir : Z) (d : PageDirectory) : M paging unit :=
  modify (fun s => set_directories (<[page_dir := d]> (directories s)) s).

Definition used_set (i : Z) (b : bool) : M paging unit :=
  modify (fun s => set_used (<[Z.to_nat i := b]> (page_directory_used s)) s).

(** [None] is NULL.  [junk] is what the local [entry] holds before its three
    bits are set: the other bits, and the frame number, are never set. *)
Definition paging_create_new_page_directory (junk : PageDirectoryEntry) : M paging (option Z) :=
  first ← gets (fun s => find_up (fun i => negb (nth (Z.to_nat i) (page_directory_used s) true)) 0
                           (Z.to_nat PAGING_DIRECTORY_TABLE_MAX_COUNT));
  match first with
  | None => mret None
  | Some i =>
      used_set i true ;;
      directory_set (directory_addr i) zero_directory ;;
      let f := flag junk in
      table_set (directory_addr i) KERNEL_ENTRY
        (Entry (Flag true true (user_bit f) (pwt f) (pcd f) (accessed f) (dirty f) true)
           (global_page junk) (ignored junk) (pat junk) (higher_address junk) (reserved junk)
           (lower_address junk)) ;;
      mret (Some (directory_addr i))
  end.

Definition paging_free_page_directory (page_dir : Z) : M paging bool :=
  match find_up (fun i => directory_addr i =? page_dir) 0 (Z.to_nat PAGING_DIRECTORY_TABLE_MAX_COUNT) with
  | None => mret false
  | Some i =>
      used_set i false ;;
      directory_set page_dir zero_directory ;;
      mret true
  end.

Definition paging_get_current_page_directory_addr : M paging Z :=
  gets (fun s => u32 (cr3 s + KERNEL_VIRTUAL_ADDRESS_BASE)).

Definition paging_use_page_directory (page_dir_virtual_addr : Z) : M paging unit :=
  modify (set_cr3
    (if page_dir_virtual_addr >? KERNEL_VIRTUAL_ADDRESS_BASE
     then page_dir_virtual_addr - KERNEL_VIRTUAL_ADDRESS_BASE else page_dir_virtual_addr)).

(** The initial values of the static objects. *)
Definition kernel_directory : PageDirectory :=
  let e := Entry (Flag true true false false false false false true) 0 0 0 0 0 0 in
  <[0 := e]> (<[KERNEL_ENTRY := e]> zero_directory).

Definition paging_init : paging := {|
  page_frame_map := true :: replicate 31 false;
  free_page_frame_count := PAGE_FRAME_MAX_COUNT - 1;
  page_directory_used := replicate 32 false;
  directories :=
    <[kernel_page_directory := kernel_directory]>
      (foldr (fun i ds => <[directory_addr i := zero_directory]> ds) ∅ (seqZ 0 32));
  cr3 := kernel_page_directory - KERNEL_VIRTUAL_ADDRESS_BASE;
  invalidated := [];
|}.

End Directories.
