(* ===== verification/PagingSpec.v ===== *)
(** Theorems about src/src/paging.c: the frame allocator never hands out a
    frame twice, and its counter is exact, after any sequence of operations. *)
From Stdlib Require Import ZArith Lia.
From stdpp Require Import base numbers option strings zmap functions list.
From S2P Require Import Prelude Paging.

(** ** Views *)

(** The frame that the directory at [page_dir] maps at entry [k]. *)
Definition frame_at (s : paging) (page_dir k : Z) : option Z :=
  d ← directories s !! page_dir;
  if present_bit (flag (d k)) then Some (lower_address (d k)) else None.

Definition free_frames (s : paging) : nat :=
  sum_list_with (fun b : bool => if b then 0%nat else 1%nat) (page_frame_map s).

(** Run a sequence of operations. *)
Fixpoint run_all {St} (l : list (M St unit)) : M St unit :=
  match l with
  | [] => mret tt
  | c :: l' => c ;; run_all l'
  end.

(** Compute the fields of a state that was changed step by step. *)
Ltac paging_state :=
  unfold set_frames, set_invalidated, set_directories, set_used, set_cr3;
  cbn [page_frame_map free_page_frame_count page_directory_used directories cr3 invalidated].

Section Spec.
Context (page_directory_list kernel_page_directory : Z).
Let addr : Z -> Z := directory_addr page_directory_list.

(** Entry [k] of the [i]th directory maps user memory. *)
Definition user_entry (i k : Z) : Prop :=
  0 <= i < PAGING_DIRECTORY_TABLE_MAX_COUNT /\ 0 <= k < PAGE_ENTRY_COUNT /\ k <> KERNEL_ENTRY.

(** The invariant of the page manager. *)
Record paging_ok (s : paging) : Prop := {
  ok_frames : length (page_frame_map s) = 32%nat;
  ok_used : length (page_directory_used s) = 32%nat;
  ok_kernel : page_frame_map s !! 0%nat = Some true;
  ok_count : free_page_frame_count s = Z.of_nat (free_frames s);
  ok_directories i : 0 <= i < PAGING_DIRECTORY_TABLE_MAX_COUNT -> is_Some (directories s !! addr i);
  ok_owned i k f : user_entry i k -> frame_at s (addr i) k = Some f ->
    0 < f < PAGE_FRAME_MAX_COUNT /\ page_frame_map s !! Z.to_nat f = Some true;
  ok_unique i k i' k' f : user_entry i k -> user_entry i' k' ->
    frame_at s (addr i) k = Some f -> frame_at s (addr i') k' = Some f -> i = i' /\ k = k';
}.

(** ** Addresses *)

Lemma directory_addr_inj i j : addr i = addr j -> i = j.
Proof. unfold addr, directory_addr, sizeof_PageDirectory. lia. Qed.

Lemma page_index_range a : 0 <= page_index a < PAGE_ENTRY_COUNT.
Proof.
  unfold page_index. change 0x3FF with (Z.ones 10). rewrite Z.land_ones by lia.
  apply Z.mod_pos_bound. done.
Qed.

Lemma page_index_frame f : 0 <= f < PAGE_ENTRY_COUNT -> page_index (f * PAGE_FRAME_SIZE) = f.
Proof.
  intros Hf. unfold page_index. rewrite Z.shiftr_div_pow2 by lia.
  change (2 ^ 22) with PAGE_FRAME_SIZE. rewrite Z.div_mul by done.
  change 0x3FF with (Z.ones 10). rewrite Z.land_ones by lia. by apply Z.mod_small.
Qed.

(** The addresses below the kernel are those whose entry is before the
    kernel's. *)
Lemma page_index_user a : 0 <= a < KERNEL_VIRTUAL_ADDRESS_BASE -> 0 <= page_index a < KERNEL_ENTRY.
Proof.
  unfold KERNEL_VIRTUAL_ADDRESS_BASE, KERNEL_ENTRY. intros Ha. unfold page_index.
  change 0x3FF with (Z.ones 10). rewrite Z.land_ones, Z.shiftr_div_pow2 by lia.
  change (2 ^ 22) with 4194304. change (2 ^ 10) with 1024.
  pose proof (Z.div_pos a 4194304 ltac:(lia) ltac:(lia)).
  pose proof (Z.div_lt_upper_bound a 4194304 768 ltac:(lia) ltac:(lia)).
  rewrite Z.mod_small by lia. lia.
Qed.

(** ** The frame map *)

Lemma frame_used_lookup s i :
  0 <= i < PAGE_FRAME_MAX_COUNT -> length (page_frame_map s) = 32%nat ->
  page_frame_map s !! Z.to_nat i = Some (frame_used s i).
Proof.
  intros Hi Hl. unfold frame_used. destruct (lookup_lt_is_Some_2 (page_frame_map s) (Z.to_nat i)) as [b Hb].
  { unfold PAGE_FRAME_MAX_COUNT in *. lia. }
  rewrite Hb. f_equal. symmetry. by apply nth_lookup_Some.
Qed.

Lemma free_frames_zero s :
  length (page_frame_map s) = 32%nat ->
  free_frames s = 0%nat <-> find_up (fun i => negb (frame_used s i)) 0 (Z.to_nat PAGE_FRAME_MAX_COUNT) = None.
Proof.
  intros Hl. unfold free_frames. rewrite find_up_None. split.
  - intros H j Hj. apply negb_false_iff.
    pose proof (frame_used_lookup s j ltac:(unfold PAGE_FRAME_MAX_COUNT in *; lia) Hl) as Hb.
    destruct (frame_used s j); [done|].
    apply (sum_list_with_insert (fun b : bool => if b then 0%nat else 1%nat) _ _ _ true) in Hb. cbv beta iota in Hb.
    lia.
  - intros H.
    assert (Hall : Forall (fun b => b = true) (page_frame_map s)).
    { apply Forall_lookup_2. intros i b Hi. pose proof (lookup_lt_Some _ _ _ Hi) as Hlt.
      specialize (H (Z.of_nat i) ltac:(unfold PAGE_FRAME_MAX_COUNT; lia)).
      apply negb_false_iff in H. unfold frame_used in H. rewrite Nat2Z.id in H.
      by rewrite (nth_lookup_Some _ _ _ _ Hi) in H. }
    clear H Hl. induction Hall; simpl; [done|]. by subst.
Qed.

(** ** Rules for the operations *)

Lemma wp_entry_get p k d (Q : PageDirectoryEntry -> paging -> Prop) s :
  directories s !! p = Some d -> Q (d k) s -> wp (table_get p k) Q s.
Proof. intros Hd HQ. unfold wp, table_get. by rewrite Hd. Qed.

Lemma wp_entry_set p k e d (Q : unit -> paging -> Prop) s :
  directories s !! p = Some d ->
  Q tt (set_directories (<[p := <[k := e]> d]> (directories s)) s) -> wp (table_set p k e) Q s.
Proof. intros Hd HQ. unfold wp, table_set. by rewrite Hd. Qed.

Lemma wp_update_entry p pa va fl d (Q : unit -> paging -> Prop) s :
  directories s !! p = Some d ->
  (let e := d (page_index va) in
   Q tt (set_invalidated (va :: invalidated s) (set_directories
     (<[p := <[page_index va := Entry fl (global_page e) (ignored e) (pat e) (higher_address e)
                (reserved e) (page_index pa)]> d]> (directories s)) s))) ->
  wp (update_page_directory_entry p pa va fl) Q s.
Proof.
  intros Hd HQ. apply wp_bind, (wp_entry_get p _ d); [done|]. apply wp_bind, (wp_entry_set p _ _ d); [done|].
  apply wp_modify. exact HQ.
Qed.

Lemma wp_frame_set i b (Q : unit -> paging -> Prop) s :
  0 <= i < PAGE_FRAME_MAX_COUNT ->
  Q tt (set_frames (<[Z.to_nat i := b]> (page_frame_map s)) (free_page_frame_count s) s) ->
  wp (frame_set i b) Q s.
Proof.
  intros Hi HQ. unfold wp, frame_set.
  rewrite (proj2 (Z.leb_le 0 i)), (proj2 (Z.ltb_lt i _)) by lia. exact HQ.
Qed.

(** The state after a frame has been mapped at [va], or unmapped. *)
Definition remapped (s s' : paging) (p va f : Z) (used : bool) : Prop :=
  page_frame_map s' = <[Z.to_nat f := used]> (page_frame_map s) /\
  free_page_frame_count s' = u32 (free_page_frame_count s + (if used then -1 else 1)) /\
  page_directory_used s' = page_directory_used s /\ cr3 s' = cr3 s /\
  (forall q, is_Some (directories s !! q) -> is_Some (directories s' !! q)) /\
  (forall q k, frame_at s' q k =
     if decide (q = p /\ k = page_index va) then (if used then Some f else None) else frame_at s q k).

Lemma remapped_intro s p va f (used : bool) d e m n l :
  directories s !! p = Some d -> lower_address e = f \/ used = false -> present_bit (flag e) = used ->
  m = <[Z.to_nat f := used]> (page_frame_map s) ->
  n = u32 (free_page_frame_count s + (if used then -1 else 1)) ->
  remapped s (Paging m n (page_directory_used s) (<[p := <[page_index va := e]> d]> (directories s))
    (cr3 s) l) p va f used.
Proof.
  intros Hd Hf He -> ->. repeat split.
  - intros q Hq. cbn [directories]. destruct (decide (q = p)) as [->|Hne].
    + rewrite lookup_insert_eq. done.
    + by rewrite lookup_insert_ne.
  - intros q k. unfold frame_at. cbn [directories]. destruct (decide (q = p)) as [->|Hne].
    + rewrite lookup_insert_eq, Hd. cbn. destruct (decide (k = page_index va)) as [->|Hk].
      * rewrite decide_True by done. rewrite fn_lookup_insert, He.
        destruct used; [|done]. by destruct Hf as [<-|].
      * rewrite decide_False by tauto. by rewrite fn_lookup_insert_ne.
    + rewrite lookup_insert_ne by done. by rewrite decide_False by tauto.
Qed.

(** Allocation: the first free frame, when there is one. *)
Lemma wp_allocate junk i va (Q : bool -> paging -> Prop) s :
  paging_ok s -> 0 <= i < PAGING_DIRECTORY_TABLE_MAX_COUNT ->
  (free_page_frame_count s = 0 -> Q false s) ->
  (forall f s', 0 < free_page_frame_count s -> 0 < f < PAGE_FRAME_MAX_COUNT ->
     page_frame_map s !! Z.to_nat f = Some false -> remapped s s' (addr i) va f true -> Q true s') ->
  wp (paging_allocate_user_page_frame junk (addr i) va) Q s.
Proof.
  intros Hok Hi Hfull HQ. pose proof (free_frames_zero s (ok_frames s Hok)) as Hz.
  pose proof (ok_count s Hok) as Hc. unfold paging_allocate_user_page_frame. apply wp_bind, wp_gets.
  destruct (find_up _ _ _) as [f|] eqn:Hf.
  - pose proof Hf as Hf'. apply find_up_Some in Hf' as (Hr & Hu & _). apply negb_true_iff in Hu.
    assert (Hr' : 0 <= f < PAGE_FRAME_MAX_COUNT) by (unfold PAGE_FRAME_MAX_COUNT in *; lia).
    pose proof (frame_used_lookup s f Hr' (ok_frames s Hok)) as Hl. rewrite Hu in Hl.
    assert (Hf0 : f <> 0).
    { intros ->. change (Z.to_nat 0) with 0%nat in Hl. rewrite (ok_kernel s Hok) in Hl. done. }
    assert (Hpos : 0 < free_page_frame_count s).
    { rewrite Hc. destruct (free_frames s); [|lia]. discriminate (proj1 Hz eq_refl). }
    destruct (ok_directories s Hok i Hi) as [d Hd].
    apply wp_bind, wp_frame_set; [done|]. apply wp_bind.
    eapply wp_update_entry; [exact Hd|]. cbv zeta.
    apply wp_bind, wp_modify, wp_ret. apply (HQ f); [done|lia|exact Hl|].
    paging_state. apply remapped_intro; try done. left. cbn [lower_address].
    apply page_index_frame. unfold PAGE_FRAME_MAX_COUNT, PAGE_ENTRY_COUNT in *. lia.
  - apply wp_ret, Hfull. rewrite Hc. by rewrite (proj2 Hz).
Qed.

(** Freeing: nothing when nothing is mapped. *)
Lemma wp_free junk i va (Q : bool -> paging -> Prop) s :
  paging_ok s -> user_entry i (page_index va) ->
  (frame_at s (addr i) (page_index va) = None -> Q false s) ->
  (forall f s', frame_at s (addr i) (page_index va) = Some f ->
     remapped s s' (addr i) va f false -> Q true s') ->
  wp (paging_free_user_page_frame junk (addr i) va) Q s.
Proof.
  intros Hok Hu Hnone HQ. destruct (ok_directories s Hok i (proj1 Hu)) as [d Hd].
  pose proof (ok_owned s Hok i (page_index va)) as Hown.
  unfold frame_at in Hown, Hnone, HQ. rewrite Hd in Hown, Hnone, HQ. cbn in Hown, Hnone, HQ.
  unfold paging_free_user_page_frame. apply wp_bind, (wp_entry_get _ _ d); [done|].
  destruct (present_bit (flag (d (page_index va)))) eqn:Hp; [|by apply wp_ret, Hnone].
  destruct (Hown _ Hu eq_refl) as [Hr _]. set (f := lower_address _) in *.
  assert (Hf : u32 (Z.shiftl f 22) / PAGE_FRAME_SIZE = f).
  { rewrite Z.shiftl_mul_pow2 by lia. change (2 ^ 22) with PAGE_FRAME_SIZE.
    rewrite u32_small; [by apply Z.div_mul|]. unfold PAGE_FRAME_SIZE, PAGE_FRAME_MAX_COUNT in *. lia. }
  cbv zeta. rewrite Hf. apply wp_bind, wp_frame_set; [lia|]. apply wp_bind.
  eapply wp_update_entry; [exact Hd|]. apply wp_bind, wp_modify, wp_ret.
  apply (HQ f); [done|]. paging_state. apply remapped_intro; try done. by right.
Qed.

(** ** The operations keep the invariant *)

Lemma free_frames_le s : (free_frames s <= length (page_frame_map s))%nat.
Proof. unfold free_frames. induction (page_frame_map s) as [|[] l IH]; simpl; lia. Qed.

Lemma count_range s : paging_ok s -> 0 <= free_page_frame_count s <= 32.
Proof.
  intros Hok. rewrite (ok_count s Hok). pose proof (free_frames_le s) as H.
  rewrite (ok_frames s Hok) in H. lia.
Qed.

(** The counter after a frame has changed hands. *)
Lemma remapped_count s s' p va f used :
  paging_ok s -> page_frame_map s !! Z.to_nat f = Some (negb used) -> remapped s s' p va f used ->
  free_page_frame_count s' = free_page_frame_count s + (if used then -1 else 1) /\
  free_page_frame_count s' = Z.of_nat (free_frames s').
Proof.
  intros Hok Hf (Hm & Hc & _). pose proof (count_range s Hok) as Hr. pose proof (ok_count s Hok) as Hcs.
  pose proof (sum_list_with_insert (fun b : bool => if b then 0%nat else 1%nat) _ _ _ used Hf) as Hsum.
  rewrite Hc. unfold free_frames in *. rewrite Hm.
  destruct used; cbv beta iota delta [negb] in Hsum; rewrite u32_small by lia; lia.
Qed.

Lemma remapped_ok_map s s' i va f :
  paging_ok s -> user_entry i (page_index va) -> 0 < f < PAGE_FRAME_MAX_COUNT ->
  page_frame_map s !! Z.to_nat f = Some false -> remapped s s' (addr i) va f true -> paging_ok s'.
Proof.
  intros Hok Hu Hf Hfree Hre. destruct (remapped_count _ _ _ _ _ true Hok Hfree Hre) as [_ Hcount].
  destruct Hre as (Hm & _ & Hused & _ & Hdirs & Hat).
  assert (Hold : forall g, page_frame_map s !! Z.to_nat g = Some true -> g <> f) by (intros g Hg ->; congruence).
  split; rewrite ?Hused, ?Hm; try apply Hok.
  - rewrite length_insert. apply Hok.
  - rewrite list_lookup_insert_ne by lia. apply Hok.
  - exact Hcount.
  - intros j Hj. apply Hdirs. by apply Hok.
  - intros j k g Hj. rewrite Hat. case_decide.
    + intros [= <-]. split; [done|]. apply list_lookup_insert_eq.
      rewrite (ok_frames s Hok). unfold PAGE_FRAME_MAX_COUNT in *. lia.
    + intros Hg. destruct (ok_owned s Hok j k g Hj Hg) as [Hr Hg']. split; [done|].
      rewrite list_lookup_insert_ne; [done|]. specialize (Hold g Hg'). lia.
  - intros j k j' k' g Hj Hj'. rewrite !Hat.
    case_decide as E1; case_decide as E2.
    + intros _ _. destruct E1 as [E1 ->], E2 as [E2 ->].
      split; [|done]. apply directory_addr_inj. congruence.
    + intros [= <-] Hg. destruct (ok_owned s Hok _ _ _ Hj' Hg) as [_ Hg']. by destruct (Hold f Hg').
    + intros Hg [= <-]. destruct (ok_owned s Hok _ _ _ Hj Hg) as [_ Hg']. by destruct (Hold f Hg').
    + by apply (ok_unique s Hok).
Qed.

Lemma remapped_ok_unmap s s' i va f :
  paging_ok s -> user_entry i (page_index va) -> frame_at s (addr i) (page_index va) = Some f ->
  remapped s s' (addr i) va f false -> paging_ok s'.
Proof.
  intros Hok Hu Hf Hre. destruct (ok_owned s Hok _ _ _ Hu Hf) as [Hr Hfu].
  destruct (remapped_count _ _ _ _ _ false Hok Hfu Hre) as [_ Hcount].
  destruct Hre as (Hm & _ & Hused & _ & Hdirs & Hat).
  split; rewrite ?Hused, ?Hm; try apply Hok.
  - rewrite length_insert. apply Hok.
  - rewrite list_lookup_insert_ne by lia. apply Hok.
  - exact Hcount.
  - intros j Hj. apply Hdirs. by apply Hok.
  - intros j k g Hj. rewrite Hat. case_decide as E; [done|]. intros Hg.
    destruct (ok_owned s Hok j k g Hj Hg) as [Hrg Hg']. split; [done|].
    rewrite list_lookup_insert_ne; [done|]. intros Heq. apply E.
    assert (g = f) as -> by lia.
    by destruct (ok_unique s Hok _ _ _ _ _ Hj Hu Hg Hf) as [-> ->].
  - intros j k j' k' g Hj Hj'. rewrite !Hat.
    case_decide; [done|]. case_decide; [done|]. by apply (ok_unique s Hok).
Qed.

(** Operations that only drop mappings. *)
Lemma dropped_ok s s' :
  paging_ok s -> page_frame_map s' = page_frame_map s ->
  free_page_frame_count s' = free_page_frame_count s -> length (page_directory_used s') = 32%nat ->
  (forall i, 0 <= i < PAGING_DIRECTORY_TABLE_MAX_COUNT -> is_Some (directories s' !! addr i)) ->
  (forall i k f, user_entry i k -> frame_at s' (addr i) k = Some f -> frame_at s (addr i) k = Some f) ->
  paging_ok s'.
Proof.
  intros Hok Hm Hc Hu Hd Hat. split; rewrite ?Hm, ?Hc; try done; try apply Hok.
  - rewrite (ok_count s Hok). unfold free_frames. by rewrite Hm.
  - intros i k f Hk Hf. by eapply (ok_owned s Hok), Hat.
  - intros i k i' k' f Hk Hk' Hf Hf'. eapply (ok_unique s Hok); [done|done|by apply Hat..].
Qed.

(** A directory that is replaced by one without user mappings. *)
Lemma cleared_frame_at s s' p d :
  directories s' = <[p := d]> (directories s) -> (forall k, k <> KERNEL_ENTRY -> present_bit (flag (d k)) = false) ->
  forall i k f, user_entry i k -> frame_at s' (addr i) k = Some f -> frame_at s (addr i) k = Some f.
Proof.
  intros Hd Hz i k f (_ & _ & Hk). unfold frame_at. rewrite Hd.
  destruct (decide (addr i = p)) as [->|Hne].
  - rewrite lookup_insert_eq. cbn. by rewrite Hz.
  - by rewrite lookup_insert_ne.
Qed.

Lemma insert_directory_some s p d q :
  is_Some (directories s !! q) -> is_Some (<[p := d]> (directories s) !! q).
Proof.
  intros Hq. destruct (decide (p = q)) as [->|Hne]; [rewrite lookup_insert_eq; done|].
  by rewrite lookup_insert_ne.
Qed.

(** The directory that [paging_create_new_page_directory] sets up. *)
Definition new_directory (junk : PageDirectoryEntry) : PageDirectory :=
  let f := flag junk in
  <[KERNEL_ENTRY := Entry (Flag true true (user_bit f) (pwt f) (pcd f) (accessed f) (dirty f) true)
      (global_page junk) (ignored junk) (pat junk) (higher_address junk) (reserved junk)
      (lower_address junk)]> zero_directory.

Definition first_unused (s : paging) : option Z :=
  find_up (fun i => negb (nth (Z.to_nat i) (page_directory_used s) true)) 0
    (Z.to_nat PAGING_DIRECTORY_TABLE_MAX_COUNT).

Lemma wp_create junk (Q : option Z -> paging -> Prop) s :
  (first_unused s = None -> Q None s) ->
  (forall i s', first_unused s = Some i ->
     page_frame_map s' = page_frame_map s -> free_page_frame_count s' = free_page_frame_count s ->
     page_directory_used s' = <[Z.to_nat i := true]> (page_directory_used s) -> cr3 s' = cr3 s ->
     directories s' = <[addr i := new_directory junk]> (directories s) -> Q (Some (addr i)) s') ->
  wp (paging_create_new_page_directory page_directory_list junk) Q s.
Proof.
  intros Hnone HQ. unfold paging_create_new_page_directory. apply wp_bind, wp_gets.
  change (find_up _ _ _) with (first_unused s).
  destruct (first_unused s) as [i|] eqn:Hi; [|by apply wp_ret, Hnone].
  apply wp_bind, wp_modify, wp_bind, wp_modify. apply wp_bind.
  eapply wp_entry_set; [apply lookup_insert_eq|]. apply wp_ret. apply (HQ i); try done.
  paging_state. by rewrite insert_insert_eq.
Qed.

Lemma wp_free_directory i (Q : bool -> paging -> Prop) s :
  0 <= i < PAGING_DIRECTORY_TABLE_MAX_COUNT ->
  Q true (set_directories (<[addr i := zero_directory]> (directories s))
    (set_used (<[Z.to_nat i := false]> (page_directory_used s)) s)) ->
  wp (paging_free_page_directory page_directory_list (addr i)) Q s.
Proof.
  intros Hi HQ. unfold paging_free_page_directory.
  assert (Hf : find_up (fun j => directory_addr page_directory_list j =? addr i) 0
    (Z.to_nat PAGING_DIRECTORY_TABLE_MAX_COUNT) = Some i).
  { apply find_up_Some. split; [unfold PAGING_DIRECTORY_TABLE_MAX_COUNT in *; lia|]. split.
    - by apply Z.eqb_eq.
    - intros j Hj. apply Z.eqb_neq. intros E%directory_addr_inj. lia. }
  rewrite Hf. by apply wp_bind, wp_modify, wp_bind, wp_modify, wp_ret.
Qed.

(** ** Sequences of operations *)

(** The requests the rest of the kernel makes: directories are slots of the
    list, user addresses are below the kernel. *)
Inductive op :=
| OpAllocate (junk : PageDirectoryEntryFlag) (i virtual_addr : Z)
| OpFree (junk : PageDirectoryEntryFlag) (i virtual_addr : Z)
| OpCreate (junk : PageDirectoryEntry)
| OpFreeDirectory (i : Z)
| OpUse (page_dir : Z).

Definition run (o : op) : M paging unit :=
  match o with
  | OpAllocate junk i va => paging_allocate_user_page_frame junk (addr i) va ;; mret tt
  | OpFree junk i va => paging_free_user_page_frame junk (addr i) va ;; mret tt
  | OpCreate junk => paging_create_new_page_directory page_directory_list junk ;; mret tt
  | OpFreeDirectory i => paging_free_page_directory page_directory_list (addr i) ;; mret tt
  | OpUse p => paging_use_page_directory p
  end.

Definition op_ok (o : op) : Prop :=
  match o with
  | OpAllocate _ i va | OpFree _ i va =>
      0 <= i < PAGING_DIRECTORY_TABLE_MAX_COUNT /\ 0 <= va < KERNEL_VIRTUAL_ADDRESS_BASE
  | OpFreeDirectory i => 0 <= i < PAGING_DIRECTORY_TABLE_MAX_COUNT
  | OpCreate _ | OpUse _ => True
  end.

#[export] Instance op_ok_dec o : Decision (op_ok o).
Proof. destruct o; apply _. Defined.

Lemma user_entry_addr i va :
  0 <= i < PAGING_DIRECTORY_TABLE_MAX_COUNT -> 0 <= va < KERNEL_VIRTUAL_ADDRESS_BASE ->
  user_entry i (page_index va).
Proof.
  intros Hi Hva. pose proof (page_index_user va Hva). pose proof (page_index_range va).
  unfold user_entry. split; [done|]. split; [done|lia].
Qed.

Lemma run_ok o s : op_ok o -> paging_ok s -> wp (run o) (fun _ s' => paging_ok s') s.
Proof.
  intros Ho Hok. destruct o as [junk i va|junk i va|junk|i|p]; cbn [op_ok run] in *; try apply wp_bind.
  - destruct Ho as [Hi Hva]. apply wp_allocate; [done|done|intros; by apply wp_ret|].
    intros f s' _ Hf Hfree Hre. apply wp_ret. eapply remapped_ok_map; [done|by apply user_entry_addr|done..].
  - destruct Ho as [Hi Hva]. pose proof (user_entry_addr i va Hi Hva) as Hu.
    apply wp_free; [done|done|intros; by apply wp_ret|].
    intros f s' Hf Hre. apply wp_ret. by eapply remapped_ok_unmap.
  - apply wp_create; [intros; by apply wp_ret|]. intros i s' Hi Hm Hc Hu _ Hd. apply wp_ret.
    eapply dropped_ok; [done..| | |].
    + rewrite Hu, length_insert. apply Hok.
    + intros j Hj. rewrite Hd. by apply insert_directory_some, (ok_directories s Hok).
    + eapply cleared_frame_at; [done|]. intros k Hk. unfold new_directory. by rewrite fn_lookup_insert_ne.
  - apply wp_free_directory; [done|]. apply wp_ret. eapply dropped_ok; [done..| | |].
    + cbn. rewrite length_insert. apply Hok.
    + intros j Hj. by apply insert_directory_some, (ok_directories s Hok).
    + by eapply cleared_frame_at.
  - apply wp_modify. apply (dropped_ok s); try done; apply Hok.
Qed.

Lemma run_all_ok l s :
  Forall op_ok l -> paging_ok s -> wp (run_all (run <$> l)) (fun _ s' => paging_ok s') s.
Proof.
  revert s. induction l as [|o l IH]; intros s Hl Hok; [by apply wp_ret|].
  apply Forall_cons in Hl as [Ho Hl]. cbn [fmap list_fmap run_all]. apply wp_bind.
  eapply wp_mono; [by apply run_ok|]. intros [] s' Hs'. by apply IH.
Qed.

Lemma init_directories l i :
  i ∈ l -> foldr (fun j (ds : Zmap PageDirectory) => <[addr j := zero_directory]> ds) ∅ l !! addr i = Some zero_directory.
Proof.
  induction l as [|j l IH]; intros Hi; [by apply elem_of_nil in Hi|]. cbn [foldr].
  destruct (decide (addr j = addr i)) as [->|Hne]; [by rewrite lookup_insert_eq|].
  rewrite lookup_insert_ne by done. apply elem_of_cons in Hi as [->|Hi]; [done|by apply IH].
Qed.

Lemma init_directory i :
  0 <= i < PAGING_DIRECTORY_TABLE_MAX_COUNT -> kernel_page_directory <> addr i ->
  directories (paging_init page_directory_list kernel_page_directory) !! addr i = Some zero_directory.
Proof.
  intros Hi Hk. unfold paging_init. cbn [directories]. rewrite lookup_insert_ne by done.
  apply init_directories, elem_of_seqZ. unfold PAGING_DIRECTORY_TABLE_MAX_COUNT in Hi. lia.
Qed.

Lemma init_ok :
  (forall i, 0 <= i < PAGING_DIRECTORY_TABLE_MAX_COUNT -> kernel_page_directory <> addr i) ->
  paging_ok (paging_init page_directory_list kernel_page_directory).
Proof.
  intros Hk. split; try done.
  - intros i Hi. rewrite init_directory by auto. done.
  - intros i k f (Hi & _) Hf. unfold frame_at in Hf. by rewrite init_directory in Hf by auto.
  - intros i k i' k' f (Hi & _) _ Hf. unfold frame_at in Hf. by rewrite init_directory in Hf by auto.
Qed.

(** C10: from the initial state, after any sequence of allocations, deallocations,
    creations and deletions of page directories and CR3 switches (user addresses
    below the kernel, directories of the list, any contents of uninitialised
    fields), no access left the tables, every mapped user frame is marked used
    and is mapped by one entry only, the kernel's frame is never handed out, and
    [free_page_frame_count] is the number of free frames. *)
Theorem paging_sequence_ok ops :
  (forall i, 0 <= i < PAGING_DIRECTORY_TABLE_MAX_COUNT -> kernel_page_directory <> addr i) ->
  Forall op_ok ops ->
  exists s', run_all (run <$> ops) (paging_init page_directory_list kernel_page_directory) = Ret (tt, s') /\
    paging_ok s'.
Proof.
  intros Hk Hops. pose proof (run_all_ok ops _ Hops (init_ok Hk)) as Hwp.
  apply wp_elim in Hwp as ([] & s' & Hr & Hok). eauto.
Qed.

(** [paging_allocate_user_page_frame] succeeds exactly when the counter is
    positive; it then maps the address to a frame that was free, counts it, and
    leaves every other entry of every directory alone.  On failure nothing
    changes. *)
Theorem allocate_correct junk i va s :
  paging_ok s -> 0 <= i < PAGING_DIRECTORY_TABLE_MAX_COUNT -> 0 <= va < KERNEL_VIRTUAL_ADDRESS_BASE ->
  exists s', paging_allocate_user_page_frame junk (addr i) va s = Ret (0 <? free_page_frame_count s, s') /\
    if 0 <? free_page_frame_count s then
      exists f, 0 < f < PAGE_FRAME_MAX_COUNT /\ page_frame_map s !! Z.to_nat f = Some false /\
        page_frame_map s' = <[Z.to_nat f := true]> (page_frame_map s) /\
        free_page_frame_count s' = free_page_frame_count s - 1 /\
        frame_at s' (addr i) (page_index va) = Some f /\
        (forall q k, ~ (q = addr i /\ k = page_index va) -> frame_at s' q k = frame_at s q k)
    else s' = s.
Proof.
  intros Hok Hi Hva. enough (Hwp : wp (paging_allocate_user_page_frame junk (addr i) va)
    (fun b s' => b = (0 <? free_page_frame_count s) /\ if 0 <? free_page_frame_count s then
      exists f, 0 < f < PAGE_FRAME_MAX_COUNT /\ page_frame_map s !! Z.to_nat f = Some false /\
        page_frame_map s' = <[Z.to_nat f := true]> (page_frame_map s) /\
        free_page_frame_count s' = free_page_frame_count s - 1 /\
        frame_at s' (addr i) (page_index va) = Some f /\
        (forall q k, ~ (q = addr i /\ k = page_index va) -> frame_at s' q k = frame_at s q k)
      else s' = s) s).
  { apply wp_elim in Hwp as (b & s' & Hr & -> & Hs'). eauto. }
  apply wp_allocate; [done|done|intros E; by rewrite E|].
  intros f s' Hpos Hf Hfree Hre. rewrite (proj2 (Z.ltb_lt _ _) Hpos). split; [done|].
  destruct (remapped_count _ _ _ _ _ true Hok Hfree Hre) as [Hc _].
  destruct Hre as (Hm & _ & _ & _ & _ & Hat). exists f. do 4 (split; [done|]). split.
  - by rewrite Hat, decide_True.
  - intros q k Hne. by rewrite Hat, decide_False.
Qed.

(** allocating at an address that is not mapped and freeing it again
    restores the frame map, the counter and every mapping. *)
Theorem allocate_free_roundtrip junk1 junk2 i va s :
  paging_ok s -> 0 <= i < PAGING_DIRECTORY_TABLE_MAX_COUNT -> 0 <= va < KERNEL_VIRTUAL_ADDRESS_BASE ->
  0 < free_page_frame_count s -> frame_at s (addr i) (page_index va) = None ->
  exists s1 s2,
    paging_allocate_user_page_frame junk1 (addr i) va s = Ret (true, s1) /\
    paging_free_user_page_frame junk2 (addr i) va s1 = Ret (true, s2) /\
    page_frame_map s2 = page_frame_map s /\ free_page_frame_count s2 = free_page_frame_count s /\
    (forall q k, frame_at s2 q k = frame_at s q k).
Proof.
  intros Hok Hi Hva Hpos Hnone. pose proof (user_entry_addr i va Hi Hva) as Hu.
  assert (H1 : wp (paging_allocate_user_page_frame junk1 (addr i) va) (fun b s1 => b = true /\
    exists f, 0 < f < PAGE_FRAME_MAX_COUNT /\ page_frame_map s !! Z.to_nat f = Some false /\
      remapped s s1 (addr i) va f true) s).
  { apply wp_allocate; [done|done|lia|]. intros f s1 _ Hf Hfree Hre. eauto 10. }
  apply wp_elim in H1 as (? & s1 & Hr1 & -> & f & Hf & Hfree & Hre1).
  pose proof (remapped_ok_map _ _ _ _ _ Hok Hu Hf Hfree Hre1) as Hok1.
  destruct (remapped_count _ _ _ _ _ true Hok Hfree Hre1) as [Hc1 _].
  destruct Hre1 as (Hm1 & _ & _ & _ & _ & Hat1).
  assert (H2 : wp (paging_free_user_page_frame junk2 (addr i) va) (fun b s2 => b = true /\
    remapped s1 s2 (addr i) va f false) s1).
  { apply wp_free; [done|done|rewrite Hat1, decide_True by done; done|].
    rewrite Hat1, decide_True by done. intros g s2 [= <-] Hre. done. }
  apply wp_elim in H2 as (? & s2 & Hr2 & -> & Hre2). exists s1, s2. split; [done|]. split; [done|].
  assert (Hfu : page_frame_map s1 !! Z.to_nat f = Some true).
  { rewrite Hm1. apply list_lookup_insert_eq. by eapply lookup_lt_Some. }
  destruct (remapped_count _ _ _ _ _ false Hok1 Hfu Hre2) as [Hc2 _].
  destruct Hre2 as (Hm2 & _ & _ & _ & _ & Hat2). split; [|split; [lia|]].
  - rewrite Hm2, Hm1, list_insert_insert_eq. by apply list_insert_id.
  - intros q k. rewrite Hat2, Hat1. case_decide as E; [|done]. by destruct E as [-> ->].
Qed.

(** [paging_create_new_page_directory] takes the first unused slot and
    answers NULL only when all 32 are used; the new directory maps no user
    memory, and the others are unchanged.  Its kernel entry is present, but the
    frame number of the entry is what the uninitialised local held. *)
Theorem create_directory_correct junk s :
  length (page_directory_used s) = 32%nat ->
  exists s',
    paging_create_new_page_directory page_directory_list junk s = Ret (addr <$> first_unused s, s') /\
    page_frame_map s' = page_frame_map s /\ free_page_frame_count s' = free_page_frame_count s /\
    match first_unused s with
    | None => s' = s /\ page_directory_used s = replicate 32 true
    | Some i =>
        page_directory_used s !! Z.to_nat i = Some false /\
        page_directory_used s' = <[Z.to_nat i := true]> (page_directory_used s) /\
        (forall k, frame_at s' (addr i) k = if decide (k = KERNEL_ENTRY) then Some (lower_address junk) else None) /\
        (forall q k, q <> addr i -> frame_at s' q k = frame_at s q k)
    end.
Proof.
  intros Hlen. enough (Hwp : wp (paging_create_new_page_directory page_directory_list junk) (fun a s' =>
    a = addr <$> first_unused s /\
    page_frame_map s' = page_frame_map s /\ free_page_frame_count s' = free_page_frame_count s /\
    match first_unused s with
    | None => s' = s /\ page_directory_used s = replicate 32 true
    | Some i =>
        page_directory_used s !! Z.to_nat i = Some false /\
        page_directory_used s' = <[Z.to_nat i := true]> (page_directory_used s) /\
        (forall k, frame_at s' (addr i) k = if decide (k = KERNEL_ENTRY) then Some (lower_address junk) else None) /\
        (forall q k, q <> addr i -> frame_at s' q k = frame_at s q k)
    end) s).
  { apply wp_elim in Hwp as (a & s' & Hr & -> & Hs'). eauto. }
  apply wp_create.
  - intros Hn. rewrite Hn. do 4 (split; [done|]). unfold first_unused in Hn.
    apply list_eq_same_length with (n := 32%nat); rewrite ?length_replicate; try done.
    intros j x y Hj Hx Hy. apply lookup_replicate in Hy as [-> _].
    apply find_up_None with (j := Z.of_nat j) in Hn; [|unfold PAGING_DIRECTORY_TABLE_MAX_COUNT; lia].
    apply negb_false_iff in Hn. rewrite Nat2Z.id in Hn. by rewrite (nth_lookup_Some _ _ _ _ Hx) in Hn.
  - intros i s' Hi Hm Hc Hu _ Hd. rewrite Hi. do 3 (split; [done|]).
    unfold first_unused in Hi. apply find_up_Some in Hi as (Hr & Hn & _). apply negb_true_iff in Hn.
    destruct (lookup_lt_is_Some_2 (page_directory_used s) (Z.to_nat i)) as [b Hb].
    { unfold PAGING_DIRECTORY_TABLE_MAX_COUNT in *. lia. }
    rewrite (nth_lookup_Some _ _ _ _ Hb) in Hn. subst b. do 2 (split; [done|]). split.
    + intros k. unfold frame_at. rewrite Hd, lookup_insert_eq. cbn. unfold new_directory.
      case_decide as E; [subst; by rewrite fn_lookup_insert|by rewrite fn_lookup_insert_ne].
    + intros q k Hq. unfold frame_at. by rewrite Hd, lookup_insert_ne by done.
Qed.

(** [paging_free_page_directory] leaks: it clears the directory but the
    frames its user entries mapped stay marked used, and no entry maps them any
    more. *)
Theorem free_directory_leaks i k f s :
  paging_ok s -> user_entry i k -> frame_at s (addr i) k = Some f ->
  exists s', paging_free_page_directory page_directory_list (addr i) s = Ret (true, s') /\
    page_frame_map s' !! Z.to_nat f = Some true /\
    free_page_frame_count s' = free_page_frame_count s /\
    (forall i' k', user_entry i' k' -> frame_at s' (addr i') k' <> Some f).
Proof.
  intros Hok Hu Hf. eexists. split.
  - assert (Hwp : wp (paging_free_page_directory page_directory_list (addr i))
      (fun b s' => b = true /\ s' = set_directories (<[addr i := zero_directory]> (directories s))
        (set_used (<[Z.to_nat i := false]> (page_directory_used s)) s)) s).
    { apply wp_free_directory; [apply Hu|done]. }
    apply wp_elim in Hwp as (b & s' & Hr & -> & ->). exact Hr.
  - split; [|split; [done|]].
    + by apply (ok_owned s Hok i k f).
    + intros i' k' Hu' Hf'. unfold frame_at in Hf'. cbn [directories set_directories] in Hf'.
      destruct (decide (addr i' = addr i)) as [E|Hne].
      * rewrite E, lookup_insert_eq in Hf'. done.
      * rewrite lookup_insert_ne in Hf' by done. change (frame_at s (addr i') k' = Some f) in Hf'.
        destruct (ok_unique s Hok _ _ _ _ _ Hu' Hu Hf' Hf) as [-> _]. done.
Qed.

(** the directory loaded into CR3 is the one read back from it, for every
    address in the higher half. *)
Theorem current_directory_roundtrip p s :
  KERNEL_VIRTUAL_ADDRESS_BASE < p < 4294967296 ->
  (paging_use_page_directory p ;; paging_get_current_page_directory_addr) s =
    Ret (p, set_cr3 (p - KERNEL_VIRTUAL_ADDRESS_BASE) s).
Proof.
  intros Hp. unfold paging_use_page_directory, paging_get_current_page_directory_addr.
  rewrite (proj2 (Z.gtb_gt _ _)) by lia. unfold mbind, M_bind, modify, gets.
  cbn [cr3 set_cr3]. rewrite Z.sub_add, u32_small; [done|].
  unfold KERNEL_VIRTUAL_ADDRESS_BASE in *. lia.
Qed.

End Spec.

(** ** The theorems at concrete states *)

Module PagingSample.

Definition list_at : Z := 0xC0200000.
Definition kernel_at : Z := 0xC0300000.
Definition init : paging := paging_init list_at kernel_at.
Definition directory0 : Z := directory_addr list_at 0.

(** One page of the first directory is mapped. *)
Definition mapped : paging :=
  match paging_allocate_user_page_frame zero_flag directory0 0x400000 init with
  | Ret (_, s) => s
  | _ => init
  end.

End PagingSample.

Lemma sample_separate i :
  0 <= i < PAGING_DIRECTORY_TABLE_MAX_COUNT -> PagingSample.kernel_at <> directory_addr PagingSample.list_at i.
Proof.
  unfold PAGING_DIRECTORY_TABLE_MAX_COUNT, directory_addr, PagingSample.kernel_at, PagingSample.list_at,
    sizeof_PageDirectory. lia.
Qed.

Lemma sample_init_ok : paging_ok PagingSample.list_at PagingSample.init.
Proof. apply init_ok, sample_separate. Qed.

Lemma sample_mapped_ok : paging_ok PagingSample.list_at PagingSample.mapped.
Proof.
  assert (Hop : op_ok (OpAllocate zero_flag 0 0x400000)) by (by apply (bool_decide_unpack _)).
  pose proof (run_ok PagingSample.list_at _ _ Hop sample_init_ok) as Hwp.
  apply (wp_eval _ _ _ tt PagingSample.mapped) in Hwp; [exact Hwp|]. vm_compute. reflexivity.
Qed.

Lemma paging_sequence_ok_witness :
  exists s', run_all (run PagingSample.list_at <$>
      [OpCreate zero_entry; OpAllocate zero_flag 0 0x400000; OpUse PagingSample.directory0;
       OpFree zero_flag 0 0x400000; OpFreeDirectory 0]) PagingSample.init = Ret (tt, s') /\
    paging_ok PagingSample.list_at s'.
Proof.
  apply paging_sequence_ok; [exact sample_separate|]. by apply (bool_decide_unpack _).
Defined.

Lemma allocate_correct_witness :
  exists s', paging_allocate_user_page_frame zero_flag PagingSample.directory0 0 PagingSample.init = Ret (true, s') /\
    exists f, 0 < f < 32 /\ frame_at s' PagingSample.directory0 0 = Some f.
Proof.
  destruct (allocate_correct PagingSample.list_at zero_flag 0 0 PagingSample.init) as (s' & Hr & Hs').
  - exact sample_init_ok.
  - unfold PAGING_DIRECTORY_TABLE_MAX_COUNT. lia.
  - unfold KERNEL_VIRTUAL_ADDRESS_BASE. lia.
  - destruct Hs' as (f & Hf & _ & _ & _ & Hat & _). exists s'. split; [exact Hr|]. exists f. done.
Defined.

Lemma allocate_free_roundtrip_witness :
  exists s1 s2, paging_allocate_user_page_frame zero_flag PagingSample.directory0 0 PagingSample.init = Ret (true, s1) /\
    paging_free_user_page_frame zero_flag PagingSample.directory0 0 s1 = Ret (true, s2) /\
    page_frame_map s2 = page_frame_map PagingSample.init.
Proof.
  destruct (allocate_free_roundtrip PagingSample.list_at zero_flag zero_flag 0 0 PagingSample.init)
    as (s1 & s2 & H1 & H2 & Hm & _).
  - exact sample_init_ok.
  - unfold PAGING_DIRECTORY_TABLE_MAX_COUNT. lia.
  - unfold KERNEL_VIRTUAL_ADDRESS_BASE. lia.
  - reflexivity.
  - vm_compute. reflexivity.
  - exists s1, s2. done.
Defined.

Lemma create_directory_correct_witness :
  exists s', paging_create_new_page_directory PagingSample.list_at zero_entry PagingSample.init =
    Ret (Some PagingSample.directory0, s').
Proof.
  destruct (create_directory_correct PagingSample.list_at zero_entry PagingSample.init eq_refl) as (s' & Hr & _).
  exists s'. exact Hr.
Defined.

Lemma free_directory_leaks_witness :
  exists s', paging_free_page_directory PagingSample.list_at PagingSample.directory0 PagingSample.mapped = Ret (true, s') /\
    page_frame_map s' !! 1%nat = Some true.
Proof.
  destruct (free_directory_leaks PagingSample.list_at 0 1 1 PagingSample.mapped) as (s' & Hr & Hf & _).
  - exact sample_mapped_ok.
  - unfold user_entry, PAGING_DIRECTORY_TABLE_MAX_COUNT, PAGE_ENTRY_COUNT, KERNEL_ENTRY. lia.
  - vm_compute. reflexivity.
  - exists s'. done.
Defined.

Lemma current_directory_roundtrip_witness :
  (paging_use_page_directory PagingSample.kernel_at ;; paging_get_current_page_directory_addr) PagingSample.init =
    Ret (PagingSample.kernel_at, set_cr3 0x300000 PagingSample.init).
Proof.
  apply (current_directory_roundtrip PagingSample.kernel_at).
  unfold KERNEL_VIRTUAL_ADDRESS_BASE, PagingSample.kernel_at. lia.
Defined.
