(* ===== verification/Process.v ===== *)
(** Processes: src/src/process.c.

    The state of the kernel joins the page manager, the file system driver, the
    disk, the physical memory and the process table.  Code that accesses user
    memory does so through the page directory in CR3: a virtual address that is
    not mapped is undefined behaviour (the kernel handles no page fault), and so
    is loading a directory that does not map the kernel itself. *)
From Stdlib Require Import ZArith Lia.
From stdpp Require Import base numbers option strings zmap functions list.
From S2P Require Import Prelude CString Disk FatTypes Fat32 Paging.

(** ** Constants *)

Definition PROCESS_NAME_LENGTH_MAX : Z := 32.
Definition PROCESS_PAGE_FRAME_COUNT_MAX : Z := 8.
Definition PROCESS_COUNT_MAX : Z := 16.
Definition CPU_EFLAGS_BASE_FLAG : Z := 0x2.
Definition CPU_EFLAGS_FLAG_INTERRUPT_ENABLE : Z := 0x200.
Definition USER_DATA_SEGMENT_SELECTOR : Z := 0x23.
Definition CPU_STACK : Z := 0x400000 - 4.

Definition PROCESS_CREATE_SUCCESS : Z := 0.
Definition PROCESS_CREATE_FAIL_MAX_PROCESS_EXCEEDED : Z := 1.
Definition PROCESS_CREATE_FAIL_INVALID_ENTRYPOINT : Z := 2.
Definition PROCESS_CREATE_FAIL_NOT_ENOUGH_MEMORY : Z := 3.
Definition PROCESS_CREATE_FAIL_FS_READ_FAILURE : Z := 4.
Definition PROCESS_CREATE_FAIL_NO_AVAILABLE_SLOT : Z := 5.

(** ** Data *)

(** [struct CPURegister]. *)
Record CPURegister := Cpu {
  edi : Z; esi : Z;
  ebp : Z; esp : Z;
  ebx : Z; edx : Z; ecx : Z; eax : Z;
  gs : Z; fs_seg : Z; es : Z; ds : Z;
}.

(** [struct Context]. *)
Record Context := Ctx {
  cpu : CPURegister;
  eip : Z;
  eflags : Z;
  page_directory_virtual_addr : Z;
}.

(** [PROCESS_STATE]. *)
Inductive PROCESS_STATE :=
| NO_PROCESS
| PROCESS_STATE_READY
| PROCESS_STATE_RUNNING
| PROCESS_STATE_BLOCKED.

#[export] Instance process_state_eq_dec : EqDecision PROCESS_STATE.
Proof. solve_decision. Defined.

(** [struct ProcessControlBlock]. *)
Record ProcessControlBlock := Pcb {
  pid : Z;
  pname : list byte;
  pstate : PROCESS_STATE;
  context : Context;
  virtual_addr_used : list Z;
  page_frame_used_count : Z;
}.

Definition zero_cpu : CPURegister := Cpu 0 0 0 0 0 0 0 0 0 0 0 0.
Definition zero_context : Context := Ctx zero_cpu 0 0 0.

(** A block of zeros, what [memset] leaves and static storage starts with. *)
Definition zero_pcb : ProcessControlBlock :=
  Pcb 0 (zeros (Z.to_nat PROCESS_NAME_LENGTH_MAX)) NO_PROCESS zero_context
    (replicate (Z.to_nat PROCESS_PAGE_FRAME_COUNT_MAX) 0) 0.

(** [process_manager_state] and [_process_list]. *)
Record processes := Processes {
  process_list : list ProcessControlBlock;
  process_slot_occupied : list bool;
  active_process_count : Z;
  current_running_pid : Z;
}.

Definition processes_init : processes :=
  Processes (replicate 16 zero_pcb) (replicate 16 false) 0 0.

Record kernel (D : Type) := Kernel {
  pages : paging;
  driver : mem;
  device : D;
  phys : mem;
  procs : processes;
}.
Arguments Kernel {D} pages driver device phys procs.
Arguments pages {D} k.
Arguments driver {D} k.
Arguments device {D} k.
Arguments phys {D} k.
Arguments procs {D} k.

Definition set_pages {D} (p : paging) (k : kernel D) : kernel D :=
  Kernel p (driver k) (device k) (phys k) (procs k).
Definition set_procs {D} (p : processes) (k : kernel D) : kernel D :=
  Kernel (pages k) (driver k) (device k) (phys k) p.

Definition set_process_list (l : list ProcessControlBlock) (p : processes) : processes :=
  Processes l (process_slot_occupied p) (active_process_count p) (current_running_pid p).
Definition set_slots (l : list bool) (n : Z) (p : processes) : processes :=
  Processes (process_list p) l n (current_running_pid p).
Definition set_current (c : Z) (p : processes) : processes :=
  Processes (process_list p) (process_slot_occupied p) (active_process_count p) c.

(** ** Access to user memory *)

(** The machine's translation through the directory in CR3, 4 MiB pages. *)
Definition translate (s : paging) (va : Z) : option Z :=
  d ← directories s !! u32 (cr3 s + KERNEL_VIRTUAL_ADDRESS_BASE);
  if present_bit (flag (d (page_index va)))
  then Some (lower_address (d (page_index va)) * PAGE_FRAME_SIZE + va mod PAGE_FRAME_SIZE)
  else None.

(** Store the bytes [l], each at its virtual address. *)
Fixpoint store_pages (tr : Z -> option Z) (m : mem) (l : list (Z * byte)) : option mem :=
  match l with
  | [] => Some m
  | (va, b) :: l' =>
      match tr va with
      | Some pa => store_pages tr (<[pa := b]> m) l'
      | None => None
      end
  end.

Section Process.
Context {D : Type} `{!Disk D} (page_directory_list : Z).

Definition lift_pages {A} (c : M paging A) : M (kernel D) A := fun k =>
  '(a, p) ← c (pages k);
  Ret (a, set_pages p k).

(** Load CR3 and go on: the next instruction is fetched through it. *)
Definition use_page_directory (page_dir : Z) : M (kernel D) unit := fun k =>
  '(_, p) ← paging_use_page_directory page_dir (pages k);
  if decide ((d ← directories p !! u32 (cr3 p + KERNEL_VIRTUAL_ADDRESS_BASE);
              if present_bit (flag (d KERNEL_ENTRY)) then Some (lower_address (d KERNEL_ENTRY)) else None) = Some 0)
  then Ret (tt, set_pages p k)
  else Undef.

(** [read(request)] in the current address space: what it writes to the buffer
    is stored through the page directory. *)
Definition read_user (r : request) : M (kernel D) Z := fun k =>
  '(code, s) ← read r (Fs (driver k) (device k) ∅);
  match store_pages (translate (pages k)) (phys k) (map_to_list (user s)) with
  | Some m => Ret (code, Kernel (pages k) (memory s) (disk s) m (procs k))
  | None => Undef
  end.

(** ** Operations *)

Definition ceil_div (numerator denominator : Z) : Z := u32 (u32 (numerator + denominator) - 1) / denominator.

(** [None] is -1. *)
Definition process_list_get_inactive_index (p : processes) : option Z :=
  find_up (fun i => pid (nth (Z.to_nat i) (process_list p) zero_pcb) =? 0) 0 (Z.to_nat PROCESS_COUNT_MAX).

(** The index of the block that the function points to, [None] for NULL. *)
Definition process_get_current_running_pcb_pointer (p : processes) : option Z :=
  find_up (fun i => nth (Z.to_nat i) (process_slot_occupied p) false &&
    (pid (nth (Z.to_nat i) (process_list p) zero_pcb) =? current_running_pid p)) 0 (Z.to_nat PROCESS_COUNT_MAX).

(** The packed bytes of a request: [strncpy] on its name runs on into the
    fields behind it when the eight characters hold no terminator. *)
Definition request_bytes (r : request) : list byte :=
  le_bytes 4 (buf r) ++ req_name r ++ req_ext r ++ le_bytes 4 (parent_cluster_number r) ++
  le_bytes 4 (buffer_size r).

(** The name of a new process: at most 31 characters and a terminator. *)
Definition process_name (old : list byte) (r : request) : list byte :=
  let m := strncpy (obj old) 0 (obj (request_bytes r)) 4 (Z.to_nat (PROCESS_NAME_LENGTH_MAX - 1)) in
  load (store m (PROCESS_NAME_LENGTH_MAX - 1) [z2b 0]) 0 (Z.to_nat PROCESS_NAME_LENGTH_MAX).

Definition process_initialize_context (entry_point : Z) : Context :=
  Ctx (Cpu 0 0 CPU_STACK CPU_STACK 0 0 0 0
         USER_DATA_SEGMENT_SELECTOR USER_DATA_SEGMENT_SELECTOR USER_DATA_SEGMENT_SELECTOR USER_DATA_SEGMENT_SELECTOR)
      entry_point (Z.lor CPU_EFLAGS_BASE_FLAG CPU_EFLAGS_FLAG_INTERRUPT_ENABLE) 0.

Definition with_metadata (id : Z) (nm : list byte) (st : PROCESS_STATE) (b : ProcessControlBlock) :=
  Pcb id nm st (context b) (virtual_addr_used b) (page_frame_used_count b).
Definition with_state (st : PROCESS_STATE) (b : ProcessControlBlock) :=
  Pcb (pid b) (pname b) st (context b) (virtual_addr_used b) (page_frame_used_count b).
Definition with_context (c : Context) (b : ProcessControlBlock) :=
  Pcb (pid b) (pname b) (pstate b) c (virtual_addr_used b) (page_frame_used_count b).
Definition with_page_directory (p : Z) (c : Context) : Context := Ctx (cpu c) (eip c) (eflags c) p.

(** Change block [i] of the table. *)
Definition pcb_update (i : Z) (f : ProcessControlBlock -> ProcessControlBlock) : M (kernel D) unit :=
  modify (fun k => set_procs (set_process_list (alter f (Z.to_nat i) (process_list (procs k))) (procs k)) k).

(** The part of [process_create_user_process] after the checks, with the block
    [p_index]. *)
Definition process_setup (djunk : PageDirectoryEntry) (fjunk : PageDirectoryEntryFlag) (r : request)
    (p_index : Z) : M (kernel D) Z :=
  id ← gets (fun k => current_running_pid (procs k));
  pcb_update p_index (fun b => with_metadata id (process_name (pname b) r) PROCESS_STATE_READY b) ;;
  page_dir ← lift_pages (paging_create_new_page_directory page_directory_list djunk);
  match page_dir with
  | None => mret PROCESS_CREATE_FAIL_NOT_ENOUGH_MEMORY
  | Some page_dir =>
      old_page_dir ← lift_pages paging_get_current_page_directory_addr;
      use_page_directory page_dir ;;
      lift_pages (paging_allocate_user_page_frame fjunk page_dir (buf r)) ;;
      retcode ← read_user r;
      if negb (retcode =? PROCESS_CREATE_SUCCESS) then mret retcode
      else
        use_page_directory old_page_dir ;;
        modify (fun k => set_procs (set_current (u32 (current_running_pid (procs k) + 1)) (procs k)) k) ;;
        pcb_update p_index (with_context (process_initialize_context (buf r))) ;;
        pcb_update p_index (fun b => with_context (with_page_directory page_dir (context b)) b) ;;
        modify (fun k => set_procs (set_slots
          (<[Z.to_nat p_index := true]> (process_slot_occupied (procs k)))
          (active_process_count (procs k) + 1) (procs k)) k) ;;
        mret retcode
  end.

Definition process_create_user_process (djunk : PageDirectoryEntry) (fjunk : PageDirectoryEntryFlag)
    (r : request) : M (kernel D) Z :=
  p ← gets procs;
  if active_process_count p >=? PROCESS_COUNT_MAX then mret PROCESS_CREATE_FAIL_MAX_PROCESS_EXCEEDED
  else if buf r >=? KERNEL_VIRTUAL_ADDRESS_BASE then mret PROCESS_CREATE_FAIL_INVALID_ENTRYPOINT
  else
    let page_frame_count_needed := ceil_div (u32 (buffer_size r + PAGE_FRAME_SIZE)) PAGE_FRAME_SIZE in
    enough ← lift_pages (paging_allocate_check page_frame_count_needed);
    if negb enough || (page_frame_count_needed >? PROCESS_PAGE_FRAME_COUNT_MAX)
    then mret PROCESS_CREATE_FAIL_NOT_ENOUGH_MEMORY
    else
      match process_list_get_inactive_index p with
      | None => mret PROCESS_CREATE_FAIL_NO_AVAILABLE_SLOT
      | Some p_index => process_setup djunk fjunk r p_index
      end.

(** [process_destroy]: the first block with the pid, whether its slot is in use
    or not. *)
Definition process_destroy (id : Z) : M (kernel D) bool :=
  found ← gets (fun k => find_up (fun i => pid (nth (Z.to_nat i) (process_list (procs k)) zero_pcb) =? id) 0
                           (Z.to_nat PROCESS_COUNT_MAX));
  match found with
  | None => mret false
  | Some i =>
      pcb_update i (fun _ => zero_pcb) ;;
      modify (fun k => set_procs (set_slots (<[Z.to_nat i := false]> (process_slot_occupied (procs k)))
        (active_process_count (procs k) - 1) (procs k)) k) ;;
      mret true
  end.

Definition process_allocate_virtual_memory (fjunk : PageDirectoryEntryFlag) (i virtual_addr : Z) : M (kernel D) bool :=
  page_dir ← lift_pages paging_get_current_page_directory_addr;
  allocation_success ← lift_pages (paging_allocate_user_page_frame fjunk page_dir virtual_addr);
  (if allocation_success : bool
   then pcb_update i (fun b => with_context (with_page_directory page_dir (context b)) b)
   else mret tt) ;;
  mret allocation_success.

Definition process_load_executable (i : Z) (r : request) : M (kernel D) Z :=
  old_page_dir ← lift_pages paging_get_current_page_directory_addr;
  b ← gets (fun k => nth (Z.to_nat i) (process_list (procs k)) zero_pcb);
  use_page_directory (page_directory_virtual_addr (context b)) ;;
  read_result ← read_user r;
  use_page_directory old_page_dir ;;
  if read_result <? 0 then
    id ← gets (fun k => pid (nth (Z.to_nat i) (process_list (procs k)) zero_pcb));
    process_destroy id ;;
    mret PROCESS_CREATE_FAIL_FS_READ_FAILURE
  else mret PROCESS_CREATE_SUCCESS.

End Process.
