(* ===== verification/ProcessSpec.v ===== *)
(** Theorems about src/src/process.c: what creating and destroying a process
    does to the process table, to the page manager and to memory. *)
From Stdlib Require Import ZArith Lia.
From stdpp Require Import base numbers option strings zmap functions list.
From S2P Require Import Prelude CString Disk FatTypes Fat32 Paging PagingSpec Process.

(** ** Memory through a directory *)

(** The byte at virtual address [va] as a process with the directory [q] sees
    it. *)
Definition virtual_byte {D} (k : kernel D) (q va : Z) : option byte :=
  f ← frame_at (pages k) q (page_index va);
  Some (mget (phys k) (f * PAGE_FRAME_SIZE + va mod PAGE_FRAME_SIZE)).

Lemma translate_frame_at s va :
  translate s va = (f ← frame_at s (u32 (cr3 s + KERNEL_VIRTUAL_ADDRESS_BASE)) (page_index va);
                    Some (f * PAGE_FRAME_SIZE + va mod PAGE_FRAME_SIZE)).
Proof.
  unfold translate, frame_at. destruct (directories s !! _) as [d|]; [|done]. cbn.
  by destruct (present_bit _).
Qed.

Lemma page_index_div va : 0 <= va < 4294967296 -> page_index va = va / PAGE_FRAME_SIZE.
Proof.
  intros Hva. unfold page_index. change 0x3FF with (Z.ones 10).
  rewrite Z.land_ones, Z.shiftr_div_pow2 by lia. change (2 ^ 22) with PAGE_FRAME_SIZE.
  apply Z.mod_small. unfold PAGE_FRAME_SIZE. split; [apply Z.div_pos; lia|].
  apply Z.div_lt_upper_bound; [lia|]. change (2 ^ 10) with 1024. lia.
Qed.

(** Two addresses on one page are told apart by their offsets. *)
Lemma same_page_inj v1 v2 :
  0 <= v1 < 4294967296 -> 0 <= v2 < 4294967296 -> page_index v1 = page_index v2 ->
  v1 mod PAGE_FRAME_SIZE = v2 mod PAGE_FRAME_SIZE -> v1 = v2.
Proof.
  intros H1 H2. rewrite !page_index_div by done. intros Hd Hm.
  rewrite (Z.div_mod v1 PAGE_FRAME_SIZE), (Z.div_mod v2 PAGE_FRAME_SIZE) by done. congruence.
Qed.

(** Bytes in different frames have different addresses. *)
Lemma frame_addr_inj f1 o1 f2 o2 :
  f1 * PAGE_FRAME_SIZE + o1 mod PAGE_FRAME_SIZE = f2 * PAGE_FRAME_SIZE + o2 mod PAGE_FRAME_SIZE ->
  f1 = f2 /\ o1 mod PAGE_FRAME_SIZE = o2 mod PAGE_FRAME_SIZE.
Proof.
  pose proof (Z.mod_pos_bound o1 PAGE_FRAME_SIZE eq_refl).
  pose proof (Z.mod_pos_bound o2 PAGE_FRAME_SIZE eq_refl).
  unfold PAGE_FRAME_SIZE in *. lia.
Qed.

Lemma store_pages_spec tr l : forall m,
  (forall va b, (va, b) ∈ l -> is_Some (tr va)) ->
  (forall v1 b1 v2 b2, (v1, b1) ∈ l -> (v2, b2) ∈ l -> tr v1 = tr v2 -> v1 = v2) ->
  NoDup l.*1 ->
  exists m', store_pages tr m l = Some m' /\
    (forall va b pa, (va, b) ∈ l -> tr va = Some pa -> mget m' pa = b) /\
    (forall pa, (forall va b, (va, b) ∈ l -> tr va <> Some pa) -> mget m' pa = mget m pa).
Proof.
  induction l as [|[va b] l IH]; intros m Htr Hinj Hnd.
  - exists m. split; [done|]. split; [|done]. intros va b pa Hin. by apply elem_of_nil in Hin.
  - destruct (Htr va b) as [pa Hpa]; [apply elem_of_cons; by left|].
    rewrite fmap_cons in Hnd. apply NoDup_cons in Hnd as [Hva Hnd]. cbn [store_pages]. rewrite Hpa.
    destruct (IH (<[pa := b]> m)) as (m' & Hs & Hin & Hout).
    { intros v x Hx. apply (Htr v x), elem_of_cons. by right. }
    { intros v1 b1 v2 b2 H1 H2. apply (Hinj v1 b1 v2 b2); apply elem_of_cons; by right. }
    { done. }
    exists m'. split; [done|]. split.
    + intros v x p [[= -> ->]|Hx]%elem_of_cons Hp; [|by apply (Hin v x)].
      rewrite Hpa in Hp. injection Hp as <-. rewrite Hout.
      * rewrite mget_insert. by rewrite decide_True.
      * intros v' x' Hx' Hv'. apply Hva.
        assert (va = v') as ->.
        { eapply (Hinj va b v' x'); [apply elem_of_cons; by left|apply elem_of_cons; by right|congruence]. }
        by apply (list_elem_of_fmap_2 fst l (v', x')).
    + intros p Hp. rewrite Hout.
      * rewrite mget_insert. rewrite decide_False; [done|]. intros <-.
        apply (Hp va b); [apply elem_of_cons; by left|done].
      * intros v x Hx. apply (Hp v x), elem_of_cons. by right.
Qed.

(** ** Rules *)

Section Rules.
Context {D : Type} `{!Disk D}.

Lemma wp_lift_pages {A} (c : M paging A) (Q : A -> kernel D -> Prop) k :
  wp c (fun a p => Q a (set_pages p k)) (pages k) -> wp (lift_pages c) Q k.
Proof. unfold wp, lift_pages. by destruct (c (pages k)) as [[a p]| |]. Qed.

(** Switching to a directory that maps the kernel. *)
Lemma wp_use_page_directory p (Q : unit -> kernel D -> Prop) k :
  KERNEL_VIRTUAL_ADDRESS_BASE < p < 4294967296 -> frame_at (pages k) p KERNEL_ENTRY = Some 0 ->
  Q tt (set_pages (set_cr3 (p - KERNEL_VIRTUAL_ADDRESS_BASE) (pages k)) k) ->
  wp (use_page_directory p) Q k.
Proof.
  intros Hp Hk HQ. unfold wp, use_page_directory, paging_use_page_directory, modify.
  rewrite (proj2 (Z.gtb_gt _ _)) by lia. cbn [mbind res_mbind res_bind cr3 set_cr3 directories].
  rewrite Z.sub_add, u32_small by (unfold KERNEL_VIRTUAL_ADDRESS_BASE in *; lia).
  unfold frame_at in Hk. cbn. rewrite decide_True; [exact HQ|].
  destruct (directories (pages k) !! p) as [d|]; [|done]. cbn in *. done.
Qed.

(** A read whose buffer lies on one mapped page. *)
Lemma wp_read_user r code s f va0 (Q : Z -> kernel D -> Prop) k :
  read r (Fs (driver k) (device k) ∅) = Ret (code, s) ->
  (forall va, is_Some (user s !! va) -> 0 <= va < 4294967296 /\ page_index va = page_index va0) ->
  frame_at (pages k) (u32 (cr3 (pages k) + KERNEL_VIRTUAL_ADDRESS_BASE)) (page_index va0) = Some f ->
  (forall m, (forall va b, user s !! va = Some b -> mget m (f * PAGE_FRAME_SIZE + va mod PAGE_FRAME_SIZE) = b) ->
     (forall g o, g <> f -> mget m (g * PAGE_FRAME_SIZE + o mod PAGE_FRAME_SIZE) =
        mget (phys k) (g * PAGE_FRAME_SIZE + o mod PAGE_FRAME_SIZE)) ->
     Q code (Kernel (pages k) (memory s) (disk s) m (procs k))) ->
  wp (read_user r) Q k.
Proof.
  intros Hr Hpage Hf HQ. unfold wp, read_user. rewrite Hr. cbn.
  assert (Htr : forall va, is_Some (user s !! va) ->
    translate (pages k) va = Some (f * PAGE_FRAME_SIZE + va mod PAGE_FRAME_SIZE)).
  { intros va Hva. rewrite translate_frame_at. by rewrite (proj2 (Hpage va Hva)), Hf. }
  destruct (store_pages_spec (translate (pages k)) (map_to_list (user s)) (phys k)) as (m & Hm & Hin & Hout).
  - intros va b Hb%elem_of_map_to_list. by rewrite Htr.
  - intros v1 b1 v2 b2 H1%elem_of_map_to_list H2%elem_of_map_to_list.
    rewrite !Htr by done. intros [= Hpa%frame_addr_inj].
    destruct (Hpage v1) as [Hv1 Hp1]; [done|]. destruct (Hpage v2) as [Hv2 Hp2]; [done|].
    apply same_page_inj; [done|done|congruence|tauto].
  - apply NoDup_fst_map_to_list.
  - rewrite Hm. apply HQ.
    + intros va b Hb. apply (Hin va b); [by apply elem_of_map_to_list|]. by apply Htr.
    + intros g o Hg. apply Hout. intros va b Hb%elem_of_map_to_list. rewrite Htr by done.
      intros [= Hpa%frame_addr_inj]. by destruct Hpa as [-> _].
Qed.

End Rules.

(** ** Creating a process *)

Definition procs_ok (p : processes) : Prop :=
  length (process_list p) = 16%nat /\ length (process_slot_occupied p) = 16%nat.

(** The number of frames that the creation of a process asks for. *)
Definition frames_needed (r : request) : Z := ceil_div (u32 (buffer_size r + PAGE_FRAME_SIZE)) PAGE_FRAME_SIZE.

(** The block at [p] with its metadata set, and the finished block. *)
Definition named_pcb (id : Z) (r : request) (old : ProcessControlBlock) : ProcessControlBlock :=
  with_metadata id (process_name (pname old) r) PROCESS_STATE_READY old.

Definition started_pcb (id : Z) (r : request) (page_dir : Z) (old : ProcessControlBlock) : ProcessControlBlock :=
  with_context (with_page_directory page_dir (process_initialize_context (buf r))) (named_pcb id r old).

Definition named (p : Z) (r : request) (ps : processes) : processes :=
  set_process_list (alter (named_pcb (current_running_pid ps) r) (Z.to_nat p) (process_list ps)) ps.

Definition started (p : Z) (r : request) (page_dir : Z) (ps : processes) : processes :=
  Processes (alter (started_pcb (current_running_pid ps) r page_dir) (Z.to_nat p) (process_list ps))
    (<[Z.to_nat p := true]> (process_slot_occupied ps))
    (active_process_count ps + 1) (u32 (current_running_pid ps + 1)).

Section Create.
Context {D : Type} `{!Disk D} (page_directory_list : Z).
Hypothesis list_high : KERNEL_VIRTUAL_ADDRESS_BASE < page_directory_list.
Hypothesis list_low : page_directory_list + 32 * sizeof_PageDirectory <= 4294967296.
Let addr : Z -> Z := directory_addr page_directory_list.
Implicit Types (k : kernel D).

(** The directory in CR3. *)
Definition current_directory k : Z := u32 (cr3 (pages k) + KERNEL_VIRTUAL_ADDRESS_BASE).

(** A kernel that can start a process of the request [r] in block [p] with
    directory [i]; [junk] is the uninitialised directory entry, whose frame
    number has to be the kernel's by luck. *)
Record can_start k (r : request) (junk : PageDirectoryEntry) (p i : Z) : Prop := {
  start_paging : paging_ok page_directory_list (pages k);
  start_cr3 : 0 < cr3 (pages k) < 0x40000000;
  start_kernel : frame_at (pages k) (current_directory k) KERNEL_ENTRY = Some 0;
  start_count : active_process_count (procs k) < PROCESS_COUNT_MAX;
  start_entry : 0 <= buf r < KERNEL_VIRTUAL_ADDRESS_BASE;
  start_memory : 1 <= frames_needed r <= free_page_frame_count (pages k);
  start_limit : frames_needed r <= PROCESS_PAGE_FRAME_COUNT_MAX;
  start_block : process_list_get_inactive_index (procs k) = Some p;
  start_directory : first_unused (pages k) = Some i;
  start_distinct : addr i <> current_directory k;
  start_junk : lower_address junk = 0;
}.

(** The page manager with the new directory in use: the page of [va] is mapped
    to the frame [f] that was free. *)
Record space_created (s s' : paging) (i va f : Z) : Prop := {
  space_ok : paging_ok page_directory_list s';
  space_range : 0 < f < PAGE_FRAME_MAX_COUNT;
  space_free : page_frame_map s !! Z.to_nat f = Some false;
  space_count : free_page_frame_count s' = free_page_frame_count s - 1;
  space_kernel : frame_at s' (addr i) KERNEL_ENTRY = Some 0;
  space_new j : j <> KERNEL_ENTRY -> frame_at s' (addr i) j = if decide (j = page_index va) then Some f else None;
  space_other q j : q <> addr i -> frame_at s' q j = frame_at s q j;
}.

(** The memory after the program has been read into the frame [f]. *)
Record loaded (m m' : mem) (s : fs D) (f : Z) : Prop := {
  loaded_bytes va b : user s !! va = Some b -> mget m' (f * PAGE_FRAME_SIZE + va mod PAGE_FRAME_SIZE) = b;
  loaded_frame g o : g <> f -> mget m' (g * PAGE_FRAME_SIZE + o mod PAGE_FRAME_SIZE) =
    mget m (g * PAGE_FRAME_SIZE + o mod PAGE_FRAME_SIZE);
}.

(** The program fits on the page of its entry point. *)
Definition on_page (r : request) (s : fs D) : Prop :=
  forall va, is_Some (user s !! va) -> 0 <= va < 4294967296 /\ page_index va = page_index (buf r).

Lemma first_unused_range s i : first_unused s = Some i -> 0 <= i < PAGING_DIRECTORY_TABLE_MAX_COUNT.
Proof.
  unfold first_unused. rewrite find_up_Some. unfold PAGING_DIRECTORY_TABLE_MAX_COUNT. lia.
Qed.

Lemma directory_high i :
  0 <= i < PAGING_DIRECTORY_TABLE_MAX_COUNT -> KERNEL_VIRTUAL_ADDRESS_BASE < addr i < 4294967296.
Proof.
  unfold addr, directory_addr, PAGING_DIRECTORY_TABLE_MAX_COUNT, sizeof_PageDirectory in *. lia.
Qed.

(** Creating a directory and mapping a page in it. *)
Lemma space_created_intro s s1 s2 junk i va f c :
  paging_ok page_directory_list s -> first_unused s = Some i -> 0 <= va < KERNEL_VIRTUAL_ADDRESS_BASE ->
  lower_address junk = 0 -> page_frame_map s1 = page_frame_map s -> free_page_frame_count s1 = free_page_frame_count s ->
  page_directory_used s1 = <[Z.to_nat i := true]> (page_directory_used s) ->
  directories s1 = <[addr i := new_directory junk]> (directories s) ->
  0 < f < PAGE_FRAME_MAX_COUNT -> page_frame_map s1 !! Z.to_nat f = Some false ->
  remapped (set_cr3 c s1) s2 (addr i) va f true ->
  space_created s s2 i va f.
Proof.
  intros Hok Hi Hva Hj0 Hm Hc Hu Hd Hf Hfree Hre. pose proof (first_unused_range _ _ Hi) as Hir.
  assert (Hok1 : paging_ok page_directory_list (set_cr3 c s1)).
  { eapply dropped_ok; [exact Hok|done|done| | |].
    - cbn. rewrite Hu, length_insert. apply Hok.
    - intros j Hj. cbn. rewrite Hd. by apply insert_directory_some, (ok_directories _ _ Hok).
    - eapply cleared_frame_at; [exact Hd|]. intros j Hj. unfold new_directory. by rewrite fn_lookup_insert_ne. }
  destruct (remapped_count page_directory_list _ _ _ _ _ true Hok1 Hfree Hre) as [Hcount _].
  assert (Hok2 : paging_ok page_directory_list s2).
  { eapply remapped_ok_map; [exact Hok1|by apply user_entry_addr|done|exact Hfree|exact Hre]. }
  destruct Hre as (_ & _ & _ & _ & _ & Hat). split; try done.
  - by rewrite <- Hm.
  - cbn in Hcount. lia.
  - rewrite Hat, decide_False by (pose proof (page_index_user _ Hva); lia).
    unfold frame_at. cbn. rewrite Hd, lookup_insert_eq. cbn. unfold new_directory. rewrite fn_lookup_insert. cbn. by rewrite Hj0.
  - intros j Hj. rewrite Hat. case_decide as E; case_decide as E'; try tauto.
    unfold frame_at. cbn. rewrite Hd, lookup_insert_eq. cbn. unfold new_directory.
    by rewrite fn_lookup_insert_ne.
  - intros q j Hq. rewrite Hat, decide_False by tauto. unfold frame_at. cbn. by rewrite Hd, lookup_insert_ne.
Qed.

Lemma alter_alter {A} (f g : A -> A) n (l : list A) : alter f n (alter g n l) = alter (f ∘ g) n l.
Proof. revert n. induction l as [|x l IH]; intros [|n]; cbn; [done..|]. f_equal. apply IH. Qed.

(** The address space of the new process: the steps up to the read. *)
Lemma wp_create_space k k1 r junk fjunk p i (K : Z -> Z -> M (kernel D) Z) (Q : Z -> kernel D -> Prop) :
  can_start k r junk p i -> pages k1 = pages k ->
  (forall f pg, space_created (pages k) pg i (buf r) f -> cr3 pg = addr i - KERNEL_VIRTUAL_ADDRESS_BASE ->
     wp (K (addr i) (current_directory k)) Q (set_pages pg k1)) ->
  wp (page_dir ← lift_pages (paging_create_new_page_directory page_directory_list junk);
      match page_dir with
      | None => mret PROCESS_CREATE_FAIL_NOT_ENOUGH_MEMORY
      | Some page_dir =>
          old_page_dir ← lift_pages paging_get_current_page_directory_addr;
          use_page_directory page_dir ;;
          lift_pages (paging_allocate_user_page_frame fjunk page_dir (buf r)) ;;
          K page_dir old_page_dir
      end) Q k1.
Proof.
  intros Hs Hk1 HQ. pose proof (first_unused_range _ _ (start_directory _ _ _ _ _ Hs)) as Hi.
  pose proof (start_paging _ _ _ _ _ Hs) as Hok. apply wp_bind, wp_lift_pages. rewrite Hk1.
  apply wp_create. { intros E. by rewrite (start_directory _ _ _ _ _ Hs) in E. }
  intros i' s1 Hi' Hm1 Hc1 Hu1 Hcr1 Hd1. rewrite (start_directory _ _ _ _ _ Hs) in Hi'. injection Hi' as <-.
  apply wp_bind, wp_lift_pages, wp_gets. cbn [pages set_pages]. rewrite Hcr1. fold (current_directory k).
  apply wp_bind, wp_use_page_directory; [by apply directory_high| |].
  { unfold frame_at. cbn. rewrite Hd1, lookup_insert_eq. cbn. unfold new_directory.
    rewrite fn_lookup_insert. cbn. by rewrite (start_junk _ _ _ _ _ Hs). }
  cbn [pages set_pages]. apply wp_bind, wp_lift_pages. cbn [pages set_pages].
  assert (Hok1 : paging_ok page_directory_list (set_cr3 (addr i - KERNEL_VIRTUAL_ADDRESS_BASE) s1)).
  { eapply dropped_ok; [exact Hok|done|done| | |].
    - cbn. rewrite Hu1, length_insert. apply Hok.
    - intros j Hj. cbn. rewrite Hd1. by apply insert_directory_some, (ok_directories _ _ Hok).
    - eapply cleared_frame_at; [exact Hd1|]. intros j Hj. unfold new_directory. by rewrite fn_lookup_insert_ne. }
  apply wp_allocate; [exact Hok1|exact Hi| |].
  { cbn [free_page_frame_count set_cr3]. pose proof (start_memory _ _ _ _ _ Hs). lia. }
  intros f s2 _ Hf Hfree Hre. apply (HQ f); [|apply Hre].
  eapply space_created_intro; [exact Hok|apply (start_directory _ _ _ _ _ Hs)|apply (start_entry _ _ _ _ _ Hs)|
    apply (start_junk _ _ _ _ _ Hs)|exact Hm1|exact Hc1|exact Hu1|exact Hd1|exact Hf|exact Hfree|exact Hre].
Qed.

(** The part of the creation after the checks. *)
Lemma wp_process_setup k r junk fjunk p i code s (Q : Z -> kernel D -> Prop) :
  can_start k r junk p i -> read r (Fs (driver k) (device k) ∅) = Ret (code, s) -> on_page r s ->
  (forall f pg m, space_created (pages k) pg i (buf r) f -> loaded (phys k) m s f ->
     if code =? 0
     then cr3 pg = cr3 (pages k) -> Q 0 (Kernel pg (memory s) (disk s) m (started p r (addr i) (procs k)))
     else cr3 pg = addr i - KERNEL_VIRTUAL_ADDRESS_BASE -> Q code (Kernel pg (memory s) (disk s) m (named p r (procs k)))) ->
  wp (process_setup page_directory_list junk fjunk r p) Q k.
Proof.
  intros Hs Hread Hpage HQ. pose proof (start_cr3 _ _ _ _ _ Hs) as Hcr3.
  pose proof (directory_high i (first_unused_range _ _ (start_directory _ _ _ _ _ Hs))) as Hhigh.
  assert (Hcur : current_directory k = cr3 (pages k) + KERNEL_VIRTUAL_ADDRESS_BASE).
  { apply u32_small. unfold KERNEL_VIRTUAL_ADDRESS_BASE. lia. }
  unfold process_setup. apply wp_bind, wp_gets, wp_bind, wp_modify.
  eapply wp_create_space; [exact Hs|done|]. intros f s2 Hsp Hcr2.
  assert (Hidx : page_index (buf r) <> KERNEL_ENTRY).
  { pose proof (page_index_user _ (start_entry _ _ _ _ _ Hs)). lia. }
  apply wp_bind. eapply (wp_read_user r code s f (buf r)); [exact Hread|exact Hpage| |].
  { cbn [pages set_pages]. rewrite Hcr2, Z.sub_add, u32_small by (unfold KERNEL_VIRTUAL_ADDRESS_BASE in *; lia).
    rewrite (space_new _ _ _ _ _ Hsp) by done. by rewrite decide_True. }
  cbn [pages set_pages procs set_procs phys driver device].
  intros m Hin Hout. specialize (HQ f). unfold PROCESS_CREATE_SUCCESS.
  assert (Hl : loaded (phys k) m s f) by (split; [exact Hin|exact Hout]).
  destruct (Z.eqb_spec code 0) as [->|Hcode]; cbn [negb].
  - apply wp_bind, wp_use_page_directory.
    { rewrite Hcur. unfold KERNEL_VIRTUAL_ADDRESS_BASE in *. lia. }
    { cbn [pages]. rewrite (space_other _ _ _ _ _ Hsp) by (apply not_eq_sym, Hs). apply Hs. }
    cbn [pages]. rewrite Hcur, Z.add_simpl_r.
    do 4 (apply wp_bind, wp_modify). apply wp_ret.
    cbn [pages procs set_pages set_procs driver device phys process_list set_process_list set_current set_slots
      current_running_pid process_slot_occupied active_process_count].
    rewrite !alter_alter.
    apply (HQ (set_cr3 (cr3 (pages k)) s2) m); [|exact Hl|done].
    destruct Hsp. split; try done. by eapply dropped_ok; [eassumption|done..| | |]; try apply space_ok0.
  - apply wp_ret. apply (HQ s2 m); [exact Hsp|exact Hl|exact Hcr2].
Qed.

(** The code of the checks that come before anything is changed, [None] when
    they all pass. *)
Definition create_rejects k (r : request) : option Z :=
  if active_process_count (procs k) >=? PROCESS_COUNT_MAX then Some PROCESS_CREATE_FAIL_MAX_PROCESS_EXCEEDED
  else if buf r >=? KERNEL_VIRTUAL_ADDRESS_BASE then Some PROCESS_CREATE_FAIL_INVALID_ENTRYPOINT
  else if (free_page_frame_count (pages k) <? frames_needed r) || (frames_needed r >? PROCESS_PAGE_FRAME_COUNT_MAX)
  then Some PROCESS_CREATE_FAIL_NOT_ENOUGH_MEMORY
  else if process_list_get_inactive_index (procs k) is None then Some PROCESS_CREATE_FAIL_NO_AVAILABLE_SLOT
  else None.

Lemma create_unfold djunk fjunk r k :
  process_create_user_process page_directory_list djunk fjunk r k =
    match create_rejects k r, process_list_get_inactive_index (procs k) with
    | Some code, _ => Ret (code, k)
    | None, Some p => process_setup page_directory_list djunk fjunk r p k
    | None, None => Ret (PROCESS_CREATE_FAIL_NO_AVAILABLE_SLOT, k)
    end.
Proof.
  unfold process_create_user_process, create_rejects, mbind at 1, M_bind at 1, gets.
  destruct (_ >=? PROCESS_COUNT_MAX); [done|]. destruct (_ >=? KERNEL_VIRTUAL_ADDRESS_BASE); [done|].
  fold (frames_needed r). unfold mbind at 1, M_bind at 1, lift_pages, paging_allocate_check, gets.
  cbn [mbind res_mbind res_bind]. replace (set_pages (pages k) k) with k by by destruct k.
  rewrite Z.geb_leb, <- Z.ltb_antisym. destruct (_ || _); [done|].
  by destruct (process_list_get_inactive_index _).
Qed.

Lemma can_start_accepted k r junk p i : can_start k r junk p i -> create_rejects k r = None.
Proof.
  intros Hs. unfold create_rejects. rewrite (start_block _ _ _ _ _ Hs).
  pose proof (start_count _ _ _ _ _ Hs). pose proof (start_entry _ _ _ _ _ Hs).
  pose proof (start_memory _ _ _ _ _ Hs). pose proof (start_limit _ _ _ _ _ Hs).
  rewrite !Z.geb_leb, Z.gtb_ltb.
  rewrite (proj2 (Z.leb_gt PROCESS_COUNT_MAX _)), (proj2 (Z.leb_gt KERNEL_VIRTUAL_ADDRESS_BASE _)) by lia.
  by rewrite (proj2 (Z.ltb_ge (free_page_frame_count _) _)), (proj2 (Z.ltb_ge PROCESS_PAGE_FRAME_COUNT_MAX _)) by lia.
Qed.

Lemma create_setup k r djunk fjunk p i :
  can_start k r djunk p i ->
  process_create_user_process page_directory_list djunk fjunk r k =
    process_setup page_directory_list djunk fjunk r p k.
Proof.
  intros Hs. rewrite create_unfold, (can_start_accepted _ _ _ _ _ Hs). by rewrite (start_block _ _ _ _ _ Hs).
Qed.

(** a request that fails a check of [process_create_user_process] (too many
    processes, an entry point in the kernel, too little memory, no block left,
    in this order) is answered with its code and changes nothing at all. *)
Theorem create_process_rejected k r djunk fjunk code :
  create_rejects k r = Some code ->
  process_create_user_process page_directory_list djunk fjunk r k = Ret (code, k).
Proof. intros Hc. by rewrite create_unfold, Hc. Qed.

(** C11: a process that can be started and whose file can be read is started: the
    first inactive block gets the next pid, the name, the ready state and a
    context that enters at the buffer address with the user segments and the
    stack; its slot is taken and counted; the page directory in CR3 is the old
    one again; and the program's bytes are what the new address space holds,
    whose only user page is that of the entry point. *)
Theorem create_process_ok k r djunk fjunk p i s :
  can_start k r djunk p i -> read r (Fs (driver k) (device k) ∅) = Ret (0, s) -> on_page r s ->
  exists k', process_create_user_process page_directory_list djunk fjunk r k = Ret (PROCESS_CREATE_SUCCESS, k') /\
    procs k' = started p r (addr i) (procs k) /\
    cr3 (pages k') = cr3 (pages k) /\ device k' = disk s /\
    (exists f, space_created (pages k) (pages k') i (buf r) f) /\
    (forall va b, user s !! va = Some b -> virtual_byte k' (addr i) va = Some b).
Proof.
  intros Hs Hread Hpage. rewrite (create_setup _ _ _ _ _ _ Hs).
  enough (Hwp : wp (process_setup page_directory_list djunk fjunk r p) (fun a k' =>
    a = PROCESS_CREATE_SUCCESS /\ procs k' = started p r (addr i) (procs k) /\
    cr3 (pages k') = cr3 (pages k) /\ device k' = disk s /\
    (exists f, space_created (pages k) (pages k') i (buf r) f) /\
    (forall va b, user s !! va = Some b -> virtual_byte k' (addr i) va = Some b)) k).
  { apply wp_elim in Hwp as (a & k' & Hr & -> & Hk'). eauto. }
  eapply wp_process_setup; [exact Hs|exact Hread|exact Hpage|]. intros f pg m Hsp Hl Hcr3.
  do 4 (split; [done|]). split; [by exists f|]. intros va b Hb. unfold virtual_byte. cbn [pages phys].
  destruct (Hpage va (mk_is_Some _ _ Hb)) as [_ Hva].
  rewrite (space_new _ _ _ _ _ Hsp), Hva, decide_True by
    (done || pose proof (page_index_user _ (start_entry _ _ _ _ _ Hs)); lia).
  cbn. f_equal. by apply (loaded_bytes _ _ _ _ Hl).
Qed.

(** C12: isolation: however the read of the program ends, no other address space
    sees a change: every user address of every other page directory still maps
    to the same byte, or is still unmapped. *)
Theorem create_process_isolation k r djunk fjunk p i code s :
  can_start k r djunk p i -> read r (Fs (driver k) (device k) ∅) = Ret (code, s) -> on_page r s ->
  exists k', process_create_user_process page_directory_list djunk fjunk r k = Ret (code, k') /\
    forall i' va, i' <> i -> user_entry i' (page_index va) ->
      virtual_byte k' (addr i') va = virtual_byte k (addr i') va.
Proof.
  intros Hs Hread Hpage. rewrite (create_setup _ _ _ _ _ _ Hs).
  enough (Hwp : wp (process_setup page_directory_list djunk fjunk r p) (fun a k' => a = code /\
    forall i' va, i' <> i -> user_entry i' (page_index va) ->
      virtual_byte k' (addr i') va = virtual_byte k (addr i') va) k).
  { apply wp_elim in Hwp as (a & k' & Hr & -> & Hk'). eauto. }
  assert (Hmain : forall f pg m ps, space_created (pages k) pg i (buf r) f -> loaded (phys k) m s f ->
    forall i' va, i' <> i -> user_entry i' (page_index va) ->
      virtual_byte (Kernel pg (memory s) (disk s) m ps) (addr i') va = virtual_byte k (addr i') va).
  { intros f pg m ps Hsp Hl i' va Hi' Hu. unfold virtual_byte. cbn [pages phys].
    rewrite (space_other _ _ _ _ _ Hsp) by (intros E%directory_addr_inj; done).
    destruct (frame_at (pages k) (addr i') (page_index va)) as [g|] eqn:Hg; [|done]. cbn. f_equal.
    apply (loaded_frame _ _ _ _ Hl). intros ->.
    destruct (ok_owned _ _ (start_paging _ _ _ _ _ Hs) _ _ _ Hu Hg) as [_ Hused].
    rewrite (space_free _ _ _ _ _ Hsp) in Hused. done. }
  eapply wp_process_setup; [exact Hs|exact Hread|exact Hpage|]. intros f pg m Hsp Hl.
  destruct (Z.eqb_spec code 0) as [->|]; intros _; (split; [done|]; by eapply Hmain).
Qed.

(** when the file cannot be read, the creation stops with the code of [read]
    and does not clean up: CR3 still holds the new page directory, which stays
    allocated with its frame, although no process uses it. *)
Theorem create_process_read_failure k r djunk fjunk p i code s :
  can_start k r djunk p i -> read r (Fs (driver k) (device k) ∅) = Ret (code, s) -> code <> 0 -> on_page r s ->
  exists k', process_create_user_process page_directory_list djunk fjunk r k = Ret (code, k') /\
    cr3 (pages k') = addr i - KERNEL_VIRTUAL_ADDRESS_BASE /\
    free_page_frame_count (pages k') = free_page_frame_count (pages k) - 1 /\
    process_slot_occupied (procs k') = process_slot_occupied (procs k) /\
    active_process_count (procs k') = active_process_count (procs k).
Proof.
  intros Hs Hread Hcode Hpage. rewrite (create_setup _ _ _ _ _ _ Hs).
  enough (Hwp : wp (process_setup page_directory_list djunk fjunk r p) (fun a k' => a = code /\
    cr3 (pages k') = addr i - KERNEL_VIRTUAL_ADDRESS_BASE /\
    free_page_frame_count (pages k') = free_page_frame_count (pages k) - 1 /\
    process_slot_occupied (procs k') = process_slot_occupied (procs k) /\
    active_process_count (procs k') = active_process_count (procs k)) k).
  { apply wp_elim in Hwp as (a & k' & Hr & -> & Hk'). eauto. }
  eapply wp_process_setup; [exact Hs|exact Hread|exact Hpage|]. intros f pg m Hsp Hl.
  rewrite (proj2 (Z.eqb_neq _ _) Hcode). intros Hcr. split; [done|]. split; [exact Hcr|].
  split; [apply Hsp|done].
Qed.

(** the first process ever created gets pid 0, the mark of an inactive
    block: the block it was given is the one that the next creation takes. *)
Theorem create_process_pid_zero k r djunk fjunk p i s :
  can_start k r djunk p i -> read r (Fs (driver k) (device k) ∅) = Ret (0, s) -> on_page r s ->
  procs_ok (procs k) -> current_running_pid (procs k) = 0 ->
  exists k', process_create_user_process page_directory_list djunk fjunk r k = Ret (PROCESS_CREATE_SUCCESS, k') /\
    process_slot_occupied (procs k') !! Z.to_nat p = Some true /\
    process_list_get_inactive_index (procs k') = Some p.
Proof.
  intros Hs Hread Hpage [Hl1 Hl2] Hpid. rewrite (create_setup _ _ _ _ _ _ Hs).
  enough (Hwp : wp (process_setup page_directory_list djunk fjunk r p) (fun a k' => a = PROCESS_CREATE_SUCCESS /\
    procs k' = started p r (addr i) (procs k)) k).
  { apply wp_elim in Hwp as (a & k' & Hr & -> & Hk'). exists k'. split; [done|].
    pose proof (start_block _ _ _ _ _ Hs) as Hb. unfold process_list_get_inactive_index in *.
    apply find_up_Some in Hb as (Hr1 & Hb1 & Hb2). unfold PROCESS_COUNT_MAX in Hr1. rewrite Hk'. split.
    - apply list_lookup_insert_eq. lia.
    - apply find_up_Some. split; [done|]. cbn [process_list started].
      assert (Hn : forall j, 0 <= j <= p -> pid (nth (Z.to_nat j) (alter
        (started_pcb (current_running_pid (procs k)) r (addr i)) (Z.to_nat p) (process_list (procs k))) zero_pcb) =
        if decide (j = p) then 0 else pid (nth (Z.to_nat j) (process_list (procs k)) zero_pcb)).
      { intros j Hj. destruct (lookup_lt_is_Some_2 (process_list (procs k)) (Z.to_nat j)) as [x Hx]; [lia|].
        case_decide as E.
        - subst j. erewrite nth_lookup_Some; [|by rewrite list_lookup_alter_eq, Hx]. done.
        - erewrite nth_lookup_Some; [|rewrite list_lookup_alter_ne by lia; exact Hx].
          by rewrite (nth_lookup_Some _ _ _ _ Hx). }
      split.
      + rewrite Hn by lia. by rewrite decide_True.
      + intros j Hj. rewrite Hn by lia. rewrite decide_False by lia. by apply Hb2. }
  eapply wp_process_setup; [exact Hs|exact Hread|exact Hpage|]. intros f pg m Hsp Hl Hcr3. done.
Qed.

(** [process_destroy] clears the first block with the pid and its slot,
    counts it, and returns whether there was one.  It looks at no slot and
    releases no page: the page manager and memory are left as they were. *)
Theorem process_destroy_correct id k :
  procs_ok (procs k) ->
  let found := find_up (fun i => pid (nth (Z.to_nat i) (process_list (procs k)) zero_pcb) =? id) 0 16 in
  exists k', process_destroy id k = Ret ((if found is Some _ then true else false), k') /\
    pages k' = pages k /\ phys k' = phys k /\ driver k' = driver k /\ device k' = device k /\
    procs k' = match found with
               | None => procs k
               | Some i => Processes (<[Z.to_nat i := zero_pcb]> (process_list (procs k)))
                   (<[Z.to_nat i := false]> (process_slot_occupied (procs k)))
                   (active_process_count (procs k) - 1) (current_running_pid (procs k))
               end.
Proof.
  intros [Hl _] found. unfold process_destroy, mbind, M_bind, gets.
  change (Z.to_nat PROCESS_COUNT_MAX) with 16%nat. fold found.
  destruct found as [i|] eqn:Hf.
  - eexists. split; [done|]. do 4 (split; [done|]). unfold set_slots, set_process_list. cbn. f_equal.
    apply list_eq. intros j. destruct (decide (Z.to_nat i = j)) as [<-|Hne].
    + unfold found in Hf. apply find_up_Some in Hf as (Hr & _).
      destruct (lookup_lt_is_Some_2 (process_list (procs k)) (Z.to_nat i)) as [x Hx]; [lia|].
      rewrite list_lookup_alter_eq, Hx, list_lookup_insert_eq by lia. done.
    + by rewrite list_lookup_alter_ne, list_lookup_insert_ne by done.
  - exists k. done.
Qed.

(** destroying pid 0 always finds an unused block: it returns true and counts
    a process less although no slot was in use. *)
Theorem process_destroy_unused i k :
  process_list_get_inactive_index (procs k) = Some i ->
  process_slot_occupied (procs k) !! Z.to_nat i = Some false ->
  exists k', process_destroy 0 k = Ret (true, k') /\
    active_process_count (procs k') = active_process_count (procs k) - 1 /\
    process_slot_occupied (procs k') = process_slot_occupied (procs k).
Proof.
  intros Hi Hfree. unfold process_list_get_inactive_index in Hi.
  unfold process_destroy, mbind, M_bind, gets. rewrite Hi. eexists. split; [done|].
  split; [done|]. cbn. by apply list_insert_id.
Qed.

End Create.
