(* ===== verification/ProcessSample.v ===== *)
(** The theorems about processes at a concrete kernel: the sample image, an
    empty process table and a program that is the file a.txt. *)
From Stdlib Require Import ZArith Lia.
From stdpp Require Import base numbers option strings zmap functions list.
From S2P Require Import Prelude CString Disk FatTypes Fat32 FatView FatRead FatWrite FatCreate FatSample Paging PagingSpec Process ProcessSpec.

Module ProcessSample.

Definition kernel0 : kernel Inserter.image :=
  Kernel PagingSample.init (store ∅ 0 Sample.map_bytes) Sample.image ∅ processes_init.

(** The request for the program, loaded at address 0, and one for a file that
    does not exist. *)
Definition program : request := Sample.a_txt 8.
Definition missing : request := Sample.absent 2 8.

Definition in_kernel : request := Request 0xC0000000 (req_name program) (req_ext program) 2 8.

End ProcessSample.

Lemma sample_list_high : KERNEL_VIRTUAL_ADDRESS_BASE < PagingSample.list_at.
Proof. unfold KERNEL_VIRTUAL_ADDRESS_BASE, PagingSample.list_at. lia. Qed.

Lemma sample_list_low : PagingSample.list_at + 32 * sizeof_PageDirectory <= 4294967296.
Proof. unfold sizeof_PageDirectory, PagingSample.list_at. lia. Qed.

Lemma sample_can_start r :
  buf r = 0 -> buffer_size r = 8 ->
  can_start PagingSample.list_at ProcessSample.kernel0 r zero_entry 0 0.
Proof.
  intros Hb Hsize. assert (Hf : frames_needed r = 2) by (unfold frames_needed; by rewrite Hsize).
  split; rewrite ?Hf, ?Hb; try (vm_compute; intuition congruence).
  - exact sample_init_ok.
Qed.

Lemma store_lookup_range m a bs k :
  is_Some (store m a bs !! k) -> a <= k < a + Z.of_nat (length bs) \/ is_Some (m !! k).
Proof.
  revert m a. induction bs as [|b bs IH]; intros m a; cbn [store length]; [by right|].
  intros Hk. destruct (IH _ _ Hk) as [H|H]; [left; lia|].
  destruct (decide (a = k)) as [->|Hne]; [left; lia|]. right. by rewrite lookup_insert_ne in H.
Qed.

Lemma sample_page s n bs :
  n = 0 -> user s = store ∅ n bs -> Z.of_nat (length bs) <= PAGE_FRAME_SIZE -> on_page ProcessSample.program (D := Inserter.image) s.
Proof.
  intros -> Hu Hlen va Hva. rewrite Hu in Hva.
  apply store_lookup_range in Hva as [Hva|[x Hx]]; [|by rewrite lookup_empty in Hx].
  unfold PAGE_FRAME_SIZE in Hlen. split; [lia|]. rewrite !page_index_div by (cbn; lia). cbn [buf ProcessSample.program Sample.a_txt].
  rewrite !Z.div_small by (unfold PAGE_FRAME_SIZE; lia). done.
Qed.

(** The program can be read. *)
Lemma sample_program_read :
  exists s, read ProcessSample.program (Fs (driver ProcessSample.kernel0) (device ProcessSample.kernel0) ∅) = Ret (0, s) /\
    on_page ProcessSample.program s /\ user s = store ∅ 0 (Sample.V 3).
Proof.
  enough (Hwp : wp (read ProcessSample.program) (fun a s => a = 0 /\ on_page ProcessSample.program s /\
    user s = store ∅ 0 (Sample.V 3)) (Fs (driver ProcessSample.kernel0) (device ProcessSample.kernel0) ∅)).
  { apply wp_elim in Hwp as (a & s & Hr & -> & Hs). eauto. }
  apply (wp_read_file ProcessSample.program Sample.V _ 2 [3]).
  - sample_request.
  - exact sample_disk.
  - unfold ProcessSample.program. sample_range.
  - unfold ProcessSample.program. sample.
  - unfold ProcessSample.program. sample.
  - unfold ProcessSample.program. sample_parent. unfold Sample.V. rewrite image_dir by fat_lia.
    replace (entry_cluster _) with 3 by (vm_compute; reflexivity).
    apply chain_last; [fat_lia|vm_compute; reflexivity].
  - unfold ProcessSample.program. sample.
  - intros s Hu _ _. cbn [fmap list_fmap concat] in Hu. rewrite app_nil_r in Hu.
    split; [done|]. split; [|exact Hu].
    eapply sample_page; [|exact Hu|]; [done|].
    rewrite (disk_is_length (disk Sample.state) Sample.V 3 sample_disk) by fat_lia.
    unfold PAGE_FRAME_SIZE. lia.
Qed.

(** The missing file cannot. *)
Lemma sample_missing_read :
  exists s, read ProcessSample.missing (Fs (driver ProcessSample.kernel0) (device ProcessSample.kernel0) ∅) = Ret (2, s) /\
    on_page ProcessSample.missing s.
Proof.
  enough (Hwp : wp (read ProcessSample.missing) (fun a s => a = 2 /\ on_page ProcessSample.missing s)
    (Fs (driver ProcessSample.kernel0) (device ProcessSample.kernel0) ∅)).
  { apply wp_elim in Hwp as (a & s & Hr & -> & Hs). eauto. }
  assert (Hnone : dir_find (dir Sample.V 2) (req_name (Sample.absent 2 8)) (req_ext (Sample.absent 2 8)) = None)
    by sample.
  unfold ProcessSample.missing.
  apply (wp_read_error (Sample.absent 2 8) Sample.V); cbv zeta; cbn [parent_cluster_number Sample.absent] in *;
    rewrite ?Hnone.
  - sample_request.
  - exact sample_disk.
  - fat_lia.
  - exact I.
  - intros s _ Hu _. split; [done|]. intros va [x Hx]. rewrite Hu in Hx.
    cbn [user] in Hx. by rewrite lookup_empty in Hx.
Qed.

(** ** The theorems *)

Lemma create_process_rejected_witness :
  process_create_user_process PagingSample.list_at zero_entry zero_flag ProcessSample.in_kernel ProcessSample.kernel0 =
    Ret (PROCESS_CREATE_FAIL_INVALID_ENTRYPOINT, ProcessSample.kernel0).
Proof. apply create_process_rejected. reflexivity. Defined.

Lemma create_process_ok_witness :
  exists k', process_create_user_process PagingSample.list_at zero_entry zero_flag ProcessSample.program
      ProcessSample.kernel0 = Ret (PROCESS_CREATE_SUCCESS, k') /\
    process_list_get_inactive_index (procs k') <> None.
Proof.
  destruct sample_program_read as (s & Hr & Hpage & _).
  destruct (create_process_ok PagingSample.list_at sample_list_high sample_list_low ProcessSample.kernel0
    ProcessSample.program zero_entry zero_flag 0 0 s) as (k' & Hk & Hp & _).
  - by apply sample_can_start.
  - exact Hr.
  - exact Hpage.
  - exists k'. split; [exact Hk|]. rewrite Hp. vm_compute. discriminate.
Defined.

Lemma create_process_isolation_witness :
  exists k', process_create_user_process PagingSample.list_at zero_entry zero_flag ProcessSample.program
      ProcessSample.kernel0 = Ret (PROCESS_CREATE_SUCCESS, k') /\
    virtual_byte k' (directory_addr PagingSample.list_at 1) 0 =
      virtual_byte ProcessSample.kernel0 (directory_addr PagingSample.list_at 1) 0.
Proof.
  destruct sample_program_read as (s & Hr & Hpage & _).
  destruct (create_process_isolation PagingSample.list_at sample_list_high sample_list_low ProcessSample.kernel0
    ProcessSample.program zero_entry zero_flag 0 0 0 s) as (k' & Hk & Hiso).
  - by apply sample_can_start.
  - exact Hr.
  - exact Hpage.
  - exists k'. split; [exact Hk|]. apply Hiso; [lia|].
    unfold user_entry, PAGING_DIRECTORY_TABLE_MAX_COUNT, PAGE_ENTRY_COUNT, KERNEL_ENTRY. vm_compute.
    intuition congruence.
Defined.

Lemma create_process_read_failure_witness :
  exists k', process_create_user_process PagingSample.list_at zero_entry zero_flag ProcessSample.missing
      ProcessSample.kernel0 = Ret (2, k') /\
    cr3 (pages k') = directory_addr PagingSample.list_at 0 - KERNEL_VIRTUAL_ADDRESS_BASE.
Proof.
  destruct sample_missing_read as (s & Hr & Hpage).
  destruct (create_process_read_failure PagingSample.list_at sample_list_high sample_list_low ProcessSample.kernel0
    ProcessSample.missing zero_entry zero_flag 0 0 2 s) as (k' & Hk & Hc & _).
  - by apply sample_can_start.
  - exact Hr.
  - lia.
  - exact Hpage.
  - exists k'. split; [exact Hk|exact Hc].
Defined.

Lemma create_process_pid_zero_witness :
  exists k', process_create_user_process PagingSample.list_at zero_entry zero_flag ProcessSample.program
      ProcessSample.kernel0 = Ret (PROCESS_CREATE_SUCCESS, k') /\
    process_slot_occupied (procs k') !! 0%nat = Some true /\
    process_list_get_inactive_index (procs k') = Some 0.
Proof.
  destruct sample_program_read as (s & Hr & Hpage & _).
  apply (create_process_pid_zero PagingSample.list_at sample_list_high sample_list_low ProcessSample.kernel0
    ProcessSample.program zero_entry zero_flag 0 0 s).
  - by apply sample_can_start.
  - exact Hr.
  - exact Hpage.
  - split; reflexivity.
  - reflexivity.
Defined.

Lemma process_destroy_correct_witness :
  exists k', process_destroy 7 ProcessSample.kernel0 = Ret (false, k') /\ pages k' = pages ProcessSample.kernel0.
Proof.
  destruct (process_destroy_correct 7 ProcessSample.kernel0) as (k' & Hk & Hp & _).
  - split; reflexivity.
  - exists k'. split; [exact Hk|exact Hp].
Defined.

Lemma process_destroy_unused_witness :
  exists k', process_destroy 0 ProcessSample.kernel0 = Ret (true, k') /\
    active_process_count (procs k') = -1 /\
    process_slot_occupied (procs k') = process_slot_occupied (procs ProcessSample.kernel0).
Proof. apply (process_destroy_unused 0 ProcessSample.kernel0); reflexivity. Defined.
