(* ===== verification/Ports.v ===== *)
(** Port I/O (src/src/portio.c) and the programming of the interrupt
    controllers and the timer (parts of src/src/interrupt.c and
    src/src/scheduler.c).  The hardware behind the ports is a parameter. *)
From Stdlib Require Import ZArith Lia.
From stdpp Require Import base numbers option list.
From S2P Require Import Prelude.

(** ** The hardware *)

(** What the instructions outb, inb, outw and inw do to a machine [P]. *)
Class Ports (P : Type) := {
  outb : Z -> Z -> P -> P;
  inb : Z -> P -> Z * P;
  outw : Z -> Z -> P -> P;
  inw : Z -> P -> Z * P;
}.

Section Portio.
Context {P : Type} `{!Ports P}.

(** The arguments are converted to the types of the parameters. *)
Definition out (port data : Z) : M P unit := modify (outb (u16 port) (u8 data)).
Definition out16 (port data : Z) : M P unit := modify (outw (u16 port) (u16 data)).
Definition in8 (port : Z) : M P Z := fun p => let '(v, p') := inb (u16 port) p in Ret (u8 v, p').
Definition in16 (port : Z) : M P Z := fun p => let '(v, p') := inw (u16 port) p in Ret (u16 v, p').

(** ** The interrupt controllers *)

Definition PIC1_COMMAND : Z := 0x20.
Definition PIC1_DATA : Z := 0x21.
Definition PIC2_COMMAND : Z := 0xA0.
Definition PIC2_DATA : Z := 0xA1.
Definition PIC1_OFFSET : Z := 0x20.
Definition PIC2_OFFSET : Z := 0x28.
Definition PIC_ACK : Z := 0x20.
Definition PIC_DISABLE_ALL_MASK : Z := 0xFF.
Definition ICW1_ICW4 : Z := 0x01.
Definition ICW1_INIT : Z := 0x10.
Definition ICW4_8086 : Z := 0x01.
Definition IRQ_TIMER : Z := 0.
Definition IRQ_KEYBOARD : Z := 1.
Definition IRQ_SYSCALL : Z := 16.

Definition io_wait : M P unit := out 0x80 0.

Definition pic_ack (irq : Z) : M P unit :=
  (if irq >=? 8 then out PIC2_COMMAND PIC_ACK else mret tt) ;;
  out PIC1_COMMAND PIC_ACK.

Definition pic_remap : M P unit :=
  out PIC1_COMMAND (Z.lor ICW1_INIT ICW1_ICW4) ;; io_wait ;;
  out PIC2_COMMAND (Z.lor ICW1_INIT ICW1_ICW4) ;; io_wait ;;
  out PIC1_DATA PIC1_OFFSET ;; io_wait ;;
  out PIC2_DATA PIC2_OFFSET ;; io_wait ;;
  out PIC1_DATA 4 ;; io_wait ;;
  out PIC2_DATA 2 ;; io_wait ;;
  out PIC1_DATA ICW4_8086 ;; io_wait ;;
  out PIC2_DATA ICW4_8086 ;; io_wait ;;
  out PIC1_DATA PIC_DISABLE_ALL_MASK ;;
  out PIC2_DATA PIC_DISABLE_ALL_MASK.

(** Clear the mask bit of an interrupt line. *)
Definition activate_keyboard_interrupt : M P unit :=
  v ← in8 PIC1_DATA;
  out PIC1_DATA (Z.land v (Z.lnot (Z.shiftl 1 IRQ_KEYBOARD))).

(** ** The timer *)

Definition PIT_MAX_FREQUENCY : Z := 1193182.
Definition PIT_TIMER_FREQUENCY : Z := 1000.
Definition PIT_TIMER_COUNTER : Z := PIT_MAX_FREQUENCY / PIT_TIMER_FREQUENCY.
Definition PIT_COMMAND_REGISTER_PIO : Z := 0x43.
Definition PIT_CHANNEL_0_DATA_PIO : Z := 0x40.
Definition PIT_COMMAND_VALUE : Z :=
  Z.lor (Z.lor (Z.lor 0 (Z.shiftl 3 1)) (Z.shiftl 3 4)) (Z.shiftl 0 6).

Definition activate_timer_interrupt : M P unit :=
  let pit_timer_counter_to_fire := PIT_TIMER_COUNTER in
  out PIT_COMMAND_REGISTER_PIO PIT_COMMAND_VALUE ;;
  out PIT_CHANNEL_0_DATA_PIO (u8 (Z.land pit_timer_counter_to_fire 0xFF)) ;;
  out PIT_CHANNEL_0_DATA_PIO (u8 (Z.land (Z.shiftr pit_timer_counter_to_fire 8) 0xFF)) ;;
  v ← in8 PIC1_DATA;
  out PIC1_DATA (Z.land v (Z.lnot (Z.shiftl 1 IRQ_TIMER))).

Definition scheduler_init : M P unit := activate_timer_interrupt.

End Portio.

(** ** A pair of interrupt controllers *)

(** The documented behaviour of an 8259A, as far as the kernel programs it:
    after ICW1 with the ICW4 bit, the data port takes ICW2 (vector offset), ICW3
    (cascade) and ICW4, and afterwards the mask; a command 0x20 outside the
    initialisation is an end of interrupt. *)
Record pic := Pic { init_words : nat; offset : Z; mask : Z; eois : nat }.

Definition pic_command (v : Z) (c : pic) : pic :=
  if Z.testbit v 4 then Pic 3 (offset c) 0 (eois c)
  else if v =? PIC_ACK then Pic (init_words c) (offset c) (mask c) (S (eois c)) else c.

Definition pic_data (v : Z) (c : pic) : pic :=
  match init_words c with
  | 3%nat => Pic 2 v (mask c) (eois c)
  | S n => Pic n (offset c) (mask c) (eois c)
  | O => Pic 0 (offset c) v (eois c)
  end.

Record pics := Pics { master : pic; slave : pic; timer : list Z }.

#[export] Instance pics_ports : Ports pics := {
  outb port v p :=
    if port =? PIC1_COMMAND then Pics (pic_command v (master p)) (slave p) (timer p)
    else if port =? PIC1_DATA then Pics (pic_data v (master p)) (slave p) (timer p)
    else if port =? PIC2_COMMAND then Pics (master p) (pic_command v (slave p)) (timer p)
    else if port =? PIC2_DATA then Pics (master p) (pic_data v (slave p)) (timer p)
    else if port =? PIT_CHANNEL_0_DATA_PIO then Pics (master p) (slave p) (timer p ++ [v])
    else p;
  inb port p :=
    (if port =? PIC1_DATA then mask (master p) else if port =? PIC2_DATA then mask (slave p) else 0, p);
  outw _ _ p := p;
  inw _ p := (0, p);
}.

(** [pic_remap] programs both controllers from whatever state they are in:
    the master's interrupts start at vector 0x20, the slave's at 0x28, the
    initialisation is complete and every line is masked. *)
Theorem pic_remap_correct p :
  exists p', pic_remap p = Ret (tt, p') /\
    master p' = Pic 0 PIC1_OFFSET PIC_DISABLE_ALL_MASK (eois (master p)) /\
    slave p' = Pic 0 PIC2_OFFSET PIC_DISABLE_ALL_MASK (eois (slave p)).
Proof. destruct p as [[? ? ? ?] [? ? ? ?] ?]. eexists. split; [reflexivity|]. split; reflexivity. Qed.

(** an acknowledgement reaches the slave exactly for the interrupt lines from
    8 on, and the master always; nothing else changes. *)
Theorem pic_ack_correct irq p :
  exists p', pic_ack irq p = Ret (tt, p') /\
    eois (master p') = S (eois (master p)) /\ mask (master p') = mask (master p) /\
    eois (slave p') = (if 8 <=? irq then S (eois (slave p)) else eois (slave p)) /\
    mask (slave p') = mask (slave p) /\ timer p' = timer p.
Proof.
  unfold pic_ack. rewrite Z.geb_leb. destruct p as [[? ? ? ?] [? ? ? ?] ?].
  destruct (8 <=? irq); (eexists; split; [reflexivity|]; repeat split).
Qed.

(** Clearing bit [n] of a mask byte. *)
Lemma unmask_bits v n i :
  0 <= n -> 0 <= i < 8 ->
  Z.testbit (u8 (Z.land (u8 v) (Z.lnot (Z.shiftl 1 n)))) i = Z.testbit v i && negb (i =? n).
Proof.
  intros Hn Hi. unfold u8. change 256 with (2 ^ 8).
  rewrite Z.mod_pow2_bits_low by lia. rewrite Z.land_spec, Z.lnot_spec by lia.
  rewrite Z.mod_pow2_bits_low by lia. f_equal. f_equal.
  rewrite Z.shiftl_spec by lia. destruct (Z.eqb_spec i n) as [->|Hne].
  - by rewrite Z.sub_diag.
  - destruct (decide (i < n)).
    + by rewrite Z.testbit_neg_r by lia.
    + apply Z.bits_above_log2; [lia|]. cbn. lia.
Qed.

(** activating the timer sends its divisor, low byte first, and unmasks line
    0 of the master and no other line. *)
Theorem activate_timer_correct p :
  init_words (master p) = 0%nat ->
  exists p' lo hi, activate_timer_interrupt p = Ret (tt, p') /\
    timer p' = timer p ++ [lo; hi] /\ lo + 256 * hi = PIT_TIMER_COUNTER /\
    (forall i, (0 <= i < 8) ->
       Z.testbit (mask (master p')) i = Z.testbit (mask (master p)) i && negb (i =? IRQ_TIMER)) /\
    slave p' = slave p.
Proof.
  destruct p as [[w o k e] sl t]. cbn [master init_words]. intros ->.
  eexists _, 169, 4. split; [reflexivity|]. split.
  { change (timer _) with ((t ++ [169]) ++ [4]) at 1. by rewrite <- app_assoc. }
  split; [reflexivity|]. split; [|reflexivity]. intros i Hi.
  apply (unmask_bits k 0 i); [done|done].
Qed.

(** activating the keyboard unmasks line 1 of the master and no other line. *)
Theorem activate_keyboard_correct p :
  init_words (master p) = 0%nat ->
  exists p', activate_keyboard_interrupt p = Ret (tt, p') /\
    (forall i, (0 <= i < 8) ->
       Z.testbit (mask (master p')) i = Z.testbit (mask (master p)) i && negb (i =? IRQ_KEYBOARD)) /\
    slave p' = slave p.
Proof.
  destruct p as [[w o k e] sl t]. cbn [master init_words]. intros ->.
  eexists. split; [reflexivity|]. split; [|reflexivity]. intros i Hi.
  apply (unmask_bits k 1 i); [done|done].
Qed.

(** The controllers after a reset, with the mask cleared. *)
Definition pics_sample : pics := Pics (Pic 0 0 0xFF 0) (Pic 0 0 0xFF 0) [].

Lemma activate_timer_correct_witness :
  exists p' lo hi, activate_timer_interrupt pics_sample = Ret (tt, p') /\
    timer p' = [lo; hi] /\ lo + 256 * hi = PIT_TIMER_COUNTER.
Proof.
  destruct (activate_timer_correct pics_sample eq_refl) as (p' & lo & hi & H1 & H2 & H3 & _).
  exists p', lo, hi. done.
Defined.

Lemma activate_keyboard_correct_witness :
  exists p', activate_keyboard_interrupt pics_sample = Ret (tt, p') /\ slave p' = slave pics_sample.
Proof.
  destruct (activate_keyboard_correct pics_sample eq_refl) as (p' & H1 & _ & H2). exists p'. done.
Defined.
