(* ===== verification/Ata.v ===== *)
(** The ATA driver: src/src/disk.c, the block device of the kernel.  The drive
    behind the ports is a parameter: the class [AtaDrive] states what the ATA
    standard says of a drive in PIO mode (no device errors), as a simulation of
    the abstract machine [drive].  The driver implements the interface of
    Disk.v over every such drive, so the theorems on the file system hold for
    the kernel as they do for the host tool. *)
From Stdlib Require Import ZArith Lia.
From stdpp Require Import base numbers option strings zmap functions list.
From S2P Require Import Prelude CString Disk Ports.

(** ** The driver *)

Definition ATA_STATUS_BSY : Z := 0x80.
Definition ATA_STATUS_RDY : Z := 0x40.

Module Pio.
Section Driver.
Context {P : Type} `{!Ports P}.

(** [while (in(0x1F7) & ATA_STATUS_BSY);], one unit of fuel a read. *)
Fixpoint ATA_busy_wait (fuel : nat) : M P unit :=
  match fuel with
  | O => out_of_fuel
  | S fuel' =>
      v ← in8 0x1F7;
      if negb (Z.land v ATA_STATUS_BSY =? 0) then ATA_busy_wait fuel' else mret tt
  end.

Fixpoint ATA_DRQ_wait (fuel : nat) : M P unit :=
  match fuel with
  | O => out_of_fuel
  | S fuel' =>
      v ← in8 0x1F7;
      if Z.land v ATA_STATUS_RDY =? 0 then ATA_DRQ_wait fuel' else mret tt
  end.

(** The registers both routines write, and the command. *)
Definition command (fuel : nat) (logical_block_address block_count cmd : Z) : M P unit :=
  ATA_busy_wait fuel ;;
  out 0x1F6 (Z.lor 0xE0 (Z.land (Z.shiftr logical_block_address 24) 0xF)) ;;
  out 0x1F2 block_count ;;
  out 0x1F3 (u8 logical_block_address) ;;
  out 0x1F4 (u8 (Z.shiftr logical_block_address 8)) ;;
  out 0x1F5 (u8 (Z.shiftr logical_block_address 16)) ;;
  out 0x1F7 cmd.

(** [target[j] = in16(0x1F0)] for the [n] half-words from [j]. *)
Fixpoint in_words (m : mem) (target j : Z) (n : nat) : M P mem :=
  match n with
  | O => mret m
  | S n' =>
      w ← in16 0x1F0;
      in_words (store_le 2 m (target + 2 * j) w) target (j + 1) n'
  end.

Fixpoint in_sectors (fuel : nat) (m : mem) (target : Z) (n : nat) : M P mem :=
  match n with
  | O => mret m
  | S n' =>
      ATA_busy_wait fuel ;;
      ATA_DRQ_wait fuel ;;
      m ← in_words m target 0 (Z.to_nat HALF_BLOCK_SIZE);
      in_sectors fuel m (target + 2 * HALF_BLOCK_SIZE) n'
  end.

Definition read_blocks (fuel : nat) (m : mem) (ptr logical_block_address block_count : Z) : M P mem :=
  let block_count := u8 block_count in
  command fuel logical_block_address block_count 0x20 ;;
  in_sectors fuel m ptr (Z.to_nat block_count).

(** [out16(0x1F0, ...)] of half-word [HALF_BLOCK_SIZE*i + j] at [ptr]. *)
Definition out_sectors (fuel : nat) (m : mem) (ptr : Z) (n : nat) : M P unit :=
  for_up (fun i =>
    ATA_busy_wait fuel ;;
    ATA_DRQ_wait fuel ;;
    for_up (fun j => out16 0x1F0 (load_le 2 m (ptr + 2 * (HALF_BLOCK_SIZE * i + j))))
      0 (Z.to_nat HALF_BLOCK_SIZE)) 0 n.

Definition write_blocks (fuel : nat) (m : mem) (ptr logical_block_address block_count : Z) : M P unit :=
  let block_count := u8 block_count in
  command fuel logical_block_address block_count 0x30 ;;
  out_sectors fuel m ptr (Z.to_nat block_count).

End Driver.
End Pio.

(** ** The drive *)

(** What the drive does with the data port: nothing, or it transfers [more]
    sectors from [lba] on, with [todo] the bytes of the first that are still to
    be read, or [got] the bytes of the first that have been written. *)
Inductive phase :=
| Idle
| Reading (lba : Z) (more : nat) (todo : list byte)
| Writing (lba : Z) (more : nat) (got : list byte).

Record drive := Drive {
  device : Z; count : Z; lba_low : Z; lba_mid : Z; lba_high : Z;
  transfer : phase; contents : Z -> list byte
}.

Definition drive_lba (d : drive) : Z :=
  lba_low d + 256 * lba_mid d + 65536 * lba_high d + 16777216 * Z.land (device d) 0xF.

(** A sector count of 0 asks for 256. *)
Definition drive_count (d : drive) : nat := if count d =? 0 then 256 else Z.to_nat (count d).

(** The phase at the start of the sector [lba], the first of [more]. *)
Definition reading (c : Z -> list byte) (lba : Z) (more : nat) : phase :=
  match more with O => Idle | S _ => Reading lba more (c lba) end.
Definition writing (lba : Z) (more : nat) : phase :=
  match more with O => Idle | S _ => Writing lba more [] end.

Definition set_transfer (t : phase) (d : drive) : drive :=
  Drive (device d) (count d) (lba_low d) (lba_mid d) (lba_high d) t (contents d).
Definition set_contents (c : Z -> list byte) (d : drive) : drive :=
  Drive (device d) (count d) (lba_low d) (lba_mid d) (lba_high d) (transfer d) c.

(** A byte written to a register of the command block. *)
Definition drive_out (port v : Z) (d : drive) : drive :=
  let 'Drive dev n low mid high t c := d in
  if port =? 0x1F2 then Drive dev v low mid high t c
  else if port =? 0x1F3 then Drive dev n v mid high t c
  else if port =? 0x1F4 then Drive dev n low v high t c
  else if port =? 0x1F5 then Drive dev n low mid v t c
  else if port =? 0x1F6 then Drive v n low mid high t c
  else if (port =? 0x1F7) && (v =? 0x20) then set_transfer (reading c (drive_lba d) (drive_count d)) d
  else if (port =? 0x1F7) && (v =? 0x30) then set_transfer (writing (drive_lba d) (drive_count d)) d
  else d.

(** A half-word read from the data port. *)
Definition drive_in16 (d : drive) : Z * drive :=
  match transfer d with
  | Reading lba more todo =>
      (le_val (take 2 todo),
       set_transfer (match drop 2 todo with
                     | [] => reading (contents d) (lba + 1) (pred more)
                     | rest => Reading lba more rest
                     end) d)
  | _ => (0, d)
  end.

(** A half-word written to the data port. *)
Definition drive_out16 (w : Z) (d : drive) : drive :=
  match transfer d with
  | Writing lba more got =>
      let got := got ++ le_bytes 2 w in
      if (length got <? 512)%nat then set_transfer (Writing lba more got) d
      else set_transfer (writing (lba + 1) (pred more)) (set_contents (<[lba := got]> (contents d)) d)
  | _ => d
  end.

(** The sector in transfer is not finished by the next half-word. *)
Definition mid_sector (t : phase) : bool :=
  match t with
  | Idle => false
  | Reading _ _ todo => (2 <? length todo)%nat
  | Writing _ _ got => (length got + 2 <? 512)%nat
  end.

(** A machine [P] whose ports 0x1F0 to 0x1F7 are those of a drive.  [pending]
    is the number of times the status will still say busy; while it does the
    drive takes no input, and when it no longer does the drive is ready.  Only
    a command and the end of a sector make it busy again. *)
Class AtaDrive (P : Type) `{!Ports P} := {
  drive_of : P -> drive;
  pending : P -> nat;
  patience : nat;
  sector_count : Z;
  sector_count_range : 2048 <= sector_count <= 2 ^ 28;
  pending_bound p : (pending p <= patience)%nat;
  status_law p : let '(v, p') := inb 0x1F7 p in
    0 <= v < 256 /\ drive_of p' = drive_of p /\ pending p' = pred (pending p) /\
    (Z.land v ATA_STATUS_BSY =? 0) = bool_decide (pending p = 0%nat) /\
    (pending p = 0%nat -> Z.land v ATA_STATUS_RDY <> 0);
  register_law port v p : 0x1F2 <= port <= 0x1F7 -> 0 <= v < 256 -> pending p = 0%nat ->
    drive_of (outb port v p) = drive_out port v (drive_of p) /\
    (port <> 0x1F7 -> pending (outb port v p) = 0%nat);
  read_law p : pending p = 0%nat -> (exists lba more todo, transfer (drive_of p) = Reading lba more todo) ->
    let '(w, p') := inw 0x1F0 p in
    (w, drive_of p') = drive_in16 (drive_of p) /\
    (mid_sector (transfer (drive_of p)) = true -> pending p' = 0%nat);
  write_law w p : 0 <= w < 65536 -> pending p = 0%nat ->
    (exists lba more got, transfer (drive_of p) = Writing lba more got) ->
    drive_of (outw 0x1F0 w p) = drive_out16 w (drive_of p) /\
    (mid_sector (transfer (drive_of p)) = true -> pending (outw 0x1F0 w p) = 0%nat);
}.

(** ** The driver on a drive *)

Section Pio.
Context {P : Type} `{AtaDrive P}.
Implicit Types (p : P) (d : drive).

(** The drive is in the state [d] and takes input. *)
Definition at_drive d p : Prop := drive_of p = d /\ pending p = 0%nat.

(** The state between transfers. *)
Definition ata_ok p : Prop :=
  transfer (drive_of p) = Idle /\
  forall b, 0 <= b < sector_count -> length (contents (drive_of p) b) = 512%nat.

Definition ata_sector p (b : Z) : list byte := contents (drive_of p) b.

Lemma set_transfer_id d : set_transfer (transfer d) d = d.
Proof. by destruct d. Qed.

Lemma wp_status (Q : Z -> P -> Prop) p :
  (forall v p', drive_of p' = drive_of p -> pending p' = pred (pending p) ->
     (Z.land v ATA_STATUS_BSY =? 0) = bool_decide (pending p = 0%nat) ->
     (pending p = 0%nat -> Z.land v ATA_STATUS_RDY <> 0) -> Q v p') ->
  wp (in8 0x1F7) Q p.
Proof.
  intros HQ. unfold wp, in8. change (u16 0x1F7) with 0x1F7. pose proof (status_law p) as Hs.
  destruct (inb 0x1F7 p) as [v p']. destruct Hs as (Hv & Hd & Hp & Hb & Hr).
  unfold u8. rewrite Z.mod_small by done. by apply HQ.
Qed.

Lemma wp_busy_wait fuel (Q : unit -> P -> Prop) p :
  (patience < fuel)%nat -> (forall p', at_drive (drive_of p) p' -> Q tt p') -> wp (Pio.ATA_busy_wait fuel) Q p.
Proof.
  intros Hf. pose proof (pending_bound p) as Hp. assert (Hlt : (pending p < fuel)%nat) by lia. clear Hf Hp.
  revert p Hlt. induction fuel as [|fuel IH]; intros p Hlt HQ; [lia|]. cbn [Pio.ATA_busy_wait].
  apply wp_bind, wp_status. intros v p' Hd Hp -> _. case_bool_decide as E; cbn [negb].
  - apply wp_ret, HQ. split; [done|]. by rewrite Hp, E.
  - apply IH; [lia|]. by rewrite Hd.
Qed.

Lemma wp_DRQ_wait fuel (Q : unit -> P -> Prop) d p :
  (0 < fuel)%nat -> at_drive d p -> (forall p', at_drive d p' -> Q tt p') -> wp (Pio.ATA_DRQ_wait fuel) Q p.
Proof.
  intros Hf [Hd Hp] HQ. destruct fuel as [|fuel]; [lia|]. cbn [Pio.ATA_DRQ_wait].
  apply wp_bind, wp_status. intros v p' Hd' Hp' _ Hr. rewrite (proj2 (Z.eqb_neq _ _) (Hr Hp)).
  apply wp_ret, HQ. split; [congruence|]. by rewrite Hp', Hp.
Qed.

Lemma wp_ready {A} fuel (Q : A -> P -> Prop) (c : M P A) p :
  (patience < fuel)%nat -> (forall p', at_drive (drive_of p) p' -> wp c Q p') ->
  wp (Pio.ATA_busy_wait fuel ;; Pio.ATA_DRQ_wait fuel ;; c) Q p.
Proof.
  intros Hf HQ. apply wp_bind, wp_busy_wait; [done|]. intros p1 H1.
  apply wp_bind. eapply wp_DRQ_wait; [lia|exact H1|exact HQ].
Qed.

Lemma wp_register port v (Q : unit -> P -> Prop) d p :
  0x1F2 <= port < 0x1F7 -> at_drive d p ->
  (forall p', at_drive (drive_out port (u8 v) d) p' -> Q tt p') -> wp (out port v) Q p.
Proof.
  intros Hport [<- Hp] HQ. unfold out. apply wp_modify, HQ. rewrite u16_small by lia.
  destruct (register_law port (u8 v) p) as [Hd Hn]; [lia|by apply Z.mod_pos_bound|done|]. split; [done|]. apply Hn. lia.
Qed.

(** The four parts of a 28-bit block address make up the address again. *)
Lemma lba_parts lba : 0 <= lba < 2 ^ 28 ->
  u8 (u8 lba) + 256 * u8 (u8 (Z.shiftr lba 8)) + 65536 * u8 (u8 (Z.shiftr lba 16)) +
    16777216 * Z.land (u8 (Z.lor 0xE0 (Z.land (Z.shiftr lba 24) 0xF))) 0xF = lba.
Proof.
  intros Hlba. change (2 ^ 28) with 268435456 in Hlba. assert (Hdev : Z.land (u8 (Z.lor 0xE0 (Z.land (Z.shiftr lba 24) 0xF))) 0xF = lba / 16777216).
  { unfold u8. change 256 with (2 ^ 8). rewrite <- Z.land_ones by lia. rewrite <- Z.land_assoc.
    change (Z.land (Z.ones 8) 0xF) with 0xF. rewrite Z.land_lor_distr_l, <- Z.land_assoc. change (Z.land 15 15) with 15.
    change (Z.land 0xE0 15) with 0. change 15 with (Z.ones 4). rewrite Z.lor_0_l, Z.land_ones, Z.shiftr_div_pow2 by lia.
    change (2 ^ 24) with 16777216. change (2 ^ 4) with 16. apply Z.mod_small. Z.div_mod_to_equations. lia. }
  rewrite Hdev. rewrite !Z.shiftr_div_pow2 by lia. change (2 ^ 8) with 256. change (2 ^ 16) with 65536.
  unfold u8. Z.div_mod_to_equations. lia.
Qed.

(** A command addresses the sectors it is given. *)
Lemma wp_command fuel lba n cmd (Q : unit -> P -> Prop) p :
  (patience < fuel)%nat -> 0 <= lba < 2 ^ 28 -> 0 <= n < 256 -> 0 <= cmd < 256 -> transfer (drive_of p) = Idle ->
  (forall p' d, drive_lba d = lba -> count d = n -> contents d = contents (drive_of p) ->
     drive_of p' = drive_out 0x1F7 cmd d -> Q tt p') ->
  wp (Pio.command fuel lba n cmd) Q p.
Proof.
  intros Hf Hlba Hn Hcmd Hidle HQ. unfold Pio.command. apply wp_bind, wp_busy_wait; [done|]. intros p0 H0.
  do 5 (apply wp_bind; eapply wp_register; [lia|eassumption|]; intros ? ?).
  unfold out. apply wp_modify. destruct (drive_of p) as [dev n0 low mid high t c].
  match goal with Hp : at_drive ?d ?q |- Q tt _ => destruct Hp as [Hd Hp0]; apply (HQ _ d) end.
  - cbn. by apply lba_parts.
  - cbn. unfold u8. by rewrite Z.mod_small.
  - done.
  - unfold u8. rewrite (Z.mod_small cmd) by done. change (u16 0x1F7) with 0x1F7.
    destruct (register_law 0x1F7 cmd _ ltac:(lia) Hcmd Hp0) as [-> _]. by rewrite Hd.
Qed.

Lemma wp_in16 (Q : Z -> P -> Prop) d lba more b1 b2 rest p :
  at_drive (set_transfer (Reading lba more (b1 :: b2 :: rest)) d) p ->
  (forall p', drive_of p' = set_transfer (match rest with [] => reading (contents d) (lba + 1) (pred more)
                                          | _ => Reading lba more rest end) d ->
     (rest <> [] -> pending p' = 0%nat) -> Q (le_val [b1; b2]) p') ->
  wp (in16 0x1F0) Q p.
Proof.
  intros [Hd Hp] HQ. unfold wp, in16. change (u16 0x1F0) with 0x1F0.
  pose proof (read_law p Hp) as Hl. destruct (inw 0x1F0 p) as [w p'].
  destruct Hl as [Hw Hm]; [rewrite Hd; by eexists _, _, _|]. rewrite Hd in Hw, Hm.
  assert (Hw' : w = le_val [b1; b2]) by (by destruct rest; injection Hw).
  assert (Hd' : drive_of p' = set_transfer (match rest with [] => reading (contents d) (lba + 1) (pred more)
                                          | _ => Reading lba more rest end) d) by (by destruct rest; injection Hw).
  subst w. pose proof (le_val_range [b1; b2]) as Hr. rewrite u16_small by exact Hr. apply HQ; [exact Hd'|].
  intros Hne. apply Hm. by destruct rest.
Qed.

Lemma wp_in_words m target j n d lba more todo (Q : mem -> P -> Prop) p :
  (0 < n)%nat -> length todo = (2 * n)%nat -> at_drive (set_transfer (Reading lba more todo) d) p ->
  (forall p', drive_of p' = set_transfer (reading (contents d) (lba + 1) (pred more)) d ->
     Q (store m (target + 2 * j) todo) p') ->
  wp (Pio.in_words m target j n) Q p.
Proof.
  revert m j todo p. induction n as [|n IH]; intros m j todo p Hn Hl Hp HQ; [lia|].
  destruct todo as [|b1 [|b2 rest]]; cbn [length] in Hl; [lia..|]. cbn [Pio.in_words].
  apply wp_bind. eapply wp_in16; [exact Hp|]. intros p' Hd' Hp'.
  assert (Hst : store_le 2 m (target + 2 * j) (le_val [b1; b2]) = store m (target + 2 * j) [b1; b2])
    
    by exact (f_equal (store m (target + 2 * j)) (le_bytes_le_val [b1; b2])).
  rewrite Hst. destruct n as [|n].
  - destruct rest; [|cbn in Hl; lia]. apply wp_ret. by apply HQ.
  - destruct rest as [|b3 rest]; [cbn in Hl; lia|]. eapply IH; [lia| |split; [exact Hd'|by apply Hp']|].
    + cbn [length] in *. lia.
    + intros p2 Hd2. specialize (HQ p2 Hd2).
      change (store m (target + 2 * j) (b1 :: b2 :: b3 :: rest))
        with (store (store m (target + 2 * j) [b1; b2]) (target + 2 * j + 1 + 1) (b3 :: rest)) in HQ.
      by replace (target + 2 * (j + 1)) with (target + 2 * j + 1 + 1) by lia.
Qed.

Lemma wp_read_sectors fuel m target n d lba (Q : mem -> P -> Prop) p :
  (patience < fuel)%nat -> (forall i, lba <= i < lba + Z.of_nat n -> length (contents d i) = 512%nat) ->
  drive_of p = set_transfer (reading (contents d) lba n) d ->
  (forall p', drive_of p' = set_transfer Idle d -> Q (store m target (sectors (contents d) lba n)) p') ->
  wp (Pio.in_sectors fuel m target n) Q p.
Proof.
  intros Hf. revert m target lba p. induction n as [|n IH]; intros m target lba p Hl Hd HQ; cbn [Pio.in_sectors].
  - apply wp_ret. by apply HQ.
  - apply wp_ready; [done|]. intros p1 Hp1. rewrite Hd in Hp1. cbn [reading] in Hp1. apply wp_bind.
    change (Z.to_nat HALF_BLOCK_SIZE) with 256%nat.
    eapply wp_in_words; [| |exact Hp1|]; [lia|rewrite Hl by lia; done|]. intros p2 Hd2. cbn [pred] in Hd2.
    rewrite Z.add_0_r. apply (IH _ _ (lba + 1)); [intros i Hi; apply Hl; lia|exact Hd2|].
    intros p3 Hd3. specialize (HQ p3 Hd3). cbn [sectors] in HQ. rewrite store_app, Hl in HQ by lia. exact HQ.
Qed.

Lemma wp_out16 (Q : unit -> P -> Prop) d lba more got w p :
  at_drive (set_transfer (Writing lba more got) d) p -> 0 <= w < 65536 ->
  (forall p', drive_of p' = drive_out16 w (set_transfer (Writing lba more got) d) ->
     ((length got + 2 < 512)%nat -> pending p' = 0%nat) -> Q tt p') ->
  wp (out16 0x1F0 w) Q p.
Proof.
  intros [Hd Hp] Hw HQ. unfold out16. apply wp_modify, HQ; change (u16 0x1F0) with 0x1F0; rewrite (u16_small w) by done.
  all: destruct (write_law w p Hw Hp) as [Hd' Hm]; [rewrite Hd; by eexists _, _, _|].
  - by rewrite Hd', Hd.
  - intros Hg. apply Hm. rewrite Hd. by apply Nat.ltb_lt.
Qed.

(** One sector is written from the memory at [a]. *)
Lemma wp_out_words m a addr d lba more (Q : unit -> P -> Prop) p :
  (forall j, addr j = a + 2 * j) -> at_drive (set_transfer (Writing lba more []) d) p ->
  (forall p', drive_of p' = set_transfer (writing (lba + 1) (pred more))
     (set_contents (<[lba := load m a 512]> (contents d)) d) -> Q tt p') ->
  wp (for_up (fun j => out16 0x1F0 (load_le 2 m (addr j))) 0 (Z.to_nat HALF_BLOCK_SIZE)) Q p.
Proof.
  intros Ha Hp HQ. eapply (wp_for (fun j p' =>
    if j <? 256 then at_drive (set_transfer (Writing lba more (load m a (Z.to_nat (2 * j)))) d) p'
    else drive_of p' = set_transfer (writing (lba + 1) (pred more))
      (set_contents (<[lba := load m a 512]> (contents d)) d))).
  - exact Hp.
  - intros j p' Hj Hp'. rewrite Ha. change (0 + Z.of_nat (Z.to_nat HALF_BLOCK_SIZE)) with 256 in Hj.
    rewrite (proj2 (Z.ltb_lt j 256)) in Hp' by lia. eapply wp_out16; [exact Hp'|apply (load_le_range 2)|].
    intros p2 Hd2 Hp2. rewrite length_load in Hp2.
    assert (Hgot : load m a (Z.to_nat (2 * j)) ++ le_bytes 2 (load_le 2 m (a + 2 * j)) =
      load m a (Z.to_nat (2 * (j + 1)))).
    { replace (Z.to_nat (2 * (j + 1))) with (Z.to_nat (2 * j) + 2)%nat by lia. rewrite load_app. f_equal.
      rewrite Z2Nat.id by lia. apply (le_bytes_le_val (load m (a + 2 * j) 2)). }
    unfold drive_out16 in Hd2. cbn [transfer set_transfer] in Hd2. rewrite Hgot, length_load in Hd2.
    destruct (Z.ltb_spec (j + 1) 256) as [Hlt|Hge].
    + rewrite (proj2 (Nat.ltb_lt _ _)) in Hd2 by lia. split; [exact Hd2|]. apply Hp2. lia.
    + rewrite (proj2 (Nat.ltb_ge _ _)) in Hd2 by lia.
      by replace (Z.to_nat (2 * (j + 1))) with 512%nat in Hd2 by lia.
  - intros p' Hp'. by apply HQ.
Qed.

(** What a sequence of [n] sectors written from [a] leaves. *)
Definition overwritten (m : mem) (ptr lba : Z) (n : nat) (c c' : Z -> list byte) : Prop :=
  forall b, c' b = if decide (lba <= b < lba + Z.of_nat n)
                   then load m (ptr + BLOCK_SIZE * (b - lba)) (Z.to_nat BLOCK_SIZE) else c b.

Lemma wp_write_sectors fuel m ptr n lba (Q : unit -> P -> Prop) d p :
  (patience < fuel)%nat -> drive_of p = set_transfer (writing lba n) d ->
  (forall p', transfer (drive_of p') = Idle -> overwritten m ptr lba n (contents d) (contents (drive_of p')) -> Q tt p') ->
  wp (Pio.out_sectors fuel m ptr n) Q p.
Proof.
  intros Hf Hd HQ. unfold Pio.out_sectors.
  eapply (wp_for (fun i p' => exists d', drive_of p' = set_transfer (writing (lba + i) (n - Z.to_nat i)) d' /\
    overwritten m ptr lba (Z.to_nat i) (contents d) (contents d'))).
  - exists d. split; [by rewrite Z.add_0_r, Nat.sub_0_r|]. intros b. by rewrite decide_False by lia.
  - intros i p' Hi (d' & Hd' & Ho). apply wp_ready; [done|]. intros p1 Hp1. rewrite Hd' in Hp1.
    replace (n - Z.to_nat i)%nat with (S (n - Z.to_nat (i + 1))) in Hp1 by lia. cbn [writing] in Hp1.
    eapply (wp_out_words _ (ptr + BLOCK_SIZE * i)); [intros j; unfold BLOCK_SIZE, HALF_BLOCK_SIZE; lia|exact Hp1|].
    intros p2 Hd2. cbn [pred] in Hd2.
    exists (set_contents (<[lba + i := load m (ptr + BLOCK_SIZE * i) 512]> (contents d')) d').
    split; [by rewrite Z.add_assoc|]. intros b. cbn [contents set_contents].
    destruct (decide (b = lba + i)) as [->|Hne].
    + rewrite fn_lookup_insert, decide_True by lia. f_equal. unfold BLOCK_SIZE. lia.
    + rewrite fn_lookup_insert_ne by done. rewrite (Ho b).
      destruct (decide (lba <= b < lba + Z.of_nat (Z.to_nat i))); [by rewrite decide_True by lia|by rewrite decide_False by lia].
  - intros p' (d' & Hd' & Ho). apply HQ; rewrite Hd'; cbn [transfer set_transfer contents].
    + by replace (n - Z.to_nat (0 + Z.of_nat n))%nat with 0%nat by lia.
    + by replace (Z.to_nat (0 + Z.of_nat n)) with n in Ho by lia.
Qed.

Lemma wp_read_blocks fuel m ptr lba (n : nat) (Q : mem -> P -> Prop) p :
  (patience < fuel)%nat -> ata_ok p -> 0 <= lba -> lba + Z.of_nat n <= sector_count -> (0 < n < 256)%nat ->
  (forall p', ata_ok p' -> (forall b, ata_sector p' b = ata_sector p b) ->
     Q (store m ptr (sectors (ata_sector p) lba n)) p') ->
  wp (Pio.read_blocks fuel m ptr lba (Z.of_nat n)) Q p.
Proof.
  intros Hf [Hi Hl] H1 H2 Hn HQ. pose proof sector_count_range as Hc.
  unfold Pio.read_blocks, u8. rewrite Z.mod_small, Nat2Z.id by lia.
  apply wp_bind. eapply wp_command; [done|lia|lia|lia|done|]. intros p1 d Hlba Hcount Hcont Hd1.
  apply (wp_read_sectors _ _ _ _ d lba); [done|rewrite Hcont; intros i Hb; apply Hl; lia| |].
  - rewrite Hd1. unfold drive_out. destruct d as [dev n0 low mid high t c]. cbn [Z.eqb Pos.eqb andb].
    rewrite Hlba. unfold drive_count. rewrite Hcount. by rewrite (proj2 (Z.eqb_neq (Z.of_nat n) 0)), Nat2Z.id by lia.
  - intros p2 Hd2. rewrite Hcont. apply HQ; unfold ata_ok, ata_sector; rewrite Hd2; cbn [transfer contents set_transfer];
      rewrite Hcont; done.
Qed.

Lemma wp_write_blocks fuel m ptr lba (n : nat) (Q : unit -> P -> Prop) p :
  (patience < fuel)%nat -> ata_ok p -> 0 <= lba -> lba + Z.of_nat n <= sector_count -> (0 < n < 256)%nat ->
  (forall p', ata_ok p' -> overwritten m ptr lba n (ata_sector p) (ata_sector p') -> Q tt p') ->
  wp (Pio.write_blocks fuel m ptr lba (Z.of_nat n)) Q p.
Proof.
  intros Hf [Hi Hl] H1 H2 Hn HQ. pose proof sector_count_range as Hc.
  unfold Pio.write_blocks, u8. rewrite Z.mod_small, Nat2Z.id by lia.
  apply wp_bind. eapply wp_command; [done|lia|lia|lia|done|]. intros p1 d Hlba Hcount Hcont Hd1.
  apply (wp_write_sectors _ _ _ _ lba _ d); [done| |].
  - rewrite Hd1. unfold drive_out. destruct d as [dev n0 low mid high t c]. cbn [Z.eqb Pos.eqb andb].
    rewrite Hlba. unfold drive_count. rewrite Hcount. by rewrite (proj2 (Z.eqb_neq (Z.of_nat n) 0)), Nat2Z.id by lia.
  - intros p2 Hi2 Ho. rewrite Hcont in Ho. apply HQ; [|exact Ho]. split; [done|]. intros b Hb. rewrite (Ho b).
    case_decide; [apply length_load|by apply Hl].
Qed.

(** The driver, with fuel for the patience of the drive, is a block device. *)
#[export] Instance ata_disk : Disk P := {
  read_blocks := Pio.read_blocks (S patience);
  write_blocks := Pio.write_blocks (S patience);
}.

#[export, program] Instance ata_spec : DiskSpec P := {
  disk_ok := ata_ok;
  capacity := sector_count;
  sector := ata_sector;
}.
Next Obligation. apply sector_count_range. Qed.
Next Obligation. intros p b [_ Hl] Hb. by apply Hl. Qed.
Next Obligation.
  intros p m ptr lba n Hok H1 H2 Hn.
  destruct (wp_elim (Pio.read_blocks (S patience) m ptr lba (Z.of_nat n))
    (fun m' p' => m' = store m ptr (sectors (ata_sector p) lba n) /\ ata_ok p' /\
      forall b, ata_sector p' b = ata_sector p b) p) as (m' & p' & Hr & -> & Hp' & Hs).
  { apply wp_read_blocks; [lia|done..]. }
  exists p'. split; [exact Hr|]. split; [done|]. intros b _. apply Hs.
Qed.
Next Obligation.
  intros p m ptr lba n Hok H1 H2 Hn.
  destruct (wp_elim (Pio.write_blocks (S patience) m ptr lba (Z.of_nat n))
    (fun _ p' => ata_ok p' /\ overwritten m ptr lba n (ata_sector p) (ata_sector p')) p) as ([] & p' & Hr & Hp' & Ho).
  { apply wp_write_blocks; [lia|done..]. }
  exists p'. split; [exact Hr|]. split; [done|]. intros b _. apply Ho.
Qed.

(** over any drive that answers within its patience, [read_blocks] returns,
    stores exactly the sectors asked for, in order, and changes none. *)
Theorem ata_read_correct fuel m ptr lba (n : nat) p :
  (patience < fuel)%nat -> ata_ok p -> 0 <= lba -> lba + Z.of_nat n <= sector_count -> (0 < n < 256)%nat ->
  exists p', Pio.read_blocks fuel m ptr lba (Z.of_nat n) p = Ret (store m ptr (sectors (ata_sector p) lba n), p') /\
    ata_ok p' /\ forall b, ata_sector p' b = ata_sector p b.
Proof.
  intros Hf Hok H1 H2 Hn.
  destruct (wp_elim (Pio.read_blocks fuel m ptr lba (Z.of_nat n))
    (fun m' p' => m' = store m ptr (sectors (ata_sector p) lba n) /\ ata_ok p' /\
      forall b, ata_sector p' b = ata_sector p b) p) as (m' & p' & Hr & -> & Hp').
  { by apply wp_read_blocks. }
  by exists p'.
Qed.

(** C25: over any drive that answers within its patience, [write_blocks] returns
    and replaces exactly the sectors addressed, with the bytes at [ptr]. *)
Theorem ata_write_correct fuel m ptr lba (n : nat) p :
  (patience < fuel)%nat -> ata_ok p -> 0 <= lba -> lba + Z.of_nat n <= sector_count -> (0 < n < 256)%nat ->
  exists p', Pio.write_blocks fuel m ptr lba (Z.of_nat n) p = Ret (tt, p') /\
    ata_ok p' /\ overwritten m ptr lba n (ata_sector p) (ata_sector p').
Proof.
  intros Hf Hok H1 H2 Hn.
  destruct (wp_elim (Pio.write_blocks fuel m ptr lba (Z.of_nat n))
    (fun _ p' => ata_ok p' /\ overwritten m ptr lba n (ata_sector p) (ata_sector p')) p) as ([] & p' & Hr & Hp').
  { by apply wp_write_blocks. }
  by exists p'.
Qed.

End Pio.

(** ** A drive *)

(** A drive that says busy three times after a command and after a sector. *)
Record slow_drive := SlowDrive { inner : drive; busy : nat }.

(** Busy again unless the sector in transfer [t] goes on. *)
Definition busy_after (t : phase) : nat := if mid_sector t then 0 else 3.

#[export] Instance slow_ports : Ports slow_drive := {
  outb port v p := SlowDrive (drive_out port v (inner p)) (if port =? 0x1F7 then 3 else busy p);
  inb _ p := (if decide (Nat.min 3 (busy p) = 0%nat) then ATA_STATUS_RDY else ATA_STATUS_BSY,
              SlowDrive (inner p) (pred (Nat.min 3 (busy p))));
  outw _ w p := SlowDrive (drive_out16 w (inner p)) (busy_after (transfer (inner p)));
  inw _ p := let '(w, d) := drive_in16 (inner p) in (w, SlowDrive d (busy_after (transfer (inner p))));
}.

#[export, program] Instance slow_ata : AtaDrive slow_drive := {
  drive_of := inner;
  pending p := Nat.min 3 (busy p);
  patience := 3;
  sector_count := 8192;
}.
Next Obligation. lia. Qed.
Next Obligation. intros p. cbv beta. lia. Qed.
Next Obligation.
  intros p. cbv beta. cbn [inb slow_ports inner busy]. case_decide as E; [rewrite E|]; (split; [done|]; split; [done|]; split; [lia|]).
  - done.
  - split; [by rewrite bool_decide_eq_false_2|done].
Qed.
Next Obligation.
  intros port v p Hport Hv Hp. split; [done|]. intros Hne. cbn. by rewrite (proj2 (Z.eqb_neq _ _)).
Qed.
Next Obligation.
  intros p Hp (lba & more & todo & Ht). cbn. destruct (drive_in16 (inner p)) as [w d]. split; [done|].
  intros Hm. unfold busy_after. by rewrite Hm.
Qed.
Next Obligation.
  intros w p Hw Hp (lba & more & got & Ht). split; [done|]. intros Hm. cbn. unfold busy_after. by rewrite Hm.
Qed.

(** A drive whose sector [b] is filled with the byte [b]. *)
Definition sample_drive : slow_drive :=
  SlowDrive (Drive 0 0 0 0 0 Idle (fun b => replicate 512 (z2b b))) 2.

Lemma sample_drive_ok : ata_ok sample_drive.
Proof. split; [done|]. intros b Hb. apply length_replicate. Qed.

Lemma ata_read_correct_witness :
  exists p', Pio.read_blocks 4 ∅ 100 7 2 sample_drive =
    Ret (store ∅ 100 (replicate 512 (z2b 7) ++ replicate 512 (z2b 8)), p').
Proof.
  destruct (ata_read_correct 4 ∅ 100 7 2 sample_drive) as (p' & Hr & _).
  - cbn. lia.
  - exact sample_drive_ok.
  - lia.
  - cbn. lia.
  - lia.
  - exists p'. exact Hr.
Defined.

Lemma ata_write_correct_witness :
  exists p', Pio.write_blocks 4 (store ∅ 0 (cstring "block")) 0 7 1 sample_drive = Ret (tt, p') /\
    ata_sector p' 7 = cstring "block" ++ zeros 507 /\ ata_sector p' 8 = replicate 512 (z2b 8).
Proof.
  destruct (ata_write_correct 4 (store ∅ 0 (cstring "block")) 0 7 1 sample_drive) as (p' & Hr & _ & Ho).
  - cbn. lia.
  - exact sample_drive_ok.
  - lia.
  - cbn. lia.
  - lia.
  - exists p'. split; [exact Hr|]. split; rewrite Ho; vm_compute; reflexivity.
Defined.
