(* ===== verification/Scheduler.v ===== *)
(** The scheduler: src/src/scheduler.c.  [process_context_switch] is assembly
    and does not return; the context it is given is the result here.  The loop
    over the slots takes fuel, one unit for each slot it looks at. *)
From Stdlib Require Import ZArith Lia.
From stdpp Require Import base numbers option strings zmap functions list.
From S2P Require Import Prelude CString Disk FatTypes Fat32 Paging PagingSpec Process ProcessSpec.

Definition NO_PROCESS_RUNNING : Z := 0xFFFFFFFF.

Section Scheduler.
Context {D : Type} `{!Disk D}.
Implicit Types (k : kernel D).

(** ** Definitions *)

Definition occupied (p : processes) (i : Z) : bool := nth (Z.to_nat i) (process_slot_occupied p) false.
Definition pcb_at (p : processes) (i : Z) : ProcessControlBlock := nth (Z.to_nat i) (process_list p) zero_pcb.

Definition scheduler_save_context_to_current_running_pcb (ctx : Context) : M (kernel D) unit :=
  pcb ← gets (fun k => process_get_current_running_pcb_pointer (procs k));
  match pcb with
  | None => mret tt
  | Some i =>
      pcb_update i (with_state PROCESS_STATE_READY) ;;
      pcb_update i (fun b => with_context
        (Ctx (cpu ctx) (eip ctx) (eflags ctx) (page_directory_virtual_addr (context b))) b)
  end.

(** The search loop, from the slot it looked at last. *)
Fixpoint next_process (fuel : nat) (current_process_index : Z) : M (kernel D) ProcessControlBlock :=
  match fuel with
  | O => out_of_fuel
  | S fuel' =>
      let current_process_index := u32 (current_process_index + 1) mod PROCESS_COUNT_MAX in
      free ← gets (fun k => occupied (procs k) current_process_index);
      if free : bool then
        pcb ← gets (fun k => pcb_at (procs k) current_process_index);
        pcb_update current_process_index (with_state PROCESS_STATE_RUNNING) ;;
        modify (fun k => set_procs (set_current current_process_index (procs k)) k) ;;
        mret pcb
      else next_process fuel' current_process_index
  end.

Definition scheduler_switch_to_next_process (fuel : nat) : M (kernel D) Context :=
  current_process_index ← gets (fun k => current_running_pid (procs k));
  let current_process_index :=
    if current_process_index =? NO_PROCESS_RUNNING then 0 else current_process_index in
  pcb ← next_process fuel current_process_index;
  use_page_directory (page_directory_virtual_addr (context pcb)) ;;
  mret (context pcb).

(** [n] timer ticks, without what the processes do in between. *)
Fixpoint ticks (n : nat) : M (kernel D) unit :=
  match n with
  | O => mret tt
  | S n' => scheduler_switch_to_next_process 16 ;; ticks n'
  end.

(** ** Round robin *)

(** The slot that is [d] places after [c]. *)
Definition slot_after (c d : Z) : Z := (c + d) mod PROCESS_COUNT_MAX.

(** The distance from [c] to the next occupied slot, [c] itself coming last. *)
Definition next_distance (p : processes) (c : Z) : option Z :=
  find_up (fun d => occupied p (slot_after c d)) 1 16.

(** The slot the search starts from. *)
Definition start_slot (p : processes) : Z :=
  if current_running_pid p =? NO_PROCESS_RUNNING then 0 else current_running_pid p.

(** The state with slot [j] running. *)
Definition running (p : processes) (j : Z) : processes :=
  set_current j (set_process_list (alter (with_state PROCESS_STATE_RUNNING) (Z.to_nat j) (process_list p)) p).

(** Every process that may run has a page directory that maps the kernel. *)
Definition runnable k : Prop :=
  forall j, 0 <= j < PROCESS_COUNT_MAX -> occupied (procs k) j = true ->
    let p := page_directory_virtual_addr (context (pcb_at (procs k) j)) in
    KERNEL_VIRTUAL_ADDRESS_BASE < p < 4294967296 /\ frame_at (pages k) p KERNEL_ENTRY = Some 0.

Lemma slot_after_range c d : 0 <= slot_after c d < PROCESS_COUNT_MAX.
Proof. by apply Z.mod_pos_bound. Qed.

Lemma slot_after_add c d e : slot_after (slot_after c d) e = slot_after c (d + e).
Proof. unfold slot_after. rewrite Zplus_mod_idemp_l. f_equal. lia. Qed.

Lemma next_slot c : u32 (c + 1) mod PROCESS_COUNT_MAX = slot_after c 1.
Proof. unfold slot_after, u32, PROCESS_COUNT_MAX. Z.div_mod_to_equations. lia. Qed.

Lemma wp_next_process fuel c d (Q : ProcessControlBlock -> kernel D -> Prop) k :
  find_up (fun d => occupied (procs k) (slot_after c d)) 1 fuel = Some d ->
  Q (pcb_at (procs k) (slot_after c d)) (set_procs (running (procs k) (slot_after c d)) k) ->
  wp (next_process fuel c) Q k.
Proof.
  revert c d. induction fuel as [|fuel IH]; intros c d Hd HQ; [done|].
  cbn [next_process find_up] in *. rewrite next_slot. apply wp_bind, wp_gets.
  destruct (occupied (procs k) (slot_after c 1)) eqn:Ho.
  - injection Hd as <-. apply wp_bind, wp_gets, wp_bind, wp_modify, wp_bind, wp_modify. by apply wp_ret.
  - rewrite find_up_shift in Hd. apply fmap_Some in Hd as (d' & Hd' & ->). apply (IH _ d').
    + rewrite <- Hd'. apply find_up_ext. intros j _. rewrite slot_after_add. do 2 f_equal. lia.
    + rewrite slot_after_add. by rewrite (Z.add_comm 1).
Qed.

(** The search never ends when no slot is occupied. *)
Lemma next_process_none fuel c k :
  (forall j, 0 <= j < PROCESS_COUNT_MAX -> occupied (procs k) j = false) -> next_process fuel c k = NoFuel.
Proof.
  intros Hn. revert c. induction fuel as [|fuel IH]; intros c; [done|].
  cbn [next_process]. rewrite next_slot. unfold mbind, M_bind, gets.
  rewrite Hn by apply slot_after_range. apply IH.
Qed.

(** An occupied slot is at some distance of 1 to 16. *)
Lemma slot_distance c j :
  0 <= j < PROCESS_COUNT_MAX -> exists d, 1 <= d <= 16 /\ slot_after c d = j.
Proof.
  intros Hj. exists ((j - c - 1) mod 16 + 1). unfold slot_after, PROCESS_COUNT_MAX in *.
  Z.div_mod_to_equations. lia.
Qed.

Lemma next_distance_some p c j :
  0 <= j < PROCESS_COUNT_MAX -> occupied p j = true -> is_Some (next_distance p c).
Proof.
  intros Hj Ho. destruct (slot_distance c j Hj) as (d & Hd & Hs).
  unfold next_distance. destruct (find_up _ 1 16) as [x|] eqn:E; [done|].
  apply find_up_None with (j := d) in E; [|lia]. by rewrite Hs, Ho in E.
Qed.

Lemma wp_switch d (Q : Context -> kernel D -> Prop) k :
  runnable k -> next_distance (procs k) (start_slot (procs k)) = Some d ->
  let j := slot_after (start_slot (procs k)) d in
  let p := page_directory_virtual_addr (context (pcb_at (procs k) j)) in
  (occupied (procs k) j = true ->
   Q (context (pcb_at (procs k) j)) (set_pages (set_cr3 (p - KERNEL_VIRTUAL_ADDRESS_BASE) (pages k))
     (set_procs (running (procs k) j) k))) ->
  wp (scheduler_switch_to_next_process 16) Q k.
Proof.
  intros Hrun Hd j p HQ. pose proof Hd as Hd'. apply find_up_Some in Hd' as (_ & Ho & _). fold j in Ho.
  destruct (Hrun j (slot_after_range _ _) Ho) as [Hp Hk]. fold p in Hp, Hk.
  unfold scheduler_switch_to_next_process. apply wp_bind, wp_gets, wp_bind.
  eapply wp_next_process; [exact Hd|]. fold j. apply wp_bind, wp_use_page_directory; [exact Hp|exact Hk|].
  apply wp_ret. by apply HQ.
Qed.

(** C14: with at least one occupied slot the scheduler returns after at most 16
    looks: it runs the nearest occupied slot after the current one (in the order
    of the slots, wrapping around, the current one last), makes it the running
    process, loads its page directory and switches to its saved context. *)
Theorem scheduler_switch_correct k j0 :
  runnable k -> 0 <= j0 < PROCESS_COUNT_MAX -> occupied (procs k) j0 = true ->
  exists d k', 1 <= d <= 16 /\
    let j := slot_after (start_slot (procs k)) d in
    scheduler_switch_to_next_process 16 k = Ret (context (pcb_at (procs k) j), k') /\
    occupied (procs k) j = true /\
    (forall e, (1 <= e < d) -> occupied (procs k) (slot_after (start_slot (procs k)) e) = false) /\
    procs k' = running (procs k) j /\
    cr3 (pages k') = page_directory_virtual_addr (context (pcb_at (procs k) j)) - KERNEL_VIRTUAL_ADDRESS_BASE /\
    page_frame_map (pages k') = page_frame_map (pages k) /\ phys k' = phys k.
Proof.
  intros Hrun Hj0 Hocc. destruct (next_distance_some _ (start_slot (procs k)) _ Hj0 Hocc) as [d Hd].
  pose proof Hd as Hd'. apply find_up_Some in Hd' as (Hr & Ho & Hb). exists d.
  enough (Hwp : wp (scheduler_switch_to_next_process 16) (fun a k' =>
    let j := slot_after (start_slot (procs k)) d in
    a = context (pcb_at (procs k) j) /\ procs k' = running (procs k) j /\
    cr3 (pages k') = page_directory_virtual_addr (context (pcb_at (procs k) j)) - KERNEL_VIRTUAL_ADDRESS_BASE /\
    page_frame_map (pages k') = page_frame_map (pages k) /\ phys k' = phys k) k).
  { apply wp_elim in Hwp as (a & k' & Hr' & -> & Hk'). exists k'. split; [lia|]. cbv zeta. auto. }
  by eapply wp_switch; [exact Hrun|exact Hd|].
Qed.

(** with no occupied slot the scheduler never returns, whatever the fuel. *)
Theorem scheduler_switch_diverges fuel k :
  (forall j, 0 <= j < PROCESS_COUNT_MAX -> occupied (procs k) j = false) ->
  scheduler_switch_to_next_process fuel k = NoFuel.
Proof.
  intros Hn. unfold scheduler_switch_to_next_process. unfold mbind at 1, M_bind at 1, gets.
  unfold mbind at 1, M_bind at 1. by rewrite next_process_none.
Qed.

(** ** Fairness *)

Lemma occupied_running p j i : occupied (running p j) i = occupied p i.
Proof. done. Qed.

Lemma context_running p j i :
  length (process_list p) = 16%nat -> context (pcb_at (running p j) i) = context (pcb_at p i).
Proof.
  intros Hl. unfold pcb_at, running. cbn [process_list set_current set_process_list].
  rewrite !nth_lookup. destruct (decide (Z.to_nat j = Z.to_nat i)) as [E|E].
  - rewrite E, list_lookup_alter_eq. by destruct (process_list p !! Z.to_nat i).
  - by rewrite list_lookup_alter_ne.
Qed.

Lemma runnable_running k p j c :
  length (process_list (procs k)) = 16%nat -> runnable k -> procs p = running (procs k) j ->
  pages p = set_cr3 c (pages k) -> runnable p.
Proof.
  intros Hl Hrun Hp Hpg i Hi. rewrite Hp, occupied_running, context_running, Hpg by done. by apply Hrun.
Qed.

(** The slot at distance [e] is reached within [e] switches. *)
Lemma ticks_reach n : forall e k,
  (Z.to_nat e <= n)%nat -> length (process_list (procs k)) = 16%nat -> runnable k ->
  1 <= e <= 16 -> 0 <= start_slot (procs k) ->
  occupied (procs k) (slot_after (start_slot (procs k)) e) = true ->
  exists m k', (1 <= m <= n)%nat /\ ticks m k = Ret (tt, k') /\
    current_running_pid (procs k') = slot_after (start_slot (procs k)) e.
Proof.
  induction n as [|n IH]; intros e k Hn Hl Hrun He Hs Ho; [lia|].
  destruct (next_distance_some _ (start_slot (procs k)) _ (slot_after_range _ e) Ho) as [d Hd].
  assert (Hde : d <= e).
  { apply find_up_Some in Hd as (_ & _ & Hb). destruct (decide (d <= e)); [done|].
    rewrite (Hb e) in Ho by lia. done. }
  assert (Hwp : wp (scheduler_switch_to_next_process 16) (fun _ k1 =>
    procs k1 = running (procs k) (slot_after (start_slot (procs k)) d) /\ exists c, pages k1 = set_cr3 c (pages k)) k).
  { eapply wp_switch; [exact Hrun|exact Hd|]. intros _. split; [done|]. by eexists. }
  apply wp_elim in Hwp as (a & k1 & Hr & Hp & c & Hpg).
  assert (Hd1 : 1 <= d) by (apply find_up_Some in Hd as (? & _); lia).
  destruct (decide (d = e)) as [->|Hne].
  - exists 1%nat, k1. split; [lia|]. cbn [ticks]. unfold mbind, M_bind. rewrite Hr. split; [done|]. by rewrite Hp.
  - assert (Hstart : start_slot (procs k1) = slot_after (start_slot (procs k)) d).
    { rewrite Hp. unfold start_slot, running. cbn [current_running_pid set_current].
      pose proof (slot_after_range (start_slot (procs k)) d). unfold start_slot in *.
      rewrite (proj2 (Z.eqb_neq _ _)); [done|]. unfold NO_PROCESS_RUNNING, PROCESS_COUNT_MAX in *. lia. }
    destruct (IH (e - d) k1) as (m & k' & Hm & Hr' & Hc).
    + lia.
    + rewrite Hp. cbn. by rewrite length_alter.
    + by eapply runnable_running.
    + lia.
    + rewrite Hstart. apply slot_after_range.
    + rewrite Hstart, slot_after_add, Hp, occupied_running. by replace (d + (e - d)) with e by lia.
    + exists (S m), k'. split; [lia|]. split.
      * cbn [ticks]. unfold mbind, M_bind. rewrite Hr. exact Hr'.
      * rewrite Hc, Hstart, slot_after_add. f_equal. lia.
Qed.

(** C15: no process starves: every occupied slot gets to run within 16 timer
    ticks, whatever slots are occupied and whichever process runs now. *)
Theorem scheduler_fair k j :
  procs_ok (procs k) -> runnable k -> 0 <= current_running_pid (procs k) < 4294967296 ->
  0 <= j < PROCESS_COUNT_MAX -> occupied (procs k) j = true ->
  exists n k', (1 <= n <= 16)%nat /\ ticks n k = Ret (tt, k') /\ current_running_pid (procs k') = j.
Proof.
  intros [Hl _] Hrun Hc Hj Ho. destruct (slot_distance (start_slot (procs k)) j Hj) as (e & He & Hs).
  destruct (ticks_reach 16 e k) as (n & k' & Hn & Hr & Hcur); try done; try lia.
  - unfold start_slot. destruct (_ =? _); lia.
  - by rewrite Hs.
  - exists n, k'. rewrite Hcur, Hs. done.
Qed.

(** ** Saving the context *)

(** a saved context goes to the first occupied block whose pid is the running
    one: the block is ready, keeps its page directory and resumes where it was
    interrupted; other blocks are unchanged.  When no occupied block has that
    pid the context is dropped. *)
Theorem save_context_correct ctx k :
  procs_ok (procs k) ->
  let found := process_get_current_running_pcb_pointer (procs k) in
  exists k', scheduler_save_context_to_current_running_pcb ctx k = Ret (tt, k') /\
    match found with
    | None => k' = k
    | Some i =>
        (forall j, (0 <= j < PROCESS_COUNT_MAX) -> j <> i -> pcb_at (procs k') j = pcb_at (procs k) j) /\
        pcb_at (procs k') i =
          let b := pcb_at (procs k) i in
          Pcb (pid b) (pname b) PROCESS_STATE_READY
            (Ctx (cpu ctx) (eip ctx) (eflags ctx) (page_directory_virtual_addr (context b)))
            (virtual_addr_used b) (page_frame_used_count b)
    end.
Proof.
  intros [Hl _] found. unfold scheduler_save_context_to_current_running_pcb, mbind, M_bind, gets.
  fold found. destruct found as [i|] eqn:Hf; [|by exists k].
  assert (Hi : 0 <= i < 16).
  { unfold found, process_get_current_running_pcb_pointer in Hf. apply find_up_Some in Hf as (Hr & _).
    unfold PROCESS_COUNT_MAX in Hr. lia. }
  eexists. split; [done|]. unfold pcb_at. cbn [procs set_procs process_list set_process_list]. split.
  - intros j Hj Hji. rewrite !nth_lookup. rewrite !list_lookup_alter_ne by lia. done.
  - rewrite !nth_lookup. rewrite !list_lookup_alter_eq.
    destruct (lookup_lt_is_Some_2 (process_list (procs k)) (Z.to_nat i)) as [b Hb]; [lia|]. by rewrite Hb.
Qed.

End Scheduler.

(** ** The theorems at a concrete process table *)

Module SchedulerSample.

Definition block (id : Z) : ProcessControlBlock :=
  Pcb id (zeros 32) PROCESS_STATE_READY (with_page_directory PagingSample.kernel_at (process_initialize_context 0))
    (replicate 8 0) 0.

(** Slots 3 and 9 are occupied, 3 runs. *)
Definition table : processes :=
  Processes (<[9%nat := block 9]> (<[3%nat := block 3]> (replicate 16 zero_pcb)))
    (<[9%nat := true]> (<[3%nat := true]> (replicate 16 false))) 2 3.

Definition state : kernel unit := Kernel PagingSample.init ∅ tt ∅ table.

Definition idle : kernel unit := Kernel PagingSample.init ∅ tt ∅ processes_init.

End SchedulerSample.

Lemma sample_occupied j :
  0 <= j < PROCESS_COUNT_MAX -> occupied (procs SchedulerSample.state) j = true -> j = 3 \/ j = 9.
Proof.
  intros Hj Ho. assert (Hin : j ∈ seqZ 0 16) by (apply elem_of_seqZ; unfold PROCESS_COUNT_MAX in Hj; lia).
  assert (Hall : Forall (fun i => occupied (procs SchedulerSample.state) i = true -> i = 3 \/ i = 9) (seqZ 0 16))
    by (by apply (bool_decide_unpack _)).
  rewrite Forall_forall in Hall. by apply Hall.
Qed.

Lemma sample_runnable : runnable SchedulerSample.state.
Proof.
  intros j Hj Ho. destruct (sample_occupied j Hj Ho) as [-> | ->];
    (split; [cbv zeta; vm_compute; intuition congruence|vm_compute; reflexivity]).
Qed.

Lemma scheduler_switch_correct_witness :
  exists k', scheduler_switch_to_next_process (D := unit) 16 SchedulerSample.state =
    Ret (context (SchedulerSample.block 9), k') /\ current_running_pid (procs k') = 9.
Proof.
  destruct (scheduler_switch_correct SchedulerSample.state 3) as (d & k' & Hd & Hr & Ho & Hb & Hp & _).
  - exact sample_runnable.
  - unfold PROCESS_COUNT_MAX. lia.
  - reflexivity.
  - assert (d = 6) as ->.
    { destruct (decide (d = 6)) as [|Hne]; [done|]. exfalso.
      destruct (decide (d < 6)).
      - destruct (sample_occupied _ (slot_after_range _ _) Ho) as [E|E];
          unfold slot_after, PROCESS_COUNT_MAX in E; change (start_slot (procs SchedulerSample.state)) with 3 in E;
          rewrite Z.mod_small in E; lia.
      - specialize (Hb 6 ltac:(lia)). vm_compute in Hb. discriminate. }
    exists k'. split; [exact Hr|]. by rewrite Hp.
Defined.

Lemma scheduler_switch_diverges_witness :
  scheduler_switch_to_next_process (D := unit) 1000 SchedulerSample.idle = NoFuel.
Proof.
  apply scheduler_switch_diverges. intros j Hj. unfold occupied. cbn [procs SchedulerSample.idle processes_init
    process_slot_occupied]. rewrite nth_lookup. destruct (_ !! _) as [b|] eqn:E; [|done].
  by apply lookup_replicate in E as [-> _].
Defined.

Lemma scheduler_fair_witness :
  exists n k', (1 <= n <= 16)%nat /\ ticks (D := unit) n SchedulerSample.state = Ret (tt, k') /\
    current_running_pid (procs k') = 3.
Proof.
  apply (scheduler_fair SchedulerSample.state 3).
  - split; reflexivity.
  - exact sample_runnable.
  - cbn. lia.
  - unfold PROCESS_COUNT_MAX. lia.
  - reflexivity.
Defined.

Lemma save_context_correct_witness :
  exists k', scheduler_save_context_to_current_running_pcb (D := unit) (Ctx zero_cpu 0x1234 0x202 0)
      SchedulerSample.state = Ret (tt, k') /\
    eip (context (pcb_at (procs k') 3)) = 0x1234.
Proof.
  destruct (save_context_correct (Ctx zero_cpu 0x1234 0x202 0) SchedulerSample.state) as (k' & Hr & Hk).
  - split; reflexivity.
  - exists k'. split; [exact Hr|].
    change (process_get_current_running_pcb_pointer (procs SchedulerSample.state)) with (Some 3) in Hk.
    destruct Hk as [_ ->]. reflexivity.
Defined.
