(* ===== verification/ProcessTypes.v ===== *)
(** The process table is well typed: whatever the process manager and the
    scheduler are asked to do, every field of the table holds a value of its C
    type, the arrays have their lengths, and every name ends in a NUL. *)
From Stdlib Require Import ZArith Lia.
From stdpp Require Import base numbers option strings zmap functions list.
From S2P Require Import Prelude CString Disk FatTypes Fat32 Paging PagingSpec Process ProcessSpec ProcessSample Scheduler.

(** ** Values of the C types *)

Definition uint32_ok (x : Z) : Prop := 0 <= x < 4294967296.

Definition cpu_ok (c : CPURegister) : Prop :=
  Forall uint32_ok [edi c; esi c; ebp c; esp c; ebx c; edx c; ecx c; eax c; gs c; fs_seg c; es c; ds c].

Definition context_ok (c : Context) : Prop :=
  cpu_ok (cpu c) /\ uint32_ok (eip c) /\ uint32_ok (eflags c) /\ uint32_ok (page_directory_virtual_addr c).

(** A [char] array of [PROCESS_NAME_LENGTH_MAX] that is a string. *)
Definition name_ok (nm : list byte) : Prop := length nm = 32%nat /\ nm !! 31%nat = Some (z2b 0).

Record pcb_ok (b : ProcessControlBlock) : Prop := {
  pcb_pid : uint32_ok (pid b);
  pcb_name : name_ok (pname b);
  pcb_context : context_ok (context b);
  pcb_memory : length (virtual_addr_used b) = 8%nat /\ Forall uint32_ok (virtual_addr_used b);
  pcb_frames : uint32_ok (page_frame_used_count b);
}.

(** The table and the state of the manager, with bounds for the [int] that
    counts the processes. *)
Record procs_typed (lo hi : Z) (p : processes) : Prop := {
  typed_list : length (process_list p) = 16%nat /\ Forall pcb_ok (process_list p);
  typed_slots : length (process_slot_occupied p) = 16%nat;
  typed_current : uint32_ok (current_running_pid p);
  typed_count : lo <= active_process_count p <= hi;
}.

(** The states whose process table has the type. *)
Definition typed_kernel {D} (lo hi : Z) (k : kernel D) : Prop := procs_typed lo hi (procs k).

Lemma zero_pcb_ok : pcb_ok zero_pcb.
Proof. split; by apply (bool_decide_unpack _) || (repeat split; try (repeat constructor); done). Qed.

Lemma init_typed : procs_typed 0 16 processes_init.
Proof. split; [split; [done|]|done|done|done]. apply Forall_replicate. exact zero_pcb_ok. Qed.

Lemma procs_typed_weaken lo hi lo' hi' p : lo' <= lo -> hi <= hi' -> procs_typed lo hi p -> procs_typed lo' hi' p.
Proof. intros ?? [Hl Hs Hc Hn]. split; [done..|lia]. Qed.

(** ** Changes of the table *)

Section Types.
Context {D : Type} `{!Disk D} (page_directory_list : Z).
Implicit Types (k : kernel D) (lo hi : Z).

Abbreviation typed lo hi := (typed_kernel (D := D) lo hi).

(** The array of directories lies in the address space. *)
Hypothesis directories_in_range : forall i, 0 <= i < PAGING_DIRECTORY_TABLE_MAX_COUNT -> uint32_ok (directory_addr page_directory_list i).

Lemma lift_pages_typed {A} lo hi (c : M paging A) : keeps (typed lo hi) (lift_pages (D := D) c).
Proof. intros k a k' Hr. unfold lift_pages, mbind, res_mbind in Hr. destruct (c (pages k)) as [[b p]| |]; [|done..]. by injection Hr as <- <-. Qed.

Lemma use_directory_typed lo hi p : keeps (typed lo hi) (use_page_directory (D := D) p).
Proof.
  intros k a k' Hr. unfold use_page_directory, mbind, res_mbind in Hr.
  destruct (paging_use_page_directory p (pages k)) as [[b s]| |]; [|done..]. cbn in Hr. case_decide; [|done]. by injection Hr as <- <-.
Qed.

Lemma read_user_typed lo hi r : keeps (typed lo hi) (read_user (D := D) r).
Proof.
  intros k a k' Hr. unfold read_user, mbind, res_mbind in Hr. destruct (read r _) as [[b s]| |]; [|done..]. cbn in Hr.
  destruct (store_pages _ _ _); [|done]. by injection Hr as <- <-.
Qed.

Lemma pcb_update_typed lo hi i f : (forall b, pcb_ok b -> pcb_ok (f b)) -> keeps (typed lo hi) (pcb_update (D := D) i f).
Proof.
  intros Hf. apply keeps_modify. intros k [[Hl Hall] Hs Hc Hn]. split; try done. cbn [procs set_procs set_process_list process_list].
  split; [by rewrite length_alter|]. apply Forall_alter; [done|]. intros b _. apply Hf.
Qed.

Lemma process_name_ok old r : name_ok (process_name old r).
Proof.
  unfold process_name. set (m := strncpy _ _ _ _ _). split; [apply length_load|].
  change (Z.to_nat PROCESS_NAME_LENGTH_MAX) with 32%nat. rewrite lookup_load by lia.
  change (0 + Z.of_nat 31) with (PROCESS_NAME_LENGTH_MAX - 1). cbn [store]. by rewrite mget_insert, decide_True.
Qed.

Lemma metadata_ok id nm st b : uint32_ok id -> name_ok nm -> pcb_ok b -> pcb_ok (with_metadata id nm st b).
Proof. intros Hi Hn [_ _ Hc Hm Hf]. by split. Qed.

Lemma state_ok st b : pcb_ok b -> pcb_ok (with_state st b).
Proof. intros [Hi Hn Hc Hm Hf]. by split. Qed.

Lemma with_context_ok c b : context_ok c -> pcb_ok b -> pcb_ok (with_context c b).
Proof. intros Hc [Hi Hn _ Hm Hf]. by split. Qed.

Lemma directory_ok p b : uint32_ok p -> pcb_ok b -> pcb_ok (with_context (with_page_directory p (context b)) b).
Proof. intros Hp Hb. apply with_context_ok; [|done]. destruct (pcb_context _ Hb) as (? & ? & ? & _). by split. Qed.

Lemma initial_context_ok entry : uint32_ok entry -> context_ok (process_initialize_context entry).
Proof. intros He. split; [|done]. repeat constructor; done. Qed.

(** ** The values that the calls return *)

Lemma current_directory_value k a k' :
  lift_pages (D := D) paging_get_current_page_directory_addr k = Ret (a, k') -> uint32_ok a.
Proof. intros [= <- _]. by apply Z.mod_pos_bound. Qed.

Lemma new_directory_value djunk k a k' :
  lift_pages (D := D) (paging_create_new_page_directory page_directory_list djunk) k = Ret (a, k') ->
  match a with Some p => uint32_ok p | None => True end.
Proof.
  unfold lift_pages, mbind, res_mbind. destruct (paging_create_new_page_directory _ _ _) as [[b s]| |] eqn:E; [|done..].
  intros [= <- _]. unfold paging_create_new_page_directory in E. apply bind_Ret_inv in E as (first & s1 & [-> ->]%gets_Ret_inv & E).
  cbv beta in E. destruct (find_up _ _ _) as [i|] eqn:Hi; [|by injection E as <- _]. apply find_up_Some in Hi as (Hi & _).
  repeat (apply bind_Ret_inv in E as (? & ? & _ & E)). injection E as <- _. apply directories_in_range. lia.
Qed.

(** ** The operations *)

Lemma running_typed lo hi x : uint32_ok x -> keeps (typed lo hi) (modify (fun k => set_procs (set_current x (procs k)) k)).
Proof. intros Hx. apply keeps_modify. intros k [Hl Hs _ Hn]. by split. Qed.

Lemma current_next_typed lo hi :
  keeps (typed lo hi) (modify (fun k => set_procs (set_current (u32 (current_running_pid (procs k) + 1)) (procs k)) k)).
Proof. apply keeps_modify. intros k [Hl Hs _ Hn]. split; try done. by apply Z.mod_pos_bound. Qed.

Lemma slots_typed lo hi i b n :
  leads (typed lo hi) (typed (lo + n) (hi + n))
    (modify (fun k => set_procs (set_slots (<[Z.to_nat i := b]> (process_slot_occupied (procs k))) (active_process_count (procs k) + n) (procs k)) k)).
Proof.
  apply leads_modify. intros k [Hl Hs Hc Hn]. split; try done; cbn [procs set_procs set_slots process_slot_occupied active_process_count].
  - by rewrite length_insert.
  - lia.
Qed.

Lemma setup_typed lo djunk fjunk r i :
  uint32_ok (buf r) -> leads (typed lo 15) (typed lo 16) (process_setup page_directory_list djunk fjunk r i).
Proof.
  intros Hr. assert (Hstop : forall code : Z, leads (typed lo 15) (typed lo 16) (mret (M := M (kernel D)) code)).
  { intros code. apply leads_ret. intros k. by apply procs_typed_weaken. }
  apply leads_gets. intros id. apply leads_bind with (J := typed lo 15).
  { intros k a k' Hu [Ht <-]. eapply pcb_update_typed; [|exact Hu|exact Ht]. intros b Hb. cbv beta.
    apply metadata_ok; [apply Ht|apply process_name_ok|done]. }
  intros _. eapply leads_call; [apply lift_pages_typed|apply new_directory_value|]. intros [p|] Hp; [|apply Hstop].
  eapply leads_call; [apply lift_pages_typed|apply current_directory_value|]. intros old _.
  apply leads_bind with (J := typed lo 15); [apply use_directory_typed|intros _].
  apply leads_bind with (J := typed lo 15); [apply lift_pages_typed|intros _].
  apply leads_bind with (J := typed lo 15); [apply read_user_typed|intros code]. destruct (negb _); [apply Hstop|].
  apply leads_bind with (J := typed lo 15); [apply use_directory_typed|intros _].
  apply leads_bind with (J := typed lo 15); [apply current_next_typed|intros _].
  apply leads_bind with (J := typed lo 15); [apply pcb_update_typed; intros b; by apply with_context_ok, initial_context_ok|intros _].
  apply leads_bind with (J := typed lo 15); [apply pcb_update_typed; intros b; by apply directory_ok|intros _].
  apply leads_bind with (J := typed (lo + 1) (15 + 1)); [apply slots_typed|intros _].
  apply leads_ret. intros k. apply procs_typed_weaken; lia.
Qed.

Lemma create_typed lo djunk fjunk r :
  uint32_ok (buf r) -> leads (typed lo 16) (typed lo 16) (process_create_user_process page_directory_list djunk fjunk r).
Proof.
  intros Hr. apply leads_gets. intros p. destruct (_ >=? _) eqn:Hc; [apply leads_ret; by intros k [? _]|].
  rewrite Z.geb_leb in Hc. apply Z.leb_gt in Hc. apply leads_weaken with (I' := typed lo 15) (J' := typed lo 16); [|intros k [[Hl Hs Hcur Hn] <-]|done].
  2: { split; try done. unfold PROCESS_COUNT_MAX in Hc. lia. }
  assert (Hstop : forall code : Z, leads (typed lo 15) (typed lo 16) (mret (M := M (kernel D)) code)).
  { intros code. apply leads_ret. intros k. by apply procs_typed_weaken. }
  destruct (_ >=? _); [apply Hstop|]. cbv zeta. apply leads_bind with (J := typed lo 15); [apply lift_pages_typed|intros enough].
  destruct (_ || _); [apply Hstop|]. destruct (process_list_get_inactive_index p) as [i|]; [by apply setup_typed|apply Hstop].
Qed.

Lemma destroy_typed lo hi id : leads (typed lo hi) (typed (lo - 1) hi) (process_destroy (D := D) id).
Proof.
  apply leads_gets. intros [i|]; [|apply leads_ret; intros k [Ht _]; by eapply procs_typed_weaken; [..|exact Ht]; lia].
  apply leads_weaken with (I' := typed lo hi) (J' := typed (lo - 1) hi); [|by intros k [? _]|done].
  apply leads_bind with (J := typed lo hi); [apply pcb_update_typed; intros b _; exact zero_pcb_ok|intros _].
  apply leads_bind with (J := typed (lo + -1) (hi + -1)); [apply slots_typed|intros _].
  apply leads_ret. intros k. apply procs_typed_weaken; lia.
Qed.

Lemma save_typed lo hi ctx :
  context_ok ctx -> keeps (typed lo hi) (scheduler_save_context_to_current_running_pcb (D := D) ctx).
Proof.
  intros (H1 & H2 & H3 & _). apply keeps_bind; [apply keeps_gets|]. intros [i|]; [|apply keeps_ret].
  apply keeps_bind; [apply pcb_update_typed, state_ok|intros _]. apply pcb_update_typed. intros b Hb.
  apply with_context_ok; [|done]. destruct (pcb_context _ Hb) as (_ & _ & _ & ?). by split; [|split; [|split]].
Qed.

Lemma next_typed lo hi fuel c : keeps (typed lo hi) (next_process (D := D) fuel c).
Proof.
  revert c. induction fuel as [|fuel IH]; intros c; cbn [next_process]; [apply keeps_out_of_fuel|]. cbv zeta.
  apply keeps_bind; [apply keeps_gets|]. intros b. destruct b; [|apply IH].
  apply keeps_bind; [apply keeps_gets|intros pcb]. apply keeps_bind; [apply pcb_update_typed, state_ok|intros _].
  apply keeps_bind; [|intros _; apply keeps_ret]. apply running_typed.
  unfold uint32_ok. pose proof (Z.mod_pos_bound (u32 (c + 1)) PROCESS_COUNT_MAX eq_refl). unfold PROCESS_COUNT_MAX in *. lia.
Qed.

Lemma switch_typed lo hi fuel : keeps (typed lo hi) (scheduler_switch_to_next_process (D := D) fuel).
Proof.
  apply keeps_bind; [apply keeps_gets|intros c]. apply keeps_bind; [apply next_typed|intros pcb].
  apply keeps_bind; [apply use_directory_typed|intros _]. apply keeps_ret.
Qed.

Lemma allocate_typed lo hi fjunk i va : keeps (typed lo hi) (process_allocate_virtual_memory (D := D) fjunk i va).
Proof.
  eapply (leads_call _ (typed lo hi)); [apply lift_pages_typed|apply current_directory_value|]. intros p Hp.
  apply keeps_bind; [apply lift_pages_typed|intros ok]. apply keeps_bind; [|intros _; apply keeps_ret].
  destruct ok; [|apply keeps_ret]. apply pcb_update_typed. intros b. by apply directory_ok.
Qed.

Lemma load_typed lo hi i r : leads (typed lo hi) (typed (lo - 1) hi) (process_load_executable (D := D) i r).
Proof.
  assert (Hdone : forall code : Z, leads (typed lo hi) (typed (lo - 1) hi) (mret (M := M (kernel D)) code)).
  { intros code. apply leads_ret. intros k. apply procs_typed_weaken; lia. }
  apply leads_bind with (J := typed lo hi); [apply lift_pages_typed|intros old].
  apply leads_bind with (J := typed lo hi); [apply keeps_gets|intros b].
  apply leads_bind with (J := typed lo hi); [apply use_directory_typed|intros _].
  apply leads_bind with (J := typed lo hi); [apply read_user_typed|intros code].
  apply leads_bind with (J := typed lo hi); [apply use_directory_typed|intros _].
  destruct (code <? 0); [|apply Hdone]. apply leads_bind with (J := typed lo hi); [apply keeps_gets|intros id].
  apply leads_bind with (J := typed (lo - 1) hi); [apply destroy_typed|intros _]. by apply leads_ret.
Qed.

(** ** Sequences *)

(** What the rest of the kernel asks of the process manager and the scheduler;
    the junk is what locals hold that are not set. *)
Inductive process_op :=
| CreateProcess (djunk : PageDirectoryEntry) (fjunk : PageDirectoryEntryFlag) (r : request)
| DestroyProcess (id : Z)
| AllocateMemory (fjunk : PageDirectoryEntryFlag) (i virtual_addr : Z)
| LoadExecutable (i : Z) (r : request)
| SaveContext (ctx : Context)
| SwitchProcess (fuel : nat).

Definition run_process_op (o : process_op) : M (kernel D) unit :=
  match o with
  | CreateProcess djunk fjunk r => process_create_user_process page_directory_list djunk fjunk r ;; mret tt
  | DestroyProcess id => process_destroy id ;; mret tt
  | AllocateMemory fjunk i va => process_allocate_virtual_memory fjunk i va ;; mret tt
  | LoadExecutable i r => process_load_executable i r ;; mret tt
  | SaveContext ctx => scheduler_save_context_to_current_running_pcb ctx
  | SwitchProcess fuel => scheduler_switch_to_next_process fuel ;; mret tt
  end.

(** The arguments have their C types. *)
Definition typed_op (o : process_op) : Prop :=
  match o with
  | CreateProcess _ _ r => uint32_ok (buf r)
  | SaveContext ctx => context_ok ctx
  | _ => True
  end.

Lemma run_process_op_typed lo o : typed_op o -> leads (typed lo 16) (typed (lo - 1) 16) (run_process_op o).
Proof.
  assert (Hw : forall k, typed lo 16 k -> typed (lo - 1) 16 k) by (intros k; apply procs_typed_weaken; lia).
  intros Ho. destruct o; cbn [run_process_op typed_op] in *.
  - eapply leads_bind; [by apply create_typed|intros _; by apply leads_ret].
  - eapply leads_bind; [apply destroy_typed|intros _; by apply leads_ret].
  - eapply leads_bind; [apply allocate_typed|intros _; by apply leads_ret].
  - eapply leads_bind; [apply load_typed|intros _; by apply leads_ret].
  - intros k a k' Hr Ht. apply Hw. by eapply save_typed.
  - eapply leads_bind; [apply switch_typed|intros _; by apply leads_ret].
Qed.

(** The states of the kernel after [n] operations from the zeros of the static
    objects; in between anything but the process table may change. *)
Inductive after_ops : Z -> kernel D -> Prop :=
| ops_start k : procs k = processes_init -> after_ops 0 k
| ops_other n k k' : after_ops n k -> procs k' = procs k -> after_ops n k'
| ops_run n k o k' : after_ops n k -> typed_op o -> run_process_op o k = Ret (tt, k') -> after_ops (n + 1) k'.

(** C13: The process table is well typed after any sequence of operations of the
    process manager and the scheduler with typed arguments: the table has 16
    blocks, every pid, register and address in it fits 32 bits, every name is a
    string that ends within its 32 bytes, there are 8 addresses for each
    process, and the running process is a value of 32 bits.  The count of the
    processes is at most 16; it can become negative, since blocks that are not
    in use can be destroyed, but by at most one for each operation, so that the
    [int] does not overflow in the first 2^31 operations. *)
Theorem process_table_typed n k :
  after_ops n k -> procs_typed (- n) 16 (procs k) /\ (n <= 2147483648 -> -2147483648 <= active_process_count (procs k) < 2147483648).
Proof.
  intros Hk. assert (Ht : procs_typed (- n) 16 (procs k)).
  { induction Hk as [k Hk|n k k' _ IH Hk|n k o k' _ IH Ho Hr].
    - rewrite Hk. apply init_typed.
    - by rewrite Hk.
    - replace (- (n + 1)) with (- n - 1) by lia. by eapply run_process_op_typed. }
  split; [done|]. destruct Ht. lia.
Qed.

End Types.

(** ** A sequence *)

Lemma sample_directories i :
  0 <= i < PAGING_DIRECTORY_TABLE_MAX_COUNT -> uint32_ok (directory_addr PagingSample.list_at i).
Proof.
  intros Hi. unfold uint32_ok, directory_addr. pose proof sample_list_low. pose proof sample_list_high.
  unfold sizeof_PageDirectory, KERNEL_VIRTUAL_ADDRESS_BASE, PAGING_DIRECTORY_TABLE_MAX_COUNT in *. lia.
Qed.

(** The creation of a process in the sample kernel. *)
Lemma sample_created :
  exists k, run_process_op PagingSample.list_at (CreateProcess zero_entry zero_flag ProcessSample.program) ProcessSample.kernel0 = Ret (tt, k) /\
    procs k = started 0 ProcessSample.program (directory_addr PagingSample.list_at 0) processes_init.
Proof.
  destruct sample_program_read as (s & Hread & Hpage & _). pose proof (sample_can_start ProcessSample.program eq_refl eq_refl) as Hs.
  destruct (wp_elim (process_setup PagingSample.list_at zero_entry zero_flag ProcessSample.program 0)
    (fun _ k => procs k = started 0 ProcessSample.program (directory_addr PagingSample.list_at 0) processes_init) ProcessSample.kernel0)
    as (code & k & Hr & Hp).
  { eapply (wp_process_setup PagingSample.list_at sample_list_high sample_list_low); [exact Hs|exact Hread|exact Hpage|]. by intros f pg m _ _ _. }
  exists k. split; [|exact Hp]. cbn [run_process_op]. unfold mbind at 1, M_bind at 1.
  rewrite (create_setup PagingSample.list_at _ _ _ _ _ _ Hs), Hr. reflexivity.
Qed.

(** A process is created, and destroyed by its pid, which is 0. *)
Lemma process_table_typed_witness :
  exists k1 k2, after_ops (D := Inserter.image) PagingSample.list_at 1 k1 /\ active_process_count (procs k1) = 1 /\
    after_ops (D := Inserter.image) PagingSample.list_at 2 k2 /\ procs_typed (-2) 16 (procs k2) /\ active_process_count (procs k2) = 0.
Proof.
  destruct sample_created as (k1 & H1 & Hp1).
  assert (Hb : typed_op (CreateProcess zero_entry zero_flag ProcessSample.program)) by (split; [vm_compute; discriminate|vm_compute; reflexivity]).
  pose proof (ops_run PagingSample.list_at 0 ProcessSample.kernel0 _ k1 (ops_start _ ProcessSample.kernel0 eq_refl) Hb H1) as Ha1.
  change (0 + 1) with 1 in Ha1.
  destruct (process_destroy_correct 0 k1) as (k2 & H2 & _ & _ & _ & _ & Hp2); [rewrite Hp1; split; vm_compute; reflexivity|].
  rewrite Hp1 in Hp2. assert (Hr2 : run_process_op PagingSample.list_at (DestroyProcess 0) k1 = Ret (tt, k2)).
  { cbn [run_process_op]. unfold mbind at 1, M_bind at 1. rewrite H2. reflexivity. }
  pose proof (ops_run PagingSample.list_at 1 k1 (DestroyProcess 0) k2 Ha1 I Hr2) as Ha2. change (1 + 1) with 2 in Ha2.
  exists k1, k2. split; [exact Ha1|]. split; [rewrite Hp1; vm_compute; reflexivity|]. split; [exact Ha2|].
  split; [apply (process_table_typed PagingSample.list_at sample_directories 2 k2 Ha2)|]. rewrite Hp2. vm_compute. reflexivity.
Defined.
