(* ===== verification/Framebuffer.v ===== *)
(** The text console: src/src/framebuffer.c.  The state is the framebuffer, an
    object of bytes at FRAMEBUFFER_MEMORY_OFFSET, and the hardware behind the
    ports, whose cursor registers are a parameter with their documented
    behaviour as laws. *)
From Stdlib Require Import ZArith Lia.
From stdpp Require Import base numbers option strings zmap functions list.
From S2P Require Import Prelude Ports.

Definition VGA_WIDTH : Z := 80.
Definition VGA_HEIGHT : Z := 25.
Definition CURSOR_PORT_CMD : Z := 0x3D4.
Definition CURSOR_PORT_DATA : Z := 0x3D5.

Record console (P : Type) := Console { fb : mem; hw : P }.
Arguments Console {P} fb hw.
Arguments fb {P} c.
Arguments hw {P} c.

Section Console.
Context {P : Type} `{!Ports P}.

(** ** Operations *)

Definition lift_hw {A} (c : M P A) : M (console P) A := fun s =>
  '(a, p) ← c (hw s);
  Ret (a, Console (fb s) p).

Definition set_fb (m : mem) (s : console P) : console P := Console m (hw s).

Definition framebuffer_set_cursor (r c : Z) : M (console P) unit :=
  let pos := u16 (u8 r * VGA_WIDTH + u8 c) in
  lift_hw (out 0x3D4 0x0F ;;
           out 0x3D5 (u8 (Z.land pos 0xFF)) ;;
           out 0x3D4 0x0E ;;
           out 0x3D5 (u8 (Z.land (Z.shiftr pos 8) 0xFF))).

Definition framebuffer_write (row col c fg bg : Z) : M (console P) unit :=
  modify (fun s => set_fb
    (<[(u8 row * VGA_WIDTH + u8 col) * 2 + 1 := z2b (Z.lor (u8 fg) (u8 bg))]>
      (<[(u8 row * VGA_WIDTH + u8 col) * 2 := z2b c]> (fb s))) s).

Definition framebuffer_clear : M (console P) unit :=
  for_up (fun i => for_up (fun j => framebuffer_write j i 0 7 7) 0 25) 0 80 ;;
  framebuffer_set_cursor 0 0.

Definition framebuffer_get (row col : Z) : M (console P) Z :=
  gets (fun s => i8 (b2z (mget (fb s) ((u8 row * VGA_WIDTH + u8 col) * 2)))).

Definition get_cursor_pos : M (console P) Z :=
  lift_hw (out 0x3D4 0x0F ;;
           lo ← in8 0x3D5;
           out 0x3D4 0x0E ;;
           hi ← in8 0x3D5;
           mret (u16 (Z.lor (Z.lor 0 lo) (Z.shiftl hi 8)))).

(** Copy the character and the colour of the cell below. *)
Definition copy_up (i j : Z) : M (console P) unit :=
  modify (fun s => set_fb (<[(i * VGA_WIDTH + j) * 2 := mget (fb s) (((i + 1) * VGA_WIDTH + j) * 2)]> (fb s)) s) ;;
  modify (fun s => set_fb
    (<[(i * VGA_WIDTH + j) * 2 + 1 := mget (fb s) (((i + 1) * VGA_WIDTH + j) * 2 + 1)]> (fb s)) s).

Definition shift_up : M (console P) unit :=
  for_up (fun i => for_up (copy_up i) 0 80) 0 24 ;;
  for_up (fun j => framebuffer_write (VGA_HEIGHT - 1) j 0 7 7) 0 80.

(** The loop of a backspace at the start of a row: back to the last cell in
    use. *)
Fixpoint back_loop (fuel : nat) (row_now col : Z) : M (console P) (Z * Z) :=
  match fuel with
  | O => out_of_fuel
  | S fuel' =>
      v ← framebuffer_get row_now col;
      if (v =? 0) && negb (v =? 10) then
        let row_now' := if col =? 0 then u16 (row_now - 1) else row_now in
        let col' := if col =? 0 then VGA_WIDTH else col in
        back_loop fuel' row_now' (u16 (col' - 1))
      else mret (row_now, col)
  end.

(** The row and column after the character [c] has been put at a position. *)
Definition put_cell (fuel : nat) (c color row_now col : Z) : M (console P) (Z * Z) :=
  if c =? 10 then
    framebuffer_write row_now col c 0 0 ;;
    mret (u16 (row_now + 1), 0)
  else if c =? 8 then
    if col >? 0 then
      framebuffer_write row_now (col - 1) 0 7 7 ;;
      mret (row_now, col - 1)
    else if row_now >? 0 then
      p ← back_loop fuel (row_now - 1) (VGA_WIDTH - 1);
      framebuffer_write (fst p) (snd p) 0 7 7 ;;
      mret p
    else mret (row_now, col)
  else
    framebuffer_write row_now col c color 0 ;;
    mret (row_now, u16 (col + 1)).

Definition putchar (fuel : nat) (c color : Z) : M (console P) unit :=
  if c =? 0 then mret tt
  else
    pos1 ← get_cursor_pos;
    pos2 ← get_cursor_pos;
    p ← put_cell fuel c color (pos1 / VGA_WIDTH) (pos2 mod VGA_WIDTH);
    let row_now := u16 (fst p + snd p / VGA_WIDTH) in
    let col := snd p mod VGA_WIDTH in
    row_now ← (if row_now =? VGA_HEIGHT then shift_up ;; mret (VGA_HEIGHT - 1) else mret row_now);
    framebuffer_set_cursor row_now col.

(** [puts] of the [len] characters at [str] in [m]. *)
Definition puts (fuel : nat) (m : mem) (str : Z) (len : nat) (color : Z) : M (console P) unit :=
  for_up (fun i => putchar fuel (i8 (b2z (mget m (str + i)))) color) 0 len.

End Console.

(** ** The cursor registers *)

(** The CRT controller: an index register at 0x3D4 and the register it selects
    at 0x3D5, of eight bits. *)
Class Crtc (P : Type) `{Ports P} := {
  crtc_index : P -> Z;
  crtc_reg : P -> Z -> Z;
  crtc_range p i : 0 <= crtc_reg p i < 256;
  crtc_select p v : 0 <= v < 256 ->
    crtc_index (outb 0x3D4 v p) = v /\ forall i, crtc_reg (outb 0x3D4 v p) i = crtc_reg p i;
  crtc_write p v : 0 <= v < 256 ->
    forall i, crtc_reg (outb 0x3D5 v p) i = if decide (i = crtc_index p) then v else crtc_reg p i;
  crtc_read p : fst (inb 0x3D5 p) = crtc_reg p (crtc_index p) /\
    forall i, crtc_reg (snd (inb 0x3D5 p)) i = crtc_reg p i;
}.

(** A controller with just these registers. *)
Record crtc := MkCrtc { index_register : Z; registers : Zmap byte }.

#[export] Instance crtc_ports : Ports crtc := {
  outb port v p :=
    if port =? CURSOR_PORT_CMD then MkCrtc v (registers p)
    else if port =? CURSOR_PORT_DATA then MkCrtc (index_register p) (<[index_register p := z2b v]> (registers p))
    else p;
  inb port p := (if port =? CURSOR_PORT_DATA then b2z (mget (registers p) (index_register p)) else 0, p);
  outw _ _ p := p;
  inw _ p := (0, p);
}.

#[export, program] Instance crtc_spec : Crtc crtc := {
  crtc_index := index_register;
  crtc_reg p i := b2z (mget (registers p) i);
}.
Next Obligation. intros p i. apply b2z_range. Qed.
Next Obligation. done. Qed.
Next Obligation.
  intros p v Hv i. cbn. rewrite mget_insert.
  destruct (decide (index_register p = i)) as [->|Hne].
  - rewrite decide_True by done. rewrite b2z_z2b. by apply Z.mod_small.
  - by rewrite decide_False by done.
Qed.
Next Obligation. done. Qed.
