(* ===== verification/FramebufferSpec.v ===== *)
(** Theorems about src/src/framebuffer.c: what a character does to the screen,
    and that the cursor never leaves it. *)
From Stdlib Require Import ZArith Lia.
From stdpp Require Import base numbers option strings zmap functions list.
From S2P Require Import Prelude Ports Framebuffer.

(** ** The screen *)

(** The byte of a blank screen at address [a]: character 0, colour 7. *)
Definition blank (a : Z) : byte := z2b (if Z.even a then 0 else 7).

(** The screen moved up by one row. *)
Definition scrolled (m m' : mem) : Prop :=
  forall a, mget m' a =
    if decide (0 <= a < 3840) then mget m (a + 160)
    else if decide (3840 <= a < 4000) then blank a else mget m a.

(** A cell of the screen by its position, 0 to 1999. *)
Definition write_cell (m : mem) (pos c attr : Z) : mem := <[pos * 2 + 1 := z2b attr]> (<[pos * 2 := z2b c]> m).
Definition cell (m : mem) (pos : Z) : byte := mget m (pos * 2).

(** The cursor is on the screen, and every row above it holds a character. *)
Definition screen_ok (m : mem) (pos : Z) : Prop :=
  0 <= pos < 2000 /\
  forall r, 0 <= r < pos / VGA_WIDTH -> exists c, 0 <= c < VGA_WIDTH /\ cell m (r * VGA_WIDTH + c) <> z2b 0.

Section Spec.
Context {P : Type} `{Crtc P}.
Implicit Types (s : console P).

Definition cursor (p : P) : Z := crtc_reg p 0x0F + 256 * crtc_reg p 0x0E.

(** ** Ports *)

Lemma wp_lift_hw {A} (c : M P A) (Q : A -> console P -> Prop) s :
  wp c (fun a p => Q a (Console (fb s) p)) (hw s) -> wp (lift_hw c) Q s.
Proof. unfold wp, lift_hw. by destruct (c (hw s)) as [[a p]| |]. Qed.

Lemma wp_in8 port (Q : Z -> P -> Prop) p :
  Q (u8 (fst (inb (u16 port) p))) (snd (inb (u16 port) p)) -> wp (in8 port) Q p.
Proof. intros HQ. unfold wp, in8. by destruct (inb _ p). Qed.

Lemma u8_small x : 0 <= x < 256 -> u8 x = x.
Proof. intros Hx. by apply Z.mod_small. Qed.

Lemma lor_byte lo hi : 0 <= lo < 256 -> Z.lor (Z.lor 0 lo) (Z.shiftl hi 8) = lo + 256 * hi.
Proof.
  intros Hlo. rewrite Z.lor_0_l. assert (Hand : Z.land lo (Z.shiftl hi 8) = 0).
  { apply Z.bits_inj'. intros i Hi. rewrite Z.land_spec, Z.bits_0, Z.shiftl_spec by done.
    destruct (decide (i < 8)) as [Hlt|Hge].
    - rewrite (Z.testbit_neg_r hi) by lia. apply andb_false_r.
    - rewrite <- (Z.mod_small lo (2 ^ 8)) by (cbn; lia).
      rewrite Z.mod_pow2_bits_high by lia. done. }
  rewrite <- Z.lxor_lor, <- Z.add_nocarry_lxor by done. rewrite Z.shiftl_mul_pow2 by lia.
  change (2 ^ 8) with 256. lia.
Qed.

Lemma cursor_range p : 0 <= cursor p < 65536.
Proof. unfold cursor. pose proof (crtc_range p 0x0F). pose proof (crtc_range p 0x0E). lia. Qed.

Lemma wp_get_cursor (Q : Z -> console P -> Prop) s :
  (forall p, cursor p = cursor (hw s) -> Q (cursor (hw s)) (Console (fb s) p)) -> wp get_cursor_pos Q s.
Proof.
  intros HQ. unfold get_cursor_pos. apply wp_lift_hw, wp_bind, wp_modify, wp_bind, wp_in8, wp_bind, wp_modify,
    wp_bind, wp_in8, wp_ret.
  change (u16 0x3D4) with 0x3D4. change (u16 0x3D5) with 0x3D5.
  change (u8 0x0F) with 0x0F. change (u8 0x0E) with 0x0E.
  set (p1 := outb 0x3D4 0x0F (hw s)). set (p2 := snd (inb 0x3D5 p1)). set (p3 := outb 0x3D4 0x0E p2).
  destruct (crtc_select (hw s) 0x0F) as [Hi1 Hr1]; [lia|]. fold p1 in Hi1, Hr1.
  destruct (crtc_read p1) as [Hv1 Hr2]. fold p2 in Hr2.
  destruct (crtc_select p2 0x0E) as [Hi3 Hr3]; [lia|]. fold p3 in Hi3, Hr3.
  destruct (crtc_read p3) as [Hv3 Hr4].
  rewrite Hv1, Hv3, Hi1, Hi3, Hr1, Hr3, Hr2, Hr1, !u8_small by apply crtc_range.
  rewrite lor_byte by apply crtc_range. fold (cursor (hw s)).
  pose proof (cursor_range (hw s)). rewrite u16_small by lia. apply HQ.
  unfold cursor. by rewrite !Hr4, !Hr3, !Hr2, !Hr1.
Qed.

Lemma wp_set_cursor r c (Q : unit -> console P -> Prop) s :
  0 <= r < 256 -> 0 <= c < 256 ->
  (forall p, cursor p = r * VGA_WIDTH + c -> Q tt (Console (fb s) p)) ->
  wp (framebuffer_set_cursor r c) Q s.
Proof.
  intros Hr Hc HQ. unfold framebuffer_set_cursor. rewrite (u8_small r), (u8_small c) by done.
  set (pos := r * VGA_WIDTH + c). assert (Hpos : 0 <= pos < 65536) by (unfold pos, VGA_WIDTH; lia).
  rewrite (u16_small pos) by done.
  assert (Hlo : Z.land pos 0xFF = pos mod 256) by (change 0xFF with (Z.ones 8); by rewrite Z.land_ones).
  assert (Hhi : Z.land (Z.shiftr pos 8) 0xFF = pos / 256).
  { change 0xFF with (Z.ones 8). rewrite Z.land_ones, Z.shiftr_div_pow2 by lia.
    change (2 ^ 8) with 256. apply Z.mod_small. Z.div_mod_to_equations. lia. }
  assert (Hb1 : 0 <= pos mod 256 < 256) by (by apply Z.mod_pos_bound).
  assert (Hb2 : 0 <= pos / 256 < 256) by (Z.div_mod_to_equations; lia).
  rewrite Hlo, Hhi, !u8_small by done.
  apply wp_lift_hw, wp_bind, wp_modify, wp_bind, wp_modify, wp_bind, wp_modify, wp_modify.
  change (u16 0x3D4) with 0x3D4. change (u16 0x3D5) with 0x3D5.
  change (u8 0x0F) with 0x0F. change (u8 0x0E) with 0x0E. rewrite !u8_small by done.
  apply HQ. set (p1 := outb 0x3D4 0x0F (hw s)). set (p2 := outb 0x3D5 (pos mod 256) p1).
  set (p3 := outb 0x3D4 0x0E p2).
  destruct (crtc_select (hw s) 0x0F) as [Hi1 Hr1]; [lia|]. fold p1 in Hi1, Hr1.
  destruct (crtc_select p2 0x0E) as [Hi3 Hr3]; [lia|]. fold p3 in Hi3, Hr3.
  unfold cursor. rewrite !crtc_write, Hi3 by done. rewrite Hr3. unfold p2. rewrite crtc_write, Hi1 by done.
  rewrite (decide_False (P := 15 = 14)), !decide_True by done. fold pos.
  pose proof (Z.div_mod pos 256 ltac:(done)). lia.
Qed.

(** ** Cells *)

Lemma wp_write row col c fg bg (Q : unit -> console P -> Prop) s :
  0 <= row < 256 -> 0 <= col < 256 ->
  Q tt (Console (write_cell (fb s) (row * VGA_WIDTH + col) c (Z.lor (u8 fg) (u8 bg))) (hw s)) ->
  wp (framebuffer_write row col c fg bg) Q s.
Proof. intros Hr Hc HQ. unfold framebuffer_write. apply wp_modify. by rewrite !(u8_small row), !(u8_small col). Qed.

Lemma mget_write_cell m pos c attr a :
  mget (write_cell m pos c attr) a =
    if decide (a = pos * 2) then z2b c else if decide (a = pos * 2 + 1) then z2b attr else mget m a.
Proof.
  unfold write_cell. rewrite !mget_insert. repeat case_decide; try done; lia.
Qed.

Lemma blank_cell m pos a :
  mget (write_cell m pos 0 7) a = if decide (a = pos * 2 \/ a = pos * 2 + 1) then blank a else mget m a.
Proof.
  rewrite mget_write_cell. unfold blank. repeat case_decide; subst; try tauto; try lia.
  - by rewrite Z.even_mul, orb_true_r.
  - by rewrite Z.even_add, Z.even_mul, orb_true_r.
Qed.

(** ** Clearing and scrolling *)

(** The address [a] belongs to one of the cells that are cleared before row [j]
    of column [i]. *)
Definition cleared (i j a : Z) : Prop :=
  0 <= a < 4000 /\ ((a / 2) mod 80 < i \/ (a / 2) mod 80 = i /\ (a / 2) / 80 < j).

#[export] Instance cleared_dec i j a : Decision (cleared i j a).
Proof. unfold cleared. apply _. Defined.

Lemma wp_clear (Q : unit -> console P -> Prop) s :
  (forall m p, (forall a, mget m a = if decide (0 <= a < 4000) then blank a else mget (fb s) a) ->
     cursor p = 0 -> Q tt (Console m p)) ->
  wp framebuffer_clear Q s.
Proof.
  intros HQ. unfold framebuffer_clear. apply wp_bind.
  set (J := fun i j s' => hw s' = hw s /\
    forall a, mget (fb s') a = if decide (cleared i j a) then blank a else mget (fb s) a).
  apply (wp_for (fun i => J i 0)).
  - split; [done|]. intros a. rewrite decide_False; [done|]. unfold cleared. Z.div_mod_to_equations. lia.
  - intros i s1 Hi HJ. apply (wp_for (fun j => J i j)); [done| |].
    + intros j s2 Hj [Hh Hm]. apply wp_write; [lia|lia|]. split; [done|]. intros a. cbn [fb].
      change (Z.lor (u8 7) (u8 7)) with 7. rewrite blank_cell, Hm.
      unfold cleared, VGA_WIDTH. repeat case_decide; try done; exfalso; Z.div_mod_to_equations; lia.
    + intros s2 [Hh Hm]. split; [done|]. intros a. rewrite Hm. unfold cleared.
      repeat case_decide; try done; exfalso; Z.div_mod_to_equations; lia.
  - intros s1 [Hh Hm]. apply wp_set_cursor; [lia|lia|]. intros p Hp. apply HQ; [|done].
    intros a. rewrite Hm. unfold cleared. repeat case_decide; try done; exfalso; Z.div_mod_to_equations; lia.
Qed.

Lemma wp_copy_up i j (Q : unit -> console P -> Prop) s :
  0 <= i -> 0 <= j < 80 ->
  (forall m, (forall a, mget m a = if decide (160 * i + 2 * j <= a < 160 * i + 2 * (j + 1))
                                   then mget (fb s) (a + 160) else mget (fb s) a) -> Q tt (Console m (hw s))) ->
  wp (copy_up i j) Q s.
Proof.
  intros Hi Hj HQ. apply wp_bind, wp_modify, wp_modify, HQ. intros a. cbn [fb set_fb]. unfold VGA_WIDTH.
  rewrite !mget_insert. repeat case_decide; subst; try lia; try done; f_equal; lia.
Qed.

Lemma wp_shift_up (Q : unit -> console P -> Prop) s :
  (forall m, scrolled (fb s) m -> Q tt (Console m (hw s))) -> wp shift_up Q s.
Proof.
  intros HQ. unfold shift_up. apply wp_bind.
  set (J := fun b s' => hw s' = hw s /\
    forall a, mget (fb s') a = if decide (0 <= a < b) then mget (fb s) (a + 160) else mget (fb s) a).
  apply (wp_for (fun i => J (160 * i))).
  - split; [done|]. intros a. by rewrite decide_False by lia.
  - intros i s1 Hi HJ. apply (wp_for (fun j => J (160 * i + 2 * j))).
    + by rewrite Z.mul_0_r, Z.add_0_r.
    + intros j s2 Hj [Hh Hm]. apply wp_copy_up; [lia|lia|]. intros m Hm'. split; [done|].
      intros a. cbn [fb]. rewrite Hm', !Hm. repeat case_decide; try done; lia.
    + intros s2 [Hh Hm]. split; [done|]. intros a. rewrite Hm. repeat case_decide; try done; lia.
  - intros s1 [Hh Hm]. apply (wp_for (fun j s' => hw s' = hw s /\ forall a, mget (fb s') a =
      if decide (3840 <= a < 3840 + 2 * j) then blank a else mget (fb s1) a)).
    + split; [done|]. intros a. by rewrite decide_False by lia.
    + intros j s2 Hj [Hh2 Hm2]. apply wp_write; [unfold VGA_HEIGHT; lia|lia|]. split; [done|]. intros a. cbn [fb].
      change (Z.lor (u8 7) (u8 7)) with 7. rewrite blank_cell, Hm2. unfold VGA_HEIGHT, VGA_WIDTH.
      repeat case_decide; try done; lia.
    + intros s2 [Hh2 Hm2]. destruct s2 as [m p]. cbn in Hh2, Hm2. subst p. apply HQ. intros a.
      rewrite Hm2, Hm. repeat case_decide; try done; lia.
Qed.

(** ** One character *)

(** The end of [putchar]: the position [q] is taken, after a scroll when it is
    just below the screen. *)
Lemma wp_finish row col (Q : unit -> console P -> Prop) s :
  0 <= row -> 0 <= col <= VGA_WIDTH -> row * VGA_WIDTH + col <= 2000 ->
  (row * VGA_WIDTH + col < 2000 ->
   forall p, cursor p = row * VGA_WIDTH + col -> Q tt (Console (fb s) p)) ->
  (row * VGA_WIDTH + col = 2000 ->
   forall m p, scrolled (fb s) m -> cursor p = 1920 -> Q tt (Console m p)) ->
  wp (let row_now := u16 (row + col / VGA_WIDTH) in
      let col := col mod VGA_WIDTH in
      row_now ← (if row_now =? VGA_HEIGHT then shift_up ;; mret (VGA_HEIGHT - 1) else mret row_now);
      framebuffer_set_cursor row_now col) Q s.
Proof.
  intros Hr Hc Hq Hon Hbelow. unfold VGA_WIDTH, VGA_HEIGHT in *.
  assert (Hrow : u16 (row + col / 80) = row + col / 80) by (apply u16_small; Z.div_mod_to_equations; lia).
  cbv zeta. rewrite Hrow. destruct (Z.eqb_spec (row + col / 80) 25) as [E|E].
  - assert (Hend : row * 80 + col = 2000 /\ col mod 80 = 0) by (Z.div_mod_to_equations; lia).
    destruct Hend as [Hend Hmod]. apply wp_bind, wp_bind, wp_shift_up. intros m Hm. apply wp_ret.
    rewrite Hmod. apply wp_set_cursor; [lia|lia|]. intros p Hp. by apply Hbelow.
  - apply wp_bind, wp_ret, wp_set_cursor; [Z.div_mod_to_equations; lia..|]. intros p Hp. apply Hon.
    + Z.div_mod_to_equations. lia.
    + rewrite Hp. unfold VGA_WIDTH. Z.div_mod_to_equations. lia.
Qed.

(** The position after an ordinary character or a newline. *)
Definition next_pos (c pos : Z) : Z := if c =? 10 then (pos / VGA_WIDTH + 1) * VGA_WIDTH else pos + 1.

Lemma wp_putchar_advance fuel c color (Q : unit -> console P -> Prop) s :
  c <> 0 -> c <> 8 -> cursor (hw s) < 2000 ->
  let m := write_cell (fb s) (cursor (hw s)) c (if c =? 10 then 0 else u8 color) in
  (next_pos c (cursor (hw s)) < 2000 ->
   forall p, cursor p = next_pos c (cursor (hw s)) -> Q tt (Console m p)) ->
  (next_pos c (cursor (hw s)) = 2000 -> forall m' p, scrolled m m' -> cursor p = 1920 -> Q tt (Console m' p)) ->
  wp (putchar fuel c color) Q s.
Proof.
  intros Hc0 Hc8 Hpos m Hon Hbelow. pose proof (cursor_range (hw s)) as Hr.
  unfold putchar. rewrite (proj2 (Z.eqb_neq _ _) Hc0). apply wp_bind, wp_get_cursor. intros p1 Hp1.
  apply wp_bind, wp_get_cursor. cbn [hw fb]. rewrite Hp1. intros p2 Hp2. apply wp_bind. unfold put_cell.
  rewrite (proj2 (Z.eqb_neq _ _) Hc8). set (pos := cursor (hw s)) in *. unfold next_pos in *.
  assert (Hm : pos / VGA_WIDTH * VGA_WIDTH + pos mod VGA_WIDTH = pos) by (unfold VGA_WIDTH; Z.div_mod_to_equations; lia).
  destruct (Z.eqb_spec c 10) as [E|E]; apply wp_bind.
  - apply wp_write; [unfold VGA_WIDTH in *; Z.div_mod_to_equations; lia..|]. rewrite Hm. apply wp_ret.
    cbn [fst snd fb hw]. rewrite (u16_small (pos / VGA_WIDTH + 1)) by (unfold VGA_WIDTH in *; Z.div_mod_to_equations; lia).
    subst c. apply wp_finish; rewrite ?Z.add_0_r; [unfold VGA_WIDTH in *; Z.div_mod_to_equations; lia..| |].
    + apply Hon.
    + apply Hbelow.
  - apply wp_write; [unfold VGA_WIDTH in *; Z.div_mod_to_equations; lia..|]. rewrite Hm. apply wp_ret.
    cbn [fst snd fb hw]. rewrite (u16_small (pos mod VGA_WIDTH + 1)) by (unfold VGA_WIDTH in *; Z.div_mod_to_equations; lia).
    change (u8 0) with 0. rewrite Z.lor_0_r.
    apply wp_finish; [unfold VGA_WIDTH in *; Z.div_mod_to_equations; lia..| |]; rewrite Z.add_assoc, Hm.
    + apply Hon.
    + apply Hbelow.
Qed.

Lemma get_zero b : (i8 (b2z b) =? 0) = bool_decide (b = z2b 0).
Proof.
  pose proof (b2z_range b) as Hb. apply eq_bool_prop_intro. rewrite bool_decide_spec, Is_true_true, Z.eqb_eq.
  unfold i8. split.
  - intros E. apply b2z_inj. rewrite b2z_z2b. change (0 mod 256) with 0. Z.div_mod_to_equations. lia.
  - intros ->. by rewrite b2z_z2b.
Qed.

Lemma wp_back_loop fuel row col last (Q : Z * Z -> console P -> Prop) s :
  0 <= row < 25 -> 0 <= last <= col -> col < VGA_WIDTH -> col - last < Z.of_nat fuel ->
  cell (fb s) (row * VGA_WIDTH + last) <> z2b 0 ->
  (forall x, last < x <= col -> cell (fb s) (row * VGA_WIDTH + x) = z2b 0) ->
  Q (row, last) s -> wp (back_loop fuel row col) Q s.
Proof.
  revert col. induction fuel as [|fuel IH]; intros col Hr Hl Hc Hf Hlast Hzero HQ; [lia|].
  cbn [back_loop]. unfold VGA_WIDTH in *. apply wp_bind, wp_gets. rewrite !u8_small by lia. fold VGA_WIDTH.
  change (mget (fb s) ((row * VGA_WIDTH + col) * 2)) with (cell (fb s) (row * 80 + col)).
  set (v := i8 _). assert (Hv : (v =? 0) = bool_decide (cell (fb s) (row * 80 + col) = z2b 0)) by apply get_zero.
  destruct (decide (last = col)) as [->|Hne].
  - rewrite Hv, bool_decide_eq_false_2 by done. by apply wp_ret.
  - rewrite Hv, bool_decide_eq_true_2 by (apply Hzero; lia).
    assert (Hv0 : v = 0) by (apply Z.eqb_eq; rewrite Hv; apply bool_decide_eq_true_2, Hzero; lia).
    rewrite Hv0. cbn [andb negb Z.eqb]. rewrite (proj2 (Z.eqb_neq col 0)) by lia. rewrite u16_small by lia.
    apply IH; try done; try lia. intros x Hx. apply Hzero. lia.
Qed.

(** The last of the positions up to [n] with a property that some position
    has. *)
Lemma last_position (p : Z -> Prop) `{!forall x, Decision (p x)} n c :
  0 <= c <= n -> p c -> exists l, 0 <= l <= n /\ p l /\ forall x, l < x <= n -> ~ p x.
Proof.
  intros Hc Hp. assert (Hgen : forall k, c + Z.of_nat k <= n -> (forall x, c + Z.of_nat k < x <= n -> ~ p x) ->
    exists l, 0 <= l <= n /\ p l /\ forall x, l < x <= n -> ~ p x).
  { induction k as [|k IH]; intros Hk Hx.
    - exists c. split; [done|]. split; [done|]. intros x Hx'. apply Hx. lia.
    - destruct (decide (p (c + Z.of_nat (S k)))) as [Hy|Hy].
      + exists (c + Z.of_nat (S k)). split; [lia|]. done.
      + apply IH; [lia|]. intros x Hx'. destruct (decide (x = c + Z.of_nat (S k))) as [->|]; [done|]. apply Hx. lia. }
  apply (Hgen (Z.to_nat (n - c))); [lia|]. intros x Hx. lia.
Qed.

(** Where a backspace at [pos] goes: one back inside a row, to the last
    character of the row before at the start of one. *)
Definition back_pos (m : mem) (pos q : Z) : Prop :=
  if decide (pos mod VGA_WIDTH = 0)
  then q / VGA_WIDTH = pos / VGA_WIDTH - 1 /\ 0 <= q /\ cell m q <> z2b 0 /\ (forall x, q < x < pos -> cell m x = z2b 0)
  else q = pos - 1.

Lemma wp_putchar_back fuel color (Q : unit -> console P -> Prop) s :
  screen_ok (fb s) (cursor (hw s)) -> (80 <= fuel)%nat ->
  (cursor (hw s) = 0 -> forall p, cursor p = 0 -> Q tt (Console (fb s) p)) ->
  (0 < cursor (hw s) -> forall q p, back_pos (fb s) (cursor (hw s)) q -> 0 <= q < cursor (hw s) ->
     cursor p = q -> Q tt (Console (write_cell (fb s) q 0 7) p)) ->
  wp (putchar fuel 8 color) Q s.
Proof.
  intros [Hpos Hrows] Hfuel Hstart Hback. unfold putchar. cbn [Z.eqb].
  apply wp_bind, wp_get_cursor. intros p1 Hp1. apply wp_bind, wp_get_cursor. cbn [hw fb]. rewrite Hp1.
  intros p2 Hp2. apply wp_bind. unfold put_cell. change (8 =? 10) with false. change (8 =? 8) with true. cbv iota.
  set (pos := cursor (hw s)) in *. rewrite !Z.gtb_ltb.
  assert (Hdm : pos / VGA_WIDTH * VGA_WIDTH + pos mod VGA_WIDTH = pos) by (unfold VGA_WIDTH; Z.div_mod_to_equations; lia).
  assert (Hmod : 0 <= pos mod VGA_WIDTH < VGA_WIDTH) by (by apply Z.mod_pos_bound).
  assert (Hdiv : 0 <= pos / VGA_WIDTH < 25) by (unfold VGA_WIDTH; Z.div_mod_to_equations; lia).
  destruct (Z.ltb_spec 0 (pos mod VGA_WIDTH)) as [Hcol|Hcol].
  - apply wp_bind, wp_write; [lia|unfold VGA_WIDTH in *; lia|]. cbn [fb hw]. apply wp_ret. cbn [fst snd].
    change (Z.lor (u8 7) (u8 7)) with 7.
    replace (pos / VGA_WIDTH * VGA_WIDTH + (pos mod VGA_WIDTH - 1)) with (pos - 1) by lia.
    apply wp_finish; [lia|lia|unfold VGA_WIDTH in *; lia| |unfold VGA_WIDTH in *; lia].
    intros _ p Hp. cbn [fb]. unfold VGA_WIDTH in *. apply Hback; [lia| |lia|lia]. unfold back_pos, VGA_WIDTH.
    rewrite decide_False; lia.
  - destruct (Z.ltb_spec 0 (pos / VGA_WIDTH)) as [Hrow|Hrow].
    + destruct (Hrows (pos / VGA_WIDTH - 1)) as (c & Hc & Hcell); [lia|].
      destruct (last_position (fun x => cell (fb s) ((pos / VGA_WIDTH - 1) * VGA_WIDTH + x) <> z2b 0)
        (VGA_WIDTH - 1) c) as (l & Hl & Hcl & Hafter); [lia|done|].
      apply wp_bind, (wp_back_loop _ _ _ l); cbn [fb]; [lia|lia|lia|unfold VGA_WIDTH in *; lia|exact Hcl| |].
      { intros x Hx. destruct (decide (cell (fb s) ((pos / VGA_WIDTH - 1) * VGA_WIDTH + x) = z2b 0)); [done|].
        by destruct (Hafter x Hx). }
      cbn [fst snd]. apply wp_bind, wp_write; [lia|unfold VGA_WIDTH in *; lia|]. apply wp_ret. cbn [fst snd fb hw].
      change (Z.lor (u8 7) (u8 7)) with 7.
      apply wp_finish; [lia|lia|unfold VGA_WIDTH in *; lia| |unfold VGA_WIDTH in *; lia]. intros _ p Hp. cbn [fb].
      apply Hback; [unfold VGA_WIDTH in *; lia| |unfold VGA_WIDTH in *; lia|exact Hp].
      unfold back_pos. rewrite decide_True by lia. split; [unfold VGA_WIDTH in *; Z.div_mod_to_equations; lia|].
      split; [unfold VGA_WIDTH in *; lia|]. split; [exact Hcl|]. intros x Hx.
      replace x with ((pos / VGA_WIDTH - 1) * VGA_WIDTH + (x - (pos / VGA_WIDTH - 1) * VGA_WIDTH)) by lia.
      destruct (decide (cell (fb s) ((pos / VGA_WIDTH - 1) * VGA_WIDTH +
        (x - (pos / VGA_WIDTH - 1) * VGA_WIDTH)) = z2b 0)) as [|Hnz]; [done|].
      destruct (Hafter (x - (pos / VGA_WIDTH - 1) * VGA_WIDTH)); [unfold VGA_WIDTH in *; lia|done].
    + apply wp_ret. cbn [fst snd]. assert (pos = 0) by (unfold VGA_WIDTH in *; lia).
      apply wp_finish; [lia|lia|unfold VGA_WIDTH in *; lia| |unfold VGA_WIDTH in *; lia].
      intros _ p Hp. cbn [fb]. apply Hstart; [done|]. rewrite Hp. unfold VGA_WIDTH in *. lia.
Qed.

(** ** The invariant of the screen *)

(** The first [n] rows hold a character each. *)
Definition rows_ok (m : mem) (n : Z) : Prop :=
  forall r, 0 <= r < n -> exists c, 0 <= c < VGA_WIDTH /\ cell m (r * VGA_WIDTH + c) <> z2b 0.

(** Only the screen has changed. *)
Definition on_screen (m m' : mem) : Prop := forall a, ~ (0 <= a < 4000) -> mget m' a = mget m a.

Lemma cell_write_ne m pos c attr q : q <> pos -> cell (write_cell m pos c attr) q = cell m q.
Proof. intros Hq. unfold cell. rewrite mget_write_cell. repeat case_decide; try done; lia. Qed.

Lemma cell_write_eq m pos c attr : cell (write_cell m pos c attr) pos = z2b c.
Proof. unfold cell. rewrite mget_write_cell. by rewrite decide_True. Qed.

Lemma write_cell_on_screen m pos c attr : 0 <= pos < 2000 -> on_screen m (write_cell m pos c attr).
Proof. intros Hpos a Ha. rewrite mget_write_cell. repeat case_decide; try done; lia. Qed.

Lemma scrolled_on_screen m m' : scrolled m m' -> on_screen m m'.
Proof. intros Hs a Ha. rewrite Hs. repeat case_decide; try done; lia. Qed.

Lemma char_nonzero c : -128 <= c < 128 -> c <> 0 -> z2b c <> z2b 0.
Proof.
  intros Hr Hc E. apply (f_equal b2z) in E. rewrite !b2z_z2b in E. change (0 mod 256) with 0 in E.
  Z.div_mod_to_equations. lia.
Qed.

Lemma rows_after_char m pos c attr :
  screen_ok m pos -> -128 <= c < 128 -> c <> 0 -> rows_ok (write_cell m pos c attr) (pos / VGA_WIDTH + 1).
Proof.
  intros [Hpos Hrows] Hr Hc r Hrr. destruct (decide (r = pos / VGA_WIDTH)) as [->|Hne].
  - exists (pos mod VGA_WIDTH). split; [by apply Z.mod_pos_bound|].
    replace (pos / VGA_WIDTH * VGA_WIDTH + pos mod VGA_WIDTH) with pos by (unfold VGA_WIDTH; Z.div_mod_to_equations; lia).
    rewrite cell_write_eq. by apply char_nonzero.
  - destruct (Hrows r) as (x & Hx & Hcell); [lia|]. exists x. split; [done|].
    rewrite cell_write_ne; [done|]. unfold VGA_WIDTH in *. Z.div_mod_to_equations. lia.
Qed.

Lemma rows_scrolled m m' : rows_ok m 25 -> scrolled m m' -> rows_ok m' 24.
Proof.
  intros Hrows Hs r Hr. destruct (Hrows (r + 1)) as (c & Hc & Hcell); [lia|]. exists c. split; [done|].
  unfold cell in *. unfold VGA_WIDTH in *. rewrite Hs, decide_True by lia.
  by replace ((r * 80 + c) * 2 + 160) with (((r + 1) * 80 + c) * 2) by lia.
Qed.

Lemma rows_after_back m pos q :
  screen_ok m pos -> 0 <= q < pos -> rows_ok (write_cell m q 0 7) (q / VGA_WIDTH).
Proof.
  intros [Hpos Hrows] Hq r Hr. destruct (Hrows r) as (x & Hx & Hcell).
  { unfold VGA_WIDTH in *. Z.div_mod_to_equations. lia. }
  exists x. split; [done|]. rewrite cell_write_ne; [done|]. unfold VGA_WIDTH in *. Z.div_mod_to_equations. lia.
Qed.

Lemma wp_putchar_ok fuel c color s :
  screen_ok (fb s) (cursor (hw s)) -> -128 <= c < 128 -> (80 <= fuel)%nat ->
  wp (putchar fuel c color) (fun _ s' => screen_ok (fb s') (cursor (hw s')) /\ on_screen (fb s) (fb s')) s.
Proof.
  intros Hok Hc Hfuel. pose proof Hok as [Hpos Hrows].
  destruct (decide (c = 0)) as [->|Hc0]; [by apply wp_ret|].
  destruct (decide (c = 8)) as [->|Hc8].
  - apply wp_putchar_back; [done|done| |].
    + intros E p Hp. cbn [fb hw]. rewrite Hp. split; [|done]. split; [lia|].
      intros r Hr. exfalso. unfold VGA_WIDTH in *. Z.div_mod_to_equations. lia.
    + intros _ q p _ Hq Hp. cbn [fb hw]. rewrite Hp. split; [|by apply write_cell_on_screen; lia].
      split; [lia|]. by eapply rows_after_back.
  - set (attr := if c =? 10 then 0 else u8 color).
    pose proof (rows_after_char (fb s) (cursor (hw s)) c attr Hok Hc Hc0) as Hr.
    assert (Hn : cursor (hw s) < next_pos c (cursor (hw s)) <= 2000 /\
      next_pos c (cursor (hw s)) / VGA_WIDTH <= cursor (hw s) / VGA_WIDTH + 1).
    { unfold next_pos, VGA_WIDTH in *. destruct (c =? 10); Z.div_mod_to_equations; lia. }
    apply wp_putchar_advance; [done|done|lia| |]; cbn [fb hw].
    + intros Hlt p Hp. cbn [hw]. rewrite Hp. split; [|by apply write_cell_on_screen].
      split; [lia|]. intros r Hrr. apply Hr. lia.
    + intros E m' p Hs Hp. cbn [hw]. rewrite Hp. split.
      * split; [lia|]. change (1920 / VGA_WIDTH) with 24. eapply rows_scrolled; [|exact Hs].
        intros r Hrr. apply Hr. split; [lia|]. rewrite E in Hn. change (2000 / VGA_WIDTH) with 25 in Hn. lia.
      * intros a Ha. rewrite (scrolled_on_screen _ _ Hs a Ha). by apply write_cell_on_screen.
Qed.

(** [framebuffer_clear] leaves character 0 and colour 7 in each of the 2000
    cells, the cursor at the top left, and every byte outside the screen as it
    was. *)
Theorem framebuffer_clear_correct s :
  exists s', framebuffer_clear s = Ret (tt, s') /\ cursor (hw s') = 0 /\
    forall a, mget (fb s') a = if decide (0 <= a < 4000) then blank a else mget (fb s) a.
Proof.
  assert (Hwp : wp framebuffer_clear (fun _ s' => cursor (hw s') = 0 /\
    forall a, mget (fb s') a = if decide (0 <= a < 4000) then blank a else mget (fb s) a) s).
  { apply wp_clear. intros m p Hm Hp. done. }
  apply wp_elim in Hwp as ([] & s' & Hr & Hs'). eauto.
Qed.

(** a character other than 0 and backspace is put in the cell of the cursor
    (a newline with colour 0), and the cursor moves to the next cell, or after
    a newline to the start of the next row; below the last row the screen
    scrolls and the cursor goes to the start of the last row. *)
Theorem putchar_advances fuel c color s :
  c <> 0 -> c <> 8 -> cursor (hw s) < 2000 ->
  let pos := cursor (hw s) in
  let m := write_cell (fb s) pos c (if c =? 10 then 0 else u8 color) in
  exists s', putchar fuel c color s = Ret (tt, s') /\
    if next_pos c pos <? 2000 then fb s' = m /\ cursor (hw s') = next_pos c pos
    else scrolled m (fb s') /\ cursor (hw s') = 1920.
Proof.
  intros Hc0 Hc8 Hpos pos m. pose proof (cursor_range (hw s)) as Hr.
  assert (Hn : next_pos c pos <= 2000).
  { unfold next_pos, VGA_WIDTH, pos. destruct (c =? 10); Z.div_mod_to_equations; lia. }
  assert (Hwp : wp (putchar fuel c color) (fun _ s' =>
    if next_pos c pos <? 2000 then fb s' = m /\ cursor (hw s') = next_pos c pos
    else scrolled m (fb s') /\ cursor (hw s') = 1920) s).
  { apply wp_putchar_advance; try done; fold pos; fold m; destruct (Z.ltb_spec (next_pos c pos) 2000); try lia.
    - intros _ p Hp. done.
    - intros _ m' p Hs Hp. done. }
  apply wp_elim in Hwp as ([] & s' & Hr' & Hs'). eauto.
Qed.

(** a backspace at the top left does nothing; elsewhere it erases one cell
    and leaves the cursor on it: the cell before, or at the start of a row the
    last cell in use of the row before. *)
Theorem putchar_backspace fuel color s :
  screen_ok (fb s) (cursor (hw s)) -> (80 <= fuel)%nat ->
  exists s', putchar fuel 8 color s = Ret (tt, s') /\
    if decide (cursor (hw s) = 0) then fb s' = fb s /\ cursor (hw s') = 0
    else back_pos (fb s) (cursor (hw s)) (cursor (hw s')) /\ cursor (hw s') < cursor (hw s) /\
      fb s' = write_cell (fb s) (cursor (hw s')) 0 7.
Proof.
  intros Hok Hfuel.
  assert (Hwp : wp (putchar fuel 8 color) (fun _ s' =>
    if decide (cursor (hw s) = 0) then fb s' = fb s /\ cursor (hw s') = 0
    else back_pos (fb s) (cursor (hw s)) (cursor (hw s')) /\ cursor (hw s') < cursor (hw s) /\
      fb s' = write_cell (fb s) (cursor (hw s')) 0 7) s).
  { apply wp_putchar_back; [done|done| |].
    - intros E p Hp. by rewrite decide_True.
    - intros Hpos q p Hb Hq Hp. rewrite decide_False by lia. cbn [fb hw]. rewrite Hp. split; [done|]. split; [lia|done]. }
  apply wp_elim in Hwp as ([] & s' & Hr & Hs'). eauto.
Qed.

(** C36: whatever string is printed, with newlines, backspaces and scrolling, from
    a screen in order (such as a cleared one) [puts] returns, the cursor is
    still on the screen, the screen is in order, and no byte outside the 4000
    bytes of the screen has been written. *)
Theorem puts_safe m str len color s :
  screen_ok (fb s) (cursor (hw s)) ->
  exists s', puts 80 m str len color s = Ret (tt, s') /\
    screen_ok (fb s') (cursor (hw s')) /\ on_screen (fb s) (fb s').
Proof.
  intros Hok. assert (Hwp : wp (puts 80 m str len color)
    (fun _ s' => screen_ok (fb s') (cursor (hw s')) /\ on_screen (fb s) (fb s')) s).
  { apply (wp_for (fun _ s' => screen_ok (fb s') (cursor (hw s')) /\ on_screen (fb s) (fb s'))); [done| |done].
    intros j s1 _ [Hok1 Hon1]. eapply wp_mono; [apply wp_putchar_ok; [done| |lia]|].
    - unfold i8. pose proof (Z.mod_pos_bound (b2z (mget m (str + j)) + 128) 256 eq_refl). lia.
    - intros [] s2 [Hok2 Hon2]. split; [done|]. intros a Ha. by rewrite Hon2, Hon1. }
  apply wp_elim in Hwp as ([] & s' & Hr & Hs'). eauto.
Qed.

End Spec.

(** ** The theorems at a concrete console *)

Definition console_sample : console crtc := Console ∅ (MkCrtc 0 ∅).

Lemma sample_screen_ok : screen_ok (fb console_sample) (cursor (hw console_sample)).
Proof.
  split; [vm_compute; intuition congruence|]. intros r Hr. exfalso. change (cursor _ / VGA_WIDTH) with 0 in Hr. lia.
Qed.

Lemma putchar_advances_witness :
  exists s', putchar 80 65 7 console_sample = Ret (tt, s') /\ cursor (hw s') = 1.
Proof.
  destruct (putchar_advances 80 65 7 console_sample) as (s' & Hr & Hs).
  - lia.
  - lia.
  - vm_compute. reflexivity.
  - exists s'. split; [exact Hr|].
    rewrite (proj2 (Z.ltb_lt (next_pos 65 (cursor (hw console_sample))) 2000)) in Hs by (vm_compute; reflexivity).
    destruct Hs as [_ ->]. vm_compute. reflexivity.
Defined.

Lemma putchar_backspace_witness :
  exists s', putchar 80 8 7 console_sample = Ret (tt, s') /\ cursor (hw s') = 0.
Proof.
  destruct (putchar_backspace 80 7 console_sample) as (s' & Hr & Hs).
  - exact sample_screen_ok.
  - lia.
  - exists s'. split; [exact Hr|]. rewrite decide_True in Hs by (vm_compute; reflexivity). by destruct Hs.
Defined.

Lemma puts_safe_witness :
  exists s', puts 80 (store ∅ 0 (cstring "hello")) 0 5 7 console_sample = Ret (tt, s') /\
    screen_ok (fb s') (cursor (hw s')).
Proof.
  destruct (puts_safe (store ∅ 0 (cstring "hello")) 0 5 7 console_sample sample_screen_ok) as (s' & Hr & Hs & _).
  exists s'. split; [exact Hr|exact Hs].
Defined.
