(* ===== verification/Keyboard.v ===== *)
(** The keyboard driver: src/src/keyboard.c.  The state is the driver's struct
    and the hardware behind the ports. *)
From Stdlib Require Import ZArith Lia.
From stdpp Require Import base numbers option strings zmap functions list.
From S2P Require Import Prelude Ports.

Definition KEYBOARD_DATA_PORT : Z := 0x60.

(** [keyboard_scancode_1_to_ascii_map], the make codes and the rest. *)
Definition ascii_map_low : list Z :=
  [0; 27; 49; 50; 51; 52; 53; 54; 55; 56; 57; 48; 45; 61; 8; 9;
   113; 119; 101; 114; 116; 121; 117; 105; 111; 112; 91; 93; 10; 0; 97; 115;
   100; 102; 103; 104; 106; 107; 108; 59; 39; 96; 0; 92; 122; 120; 99; 118;
   98; 110; 109; 44; 46; 47; 0; 42; 0; 32; 0; 0; 0; 0; 0; 0;
   0; 0; 0; 0; 0; 0; 0; 0; 0; 0; 45; 0; 0; 0; 43; 0;
   0; 0; 0; 0; 0; 0; 0; 0; 0; 0; 0; 0; 0; 0; 0; 0;
   0; 0; 0; 0; 0; 0; 0; 0; 0; 0; 0; 0; 0; 0; 0; 0;
   0; 0; 0; 0; 0; 0; 0; 0; 0; 0; 0; 0; 0; 0; 0; 0].

Definition ascii_map_high : list Z :=
  [0; 0; 0; 0; 0; 0; 0; 0; 0; 0; 0; 0; 0; 0; 0; 0;
   0; 0; 0; 0; 0; 0; 0; 0; 0; 0; 0; 0; 0; 0; 0; 0;
   0; 0; 0; 0; 0; 0; 0; 0; 0; 0; 0; 0; 0; 0; 0; 0;
   0; 0; 0; 0; 0; 0; 0; 0; 0; 0; 0; 0; 0; 0; 0; 0;
   0; 0; 0; 0; 0; 0; 0; 0; 0; 0; 0; 0; 0; 0; 0; 0;
   0; 0; 0; 0; 0; 0; 0; 0; 0; 0; 0; 0; 0; 0; 0; 0;
   0; 0; 0; 0; 0; 0; 0; 0; 0; 0; 0; 0; 0; 0; 0; 0;
   0; 0; 0; 0; 0; 0; 0; 0; 0; 0; 0; 0; 0; 0; 0; 0].

Definition keyboard_scancode_1_to_ascii_map (scancode : Z) : Z :=
  nth (Z.to_nat scancode) (ascii_map_low ++ ascii_map_high) 0.

(** [struct KeyboardDriverState]. *)
Record KeyboardDriverState := Keyboard {
  read_extended_mode : bool;
  keyboard_input_on : bool;
  keyboard_buffer : Z;
  col : Z;
}.

Record keyboard (P : Type) := KeyboardIO { keyboard_status : KeyboardDriverState; ports : P }.
Arguments KeyboardIO {P} keyboard_status ports.
Arguments keyboard_status {P} k.
Arguments ports {P} k.

Section Keyboard.
Context {P : Type} `{!Ports P}.

Definition lift_ports {A} (c : M P A) : M (keyboard P) A := fun k =>
  '(a, p) ← c (ports k);
  Ret (a, KeyboardIO (keyboard_status k) p).

Definition set_status (f : KeyboardDriverState -> KeyboardDriverState) : M (keyboard P) unit :=
  modify (fun k => KeyboardIO (f (keyboard_status k)) (ports k)).

Definition keyboard_isr : M (keyboard P) unit :=
  scancode ← lift_ports (in8 KEYBOARD_DATA_PORT);
  on ← gets (fun k => keyboard_input_on (keyboard_status k));
  (if on : bool then
     let ascii_char := keyboard_scancode_1_to_ascii_map scancode in
     set_status (fun s => Keyboard (read_extended_mode s) (keyboard_input_on s) ascii_char (col s)) ;;
     if ascii_char =? 10
     then set_status (fun s => Keyboard (read_extended_mode s) (keyboard_input_on s) (keyboard_buffer s) 0)
     else set_status (fun s => Keyboard (read_extended_mode s) (keyboard_input_on s) (keyboard_buffer s) (u8 (col s + 1)))
   else mret tt) ;;
  lift_ports (pic_ack IRQ_KEYBOARD).

Definition keyboard_state_activate : M (keyboard P) unit :=
  set_status (fun s => Keyboard (read_extended_mode s) true (keyboard_buffer s) (col s)).

Definition keyboard_state_deactivate : M (keyboard P) unit :=
  set_status (fun s => Keyboard (read_extended_mode s) false (keyboard_buffer s) (col s)).

(** The character that is stored at the pointer. *)
Definition get_keyboard_buffer : M (keyboard P) Z :=
  c ← gets (fun k => keyboard_buffer (keyboard_status k));
  set_status (fun s => Keyboard (read_extended_mode s) (keyboard_input_on s) 0 (col s)) ;;
  mret c.

(** ** Theorems *)

(** What the interrupt handler does to the driver's state. *)
Definition key_received (scancode : Z) (s : KeyboardDriverState) : KeyboardDriverState :=
  if keyboard_input_on s then
    let c := keyboard_scancode_1_to_ascii_map scancode in
    Keyboard (read_extended_mode s) true c (if c =? 10 then 0 else u8 (col s + 1))
  else s.

Lemma keyboard_isr_eval k :
  let scancode := u8 (fst (inb KEYBOARD_DATA_PORT (ports k))) in
  keyboard_isr k = Ret (tt, KeyboardIO (key_received scancode (keyboard_status k))
    (outb PIC1_COMMAND PIC_ACK (snd (inb KEYBOARD_DATA_PORT (ports k))))).
Proof.
  cbv zeta. unfold keyboard_isr, lift_ports, in8, mbind, M_bind, res_mbind, gets.
  change (u16 KEYBOARD_DATA_PORT) with KEYBOARD_DATA_PORT.
  destruct (inb KEYBOARD_DATA_PORT (ports k)) as [v p]. cbn [fst snd res_bind keyboard_status]. unfold key_received.
  destruct k as [[x [] b c] q]; cbn [keyboard_status keyboard_input_on]; [|done].
  destruct (keyboard_scancode_1_to_ascii_map (u8 v) =? 10); done.
Qed.

(** the handler reads one scan code; with input on the buffer holds its
    character (even when that is 0, no character), the column is reset by a
    newline and counted up, modulo 256, by everything else; with input off the
    state does not change.  In both cases the interrupt is acknowledged, after
    the read. *)
Theorem keyboard_isr_correct k :
  let scancode := u8 (fst (inb KEYBOARD_DATA_PORT (ports k))) in
  keyboard_isr k = Ret (tt, KeyboardIO (key_received scancode (keyboard_status k))
    (outb PIC1_COMMAND PIC_ACK (snd (inb KEYBOARD_DATA_PORT (ports k))))).
Proof. apply keyboard_isr_eval. Qed.

(** [get_keyboard_buffer] hands out the last character once: it empties the
    buffer, so that asking again without a key in between gives 0. *)
Theorem get_keyboard_buffer_once k :
  exists k', get_keyboard_buffer k = Ret (keyboard_buffer (keyboard_status k), k') /\
    ports k' = ports k /\ col (keyboard_status k') = col (keyboard_status k) /\
    keyboard_input_on (keyboard_status k') = keyboard_input_on (keyboard_status k) /\
    get_keyboard_buffer k' = Ret (0, k').
Proof. eexists. split; [reflexivity|]. repeat split. Qed.

End Keyboard.

(** ** The scan code table *)

(** The codes of the number row, the letters and the punctuation: all entries
    that hold a character, less the second minus sign of the keypad. *)
Definition keys : list Z :=
  filter (fun s => keyboard_scancode_1_to_ascii_map s <> 0 /\ s <> 0x4A) (seqZ 0 256).

(** the table has 256 entries, so that no scan code reads outside it; every
    release code (from 0x80 on) gives no character; and apart from the keypad's
    minus every character has one key only. *)
Theorem ascii_map_correct :
  length (ascii_map_low ++ ascii_map_high) = 256%nat /\
  (forall s, 0x80 <= s < 256 -> keyboard_scancode_1_to_ascii_map s = 0) /\
  (forall s1 s2, s1 ∈ keys -> s2 ∈ keys ->
     keyboard_scancode_1_to_ascii_map s1 = keyboard_scancode_1_to_ascii_map s2 -> s1 = s2).
Proof.
  split; [reflexivity|]. split.
  - intros s Hs. assert (Hall : Forall (fun s => keyboard_scancode_1_to_ascii_map s = 0) (seqZ 0x80 128))
      by (apply (bool_decide_eq_true_1 _); vm_compute; reflexivity).
    rewrite Forall_forall in Hall. apply Hall, elem_of_seqZ. lia.
  - assert (Hall : Forall (fun s1 => Forall (fun s2 =>
      keyboard_scancode_1_to_ascii_map s1 = keyboard_scancode_1_to_ascii_map s2 -> s1 = s2) keys) keys)
      by (apply (bool_decide_eq_true_1 _); vm_compute; reflexivity).
    intros s1 s2 H1 H2. rewrite Forall_forall in Hall. specialize (Hall s1 H1).
    rewrite Forall_forall in Hall. by apply Hall.
Qed.

(** ** A keyboard that sends a list of scan codes *)

#[export] Instance codes_ports : Ports (list Z) := {
  outb _ _ l := l;
  inb port l := if port =? KEYBOARD_DATA_PORT then (default 0 (head l), tail l) else (0, l);
  outw _ _ l := l;
  inw _ l := (0, l);
}.

(** a character is lost when its key is released before the buffer is read:
    the release code has no character, and it replaces the one in the buffer. *)
Theorem key_release_drops_character x b c make release l :
  0x80 <= release < 256 -> 0 <= make < 256 ->
  exists k, (keyboard_isr ;; keyboard_isr ;; get_keyboard_buffer)
      (KeyboardIO (Keyboard x true b c) (make :: release :: l)) = Ret (0, k).
Proof.
  intros Hr Hm. assert (Hz : keyboard_scancode_1_to_ascii_map (u8 release) = 0).
  { unfold u8. rewrite Z.mod_small by lia.
    assert (Hall : Forall (fun s => keyboard_scancode_1_to_ascii_map s = 0) (seqZ 0x80 128))
      by (apply (bool_decide_eq_true_1 _); vm_compute; reflexivity).
    rewrite Forall_forall in Hall. apply Hall, elem_of_seqZ. lia. }
  eexists. unfold mbind, M_bind. rewrite !keyboard_isr_eval. unfold get_keyboard_buffer, mbind, M_bind, gets.
  cbn [keyboard_status ports inb codes_ports outb fst snd]. rewrite Z.eqb_refl. cbn [fst snd head tail default].
  unfold key_received, id. cbn [keyboard_input_on keyboard_buffer]. rewrite Hz. reflexivity.
Qed.

Lemma key_release_drops_character_witness :
  exists k, (keyboard_isr ;; keyboard_isr ;; get_keyboard_buffer)
    (KeyboardIO (Keyboard false true 0 0) [0x1E; 0x9E]) = Ret (0, k).
Proof. apply (key_release_drops_character false 0 0 0x1E 0x9E []); lia. Defined.
