(* ===== verification/Interrupt.v ===== *)
(** Interrupts and system calls: src/src/interrupt.c.

    The state is the whole machine.  System calls reach user memory through the
    page directory in CR3; a pointer into a page that is not mapped is undefined
    behaviour.  The kernel's own objects are not part of that memory. *)
From Stdlib Require Import ZArith Lia.
From stdpp Require Import base numbers option strings zmap functions list.
From S2P Require Import Prelude CString Disk FatTypes Fat32 Paging Process Scheduler Ports Framebuffer Keyboard.

(** ** System call numbers with a name *)

Definition SYSCALL_GET_CURSOR_COL : Z := 16.
Definition SYSCALL_TERMINATE_PROCESS : Z := 18.
Definition SYSCALL_GET_MAX_PROCESS_COUNT : Z := 20.
Definition SYSCALL_GET_PROCESS_INFO : Z := 21.

(** ** The machine *)

(** [struct InterruptFrame], the part that the handlers read. *)
Record InterruptFrame := Frame {
  frame_cpu : CPURegister;
  int_number : Z;
  stack_eip : Z;
  stack_eflags : Z;
}.

Record machine (D P : Type) := Machine {
  kern : kernel D;
  kbd : KeyboardDriverState;
  screen : mem;
  io : P;
}.
Arguments Machine {D P} kern kbd screen io.
Arguments kern {D P} m.
Arguments kbd {D P} m.
Arguments screen {D P} m.
Arguments io {D P} m.

(** Fuel of the loop over a chain of clusters in [delete], which is at most 512
    long, and of the search of a backspace in [putchar], within a row. *)
Definition delete_fuel : nat := 600.
Definition row_fuel : nat := 80.

Section Lift.
Context {D P : Type}.

Definition lift_kernel {A} (c : M (kernel D) A) : M (machine D P) A := fun m =>
  '(a, k) ← c (kern m);
  Ret (a, Machine k (kbd m) (screen m) (io m)).

Definition lift_console {A} (c : M (console P) A) : M (machine D P) A := fun m =>
  '(a, s) ← c (Console (screen m) (io m));
  Ret (a, Machine (kern m) (kbd m) (fb s) (hw s)).

Definition lift_keyboard {A} (c : M (keyboard P) A) : M (machine D P) A := fun m =>
  '(a, s) ← c (KeyboardIO (kbd m) (io m));
  Ret (a, Machine (kern m) (keyboard_status s) (screen m) (ports s)).

Definition lift_io {A} (c : M P A) : M (machine D P) A := fun m =>
  '(a, p) ← c (io m);
  Ret (a, Machine (kern m) (kbd m) (screen m) p).

End Lift.

(** ** User memory *)

Section User.
Context {D : Type} `{!Disk D}.

(** The [n] bytes at [va], [None] when one of them is not mapped. *)
Definition user_bytes (k : kernel D) (va : Z) (n : nat) : option (list byte) :=
  mapM (fun i => pa ← translate (pages k) (u32 (va + i)); Some (mget (phys k) pa)) (seqZ 0 (Z.of_nat n)).

Definition load_user (va : Z) (n : nat) : M (kernel D) (list byte) := fun k =>
  match user_bytes k va n with
  | Some bs => Ret (bs, k)
  | None => Undef
  end.

Definition store_user (va : Z) (bs : list byte) : M (kernel D) unit := fun k =>
  match store_pages (translate (pages k)) (phys k) (imap (fun i b => (u32 (va + Z.of_nat i), b)) bs) with
  | Some m => Ret (tt, Kernel (pages k) (driver k) (device k) m (procs k))
  | None => Undef
  end.

(** [*(struct FAT32DriverRequest * ) va]: the 23 packed bytes. *)
Definition request_of (bs : list byte) : request :=
  let m := obj bs in
  Request (load_le 4 m 0) (load m 4 8) (load m 12 3) (load_le 4 m 15) (load_le 4 m 19).

Definition load_request (va : Z) : M (kernel D) request :=
  bs ← load_user va 23;
  mret (request_of bs).

(** File system operations in the current address space.  [write] takes its
    data from the user's buffer; it does so only when it succeeds. *)
Definition write_user (r : request) : M (kernel D) Z := fun k =>
  let bs := user_bytes k (buf r) (Z.to_nat (buffer_size r)) in
  '(code, s) ← write r (Fs (driver k) (device k) (store ∅ (buf r) (default [] bs)));
  if (code =? 0) && negb (bool_decide (is_Some bs)) then Undef
  else Ret (code, Kernel (pages k) (memory s) (disk s) (phys k) (procs k)).

Definition delete_user (r : request) : M (kernel D) Z := fun k =>
  '(code, s) ← delete delete_fuel r (Fs (driver k) (device k) ∅);
  Ret (code, Kernel (pages k) (memory s) (disk s) (phys k) (procs k)).

Definition read_directory_user (r : request) : M (kernel D) Z := fun k =>
  '(code, s) ← read_directory r (Fs (driver k) (device k) ∅);
  match store_pages (translate (pages k)) (phys k) (map_to_list (user s)) with
  | Some m => Ret (code, Kernel (pages k) (memory s) (disk s) m (procs k))
  | None => Undef
  end.

(** A disk operation of the kernel. *)
Definition lift_device {A} (c : M D A) : M (kernel D) A := fun k =>
  '(a, d) ← c (device k);
  Ret (a, Kernel (pages k) (driver k) d (phys k) (procs k)).

(** ** Moving a directory entry (system call 11) *)

(** The fields that are assigned one by one, in their order: offset and size. *)
Definition moved_fields : list (Z * nat) :=
  [(11, 1%nat); (12, 1%nat); (13, 1%nat); (14, 2%nat); (16, 2%nat); (18, 2%nat);
   (22, 2%nat); (24, 2%nat); (28, 4%nat); (20, 2%nat); (26, 2%nat)].

(** [dest_table.table[i] = src_table.table[src_idx]], field by field; the
    [memcpy] of the extension copies eight bytes of its three. *)
Definition copy_entry (dest : mem) (da : Z) (src : mem) (sa : Z) : mem :=
  let dest := memcpy dest da src sa 8 in
  let dest := memcpy dest (da + 8) src (sa + 8) 8 in
  foldl (fun m '(o, n) => store_le n m (da + o) (load_le n src (sa + o))) dest moved_fields.

Definition clear_entry (m : mem) (a : Z) : mem :=
  let m := memcpy m a (obj (zeros 8)) 0 8 in
  let m := memcpy m (a + 8) (obj (zeros 3)) 0 3 in
  foldl (fun m '(o, n) => store_le n m (a + o) 0) m moved_fields.

(** The two tables after the loop, which starts at entry 1. *)
Definition move_tables (src dest : mem) (src_idx : Z) : mem * mem :=
  match find_up (fun i => negb (table_user_attribute dest 0 i =? UATTR_NOT_EMPTY)) 1 63 with
  | None => (src, dest)
  | Some i => (clear_entry src (entry_addr 0 src_idx), copy_entry dest (entry_addr 0 i) src (entry_addr 0 src_idx))
  end.

(** An index past the table is undefined, when it is used. *)
Definition move_entry (ebx ecx edx : Z) : M (kernel D) unit :=
  sb ← load_user ebx 2048;
  db ← load_user ecx 2048;
  let src_idx := edx in
  (if (bool_decide (is_Some (find_up (fun i => negb (table_user_attribute (obj db) 0 i =? UATTR_NOT_EMPTY)) 1 63)))
      && negb (src_idx <? TABLE_ENTRIES)
   then undefined else mret tt) ;;
  let tables := move_tables (obj sb) (obj db) src_idx in
  let src_cluster_number := entry_cluster (table_entry (fst tables) 0 0) in
  let dest_cluster_number := entry_cluster (table_entry (snd tables) 0 0) in
  lift_device (write_clusters (fst tables) 0 src_cluster_number 1) ;;
  lift_device (write_clusters (snd tables) 0 dest_cluster_number 1).

(** ** Process information (system call 21) *)

(** The characters written for a state, at most [n] of them. *)
Definition state_name (st : PROCESS_STATE) : list byte :=
  match st with
  | PROCESS_STATE_RUNNING => cstring "RUNNING"
  | PROCESS_STATE_READY => cstring "READY"
  | PROCESS_STATE_BLOCKED => cstring "BLOCKED"
  | NO_PROCESS => []
  end.

(** [get_process_info]: fields of the argument at offsets 0 (pid), 4 (name), 36
    (state), 44 (process_exists) and 48 (page_frame_used_count). *)
Definition get_process_info (args : Z) : M (kernel D) unit :=
  pb ← load_user args 4;
  let id := le_val pb in
  if negb (id <? PROCESS_COUNT_MAX) then undefined
  else
    exists_ ← gets (fun k => occupied (procs k) id);
    store_user (args + 44) [z2b (if exists_ : bool then 1 else 0)] ;;
    if exists_ : bool then
      pcb ← gets (fun k => pcb_at (procs k) id);
      store_user (args + 4) (take (Z.to_nat PROCESS_NAME_LENGTH_MAX) (pname pcb)) ;;
      store_user (args + 36) (state_name (pstate pcb)) ;;
      store_user (args + 48) (le_bytes 4 (page_frame_used_count pcb))
    else mret tt.

End User.

(** ** Dispatch *)

Section Dispatch.
Context {D P : Type} `{!Disk D, !Ports P}.

(** A file system call: the request at EBX, the code stored at ECX. *)
Definition fs_call (op : request -> M (kernel D) Z) (ebx ecx : Z) : M (kernel D) unit :=
  r ← load_request ebx;
  code ← op r;
  store_user ecx [z2b code].

Definition syscall (c : CPURegister) : M (machine D P) unit :=
  match eax c with
  | 0 => lift_kernel (fs_call read_user (ebx c) (ecx c))
  | 1 => lift_kernel (fs_call read_directory_user (ebx c) (ecx c))
  | 2 => lift_kernel (fs_call write_user (ebx c) (ecx c))
  | 3 => lift_kernel (fs_call delete_user (ebx c) (ecx c))
  | 4 =>
      ch ← lift_keyboard get_keyboard_buffer;
      lift_kernel (store_user (ebx c) [z2b ch])
  | 5 =>
      bs ← lift_kernel (load_user (ebx c) 1);
      lift_console (putchar row_fuel (i8 (le_val bs)) (ecx c))
  | 6 =>
      bs ← lift_kernel (load_user (ebx c) (Z.to_nat (ecx c)));
      lift_console (puts row_fuel (obj bs) 0 (Z.to_nat (ecx c)) (edx c))
  | 7 => lift_keyboard keyboard_state_activate
  | 8 => lift_keyboard keyboard_state_deactivate
  | 10 => lift_console framebuffer_clear
  | 11 => lift_kernel (move_entry (ebx c) (ecx c) (edx c))
  | 16 =>
      v ← gets (fun m => col (kbd m));
      lift_kernel (store_user (ebx c) [z2b v])
  | 18 =>
      id ← gets (fun m => current_running_pid (procs (kern m)));
      lift_kernel (process_destroy id) ;; mret tt
  | 20 => lift_kernel (store_user (ebx c) (le_bytes 4 PROCESS_COUNT_MAX))
  | 21 => lift_kernel (get_process_info (ebx c))
  | _ => mret tt
  end.

(** [Some ctx] when the handler does not return but switches to [ctx]. *)
Definition main_interrupt_handler (frame : InterruptFrame) : M (machine D P) (option Context) :=
  if int_number frame =? PIC1_OFFSET + IRQ_TIMER then
    let ctx := Ctx (frame_cpu frame) (stack_eip frame) (stack_eflags frame) 0 in
    lift_io (pic_ack IRQ_TIMER) ;;
    lift_kernel (scheduler_save_context_to_current_running_pcb ctx) ;;
    next ← lift_kernel (scheduler_switch_to_next_process 16);
    mret (Some next)
  else if int_number frame =? PIC1_OFFSET + IRQ_KEYBOARD then
    lift_keyboard keyboard_isr ;; mret None
  else if int_number frame =? PIC1_OFFSET + IRQ_SYSCALL then
    syscall (frame_cpu frame) ;; mret None
  else mret None.

End Dispatch.
