(* ===== verification/InterruptSpec.v ===== *)
(** Theorems about src/src/interrupt.c: the dispatch of interrupts and system
    calls, the timer tick, moving an entry and process information. *)
From Stdlib Require Import ZArith Lia ZifyBool.
From stdpp Require Import base numbers option strings zmap functions list.
From S2P Require Import Prelude CString Disk FatTypes Fat32 FatView Paging PagingSpec Process ProcessSpec Scheduler Ports Framebuffer Keyboard Interrupt.

(** ** Moving an entry *)

(** The fields [l] of an entry cover offset [x]. *)
Definition covers (l : list (Z * nat)) (x : Z) : bool :=
  existsb (fun '(o, n) => (o <=? x) && (x <? o + Z.of_nat n)) l.

Lemma store_load_get m a src sa n k :
  mget (store_le n m a (load_le n src sa)) k =
    if decide (a <= k < a + Z.of_nat n) then mget src (sa + (k - a)) else mget m k.
Proof.
  unfold store_le, load_le. pose proof (le_bytes_le_val (load src sa n)) as E. rewrite length_load in E. rewrite E.
  case_decide as Hk.
  - apply mget_store_in; [lia|]. rewrite lookup_load by lia. do 2 f_equal. lia.
  - apply mget_store_out. rewrite length_load. lia.
Qed.

Lemma copy_fields_get l src sa da : forall m k,
  mget (foldl (fun m '(o, n) => store_le n m (da + o) (load_le n src (sa + o))) m l) k =
    if covers l (k - da) then mget src (sa + (k - da)) else mget m k.
Proof.
  induction l as [|[o n] l IH]; intros m k; [done|]. cbn [foldl covers existsb]. rewrite IH.
  fold (covers l (k - da)). destruct (covers l (k - da)); [by rewrite orb_true_r|]. rewrite orb_false_r.
  rewrite store_load_get. case_decide as Hk.
  - rewrite (proj2 (Z.leb_le o _)), (proj2 (Z.ltb_lt (k - da) _)) by lia. cbn. f_equal. lia.
  - destruct (Z.leb_spec o (k - da)); [|done]. rewrite (proj2 (Z.ltb_ge (k - da) _)) by lia. done.
Qed.

Lemma load_le_empty n a : load_le n ∅ a = 0.
Proof.
  unfold load_le. revert a. induction n as [|n IH]; intros a; cbn [load le_val]; [done|].
  rewrite IH. unfold mget. rewrite lookup_empty. cbn [default]. rewrite b2z_z2b. done.
Qed.

(** Every byte of an entry is copied, and nothing else is written. *)
Lemma copy_entry_get dest da src sa k :
  mget (copy_entry dest da src sa) k =
    if decide (da <= k < da + 32) then mget src (sa + (k - da)) else mget dest k.
Proof.
  unfold copy_entry. rewrite copy_fields_get, !memcpy_store.
  destruct (covers moved_fields (k - da)) eqn:E; [|case_decide as Hk].
  - rewrite decide_True; [done|]. unfold covers, moved_fields in E. cbn [existsb] in E. lia.
  - unfold covers, moved_fields in E. cbn [existsb] in E.
    destruct (decide (da <= k < da + 8)) as [Hk'|Hk'].
    + rewrite mget_store_out by (rewrite length_load; lia).
      apply mget_store_in; [lia|]. rewrite lookup_load by lia. do 2 f_equal. lia.
    + apply mget_store_in; [lia|]. rewrite lookup_load by lia. do 2 f_equal. lia.
  - rewrite !mget_store_out by (rewrite length_load; lia). done.
Qed.

Lemma clear_entry_get m a k :
  mget (clear_entry m a) k = if decide (a <= k < a + 32) then z2b 0 else mget m k.
Proof.
  unfold clear_entry.
  assert (Hf : forall m, foldl (fun m '(o, n) => store_le n m (a + o) 0) m moved_fields =
    foldl (fun m '(o, n) => store_le n m (a + o) (load_le n ∅ (0 + o))) m moved_fields).
  { intros m'. unfold moved_fields. cbn [foldl]. by rewrite !load_le_empty. }
  rewrite Hf, copy_fields_get, !memcpy_store.
  destruct (covers moved_fields (k - a)) eqn:E; [|case_decide as Hk].
  - rewrite decide_True; [unfold mget; by rewrite lookup_empty|]. unfold covers, moved_fields in E. cbn [existsb] in E. lia.
  - unfold covers, moved_fields in E. cbn [existsb] in E.
    destruct (decide (a <= k < a + 8)) as [Hk'|Hk'].
    + rewrite mget_store_out by (rewrite length_load; lia).
      apply mget_store_in; [lia|]. unfold obj. rewrite (load_store_eq _ _ (zeros 8)) by done.
      unfold zeros. apply lookup_replicate_2. lia.
    + apply mget_store_in; [lia|]. unfold obj. rewrite (load_store_eq _ _ (zeros 3)) by done.
      unfold zeros. apply lookup_replicate_2. lia.
  - rewrite !mget_store_out by (rewrite length_load; lia). done.
Qed.

(** The first entry of a table, after its own, that is not in use. *)
Definition move_target (dest : mem) : option Z :=
  find_up (fun i => negb (table_user_attribute dest 0 i =? UATTR_NOT_EMPTY)) 1 63.

(** the move of an entry between two tables (system call 11): the first
    entry from 1 of the destination that is not in use becomes the source's
    entry, all 32 bytes of it, and the source's entry becomes zeros; every other
    entry of both tables stays; with a full destination nothing changes.  The
    eight-byte copy of the three-byte extension does no harm. *)
Theorem move_tables_correct src dest src_idx :
  0 <= src_idx < 64 ->
  let tables := move_tables src dest src_idx in
  match move_target dest with
  | None => tables = (src, dest)
  | Some i =>
      (forall j, (0 <= j < 64) ->
         table_entry (snd tables) 0 j = if decide (j = i) then table_entry src 0 src_idx else table_entry dest 0 j) /\
      (forall j, (0 <= j < 64) ->
         load (fst tables) (entry_addr 0 j) 32 =
           if decide (j = src_idx) then zeros 32 else load src (entry_addr 0 j) 32)
  end.
Proof.
  intros Hs tables. subst tables. unfold move_tables, move_target. destruct (find_up _ 1 63) as [i|] eqn:Hi; [|done].
  apply find_up_Some in Hi as (Hi & _). unfold table_entry, entry_addr, sizeof_DirectoryEntry. cbn [fst snd]. split.
  - intros j Hj. case_decide as E.
    + subst j. apply window_entry_at. intros x Hx. rewrite copy_entry_get, decide_True by lia. f_equal. lia.
    + apply window_entry_at. intros x Hx. rewrite copy_entry_get, decide_False; [done|lia].
  - intros j Hj. case_decide as E.
    + subst j. apply list_eq_same_length with (n := 32%nat); rewrite ?length_load; try done.
      intros x b1 b2 Hx. rewrite lookup_load by done. rewrite clear_entry_get, decide_True by lia.
      intros [= <-] Hb. by apply lookup_replicate in Hb as [-> _].
    + apply load_ext. intros x Hx. rewrite clear_entry_get, decide_False; [done|lia].
Qed.

Lemma move_tables_correct_witness :
  table_entry (snd (move_tables ∅ ∅ 3)) 0 1 = table_entry ∅ 0 3 /\
  table_entry (snd (move_tables ∅ ∅ 3)) 0 2 = table_entry ∅ 0 2.
Proof.
  pose proof (move_tables_correct ∅ ∅ 3 ltac:(lia)) as H. cbv zeta in H.
  change (move_target ∅) with (Some 1) in H. cbv iota in H. destruct H as [H _].
  split; [exact (H 1 ltac:(lia))|exact (H 2 ltac:(lia))].
Defined.

(** ** Dispatch *)

Section Dispatch.
Context {D P : Type} `{!Disk D, !Ports P}.
Implicit Types (m : machine D P).

(** The numbers that [syscall] has a case with an effect for. *)
Definition handled_calls : list Z := [0; 1; 2; 3; 4; 5; 6; 7; 8; 10; 11; 16; 18; 20; 21].

Ltac handled := unfold handled_calls; repeat (apply elem_of_cons; first [left; reflexivity|right]).

(** a system call whose number has no case, or a case without code (9, 12 and
    13), changes nothing.  Among them is 17, which the exit code of every
    program (crt0.s) asks for. *)
Theorem syscall_ignored c m : eax c ∉ handled_calls -> syscall c m = Ret (tt, m).
Proof.
  intros Hn. unfold syscall. destruct (eax c) as [|x|x]; [destruct Hn; handled| |done].
  do 5 (try (destruct x as [x|x|]; try (destruct Hn; solve [handled]); try reflexivity)).
Qed.

(** an interrupt that is not the timer, the keyboard or the system call
    vector, such as any CPU exception, is ignored: the handler returns to the
    interrupted code and nothing has changed. *)
Theorem interrupt_ignored f m :
  int_number f ∉ [0x20; 0x21; 0x30] -> main_interrupt_handler f m = Ret (None, m).
Proof.
  intros Hn. rewrite !not_elem_of_cons in Hn. destruct Hn as (H1 & H2 & H3 & _).
  unfold main_interrupt_handler, PIC1_OFFSET, IRQ_TIMER, IRQ_KEYBOARD, IRQ_SYSCALL.
  by rewrite !(proj2 (Z.eqb_neq _ _)) by lia.
Qed.

(** The process table after the context has been saved. *)
Definition saved (ctx : Context) (p : processes) : processes :=
  match process_get_current_running_pcb_pointer p with
  | None => p
  | Some i => set_process_list (alter (fun b => with_context
      (Ctx (cpu ctx) (eip ctx) (eflags ctx) (page_directory_virtual_addr (context b)))
      (with_state PROCESS_STATE_READY b)) (Z.to_nat i) (process_list p)) p
  end.

Lemma save_saved ctx (k : kernel D) :
  scheduler_save_context_to_current_running_pcb ctx k = Ret (tt, set_procs (saved ctx (procs k)) k).
Proof.
  unfold scheduler_save_context_to_current_running_pcb, saved, mbind, M_bind, gets.
  destruct (process_get_current_running_pcb_pointer (procs k)) as [i|]; [|by destruct k].
  unfold pcb_update, modify. cbn. by rewrite alter_alter.
Qed.

Lemma page_directory_saved ctx p j :
  page_directory_virtual_addr (context (pcb_at (saved ctx p) j)) = page_directory_virtual_addr (context (pcb_at p j)).
Proof.
  unfold saved, pcb_at. destruct (process_get_current_running_pcb_pointer p) as [i|]; [|done].
  cbn [process_list set_process_list]. rewrite !nth_lookup.
  destruct (decide (Z.to_nat i = Z.to_nat j)) as [E|E].
  - rewrite E, list_lookup_alter_eq. by destruct (process_list p !! Z.to_nat j).
  - by rewrite list_lookup_alter_ne.
Qed.

Lemma occupied_saved ctx p j : occupied (saved ctx p) j = occupied p j.
Proof. unfold saved. by destruct (process_get_current_running_pcb_pointer p). Qed.

Lemma start_slot_saved ctx p : start_slot (saved ctx p) = start_slot p.
Proof. unfold saved. by destruct (process_get_current_running_pcb_pointer p). Qed.

Lemma slots_saved ctx p j : process_slot_occupied (running (saved ctx p) j) = process_slot_occupied p.
Proof. unfold saved. by destruct (process_get_current_running_pcb_pointer p). Qed.

(** The switch, after the context has been saved. *)
Lemma wp_switch_saved ctx (k : kernel D) d :
  runnable k -> next_distance (procs k) (start_slot (procs k)) = Some d ->
  let p := saved ctx (procs k) in
  let j := slot_after (start_slot (procs k)) d in
  wp (scheduler_switch_to_next_process 16) (fun a k' => a = context (pcb_at p j) /\ procs k' = running p j /\
    cr3 (pages k') = page_directory_virtual_addr (context (pcb_at (procs k) j)) - KERNEL_VIRTUAL_ADDRESS_BASE /\
    phys k' = phys k) (set_procs p k).
Proof.
  intros Hrun Hd p j.
  assert (Hstart : start_slot (procs (set_procs p k)) = start_slot (procs k)) by apply start_slot_saved.
  apply (wp_switch d).
  - intros i Hi Hoi. cbn [procs set_procs pages] in *. unfold p in *. rewrite occupied_saved in Hoi.
    rewrite page_directory_saved. by apply Hrun.
  - rewrite Hstart, <- Hd. unfold next_distance. apply find_up_ext. intros e _. apply occupied_saved.
  - rewrite Hstart. fold j. intros _. split; [done|]. split; [done|]. split; [|done].
    cbn [procs set_procs]. unfold p. by rewrite page_directory_saved.
Qed.

(** The whole handler. *)
Lemma timer_handler f m a k' :
  int_number f = 0x20 ->
  scheduler_switch_to_next_process 16
    (set_procs (saved (Ctx (frame_cpu f) (stack_eip f) (stack_eflags f) 0) (procs (kern m))) (kern m)) = Ret (a, k') ->
  main_interrupt_handler f m = Ret (Some a, Machine k' (kbd m) (screen m) (outb PIC1_COMMAND PIC_ACK (io m))).
Proof.
  intros Hf Hr. unfold main_interrupt_handler. rewrite Hf.
  change (0x20 =? PIC1_OFFSET + IRQ_TIMER) with true. cbv iota zeta.
  unfold mbind, M_bind, lift_io, lift_kernel, pic_ack. change (IRQ_TIMER >=? 8) with false.
  unfold mbind, M_bind, mret, M_ret, out, modify. cbn [res_mbind res_bind kern kbd screen io].
  rewrite save_saved. unfold res_mbind. cbn [res_bind kern kbd screen io]. by rewrite Hr.
Qed.

(** The block [i] is the first of the occupied ones with the pid [c]. *)
Definition holds_pid (p : processes) (c i : Z) : Prop :=
  0 <= i < PROCESS_COUNT_MAX /\ occupied p i = true /\ pid (pcb_at p i) = c /\
  forall e, 0 <= e < i -> occupied p e = true -> pid (pcb_at p e) <> c.

(** Every occupied block is in the slot of its pid. *)
Definition pids_are_slots (p : processes) : Prop :=
  forall i, 0 <= i < PROCESS_COUNT_MAX -> occupied p i = true -> pid (pcb_at p i) = i.

Lemma current_block_holds p i :
  process_get_current_running_pcb_pointer p = Some i <-> holds_pid p (current_running_pid p) i.
Proof.
  unfold process_get_current_running_pcb_pointer, holds_pid. rewrite find_up_Some, andb_true_iff, Z.eqb_eq. split.
  - intros (Hi & [Ho Hp] & Hb). split; [exact Hi|]. do 2 (split; [done|]). intros e He Hoe Hpe.
    specialize (Hb e He). apply andb_false_iff in Hb as [Hb|Hb]; [by unfold occupied in Hoe; rewrite Hoe in Hb|].
    by apply Z.eqb_neq in Hb.
  - intros (Hi & Ho & Hp & Hb). split; [exact Hi|]. split; [done|]. intros e He. apply andb_false_iff.
    destruct (occupied p e) eqn:Hoe; [right|by left]. apply Z.eqb_neq. by apply Hb.
Qed.

Lemma holds_own_slot p c :
  pids_are_slots p -> 0 <= c < PROCESS_COUNT_MAX -> occupied p c = true -> holds_pid p c c.
Proof. intros Hp Hc Ho. split; [done|]. split; [done|]. split; [by apply Hp|]. intros e He Hoe. rewrite Hp by (done || lia). lia. Qed.

(** A block after the context has been saved, and after a slot has been made to
    run. *)
Lemma saved_at ctx p i :
  length (process_list p) = 16%nat -> 0 <= i < 16 ->
  pcb_at (saved ctx p) i =
    if decide (process_get_current_running_pcb_pointer p = Some i) then
      with_context (Ctx (cpu ctx) (eip ctx) (eflags ctx) (page_directory_virtual_addr (context (pcb_at p i))))
        (with_state PROCESS_STATE_READY (pcb_at p i))
    else pcb_at p i.
Proof.
  intros Hl Hi. unfold saved. destruct (process_get_current_running_pcb_pointer p) as [r|] eqn:Hr.
  2: { by rewrite decide_False. }
  assert (Hr0 : 0 <= r) by (apply find_up_Some in Hr as (? & _); lia).
  unfold pcb_at. cbn [process_list set_process_list]. rewrite !nth_lookup. case_decide as E.
  - injection E as ->. rewrite list_lookup_alter_eq.
    destruct (lookup_lt_is_Some_2 (process_list p) (Z.to_nat i)) as [x Hx]; [lia|]. by rewrite Hx.
  - rewrite list_lookup_alter_ne; [done|]. intros E'. destruct E. f_equal. lia.
Qed.

Lemma running_at p j i :
  length (process_list p) = 16%nat -> 0 <= i < 16 -> 0 <= j < 16 ->
  pcb_at (running p j) i = if decide (i = j) then with_state PROCESS_STATE_RUNNING (pcb_at p i) else pcb_at p i.
Proof.
  intros Hl Hi Hj. unfold pcb_at, running. cbn [process_list set_current set_process_list]. rewrite !nth_lookup. case_decide as E.
  - subst j. rewrite list_lookup_alter_eq. destruct (lookup_lt_is_Some_2 (process_list p) (Z.to_nat i)) as [x Hx]; [lia|]. by rewrite Hx.
  - by rewrite list_lookup_alter_ne by lia.
Qed.

Lemma length_saved ctx p : length (process_list (saved ctx p)) = length (process_list p).
Proof. unfold saved. destruct (process_get_current_running_pcb_pointer p); [|done]. by cbn; rewrite length_alter. Qed.

(** What a tick leaves of the block [b] of slot [i], when [ctx] is interrupted and
    slot [j] runs next. *)
Definition block_ticked (p : processes) (ctx : Context) (j i : Z) (b b' : ProcessControlBlock) : Prop :=
  pid b' = pid b /\ pname b' = pname b /\ virtual_addr_used b' = virtual_addr_used b /\
  page_frame_used_count b' = page_frame_used_count b /\
  (holds_pid p (current_running_pid p) i ->
     context b' = Ctx (cpu ctx) (eip ctx) (eflags ctx) (page_directory_virtual_addr (context b)) /\
     pstate b' = if decide (i = j) then PROCESS_STATE_RUNNING else PROCESS_STATE_READY) /\
  (~ holds_pid p (current_running_pid p) i ->
     context b' = context b /\ pstate b' = if decide (i = j) then PROCESS_STATE_RUNNING else pstate b).

Lemma saved_block ctx p j i :
  procs_ok p -> 0 <= j < PROCESS_COUNT_MAX -> 0 <= i < PROCESS_COUNT_MAX ->
  block_ticked p ctx j i (pcb_at p i) (pcb_at (running (saved ctx p) j) i).
Proof.
  intros [Hl _] Hj Hi. unfold PROCESS_COUNT_MAX in *.
  rewrite running_at, saved_at by (rewrite ?length_saved; done || lia).
  unfold block_ticked. rewrite <- current_block_holds.
  by repeat case_decide.
Qed.

(** C26: a timer tick acknowledges the interrupt and switches to the nearest
    occupied slot after the running one, whose context it resumes.  Where the
    interrupted context goes is said of the process that runs, with the number
    [c]: as long as every occupied block is in the slot of its pid, block [c]
    is left ready with the registers, [eip] and [eflags] of the frame; in
    general they go to the first occupied block with the pid [c], which need
    not be the one that ran, and when there is none they are lost.  Every other
    block keeps its context; each keeps its pid, name, directory and counts.  The
    slots, the memory, the screen and the keyboard do not change. *)
Theorem timer_tick_correct f m j0 :
  int_number f = 0x20 -> runnable (kern m) -> procs_ok (procs (kern m)) ->
  0 <= j0 < PROCESS_COUNT_MAX -> occupied (procs (kern m)) j0 = true ->
  let p := procs (kern m) in
  let c := current_running_pid p in
  let ctx := Ctx (frame_cpu f) (stack_eip f) (stack_eflags f) 0 in
  exists d m', next_distance p (start_slot p) = Some d /\
    let j := slot_after (start_slot p) d in
    let p' := procs (kern m') in
    main_interrupt_handler f m = Ret (Some (context (pcb_at p' j)), m') /\
    current_running_pid p' = j /\ process_slot_occupied p' = process_slot_occupied p /\
    (pids_are_slots p -> (0 <= c < PROCESS_COUNT_MAX) -> occupied p c = true ->
       context (pcb_at p' c) = Ctx (frame_cpu f) (stack_eip f) (stack_eflags f) (page_directory_virtual_addr (context (pcb_at p c))) /\
       forall i, (0 <= i < PROCESS_COUNT_MAX) -> i <> c -> context (pcb_at p' i) = context (pcb_at p i)) /\
    ((forall i, (0 <= i < PROCESS_COUNT_MAX) -> occupied p i = true -> pid (pcb_at p i) <> c) ->
       forall i, (0 <= i < PROCESS_COUNT_MAX) -> context (pcb_at p' i) = context (pcb_at p i)) /\
    (forall i, (0 <= i < PROCESS_COUNT_MAX) -> block_ticked p ctx j i (pcb_at p i) (pcb_at p' i)) /\
    cr3 (pages (kern m')) = page_directory_virtual_addr (context (pcb_at p j)) - KERNEL_VIRTUAL_ADDRESS_BASE /\
    phys (kern m') = phys (kern m) /\
    io m' = outb PIC1_COMMAND PIC_ACK (io m) /\ screen m' = screen m /\ kbd m' = kbd m.
Proof.
  intros Hf Hrun Hprocs Hj0 Ho p c ctx.
  destruct (next_distance_some p (start_slot p) _ Hj0 Ho) as [d Hd].
  set (j := slot_after (start_slot p) d). pose proof (slot_after_range (start_slot p) d : 0 <= j < PROCESS_COUNT_MAX) as Hj.
  destruct (wp_elim _ _ _ (wp_switch_saved ctx (kern m) d Hrun Hd)) as (a & k2 & Hr & -> & Hp & Hc3 & Hph).
  fold p j in Hr, Hp, Hc3.
  assert (Hblocks : forall i, 0 <= i < PROCESS_COUNT_MAX -> block_ticked p ctx j i (pcb_at p i) (pcb_at (procs k2) i)).
  { intros i Hi. rewrite Hp. by apply saved_block. }
  exists d, (Machine k2 (kbd m) (screen m) (outb PIC1_COMMAND PIC_ACK (io m))). split; [exact Hd|]. cbv zeta. cbn [kern io screen kbd]. fold j.
  split.
  { rewrite (timer_handler f m _ _ Hf Hr). do 2 f_equal. rewrite Hp, context_running; [done|]. rewrite length_saved. by destruct Hprocs. }
   split; [by rewrite Hp|]. split; [rewrite Hp; apply slots_saved|].
  split.
  { intros Hpids Hc Hoc. pose proof (holds_own_slot p c Hpids Hc Hoc) as Hh. split; [by apply (Hblocks c Hc)|].
    intros i Hi Hne. apply (Hblocks i Hi). intros (_ & Hoi & Hpi & _). destruct Hne. by rewrite <- (Hpids i Hi Hoi). }
  split.
  { intros Hno i Hi. apply (Hblocks i Hi). intros (_ & Hoi & Hpi & _). by apply (Hno i). }
  done.
Qed.

End Dispatch.

(** ** Process information *)

Section Info.
Context {D : Type}.
Implicit Types (k : kernel D).

(** The [n] bytes at [va] are mapped to one stretch of physical memory. *)
Definition mapped_at k (va pa n : Z) : Prop :=
  forall i, 0 <= i < n -> translate (pages k) (u32 (va + i)) = Some (pa + i).

Lemma mapped_at_sub k va pa n o l :
  mapped_at k va pa n -> 0 <= o -> o + l <= n -> mapped_at k (va + o) (pa + o) l.
Proof.
  intros Hm Ho Hl i Hi. replace (va + o + i) with (va + (o + i)) by lia. rewrite Hm by lia. f_equal. lia.
Qed.

Lemma store_pages_mapped tr bs : forall m va pa,
  (forall i, 0 <= i < Z.of_nat (length bs) -> tr (u32 (va + i)) = Some (pa + i)) ->
  store_pages tr m (imap (fun i b => (u32 (va + Z.of_nat i), b)) bs) = Some (store m pa bs).
Proof.
  induction bs as [|b bs IH]; intros m va pa Htr; [done|]. rewrite imap_cons. cbn [store_pages store length] in *.
  change (Z.of_nat 0) with 0. rewrite (Htr 0), Z.add_0_r by lia. rewrite <- (IH _ (va + 1)).
  - f_equal. apply imap_ext. intros i x _. unfold compose. do 2 f_equal. lia.
  - intros i Hi. replace (va + 1 + i) with (va + (1 + i)) by lia. rewrite Htr by lia. f_equal. lia.
Qed.

Lemma store_user_mapped va pa bs k :
  mapped_at k va pa (Z.of_nat (length bs)) ->
  store_user va bs k = Ret (tt, Kernel (pages k) (driver k) (device k) (store (phys k) pa bs) (procs k)).
Proof. intros Hm. unfold store_user. by rewrite (store_pages_mapped _ _ _ _ pa). Qed.

Lemma load_user_mapped va pa n k :
  mapped_at k va pa (Z.of_nat n) -> load_user va n k = Ret (load (phys k) pa n, k).
Proof.
  intros Hm. unfold load_user, user_bytes.
  enough (Hgen : forall l i, 0 <= i -> i + Z.of_nat l = Z.of_nat n ->
    mapM (fun i => pa ← translate (pages k) (u32 (va + i)); Some (mget (phys k) pa)) (seqZ i (Z.of_nat l)) =
      Some (load (phys k) (pa + i) l)).
  { rewrite (Hgen n 0), Z.add_0_r by lia. done. }
  induction l as [|l IH]; intros i Hi Hl; [done|]. rewrite seqZ_cons by lia. cbn [mapM].
  rewrite Hm by lia. cbn [mbind option_bind load].
  replace (Z.pred (Z.of_nat (S l))) with (Z.of_nat l) by lia. rewrite (IH (Z.succ i)) by lia. cbn.
  do 2 f_equal. f_equal. lia.
Qed.

(** [get_process_info] does not check the process number it is given: from 16
    on it indexes [process_slot_occupied] out of bounds. *)
Theorem get_process_info_unchecked args pa k :
  mapped_at k args pa 4 -> PROCESS_COUNT_MAX <= load_le 4 (phys k) pa -> get_process_info args k = Undef.
Proof.
  intros Hm Hid. unfold get_process_info, mbind, M_bind. rewrite (load_user_mapped _ pa 4) by done.
  fold (load_le 4 (phys k) pa). by rewrite (proj2 (Z.ltb_ge _ _) Hid).
Qed.

(** for a slot number [get_process_info] tells whether the slot is occupied
    and, when it is, the name, the state in letters and the frame count of its
    block; no byte outside the fields of the answer changes. *)
Theorem get_process_info_correct args pa k :
  mapped_at k args pa 52 -> load_le 4 (phys k) pa < PROCESS_COUNT_MAX ->
  let id := load_le 4 (phys k) pa in
  let b := pcb_at (procs k) id in
  length (pname b) = 32%nat ->
  exists k', get_process_info args k = Ret (tt, k') /\ procs k' = procs k /\ pages k' = pages k /\
    mget (phys k') (pa + 44) = z2b (if occupied (procs k) id then 1 else 0) /\
    (if occupied (procs k) id then
       load (phys k') (pa + 4) 32 = pname b /\
       load (phys k') (pa + 36) (length (state_name (pstate b))) = state_name (pstate b) /\
       load_le 4 (phys k') (pa + 48) = u32 (page_frame_used_count b)
     else True) /\
    (forall a, ~ (pa + 4 <= a < pa + 52) -> mget (phys k') a = mget (phys k) a).
Proof.
  intros Hm Hid id b Hname. pose proof (load_le_range 4 (phys k) pa) as Hr0.
  assert (Hst : (length (state_name (pstate b)) <= 8)%nat) by (by destruct (pstate b); cbn; lia).
  unfold get_process_info, mbind, M_bind.
  rewrite (load_user_mapped _ pa 4) by (intros i Hi; apply Hm; lia).
  fold (load_le 4 (phys k) pa). fold id. rewrite (proj2 (Z.ltb_lt id PROCESS_COUNT_MAX) Hid). cbn [negb]. unfold gets.
  rewrite (store_user_mapped _ (pa + 44)) by (apply (mapped_at_sub _ _ _ 52); [exact Hm|cbn; lia..]).
  destruct (occupied (procs k) id) eqn:Ho.
  - cbn [procs]. fold b. rewrite take_ge by (rewrite Hname; done).
    rewrite (store_user_mapped _ (pa + 4)) by (apply (mapped_at_sub _ _ _ 52); [exact Hm|lia|rewrite Hname; lia]).
    rewrite (store_user_mapped _ (pa + 36)) by (apply (mapped_at_sub _ _ _ 52); [exact Hm|lia|lia]).
    rewrite (store_user_mapped _ (pa + 48)) by (apply (mapped_at_sub _ _ _ 52); [exact Hm|lia|rewrite length_le_bytes; lia]).
    eexists. split; [reflexivity|]. cbn [phys procs pages].
    do 2 (split; [done|]). split; [|split; [split; [|split]|]].
    + rewrite !mget_store_out by (rewrite ?length_le_bytes, ?Hname; lia).
      by apply mget_store_in; [lia|]; rewrite Z.sub_diag.
    + rewrite !load_store_ne by (rewrite ?length_le_bytes; lia). by apply load_store_eq.
    + rewrite load_store_ne by (rewrite ?length_le_bytes; lia). by apply load_store_eq.
    + apply (load_le_store_eq 4).
    + intros a Ha. rewrite !mget_store_out by (rewrite ?length_le_bytes, ?Hname; cbn [length]; lia). done.
  - eexists. split; [reflexivity|]. cbn [phys procs pages]. do 2 (split; [done|]). split; [|split; [done|]].
    + by apply mget_store_in; [lia|]; rewrite Z.sub_diag.
    + intros a Ha. apply mget_store_out. cbn [length]. lia.
Qed.

End Info.

(** ** The theorems at a concrete machine *)

Module InterruptSample.

Definition state : machine Inserter.image pics :=
  Machine (Kernel PagingSample.mapped ∅ (Inserter.Image ∅) ∅ SchedulerSample.table)
    (Keyboard false false 0 0) ∅ pics_sample.

(** The same with the directory of the mapped page in CR3, where frame 1 is at
    virtual address 0x400000. *)
Definition in_user : kernel Inserter.image :=
  Kernel (set_cr3 (PagingSample.directory0 - KERNEL_VIRTUAL_ADDRESS_BASE) PagingSample.mapped) ∅ (Inserter.Image ∅)
    (store_le 4 ∅ 0x400000 3) SchedulerSample.table.

Definition bad_user : kernel Inserter.image :=
  Kernel (pages in_user) ∅ (Inserter.Image ∅) (store_le 4 ∅ 0x400000 99) SchedulerSample.table.

Definition call (n : Z) : CPURegister := Cpu 0 0 0 0 0 0 0 n 0 0 0 0.

End InterruptSample.

Lemma syscall_ignored_witness :
  syscall (InterruptSample.call 17) InterruptSample.state = Ret (tt, InterruptSample.state).
Proof. apply syscall_ignored. by apply (bool_decide_unpack _). Defined.

Lemma interrupt_ignored_witness :
  main_interrupt_handler (Frame (InterruptSample.call 0) 14 0 0) InterruptSample.state = Ret (None, InterruptSample.state).
Proof. apply interrupt_ignored. by apply (bool_decide_unpack _). Defined.

Lemma sample_machine_runnable : runnable (kern InterruptSample.state).
Proof.
  intros j Hj Ho. destruct (sample_occupied j Hj Ho) as [-> | ->];
    (split; [cbv zeta; vm_compute; intuition congruence|vm_compute; reflexivity]).
Qed.

(** Slot 3 runs and is interrupted at 0x1234; slot 9 is next, and block 3 resumes
    there. *)
Lemma timer_tick_correct_witness :
  exists m', main_interrupt_handler (Frame (InterruptSample.call 0) 0x20 0x1234 0x202) InterruptSample.state =
    Ret (Some (context (SchedulerSample.block 9)), m') /\
    current_running_pid (procs (kern m')) = 9 /\
    context (pcb_at (procs (kern m')) 3) = Ctx (InterruptSample.call 0) 0x1234 0x202 PagingSample.kernel_at /\
    pstate (pcb_at (procs (kern m')) 3) = PROCESS_STATE_READY /\ pstate (pcb_at (procs (kern m')) 9) = PROCESS_STATE_RUNNING.
Proof.
  destruct (timer_tick_correct (Frame (InterruptSample.call 0) 0x20 0x1234 0x202) InterruptSample.state 3)
    as (d & m' & Hd & Hr & Hc & _ & Hsaved & _ & Hblocks & _).
  - reflexivity.
  - exact sample_machine_runnable.
  - split; reflexivity.
  - unfold PROCESS_COUNT_MAX. lia.
  - reflexivity.
  - exists m'. change (next_distance _ _) with (Some 6) in Hd. injection Hd as <-.
    assert (Hpids : pids_are_slots (procs (kern InterruptSample.state))).
    { intros i Hi Ho. destruct (sample_occupied i Hi Ho) as [-> | ->]; reflexivity. }
    destruct (Hsaved Hpids ltac:(split; [discriminate|reflexivity]) eq_refl) as [H3 Hother].
    change (slot_after _ 6) with 9 in *. change (current_running_pid (procs (kern InterruptSample.state))) with 3 in *.
    split; [|split; [exact Hc|split; [exact H3|split]]].
    + rewrite Hr. by rewrite (Hother 9 ltac:(split; [discriminate|reflexivity]) ltac:(discriminate)).
    + destruct (Hblocks 3 ltac:(split; [discriminate|reflexivity])) as (_ & _ & _ & _ & Hs & _). apply Hs. by apply holds_own_slot.
    + destruct (Hblocks 9 ltac:(split; [discriminate|reflexivity])) as (_ & _ & _ & _ & _ & Hs). apply Hs. intros (_ & _ & E & _). discriminate E.
Defined.

Lemma sample_mapped_at (k : kernel Inserter.image) :
  pages k = pages InterruptSample.in_user -> mapped_at k 0x400000 0x400000 52.
Proof.
  intros Hk i Hi. unfold mapped_at. rewrite Hk, translate_frame_at.
  rewrite u32_small by lia. rewrite page_index_div by lia.
  replace ((0x400000 + i) / PAGE_FRAME_SIZE) with 1 by (unfold PAGE_FRAME_SIZE; Z.div_mod_to_equations; lia).
  replace (frame_at _ _ 1) with (Some 1) by (vm_compute; reflexivity). cbn. f_equal.
  unfold PAGE_FRAME_SIZE. Z.div_mod_to_equations. lia.
Qed.

Lemma get_process_info_unchecked_witness :
  get_process_info 0x400000 InterruptSample.bad_user = Undef.
Proof.
  apply (get_process_info_unchecked 0x400000 0x400000).
  - intros i Hi. apply (sample_mapped_at InterruptSample.bad_user eq_refl). lia.
  - vm_compute. discriminate.
Defined.

Lemma get_process_info_correct_witness :
  exists k', get_process_info 0x400000 InterruptSample.in_user = Ret (tt, k') /\ mget (phys k') 0x40002C = z2b 1.
Proof.
  destruct (get_process_info_correct 0x400000 0x400000 InterruptSample.in_user) as (k' & Hr & _ & _ & Hb & _).
  - by apply sample_mapped_at.
  - vm_compute. reflexivity.
  - vm_compute. reflexivity.
  - exists k'. split; [exact Hr|]. replace (occupied _ _) with true in Hb by (vm_compute; reflexivity). exact Hb.
Defined.
