(* ===== verification/Descriptors.v ===== *)
(** The descriptor tables: src/src/gdt.c and src/src/idt.c, with the structures
    of gdt.h and idt.h.  The bit-fields are records; [descriptor_word] and
    [gate_word] are the packed layout in memory, and the functions that read
    them are the processor's, from the Intel manual the headers cite. *)
From Stdlib Require Import ZArith Lia.
From stdpp Require Import base numbers option strings zmap functions list.
From S2P Require Import Prelude CString Disk FatTypes Fat32 Paging Process.

(** ** The global descriptor table *)

Definition GDT_MAX_ENTRY_COUNT : Z := 32.
Definition GDT_KERNEL_CODE_SEGMENT_SELECTOR : Z := 0x8.
Definition GDT_KERNEL_DATA_SEGMENT_SELECTOR : Z := 0x10.
Definition GDT_USER_CODE_SEGMENT_SELECTOR : Z := 0x18.
Definition GDT_USER_DATA_SEGMENT_SELECTOR : Z := 0x20.
Definition GDT_TSS_SELECTOR : Z := 0x28.

Record SegmentDescriptor := Segment {
  segment_low : Z; base_low : Z; base_mid : Z;
  type_bit : Z; non_system : Z; privilege_level : Z; present : Z;
  limit_high : Z; avl : Z; long : Z; db : Z; granularity : Z;
  base_high : Z;
}.

(** [struct TSSEntry]: 26 words. *)
Definition sizeof_TSSEntry : Z := 4 * (3 + 23).

Definition null_descriptor : SegmentDescriptor := Segment 0 0 0 0 0 0 0 0 0 0 0 0 0.

(** The entries of [global_descriptor_table] that have an initialiser. *)
Definition initial_descriptors : list SegmentDescriptor :=
  [null_descriptor;
   Segment 0xFFFF 0 0 0xA 1 0 1 0xF 0 0 1 1 0;
   Segment 0xFFFF 0 0 0x2 1 0 1 0xF 0 0 1 1 0;
   Segment 0xFFFF 0 0 0xA 1 3 1 0xF 0 0 1 1 0;
   Segment 0xFFFF 0 0 0x2 1 3 1 0xF 0 0 1 1 0;
   Segment (u16 sizeof_TSSEntry) 0 0 0x9 0 0 1
     (Z.shiftr (Z.land sizeof_TSSEntry (Z.shiftl 0xF 16)) 16) 0 0 1 0 0;
   null_descriptor].

Definition global_descriptor_table : list SegmentDescriptor :=
  initial_descriptors ++ replicate 25 null_descriptor.

(** The linear address of [_interrupt_tss_entry] is [base]. *)
Definition gdt_install_tss (base : Z) (table : list SegmentDescriptor) : list SegmentDescriptor :=
  alter (fun d => Segment (segment_low d) (u16 (Z.land base 0xFFFF))
    (u8 (Z.shiftr (Z.land base (u32 (Z.shiftl 0xFF 16))) 16))
    (type_bit d) (non_system d) (privilege_level d) (present d)
    (limit_high d) (avl d) (long d) (db d) (granularity d)
    (u8 (Z.shiftr (Z.land base (u32 (Z.shiftl 0xFF 24))) 24))) 5%nat table.

(** [_gdt_gdtr.limit]. *)
Definition gdtr_limit : Z := u16 (8 * GDT_MAX_ENTRY_COUNT - 1).

(** The eight bytes of a descriptor, as a little-endian word. *)
Definition descriptor_word (d : SegmentDescriptor) : Z :=
  segment_low d + 2 ^ 16 * base_low d + 2 ^ 32 * base_mid d + 2 ^ 40 * type_bit d +
  2 ^ 44 * non_system d + 2 ^ 45 * privilege_level d + 2 ^ 47 * present d +
  2 ^ 48 * limit_high d + 2 ^ 52 * avl d + 2 ^ 53 * long d + 2 ^ 54 * db d +
  2 ^ 55 * granularity d + 2 ^ 56 * base_high d.

(** ** The interrupt descriptor table *)

Definition IDT_MAX_ENTRY_COUNT : Z := 256.
Definition ISR_STUB_TABLE_LIMIT : Z := 64.
Definition INTERRUPT_GATE_R_BIT_1 : Z := 0.
Definition INTERRUPT_GATE_R_BIT_2 : Z := 6.
Definition INTERRUPT_GATE_R_BIT_3 : Z := 0.

Record IDTGate := Gate {
  offset_low : Z; segment : Z;
  reserved_bits : Z; r_bit_1 : Z; r_bit_2 : Z; gate_32 : Z; r_bit_3 : Z; dpl : Z; valid_bit : Z;
  offset_high : Z;
}.

(** [interrupt_descriptor_table]: the index is a [uint8_t], so every access is
    one of the 256 gates. *)
Definition set_interrupt_gate (int_vector handler_address gdt_seg_selector privilege : Z) : M (Z -> IDTGate) unit :=
  let handler_offset := u32 handler_address in
  modify (fun idt => <[u8 int_vector := Gate
    (Z.land handler_offset 0xFFFF) (u16 gdt_seg_selector) (reserved_bits (idt (u8 int_vector)))
    INTERRUPT_GATE_R_BIT_1 INTERRUPT_GATE_R_BIT_2 1 INTERRUPT_GATE_R_BIT_3 (Z.land (u8 privilege) 3) 1
    (Z.land (Z.shiftr handler_offset 16) 0xFFFF)]> idt).

(** [isr_stub_table] is assembly; [stub i] is its entry [i].  Loading the table
    and enabling interrupts are instructions without effect on it. *)
Definition initialize_idt (stub : Z -> Z) : M (Z -> IDTGate) unit :=
  for_up (fun i =>
    if (i >=? 0x30) && (i <=? 0x3F)
    then set_interrupt_gate i (stub i) GDT_KERNEL_CODE_SEGMENT_SELECTOR 3
    else set_interrupt_gate i (stub i) GDT_KERNEL_CODE_SEGMENT_SELECTOR 0) 0 (Z.to_nat ISR_STUB_TABLE_LIMIT).

Definition empty_gate : IDTGate := Gate 0 0 0 0 0 0 0 0 0 0.
Definition interrupt_descriptor_table : Z -> IDTGate := fun _ => empty_gate.

Definition gate_word (g : IDTGate) : Z :=
  offset_low g + 2 ^ 16 * segment g + 2 ^ 32 * reserved_bits g + 2 ^ 37 * r_bit_1 g +
  2 ^ 40 * r_bit_2 g + 2 ^ 43 * gate_32 g + 2 ^ 44 * r_bit_3 g + 2 ^ 45 * dpl g +
  2 ^ 47 * valid_bit g + 2 ^ 48 * offset_high g.

(** ** How the processor reads the tables *)

(** The bits [lo] to [hi - 1] of a word. *)
Definition bits (w lo hi : Z) : Z := w / 2 ^ lo mod 2 ^ (hi - lo).

Definition cpu_base (w : Z) : Z := bits w 16 40 + 2 ^ 24 * bits w 56 64.
(** The last offset of the segment: with the granularity bit the limit counts
    pages of 4 KiB. *)
Definition cpu_limit (w : Z) : Z :=
  let limit := bits w 0 16 + 2 ^ 16 * bits w 48 52 in
  if bits w 55 56 =? 1 then limit * 4096 + 4095 else limit.
Definition cpu_type (w : Z) : Z := bits w 40 45.
Definition cpu_dpl (w : Z) : Z := bits w 45 47.
Definition cpu_present (w : Z) : bool := bits w 47 48 =? 1.
Definition cpu_offset (w : Z) : Z := bits w 0 16 + 2 ^ 16 * bits w 48 64.
Definition cpu_selector (w : Z) : Z := bits w 16 32.

(** The types of the manual: code that can be read, data that can be written,
    a 32-bit task state segment, a 32-bit interrupt gate. *)
Definition CODE : Z := 0x1A.
Definition DATA : Z := 0x12.
Definition TSS32 : Z := 0x09.
Definition INTERRUPT32 : Z := 0x0E.

(** The descriptor a selector names in a table. *)
Definition selected (table : list SegmentDescriptor) (selector : Z) : option Z :=
  descriptor_word <$> table !! Z.to_nat (selector / 8).

(** A flat segment: the four gigabytes from 0. *)
Definition flat (w ty level : Z) : Prop :=
  cpu_base w = 0 /\ cpu_limit w = 2 ^ 32 - 1 /\ cpu_type w = ty /\ cpu_dpl w = level /\ cpu_present w = true.

(** ** Theorems *)

(** Every field fits its width. *)
Definition descriptor_ok (d : SegmentDescriptor) : Prop :=
  0 <= segment_low d < 2 ^ 16 /\ 0 <= base_low d < 2 ^ 16 /\ 0 <= base_mid d < 2 ^ 8 /\
  0 <= type_bit d < 2 ^ 4 /\ 0 <= non_system d < 2 /\ 0 <= privilege_level d < 4 /\ 0 <= present d < 2 /\
  0 <= limit_high d < 2 ^ 4 /\ 0 <= avl d < 2 /\ 0 <= long d < 2 /\ 0 <= db d < 2 /\
  0 <= granularity d < 2 /\ 0 <= base_high d < 2 ^ 8.

Lemma bits_field x y z lo k w :
  0 <= lo -> 0 <= k -> w = x + 2 ^ lo * (y + 2 ^ k * z) -> 0 <= x < 2 ^ lo -> 0 <= y < 2 ^ k -> w / 2 ^ lo mod 2 ^ k = y.
Proof.
  intros Hlo Hk -> Hx Hy. rewrite (Z.mul_comm (2 ^ lo)), Z.div_add, (Z.div_small x) by lia.
  rewrite Z.add_0_l, (Z.mul_comm (2 ^ k)), Z.mod_add by lia. by apply Z.mod_small.
Qed.

(** What the processor reads are the fields. *)
Lemma descriptor_fields d : descriptor_ok d ->
  let w := descriptor_word d in
  bits w 0 16 = segment_low d /\ bits w 16 40 = base_low d + 2 ^ 16 * base_mid d /\
  bits w 40 45 = type_bit d + 2 ^ 4 * non_system d /\ bits w 45 47 = privilege_level d /\
  bits w 47 48 = present d /\ bits w 48 52 = limit_high d /\ bits w 55 56 = granularity d /\
  bits w 56 64 = base_high d.
Proof.
  unfold descriptor_ok, descriptor_word. destruct d as [f1 f2 f3 f4 f5 f6 f7 f8 f9 f10 f11 f12 f13].
  cbn [segment_low base_low base_mid type_bit non_system privilege_level present
    limit_high avl long db granularity base_high].
  intros H. decompose [and] H. clear H. unfold bits. cbv zeta.
  repeat split.
  - apply (bits_field 0 _ (f2 + 2 ^ 16 * f3 + 2 ^ 24 * f4 + 2 ^ 28 * f5 + 2 ^ 29 * f6 + 2 ^ 31 * f7 + 2 ^ 32 * f8 +
      2 ^ 36 * f9 + 2 ^ 37 * f10 + 2 ^ 38 * f11 + 2 ^ 39 * f12 + 2 ^ 40 * f13)); lia.
  - apply (bits_field f1 _ (f4 + 2 ^ 4 * f5 + 2 ^ 5 * f6 + 2 ^ 7 * f7 + 2 ^ 8 * f8 +
      2 ^ 12 * f9 + 2 ^ 13 * f10 + 2 ^ 14 * f11 + 2 ^ 15 * f12 + 2 ^ 16 * f13)); lia.
  - apply (bits_field (f1 + 2 ^ 16 * f2 + 2 ^ 32 * f3) _ (f6 + 2 ^ 2 * f7 + 2 ^ 3 * f8 +
      2 ^ 7 * f9 + 2 ^ 8 * f10 + 2 ^ 9 * f11 + 2 ^ 10 * f12 + 2 ^ 11 * f13)); lia.
  - apply (bits_field (f1 + 2 ^ 16 * f2 + 2 ^ 32 * f3 + 2 ^ 40 * f4 + 2 ^ 44 * f5) _ (f7 + 2 * f8 +
      2 ^ 5 * f9 + 2 ^ 6 * f10 + 2 ^ 7 * f11 + 2 ^ 8 * f12 + 2 ^ 9 * f13)); lia.
  - apply (bits_field (f1 + 2 ^ 16 * f2 + 2 ^ 32 * f3 + 2 ^ 40 * f4 + 2 ^ 44 * f5 + 2 ^ 45 * f6) _ (f8 +
      2 ^ 4 * f9 + 2 ^ 5 * f10 + 2 ^ 6 * f11 + 2 ^ 7 * f12 + 2 ^ 8 * f13)); lia.
  - apply (bits_field (f1 + 2 ^ 16 * f2 + 2 ^ 32 * f3 + 2 ^ 40 * f4 + 2 ^ 44 * f5 + 2 ^ 45 * f6 + 2 ^ 47 * f7) _ (
      f9 + 2 * f10 + 2 ^ 2 * f11 + 2 ^ 3 * f12 + 2 ^ 4 * f13)); lia.
  - apply (bits_field (f1 + 2 ^ 16 * f2 + 2 ^ 32 * f3 + 2 ^ 40 * f4 + 2 ^ 44 * f5 + 2 ^ 45 * f6 + 2 ^ 47 * f7 +
      2 ^ 48 * f8 + 2 ^ 52 * f9 + 2 ^ 53 * f10 + 2 ^ 54 * f11) _ f13); lia.
  - apply (bits_field (f1 + 2 ^ 16 * f2 + 2 ^ 32 * f3 + 2 ^ 40 * f4 + 2 ^ 44 * f5 + 2 ^ 45 * f6 + 2 ^ 47 * f7 +
      2 ^ 48 * f8 + 2 ^ 52 * f9 + 2 ^ 53 * f10 + 2 ^ 54 * f11 + 2 ^ 55 * f12) _ 0); lia.
Qed.

(** The part of an address that the shifts and masks of the code select. *)
Lemma land_shiftl_byte base k : 0 <= k ->
  Z.shiftr (Z.land base (Z.shiftl 0xFF k)) k = base / 2 ^ k mod 256.
Proof.
  intros Hk. rewrite Z.shiftr_land, Z.shiftr_shiftl_l, Z.sub_diag, Z.shiftl_0_r by lia.
  change 255 with (Z.ones 8). rewrite Z.land_ones by lia. by rewrite Z.shiftr_div_pow2.
Qed.

(** [gdt_install_tss] puts the address of the task state segment, whatever
    its 32 bits are, into the three parts of descriptor 5 from which the
    processor reads it back; the descriptor is a present 32-bit task state
    segment of the kernel, and no other descriptor changes. *)
Theorem gdt_install_tss_correct base :
  0 <= base < 2 ^ 32 ->
  let table := gdt_install_tss base global_descriptor_table in
  (exists w, selected table GDT_TSS_SELECTOR = Some w /\ cpu_base w = base /\ cpu_limit w = sizeof_TSSEntry /\
     cpu_type w = TSS32 /\ cpu_dpl w = 0 /\ cpu_present w = true) /\
  forall i, i <> 5%nat -> table !! i = global_descriptor_table !! i.
Proof.
  intros Hb. cbv zeta. split.
  - set (d := Segment (u16 sizeof_TSSEntry) (u16 (Z.land base 0xFFFF)) (u8 (base / 2 ^ 16 mod 256)) 9 0 0 1
      0 0 0 1 0 (u8 (base / 2 ^ 24 mod 256))).
    assert (Hd : descriptor_ok d).
    { unfold descriptor_ok, d, u16, u8. cbn [segment_low base_low base_mid type_bit non_system privilege_level present
        limit_high avl long db granularity base_high].
      repeat split; try lia; apply Z.mod_pos_bound; lia. }
    destruct (descriptor_fields d Hd) as (F1 & F2 & F3 & F4 & F5 & F6 & F7 & F8).
    exists (descriptor_word d). split.
    { unfold selected, gdt_install_tss. change (u32 (Z.shiftl 255 16)) with (Z.shiftl 255 16).
      change (u32 (Z.shiftl 255 24)) with (Z.shiftl 255 24). rewrite !land_shiftl_byte by lia.
      change (Z.to_nat (GDT_TSS_SELECTOR / 8)) with 5%nat. by rewrite list_lookup_alter_eq. }
    unfold cpu_base, cpu_limit, cpu_type, cpu_dpl, cpu_present. rewrite F1, F2, F3, F4, F5, F6, F7, F8.
    unfold d, u16, u8. cbn [segment_low base_low base_mid type_bit non_system privilege_level present
        limit_high avl long db granularity base_high]. change 0xFFFF with (Z.ones 16). rewrite Z.land_ones by lia.
    repeat split; try done. change (2 ^ 16) with 65536. change (2 ^ 24) with 16777216. change (2 ^ 32) with 4294967296 in Hb.
    Z.div_mod_to_equations. lia.
  - intros i Hi. by apply list_lookup_alter_ne.
Qed.

(** the selectors of gdt.h name flat segments: the kernel's code and data,
    at level 0, and the user's, at level 3; the selector the processes run with
    (paging.h) is the user's data segment with the user's privilege; selector 0
    and the rest of the table are not present. *)
Theorem gdt_selectors :
  (exists w, selected global_descriptor_table GDT_KERNEL_CODE_SEGMENT_SELECTOR = Some w /\ flat w CODE 0) /\
  (exists w, selected global_descriptor_table GDT_KERNEL_DATA_SEGMENT_SELECTOR = Some w /\ flat w DATA 0) /\
  (exists w, selected global_descriptor_table GDT_USER_CODE_SEGMENT_SELECTOR = Some w /\ flat w CODE 3) /\
  (exists w, selected global_descriptor_table GDT_USER_DATA_SEGMENT_SELECTOR = Some w /\ flat w DATA 3) /\
  USER_DATA_SEGMENT_SELECTOR = Z.lor GDT_USER_DATA_SEGMENT_SELECTOR 3 /\
  Z.of_nat (length global_descriptor_table) = GDT_MAX_ENTRY_COUNT /\
  forall i d, i = 0%nat \/ (5 < i)%nat -> global_descriptor_table !! i = Some d -> cpu_present (descriptor_word d) = false.
Proof.
  do 4 (split; [eexists; split; [reflexivity|vm_compute; tauto]|]).
  split; [reflexivity|]. split; [reflexivity|].
  assert (H : Forall (fun i : nat => forall d, global_descriptor_table !! i = Some d -> cpu_present (descriptor_word d) = false)
    (0%nat :: seq 6 26)).
  { cbn [seq]. repeat constructor; intros d [= <-]; reflexivity. }
  rewrite Forall_forall in H. intros i d Hi Hd. apply (H i); [|exact Hd].
  apply elem_of_cons. apply lookup_lt_Some in Hd as Hlt. change (length global_descriptor_table) with 32%nat in Hlt.
  destruct Hi as [->|Hi]; [by left|]. right. apply elem_of_seq. lia.
Qed.

(** ** Gates *)

Definition gate_ok (g : IDTGate) : Prop :=
  0 <= offset_low g < 2 ^ 16 /\ 0 <= segment g < 2 ^ 16 /\ 0 <= reserved_bits g < 2 ^ 5 /\ 0 <= r_bit_1 g < 8 /\
  0 <= r_bit_2 g < 8 /\ 0 <= gate_32 g < 2 /\ 0 <= r_bit_3 g < 2 /\ 0 <= dpl g < 4 /\ 0 <= valid_bit g < 2 /\
  0 <= offset_high g < 2 ^ 16.

Lemma gate_fields g : gate_ok g ->
  let w := gate_word g in
  bits w 0 16 = offset_low g /\ bits w 16 32 = segment g /\
  bits w 40 45 = r_bit_2 g + 2 ^ 3 * gate_32 g + 2 ^ 4 * r_bit_3 g /\ bits w 45 47 = dpl g /\
  bits w 47 48 = valid_bit g /\ bits w 48 64 = offset_high g.
Proof.
  unfold gate_ok, gate_word. destruct g as [f1 f2 f3 f4 f5 f6 f7 f8 f9 f10].
  cbn [offset_low segment reserved_bits r_bit_1 r_bit_2 gate_32 r_bit_3 dpl valid_bit offset_high].
  intros H. decompose [and] H. clear H. unfold bits. cbv zeta. repeat split.
  - apply (bits_field 0 _ (f2 + 2 ^ 16 * f3 + 2 ^ 21 * f4 + 2 ^ 24 * f5 + 2 ^ 27 * f6 + 2 ^ 28 * f7 + 2 ^ 29 * f8 +
      2 ^ 31 * f9 + 2 ^ 32 * f10)); lia.
  - apply (bits_field f1 _ (f3 + 2 ^ 5 * f4 + 2 ^ 8 * f5 + 2 ^ 11 * f6 + 2 ^ 12 * f7 + 2 ^ 13 * f8 +
      2 ^ 15 * f9 + 2 ^ 16 * f10)); lia.
  - apply (bits_field (f1 + 2 ^ 16 * f2 + 2 ^ 32 * f3 + 2 ^ 37 * f4) _ (f8 + 2 ^ 2 * f9 + 2 ^ 3 * f10)); lia.
  - apply (bits_field (f1 + 2 ^ 16 * f2 + 2 ^ 32 * f3 + 2 ^ 37 * f4 + 2 ^ 40 * f5 + 2 ^ 43 * f6 + 2 ^ 44 * f7) _
      (f9 + 2 * f10)); lia.
  - apply (bits_field (f1 + 2 ^ 16 * f2 + 2 ^ 32 * f3 + 2 ^ 37 * f4 + 2 ^ 40 * f5 + 2 ^ 43 * f6 + 2 ^ 44 * f7 +
      2 ^ 45 * f8) _ f10); lia.
  - apply (bits_field (f1 + 2 ^ 16 * f2 + 2 ^ 32 * f3 + 2 ^ 37 * f4 + 2 ^ 40 * f5 + 2 ^ 43 * f6 + 2 ^ 44 * f7 +
      2 ^ 45 * f8 + 2 ^ 47 * f9) _ 0); lia.
Qed.

(** The gate that [set_interrupt_gate] leaves in an entry that was zero. *)
Definition gate_of (handler privilege : Z) : IDTGate :=
  Gate (Z.land (u32 handler) 0xFFFF) 8 0 0 6 1 0 (Z.land (u8 privilege) 3) 1 (Z.land (Z.shiftr (u32 handler) 16) 0xFFFF).

(** A gate that the processor takes as a present interrupt gate to [handler],
    which software may call from [level] on. *)
Definition enters (w handler level : Z) : Prop :=
  cpu_offset w = handler /\ cpu_selector w = GDT_KERNEL_CODE_SEGMENT_SELECTOR /\ cpu_type w = INTERRUPT32 /\
  cpu_dpl w = level /\ cpu_present w = true.

Lemma gate_of_enters handler level : 0 <= level < 4 -> enters (gate_word (gate_of handler level)) (u32 handler) level.
Proof.
  intros Hl. pose proof (u32_range handler) as Hh.
  assert (Hlo : Z.land (u32 handler) 0xFFFF = u32 handler mod 65536) by (change 0xFFFF with (Z.ones 16); by rewrite Z.land_ones).
  assert (Hhi : Z.land (Z.shiftr (u32 handler) 16) 0xFFFF = u32 handler / 65536 mod 65536).
  { change 0xFFFF with (Z.ones 16). by rewrite Z.land_ones, Z.shiftr_div_pow2. }
  assert (Hp : Z.land (u8 level) 3 = level).
  { unfold u8. rewrite Z.mod_small by lia. change 3 with (Z.ones 2). rewrite Z.land_ones by lia. by apply Z.mod_small. }
  assert (Hok : gate_ok (gate_of handler level)).
  { unfold gate_ok, gate_of. cbn [offset_low segment reserved_bits r_bit_1 r_bit_2 gate_32 r_bit_3 dpl valid_bit offset_high].
    rewrite Hlo, Hhi, Hp. repeat split; try lia; apply Z.mod_pos_bound; lia. }
  destruct (gate_fields _ Hok) as (F1 & F2 & F3 & F4 & F5 & F6).
  unfold enters, cpu_offset, cpu_selector, cpu_type, cpu_dpl, cpu_present. rewrite F1, F2, F3, F4, F5, F6.
  unfold gate_of. cbn [offset_low segment reserved_bits r_bit_1 r_bit_2 gate_32 r_bit_3 dpl valid_bit offset_high].
  rewrite Hlo, Hhi, Hp. repeat split; try done. change (2 ^ 16) with 65536. Z.div_mod_to_equations. lia.
Qed.

(** The gates after [initialize_idt]. *)
Definition kernel_gates (stub : Z -> Z) (v : Z) : IDTGate :=
  if decide (0 <= v < 64) then gate_of (stub v) (if (0x30 <=? v) && (v <=? 0x3F) then 3 else 0) else empty_gate.

Lemma wp_initialize_idt stub (Q : unit -> (Z -> IDTGate) -> Prop) :
  (forall idt, (forall v, idt v = kernel_gates stub v) -> Q tt idt) ->
  wp (initialize_idt stub) Q interrupt_descriptor_table.
Proof.
  intros HQ. unfold initialize_idt. apply (wp_for (fun i idt => forall v,
    idt v = if decide (v < i) then kernel_gates stub v else empty_gate)).
  - intros v. case_decide; [|done]. unfold kernel_gates. by rewrite decide_False by lia.
  - intros i idt Hi Hidt. change (0 + Z.of_nat (Z.to_nat ISR_STUB_TABLE_LIMIT)) with 64 in Hi.
    assert (Hset : forall lv, lv = (if (0x30 <=? i) && (i <=? 0x3F) then 3 else 0) ->
      wp (set_interrupt_gate i (stub i) GDT_KERNEL_CODE_SEGMENT_SELECTOR lv) (fun _ idt' => forall v,
        idt' v = if decide (v < i + 1) then kernel_gates stub v else empty_gate) idt).
    { intros lv ->. apply wp_modify. unfold u8 at 1 2. rewrite (Z.mod_small i) by lia. intros v.
      destruct (decide (v = i)) as [->|Hne].
      - rewrite fn_lookup_insert, decide_True by lia. rewrite (Hidt i), decide_False by lia.
        unfold kernel_gates. by rewrite decide_True by lia.
      - rewrite fn_lookup_insert_ne, Hidt by done. case_decide; case_decide; lia || done. }
    rewrite Z.geb_leb. destruct ((0x30 <=? i) && (i <=? 0x3F)); by apply Hset.
  - intros idt Hidt. apply HQ. intros v. rewrite Hidt. case_decide; [done|]. unfold kernel_gates.
    rewrite decide_False; [done|]. change (0 + Z.of_nat (Z.to_nat ISR_STUB_TABLE_LIMIT)) with 64 in *. lia.
Qed.

(** after [initialize_idt] each of the first 64 vectors enters its own stub
    in the kernel's code segment through a present 32-bit interrupt gate; only
    the vectors 0x30 to 0x3F, the system call's among them, can be called by
    user programs; the other 192 vectors have no handler. *)
Theorem initialize_idt_correct stub :
  exists idt, initialize_idt stub interrupt_descriptor_table = Ret (tt, idt) /\
    (forall v, (0 <= v < 64) ->
       enters (gate_word (idt v)) (u32 (stub v)) (if (0x30 <=? v) && (v <=? 0x3F) then 3 else 0)) /\
    (forall v, (64 <= v < 256) -> cpu_present (gate_word (idt v)) = false).
Proof.
  destruct (wp_elim (initialize_idt stub) (fun _ idt => forall v, idt v = kernel_gates stub v) interrupt_descriptor_table)
    as ([] & idt & Hr & Hidt); [by apply wp_initialize_idt|].
  exists idt. split; [exact Hr|]. split; intros v Hv; rewrite Hidt; unfold kernel_gates.
  - rewrite decide_True by lia. apply gate_of_enters. destruct (_ && _); lia.
  - by rewrite decide_False by lia.
Qed.

Lemma gdt_install_tss_correct_witness :
  exists w, selected (gdt_install_tss 0xC0123456 global_descriptor_table) GDT_TSS_SELECTOR = Some w /\ cpu_base w = 0xC0123456.
Proof.
  destruct (gdt_install_tss_correct 0xC0123456) as [(w & Hw & Hb & _) _]; [lia|].
  exists w. split; [exact Hw|exact Hb].
Defined.
