(* ===== verification/Kernel.v ===== *)
(** The start of the kernel: [kernel_setup] of src/src/kernel.c, with
    [set_tss_kernel_current_stack] of src/src/interrupt.c.  The state is the
    machine of Interrupt.v and the descriptor tables; [load_gdt] and
    [set_tss_register] are assembly that loads a register and are left out. *)
From Stdlib Require Import ZArith Lia.
From stdpp Require Import base numbers option strings zmap functions list.
From S2P Require Import Prelude CString Disk FatTypes Fat32 FatView FatRead FatWrite FatCreate FatSample FatDelete FatDir FatInit Paging PagingSpec Process ProcessSpec ProcessSample Ports Scheduler Framebuffer FramebufferSpec Keyboard Interrupt Descriptors.

(** ** Definitions *)

(** [struct TSSEntry], the fields that are used. *)
Record TSSEntry := Tss { ss0 : Z; tss_esp0 : Z }.

Definition _interrupt_tss_entry : TSSEntry := Tss GDT_KERNEL_DATA_SEGMENT_SELECTOR 0.

Record system (D P : Type) := System {
  mach : machine D P;
  gdt : list SegmentDescriptor;
  idt : Z -> IDTGate;
  tss : TSSEntry;
}.
Arguments System {D P} mach gdt idt tss.
Arguments mach {D P} s.
Arguments gdt {D P} s.
Arguments idt {D P} s.
Arguments tss {D P} s.

(** The request for the shell; the initialisers leave zeros. *)
Definition shell_request : request :=
  Request 0 (cstring "shell" ++ zeros 3) (zeros 3) ROOT_CLUSTER_NUMBER 0x100000.

Section Kernel.
Context {D P : Type} `{!Disk D, !Ports P}.

Definition lift_machine {A} (c : M (machine D P) A) : M (system D P) A := fun s =>
  '(a, m) ← c (mach s);
  Ret (a, System m (gdt s) (idt s) (tss s)).

Definition lift_idt (c : M (Z -> IDTGate) unit) : M (system D P) unit := fun s =>
  '(_, t) ← c (idt s);
  Ret (tt, System (mach s) (gdt s) t (tss s)).

(** A file system operation that does not touch user memory. *)
Definition lift_fs {A} (c : M (fs D) A) : M (kernel D) A := fun k =>
  '(a, s) ← c (Fs (driver k) (device k) ∅);
  Ret (a, Kernel (pages k) (memory s) (disk s) (phys k) (procs k)).

(** [stack_ptr] is the frame pointer. *)
Definition set_tss_kernel_current_stack (stack_ptr : Z) : M (system D P) unit :=
  modify (fun s => System (mach s) (gdt s) (idt s) (Tss (ss0 (tss s)) (u32 (stack_ptr + 8)))).

(** The parameters are what the code takes from outside the C files: the stubs
    of the interrupts, the addresses of the task state segment and of the page
    directories, the frame pointer, and the contents of the bytes that are used
    without being set. *)
Definition kernel_setup (stub : Z -> Z) (tss_at page_directory_list ebp : Z) (tail : list byte)
    (djunk : PageDirectoryEntry) (fjunk : PageDirectoryEntryFlag) : M (system D P) Context :=
  lift_machine (lift_io pic_remap) ;;
  lift_idt (initialize_idt stub) ;;
  lift_machine (lift_io activate_keyboard_interrupt) ;;
  lift_machine (lift_console framebuffer_clear) ;;
  lift_machine (lift_console (framebuffer_set_cursor 0 0)) ;;
  lift_machine (lift_kernel (lift_fs (initialize_filesystem_fat32 tail))) ;;
  modify (fun s => System (mach s) (gdt_install_tss tss_at (gdt s)) (idt s) (tss s)) ;;
  set_tss_kernel_current_stack ebp ;;
  lift_machine (lift_kernel (process_create_user_process page_directory_list djunk fjunk shell_request)) ;;
  lift_machine (lift_io scheduler_init) ;;
  lift_machine (lift_kernel (scheduler_switch_to_next_process 16)).

End Kernel.

(** ** The boot *)

Section Boot.
Context {D P : Type} `{DiskSpec D, Crtc P} (page_directory_list kernel_page_directory : Z).
Hypothesis list_high : KERNEL_VIRTUAL_ADDRESS_BASE < page_directory_list.
Hypothesis list_low : page_directory_list + 32 * sizeof_PageDirectory <= 4294967296.
Hypothesis kernel_high : KERNEL_VIRTUAL_ADDRESS_BASE < kernel_page_directory < 4294967296.
Hypothesis separate : forall i, 0 <= i < PAGING_DIRECTORY_TABLE_MAX_COUNT ->
  kernel_page_directory <> directory_addr page_directory_list i.
Let addr : Z -> Z := directory_addr page_directory_list.

(** The shell is a file of the root directory of a formatted storage: entry [i],
    with the chain [l] of one cluster more than its whole clusters. *)
Record shell_installed (V : clusters) (i : Z) (l : list Z) : Prop := {
  shell_signature : boot_sector V = fs_signature;
  shell_found : dir_find (dir V ROOT_CLUSTER_NUMBER) (req_name shell_request) (req_ext shell_request) = Some i;
  shell_readable : readable (dir V ROOT_CLUSTER_NUMBER i) shell_request = true;
  shell_chain : chain (fat V) (entry_cluster (dir V ROOT_CLUSTER_NUMBER i)) l;
  shell_length : Z.of_nat (length l) = filesize (dir V ROOT_CLUSTER_NUMBER i) / CLUSTER_SIZE + 1;
}.

(** The static objects of the kernel have their initial values. *)
Definition initial (s : system D P) : Prop :=
  pages (kern (mach s)) = paging_init page_directory_list kernel_page_directory /\
  procs (kern (mach s)) = processes_init /\
  gdt s = global_descriptor_table /\ idt s = interrupt_descriptor_table /\ tss s = _interrupt_tss_entry.

(** The first context of the shell, and its process table. *)
Definition shell_context : Context := with_page_directory (addr 0) (process_initialize_context 0).

Lemma store_lookup m a bs n b : bs !! n = Some b -> store m a bs !! (a + Z.of_nat n) = Some b.
Proof.
  revert m a n. induction bs as [|x bs IH]; intros m a n Hn; [done|]. cbn [store]. destruct n as [|n].
  - injection Hn as ->. rewrite Z.add_0_r.
    enough (Hout : forall m', m' !! a = Some b -> store m' (a + 1) bs !! a = Some b) by (apply Hout, lookup_insert_eq).
    assert (Hk : a < a + 1) by lia. revert Hk. generalize (a + 1). clear. induction bs as [|y bs IH]; intros c Hc m' Hm; [done|].
    cbn [store]. apply IH; [lia|]. by rewrite lookup_insert_ne by lia.
  - replace (a + Z.of_nat (S n)) with (a + 1 + Z.of_nat n) by lia. by apply IH.
Qed.

Lemma wp_lift_machine {A} (c : M (machine D P) A) (Q : A -> system D P -> Prop) s :
  wp c (fun a m => Q a (System m (gdt s) (idt s) (tss s))) (mach s) -> wp (lift_machine c) Q s.
Proof. unfold wp, lift_machine. by destruct (c (mach s)) as [[a m]| |]. Qed.

Lemma wp_lift_kernel {A} (c : M (kernel D) A) (Q : A -> machine D P -> Prop) m :
  wp c (fun a k => Q a (Machine k (kbd m) (screen m) (io m))) (kern m) -> wp (lift_kernel c) Q m.
Proof. unfold wp, lift_kernel. by destruct (c (kern m)) as [[a k]| |]. Qed.

Lemma wp_lift_console {A} (c : M (console P) A) (Q : A -> machine D P -> Prop) m :
  wp c (fun a s => Q a (Machine (kern m) (kbd m) (fb s) (hw s))) (Console (screen m) (io m)) -> wp (lift_console c) Q m.
Proof. unfold wp, lift_console. by destruct (c _) as [[a s]| |]. Qed.

Lemma wp_lift_io {A} (c : M P A) (Q : A -> machine D P -> Prop) m :
  (exists a p, c (io m) = Ret (a, p)) ->
  (forall a p, Q a (Machine (kern m) (kbd m) (screen m) p)) -> wp (lift_io c) Q m.
Proof. intros (a & p & Hc) HQ. unfold wp, lift_io. rewrite Hc. apply HQ. Qed.

Lemma wp_lift_fs {A} (c : M (fs D) A) (Q : A -> kernel D -> Prop) k :
  wp c (fun a s => Q a (Kernel (pages k) (memory s) (disk s) (phys k) (procs k))) (Fs (driver k) (device k) ∅) ->
  wp (lift_fs c) Q k.
Proof. unfold wp, lift_fs. by destruct (c _) as [[a s]| |]. Qed.

Lemma frame_at_kernel : frame_at (paging_init page_directory_list kernel_page_directory) kernel_page_directory KERNEL_ENTRY = Some 0.
Proof. unfold frame_at, paging_init. cbn [directories]. rewrite lookup_insert_eq. reflexivity. Qed.

Lemma boot_can_start djunk m (d : D) ph : lower_address djunk = 0 ->
  can_start page_directory_list (Kernel (paging_init page_directory_list kernel_page_directory) m d ph processes_init)
    shell_request djunk 0 0.
Proof.
  intros Hj. assert (Hf : frames_needed shell_request = 2) by reflexivity.
  assert (Hcur : u32 (kernel_page_directory - KERNEL_VIRTUAL_ADDRESS_BASE + KERNEL_VIRTUAL_ADDRESS_BASE) = kernel_page_directory).
  { rewrite Z.sub_add. apply u32_small. unfold KERNEL_VIRTUAL_ADDRESS_BASE in *. lia. }
  split; unfold current_directory; cbn [pages cr3 paging_init]; rewrite ?Hf, ?Hcur.
  - by apply init_ok.
  - unfold KERNEL_VIRTUAL_ADDRESS_BASE in *. lia.
  - apply frame_at_kernel.
  - reflexivity.
  - unfold KERNEL_VIRTUAL_ADDRESS_BASE. cbn. lia.
  - cbn. unfold PAGE_FRAME_MAX_COUNT. lia.
  - unfold PROCESS_PAGE_FRAME_COUNT_MAX. lia.
  - reflexivity.
  - reflexivity.
  - apply not_eq_sym, separate. unfold PAGING_DIRECTORY_TABLE_MAX_COUNT. lia.
  - exact Hj.
Qed.

(** A chain of clusters loaded at 0 fits on the first page. *)
Lemma shell_on_page s (V : clusters) l :
  user s = store ∅ 0 (concat (V <$> l)) -> (length l <= 512)%nat ->
  (forall c, c ∈ l -> length (V c) = 2048%nat) -> on_page (D := D) shell_request s.
Proof.
  intros Hu Hl Hc va Hva. rewrite Hu in Hva.
  assert (Hlen : length (concat (V <$> l)) = (2048 * length l)%nat).
  { by apply length_concat_clusters. }
  apply store_lookup_range in Hva as [Hva|[x Hx]]; [|by rewrite lookup_empty in Hx]. split; [lia|].
  rewrite !page_index_div by (cbn; lia). rewrite !Z.div_small by (unfold PAGE_FRAME_SIZE; cbn; lia). done.
Qed.

(** The read of the shell by the kernel whose driver has loaded the map. *)
Lemma shell_read V i l s0 :
  shell_installed V i l -> disk_is (disk s0) V -> fat_cached s0 V -> user s0 = ∅ ->
  exists s, read shell_request s0 = Ret (0, s) /\ user s = store ∅ 0 (concat (V <$> l)) /\ disk_is (disk s) V /\
    on_page shell_request s.
Proof.
  intros [Hsig Hf Hr Hch Hl] Hd Hca Hu.
  enough (Hwp : wp (read shell_request) (fun a s => a = 0 /\ user s = store ∅ 0 (concat (V <$> l)) /\ disk_is (disk s) V) s0).
  { apply wp_elim in Hwp as (a & s & Hrd & -> & Hus & Hds). exists s. do 3 (split; [done|]).
    eapply shell_on_page; [exact Hus|by eapply chain_length|].
    intros c Hc. eapply disk_is_length; [exact Hd|]. pose proof (chain_range _ _ _ Hch) as Hrg.
    rewrite Forall_forall in Hrg. by apply Hrg. }
  apply (wp_read_file shell_request V s0 i l); try done.
  - eapply chain_ext; [|exact Hch]. intros x Hx. pose proof (chain_range _ _ _ Hch) as Hrg.
    rewrite Forall_forall in Hrg. by apply Hca, Hrg.
  - intros s Hus Hds _. rewrite Hu in Hus. done.
Qed.

(** What the boot leaves: the shell runs in slot 0 with its own page directory,
    whose page holds the file. *)
Record booted (m' : machine D P) (V : clusters) (l : list Z) : Prop := {
  boot_processes : procs (kern m') = running (started 0 shell_request (addr 0) processes_init) 0;
  boot_directory : cr3 (pages (kern m')) = addr 0 - KERNEL_VIRTUAL_ADDRESS_BASE;
  boot_program n b : concat (V <$> l) !! n = Some b -> virtual_byte (kern m') (addr 0) (Z.of_nat n) = Some b;
  boot_disk : disk_is (device (kern m')) V;
  boot_screen a : 0 <= a < 4000 -> mget (screen m') a = blank a;
}.

(** Creating the shell and switching to it. *)
Lemma wp_boot_shell djunk fjunk V i l k (Q : Context -> kernel D -> Prop) :
  lower_address djunk = 0 -> shell_installed V i l ->
  pages k = paging_init page_directory_list kernel_page_directory -> procs k = processes_init ->
  disk_is (device k) V -> fat_cached (Fs (driver k) (device k) ∅) V ->
  (forall k', procs k' = running (started 0 shell_request (addr 0) processes_init) 0 ->
     cr3 (pages k') = addr 0 - KERNEL_VIRTUAL_ADDRESS_BASE -> disk_is (device k') V ->
     (forall n b, concat (V <$> l) !! n = Some b -> virtual_byte k' (addr 0) (Z.of_nat n) = Some b) ->
     Q shell_context k') ->
  wp (process_create_user_process page_directory_list djunk fjunk shell_request ;; scheduler_switch_to_next_process 16) Q k.
Proof.
  intros Hj Hsh Hpg Hpr Hd Hca HQ. destruct k as [pg dr dev ph pr]. cbn [pages procs device driver] in *. subst pg pr.
  destruct (shell_read V i l (Fs dr dev ∅) Hsh Hd Hca eq_refl) as (s & Hrd & Hus & Hds & Hon).
  pose proof (boot_can_start djunk dr dev ph Hj) as Hcan.
  apply wp_bind. unfold wp. rewrite (create_setup _ _ _ _ _ _ _ Hcan).
  apply (wp_process_setup page_directory_list list_high list_low _ _ _ _ _ _ _ _ _ Hcan Hrd Hon).
  intros f pg m Hsp Hl. cbn [Z.eqb]. intros Hcr. cbn [procs].
  set (ps := started 0 shell_request (directory_addr page_directory_list 0) processes_init).
  eapply (wp_switch 15).
  - intros j Hj' Ho. cbn [procs] in Ho. assert (j = 0) as ->.
    { assert (Hall : forall j, (0 < j < 16) -> occupied ps j = false).
      { intros x Hx. unfold occupied, ps. cbn [process_slot_occupied started processes_init].
        apply nth_lookup_Some. rewrite list_lookup_insert_ne by lia. by apply lookup_replicate_2; lia. }
      destruct (decide (j = 0)) as [|Hne]; [done|]. unfold PROCESS_COUNT_MAX in Hj'. by rewrite Hall in Ho by lia. }
    change (page_directory_virtual_addr (context (pcb_at ps 0))) with (directory_addr page_directory_list 0).
    split; [|apply (space_kernel _ _ _ _ _ _ Hsp)].
    by apply directory_high.
  - reflexivity.
  - intros _. apply HQ; [reflexivity|reflexivity|exact Hds|].
    intros n b Hb. unfold virtual_byte. cbn [pages set_pages set_procs phys].
    assert (Hn : user s !! Z.of_nat n = Some b) by (rewrite Hus; by apply (store_lookup ∅ 0)).
    destruct (Hon _ (mk_is_Some _ _ Hn)) as [_ Hpi].
    change (frame_at (set_cr3 _ pg) (addr 0)) with (frame_at pg (directory_addr page_directory_list 0)).
    rewrite (space_new _ _ _ _ _ _ Hsp), Hpi, decide_True by (reflexivity || (rewrite Hpi; vm_compute; discriminate)). cbn.
    f_equal. by apply (loaded_bytes _ _ _ _ Hl).
Qed.

(** The two activations return on any hardware. *)
Lemma activate_keyboard_returns (p : P) : exists a p', activate_keyboard_interrupt p = Ret (a, p').
Proof. unfold activate_keyboard_interrupt, mbind, M_bind, in8. destruct (inb _ p) as [v p']. by eexists _, _. Qed.

Lemma scheduler_init_returns (p : P) : exists a p', scheduler_init p = Ret (a, p').
Proof.
  unfold scheduler_init, activate_timer_interrupt, mbind, M_bind, in8, out, modify.
  destruct (inb _ _) as [v p']. by eexists _, _.
Qed.

Lemma wp_kernel_setup stub tss_at ebp tail djunk fjunk V i l s :
  initial s -> disk_is (device (kern (mach s))) V -> shell_installed V i l -> lower_address djunk = 0 ->
  wp (kernel_setup stub tss_at page_directory_list ebp tail djunk fjunk) (fun c s' =>
    c = shell_context /\ booted (mach s') V l /\
    (forall v, idt s' v = kernel_gates stub v) /\ gdt s' = gdt_install_tss tss_at global_descriptor_table /\
    tss s' = Tss GDT_KERNEL_DATA_SEGMENT_SELECTOR (u32 (ebp + 8))) s.
Proof.
  intros (Hpg & Hpr & Hgdt & Hidt & Htss) Hd Hsh Hj.
  destruct s as [m g t e]. cbn [mach gdt idt tss] in *. subst g t e. unfold kernel_setup.
  apply wp_bind, wp_lift_machine, wp_lift_io; [by eexists _, _|]. intros _ p1. cbn [mach gdt idt tss].
  apply wp_bind. destruct (wp_elim (initialize_idt stub) (fun _ t => forall v, t v = kernel_gates stub v) interrupt_descriptor_table)
    as ([] & t & Ht & Hgates); [by apply wp_initialize_idt|].
  unfold wp at 1, lift_idt. cbn [idt]. rewrite Ht. cbn [mbind res_mbind res_bind mach gdt idt tss].
  apply wp_bind, wp_lift_machine, wp_lift_io; [apply activate_keyboard_returns|]. intros _ p2. cbn [mach gdt idt tss kern kbd screen io].
  apply wp_bind, wp_lift_machine, wp_lift_console, wp_clear. intros sc p3 Hsc _. cbn [mach gdt idt tss kern kbd screen io fb hw] in *.
  apply wp_bind, wp_lift_machine, wp_lift_console, wp_set_cursor; [lia|lia|]. intros p4 _. cbn [mach gdt idt tss kern kbd screen io fb hw].
  apply wp_bind, wp_lift_machine, wp_lift_kernel, wp_lift_fs. cbn [kern].
  eapply wp_initialize_loads; [exact Hd|apply Hsh|]. intros f Hd' Hu' Hca _.
  cbn [mach gdt idt tss kern kbd screen io].
  apply wp_bind, wp_modify, wp_bind, wp_modify. cbn [mach gdt idt tss ss0].
  set (k1 := Kernel _ (memory f) (disk f) _ _).
  assert (Hboot : wp (process_create_user_process page_directory_list djunk fjunk shell_request ;;
      scheduler_switch_to_next_process 16) (fun c k' => c = shell_context /\
      procs k' = running (started 0 shell_request (addr 0) processes_init) 0 /\
      cr3 (pages k') = addr 0 - KERNEL_VIRTUAL_ADDRESS_BASE /\ disk_is (device k') V /\
      (forall n b, concat (V <$> l) !! n = Some b -> virtual_byte k' (addr 0) (Z.of_nat n) = Some b)) k1).
  { eapply wp_boot_shell; [exact Hj|exact Hsh|exact Hpg|exact Hpr|exact Hd'|exact Hca|]. auto. }
  unfold wp, mbind, M_bind in Hboot.
  destruct (process_create_user_process page_directory_list djunk fjunk shell_request k1) as [[code k2]| |] eqn:Hc; [|done..].
  apply wp_bind, wp_lift_machine, wp_lift_kernel. unfold wp. cbn [kern mach]. rewrite Hc. cbn [mach gdt idt tss kern kbd screen io].
  apply wp_bind, wp_lift_machine, wp_lift_io; [apply scheduler_init_returns|]. intros _ p5. cbn [mach gdt idt tss kern kbd screen io].
  apply wp_lift_machine, wp_lift_kernel. unfold wp. cbn [kern mach].
  destruct (scheduler_switch_to_next_process 16 k2) as [[c k3]| |]; [|done..].
  destruct Hboot as (-> & Hp3 & Hc3 & Hd3 & Hv3). cbn [mach gdt idt tss kern kbd screen io].
  split; [done|]. split; [|done]. split; try done. intros a Ha. cbn [screen]. rewrite Hsc. by rewrite decide_True.
Qed.

(** C1: the kernel starts: from the initial state of its objects, with the shell
    installed on a formatted disk, [kernel_setup] returns the first context of
    the shell to switch to: entry point 0, the user segments and stack, and its
    own page directory, which is in CR3 and maps the file's bytes from address
    0 on.  The shell is the running process, in slot 0 with pid 0; the disk is
    as it was, the screen is cleared, and the descriptor tables are those that
    [gdt_install_tss] and [initialize_idt] leave. *)
Theorem kernel_setup_runs_shell stub tss_at ebp tail djunk fjunk V i l s :
  initial s -> disk_is (device (kern (mach s))) V -> shell_installed V i l -> lower_address djunk = 0 ->
  exists s', kernel_setup stub tss_at page_directory_list ebp tail djunk fjunk s = Ret (shell_context, s') /\
    booted (mach s') V l /\
    (forall v, idt s' v = kernel_gates stub v) /\ gdt s' = gdt_install_tss tss_at global_descriptor_table /\
    tss s' = Tss GDT_KERNEL_DATA_SEGMENT_SELECTOR (u32 (ebp + 8)).
Proof.
  intros Hi Hd Hsh Hj.
  destruct (wp_elim _ _ _ (wp_kernel_setup stub tss_at ebp tail djunk fjunk V i l s Hi Hd Hsh Hj)) as (c & s' & Hr & -> & Hs').
  by exists s'.
Qed.

End Boot.

(** ** A disk with a shell *)

Module KernelSample.

Definition shell_file : request := Request 0 (cstring "shell" ++ zeros 3) (zeros 3) 2 10.

Definition root_table : list dirent :=
  [self_entry 2 (root_name (zeros 3)); with_name dot_dot (self_entry 2 (root_name (zeros 3))); file_entry shell_file 3].

Definition image : Inserter.image :=
  Inserter.Image (store (store (store (store ∅ 0 fs_signature)
    2048 (concat (le_bytes 4 <$> [CLUSTER_0_VALUE; CLUSTER_1_VALUE; FAT32_FAT_END_OF_FILE; FAT32_FAT_END_OF_FILE])))
    4096 (concat (entry_bytes <$> root_table))) 6144 (cstring "shell code")).

Definition state : system Inserter.image crtc :=
  System (Machine (Kernel PagingSample.init ∅ image ∅ processes_init) (Keyboard false false 0 0) ∅ (MkCrtc 0 ∅))
    global_descriptor_table interrupt_descriptor_table _interrupt_tss_entry.

End KernelSample.

Lemma sample_shell_installed : shell_installed (cluster KernelSample.image) 2 [3].
Proof.
  split.
  - vm_compute. reflexivity.
  - rewrite image_dir_find by fat_lia. vm_compute. reflexivity.
  - rewrite image_dir by fat_lia. vm_compute. reflexivity.
  - rewrite image_dir by fat_lia. replace (entry_cluster _) with 3 by (vm_compute; reflexivity).
    apply chain_last; [fat_lia|]. rewrite image_fat by fat_lia. vm_compute. reflexivity.
  - rewrite image_dir by fat_lia. vm_compute. reflexivity.
Qed.

Lemma kernel_setup_runs_shell_witness :
  exists s', kernel_setup (fun i => 0xC0100000 + 16 * i) 0xC0101000 PagingSample.list_at 0xC0400000 (zeros 3) zero_entry zero_flag
      KernelSample.state = Ret (shell_context PagingSample.list_at, s') /\
    virtual_byte (kern (mach s')) PagingSample.directory0 0 = Some (z2b 115).
Proof.
  destruct (kernel_setup_runs_shell PagingSample.list_at PagingSample.kernel_at sample_list_high sample_list_low
    ltac:(unfold KERNEL_VIRTUAL_ADDRESS_BASE, PagingSample.kernel_at; lia) sample_separate
    (fun i => 0xC0100000 + 16 * i) 0xC0101000 0xC0400000 (zeros 3) zero_entry zero_flag (cluster KernelSample.image) 2 [3]
    KernelSample.state) as (s' & Hr & Hb & _).
  - by repeat split.
  - by apply disk_is_cluster.
  - exact sample_shell_installed.
  - reflexivity.
  - exists s'. split; [exact Hr|]. apply (boot_program _ _ _ _ Hb 0 (z2b 115)). vm_compute. reflexivity.
Defined.
