(* ===== verification/ShellBoot.v ===== *)
(** From the host to the running shell: the disk that the host tool writes is one
    that the kernel starts from. *)
From Stdlib Require Import ZArith Lia.
From Stdlib Require Strings.String.
From stdpp Require Import base numbers option strings zmap functions list.
From S2P Require Import Prelude CString Disk FatTypes Fat32 FatView FatRead FatWrite FatCreate FatSample FatDelete FatDir FatInit HostTool Paging PagingSpec Process ProcessSpec ProcessSample Scheduler Ports Framebuffer FramebufferSpec Keyboard Interrupt InterruptSpec Descriptors Kernel.

(** A file with the name of the shell, written to the root of a formatted disk,
    is the shell that the kernel looks for; files of whole clusters are read
    past their end. *)
Lemma created_shell_installed V V' u r k :
  file_created V V' u r k (take (Z.to_nat (clusters_needed (buffer_size r))) (free_list (fat V) 3)) ->
  boot_sector V = fs_signature -> 0 <= k < 64 ->
  parent_cluster_number r = ROOT_CLUSTER_NUMBER -> req_name r = req_name shell_request -> req_ext r = req_ext shell_request ->
  dir_find (dir V ROOT_CLUSTER_NUMBER) (req_name r) (req_ext r) = None ->
  0 < buffer_size r -> buffer_size r mod CLUSTER_SIZE <> 0 ->
  clusters_needed (buffer_size r) <= Z.of_nat (length (free_list (fat V) 3)) ->
  shell_installed V' k (take (Z.to_nat (clusters_needed (buffer_size r))) (free_list (fat V) 3)).
Proof.
  intros Hcr Hsig Hk Hp Hnm Hex Hfind Hn Hmod Hneed. set (l := take _ _) in *.
  assert (Hl : Z.of_nat (length l) = clusters_needed (buffer_size r)).
  { destruct (clusters_needed_bounds _ Hn). unfold l. rewrite length_take. lia. }
  pose proof (created_chain _ _ _ _ _ _ Hcr) as Hch.
  assert (Hfirst : 0 <= first_of l < CLUSTER_MAP_SIZE) by (inversion Hch; done).
  assert (Hentry : dir V' ROOT_CLUSTER_NUMBER k = file_entry r (first_of l)).
  { rewrite <- Hp, (created_entry _ _ _ _ _ _ Hcr) by done. by rewrite decide_True. }
  split; rewrite ?Hentry.
  - unfold boot_sector. rewrite (created_frame _ _ _ _ _ _ Hcr 0); [done|fat_lia| |done|by rewrite Hp].
    intros Hin. apply (elem_of_submseteq _ (free_list (fat V) 3)) in Hin; [|apply sublist_submseteq, sublist_take].
    apply elem_of_free_list in Hin. lia.
  - rewrite <- Hnm, <- Hex, <- Hp. apply (created_find _ _ _ _ _ _ Hcr); [done|by rewrite Hp].
  - done.
  - by rewrite (entry_cluster_low (first_of l) (first_of l)) by (done || fat_lia).
  - cbn [filesize file_entry]. rewrite Hl. destruct (clusters_needed_bounds _ Hn).
    pose proof (Z.div_mod (buffer_size r) CLUSTER_SIZE ltac:(done)). pose proof (Z.mod_pos_bound (buffer_size r) CLUSTER_SIZE eq_refl).
    fat_lia.
Qed.

(** The bytes of the file are in memory from address 0 of the directory on. *)
Definition file_loaded {D} (k : kernel D) (directory : Z) (f : file) : Prop :=
  forall i, 0 <= i < size f -> virtual_byte k directory i = Some (mget (contents f) i).

Section ShellBoot.
Context {D P : Type} `{DiskSpec D, Crtc P} (page_directory_list kernel_page_directory : Z).
Hypothesis list_high : KERNEL_VIRTUAL_ADDRESS_BASE < page_directory_list.
Hypothesis list_low : page_directory_list + 32 * sizeof_PageDirectory <= 4294967296.
Hypothesis kernel_high : KERNEL_VIRTUAL_ADDRESS_BASE < kernel_page_directory < 4294967296.
Hypothesis separate : forall i, 0 <= i < PAGING_DIRECTORY_TABLE_MAX_COUNT ->
  kernel_page_directory <> directory_addr page_directory_list i.

(** C2: building the disk and starting the machine: the host tool, with a file
    "shell" that is not of whole clusters and a storage that is not formatted,
    formats it, installs the file and says so; and from a drive with the
    contents of the image that it writes back, [kernel_setup] ends in the first
    context of the shell, in an address space that has the bytes of the file
    from address 0 on. *)
Theorem installed_shell_boots junk1 junk2 tail ktail fopen prog storage rest sf tf V stub tss_at ebp djunk fjunk :
  length tail = 3%nat -> fopen storage = Some sf -> Inserter.image_bytes <= size sf ->
  disk_is (Inserter.Image (contents sf)) V -> boot_sector V <> fs_signature ->
  fopen (cstring "shell") = Some tf -> 0 < size tf <= 509 * CLUSTER_SIZE -> size tf mod CLUSTER_SIZE <> 0 ->
  lower_address djunk = 0 ->
  exists img V',
    main junk1 junk2 tail fopen (prog :: cstring "shell" :: cstring "2" :: storage :: rest) =
      Ret (0, [Filename (cstring "shell"); Filesize (size tf); Line (cstring "Write success")], Some img) /\
    disk_is (Inserter.Image img) V' /\
    forall s : system D P, initial page_directory_list kernel_page_directory s -> disk_is (device (kern (mach s))) V' ->
      exists s', kernel_setup stub tss_at page_directory_list ebp ktail djunk fjunk s = Ret (shell_context page_directory_list, s') /\
        file_loaded (kern (mach s')) (directory_addr page_directory_list 0) tf.
Proof.
  intros Ht Hst Hsz HV Hb Htf Hn Hmod Hdj.
  set (r := Request 0 (cstring "shell" ++ zeros 3) (zeros 3) 2 (size tf)).
  destruct (tool_outcome junk1 junk2 tail fopen prog (cstring "shell") (cstring "2") storage rest sf 2 V)
    as (V0 & V' & img & Hp & Hd & Hrun & Hw); try done.
  { unfold target_for. by rewrite decide_False. }
  { unfold target_size. rewrite Htf. unfold Inserter.image_bytes. fat_lia. }
  unfold prepared in Hp. rewrite decide_False in Hp by done. destruct Hp as [Hf _].
  assert (Hreq : tool_request fopen (cstring "shell") 2 = r) by (unfold tool_request, target_size; by rewrite Htf).
  assert (Hbytes : target_bytes fopen (cstring "shell") = contents tf) by (unfold target_bytes; by rewrite Htf).
  assert (Hneed : clusters_needed (size tf) <= 509).
  { destruct (clusters_needed_bounds (size tf)); fat_lia. }
  destruct (formatted_accepts V0 tail r Hf) as [Hfind Hrej]; [done|done|done|done|exact Hneed|].
  rewrite Hreq, Hrej in Hrun, Hw. rewrite Hbytes in Hw. rewrite run_main in Hrun.
  replace (target_size fopen (cstring "shell")) with (size tf) in Hrun by (unfold target_size; by rewrite Htf).
  exists img, V'. split; [exact Hrun|]. split; [exact Hd|]. intros s Hi Hds.
  unfold written in Hw. cbn [buffer_size r] in Hw. rewrite (proj2 (Z.eqb_neq _ _)) in Hw by lia. destruct Hw as (k & Hk & Hcr).
  change (dir_free (dir V0 ROOT_CLUSTER_NUMBER) = Some k) in Hk. rewrite (formatted_free _ _ Hf) in Hk. injection Hk as <-.
  set (l := take _ _) in Hcr. assert (Hlen : Z.of_nat (length l) = clusters_needed (size tf)).
  { unfold l. rewrite (formatted_free_list _ _ Hf), length_take, length_seqZ. destruct (clusters_needed_bounds (size tf)); lia. }
  assert (Hsh : shell_installed V' 2 l).
  { apply (created_shell_installed V0 V' (contents tf) r 2 Hcr); try done; [apply Hf|cbn; lia|].
    rewrite (formatted_free_list _ _ Hf), length_seqZ. exact Hneed. }
  destruct (wp_elim _ _ _ (wp_kernel_setup page_directory_list kernel_page_directory list_high list_low kernel_high separate
    stub tss_at ebp ktail djunk fjunk V' 2 l s Hi Hds Hsh Hdj)) as (c & s' & Hr & -> & Hboot & _).
  exists s'. split; [exact Hr|]. intros i Hi'.
  replace i with (Z.of_nat (Z.to_nat i)) at 1 by lia. apply (boot_program _ _ _ _ Hboot).
  rewrite (created_concat _ _ _ _ _ _ Hcr) by (exact Hlen || (cbn; lia)).
  rewrite lookup_app_l by (rewrite length_load; cbn [buffer_size r]; lia). rewrite lookup_load by (cbn [buffer_size r]; lia).
  cbn [buf r]. do 2 f_equal. lia.
Qed.

End ShellBoot.

(** ** The sample machine with the image that the tool has written *)

Definition sample_machine (img : mem) : system Inserter.image crtc :=
  System (Machine (Kernel PagingSample.init ∅ (Inserter.Image img) ∅ processes_init) (Keyboard false false 0 0) ∅ (MkCrtc 0 ∅))
    global_descriptor_table interrupt_descriptor_table _interrupt_tss_entry.

Lemma installed_shell_boots_witness :
  exists img s',
    main ∅ ∅ (zeros 3) ToolSample.fopen [cstring "inserter"; cstring "shell"; cstring "2"; cstring "disk.bin"] =
      Ret (0, [Filename (cstring "shell"); Filesize 10; Line (cstring "Write success")], Some img) /\
    kernel_setup (fun i => 0xC0100000 + 16 * i) 0xC0101000 PagingSample.list_at 0xC0400000 (zeros 3) zero_entry zero_flag
      (sample_machine img) = Ret (shell_context PagingSample.list_at, s') /\
    virtual_byte (kern (mach s')) PagingSample.directory0 0 = Some (z2b 115).
Proof.
  destruct (installed_shell_boots PagingSample.list_at PagingSample.kernel_at sample_list_high sample_list_low
    ltac:(unfold KERNEL_VIRTUAL_ADDRESS_BASE, PagingSample.kernel_at; lia) sample_separate
    ∅ ∅ (zeros 3) (zeros 3) ToolSample.fopen (cstring "inserter") (cstring "disk.bin") [] (File ∅ Inserter.image_bytes)
    (File (obj ToolSample.program) 10) (cluster blank_image) (fun i => 0xC0100000 + 16 * i) 0xC0101000 0xC0400000 zero_entry zero_flag)
    as (img & V' & Hrun & Hd & Hboot);
    [reflexivity|reflexivity|reflexivity|by apply disk_is_cluster|vm_compute; discriminate|reflexivity|cbn; fat_lia|discriminate|reflexivity|].
  destruct (Hboot (sample_machine img)) as (s' & Hr & Hv); [by repeat split|exact Hd|].
  exists img, s'. split; [exact Hrun|]. split; [exact Hr|]. apply (Hv 0). cbn [size]. lia.
Defined.
