(* ===== verification/Terminal.v ===== *)
(** What a user program sees of the console and the keyboard: the interface
    [Terminal] of the system calls 4 to 8 and 16, the laws [TerminalSpec] that
    the theorems about user programs rely on, and two implementations: a script
    of key presses, and the kernel's own console and keyboard driver. *)
From Stdlib Require Import ZArith Lia.
From stdpp Require Import base numbers option strings zmap functions list.
From S2P Require Import Prelude FatTypes Ports Framebuffer FramebufferSpec Keyboard Interrupt.

(** ** The interface *)

(** The calls by number: 4 (the character that is waiting, 0 when there is
    none), 5, 6 (the bytes and the colour), 7 and 8 (typing on and off) and 16. *)
Class Terminal (T : Type) := {
  read_key : M T Z;
  print_char : Z -> Z -> M T unit;
  print : list byte -> Z -> M T unit;
  set_typing : bool -> M T unit;
  cursor_column : M T Z;
}.

(** [keys b t]: what the next calls of [read_key] will give when typing is on
    ([b]) or off.  Printing does not change it, nor the column that is
    reported. *)
Class TerminalSpec (T : Type) `{Terminal T} := {
  term_ok : T -> Prop;
  typing_on : T -> bool;
  reported_column : T -> Z;
  keys : bool -> T -> list Z;
  print_ok t bs color : term_ok t ->
    exists t', print bs color t = Ret (tt, t') /\ term_ok t' /\
      typing_on t' = typing_on t /\ reported_column t' = reported_column t /\ forall b, keys b t' = keys b t;
  print_char_ok t c color : term_ok t ->
    exists t', print_char c color t = Ret (tt, t') /\ term_ok t' /\
      typing_on t' = typing_on t /\ reported_column t' = reported_column t /\ forall b, keys b t' = keys b t;
  set_typing_ok t on : term_ok t ->
    exists t', set_typing on t = Ret (tt, t') /\ term_ok t' /\
      typing_on t' = on /\ reported_column t' = reported_column t /\ forall b, keys b t' = keys b t;
  read_key_ok t k ks : term_ok t -> keys (typing_on t) t = k :: ks ->
    exists t', read_key t = Ret (k, t') /\ term_ok t' /\
      typing_on t' = typing_on t /\ keys (typing_on t') t' = ks;
  cursor_column_ok t : term_ok t -> cursor_column t = Ret (reported_column t, t);
}.

(** ** A script of key presses *)

(** What each poll gives while typing is on; nothing is typed otherwise. *)
Record script := Script { pressed : list Z; on : bool }.

#[export] Instance script_terminal : Terminal script := {
  read_key t :=
    if on t then
      match pressed t with
      | k :: ks => Ret (k, Script ks true)
      | [] => Ret (0, t)
      end
    else Ret (0, t);
  print_char _ _ t := Ret (tt, t);
  print _ _ t := Ret (tt, t);
  set_typing b t := Ret (tt, Script (pressed t) b);
  cursor_column t := Ret (0, t);
}.

#[export, program] Instance script_spec : TerminalSpec script := {
  term_ok _ := True;
  typing_on := on;
  reported_column _ := 0;
  keys b t := if b then pressed t else [];
}.
Next Obligation. intros t bs c _. by exists t. Qed.
Next Obligation. intros t c color _. by exists t. Qed.
Next Obligation. intros t b _. eexists. by split; [reflexivity|]. Qed.
Next Obligation.
  intros [ks [|]] k ks' _; cbn; [|done]. intros ->. eexists. by split; [reflexivity|].
Qed.
Next Obligation. done. Qed.

(** ** The kernel's terminal *)

(** The parts of the machine behind these calls.  Key presses are interrupts:
    [arrivals] says how many reach the driver before each poll. *)
Record kernel_terminal (P : Type) := KernelTerminal {
  keyboard_driver : KeyboardDriverState;
  screen_memory : mem;
  hardware : P;
  arrivals : list nat;
}.
Arguments KernelTerminal {P} keyboard_driver screen_memory hardware arrivals.
Arguments keyboard_driver {P} k.
Arguments screen_memory {P} k.
Arguments hardware {P} k.
Arguments arrivals {P} k.

(** Hardware with a keyboard controller: the scan codes that are waiting behind
    port 0x60, in an order that no other access disturbs; and accesses to the
    keyboard and to the interrupt controller leave the cursor registers alone. *)
Class KeyPort (P : Type) `{Crtc P} := {
  scancodes : P -> list Z;
  scancodes_outb port v p : scancodes (outb port v p) = scancodes p;
  scancodes_inb port p :
    scancodes (snd (inb port p)) = if port =? KEYBOARD_DATA_PORT then tail (scancodes p) else scancodes p;
  scancodes_head p c cs : scancodes p = c :: cs -> u8 (fst (inb KEYBOARD_DATA_PORT p)) = c;
  crtc_reg_keyboard p i : crtc_reg (snd (inb KEYBOARD_DATA_PORT p)) i = crtc_reg p i;
  crtc_reg_ack p i : crtc_reg (outb PIC1_COMMAND PIC_ACK p) i = crtc_reg p i;
}.

Section KernelTerminal.
Context {P : Type} `{!Ports P}.

Definition on_console {A} (c : M (console P) A) : M (kernel_terminal P) A := fun t =>
  '(a, s) ← c (Console (screen_memory t) (hardware t));
  Ret (a, KernelTerminal (keyboard_driver t) (fb s) (hw s) (arrivals t)).

Definition on_keyboard {A} (c : M (keyboard P) A) : M (kernel_terminal P) A := fun t =>
  '(a, s) ← c (KeyboardIO (keyboard_driver t) (hardware t));
  Ret (a, KernelTerminal (keyboard_status s) (screen_memory t) (ports s) (arrivals t)).

(** The interrupts that arrive before the next poll. *)
Definition keyboard_interrupts : M (kernel_terminal P) unit := fun t =>
  on_keyboard (for_up (fun _ => keyboard_isr) 0 (default 0%nat (head (arrivals t))))
    (KernelTerminal (keyboard_driver t) (screen_memory t) (hardware t) (tail (arrivals t))).

(** [read_key]: the character is stored in a [char]. *)
#[export] Instance kernel_terminal_calls : Terminal (kernel_terminal P) := {
  read_key := keyboard_interrupts ;; c ← on_keyboard get_keyboard_buffer; mret (i8 c);
  print_char c color := on_console (putchar row_fuel (i8 c) color);
  print bs color := on_console (puts row_fuel (obj bs) 0 (length bs) color);
  set_typing b := on_keyboard (if b then keyboard_state_activate else keyboard_state_deactivate);
  cursor_column := gets (fun t => u8 (col (keyboard_driver t)));
}.

End KernelTerminal.

(** The characters that the polls give, from the buffer, the scan codes and the
    arrivals. *)
Fixpoint polls (typing : bool) (buffer : Z) (codes : list Z) (arrive : list nat) : list Z :=
  match arrive with
  | [] => []
  | n :: arrive' =>
      let buffer' :=
        if typing then foldl (fun _ c => keyboard_scancode_1_to_ascii_map c) buffer (take n codes) else buffer in
      i8 buffer' :: polls typing 0 (drop n codes) arrive'
  end.

Section KernelTerminalSpec.
Context {P : Type} `{KeyPort P}.
Implicit Types (t : kernel_terminal P).

(** Printing accesses the cursor's ports only. *)
Lemma keeps_lift_hw {A} (I : console P -> Prop) (c : M P A) :
  (forall m, keeps (fun p => I (Console m p)) c) -> keeps I (lift_hw c).
Proof.
  intros Hc s a s' Hr Hs. unfold lift_hw in Hr. destruct (c (hw s)) as [[b p]| |] eqn:E; [|done..].
  injection Hr as <- <-. eapply Hc; [exact E|]. by destruct s.
Qed.

Definition codes_are (l : list Z) (s : console P) : Prop := scancodes (hw s) = l.

Lemma keeps_out l m port v : keeps (fun p => codes_are l (Console m p)) (out port v).
Proof. apply keeps_modify. intros p. unfold codes_are. cbn [hw]. by rewrite scancodes_outb. Qed.

Lemma keeps_in8 l m port : u16 port <> KEYBOARD_DATA_PORT -> keeps (fun p => codes_are l (Console m p)) (in8 port).
Proof.
  intros Hp p a p' Hr. unfold codes_are. cbn [hw]. intros <-. unfold in8 in Hr.
  pose proof (scancodes_inb (u16 port) p) as Hs. destruct (inb (u16 port) p) as [v p1]. injection Hr as <- <-.
  cbn [snd] in Hs. by rewrite Hs, (proj2 (Z.eqb_neq _ _) Hp).
Qed.

Lemma keeps_fb l (f : console P -> mem) : keeps (codes_are l) (modify (fun s => set_fb (f s) s)).
Proof. by apply keeps_modify. Qed.

Lemma keeps_back_loop l fuel r c : keeps (codes_are l) (back_loop fuel r c).
Proof.
  revert r c. induction fuel as [|fuel IH]; intros r c; cbn [back_loop]; [apply keeps_out_of_fuel|].
  apply keeps_bind; [apply keeps_gets|]. intros v. destruct (_ && _); [apply IH|apply keeps_ret].
Qed.

Ltac keeps_step :=
  match goal with
  | |- keeps _ (if ?b then _ else _) => destruct b
  | |- keeps _ (mret _) => apply keeps_ret
  | |- keeps _ (_ ≫= _) => apply keeps_bind; [|intros ?]
  | |- keeps _ (lift_hw _) => apply keeps_lift_hw; intros ?
  | |- keeps _ (out _ _) => apply keeps_out
  | |- keeps _ (in8 _) => by apply keeps_in8
  | |- keeps _ (modify _) => apply keeps_fb
  | |- keeps _ (for_up _ _ _) => apply keeps_for; intros ?
  | |- keeps _ (back_loop _ _ _) => apply keeps_back_loop
  end.

Lemma keeps_putchar l fuel c color : keeps (codes_are l) (putchar fuel c color).
Proof.
  unfold putchar, get_cursor_pos, put_cell, shift_up, copy_up, framebuffer_set_cursor, framebuffer_write.
  repeat keeps_step.
Qed.

(** A batch of interrupts: each takes the next scan code. *)
Definition buffer_after (typing : bool) (buffer : Z) (codes : list Z) : Z :=
  if typing then foldl (fun _ c => keyboard_scancode_1_to_ascii_map c) buffer codes else buffer.

Lemma wp_keyboard_isrs n : forall i k, (n <= length (scancodes (ports k)))%nat ->
  wp (for_up (fun _ => keyboard_isr) i n) (fun _ k' =>
    scancodes (ports k') = drop n (scancodes (ports k)) /\
    (forall r, crtc_reg (ports k') r = crtc_reg (ports k) r) /\
    keyboard_input_on (keyboard_status k') = keyboard_input_on (keyboard_status k) /\
    keyboard_buffer (keyboard_status k') =
      buffer_after (keyboard_input_on (keyboard_status k)) (keyboard_buffer (keyboard_status k))
        (take n (scancodes (ports k)))) k.
Proof.
  induction n as [|n IH]; intros i k Hn; cbn [for_up].
  - apply wp_ret. unfold buffer_after. cbn [take foldl]. by destruct (keyboard_input_on _).
  - destruct (scancodes (ports k)) as [|c cs] eqn:Hc; [cbn [length] in Hn; lia|].
    apply wp_bind. unfold wp at 1. rewrite keyboard_isr_eval. rewrite (scancodes_head _ c cs Hc).
    set (k1 := KeyboardIO _ _).
    assert (Hc1 : scancodes (ports k1) = cs).
    { unfold k1. cbn [ports]. by rewrite scancodes_outb, scancodes_inb, Hc. }
    eapply wp_mono; [apply IH; rewrite Hc1; cbn [length] in Hn; lia|].
    intros [] k2 (Hs & Hreg & Hon & Hb). rewrite Hc1 in *.
    assert (Hon1 : keyboard_input_on (keyboard_status k1) = keyboard_input_on (keyboard_status k)).
    { unfold k1, key_received. cbn [keyboard_status]. by destruct (keyboard_input_on (keyboard_status k)) eqn:E. }
    split; [done|]. split; [|split; [congruence|]].
    + intros r. rewrite Hreg. unfold k1. cbn [ports]. by rewrite crtc_reg_ack, crtc_reg_keyboard.
    + rewrite Hb, Hon1. unfold k1, key_received, buffer_after. cbn [keyboard_status take foldl].
      by destruct (keyboard_input_on (keyboard_status k)).
Qed.

(** The screen is in order, and every interrupt that will arrive has a code. *)
Definition kernel_terminal_ok t : Prop :=
  screen_ok (screen_memory t) (cursor (hardware t)) /\
  (sum_list (arrivals t) <= length (scancodes (hardware t)))%nat.

Definition kernel_keys (b : bool) t : list Z :=
  polls b (keyboard_buffer (keyboard_driver t)) (scancodes (hardware t)) (arrivals t).

(** Anything that prints: the screen stays in order and no key is lost. *)
Lemma on_console_ok (c : M (console P) unit) t :
  (forall s, screen_ok (fb s) (cursor (hw s)) ->
     wp c (fun _ s' => screen_ok (fb s') (cursor (hw s'))) s) ->
  (forall l, keeps (codes_are l) c) -> kernel_terminal_ok t ->
  exists t', on_console c t = Ret (tt, t') /\ kernel_terminal_ok t' /\
    keyboard_input_on (keyboard_driver t') = keyboard_input_on (keyboard_driver t) /\
    u8 (col (keyboard_driver t')) = u8 (col (keyboard_driver t)) /\ forall b, kernel_keys b t' = kernel_keys b t.
Proof.
  intros Hc Hk (Hs & Ha). set (s := Console (screen_memory t) (hardware t)).
  destruct (wp_elim c _ s (wp_keeps (codes_are (scancodes (hardware t))) _ _ _ (Hc s Hs) (Hk _) eq_refl))
    as ([] & s' & Hr & Hs' & Hl).
  unfold codes_are in Hl. eexists. split; [unfold on_console; fold s; rewrite Hr; reflexivity|].
  unfold kernel_terminal_ok, kernel_keys. cbn [screen_memory hardware arrivals keyboard_driver]. rewrite Hl. done.
Qed.

Lemma wp_puts_ok bs color s :
  screen_ok (fb s) (cursor (hw s)) ->
  wp (puts row_fuel (obj bs) 0 (length bs) color) (fun _ s' => screen_ok (fb s') (cursor (hw s'))) s.
Proof.
  intros Hs. apply (wp_for (fun _ s' => screen_ok (fb s') (cursor (hw s')))); [done| |done].
  intros j s1 _ Hs1. eapply wp_mono; [apply wp_putchar_ok; [done| |unfold row_fuel; lia]|by intros [] s2 [Hs2 _]].
  unfold i8. pose proof (Z.mod_pos_bound (b2z (mget (obj bs) (0 + j)) + 128) 256 eq_refl). lia.
Qed.

(** A character of a user program is a [char]. *)
Lemma wp_putchar_char c color s :
  screen_ok (fb s) (cursor (hw s)) ->
  wp (putchar row_fuel (i8 c) color) (fun _ s' => screen_ok (fb s') (cursor (hw s'))) s.
Proof.
  intros Hs. eapply wp_mono; [apply wp_putchar_ok; [done| |unfold row_fuel; lia]|by intros [] s2 [Hs2 _]].
  unfold i8. pose proof (Z.mod_pos_bound (c + 128) 256 eq_refl). lia.
Qed.

Lemma kernel_set_typing_ok t b :
  kernel_terminal_ok t ->
  exists t', set_typing b t = Ret (tt, t') /\ kernel_terminal_ok t' /\
    keyboard_input_on (keyboard_driver t') = b /\
    u8 (col (keyboard_driver t')) = u8 (col (keyboard_driver t)) /\ forall c, kernel_keys c t' = kernel_keys c t.
Proof. intros Ht. destruct b; eexists; (split; [reflexivity|]); split; done. Qed.

Lemma kernel_read_key_ok t k ks :
  kernel_terminal_ok t -> kernel_keys (keyboard_input_on (keyboard_driver t)) t = k :: ks ->
  exists t', read_key t = Ret (k, t') /\ kernel_terminal_ok t' /\
    keyboard_input_on (keyboard_driver t') = keyboard_input_on (keyboard_driver t) /\
    kernel_keys (keyboard_input_on (keyboard_driver t')) t' = ks.
Proof.
  intros [Hs Ha] Hk. unfold kernel_keys in Hk. destruct (arrivals t) as [|n arr] eqn:Harr; [done|].
  cbn [polls] in Hk. injection Hk as Hk Hks. cbn [sum_list sum_list_with] in Ha.
  destruct (wp_elim _ _ _ (wp_keyboard_isrs n 0 (KeyboardIO (keyboard_driver t) (hardware t)) ltac:(cbn [ports]; unfold id in *; lia)))
    as ([] & k1 & Hr & Hc & Hreg & Hon & Hb). cbn [ports keyboard_status] in *.
  eexists. split.
  - cbn [read_key kernel_terminal_calls]. unfold keyboard_interrupts, on_keyboard, mbind, M_bind, res_mbind.
    rewrite Harr. cbn [head tail from_option id keyboard_driver hardware]. rewrite Hr. cbn [res_bind]. unfold get_keyboard_buffer, mbind, M_bind, gets.
    cbn [res_bind keyboard_status ports keyboard_driver hardware set_status modify]. unfold mret, M_ret.
    cbv beta iota delta [res_bind]. rewrite <- Hk.
    fold (buffer_after (keyboard_input_on (keyboard_driver t)) (keyboard_buffer (keyboard_driver t))
      (take n (scancodes (hardware t)))).
    rewrite <- Hb. reflexivity.
  - unfold kernel_terminal_ok, kernel_keys. cbn [screen_memory hardware arrivals keyboard_driver keyboard_status keyboard_input_on keyboard_buffer ports].
    rewrite Hc, Hon. unfold cursor in *. rewrite !Hreg, length_drop. split; [split; [done|unfold id in *; lia]|]. done.
Qed.

#[export, program] Instance kernel_terminal_spec : TerminalSpec (kernel_terminal P) := {
  term_ok := kernel_terminal_ok;
  typing_on t := keyboard_input_on (keyboard_driver t);
  reported_column t := u8 (col (keyboard_driver t));
  keys := kernel_keys;
}.
Next Obligation.
  intros t bs color Ht. apply on_console_ok; [intros s Hs; by apply wp_puts_ok| |done].
  intros l. apply keeps_for. intros j. apply keeps_putchar.
Qed.
Next Obligation.
  intros t c color Ht. apply on_console_ok; [intros s Hs; by apply wp_putchar_char| |done].
  intros l. apply keeps_putchar.
Qed.
Next Obligation. intros t b Ht. by apply kernel_set_typing_ok. Qed.
Next Obligation. intros t k ks Ht Hk. by apply kernel_read_key_ok. Qed.
Next Obligation. done. Qed.

End KernelTerminalSpec.

(** ** A machine with a screen and a keyboard *)

Record key_ports := KeyPorts { cursor_ports : crtc; waiting : list byte }.

#[export] Instance key_ports_ports : Ports key_ports := {
  outb port v p := KeyPorts (outb port v (cursor_ports p)) (waiting p);
  inb port p :=
    if port =? KEYBOARD_DATA_PORT
    then (from_option b2z 0 (head (waiting p)), KeyPorts (cursor_ports p) (tail (waiting p)))
    else let '(v, c) := inb port (cursor_ports p) in (v, KeyPorts c (waiting p));
  outw port v p := p;
  inw port p := (0, p);
}.

#[export, program] Instance key_ports_crtc : Crtc key_ports := {
  crtc_index p := crtc_index (cursor_ports p);
  crtc_reg p := crtc_reg (cursor_ports p);
}.
Next Obligation. intros p i. apply crtc_range. Qed.
Next Obligation. intros p v Hv. by apply (crtc_select (cursor_ports p)). Qed.
Next Obligation. intros p v Hv. by apply (crtc_write (cursor_ports p)). Qed.
Next Obligation.
  intros p. destruct (crtc_read (cursor_ports p)) as [H1 H2]. cbn -[crtc_reg crtc_index] in *.
  split; [exact H1|exact H2].
Qed.

#[export, program] Instance key_ports_keys : KeyPort key_ports := {
  scancodes p := b2z <$> waiting p;
}.
Next Obligation. done. Qed.
Next Obligation.
  intros port p. cbn. destruct (port =? KEYBOARD_DATA_PORT); [by destruct (waiting p)|done].
Qed.
Next Obligation.
  intros p c cs Hc. cbn in *. destruct (waiting p) as [|b l]; [done|]. injection Hc as <- _.
  apply u8_small, b2z_range.
Qed.
Next Obligation. by intros p i. Qed.
Next Obligation. intros p i. vm_compute. reflexivity. Qed.
