(* ===== verification/Shell.v ===== *)
(** The user shell, src/src/user-shell.c: its state, its system calls and its
    functions.

    Every local array or struct is an object of its own, a [mem] from address 0
    on.  A write outside an object is undefined; what is read behind it, or
    before anything was written to it, is arbitrary: the parameter [junk] gives
    the contents of the memory in which the [n]th local object is made. *)
From Stdlib Require Import ZArith Lia.
From Stdlib Require Strings.String.
From stdpp Require Import base numbers option strings zmap functions list.
From S2P Require Import Prelude CString Disk FatTypes Fat32 Process Interrupt Terminal.

(** ** State *)

Definition SHELL_MAX_LENGTH : Z := 256.
Definition COLOR_WHITE_ON_BLACK : Z := 0xF.

(** What the program has printed, a record of its calls. *)
Inductive output :=
| Puts (text : list byte) (color : Z)
| Putchar (c color : Z).

(** The kernel (its file system and processes) and the terminal on the other
    side of the calls; the globals [idx] and [clusters]; the local
    [current_cluster_pos] of [shell], to which [parseCommand] has a pointer. *)
Record shell_state (D T : Type) := ShellState {
  krn : kernel D;
  term : T;
  idx : Z;
  cluster_stack : list Z;
  current_cluster_pos : Z;
  shown : list output;
  objects : nat;
}.
Arguments ShellState {D T} krn term idx cluster_stack current_cluster_pos shown objects.
Arguments krn {D T} s.
Arguments term {D T} s.
Arguments idx {D T} s.
Arguments cluster_stack {D T} s.
Arguments current_cluster_pos {D T} s.
Arguments shown {D T} s.
Arguments objects {D T} s.

(** Fuel for strings: the longest object that is searched for a NUL is a
    directory table, 2048 bytes. *)
Definition string_fuel : nat := Z.to_nat 4096.

(** A string literal as an object. *)
Definition lit (s : String.string) : mem := obj (cstring s ++ [z2b 0]).
Arguments lit s%_string_scope.

(** ** Functions without system calls *)

Fixpoint strlen_loop (fuel : nat) (m : mem) (text retval : Z) : res Z :=
  match fuel with
  | O => NoFuel
  | S fuel' => if char_at m (text + retval) =? 0 then Ret retval else strlen_loop fuel' m text (retval + 1)
  end.

Definition strlen (m : mem) (text : Z) : res Z := strlen_loop string_fuel m text 0.

Fixpoint invert_memcpy_loop (md : mem) (dest : Z) (ms : mem) (src n i : Z) (k : nat) : mem :=
  match k with
  | O => md
  | S k' => invert_memcpy_loop (<[dest + i := mget ms (src + (n - i - 1))]> md) dest ms src n (i + 1) k'
  end.

Definition invert_memcpy (md : mem) (dest : Z) (ms : mem) (src : Z) (n : nat) : mem :=
  invert_memcpy_loop md dest ms src (Z.of_nat n) 0 n.

(** The exchange of the ends until they meet, at most [n] times. *)
Fixpoint reverse_loop (n : nat) (m : mem) (start end_ : Z) : mem :=
  match n with
  | O => m
  | S n' =>
      if start <? end_
      then reverse_loop n' (<[end_ := mget m start]> (<[start := mget m end_]> m)) (start + 1) (end_ - 1)
      else m
  end.

(** Reverse the characters from [start] to [end_], both included. *)
Definition reverse_range (m : mem) (start end_ : Z) : mem := reverse_loop (Z.to_nat (end_ - start + 1)) m start end_.

(** The loop that puts the characters of each name back in order. *)
Fixpoint reverse_names (fuel : nat) (m : mem) (start prog : Z) : res mem :=
  match fuel with
  | O => NoFuel
  | S fuel' =>
      if start <? prog then
        r ← strchr string_fuel m start 92;
        let end_ := default prog r in
        if 128 <? end_ then Undef else reverse_names fuel' (reverse_range m start (end_ - 1)) (end_ + 1) prog
      else Ret m
  end.

(** The length of the name before the first '.', and whether there is one: the
    loop of cat, cp and mv. *)
Fixpoint name_length (fuel : nat) (m : mem) (a i : Z) : res (Z * bool) :=
  match fuel with
  | O => NoFuel
  | S fuel' =>
      len ← strlen m a;
      if i <? len then
        if char_at m (a + i) =? 46 then Ret (i, true) else name_length fuel' m a (i + 1)
      else Ret (i, false)
  end.

(** [while (end > start && *end == ' ') *end-- = 0]. *)
Fixpoint trim_loop (fuel : nat) (m : mem) (end_ : Z) : mem :=
  match fuel with
  | O => m
  | S fuel' =>
      if (end_ >? 0) && (char_at m end_ =? 32) then trim_loop fuel' (<[end_ := z2b 0]> m) (end_ - 1) else m
  end.

Definition clearBuffer (m : mem) (length : nat) : mem := memset_loop m 0 0 0 length.

(** A 32-bit variable after a system call has stored a code in its first byte. *)
Definition low_byte (old code : Z) : Z := i32 (u32 old / 256 * 256 + u8 code).

(** A name of eight bytes from its characters. *)
Definition name8 (s : list byte) : list byte := take 8 (s ++ zeros 8).

Definition dot_name : list byte := name8 (cstring ".").

(** The names of the table with the [n]-th entry at [entry_addr 0 n]. *)
Definition name_addr (i : Z) : Z := entry_addr 0 i.
Definition ext_addr (i : Z) : Z := entry_addr 0 i + 8.

(** The literals " " and " \t\n\r" behind the input buffer, where the functions
    of string.c that take two strings find them. *)
Definition delim_addr : Z := 4096.
Definition blanks_addr : Z := 4112.
Definition with_literals (buffer : mem) : mem :=
  store (store buffer delim_addr (cstring " " ++ zeros 1)) blanks_addr [z2b 32; z2b 9; z2b 10; z2b 13; z2b 0].

Section Shell.
Context {D T : Type} `{!Disk D, !Terminal T} (junk : nat -> mem).

Abbreviation St := (shell_state D T).

(** ** Parts of the state *)

Definition lift {A} (r : res A) : M St A := fun s => a ← r; Ret (a, s).

Definition on_term {A} (c : M T A) : M St A := fun s =>
  '(a, t) ← c (term s);
  Ret (a, ShellState (krn s) t (idx s) (cluster_stack s) (current_cluster_pos s) (shown s) (objects s)).

Definition record (o : output) : M St unit := modify (fun s =>
  ShellState (krn s) (term s) (idx s) (cluster_stack s) (current_cluster_pos s) (shown s ++ [o]) (objects s)).

(** The globals and the position. *)
Definition set_place (i : Z) (l : list Z) (c : Z) : M St unit := modify (fun s =>
  ShellState (krn s) (term s) i l c (shown s) (objects s)).

(** [clusters[i]], read and written. *)
Definition clusters_get (i : Z) : M St Z := fun s =>
  if (0 <=? i) && (i <? 100) then Ret (nth (Z.to_nat i) (cluster_stack s) 0, s) else Undef.

Definition clusters_set (i v : Z) : M St unit := fun s =>
  if (0 <=? i) && (i <? 100)
  then set_place (idx s) (<[Z.to_nat i := v]> (cluster_stack s)) (current_cluster_pos s) s
  else Undef.

(** A new local object, without an initialiser and with one. *)
Definition uninit : M St mem := fun s =>
  Ret (junk (objects s),
    ShellState (krn s) (term s) (idx s) (cluster_stack s) (current_cluster_pos s) (shown s) (S (objects s))).

Definition local (bs : list byte) : M St mem := m ← uninit; mret (store m 0 bs).

(** Write to an object of [size] bytes. *)
Definition put (size : Z) (m : mem) (a : Z) (bs : list byte) : M St mem :=
  if (0 <=? a) && (a + Z.of_nat (length bs) <=? size) then mret (store m a bs) else undefined.

(** ** System calls *)

(** 6: the text and its length are the arguments. *)
Definition sys_puts (text : list byte) (color : Z) : M St unit :=
  on_term (print text color) ;; record (Puts text color).

Definition sys_putchar (c color : Z) : M St unit :=
  on_term (print_char c color) ;; record (Putchar c color).

(** 0 to 3: the kernel reads the 23 bytes of the request; [data] is the memory
    that the request's [buf] points to, for the calls that read it; the bytes
    that the call stores there are a result. *)
Definition file_call (op : request -> M (fs D) Z) (data req : mem) : M St (Z * mem) := fun s =>
  let k := krn s in
  '(code, f) ← op (request_of (load req 0 23)) (Fs (driver k) (device k) data);
  Ret ((code, user f),
    ShellState (Kernel (pages k) (memory f) (disk f) (phys k) (procs k)) (term s) (idx s) (cluster_stack s)
      (current_cluster_pos s) (shown s) (objects s)).

(** Everything written lies inside an object of [size] bytes. *)
Definition within (size : Z) (w : mem) : bool := forallb (fun '(a, _) => (0 <=? a) && (a <? size)) (map_to_list w).

(** A call that fills the object [buffer] of [size] bytes. *)
Definition fill_call (op : request -> M (fs D) Z) (size : Z) (buffer req : mem) : M St (Z * mem) :=
  r ← file_call op ∅ req;
  if within size (snd r) then mret (fst r, snd r ∪ buffer) else undefined.

Definition sys_read (size : Z) (buffer req : mem) : M St (Z * mem) := fill_call read size buffer req.
Definition sys_read_directory (buffer req : mem) : M St (Z * mem) := fill_call read_directory CLUSTER_SIZE buffer req.

Definition sys_write (data req : mem) : M St Z := r ← file_call write data req; mret (fst r).
Definition sys_delete (req : mem) : M St Z := r ← file_call (delete delete_fuel) ∅ req; mret (fst r).

(** ** Printing and strings *)

Definition puts (m : mem) (text color : Z) : M St unit :=
  n ← lift (strlen m text);
  sys_puts (load m text (Z.to_nat n)) color.

(** [puts] of a literal. *)
Definition puts_lit (s : String.string) (color : Z) : M St unit := sys_puts (cstring s) color.

(** [strcmp(..) == 0]. *)
Definition streq (m1 : mem) (a1 : Z) (m2 : mem) (a2 : Z) : M St bool :=
  d ← lift (strcmp string_fuel m1 a1 m2 a2);
  mret (d =? 0).

Fixpoint strcat_loop (fuel : nat) (size : Z) (dest : mem) (dest_len : Z) (ms : mem) (src i : Z) : M St mem :=
  match fuel with
  | O => out_of_fuel
  | S fuel' =>
      if char_at ms (src + i) =? 0 then put size dest (dest_len + i) [z2b 0]
      else
        dest ← put size dest (dest_len + i) [mget ms (src + i)];
        strcat_loop fuel' size dest dest_len ms src (i + 1)
  end.

(** [strcat(dest, src)] into an object of [size] bytes. *)
Definition strcat (size : Z) (dest ms : mem) (src : Z) : M St mem :=
  dest_len ← lift (strlen dest 0);
  strcat_loop string_fuel size dest dest_len ms src 0.

(** ** Directories *)

(** A request for the directory itself, ".". *)
Definition self_request (cluster size : Z) : M St mem :=
  local (request_bytes (Request 0 dot_name (zeros 3) cluster size)).

Definition get_parent_directory (current_cluster : Z) : M St Z :=
  buff ← uninit;
  req ← self_request current_cluster 0;
  r ← sys_read_directory buff req;
  mret (entry_cluster (table_entry (snd r) 0 1)).

(** The first loop of [print_dir_tree]: the names from the directory up to the
    one below the root.  [None] is the early return. *)
Fixpoint dir_tree_loop (fuel : nat) (current_cluster : Z) (temp : mem) (prog : Z) (buff : mem)
  : M St (option (mem * Z)) :=
  match fuel with
  | O => out_of_fuel
  | S fuel' =>
      req ← self_request current_cluster CLUSTER_SIZE;
      r ← sys_read_directory buff req;
      if negb (u8 (fst r) =? 0) then
        puts_lit "Error: Unable to read directory." 0xE ;; mret None
      else
        let buff := snd r in
        name ← uninit;
        let name := <[8 := z2b 0]> (strncpy name 0 buff (name_addr 0) 8) in
        name_len ← lift (strlen name 0);
        temp ← put 128 temp prog (load name 0 (Z.to_nat name_len));
        let prog := prog + name_len in
        let e0 := table_entry buff 0 0 in
        let e1 := table_entry buff 0 1 in
        p ← (if negb ((cluster_low e0 =? cluster_low e1) && (cluster_high e0 =? cluster_high e1)) then
               temp ← put 128 temp prog [z2b 92]; mret (temp, prog + 1)
             else mret (temp, prog));
        if negb (entry_cluster e1 =? ROOT_CLUSTER_NUMBER)
        then dir_tree_loop fuel' (entry_cluster e1) (fst p) (snd p) buff
        else mret (Some p)
  end.

(** [print_dir_tree(cluster_number, text_pointer)]: [text] is the object of
    [size] bytes behind the pointer, which starts at 0. *)
Definition print_dir_tree (fuel : nat) (cluster_number size : Z) (text : mem) : M St mem :=
  temp ← local (zeros 128);
  buff ← uninit;
  p ← dir_tree_loop fuel cluster_number temp 0 buff;
  match p with
  | None => mret text
  | Some (temp, prog) =>
      let temp := reverse_range temp 0 (prog - 1) in
      temp ← lift (reverse_names string_fuel temp 0 prog);
      text ← put size text 0 (load temp 0 (Z.to_nat prog));
      put size text prog [z2b 0]
  end.

(** The code and the table of the folder whose name is the [len] bytes at [a]. *)
Definition read_directory_interface (buffer ms : mem) (a len cluster : Z) : M St (Z * mem) :=
  req ← local (request_bytes (Request 0 (zeros 8) (zeros 3) (u16 cluster) 0));
  req ← put 23 req 4 (load ms a (Z.to_nat (u8 len)));
  r ← sys_read_directory buffer req;
  let c := b2z (mget (snd r) (name_addr 0)) in
  if (i8 (fst r) =? 0) && ((c =? 0xE5) || (c =? 0)) then
    puts_lit "Directory not found!" 0x4 ;; mret (-1, snd r)
  else mret (i8 (fst r), snd r).

(** Both functions start with this case and this request; [found_path] has
    SHELL_MAX_LENGTH bytes. *)
Definition is_in_directory (parent_cluster : Z) (ms : mem) (name : Z) (found_path : mem) : M St (bool * mem) :=
  b1 ← streq ms name (lit "/") 0;
  b2 ← (if b1 : bool then mret true else streq ms name (lit "") 0);
  if b2 : bool then
    path ← put SHELL_MAX_LENGTH found_path 0 (cstring "/" ++ zeros 1);
    mret (true, path)
  else
    dirbuffer ← uninit;
    req ← self_request (u16 parent_cluster) 0;
    r ← sys_read_directory dirbuffer req;
    mret (u8 (fst r) =? 0, found_path).

End Shell.
