(* ===== verification/Commands.v ===== *)
(** The commands of the shell, src/src/user-shell.c: [find_in_directory],
    [parseCommand] with one definition for each command, [handleInput] and the
    loop of [shell]. *)
From Stdlib Require Import ZArith Lia.
From Stdlib Require Strings.String.
From stdpp Require Import base numbers option strings zmap functions list.
From S2P Require Import Prelude CString Disk FatTypes Fat32 Process Scheduler Interrupt Terminal Shell.

Section Commands.
Context {D T : Type} `{!Disk D, !Terminal T} (junk : nat -> mem) (fuel : nat).

Abbreviation St := (shell_state D T).
Abbreviation uninit := (uninit junk).
Abbreviation local := (local junk).

(** ** find *)

(** The name of an entry with its extension, up to the last character that is
    not a space. *)
Definition trimmed_name (dirbuffer : mem) (i : Z) : M St mem :=
  trimmed ← uninit;
  let trimmed := <[11 := z2b 0]> (memcpy trimmed 0 dirbuffer (name_addr i) 11) in
  n ← lift (strlen trimmed 0);
  mret (trim_loop 12 trimmed (n - 1)).

(** The lines that are printed for a directory that was found: an uninitialised
    string, once and then for every entry in use. *)
Definition print_contents (dirbuffer : mem) : M St unit :=
  output ← uninit;
  puts output 0 0xF ;;
  for_up (fun j => if b2z (mget dirbuffer (name_addr j)) =? 0 then mret tt else puts output 0 0xF) 2 62.

(** The path for the search below entry [i], and the length that the loop keeps:
    the copy of [found_path] has no terminator of its own. *)
Definition extend_path (found_path : mem) (found_path_len : Z) : M St (mem * Z) :=
  new_path ← uninit;
  n ← lift (strlen found_path 0);
  new_path ← put SHELL_MAX_LENGTH new_path 0 (load found_path 0 (Z.to_nat n));
  if (found_path_len >? 0) && negb (b2z (mget found_path (found_path_len - 1)) =? 47) then
    new_path ← strcat SHELL_MAX_LENGTH new_path (lit "/") 0;
    mret (new_path, found_path_len + 1)
  else mret (new_path, found_path_len).

(** The loop over the entries, with the recursive call as [search]. *)
Fixpoint find_loop (search : Z -> mem -> M St (bool * mem)) (dirbuffer ms : mem) (name : Z) (i : Z) (n : nat)
    (found_path : mem) (found_path_len : Z) : M St (bool * mem) :=
  match n with
  | O => mret (false, found_path)
  | S n' =>
      trimmed ← trimmed_name dirbuffer i;
      same ← streq trimmed 0 ms name;
      let e := table_entry dirbuffer 0 i in
      let is_directory := negb (Z.land (attribute e) 0x10 =? 0) in
      if same : bool then
        path ← print_dir_tree junk fuel (entry_cluster e) SHELL_MAX_LENGTH found_path;
        (if is_directory then print_contents dirbuffer else mret tt) ;;
        mret (true, path)
      else if is_directory then
        p ← extend_path found_path found_path_len;
        let found_path_len := snd p in
        name_len ← lift (strlen dirbuffer (name_addr i));
        if found_path_len + name_len <? SHELL_MAX_LENGTH then
          new_path ← strcat SHELL_MAX_LENGTH (fst p) dirbuffer (name_addr i);
          r ← search (u16 (entry_cluster e)) new_path;
          if fst r : bool then
            len ← lift (strlen (snd r) 0);
            path ← put SHELL_MAX_LENGTH found_path 0 (load (snd r) 0 (Z.to_nat (len + 1)));
            mret (true, path)
          else find_loop search dirbuffer ms name (i + 1) n' found_path found_path_len
        else find_loop search dirbuffer ms name (i + 1) n' found_path found_path_len
      else find_loop search dirbuffer ms name (i + 1) n' found_path found_path_len
  end.

Fixpoint find_in_directory (depth : nat) (parent_cluster : Z) (ms : mem) (name : Z) (found_path : mem)
  : M St (bool * mem) :=
  match depth with
  | O => out_of_fuel
  | S depth' =>
      b1 ← streq ms name (lit "/") 0;
      b2 ← (if b1 : bool then mret true else streq ms name (lit "") 0);
      if b2 : bool then
        path ← put SHELL_MAX_LENGTH found_path 0 (cstring "/" ++ zeros 1);
        mret (true, path)
      else
        dirbuffer ← uninit;
        req ← self_request junk (u16 parent_cluster) 0;
        r ← sys_read_directory dirbuffer req;
        if negb (u8 (fst r) =? 0) then mret (false, found_path)
        else
          n ← lift (strlen found_path 0);
          find_loop (fun c path => find_in_directory depth' c ms name path) (snd r) ms name 2 62 found_path n
  end.

Definition cmd_find (m : mem) : M St unit :=
  name ← uninit;
  let name := <[255 := z2b 0]> (memcpy name 0 m 5 255) in
  found_path ← local (zeros 256);
  c ← gets current_cluster_pos;
  r ← find_in_directory fuel c name 0 found_path;
  if fst r : bool then puts (snd r) 0 0x2 else puts_lit "Not found" 0x4.

(** ** cd *)

(** [argument == NULL || strlen(argument) == strspn(argument, blanks)]. *)
Definition blank_argument (m : mem) (argument : option Z) : M St bool :=
  match argument with
  | None => mret true
  | Some a =>
      n ← lift (strlen m a);
      k ← lift (strspn string_fuel m a blanks_addr);
      mret (n =? k)
  end.

(** The length of the path component at [a]: up to the splitter, the end or
    eight characters. *)
Fixpoint component_length (n : nat) (m : mem) (a current_len : Z) : M St Z :=
  match n with
  | O => out_of_fuel
  | S n' =>
      if negb (char_at m (a + current_len) =? 92) && (current_len <? 8) then
        rest ← lift (strlen m (a + current_len));
        if rest >? 0 then component_length n' m a (current_len + 1) else mret current_len
      else mret current_len
  end.

(** The loop over the components of the path: the code, the cluster reached and
    whether any directory was found. *)
Fixpoint cd_loop (n : nat) (m dirbuffer : mem) (progress current_cluster : Z) (directory_found : bool)
  : M St (Z * Z * bool) :=
  match n with
  | O => out_of_fuel
  | S n' =>
      rest ← lift (strlen m progress);
      if negb (rest >? 0) then mret (0, current_cluster, directory_found)
      else
        current_len ← component_length 10 m progress 0;
        if (current_len =? 8) && negb (char_at m (progress + current_len) =? 92) then
          puts_lit "File name too long!" 0x4 ;; mret (0, current_cluster, directory_found)
        else
          r ← read_directory_interface junk dirbuffer m progress current_len current_cluster;
          if negb (u32 (fst r) =? 0) then mret (u32 (fst r), current_cluster, directory_found)
          else
            let used := negb (b2z (mget (snd r) (name_addr 0)) =? 0) in
            cd_loop n' m (snd r) (u8 (progress + current_len + 1))
              (if used then u16 (entry_cluster (table_entry (snd r) 0 0)) else current_cluster)
              (if used then true else directory_found)
  end.

Definition cmd_cd (m : mem) (argument : option Z) : M St unit :=
  if memcmp m 3 (lit "..") 0 2 =? 0 then
    i ← gets idx;
    if i =? 0 then puts_lit "Already in root" 0x4
    else
      stack ← gets cluster_stack;
      pos ← gets current_cluster_pos;
      set_place (i - 1) stack pos ;;
      puts_lit "Successfully changed directory." 0xF ;;
      c ← clusters_get (i - 1);
      set_place (i - 1) stack (u16 c)
  else
    blank ← blank_argument m argument;
    if blank : bool then mret tt
    else
      pos ← gets current_cluster_pos;
      dirbuffer ← uninit;
      r ← cd_loop 256 m dirbuffer 3 pos false;
      let '(retcode, current_cluster, directory_found) := r in
      if negb directory_found then puts_lit "Directory not found!" 0x4
      else if retcode =? 0 then
        i ← gets idx;
        stack ← gets cluster_stack;
        set_place (u32 (i + 1)) stack pos ;;
        clusters_set (u32 (i + 1)) current_cluster ;;
        stack ← gets cluster_stack;
        set_place (u32 (i + 1)) stack current_cluster ;;
        puts_lit "Successfully changed directory." 0xF
      else mret tt.

(** ** ls *)

(** The first entry in use whose name is the argument. *)
Fixpoint ls_search (dtable m : mem) (argument : Z) (i : Z) (n : nat) : M St (option Z) :=
  match n with
  | O => mret None
  | S n' =>
      if negb (table_user_attribute dtable 0 i =? 0) then
        same ← streq dtable (name_addr i) m argument;
        if same : bool then mret (Some i) else ls_search dtable m argument (i + 1) n'
      else ls_search dtable m argument (i + 1) n'
  end.

(** What the listing prints for entry [i]. *)
Definition ls_entry (dtable : mem) (i : Z) : M St unit :=
  if table_user_attribute dtable 0 i =? 0 then mret tt
  else if (memcmp dtable (name_addr i) (lit ".") 0 1 =? 0) || (memcmp dtable (name_addr i) (lit "..") 0 2 =? 0)
  then mret tt
  else
    len ← lift (strlen dtable (name_addr i));
    (if negb (Z.land (attribute (table_entry dtable 0 i)) 0x10 =? 0)
     then sys_puts (load dtable (name_addr i) (Z.to_nat len)) 0xF
     else
       (if char_at dtable (ext_addr i) =? 0
        then sys_puts (load dtable (name_addr i) (Z.to_nat len)) 0xF
        else
          sys_puts (load dtable (name_addr i) (Z.to_nat len)) 0xF ;;
          sys_puts (cstring ".") 0xF) ;;
       sys_puts (load dtable (ext_addr i) 3) 0xF) ;;
    sys_puts (cstring " ") 0xF.

Definition cmd_ls (m : mem) (argument : option Z) : M St unit :=
  dtable ← uninit;
  c ← gets current_cluster_pos;
  req ← self_request junk c 0;
  r ← sys_read_directory dtable req;
  let dtable := snd r in
  len ← lift (match argument with Some a => strlen m a | None => Ret 0 end);
  match argument with
  | Some a =>
      if len >? 0 then
        found ← ls_search dtable m a 0 64;
        match found with
        | Some i => puts dtable (name_addr i) 0xF
        | None => puts_lit "Not found" 0x4
        end
      else for_up (ls_entry dtable) 0 64
  | None => for_up (ls_entry dtable) 0 64
  end.

(** ** mkdir *)

Definition cmd_mkdir (m : mem) : M St unit :=
  folder_name ← uninit;
  let folder_name := <[8 := z2b 0]> (memcpy folder_name 0 m 6 8) in
  c ← gets current_cluster_pos;
  req ← local (request_bytes (Request 0 (zeros 8) (zeros 3) c 0));
  n ← lift (strlen folder_name 0);
  req ← put 23 req 4 (load folder_name 0 (Z.to_nat n));
  code ← sys_write ∅ req;
  let retcode := i8 code in
  if retcode =? 0 then puts_lit "Folder created successfully" 0x2
  else if retcode =? 1 then puts_lit "Folder already exists" 0x4
  else if retcode =? 2 then puts_lit "Invalid parent cluster" 0x4
  else puts_lit "Unknown error" 0x4.

(** ** cat, cp and mv *)

(** A request with the extension and the name that are written at [a]: the
    characters before the first '.' and the three behind it. *)
Definition named_request (m : mem) (a : Z) (c size : Z) : M St (mem * Z) :=
  req ← local (request_bytes (Request 0 (zeros 8) (zeros 3) c size));
  p ← lift (name_length string_fuel m a 0);
  let '(nameLen, dot) := p in
  req ← (if dot : bool then put 23 req 12 (load m (a + nameLen + 1) 3) else mret req);
  req ← put 23 req 4 (load m a (Z.to_nat nameLen));
  mret (req, nameLen).

Definition cmd_cat (m : mem) (argument : option Z) : M St unit :=
  match argument with
  | None => undefined
  | Some a =>
      cl_b ← local (zeros (4 * 2048));
      c ← gets current_cluster_pos;
      p ← named_request m a c (4 * CLUSTER_SIZE);
      r ← sys_read (4 * CLUSTER_SIZE) cl_b (fst p);
      let retcode := low_byte 0 (fst r) in
      if retcode =? 3 then puts_lit "The file size is too big to read!" 0x4
      else if retcode =? 2 then puts_lit "Can't find the file!" 0x4
      else if retcode =? 1 then puts_lit "Not a file!" 0x4
      else if retcode =? -1 then puts_lit "An error occured!" 0x4
      else
        sys_puts (load (snd r) 0 2048) 0xF ;;
        sys_puts (load (snd r) 2048 2048) 0xF ;;
        sys_putchar 10 0xF
  end.

(** The first part of cp and mv: read the source file into the one cluster
    [clusbuff].  The code, the buffer, the request and the position of the
    second name.  [retcode] has no initial value. *)
Definition read_source (m : mem) : M St (Z * mem * mem * Z) :=
  clusbuff ← local (zeros 2048);
  c ← gets current_cluster_pos;
  p ← named_request m 3 c (5 * CLUSTER_SIZE);
  let '(req, nameLen) := p in
  old ← uninit;
  let itr2 := if b2z (mget req 12) =? 0 then 4 + nameLen else 8 + nameLen in
  r ← sys_read CLUSTER_SIZE clusbuff req;
  mret (low_byte (load_le 4 old 0) (fst r), snd r, req, itr2).

(** The first entry whose name starts with the characters of the request. *)
Definition match_entry (table req2 : mem) : M St (option Z) :=
  n ← lift (strlen req2 4);
  mret (find_up (fun i => memcmp table (name_addr i) req2 4 (Z.to_nat n) =? 0) 0 64).

(** The second part of cp: look the target up in the table of the folder of its
    name, and write the five clusters that start at [clusbuff] there. *)
Definition cp_write (m clusbuff req : mem) (itr2 : Z) : M St unit :=
  c ← gets current_cluster_pos;
  req2 ← local (request_bytes (Request 0 (load m itr2 8) (zeros 3) c 0));
  old ← uninit;
  table ← local (zeros 2048);
  r ← sys_read_directory table req2;
  found ← match_entry (snd r) req2;
  retcode2 ← match found with
             | None => mret (i32 (load_le 4 old 0))
             | Some i =>
                 let req := store_le 4 req 15 (entry_cluster (table_entry (snd r) 0 i)) in
                 code ← sys_write clusbuff req;
                 mret (low_byte (load_le 4 old 0) code)
             end;
  if retcode2 =? 0 then puts_lit "Write success" 0x2
  else if retcode2 =? 1 then puts_lit "File/Folder already exist" 0x4
  else if retcode2 =? 2 then puts_lit "Invalid parent cluster" 0x4
  else puts_lit "Target folder not found" 0x4.

Definition cmd_cp (m : mem) : M St unit :=
  p ← read_source m;
  let '(retcode, clusbuff, req, itr2) := p in
  if retcode =? 0 then puts_lit "Read success" 0x2 ;; cp_write m clusbuff req itr2
  else if retcode =? 1 then puts_lit "Not a file" 0x4
  else if retcode =? 2 then puts_lit "File Not found" 0x4
  else puts_lit "Unknown error" 0x4.

(** All three branches after the read return: the code behind them, which would
    write the target and delete the source, is never reached. *)
Definition cmd_mv (m : mem) (argument : option Z) : M St unit :=
  blank ← blank_argument m argument;
  if blank : bool then puts_lit "mv: missing file operand" 0x4
  else
    p ← read_source m;
    let '(retcode, clusbuff, req, itr2) := p in
    if retcode =? 1 then puts_lit "Not a file" 0x4
    else if retcode =? 2 then puts_lit "File Not found" 0x4
    else puts_lit "Unknown error" 0x4.

(** ** rm *)

Definition cmd_rm (m : mem) (argument : option Z) : M St unit :=
  blank ← blank_argument m argument;
  match argument with
  | None => mret tt
  | Some a =>
      if blank : bool then mret tt
      else
        found_path ← local (zeros 256);
        c ← gets current_cluster_pos;
        r ← is_in_directory junk c m a found_path;
        if fst r : bool then
          req ← local (request_bytes (Request 0 (zeros 8) (zeros 3) c 0));
          n ← lift (strlen m a);
          req ← put 23 req 4 (load m a (Z.to_nat n));
          code ← sys_delete req;
          if u8 code =? 0 then puts_lit "File or directory removed successfully." 0x0F
          else puts_lit "Failed to remove file or directory." 0x4
        else sys_puts (cstring "File or directory not found." ++ [z2b 10]) 0x4
  end.

(** ** ps *)

(** [syscall(SYSCALL_PUTS, (uint32_t) &args, 0, 0)]: the struct is passed where
    the text should be, and the length is 0. *)
Definition puts_struct : M St unit := sys_puts [] 0.

(** [do { puts; col = cursor column } while (col < limit)]: the call stores one
    byte of the four of [col]. *)
Fixpoint pad_loop (fuel : nat) (old limit : Z) : M St Z :=
  match fuel with
  | O => out_of_fuel
  | S fuel' =>
      puts_struct ;;
      v ← on_term cursor_column;
      let col := u32 (low_byte old v) in
      if col <? limit then pad_loop fuel' col limit else mret col
  end.

(** The array [itoa] has 50 elements: the process number is below 16, the count
    of frames is whatever the kernel says. *)
Definition ps_entry (col i : Z) : M St Z :=
  k ← gets krn;
  if occupied (procs k) i then
    puts_struct ;;
    puts_struct ;;
    col ← pad_loop fuel col 11;
    puts_struct ;;
    col ← pad_loop fuel col 23;
    puts_struct ;;
    col ← pad_loop fuel col 36;
    if page_frame_used_count (pcb_at (procs k) i) <? 50 then puts_struct ;; mret col else undefined
  else mret col.

Fixpoint ps_loop (n : nat) (col i : Z) : M St unit :=
  match n with
  | O => mret tt
  | S n' => col ← ps_entry col i; ps_loop n' col (i + 1)
  end.

Definition cmd_ps : M St unit :=
  puts_struct ;;
  old ← uninit;
  ps_loop (Z.to_nat PROCESS_COUNT_MAX) (load_le 4 old 0) 0.

(** ** The command line *)

(** [strcmp(command, s) == 0] and [memcmp(buffer, s, n) == 0]. *)
Definition starts (m : mem) (s : String.string) (n : nat) : bool := memcmp m 0 (lit s) 0 n =? 0.

Definition parseCommand (buffer : mem) : M St unit :=
  let m := with_literals buffer in
  p ← lift (strtok string_fuel m None (Some 0) delim_addr);
  let '(command, m, next_token) := p in
  q ← lift (strtok string_fuel m next_token None delim_addr);
  let '(argument, m, _) := q in
  match command with
  | None => undefined
  | Some command =>
      is_cd ← streq m command (lit "cd") 0;
      if is_cd : bool then cmd_cd m argument else
      is_ls ← streq m command (lit "ls") 0;
      if is_ls : bool then cmd_ls m argument else
      if starts m "mkdir" 5 then cmd_mkdir m else
      is_cat ← streq m command (lit "cat") 0;
      if is_cat : bool then cmd_cat m argument else
      if starts m "cp" 2 then cmd_cp m else
      is_rm ← streq m command (lit "rm") 0;
      if is_rm : bool then cmd_rm m argument else
      is_mv ← streq m command (lit "mv") 0;
      if is_mv : bool then cmd_mv m argument else
      if starts m "find" 4 then cmd_find m else
      is_ps ← streq m command (lit "ps") 0;
      if is_ps : bool then cmd_ps else
      is_exec ← streq m command (lit "exec") 0;
      if negb is_exec then mret tt
      else puts_lit "Command not found" 0x4
  end.

(** ** Input *)

(** The buffer and the length after a line. *)
Fixpoint handleInput (n : nat) (inputBuffer : mem) (inputLength : Z) : M St (mem * Z) :=
  match n with
  | O => out_of_fuel
  | S n' =>
      charBuffer ← on_term read_key;
      if charBuffer =? 0 then handleInput n' inputBuffer inputLength
      else if charBuffer =? 10 then
        sys_putchar charBuffer COLOR_WHITE_ON_BLACK ;; mret (inputBuffer, inputLength)
      else if charBuffer =? 8 then
        if inputLength >? 0 then
          inputBuffer ← put SHELL_MAX_LENGTH inputBuffer inputLength [z2b 0];
          sys_putchar charBuffer COLOR_WHITE_ON_BLACK ;;
          handleInput n' inputBuffer (inputLength - 1)
        else handleInput n' inputBuffer inputLength
      else if inputLength <? SHELL_MAX_LENGTH - 1 then
        sys_putchar charBuffer COLOR_WHITE_ON_BLACK ;;
        inputBuffer ← put SHELL_MAX_LENGTH inputBuffer inputLength [z2b charBuffer];
        handleInput n' inputBuffer (inputLength + 1)
      else handleInput n' inputBuffer inputLength
  end.

(** ** The loop *)

(** One round: the prompt, a line, the command. *)
Definition shell_round (inputBuffer current_dir : mem) : M St (mem * mem) :=
  let current_dir := clearBuffer current_dir 128 in
  c ← gets current_cluster_pos;
  current_dir ← print_dir_tree junk fuel c 128 current_dir;
  puts_lit "BEBAS@OS-IF2230>" 0x05 ;;
  puts current_dir 0 COLOR_WHITE_ON_BLACK ;;
  puts_lit "$" 0x2 ;;
  let inputBuffer := clearBuffer inputBuffer 256 in
  on_term (set_typing true) ;;
  line ← handleInput fuel inputBuffer 0;
  on_term (set_typing false) ;;
  parseCommand (fst line) ;;
  sys_puts [z2b 10] 0x0 ;;
  mret (fst line, current_dir).

Fixpoint shell_loop (rounds : nat) (inputBuffer current_dir : mem) : M St unit :=
  match rounds with
  | O => out_of_fuel
  | S rounds' =>
      p ← shell_round inputBuffer current_dir;
      shell_loop rounds' (fst p) (snd p)
  end.

(** What [shell] does before its loop. *)
Definition shell_start : M St (mem * mem) :=
  inputBuffer ← uninit;
  current_dir ← uninit;
  i ← gets idx;
  stack ← gets cluster_stack;
  set_place i stack 2 ;;
  clusters_set 0 ROOT_CLUSTER_NUMBER ;;
  mret (inputBuffer, current_dir).

Definition shell (rounds : nat) : M St unit :=
  p ← shell_start;
  shell_loop rounds (fst p) (snd p).

(** [main] of the program; it never returns. *)
Definition main (rounds : nat) : M St Z := shell rounds ;; mret 0.

End Commands.
