(* ===== verification/ShellRules.v ===== *)
(** Rules for the code of the shell: the view of its state that the theorems
    are stated with, and what each system call does to it. *)
From Stdlib Require Import ZArith Lia.
From Stdlib Require Strings.String.
From stdpp Require Import base numbers option strings zmap functions list.
From S2P Require Import Prelude CString Disk FatTypes Fat32 FatView FatRead FatWrite FatCreate FatDelete FatDir Process Interrupt Terminal Shell.

(** ** Views *)

(** What can be observed: the clusters of the disk, the driver's cluster map,
    the processes, the globals and the position, what was printed, and the
    characters that will be typed. *)
Record view := View {
  disk_view : clusters;
  cached : Z -> Z;
  processes_view : processes;
  place : Z * list Z * Z;
  out : list output;
  typed : list Z;
  accepts : bool;
  at_column : Z;
}.

Definition with_disk (V : clusters) (f : Z -> Z) (v : view) : view :=
  View V f (processes_view v) (place v) (out v) (typed v) (accepts v) (at_column v).
Definition with_place (p : Z * list Z * Z) (v : view) : view :=
  View (disk_view v) (cached v) (processes_view v) p (out v) (typed v) (accepts v) (at_column v).
Definition printed (o : list output) (v : view) : view :=
  View (disk_view v) (cached v) (processes_view v) (place v) (out v ++ o) (typed v) (accepts v) (at_column v).
Definition with_keys (ks : list Z) (on : bool) (col : Z) (v : view) : view :=
  View (disk_view v) (cached v) (processes_view v) (place v) (out v) ks on col.

(** The position of the shell: the cluster of the current directory. *)
Definition here (v : view) : Z := snd (place v).

(** ** Lists of bytes in memory *)

(** A store, and what lies behind it up to the end of a window. *)
Lemma load_store_prefix m a bs n :
  (length bs <= n)%nat -> load (store m a bs) a n = bs ++ load m (a + Z.of_nat (length bs)) (n - length bs).
Proof.
  intros Hn. replace n with (length bs + (n - length bs))%nat at 1 by lia. rewrite load_app.
  f_equal; [by apply load_store_eq|]. apply load_store_ne. lia.
Qed.

Lemma lookup_store m a bs k :
  store m a bs !! k = if decide (a <= k < a + Z.of_nat (length bs)) then bs !! Z.to_nat (k - a) else m !! k.
Proof.
  revert m a. induction bs as [|b bs IH]; intros m a; cbn [store length].
  - by rewrite decide_False by lia.
  - rewrite IH. destruct (decide (k = a)) as [->|Hne].
    + rewrite decide_False, decide_True by lia. by rewrite lookup_insert_eq, Z.sub_diag.
    + case_decide as H1; case_decide as H2; try lia.
      * by replace (Z.to_nat (k - a)) with (S (Z.to_nat (k - (a + 1)))) by lia.
      * by rewrite lookup_insert_ne by done.
Qed.

Lemma store_empty_union m a bs : store ∅ a bs ∪ m = store m a bs.
Proof.
  apply map_eq. intros k. rewrite lookup_union, !lookup_store, lookup_empty. case_decide as Hk.
  - destruct (lookup_lt_is_Some_2 bs (Z.to_nat (k - a)) ltac:(lia)) as [b ->]. by destruct (m !! k).
  - by destruct (m !! k).
Qed.

Lemma within_store size bs :
  Z.of_nat (length bs) <= size -> within size (store ∅ 0 bs) = true.
Proof.
  intros Hs. apply forallb_forall. intros [a b] Hin.
  apply list_elem_of_In, elem_of_map_to_list in Hin. rewrite lookup_store, lookup_empty in Hin.
  case_decide as Ha; [|done]. apply andb_true_iff. split; [apply Z.leb_le; lia|apply Z.ltb_lt; lia].
Qed.

Lemma within_empty size : within size ∅ = true.
Proof. done. Qed.

(** A write past the end of the object is seen. *)
Lemma not_within_store size bs :
  0 <= size < Z.of_nat (length bs) -> within size (store ∅ 0 bs) = false.
Proof.
  intros Hs. apply not_true_iff_false. intros Hw. apply Is_true_true in Hw.
  destruct (lookup_lt_is_Some_2 bs (Z.to_nat size) ltac:(lia)) as [b Hb].
  assert (Hin : (size, b) ∈ map_to_list (store ∅ 0 bs)).
  { apply elem_of_map_to_list. rewrite lookup_store, decide_True by lia. rewrite <- Hb. f_equal. lia. }
  apply Is_true_true in Hw. unfold within in Hw. rewrite forallb_forall in Hw.
  apply list_elem_of_In in Hin. specialize (Hw _ Hin). cbn in Hw.
  apply andb_true_iff in Hw as [_ Hw]. apply Z.ltb_lt in Hw. lia.
Qed.

(** ** Requests *)

Lemma request_of_load m :
  request_of (load m 0 23) =
    Request (load_le 4 m 0) (load m 4 8) (load m 12 3) (load_le 4 m 15) (load_le 4 m 19).
Proof.
  assert (H : forall o n, 0 <= o -> o + Z.of_nat n <= 23 -> load (obj (load m 0 23)) o n = load m o n).
  { intros o n Ho Hn. unfold obj. rewrite load_store_within by (rewrite ?length_load; lia).
    rewrite Z.sub_0_r, load_window by lia. f_equal. lia. }
  unfold request_of, load_le. by rewrite !H by lia.
Qed.

Lemma length_request_bytes r :
  length (req_name r) = 8%nat -> length (req_ext r) = 3%nat -> length (request_bytes r) = 23%nat.
Proof. intros Hn He. unfold request_bytes. autorewrite with kernel_len. lia. Qed.

(** A request struct holds its fields, whatever lies behind it. *)
Lemma request_of_bytes m r :
  request_ok r -> 0 <= buf r < 4294967296 -> request_of (load (store m 0 (request_bytes r)) 0 23) = r.
Proof.
  intros (Hn & He & Hp & Hs) Hb. pose proof (length_request_bytes r Hn He) as Hlen.
  assert (H : forall o n c, 0 <= o -> o + Z.of_nat n <= 23 -> take n (drop (Z.to_nat o) (request_bytes r)) = c ->
    load (store m 0 (request_bytes r)) o n = c).
  { intros o n c Ho Hon Hc. rewrite load_store_within by lia. by rewrite Z.sub_0_r. }
  assert (Hcat : request_bytes r = concat [le_bytes 4 (buf r); req_name r; req_ext r;
    le_bytes 4 (parent_cluster_number r); le_bytes 4 (buffer_size r)]).
  { unfold request_bytes. cbn [concat]. by rewrite app_nil_r. }
  rewrite request_of_load. destruct r as [bf nm ex p sz]. cbn [buf req_name req_ext parent_cluster_number buffer_size] in *.
  unfold load_le. f_equal.
  - rewrite (H 0 4%nat (le_bytes 4 bf)); [rewrite le_val_le_bytes; by apply Z.mod_small|lia..|].
    rewrite Hcat. by apply (concat_chunk _ 0 _).
  - apply H; [lia..|]. rewrite Hcat. by apply (concat_chunk _ 1 _).
  - apply H; [lia..|]. rewrite Hcat. apply (concat_chunk _ 2 _); [done| |done]. cbn [take concat].
    autorewrite with kernel_len. cbn [length]. lia.
  - rewrite (H 15 4%nat (le_bytes 4 p)); [rewrite le_val_le_bytes; by apply Z.mod_small|lia..|].
    rewrite Hcat. apply (concat_chunk _ 3 _); [done| |done]. cbn [take concat]. autorewrite with kernel_len. cbn [length]. lia.
  - rewrite (H 19 4%nat (le_bytes 4 sz)); [rewrite le_val_le_bytes; by apply Z.mod_small|lia..|].
    rewrite Hcat. apply (concat_chunk _ 4 _); [done| |done]. cbn [take concat]. autorewrite with kernel_len. cbn [length]. lia.
Qed.

(** Storing the characters of a name in a request: the rest of the old name
    stays. *)
Lemma request_of_name m bs :
  (length bs <= 8)%nat ->
  request_of (load (store m 4 bs) 0 23) =
    Request (buf (request_of (load m 0 23))) (bs ++ drop (length bs) (req_name (request_of (load m 0 23))))
      (req_ext (request_of (load m 0 23))) (parent_cluster_number (request_of (load m 0 23)))
      (buffer_size (request_of (load m 0 23))).
Proof.
  intros Hl. rewrite !request_of_load. cbn [buf req_name req_ext parent_cluster_number buffer_size].
  unfold load_le. f_equal; [by rewrite load_store_ne by lia| |by rewrite load_store_ne by lia..].
  rewrite load_store_prefix by done. f_equal.
  pose proof (load_window m 4 8 (length bs) (8 - length bs) ltac:(lia)) as Hw. rewrite <- Hw.
  apply take_ge. rewrite length_drop, length_load. lia.
Qed.

Lemma length_name8 s : length (name8 s) = 8%nat.
Proof. unfold name8. rewrite length_take, length_app. unfold zeros. rewrite length_replicate. lia. Qed.

Lemma name8_short s : (length s <= 8)%nat -> name8 s = s ++ zeros (8 - length s).
Proof.
  intros Hs. unfold name8. rewrite take_app_ge by done. f_equal. unfold zeros. rewrite take_replicate. f_equal. lia.
Qed.

(** ** Rules *)

Section Rules.
Context {D T : Type} `{DiskSpec D, TerminalSpec T} (junk : nat -> mem).
Implicit Types (s : shell_state D T) (v : view).

(** The state [s] looks like [v]. *)
Record is_view s v : Prop := {
  view_disk : disk_is (device (krn s)) (disk_view v);
  view_cached c : 0 <= c < CLUSTER_MAP_SIZE -> cluster_map (driver (krn s)) c = cached v c;
  view_procs : procs (krn s) = processes_view v;
  view_place : (idx s, cluster_stack s, current_cluster_pos s) = place v;
  view_out : shown s = out v;
  view_term : term_ok (term s);
  view_typed : keys true (term s) = typed v;
  view_accepts : typing_on (term s) = accepts v;
  view_column : reported_column (term s) = at_column v;
}.

Lemma wp_lift_ret {A} (r : res A) (a : A) (Q : A -> shell_state D T -> Prop) s :
  r = Ret a -> Q a s -> wp (lift r) Q s.
Proof. by intros ->. Qed.

Lemma wp_here v (Q : Z -> shell_state D T -> Prop) s :
  is_view s v -> Q (here v) s -> wp (gets current_cluster_pos) Q s.
Proof. intros Hv HQ. apply wp_gets. unfold here in HQ. by rewrite <- (view_place _ _ Hv) in HQ. Qed.

Lemma wp_idx v (Q : Z -> shell_state D T -> Prop) s :
  is_view s v -> Q (fst (fst (place v))) s -> wp (gets idx) Q s.
Proof. intros Hv HQ. apply wp_gets. by rewrite <- (view_place _ _ Hv) in HQ. Qed.

Lemma wp_stack v (Q : list Z -> shell_state D T -> Prop) s :
  is_view s v -> Q (snd (fst (place v))) s -> wp (gets cluster_stack) Q s.
Proof. intros Hv HQ. apply wp_gets. by rewrite <- (view_place _ _ Hv) in HQ. Qed.

Lemma wp_set_place v i l c (Q : unit -> shell_state D T -> Prop) s :
  is_view s v -> (forall s', is_view s' (with_place (i, l, c) v) -> Q tt s') -> wp (set_place i l c) Q s.
Proof. intros [] HQ. apply wp_modify, HQ. by split. Qed.

Lemma wp_clusters_get v i (Q : Z -> shell_state D T -> Prop) s :
  is_view s v -> 0 <= i < 100 -> Q (nth (Z.to_nat i) (snd (fst (place v))) 0) s -> wp (clusters_get i) Q s.
Proof.
  intros Hv Hi HQ. unfold wp, clusters_get. rewrite (proj2 (Z.leb_le 0 i)), (proj2 (Z.ltb_lt i 100)) by lia.
  cbn [andb]. by rewrite <- (view_place _ _ Hv) in HQ.
Qed.

Lemma wp_clusters_set v i x (Q : unit -> shell_state D T -> Prop) s :
  is_view s v -> 0 <= i < 100 ->
  (forall s', is_view s' (with_place (fst (fst (place v)), <[Z.to_nat i := x]> (snd (fst (place v))), here v) v) -> Q tt s') ->
  wp (clusters_set i x) Q s.
Proof.
  intros Hv Hi HQ. unfold wp, clusters_set. rewrite (proj2 (Z.leb_le 0 i)), (proj2 (Z.ltb_lt i 100)) by lia.
  cbn [andb]. unfold here in HQ. rewrite <- (view_place _ _ Hv) in HQ. cbn [fst snd] in HQ.
  eapply (wp_set_place v); [exact Hv|exact HQ].
Qed.

Lemma wp_uninit v (Q : mem -> shell_state D T -> Prop) s :
  is_view s v -> (forall m s', is_view s' v -> Q m s') -> wp (uninit junk) Q s.
Proof. intros [] HQ. apply HQ. by split. Qed.

Lemma wp_local bs v (Q : mem -> shell_state D T -> Prop) s :
  is_view s v -> (forall m s', is_view s' v -> Q (store m 0 bs) s') -> wp (local junk bs) Q s.
Proof. intros Hv HQ. apply wp_bind. eapply wp_uninit; [exact Hv|]. intros m s' Hs'. by apply wp_ret, HQ. Qed.

Lemma wp_put size m a bs (Q : mem -> shell_state D T -> Prop) s :
  0 <= a -> a + Z.of_nat (length bs) <= size -> Q (store m a bs) s -> wp (put size m a bs) Q s.
Proof.
  intros Ha Hs HQ. unfold put. rewrite (proj2 (Z.leb_le 0 a)), (proj2 (Z.leb_le _ size)) by lia. by apply wp_ret.
Qed.

(** A new request struct. *)
Lemma wp_request r v (Q : mem -> shell_state D T -> Prop) s :
  is_view s v -> request_ok r -> buf r = 0 ->
  (forall req s', is_view s' v -> request_of (load req 0 23) = r -> Q req s') ->
  wp (local junk (request_bytes r)) Q s.
Proof.
  intros Hv Hr Hb HQ. eapply wp_local; [exact Hv|]. intros m s' Hs'. apply HQ; [done|].
  apply request_of_bytes; [done|]. rewrite Hb. lia.
Qed.

(** ** The terminal *)

Lemma wp_on_term {A} (c : M T A) v (Q : A -> shell_state D T -> Prop) s :
  is_view s v ->
  wp c (fun a t => term_ok t /\
    forall s', is_view s' (with_keys (keys true t) (typing_on t) (reported_column t) v) -> Q a s') (term s) ->
  wp (on_term c) Q s.
Proof.
  intros [] HQ. unfold wp, on_term in *. destruct (c (term s)) as [[a t]| |]; [|done..].
  destruct HQ as [Ht HQ]. apply HQ. by split.
Qed.

Lemma with_keys_same v : with_keys (typed v) (accepts v) (at_column v) v = v.
Proof. by destruct v. Qed.

Lemma is_view_keys s v ks on col :
  is_view s (with_keys ks on col v) -> ks = typed v -> on = accepts v -> col = at_column v -> is_view s v.
Proof. intros Hs -> -> ->. by rewrite with_keys_same in Hs. Qed.

Lemma wp_record o v (Q : unit -> shell_state D T -> Prop) s :
  is_view s v -> (forall s', is_view s' (printed [o] v) -> Q tt s') -> wp (record o) Q s.
Proof. intros [] HQ. apply wp_modify, HQ. split; cbn; try done. by f_equal. Qed.

Lemma wp_sys_puts text color v (Q : unit -> shell_state D T -> Prop) s :
  is_view s v -> (forall s', is_view s' (printed [Puts text color] v) -> Q tt s') -> wp (sys_puts text color) Q s.
Proof.
  intros Hv HQ. pose proof Hv as []. apply wp_bind. eapply wp_on_term; [exact Hv|].
  destruct (print_ok (term s) text color) as (t' & Hp & Ht & Hon & Hcol & Hk); [done|].
  eapply wp_intro; [exact Hp|]. split; [done|]. intros s' Hs'.
  eapply wp_record; [|exact HQ]. eapply is_view_keys; [exact Hs'|congruence..].
Qed.

Lemma wp_puts_lit text color v (Q : unit -> shell_state D T -> Prop) s :
  is_view s v -> (forall s', is_view s' (printed [Puts (cstring text) color] v) -> Q tt s') ->
  wp (puts_lit text color) Q s.
Proof. apply wp_sys_puts. Qed.

Lemma wp_sys_putchar c color v (Q : unit -> shell_state D T -> Prop) s :
  is_view s v -> (forall s', is_view s' (printed [Putchar c color] v) -> Q tt s') -> wp (sys_putchar c color) Q s.
Proof.
  intros Hv HQ. pose proof Hv as []. apply wp_bind. eapply wp_on_term; [exact Hv|].
  destruct (print_char_ok (term s) c color) as (t' & Hp & Ht & Hon & Hcol & Hk); [done|].
  eapply wp_intro; [exact Hp|]. split; [done|]. intros s' Hs'.
  eapply wp_record; [|exact HQ]. eapply is_view_keys; [exact Hs'|congruence..].
Qed.

Lemma wp_set_typing b v (Q : unit -> shell_state D T -> Prop) s :
  is_view s v -> (forall s', is_view s' (with_keys (typed v) b (at_column v) v) -> Q tt s') ->
  wp (on_term (set_typing b)) Q s.
Proof.
  intros Hv HQ. pose proof Hv as []. eapply wp_on_term; [exact Hv|].
  destruct (set_typing_ok (term s) b) as (t' & Hp & Ht & Hon & Hcol & Hk); [done|].
  eapply wp_intro; [exact Hp|]. split; [done|]. intros s' Hs'. apply HQ.
  rewrite Hk, Hon, Hcol in Hs'. by rewrite view_typed0, view_column0 in Hs'.
Qed.

Lemma wp_read_key k ks v (Q : Z -> shell_state D T -> Prop) s :
  is_view s v -> typed v = k :: ks -> accepts v = true ->
  (forall s' col, is_view s' (with_keys ks true col v) -> Q k s') -> wp (on_term read_key) Q s.
Proof.
  intros Hv Hks Hon HQ. pose proof Hv as []. eapply wp_on_term; [exact Hv|].
  destruct (read_key_ok (term s) k ks) as (t' & Hp & Ht & Hon' & Hk); [done|congruence|].
  assert (Ht' : typing_on t' = true) by congruence. rewrite Ht' in Hk.
  eapply wp_intro; [exact Hp|]. split; [done|]. intros s' Hs'.
  rewrite Hk, Ht' in Hs'. by eapply HQ.
Qed.

Lemma wp_cursor_column v (Q : Z -> shell_state D T -> Prop) s :
  is_view s v -> (forall s', is_view s' v -> Q (at_column v) s') -> wp (on_term cursor_column) Q s.
Proof.
  intros Hv HQ. pose proof Hv as []. eapply wp_on_term; [exact Hv|].
  eapply wp_intro; [by apply cursor_column_ok|]. split; [done|]. intros s' Hs'. rewrite view_column0.
  apply HQ. eapply is_view_keys; [exact Hs'|done..].
Qed.

(** ** Files *)

(** A file system call, from a rule for the operation on the driver. *)
Lemma wp_file_call (op : request -> M (fs D) Z) data req v (Q : Z * mem -> shell_state D T -> Prop) s :
  is_view s v ->
  wp (op (request_of (load req 0 23))) (fun code f => exists V g,
      disk_is (disk f) V /\ (forall c, 0 <= c < CLUSTER_MAP_SIZE -> cluster_map (memory f) c = g c) /\
      forall s', is_view s' (with_disk V g v) -> Q (code, user f) s')
    (Fs (driver (krn s)) (device (krn s)) data) ->
  wp (file_call op data req) Q s.
Proof.
  intros [] HQ. unfold wp, file_call, mbind, res_mbind in *.
  destruct (op _ _) as [[code f]| |]; [|done..]. cbn [res_bind].
  destruct HQ as (V & g & HV & Hg & HQ). apply HQ. by split.
Qed.

Lemma with_disk_same v : with_disk (disk_view v) (cached v) v = v.
Proof. by destruct v. Qed.

(** Call 1, of an entry that exists: its cluster is in the buffer. *)
Lemma wp_sys_read_directory r i buffer req v (Q : Z * mem -> shell_state D T -> Prop) s :
  is_view s v -> request_of (load req 0 23) = r -> request_ok r -> buf r = 0 ->
  let p := parent_cluster_number r in
  0 <= p < CLUSTER_MAP_SIZE -> directory_index (dir (disk_view v) p) (req_name r) = Some i ->
  let c := entry_cluster (dir (disk_view v) p i) in
  0 <= c < CLUSTER_MAP_SIZE ->
  (forall s', is_view s' v -> Q (0, store buffer 0 (disk_view v c)) s') ->
  wp (sys_read_directory buffer req) Q s.
Proof.
  intros Hv Hreq Hr Hb p Hp Hi c Hc HQ. pose proof Hv as []. apply wp_bind. eapply wp_file_call; [exact Hv|].
  rewrite Hreq. eapply wp_mono.
  { apply (wp_read_directory r (disk_view v)); [done..|]. fold p. by rewrite Hi. }
  cbn [user memory disk]. fold p. rewrite Hi. intros a f (-> & Hu & Hd & Hm).
  exists (disk_view v), (cached v). split; [done|]. split; [intros x Hx; rewrite Hm by done; by apply view_cached0|].
  rewrite with_disk_same. intros s' Hs'. cbn [fst snd]. rewrite Hu, Hb. fold c.
  rewrite within_store by (rewrite (disk_is_length _ _ _ view_disk0 Hc); fat_lia).
  apply wp_ret. rewrite store_empty_union. by apply HQ.
Qed.

(** Call 1, of a name that is not there. *)
Lemma wp_sys_read_directory_none r buffer req v (Q : Z * mem -> shell_state D T -> Prop) s :
  is_view s v -> request_of (load req 0 23) = r -> request_ok r ->
  let p := parent_cluster_number r in
  0 <= p < CLUSTER_MAP_SIZE -> directory_index (dir (disk_view v) p) (req_name r) = None ->
  (forall s', is_view s' v -> Q (2, buffer) s') ->
  wp (sys_read_directory buffer req) Q s.
Proof.
  intros Hv Hreq Hr p Hp Hi HQ. pose proof Hv as []. apply wp_bind. eapply wp_file_call; [exact Hv|].
  rewrite Hreq. eapply wp_mono.
  { apply (wp_read_directory r (disk_view v)); [done..|]. fold p. by rewrite Hi. }
  cbn [user memory disk]. fold p. rewrite Hi. intros a f (-> & Hu & Hd & Hm).
  exists (disk_view v), (cached v). split; [done|]. split; [intros x Hx; rewrite Hm by done; by apply view_cached0|].
  rewrite with_disk_same. intros s' Hs'. cbn [fst snd]. rewrite Hu, within_empty.
  apply wp_ret. rewrite (left_id_L ∅ (∪)). by apply HQ.
Qed.

(** The directory at [c] by its name ".": its own entry 0 is followed. *)
Lemma wp_read_self {A} c size buffer v (k : Z * mem -> M (shell_state D T) A) (Q : A -> shell_state D T -> Prop) s :
  is_view s v -> 0 <= c < CLUSTER_MAP_SIZE -> 0 <= size < 4294967296 ->
  let self := entry_cluster (dir (disk_view v) c 0) in
  0 <= self < CLUSTER_MAP_SIZE ->
  (forall s', is_view s' v -> wp (k (0, store buffer 0 (disk_view v self))) Q s') ->
  wp (req ← self_request junk c size; r ← sys_read_directory buffer req; k r) Q s.
Proof.
  intros Hv Hc Hsize self Hself HQ. apply wp_bind.
  eapply wp_request; [exact Hv|split; [done|]; split; [done|]; cbn; fat_lia|done|]. intros req s1 Hs1 Hreq.
  apply wp_bind.
  apply (wp_sys_read_directory _ 0 _ _ v _ _ Hs1 Hreq); [split; [done|]; split; [done|]; cbn; fat_lia|done..].
Qed.

(** The same for code behind it that may have no result. *)
Lemma read_self_in {A} (P : res (A * shell_state D T) -> Prop) c size buffer v (k : Z * mem -> M (shell_state D T) A) s :
  is_view s v -> 0 <= c < CLUSTER_MAP_SIZE -> 0 <= size < 4294967296 ->
  let self := entry_cluster (dir (disk_view v) c 0) in
  0 <= self < CLUSTER_MAP_SIZE ->
  (forall s', is_view s' v -> P (k (0, store buffer 0 (disk_view v self)) s')) ->
  P ((req ← self_request junk c size; r ← sys_read_directory buffer req; k r) s).
Proof.
  intros Hv Hc Hsize self Hself HP. apply wp_bind_in.
  eapply wp_request; [exact Hv|split; [done|]; split; [done|]; cbn; fat_lia|done|]. intros req s1 Hs1 Hreq.
  apply wp_bind_in.
  apply (wp_sys_read_directory _ 0 _ _ v _ _ Hs1 Hreq); [split; [done|]; split; [done|]; cbn; fat_lia|done..].
Qed.

End Rules.
