(* ===== verification/ShellPath.v ===== *)
(** Theorems about the paths of the shell: [print_dir_tree] and the string
    functions it is made of. *)
From Stdlib Require Import ZArith Lia.
From Stdlib Require Strings.String.
From stdpp Require Import base numbers option strings zmap functions list.
From S2P Require Import Prelude CString Disk FatTypes Fat32 FatView FatRead FatWrite FatCreate Process Interrupt Terminal Shell ShellRules.

(** ** Strings in fields *)

(** The characters of a field up to the first NUL. *)
Fixpoint cname (bs : list byte) : list byte :=
  match bs with
  | [] => []
  | b :: bs' => if decide (b = z2b 0) then [] else b :: cname bs'
  end.

Lemma cname_nonzero bs : z2b 0 ∉ cname bs.
Proof.
  induction bs as [|b bs IH]; cbn [cname]; [apply not_elem_of_nil|].
  case_decide; [apply not_elem_of_nil|]. by apply not_elem_of_cons.
Qed.

Lemma cname_length bs : (length (cname bs) <= length bs)%nat.
Proof. induction bs as [|b bs IH]; cbn [cname]; [done|]. case_decide; cbn [length]; lia. Qed.

(** The string in a window of memory. *)
Lemma is_cstr_load m a n s r : load m a n = s ++ z2b 0 :: r -> z2b 0 ∉ s -> is_cstr m a s.
Proof.
  intros Hl Hs. assert (Hn : (length s < n)%nat).
  { pose proof (f_equal length Hl) as Hlen. rewrite length_load, length_app in Hlen. cbn [length] in Hlen. lia. }
  replace n with (length s + (n - length s))%nat in Hl by lia. rewrite load_app in Hl.
  apply app_inj_1 in Hl as [Hl1 Hl2]; [|by rewrite length_load].
  split; [done|]. split; [|done]. destruct (n - length s)%nat eqn:E; [lia|]. by injection Hl2.
Qed.

(** [strncpy] takes the characters of the field, whether it has a NUL or not. *)
Lemma strncpy_loop_field md dest ms src i n :
  let f := cname (load ms (src + i) n) in
  strncpy_loop md dest ms src i n = store md (dest + i) (f ++ zeros (n - length f)).
Proof.
  revert md i. induction n as [|n IH]; intros md i; cbn [strncpy_loop load cname]; [done|].
  destruct (Z.eqb_spec (char_at ms (src + i)) 0) as [E|E]; rewrite char_at_zero in E.
  - rewrite decide_True by done. rewrite strncpy_pad_store. done.
  - rewrite decide_False by done. cbn zeta in IH. rewrite IH. cbn [app store length Nat.sub].
    rewrite !Z.add_assoc. done.
Qed.

(** The terminated copy of an 8-byte name that [print_dir_tree] makes. *)
Lemma name_copy_cstr md ms src :
  is_cstr (<[8 := z2b 0]> (strncpy md 0 ms src 8)) 0 (cname (load ms src 8)).
Proof.
  unfold strncpy. rewrite strncpy_loop_field, !Z.add_0_r. set (f := cname _).
  pose proof (cname_length (load ms src 8)) as Hlen. rewrite length_load in Hlen. fold f in Hlen.
  assert (Hz : length (f ++ zeros (8 - length f)) = 8%nat).
  { unfold zeros. rewrite length_app, length_replicate. lia. }
  split; [|split; [|apply cname_nonzero]].
  - transitivity (load (store md 0 (f ++ zeros (8 - length f))) 0 (length f)).
    + apply load_ext. intros k Hk. rewrite mget_insert, decide_False by lia. done.
    + rewrite load_store_within by lia. change (Z.to_nat (0 - 0)) with 0%nat. rewrite drop_0. by rewrite take_app_length.
  - rewrite mget_insert. case_decide as E; [done|]. apply mget_store_in; [lia|].
    rewrite lookup_app_r by lia. apply lookup_replicate_2. lia.
Qed.

Lemma strlen_loop_spec fuel m a i s :
  is_cstr m (a + i) s -> (length s < fuel)%nat -> strlen_loop fuel m a i = Ret (i + Z.of_nat (length s)).
Proof.
  revert fuel i. induction s as [|b s IH]; intros fuel i Hs Hf; (destruct fuel as [|fuel]; [lia|]);
    cbn [strlen_loop length] in *.
  - apply is_cstr_nil, char_at_zero in Hs. rewrite Hs. cbn. by rewrite Z.add_0_r.
  - apply is_cstr_cons in Hs as (Hb & Hnz & Hs).
    rewrite (proj2 (Z.eqb_neq _ _)) by (rewrite char_at_zero; congruence).
    rewrite IH; [f_equal; lia|by rewrite Z.add_assoc|lia].
Qed.

Lemma strlen_spec m a s : is_cstr m a s -> (length s < string_fuel)%nat -> strlen m a = Ret (Z.of_nat (length s)).
Proof.
  intros Hs Hf. unfold strlen. rewrite (strlen_loop_spec _ _ _ _ s); [done|by rewrite Z.add_0_r|done].
Qed.

(** ** Reversing *)

Lemma mget_reverse_loop n m s e k :
  (Z.to_nat (e - s + 1) <= n)%nat ->
  mget (reverse_loop n m s e) k = if decide (s <= k <= e) then mget m (s + e - k) else mget m k.
Proof.
  revert m s e. induction n as [|n IH]; intros m s e Hn; cbn [reverse_loop].
  - by rewrite decide_False by lia.
  - destruct (Z.ltb_spec s e) as [Hlt|Hge].
    + rewrite IH by lia. rewrite !mget_insert. repeat case_decide; try lia; try done; f_equal; lia.
    + case_decide; [f_equal; lia|done].
Qed.

Lemma mget_reverse_range m s e k :
  mget (reverse_range m s e) k = if decide (s <= k <= e) then mget m (s + e - k) else mget m k.
Proof. by apply mget_reverse_loop. Qed.

(** A range that is reversed reads backwards. *)
Lemma load_reverse_range m s n :
  load (reverse_range m s (s + Z.of_nat n - 1)) s n = reverse (load m s n).
Proof.
  apply list_eq_same_length with (n := n); rewrite ?length_reverse, ?length_load; try done.
  intros i x y Hi. rewrite lookup_load by done. intros [= <-].
  rewrite reverse_lookup by (rewrite length_load; lia). rewrite length_load, lookup_load by lia.
  intros [= <-]. rewrite mget_reverse_range, decide_True by lia. f_equal. lia.
Qed.

(** ** Names in order *)

(** Segments with a backslash between them. *)
Fixpoint join (segs : list (list byte)) : list byte :=
  match segs with
  | [] => []
  | [x] => x
  | x :: segs' => x ++ z2b 92 :: join segs'
  end.

Lemma join_cons x y l : join (x :: y :: l) = x ++ z2b 92 :: join (y :: l).
Proof. done. Qed.

(** A string of characters other than NUL and backslash. *)
Definition plain (s : list byte) : Prop := (z2b 0 ∉ s) /\ (z2b 92 ∉ s).

Lemma plain_reverse s : plain s -> plain (reverse s).
Proof. intros [H1 H2]. split; by rewrite elem_of_reverse. Qed.

Lemma char_92 m a : char_at m a = 92 <-> mget m a = z2b 92.
Proof.
  unfold char_at. split; [|by intros ->].
  intros H. apply b2z_inj. eapply i8_inj; [apply b2z_range..|]. by rewrite H.
Qed.

(** What [strchr] finds in a string that starts with a plain segment. *)
Lemma strchr_segment m a x rest :
  plain x -> is_cstr m a (x ++ rest) -> (length (x ++ rest) < string_fuel)%nat ->
  (rest = [] \/ exists l, rest = z2b 92 :: l) ->
  exists r, strchr string_fuel m a 92 = Ret r /\
    default (a + Z.of_nat (length (x ++ rest))) r = a + Z.of_nat (length x).
Proof.
  intros [Hx0 Hx] Hs Hf Hrest.
  destruct (strchr_spec string_fuel m a (x ++ rest) 92 Hs Hf ltac:(lia)) as (r & Hr & Hspec).
  exists r. split; [done|]. destruct r as [p|]; cbn [default].
  - destruct Hspec as (i & -> & Hi & Hc & Hbefore). enough (i = length x) by (unfold id; lia).
    destruct (lt_eq_lt_dec i (length x)) as [[Hlt|]|Hgt]; [|done|]; exfalso.
    + destruct (lookup_lt_is_Some_2 x i Hlt) as [b Hb]. apply Hx.
      destruct (is_cstr_char m a (x ++ rest) i b Hs) as [Hg _]; [by apply lookup_app_l_Some|].
      apply char_92 in Hc. rewrite Hg in Hc. subst b. by apply list_elem_of_lookup_2 with i.
    + destruct Hrest as [->|[l ->]]; [rewrite app_nil_r in Hi; lia|].
      apply (Hbefore (length x)); [lia|]. apply char_92.
      destruct (is_cstr_char m a (x ++ z2b 92 :: l) (length x) (z2b 92) Hs) as [Hg _];
        [by apply list_lookup_middle|done].
  - destruct Hrest as [->|[l ->]]; [by rewrite app_nil_r|]. exfalso.
    apply (Hspec (length x)); [rewrite length_app; cbn [length]; lia|]. apply char_92.
    destruct (is_cstr_char m a (x ++ z2b 92 :: l) (length x) (z2b 92) Hs) as [Hg _]; [|done].
    by apply list_lookup_middle.
Qed.

(** A suffix of a string is a string. *)
Lemma is_cstr_drop m a x l : is_cstr m a (x ++ l) -> is_cstr m (a + Z.of_nat (length x)) l.
Proof.
  revert a. induction x as [|b x IH]; intros a Hs; cbn [app length] in *; [by rewrite Z.add_0_r|].
  apply is_cstr_cons in Hs as (_ & _ & Hs). apply IH in Hs.
  by replace (a + Z.of_nat (S (length x))) with (a + 1 + Z.of_nat (length x)) by lia.
Qed.

Lemma is_cstr_prefix_load m a x l : is_cstr m a (x ++ l) -> load m a (length x) = x.
Proof.
  intros (Hl & _). rewrite length_app, load_app in Hl. apply app_inj_1 in Hl as [Hl _]; [done|]. by rewrite length_load.
Qed.

(** The loop puts the characters of every segment in order, and leaves what is
    before it. *)
Lemma reverse_names_spec segs : forall fuel m a,
  Forall plain segs -> is_cstr m a (join segs) -> (length segs < fuel)%nat ->
  (length (join segs) < string_fuel)%nat -> a + Z.of_nat (length (join segs)) <= 128 ->
  exists m', reverse_names fuel m a (a + Z.of_nat (length (join segs))) = Ret m' /\
    load m' a (length (join segs)) = join (reverse <$> segs) /\
    (forall k, k < a -> mget m' k = mget m k).
Proof.
  induction segs as [|x segs IH]; intros fuel m a Hp Hs Hf Hlen Hb; (destruct fuel as [|fuel]; [cbn [length] in Hf; lia|]).
  - cbn [join length] in *. cbn [reverse_names]. rewrite (proj2 (Z.ltb_ge _ _)) by lia. by exists m.
  - apply Forall_cons in Hp as [Hx Hp].
    set (rest := match segs with [] => [] | _ => z2b 92 :: join segs end).
    assert (Hj : join (x :: segs) = x ++ rest) by (destruct segs; [by rewrite app_nil_r|done]).
    rewrite Hj in *. cbn [reverse_names]. destruct (Z.ltb_spec a (a + Z.of_nat (length (x ++ rest)))) as [Hlt|Hge].
    2: { destruct x as [|b x]; [|cbn [app length] in Hge; lia]. destruct segs as [|y l]; [by exists m|].
         unfold rest in Hge. cbn [app length] in Hge. lia. }
    destruct (strchr_segment m a x rest Hx Hs Hlen) as (r & Hr & Hd).
    { destruct segs; [by left|right; eauto]. }
    unfold mbind, res_mbind. rewrite Hr. cbn [res_bind]. rewrite Hd.
    rewrite (proj2 (Z.ltb_ge 128 _)) by (rewrite length_app in Hb; lia).
    set (m1 := reverse_range m a _).
    assert (Hm1 : load m1 a (length x) = reverse x).
    { unfold m1. rewrite load_reverse_range. by rewrite (is_cstr_prefix_load _ _ _ _ Hs). }
    assert (Hout : forall k, k < a \/ a + Z.of_nat (length x) <= k -> mget m1 k = mget m k).
    { intros k Hk. unfold m1. rewrite mget_reverse_range. by rewrite decide_False by lia. }
    destruct segs as [|y l].
    + unfold rest in *. rewrite app_nil_r in *. cbn [fmap list_fmap join]. destruct fuel as [|fuel]; [cbn [length] in Hf; lia|].
      cbn [reverse_names]. rewrite (proj2 (Z.ltb_ge _ _)) by lia. exists m1. split; [done|]. split; [done|].
      intros k Hk. apply Hout. by left.
    + apply is_cstr_drop in Hs. unfold rest in *. apply is_cstr_cons in Hs as (H92 & _ & Hs).
      rewrite length_app in *. cbn [length] in *.
      destruct (IH fuel m1 (a + Z.of_nat (length x) + 1)) as (m2 & Hm2 & Hl2 & Hb2); [done| |lia|lia|lia|].
      { eapply is_cstr_ext; [|exact Hs]. intros i Hi. symmetry. apply Hout. lia. }
      exists m2. split; [rewrite <- Hm2; f_equal; lia|]. split.
      * rewrite load_app. cbn [load]. rewrite Hl2.
        change (reverse <$> x :: y :: l) with (reverse x :: (reverse <$> y :: l)).
        change (join (reverse x :: (reverse <$> y :: l))) with (reverse x ++ z2b 92 :: join (reverse <$> y :: l)).
        f_equal; [|f_equal; by rewrite Hb2, Hout by lia].
        rewrite <- Hm1. apply load_ext. intros i Hi. apply Hb2. lia.
      * intros k Hk. rewrite Hb2 by lia. apply Hout. by left.
Qed.

(** ** Where a directory is *)

(** The name of the directory in cluster [c], from its own entry. *)
Definition directory_name (V : clusters) (c : Z) : list byte := cname (name (dir V c 0)).

(** The names from the directory in cluster [c] upwards, those of the
    directories below the root; every table starts with its own entry and the
    one of its parent. *)
Inductive located (V : clusters) : Z -> list (list byte) -> Prop :=
| located_root :
    entry_cluster (dir V 2 0) = 2 -> entry_cluster (dir V 2 1) = 2 -> located V 2 []
| located_top c :
    0 <= c < CLUSTER_MAP_SIZE -> c <> 2 -> entry_cluster (dir V c 0) = c -> entry_cluster (dir V c 1) = 2 ->
    located V c [directory_name V c]
| located_below c p l :
    0 <= c < CLUSTER_MAP_SIZE -> c <> 2 -> c <> p -> entry_cluster (dir V c 0) = c -> entry_cluster (dir V c 1) = p ->
    l <> [] -> located V p l -> located V c (directory_name V c :: l).

(** The path that is displayed: the names from the root down, each after a
    backslash; for the root itself its name. *)
Definition path_text (V : clusters) (l : list (list byte)) : list byte :=
  match l with
  | [] => directory_name V 2
  | _ => concat ((fun n => z2b 92 :: n) <$> reverse l)
  end.

(** The text before the two rounds of reversing. *)
Definition upward (V : clusters) (l : list (list byte)) : list byte :=
  match l with
  | [] => directory_name V 2
  | _ => concat ((fun n => n ++ [z2b 92]) <$> l)
  end.

Lemma located_range V c l : located V c l -> 0 <= c < CLUSTER_MAP_SIZE /\ entry_cluster (dir V c 0) = c.
Proof. destruct 1; [split; [fat_lia|done]|done..]. Qed.

Lemma located_not_root V c l : located V c l -> l <> [] -> c <> 2.
Proof. by destruct 1. Qed.

(** A directory has one path. *)
Lemma located_unique V c l : located V c l -> forall l', located V c l' -> l = l'.
Proof.
  induction 1 as [|c Hc H2 Hs Hp|c p l Hc H2 Hcp Hs Hp Hne Hl IH]; intros l'; inversion 1 as [|? ? ? ? ?|? p' l0 ? ? ? ? ? Hne' Hl']; subst; try done.
  - apply located_not_root in Hl'; [|done]. congruence.
  - apply located_not_root in Hl; [|done]. congruence.
  - f_equal. apply IH. congruence.
Qed.

(** The two halves of the cluster number determine it. *)
Lemma entry_cluster_value e :
  dirent_ok e -> entry_cluster e = 65536 * cluster_high e + cluster_low e.
Proof.
  intros (_ & _ & _ & _ & (Hh & _ & _ & Hl) & _). unfold entry_cluster.
  assert (Hand : Z.land (Z.shiftl (cluster_high e) 16) (cluster_low e) = 0).
  { apply Z.bits_inj'. intros i Hi. rewrite Z.land_spec, Z.bits_0, Z.shiftl_spec by done.
    destruct (decide (i < 16)) as [Hlt|Hge].
    - by rewrite (Z.testbit_neg_r (cluster_high e)) by lia.
    - rewrite <- (Z.mod_small (cluster_low e) (2 ^ 16)) by (cbn; lia).
      rewrite Z.mod_pow2_bits_high by lia. apply andb_false_r. }
  rewrite <- Z.lxor_lor, <- Z.add_nocarry_lxor by done. rewrite Z.shiftl_mul_pow2 by lia.
  rewrite u32_small by (cbn; lia). cbn. lia.
Qed.

Lemma same_cluster e0 e1 :
  dirent_ok e0 -> dirent_ok e1 ->
  (cluster_low e0 =? cluster_low e1) && (cluster_high e0 =? cluster_high e1) = (entry_cluster e0 =? entry_cluster e1).
Proof.
  intros H0 H1. rewrite !entry_cluster_value by done.
  destruct H0 as (_ & _ & _ & _ & (Hh0 & _ & _ & Hl0) & _), H1 as (_ & _ & _ & _ & (Hh1 & _ & _ & Hl1) & _).
  destruct (Z.eqb_spec (cluster_low e0) (cluster_low e1)), (Z.eqb_spec (cluster_high e0) (cluster_high e1)); cbn [andb];
    symmetry; first [apply Z.eqb_eq; lia | apply Z.eqb_neq; lia].
Qed.

(** The text before the reversing, cut into segments at the backslashes. *)
Definition segments (V : clusters) (l : list (list byte)) : list (list byte) :=
  match l with
  | [] => [reverse (directory_name V 2)]
  | _ => [] :: (reverse <$> reverse l)
  end.

Lemma join_nil_cons xs : join ([] :: xs) = concat ((fun n => z2b 92 :: n) <$> xs).
Proof.
  induction xs as [|x xs IH]; [done|]. rewrite join_cons. cbn [app fmap list_fmap concat]. f_equal.
  fold (fmap (M := list) (fun n => z2b 92 :: n) xs). rewrite <- IH. destruct xs as [|y xs]; cbn [join app]; [by rewrite app_nil_r|done].
Qed.

Lemma reverse_upward V l : reverse (upward V l) = join (segments V l).
Proof.
  destruct l as [|x l]; [done|]. unfold upward, segments. rewrite join_nil_cons. generalize (x :: l). clear x l.
  intros l. induction l as [|x l IH]; [done|]. cbn [fmap list_fmap concat]. rewrite reverse_app, IH, reverse_cons.
  rewrite !fmap_app, concat_app. f_equal. cbn. by rewrite reverse_app, app_nil_r.
Qed.

Lemma join_reverse_segments V l : join (reverse <$> segments V l) = path_text V l.
Proof.
  destruct l as [|x l]; [apply reverse_involutive|].
  unfold segments, path_text. cbn [fmap list_fmap]. change (reverse (A := byte) []) with (@nil byte).
  fold (fmap (M := list) (reverse (A := byte)) (reverse <$> reverse (x :: l))).
  rewrite <- list_fmap_compose. rewrite (list_fmap_ext _ id), list_fmap_id; [apply join_nil_cons|]. intros i n _. apply reverse_involutive.
Qed.

(** No segment brings in a NUL. *)
Lemma join_nonzero segs : Forall plain segs -> z2b 0 ∉ join segs.
Proof.
  intros Hs. induction Hs as [|x segs [Hx _] Hs IH]; [apply not_elem_of_nil|].
  destruct segs as [|y segs]; [done|]. rewrite join_cons. apply not_elem_of_app. split; [done|].
  by apply not_elem_of_cons.
Qed.

Lemma length_upward V l : (length l <= length (upward V l))%nat.
Proof.
  destruct l as [|x l]; [cbn [length]; lia|]. unfold upward. generalize (x :: l). clear x l. intros l.
  induction l as [|x l IH]; [done|]. cbn [fmap list_fmap concat length]. rewrite !length_app. cbn [length] in *.
  fold (fmap (M := list) (fun n => n ++ [z2b 92]) l). lia.
Qed.

Lemma length_path V l : length (path_text V l) = length (upward V l).
Proof.
  rewrite <- join_reverse_segments, <- (length_reverse (upward V l)), reverse_upward.
  induction (segments V l) as [|x segs IH]; [done|]. destruct segs as [|y segs]; [apply length_reverse|].
  change (reverse <$> x :: y :: segs) with (reverse x :: (reverse <$> y :: segs)).
  rewrite join_cons, length_app. cbn [length]. rewrite <- IH.
  change (reverse <$> y :: segs) with (reverse y :: (reverse <$> segs)) in *.
  rewrite join_cons, length_app, length_reverse. done.
Qed.

(** ** The displayed path *)

Section Path.
Context {D T : Type} `{DiskSpec D, TerminalSpec T} (junk : nat -> mem).
Implicit Types (s : shell_state D T) (v : view).

(** One round of the loop: the name of the directory is added to the text. *)
Lemma wp_dir_tree_step fuel c temp prog buff v s (Q : option (mem * Z) -> shell_state D T -> Prop) :
  is_view s v -> 0 <= c < CLUSTER_MAP_SIZE -> entry_cluster (dir (disk_view v) c 0) = c -> 0 <= prog ->
  let parent := entry_cluster (dir (disk_view v) c 1) in
  let nm := directory_name (disk_view v) c ++ (if c =? parent then [] else [z2b 92]) in
  prog + Z.of_nat (length nm) <= 128 ->
  (forall s' buff', is_view s' v ->
     wp (if parent =? ROOT_CLUSTER_NUMBER then mret (Some (store temp prog nm, prog + Z.of_nat (length nm)))
         else dir_tree_loop junk fuel parent (store temp prog nm) (prog + Z.of_nat (length nm)) buff') Q s') ->
  wp (dir_tree_loop junk (S fuel) c temp prog buff) Q s.
Proof.
  intros Hv Hc Hself Hprog parent nm Hlen HQ. cbn [dir_tree_loop].
  eapply wp_read_self; [exact Hv|done|fat_lia|by rewrite Hself|]. rewrite Hself. intros s1 Hv1. cbn [fst snd].
  change (negb (u8 0 =? 0)) with false. cbv iota. set (b1 := store buff 0 _).
  assert (Hdir : forall i, 0 <= i < 64 -> table_entry b1 0 i = dir (disk_view v) c i).
  { intros i Hi. apply (window_table_entry _ _ (obj (disk_view v c)) 0); [|done].
    apply window_store_obj. rewrite (disk_is_length _ _ _ (view_disk _ _ Hv) Hc). done. }
  rewrite !Hdir by lia. rewrite same_cluster by apply entry_at_ok. rewrite Hself. fold parent.
  apply wp_bind. eapply wp_uninit; [exact Hv1|]. intros j s2 Hv2. cbv zeta.
  pose proof (name_copy_cstr j b1 (name_addr 0)) as Hname. change (load b1 (name_addr 0) 8) with (name (table_entry b1 0 0)) in Hname.
  rewrite Hdir in Hname by lia. fold (directory_name (disk_view v) c) in Hname.
  set (copy := <[8 := z2b 0]> _) in *. set (n := directory_name _ _) in *.
  assert (Hn8 : (length n <= 8)%nat).
  { unfold n, directory_name. etransitivity; [apply cname_length|]. unfold dir, table_entry, entry_at. cbn [name]. by rewrite length_load. }
  apply wp_bind. eapply wp_lift_ret; [apply strlen_spec with (s := n); [exact Hname|unfold string_fuel; lia]|].
  rewrite Nat2Z.id. destruct Hname as (Hload & _). rewrite Hload.
  unfold nm in Hlen, HQ. rewrite length_app in Hlen, HQ.
  apply wp_bind, wp_put; [done|lia|]. apply wp_bind.
  destruct (Z.eqb_spec c parent) as [E|E]; cbn [negb app length] in *.
  - apply wp_ret. cbn [fst snd]. rewrite app_nil_r, Nat.add_0_r in HQ.
    specialize (HQ s2 b1 Hv2). by destruct (parent =? ROOT_CLUSTER_NUMBER).
  - apply wp_bind, wp_put; [lia|cbn [length]; lia|]. apply wp_ret. cbn [fst snd].
    rewrite <- store_app. replace (prog + Z.of_nat (length n) + 1) with (prog + Z.of_nat (length n + 1)) by lia.
    specialize (HQ s2 b1 Hv2). by destruct (parent =? ROOT_CLUSTER_NUMBER).
Qed.

Lemma wp_dir_tree_loop V c l : located V c l -> forall fuel temp prog buff v s (Q : option (mem * Z) -> shell_state D T -> Prop),
  disk_view v = V -> is_view s v -> 0 <= prog -> (length l < fuel)%nat ->
  prog + Z.of_nat (length (upward V l)) <= 128 ->
  (forall s', is_view s' v -> Q (Some (store temp prog (upward V l), prog + Z.of_nat (length (upward V l)))) s') ->
  wp (dir_tree_loop junk fuel c temp prog buff) Q s.
Proof.
  intros Hloc. induction Hloc as [Hs0 Hs1|c Hc Hc2 Hs0 Hs1|c p l Hc Hc2 Hcp Hs0 Hs1 Hl Hloc IH];
    intros fuel temp prog buff v s Q HV Hv Hprog Hf Hlen HQ; subst V; (destruct fuel as [|fuel]; [cbn [length] in Hf; lia|]);
    cbn [upward fmap list_fmap concat] in *.
  - eapply wp_dir_tree_step; [exact Hv|fat_lia|done|done|..]; rewrite Hs1, Z.eqb_refl, app_nil_r; [done|].
    intros s' _ Hs'. apply wp_ret. by apply HQ.
  - rewrite app_nil_r in *. eapply wp_dir_tree_step; [exact Hv|done|done|done|..]; rewrite Hs1, (proj2 (Z.eqb_neq c 2)) by done;
      [done|]. intros s' buff' Hs'. rewrite Z.eqb_refl. apply wp_ret. by apply HQ.
  - rewrite length_app in Hlen.
    assert (Hup : upward (disk_view v) l = concat ((fun n => n ++ [z2b 92]) <$> l)) by by destruct l.
    eapply wp_dir_tree_step; [exact Hv|done|done|done|..]; rewrite Hs1, (proj2 (Z.eqb_neq c p)) by done; [lia|].
    intros s' buff' Hs'. rewrite (proj2 (Z.eqb_neq p ROOT_CLUSTER_NUMBER)).
    2: { by apply (located_not_root _ _ _ Hloc). }
    eapply (IH _ _ _ _ v); [done|exact Hs'|lia|cbn [length] in Hf; lia|rewrite Hup; lia|].
    intros s2 Hs2. specialize (HQ s2 Hs2). rewrite <- store_app, Hup. rewrite length_app in HQ.
    by rewrite <- Z.add_assoc, <- Nat2Z.inj_add.
Qed.

(** The path is displayed when every name is plain and it fits. *)
Definition displayable (V : clusters) (c : Z) (l : list (list byte)) : Prop :=
  located V c l /\ plain (directory_name V 2) /\ Forall plain l /\ (length (path_text V l) <= 127)%nat.

Lemma displayable_segments V c l : displayable V c l -> Forall plain (segments V l).
Proof.
  intros (_ & Hroot & Hl & _). destruct l as [|x l]; cbn [segments].
  - apply Forall_singleton. by apply plain_reverse.
  - apply Forall_cons. split; [split; apply not_elem_of_nil|]. apply Forall_fmap, Forall_reverse.
    eapply Forall_impl; [exact Hl|]. intros n Hn. by apply plain_reverse.
Qed.

Lemma wp_print_dir_tree fuel c size text v l s (Q : mem -> shell_state D T -> Prop) :
  is_view s v -> displayable (disk_view v) c l -> (length l < fuel)%nat -> 128 <= size ->
  (forall s' text', is_view s' v -> is_cstr text' 0 (path_text (disk_view v) l) -> Q text' s') ->
  wp (print_dir_tree junk fuel c size text) Q s.
Proof.
  intros Hv Hd Hf Hsize HQ. pose proof (displayable_segments _ _ _ Hd) as Hsegs. destruct Hd as (Hloc & _ & _ & Hlen).
  set (V := disk_view v) in *. set (p := path_text V l) in *.
  assert (Hup : length (upward V l) = length p) by (symmetry; apply length_path).
  apply wp_bind. eapply wp_local; [exact Hv|]. intros temp s1 Hv1.
  apply wp_bind. eapply wp_uninit; [exact Hv1|]. intros buff s2 Hv2. apply wp_bind.
  eapply (wp_dir_tree_loop V c l Hloc); [done|exact Hv2|lia|done|lia|]. intros s3 Hv3. rewrite Hup, Z.add_0_l.
  set (m1 := store _ 0 (upward V l)).
  assert (Hm1 : load m1 0 (length p) = upward V l) by by apply load_store_eq.
  assert (Hz : mget m1 (Z.of_nat (length p)) = z2b 0).
  { unfold m1. rewrite mget_store_out by lia. apply mget_store_in; [lia|]. apply lookup_replicate_2. lia. }
  pose proof (load_reverse_range m1 0 (length p)) as Hrev. rewrite Hm1, reverse_upward in Hrev.
  rewrite Z.add_0_l in Hrev. set (m2 := reverse_range m1 0 _) in *.
  assert (Hplen : length (join (segments V l)) = length p) by by rewrite <- reverse_upward, length_reverse.
  assert (Hcstr : is_cstr m2 0 (join (segments V l))).
  { split; [by rewrite Hplen|]. split.
    - rewrite Hplen. unfold m2. rewrite mget_reverse_range, decide_False by lia. by rewrite Z.add_0_l.
    - by apply join_nonzero. }
  destruct (reverse_names_spec _ string_fuel m2 0 Hsegs Hcstr) as (m3 & Hm3 & Hl3 & _); rewrite ?Hplen; [|unfold string_fuel; lia|lia|].
  { pose proof (length_upward V l). destruct l; cbn [segments length] in *; rewrite ?length_fmap, ?length_reverse; cbn [length]; unfold string_fuel; lia. }
  rewrite Hplen, Z.add_0_l in Hm3. apply wp_bind. eapply wp_lift_ret; [exact Hm3|]. rewrite Nat2Z.id.
  rewrite Hplen, join_reverse_segments in Hl3. fold p in Hl3. rewrite Hl3.
  apply wp_bind, wp_put; [done|lia|]. apply wp_put; [lia|cbn [length]; lia|]. apply HQ; [done|].
  rewrite <- (Z.add_0_l (Z.of_nat (length p))), <- store_app. split; [|split].
  - rewrite load_store_within by (rewrite ?length_app; lia). change (Z.to_nat (0 - 0)) with 0%nat. rewrite drop_0. apply take_app_length.
  - apply mget_store_in; [lia|]. rewrite lookup_app_r by lia.
    by replace (Z.to_nat (0 + Z.of_nat (length p) - 0) - length p)%nat with 0%nat by lia.
  - unfold p. rewrite <- join_reverse_segments. apply join_nonzero, Forall_fmap.
    eapply Forall_impl; [exact Hsegs|]. intros n. apply plain_reverse.
Qed.

(** C27: the displayed path: for a directory that leads up to the root over tables
    with their own and their parent's entry, [print_dir_tree] returns, and the
    text is the path from the root down, each name after a backslash (for the
    root itself its name); the four rounds of reversing in place are the
    reference [path_text]; nothing but the local buffers changes. *)
Theorem print_dir_tree_correct fuel c size text v l s :
  is_view s v -> displayable (disk_view v) c l -> (length l < fuel)%nat -> 128 <= size ->
  exists text' s', print_dir_tree junk fuel c size text s = Ret (text', s') /\ is_view s' v /\
    is_cstr text' 0 (path_text (disk_view v) l).
Proof.
  intros Hv Hd Hf Hsize.
  enough (Hwp : wp (print_dir_tree junk fuel c size text) (fun text' s' => is_view s' v /\
    is_cstr text' 0 (path_text (disk_view v) l)) s).
  { apply wp_elim in Hwp as (text' & s' & Hr & Hs'). by exists text', s'. }
  by eapply wp_print_dir_tree.
Qed.

End Path.
