(* ===== verification/ShellInput.v ===== *)
(** Theorems about the line editor of the shell, [handleInput]. *)
From Stdlib Require Import ZArith Lia.
From Stdlib Require Strings.String.
From stdpp Require Import base numbers option strings zmap functions list.
From S2P Require Import Prelude CString Disk FatTypes Fat32 FatView Process Interrupt Terminal Shell Commands ShellRules ShellPath.

(** ** The reference editor *)

(** The line and the byte behind it: the backspace clears the byte behind the
    deleted character instead of the character itself, which stays there. *)
Definition edit_state : Type := list byte * byte.

Definition edit_key (e : edit_state) (c : Z) : edit_state :=
  let '(l, k) := e in
  if c =? 0 then e
  else if c =? 8 then
    match last l with
    | Some b => (take (length l - 1) l, b)
    | None => e
    end
  else if Z.of_nat (length l) <? 255 then (l ++ [z2b c], z2b 0)
  else e.

(** What is echoed: accepted characters, and backspaces that delete. *)
Definition echo_key (e : edit_state) (c : Z) : list output :=
  if c =? 0 then []
  else if c =? 8 then (if bool_decide (fst e = []) then [] else [Putchar c COLOR_WHITE_ON_BLACK])
  else if Z.of_nat (length (fst e)) <? 255 then [Putchar c COLOR_WHITE_ON_BLACK]
  else [].

Fixpoint echo (e : edit_state) (ks : list Z) : list output :=
  match ks with
  | [] => []
  | c :: ks' => echo_key e c ++ echo (edit_key e c) ks'
  end.

Definition edit (ks : list Z) : edit_state := foldl edit_key ([], z2b 0) ks.

(** The 256 bytes of the input buffer in a state of the editor. *)
Definition buffer_bytes (e : edit_state) : list byte := fst e ++ snd e :: zeros (255 - length (fst e)).

Lemma length_edit_key e c : (length (fst e) <= 255)%nat -> (length (fst (edit_key e c)) <= 255)%nat.
Proof.
  destruct e as [l k]. cbn [fst]. intros Hl. unfold edit_key. destruct (c =? 0); [done|].
  destruct (c =? 8); [destruct (last l); cbn [fst]; rewrite ?length_take; lia|].
  destruct (Z.ltb_spec (Z.of_nat (length l)) 255); cbn [fst]; rewrite ?length_app; cbn [length]; lia.
Qed.

(** A line never has more than 255 characters, so that one byte for the
    terminator is left. *)
Lemma length_edit ks : (length (fst (edit ks)) <= 255)%nat.
Proof.
  unfold edit. assert (H : (length (fst ([] : list byte, z2b 0)) <= 255)%nat) by (cbn; lia). revert H.
  generalize ([] : list byte, z2b 0). induction ks as [|c ks IH]; intros e He; cbn [foldl]; [done|].
  by apply IH, length_edit_key.
Qed.

Lemma length_buffer_bytes e : (length (fst e) <= 255)%nat -> length (buffer_bytes e) = 256%nat.
Proof. intros He. unfold buffer_bytes, zeros. rewrite length_app. cbn [length]. rewrite length_replicate. lia. Qed.

(** One byte of a buffer is stored. *)
Lemma load_insert m a n i b :
  (i < n)%nat -> load (<[a + Z.of_nat i := b]> m) a n = <[i := b]> (load m a n).
Proof.
  intros Hi. apply list_eq_same_length with (n := n); rewrite ?length_insert, ?length_load; try done.
  intros j x y Hj. rewrite lookup_load by done. intros [= <-]. rewrite mget_insert.
  destruct (decide (i = j)) as [->|Hne].
  - rewrite list_lookup_insert_eq by by rewrite length_load. intros [= <-]. by rewrite decide_True.
  - rewrite list_lookup_insert_ne, lookup_load by done. intros [= <-]. by rewrite decide_False by lia.
Qed.

Lemma buffer_push l k c :
  (length l < 255)%nat -> <[length l := c]> (buffer_bytes (l, k)) = buffer_bytes (l ++ [c], z2b 0).
Proof.
  intros Hl. unfold buffer_bytes. cbn [fst snd]. rewrite insert_app_r_alt by lia. rewrite Nat.sub_diag. cbn.
  rewrite length_app, <- app_assoc. cbn [length app]. do 2 f_equal.
  replace (255 - length l)%nat with (S (255 - (length l + 1)))%nat by lia. done.
Qed.

Lemma buffer_pop l k b :
  last l = Some b -> (length l <= 255)%nat ->
  <[length l := z2b 0]> (buffer_bytes (l, k)) = buffer_bytes (take (length l - 1) l, b).
Proof.
  intros Hb Hl. apply last_Some in Hb as [l' ->]. rewrite length_app in *. cbn [length] in *.
  replace (length l' + 1 - 1)%nat with (length l') by lia. rewrite take_app_length.
  unfold buffer_bytes. cbn [fst snd]. rewrite insert_app_r_alt by (rewrite length_app; cbn [length]; lia).
  rewrite length_app. cbn [length]. rewrite Nat.sub_diag. cbn. rewrite <- app_assoc. cbn [app]. do 2 f_equal.
  replace (255 - length l')%nat with (S (255 - (length l' + 1)))%nat by lia. done.
Qed.

(** Keys that are characters of the line. *)
Definition ordinary (c : Z) : Prop := c <> 8 /\ c <> 10 /\ z2b c <> z2b 0.

#[export] Instance ordinary_dec c : Decision (ordinary c).
Proof. unfold ordinary. apply _. Defined.

Lemma edit_ordinary ks l k :
  Forall ordinary ks -> (length l + length ks <= 255)%nat -> ks <> [] ->
  foldl edit_key (l, k) ks = (l ++ (z2b <$> ks), z2b 0).
Proof.
  intros Hks. revert l k. induction Hks as [|c ks (H8 & H10 & H0) Hks IH]; intros l k Hl Hne; [done|].
  cbn [foldl length] in *. unfold edit_key at 2. rewrite (proj2 (Z.eqb_neq c 0)) by (intros ->; by apply H0).
  rewrite (proj2 (Z.eqb_neq c 8)), (proj2 (Z.ltb_lt _ 255)) by lia || done. cbn [fmap list_fmap].
  destruct ks as [|c' ks]; [done|]. rewrite IH by (done || rewrite length_app; cbn [length] in *; lia).
  by rewrite <- app_assoc.
Qed.

Lemma ordinary_nonzero ks : Forall ordinary ks -> z2b 0 ∉ (z2b <$> ks).
Proof.
  intros Hks Hin. apply list_elem_of_fmap in Hin as (c & Hc & Hin). rewrite Forall_forall in Hks.
  destruct (Hks c Hin) as (_ & _ & H0). congruence.
Qed.

(** ** The editor of the shell *)

Section Input.
Context {D T : Type} `{DiskSpec D, TerminalSpec T}.
Implicit Types (s : shell_state D T) (v : view).

(** The state after a line: what is left to be typed and what was echoed. *)
Definition line_read (ks rest : list Z) (e : edit_state) (col : Z) (v : view) : view :=
  with_keys rest true col (printed (echo e ks ++ [Putchar 10 COLOR_WHITE_ON_BLACK]) v).

Lemma wp_handleInput ks : forall fuel m e rest v s (Q : mem * Z -> shell_state D T -> Prop),
  is_view s v -> accepts v = true -> typed v = ks ++ 10 :: rest -> 10 ∉ ks -> (length ks < fuel)%nat ->
  (length (fst e) <= 255)%nat -> load m 0 256 = buffer_bytes e ->
  (forall s' m' col, is_view s' (line_read ks rest e col v) ->
     load m' 0 256 = buffer_bytes (foldl edit_key e ks) ->
     (forall a, (256 <= a) -> mget m' a = mget m a) ->
     Q (m', Z.of_nat (length (fst (foldl edit_key e ks)))) s') ->
  wp (handleInput fuel m (Z.of_nat (length (fst e)))) Q s.
Proof.
  induction ks as [|c ks IH]; intros fuel m [l k] rest v s Q Hv Hon Hty Hnl Hf Hl Hm HQ;
    (destruct fuel as [|fuel]; [cbn [length] in Hf; lia|]); cbn [handleInput fst] in *.
  - apply wp_bind. eapply (wp_read_key 10 rest v); [exact Hv|done|done|]. intros s1 col Hv1. change (10 =? 0) with false.
    change (10 =? 10) with true. cbv iota. apply wp_bind. eapply wp_sys_putchar; [exact Hv1|]. intros s2 Hv2.
    apply wp_ret. by eapply (HQ s2 m col).
  - apply not_elem_of_cons in Hnl as [Hc Hnl]. cbn [app length] in *.
    assert (Hstep : forall s' m' col e', is_view s' (with_keys (ks ++ 10 :: rest) true col (printed (echo_key (l, k) c) v)) ->
      edit_key (l, k) c = e' -> load m' 0 256 = buffer_bytes e' -> (forall a, (256 <= a) -> mget m' a = mget m a) ->
      wp (handleInput fuel m' (Z.of_nat (length (fst e')))) Q s').
    { intros s' m' col e' Hv' He' Hm' Hframe. eapply (IH fuel m' e' rest); [exact Hv'|done|done|done|lia| |done|].
      - rewrite <- He'. by apply length_edit_key.
      - intros s2 m2 col2 Hv2 Hm2 Hframe2. cbn [foldl] in HQ. rewrite He' in HQ. apply (HQ s2 m2 col2); [|done|].
        + unfold line_read in *. cbn [echo]. rewrite He'. destruct Hv2; split; try done.
          cbn [out with_keys printed] in *. by rewrite <- !app_assoc in *.
        + intros a Ha. by rewrite Hframe2, Hframe. }
    apply wp_bind. eapply (wp_read_key c (ks ++ 10 :: rest) v); [exact Hv|done|done|]. intros s1 col Hv1.
    assert (Hskip : edit_key (l, k) c = (l, k) -> echo_key (l, k) c = [] ->
      wp (handleInput fuel m (Z.of_nat (length l))) Q s1).
    { intros He Hecho. eapply (Hstep s1 m col (l, k)); [|done..]. rewrite Hecho.
      destruct Hv1; split; try done. cbn [out with_keys printed] in *. by rewrite app_nil_r. }
    unfold edit_key, echo_key in *. cbn [fst] in *.
    destruct (c =? 0); [by apply Hskip|]. rewrite (proj2 (Z.eqb_neq c 10)) by congruence.
    destruct (c =? 8).
    + destruct l as [|b0 l0]; [by apply Hskip|]. set (l := b0 :: l0) in *.
      destruct (last l) as [b|] eqn:Hlast; [|by apply last_None in Hlast].
      rewrite bool_decide_eq_false_2 in * by done. rewrite (proj2 (Z.gtb_lt _ _)) by (unfold l; cbn [length]; lia).
      apply wp_bind, wp_put; [lia|unfold SHELL_MAX_LENGTH; cbn [length] in *; lia|].
      apply wp_bind. eapply wp_sys_putchar; [exact Hv1|]. intros s2 Hv2. cbn [store].
      replace (Z.of_nat (length l) - 1) with (Z.of_nat (length (fst (take (length l - 1) l, b)))).
      2: { cbn [fst]. rewrite length_take. unfold l. cbn [length]. lia. }
      eapply (Hstep s2 _ col); [exact Hv2|done| |].
      * rewrite <- (Z.add_0_l (Z.of_nat (length l))), load_insert by lia. rewrite Hm. by apply buffer_pop.
      * intros a Ha. rewrite mget_insert. by rewrite decide_False by lia.
    + unfold SHELL_MAX_LENGTH. change (256 - 1) with 255.
      destruct (Z.ltb_spec (Z.of_nat (length l)) 255) as [Hlt|Hge]; [|by apply Hskip].
      apply wp_bind. eapply wp_sys_putchar; [exact Hv1|]. intros s2 Hv2.
      apply wp_bind, wp_put; [lia|cbn [length]; lia|]. cbn [store].
      replace (Z.of_nat (length l) + 1) with (Z.of_nat (length (fst (l ++ [z2b c], z2b 0)))).
      2: { cbn [fst]. rewrite length_app. cbn [length]. lia. }
      eapply (Hstep s2 _ col); [exact Hv2|done| |].
      * rewrite <- (Z.add_0_l (Z.of_nat (length l))), load_insert by lia. rewrite Hm. apply buffer_push. lia.
      * intros a Ha. rewrite mget_insert. by rewrite decide_False by lia.
Qed.

(** [clearBuffer] makes the buffer that the editor starts with. *)
Lemma clearBuffer_bytes m : load (clearBuffer m 256) 0 256 = buffer_bytes ([], z2b 0).
Proof.
  unfold clearBuffer. rewrite memset_loop_store, Z.add_0_l. by rewrite load_store_eq by done.
Qed.

(** C28: the line editor: from a cleared buffer, and any keys up to the first newline,
    it returns with the line and the length that the reference editor computes,
    echoing what it accepts; it writes inside the 256 bytes only; and at least
    one byte of the buffer stays NUL. *)
Theorem handle_input_correct fuel m ks rest v s :
  is_view s v -> accepts v = true -> typed v = ks ++ 10 :: rest -> 10 ∉ ks -> (length ks < fuel)%nat ->
  exists m' s' col,
    handleInput fuel (clearBuffer m 256) 0 s = Ret ((m', Z.of_nat (length (fst (edit ks)))), s') /\
    load m' 0 256 = buffer_bytes (edit ks) /\ (length (fst (edit ks)) <= 255)%nat /\
    (forall a, (256 <= a) -> mget m' a = mget m a) /\
    is_view s' (line_read ks rest ([], z2b 0) col v).
Proof.
  intros Hv Hon Hty Hnl Hf.
  destruct (wp_elim (handleInput fuel (clearBuffer m 256) 0) (fun r s' => exists m' col,
    r = (m', Z.of_nat (length (fst (edit ks)))) /\ load m' 0 256 = buffer_bytes (edit ks) /\
    (forall a, (256 <= a) -> mget m' a = mget m a) /\ is_view s' (line_read ks rest ([], z2b 0) col v)) s)
    as (r & s' & Hr & m' & col & -> & Hm' & Ha & Hv').
  - change 0 with (Z.of_nat (length (fst ([] : list byte, z2b 0)))) at 2.
    eapply (wp_handleInput ks fuel _ ([], z2b 0)); [exact Hv|done|exact Hty|done|done|cbn; lia|apply clearBuffer_bytes|].
    intros s' m' col Hv' Hm' Ha. exists m', col. repeat split; [done| |apply Hv'..]. intros a Hge. rewrite Ha by done.
    unfold clearBuffer. rewrite memset_loop_store. apply mget_store_out. rewrite length_replicate. lia.
  - exists m', s', col. split; [done|]. split; [done|]. split; [apply length_edit|done].
Qed.

(** a typed line without backspaces, of at most 255 characters, is the string in
    the buffer; after one backspace the deleted character is still in the
    buffer, so the command is the same although the length is one less: the
    backspace clears the byte behind the character. *)
Theorem backspace_keeps_character fuel m ks rest v s :
  is_view s v -> accepts v = true -> Forall ordinary ks -> ks <> [] -> (length ks <= 255)%nat ->
  (length ks + 1 < fuel)%nat ->
  (typed v = ks ++ 10 :: rest ->
     exists m' s', handleInput fuel (clearBuffer m 256) 0 s = Ret ((m', Z.of_nat (length ks)), s') /\
       is_cstr m' 0 (z2b <$> ks)) /\
  (typed v = (ks ++ [8]) ++ 10 :: rest ->
     exists m' s', handleInput fuel (clearBuffer m 256) 0 s = Ret ((m', Z.of_nat (length ks) - 1), s') /\
       is_cstr m' 0 (z2b <$> ks)).
Proof.
  intros Hv Hon Hks Hne Hlen Hf. pose proof (edit_ordinary ks [] (z2b 0) Hks Hlen Hne) as He. cbn [app] in He.
  assert (H10 : 10 ∉ ks).
  { intros Hin. rewrite Forall_forall in Hks. by destruct (Hks 10 Hin) as (_ & ? & _). }
  assert (Hgo : forall ks' n, typed v = ks' ++ 10 :: rest -> 10 ∉ ks' -> (length ks' < fuel)%nat ->
    (exists r, buffer_bytes (foldl edit_key ([], z2b 0) ks') = (z2b <$> ks) ++ z2b 0 :: r) ->
    Z.of_nat (length (fst (foldl edit_key ([], z2b 0) ks'))) = n ->
    exists m' s', handleInput fuel (clearBuffer m 256) 0 s = Ret ((m', n), s') /\ is_cstr m' 0 (z2b <$> ks)).
  { intros ks' n Hty Hnl Hf' [r Hr] <-.
    destruct (wp_elim (handleInput fuel (clearBuffer m 256) 0)
      (fun x _ => snd x = Z.of_nat (length (fst (foldl edit_key ([], z2b 0) ks'))) /\ is_cstr (fst x) 0 (z2b <$> ks)) s)
      as ([m' n] & s' & Hx & Hn & Hm'); [|cbn [fst snd] in *; subst n; eauto].
    change 0 with (Z.of_nat (length (fst ([] : list byte, z2b 0)))) at 2.
    eapply (wp_handleInput ks' fuel _ ([], z2b 0)); [exact Hv|done|exact Hty|done|done|cbn; lia|apply clearBuffer_bytes|].
    intros s' m' col _ Hm' _. split; [done|]. cbn [fst]. eapply is_cstr_load; [by rewrite Hm', Hr|].
    by apply ordinary_nonzero. }
  split; intros Hty.
  - apply (Hgo ks); [done|done|lia| |by rewrite He; cbn [fst]; rewrite length_fmap].
    rewrite He. eexists. unfold buffer_bytes. reflexivity.
  - destruct (exists_last Hne) as (l & c & Hl). apply (Hgo (ks ++ [8])); [done| |rewrite length_app; cbn [length]; lia|..].
    { apply not_elem_of_app. split; [done|]. by intros ?%list_elem_of_singleton. }
    + rewrite foldl_app, He, Hl. cbn [foldl edit_key]. change (8 =? 0) with false. change (8 =? 8) with true. cbv iota.
      rewrite fmap_app. cbn [fmap list_fmap]. rewrite last_snoc, length_app. cbn [length].
      replace (length (z2b <$> l) + 1 - 1)%nat with (length (z2b <$> l)) by lia. rewrite take_app_length.
      rewrite Hl, length_app in Hlen. cbn [length] in Hlen. unfold buffer_bytes. cbn [fst snd].
      exists (zeros (254 - length l)). rewrite <- app_assoc. cbn [app]. do 2 f_equal. rewrite length_fmap.
      by replace (255 - length l)%nat with (S (254 - length l)) by lia.
    + rewrite foldl_app, He, Hl. cbn [foldl edit_key]. change (8 =? 0) with false. change (8 =? 8) with true. cbv iota.
      rewrite fmap_app. cbn [fmap list_fmap]. rewrite last_snoc. cbn [fst].
      rewrite length_take, !length_app, length_fmap. cbn [length]. lia.
Qed.

End Input.
