(* ===== verification/ShellParse.v ===== *)
(** Theorems about the command line: how [parseCommand] cuts it into tokens and
    which command it runs. *)
From Stdlib Require Import ZArith Lia.
From Stdlib Require Strings.String.
From stdpp Require Import base numbers option strings zmap functions list.
From S2P Require Import Prelude CString Disk FatTypes Fat32 FatView Process Interrupt Terminal Shell Commands ShellRules ShellPath.

(** ** Evaluation *)

Lemma load_lit (l : String.string) n : (n <= length (cstring l))%nat -> load (lit l) 0 n = take n (cstring l).
Proof.
  intros Hn. unfold lit, obj. rewrite load_store_within by (rewrite ?length_app; lia).
  change (Z.to_nat (0 - 0)) with 0%nat. rewrite drop_0. by rewrite take_app_le.
Qed.

Lemma is_cstr_lit (l : String.string) : z2b 0 ∉ cstring l -> is_cstr (lit l) 0 (cstring l).
Proof.
  intros Hl. split; [rewrite load_lit by done; apply firstn_all|]. split; [|done].
  unfold lit, obj. apply mget_store_in; [lia|]. rewrite Z.add_0_l, Z.sub_0_r, Nat2Z.id.
  by rewrite list_lookup_middle.
Qed.

Lemma streq_eval {D T} (s : shell_state D T) m a x (l : String.string) :
  is_cstr m a x -> z2b 0 ∉ cstring l -> (length x < string_fuel)%nat ->
  streq m a (lit l) 0 s = Ret (bool_decide (x = cstring l), s).
Proof.
  intros Hx Hl Hf. destruct (strcmp_spec string_fuel m a (lit l) 0 x (cstring l) Hx (is_cstr_lit l Hl) Hf) as (d & Hd & Heq).
  unfold streq. rewrite (bind_eval _ _ _ d s) by (unfold lift, mbind, res_mbind; by rewrite Hd).
  unfold mret, M_ret. do 2 f_equal. apply eq_bool_prop_intro. rewrite bool_decide_spec, <- Heq.
  by rewrite Is_true_true, Z.eqb_eq.
Qed.

(** The first bytes of a string, compared with a literal without NUL. *)
Lemma prefix_eval m a x (l : String.string) n :
  is_cstr m a x -> z2b 0 ∉ cstring l -> n = length (cstring l) ->
  (memcmp m a (lit l) 0 n =? 0) = bool_decide (cstring l `prefix_of` x).
Proof.
  intros Hx Hl ->. apply eq_bool_prop_intro. rewrite bool_decide_spec, Is_true_true, Z.eqb_eq, memcmp_zero.
  rewrite load_lit, firstn_all by done. split.
  - intros Heq. destruct (decide (length (cstring l) <= length x)%nat) as [Hle|Hgt].
    + destruct Hx as (Hlx & _). rewrite <- Hlx. replace (length x) with (length (cstring l) + (length x - length (cstring l)))%nat by lia.
      rewrite load_app, Heq. by apply prefix_app_r.
    + exfalso. apply Hl. rewrite <- Heq. destruct Hx as (_ & Hz & _).
      apply list_elem_of_lookup. exists (length x). rewrite lookup_load by lia. by f_equal.
  - intros [k ->]. by apply (is_cstr_prefix_load _ _ _ k).
Qed.

Lemma starts_eval m x (l : String.string) n :
  is_cstr m 0 x -> z2b 0 ∉ cstring l -> n = length (cstring l) ->
  starts m l n = bool_decide (cstring l `prefix_of` x).
Proof. apply prefix_eval. Qed.

(** ** Tokens *)

Definition space : list byte := cstring " ".

(** The first token of a line, the address of the argument, and the memory when
    the separators are overwritten. *)
Definition first_token (line : list byte) : list byte :=
  match token_end space line with Some i => take i line | None => line end.

Definition argument_addr (line : list byte) : Z :=
  match token_end space line with Some i => Z.of_nat i + 1 | None => Z.of_nat (length line) end.

Definition tokens (m : mem) (line : list byte) : mem :=
  match token_end space line with
  | Some i =>
      let m := <[Z.of_nat i := z2b 0]> (with_literals m) in
      match token_end space (drop (S i) line) with
      | Some j => <[Z.of_nat i + 1 + Z.of_nat j := z2b 0]> m
      | None => m
      end
  | None => with_literals m
  end.

Lemma mget_literals m a : a < 4096 -> mget (with_literals m) a = mget m a.
Proof. intros Ha. unfold with_literals, delim_addr, blanks_addr. by rewrite !mget_store_out by lia. Qed.

Lemma is_cstr_literals m line :
  is_cstr m 0 line -> (length line < 4096)%nat -> is_cstr (with_literals m) 0 line.
Proof. intros Hs Hl. eapply is_cstr_ext; [|exact Hs]. intros i Hi. by rewrite mget_literals by lia. Qed.

Lemma is_cstr_delim m : is_cstr (with_literals m) delim_addr space.
Proof.
  unfold with_literals, delim_addr, blanks_addr. split; [|split; [|by apply (bool_decide_unpack _)]].
  - rewrite load_store_ne by (cbn; lia). by rewrite load_store_within by (cbn; lia).
  - rewrite mget_store_out by (cbn; lia). by apply mget_store_in.
Qed.

(** Writing outside a string leaves it. *)
Lemma is_cstr_insert m a x i b :
  is_cstr m a x -> i < a \/ a + Z.of_nat (length x) < i -> is_cstr (<[i := b]> m) a x.
Proof. intros Hs Hi. eapply is_cstr_ext; [|exact Hs]. intros j Hj. rewrite mget_insert. by rewrite decide_False by lia. Qed.

Lemma length_first_token line : (length (first_token line) <= length line)%nat.
Proof. unfold first_token. destruct (token_end space line); [rewrite length_take; lia|done]. Qed.

(** What the two calls of [strtok] leave. *)
Lemma strtok_line m line :
  is_cstr m 0 line -> (length line <= 255)%nat ->
  exists m1 next,
    strtok string_fuel (with_literals m) None (Some 0) delim_addr = Ret (Some 0, m1, Some next) /\
    exists next2, strtok string_fuel m1 (Some next) None delim_addr =
      Ret (Some (argument_addr line), tokens m line, next2).
Proof.
  intros Hs Hl. pose proof (is_cstr_literals _ _ Hs ltac:(lia)) as Hs'. pose proof (is_cstr_delim m) as Hd.
  assert (Hlen : length space = 1%nat) by done. assert (Hf : string_fuel = Z.to_nat 4096) by done.
  unfold strtok, tokens, argument_addr.
  rewrite (strtok_loop_spec _ _ _ line _ space) by (done || lia).
  destruct (token_end space line) as [i|] eqn:Hi.
  - pose proof (token_end_lt _ _ _ Hi) as Hil. destruct (is_cstr_split _ _ _ _ Hs' Hil) as [_ Hrest].
    rewrite Z.add_0_l in *. eexists _, _. split; [done|].
    rewrite (strtok_loop_spec _ _ _ (drop (S i) line) _ space); [|done|..].
    + destruct (token_end space (drop (S i) line)); eauto.
    + eapply is_cstr_ext; [|exact Hd]. intros k Hk. rewrite mget_insert, decide_False; [done|unfold delim_addr; lia].
    + rewrite length_drop. lia.
    + rewrite length_drop. lia.
  - eexists _, _. split; [done|]. rewrite Z.add_0_l.
    rewrite (strtok_loop_spec _ _ _ [] _ space) by (try done; try (cbn [length]; lia); apply is_cstr_nil;
      destruct Hs' as (_ & Hz & _); by rewrite Z.add_0_l in Hz).
    cbn. rewrite Z.add_0_r. eauto.
Qed.

Lemma tokens_first m line : is_cstr m 0 line -> (length line <= 255)%nat -> is_cstr (tokens m line) 0 (first_token line).
Proof.
  intros Hs Hl. pose proof (is_cstr_literals _ _ Hs ltac:(lia)) as Hs'. unfold tokens, first_token.
  destruct (token_end space line) as [i|] eqn:Hi; [|done].
  pose proof (token_end_lt _ _ _ Hi) as Hil. destruct (is_cstr_split _ _ _ _ Hs' Hil) as [Hfirst _].
  rewrite Z.add_0_l in Hfirst. destruct (token_end space (drop (S i) line)) as [j|]; [|done].
  apply is_cstr_insert; [exact Hfirst|]. rewrite length_take. lia.
Qed.

(** A command with one argument. *)
Lemma token_end_app cmd arg : z2b 32 ∉ cmd -> token_end space (cmd ++ z2b 32 :: arg) = Some (length cmd).
Proof.
  induction cmd as [|b cmd IH]; intros Hn; cbn [app length]; rewrite token_end_cons.
  - rewrite decide_True; [done|]. by apply (bool_decide_unpack _).
  - apply not_elem_of_cons in Hn as [Hb Hn]. rewrite decide_False; [by rewrite IH|].
    intros Hin. apply list_elem_of_singleton in Hin. by rewrite Hin in Hb.
Qed.

Lemma token_end_none arg : z2b 32 ∉ arg -> token_end space arg = None.
Proof.
  induction arg as [|b arg IH]; intros Hn; [done|]. apply not_elem_of_cons in Hn as [Hb Hn].
  rewrite token_end_cons, decide_False; [by rewrite IH|].
  intros Hin. apply list_elem_of_singleton in Hin. by rewrite Hin in Hb.
Qed.

(** The bytes that are blank for cd, rm and mv. *)
Definition blanks : list byte := [z2b 32; z2b 9; z2b 10; z2b 13].

(** The input buffer holds a line and nothing behind it. *)
Definition holds_line (m : mem) (line : list byte) : Prop :=
  is_cstr m 0 line /\ (length line <= 252)%nat /\ forall a, Z.of_nat (length line) <= a < 256 -> mget m a = z2b 0.

(** The memory in which a command with one argument runs. *)
Record one_argument (m : mem) (cmd arg : list byte) : Prop := {
  arg_string : is_cstr m (Z.of_nat (length cmd) + 1) arg;
  arg_behind a : Z.of_nat (length cmd + 1 + length arg) <= a < 256 -> mget m a = z2b 0;
  arg_blanks : is_cstr m blanks_addr blanks;
}.

Lemma one_argument_tokens m cmd arg :
  holds_line m (cmd ++ z2b 32 :: arg) -> z2b 32 ∉ cmd -> z2b 32 ∉ arg ->
  first_token (cmd ++ z2b 32 :: arg) = cmd /\ argument_addr (cmd ++ z2b 32 :: arg) = Z.of_nat (length cmd) + 1 /\
  one_argument (tokens m (cmd ++ z2b 32 :: arg)) cmd arg.
Proof.
  intros (Hs & Hl & Hz) Hcmd Harg. pose proof (token_end_app cmd arg Hcmd) as He.
  pose proof (is_cstr_literals m _ Hs ltac:(lia)) as Hs'. apply is_cstr_drop in Hs'. rewrite Z.add_0_l in Hs'.
  apply is_cstr_cons in Hs' as (_ & _ & Hs'). rewrite length_app in *. cbn [length] in *.
  split; [|split]; [unfold first_token; rewrite He; apply take_app_length|unfold argument_addr; by rewrite He|].
  unfold tokens. rewrite He.
  replace (S (length cmd)) with (length (cmd ++ [z2b 32])) by (rewrite length_app; cbn [length]; lia).
  change (cmd ++ z2b 32 :: arg) with (cmd ++ [z2b 32] ++ arg). rewrite (app_assoc cmd [z2b 32] arg), drop_app_length, token_end_none by done. split.
  - apply is_cstr_insert; [exact Hs'|lia].
  - intros a Ha. rewrite mget_insert, decide_False by lia. rewrite mget_literals by lia. apply Hz. lia.
  - apply is_cstr_insert; [|unfold blanks_addr; left; lia]. unfold with_literals.
    split; [by rewrite load_store_within by (cbn; lia)|]. split; [by apply mget_store_in|by apply (bool_decide_unpack _)].
Qed.

(** ** Which command runs *)

Inductive command := Cd | Ls | Mkdir | Cat | Cp | Rm | Mv | Find | Ps | Ignored | NotFound.

(** Three names are compared as prefixes; every other unknown name is ignored,
    and "exec" is the one that is reported as not found. *)
Definition command_of (name : list byte) : command :=
  if bool_decide (name = cstring "cd") then Cd
  else if bool_decide (name = cstring "ls") then Ls
  else if bool_decide (cstring "mkdir" `prefix_of` name) then Mkdir
  else if bool_decide (name = cstring "cat") then Cat
  else if bool_decide (cstring "cp" `prefix_of` name) then Cp
  else if bool_decide (name = cstring "rm") then Rm
  else if bool_decide (name = cstring "mv") then Mv
  else if bool_decide (cstring "find" `prefix_of` name) then Find
  else if bool_decide (name = cstring "ps") then Ps
  else if bool_decide (name = cstring "exec") then NotFound
  else Ignored.

Section Parse.
Context {D T : Type} `{!Disk D, !Terminal T} (junk : nat -> mem) (fuel : nat).
Implicit Types s : shell_state D T.

Definition run_command (c : command) (m : mem) (argument : option Z) : M (shell_state D T) unit :=
  match c with
  | Cd => cmd_cd junk m argument
  | Ls => cmd_ls junk m argument
  | Mkdir => cmd_mkdir junk m
  | Cat => cmd_cat junk m argument
  | Cp => cmd_cp junk m
  | Rm => cmd_rm junk m argument
  | Mv => cmd_mv junk m argument
  | Find => cmd_find junk fuel m
  | Ps => cmd_ps junk fuel
  | Ignored => mret tt
  | NotFound => puts_lit "Command not found" 0x4
  end.

Lemma parse_eval m line s :
  is_cstr m 0 line -> (length line <= 255)%nat ->
  parseCommand junk fuel m s =
    run_command (command_of (first_token line)) (tokens m line) (Some (argument_addr line)) s.
Proof.
  intros Hs Hl. destruct (strtok_line m line Hs Hl) as (m1 & next & H1 & next2 & H2).
  pose proof (tokens_first m line Hs Hl) as Ht. pose proof (length_first_token line) as Hlen.
  assert (Hf : (length (first_token line) < string_fuel)%nat) by (unfold string_fuel; lia).
  unfold parseCommand. cbv zeta.
  rewrite (bind_eval _ _ _ _ s) by (unfold lift, mbind, res_mbind; rewrite H1; reflexivity). cbv beta iota.
  rewrite (bind_eval _ _ _ _ s) by (unfold lift, mbind, res_mbind; rewrite H2; reflexivity). cbv beta iota.
  unfold command_of. set (name := first_token line) in *.
  pose proof (fun l Hl => streq_eval s _ _ name l Ht (bool_decide_eq_true_1 _ Hl) Hf) as Heq.
  pose proof (fun l n Hl => starts_eval _ name l n Ht (bool_decide_eq_true_1 _ Hl)) as Hst.
  rewrite (bind_eval _ _ _ _ s (Heq "cd"%string eq_refl)). case_bool_decide; [cbn [run_command]; reflexivity|].
  rewrite (bind_eval _ _ _ _ s (Heq "ls"%string eq_refl)). case_bool_decide; [cbn [run_command]; reflexivity|].
  rewrite (Hst "mkdir"%string 5%nat eq_refl eq_refl). case_bool_decide; [cbn [run_command]; reflexivity|].
  rewrite (bind_eval _ _ _ _ s (Heq "cat"%string eq_refl)). case_bool_decide; [cbn [run_command]; reflexivity|].
  rewrite (Hst "cp"%string 2%nat eq_refl eq_refl). case_bool_decide; [cbn [run_command]; reflexivity|].
  rewrite (bind_eval _ _ _ _ s (Heq "rm"%string eq_refl)). case_bool_decide; [cbn [run_command]; reflexivity|].
  rewrite (bind_eval _ _ _ _ s (Heq "mv"%string eq_refl)). case_bool_decide; [cbn [run_command]; reflexivity|].
  rewrite (Hst "find"%string 4%nat eq_refl eq_refl). case_bool_decide; [cbn [run_command]; reflexivity|].
  rewrite (bind_eval _ _ _ _ s (Heq "ps"%string eq_refl)). case_bool_decide; [cbn [run_command]; reflexivity|].
  rewrite (bind_eval _ _ _ _ s (Heq "exec"%string eq_refl)). case_bool_decide; cbn [run_command negb]; reflexivity.
Qed.

(** A line with one argument. *)
Lemma parse_one_argument m cmd arg s :
  holds_line m (cmd ++ z2b 32 :: arg) -> z2b 32 ∉ cmd -> z2b 32 ∉ arg ->
  exists m', one_argument m' cmd arg /\ is_cstr m' 0 cmd /\
    parseCommand junk fuel m s = run_command (command_of cmd) m' (Some (Z.of_nat (length cmd) + 1)) s.
Proof.
  intros Hm Hcmd Harg. destruct (one_argument_tokens m cmd arg Hm Hcmd Harg) as (Ht & Ha & H1).
  destruct Hm as (Hs & Hl & _). pose proof (tokens_first m _ Hs ltac:(lia)) as Hfirst. rewrite Ht in Hfirst.
  eexists. split; [exact H1|]. split; [exact Hfirst|]. rewrite (parse_eval m _ s Hs) by lia. by rewrite Ht, Ha.
Qed.

(** C16: the dispatch of the command line is the table [command_of]: for every line of
    at most 255 characters the command that runs is decided by the first token,
    with the separators overwritten by NUL, and the argument is the second
    token, which is the empty string and not NULL when there is none.  A name
    that is no command is ignored without a message, and "exec" is the one
    reported as not found: the comparison with it is inverted. *)
Theorem parse_command_dispatch m line s :
  is_cstr m 0 line -> (length line <= 255)%nat ->
  parseCommand junk fuel m s =
    run_command (command_of (first_token line)) (tokens m line) (Some (argument_addr line)) s /\
  is_cstr (tokens m line) 0 (first_token line).
Proof. intros Hs Hl. split; [by apply parse_eval|by apply tokens_first]. Qed.

End Parse.
