(* ===== verification/ShellPlace.v ===== *)
(** Theorems about the position of the shell: the invariant of the globals
    [idx] and [clusters] and of the current cluster that every command keeps,
    and the command cd. *)
From Stdlib Require Import ZArith Lia.
From Stdlib Require Strings.String.
From stdpp Require Import base numbers option strings zmap functions list.
From S2P Require Import Prelude CString Disk FatTypes Fat32 FatView FatRead FatWrite FatCreate Process Interrupt Terminal Shell Commands ShellRules ShellPath ShellParse.

(** ** The invariant *)

(** The index is in the array, which holds cluster numbers of 16 bits, and the
    current directory is the one on top. *)
Definition place_ok (p : Z * list Z * Z) : Prop :=
  let '(i, l, c) := p in
  0 <= i < 100 /\ length l = 100%nat /\ Forall (fun x => 0 <= x < 65536) l /\ l !! Z.to_nat i = Some c.

#[export] Instance place_ok_dec p : Decision (place_ok p).
Proof. destruct p as [[i l] c]. unfold place_ok. apply _. Defined.

Definition place_of {D T} (s : shell_state D T) : Z * list Z * Z := (idx s, cluster_stack s, current_cluster_pos s).

(** The states whose position has the property [P]. *)
Definition at_place {D T} (P : Z * list Z * Z -> Prop) (s : shell_state D T) : Prop := P (place_of s).

Create HintDb place.

(** Take code apart down to the calls that lemmas speak of. *)
Ltac keeps_place :=
  repeat match goal with
  | |- keeps _ _ => solve [eauto with place nocore]
  | |- keeps _ (if ?b then _ else _) => destruct b
  | |- keeps _ (_ ≫= _) => apply keeps_bind; [|intros ?]
  | |- keeps _ (for_up _ _ _) => apply keeps_for; intros ?
  | |- keeps _ (match ?x with _ => _ end) => destruct x
  end.

Section Keeps.
Context {D T : Type} `{!Disk D, !Terminal T} (junk : nat -> mem) (P : Z * list Z * Z -> Prop).
Abbreviation I := (at_place (D := D) (T := T) P).

Lemma place_ret {A} (a : A) : keeps I (mret a).
Proof. apply keeps_ret. Qed.

Lemma place_gets {A} (f : _ -> A) : keeps I (gets f).
Proof. apply keeps_gets. Qed.

Lemma place_undefined {A} : keeps I (@undefined _ A).
Proof. apply keeps_undefined. Qed.

Lemma place_out_of_fuel {A} : keeps I (@out_of_fuel _ A).
Proof. apply keeps_out_of_fuel. Qed.

Lemma place_lift {A} (r : res A) : keeps I (lift r).
Proof. intros s a s' Hr. unfold lift, mbind, res_mbind in Hr. destruct r; [|done..]. by injection Hr as <- <-. Qed.

Lemma place_on_term {A} (c : M T A) : keeps I (on_term c).
Proof.
  intros s a s' Hr. unfold on_term, mbind, res_mbind in Hr.
  destruct (c (term s)) as [[b t]| |]; [|done..]. by injection Hr as <- <-.
Qed.

Lemma place_record o : keeps I (record o).
Proof. by apply keeps_modify. Qed.

Lemma place_uninit : keeps I (uninit junk).
Proof. by intros s a s' [= <- <-]. Qed.

Lemma place_file_call op data req : keeps I (file_call op data req).
Proof.
  intros s a s' Hr. unfold file_call, mbind, res_mbind in Hr.
  destruct (op _ _) as [[b f]| |]; [|done..]. by injection Hr as <- <-.
Qed.

Lemma place_put size m a bs : keeps I (put size m a bs).
Proof. unfold put. destruct (_ && _); [apply keeps_ret|apply keeps_undefined]. Qed.

End Keeps.

#[export] Hint Resolve place_ret place_gets place_undefined place_out_of_fuel place_lift place_on_term place_record
  place_uninit place_file_call place_put : place.

Section Functions.
Context {D T : Type} `{!Disk D, !Terminal T} (junk : nat -> mem) (fuel : nat) (P : Z * list Z * Z -> Prop).
Abbreviation I := (at_place (D := D) (T := T) P).

Lemma place_local bs : keeps I (local junk bs).
Proof. unfold local. keeps_place. Qed.
Hint Resolve place_local : place.

Lemma place_sys_puts text color : keeps I (sys_puts text color).
Proof. unfold sys_puts. keeps_place. Qed.
Hint Resolve place_sys_puts : place.

Lemma place_puts m a color : keeps I (puts m a color).
Proof. unfold puts. keeps_place. Qed.

Lemma place_puts_lit text color : keeps I (puts_lit text color).
Proof. apply place_sys_puts. Qed.
Hint Resolve place_puts place_puts_lit : place.

Lemma place_fill_call op size buffer req : keeps I (fill_call op size buffer req).
Proof. unfold fill_call. keeps_place. Qed.
Hint Resolve place_fill_call : place.

Lemma place_read_directory buffer req : keeps I (sys_read_directory buffer req).
Proof. apply place_fill_call. Qed.

Lemma place_self_request c size : keeps I (self_request junk c size).
Proof. apply place_local. Qed.
Hint Resolve place_read_directory place_self_request : place.

Lemma place_dir_tree_loop n c temp prog buff : keeps I (dir_tree_loop junk n c temp prog buff).
Proof.
  revert c temp prog buff. induction n as [|n IH]; intros; cbn [dir_tree_loop]; keeps_place; apply IH.
Qed.
Hint Resolve place_dir_tree_loop : place.

Lemma place_print_dir_tree n c size text : keeps I (print_dir_tree junk n c size text).
Proof. unfold print_dir_tree. keeps_place. Qed.

Lemma place_interface buffer ms a len c : keeps I (read_directory_interface junk buffer ms a len c).
Proof. unfold read_directory_interface. keeps_place. Qed.

Lemma place_streq m1 a1 m2 a2 : keeps I (streq m1 a1 m2 a2).
Proof. unfold streq. keeps_place. Qed.
Hint Resolve place_print_dir_tree place_interface place_streq : place.

Lemma place_strcat_loop n size dest len ms src i : keeps I (strcat_loop n size dest len ms src i).
Proof. revert dest i. induction n as [|n IH]; intros; cbn [strcat_loop]; keeps_place; apply IH. Qed.
Hint Resolve place_strcat_loop : place.

Lemma place_strcat size dest ms src : keeps I (strcat size dest ms src).
Proof. unfold strcat. keeps_place. Qed.
Hint Resolve place_strcat : place.

Lemma place_find_loop search buffer ms name i n path len :
  (forall c p, keeps I (search c p)) -> keeps I (find_loop junk fuel search buffer ms name i n path len).
Proof.
  intros Hs. revert i path len. induction n as [|n IH]; intros i path len; cbn [find_loop];
    unfold trimmed_name, print_contents, extend_path; keeps_place; eauto.
Qed.

Lemma place_find_in_directory depth c ms name path : keeps I (find_in_directory junk fuel depth c ms name path).
Proof.
  revert c path. induction depth as [|depth IH]; intros c path; cbn [find_in_directory]; keeps_place.
  apply place_find_loop. intros. apply IH.
Qed.
Hint Resolve place_find_in_directory : place.

Lemma place_blank_argument m argument : keeps I (blank_argument m argument).
Proof. unfold blank_argument. keeps_place. Qed.
Hint Resolve place_blank_argument : place.

Lemma place_ls_search dtable m argument i n : keeps I (ls_search dtable m argument i n).
Proof. revert i. induction n as [|n IH]; intros i; cbn [ls_search]; keeps_place; apply IH. Qed.
Hint Resolve place_ls_search : place.

Lemma place_component_length n m a len : keeps I (component_length n m a len).
Proof. revert len. induction n as [|n IH]; intros len; cbn [component_length]; keeps_place; apply IH. Qed.
Hint Resolve place_component_length : place.

Lemma place_cd_loop n m buffer progress c found : keeps I (cd_loop junk n m buffer progress c found).
Proof.
  revert buffer progress c found. induction n as [|n IH]; intros; cbn [cd_loop]; keeps_place; apply IH.
Qed.
Hint Resolve place_cd_loop : place.

Lemma place_pad_loop n old limit : keeps I (pad_loop n old limit).
Proof. revert old. induction n as [|n IH]; intros old; cbn [pad_loop]; unfold puts_struct; keeps_place; apply IH. Qed.
Hint Resolve place_pad_loop : place.

Lemma place_ps_loop n col i : keeps I (ps_loop fuel n col i).
Proof.
  revert col i. induction n as [|n IH]; intros col i; cbn [ps_loop]; unfold ps_entry, puts_struct; keeps_place; apply IH.
Qed.
Hint Resolve place_ps_loop : place.

(** No command but cd touches the position. *)
Lemma place_ls m argument : keeps I (cmd_ls junk m argument).
Proof. unfold cmd_ls, ls_entry. keeps_place. Qed.

Lemma place_mkdir m : keeps I (cmd_mkdir junk m).
Proof. unfold cmd_mkdir, sys_write. keeps_place. Qed.

Lemma place_cat m argument : keeps I (cmd_cat junk m argument).
Proof. unfold cmd_cat, named_request, sys_read, sys_putchar. keeps_place. Qed.

Lemma place_cp m : keeps I (cmd_cp junk m).
Proof. unfold cmd_cp, read_source, cp_write, match_entry, sys_write; unfold named_request, sys_read. keeps_place. Qed.

Lemma place_rm m argument : keeps I (cmd_rm junk m argument).
Proof. unfold cmd_rm, is_in_directory, sys_delete. keeps_place. Qed.

Lemma place_mv m argument : keeps I (cmd_mv junk m argument).
Proof. unfold cmd_mv, read_source; unfold named_request, sys_read. keeps_place. Qed.

Lemma place_find m : keeps I (cmd_find junk fuel m).
Proof. unfold cmd_find. keeps_place. Qed.

Lemma place_ps : keeps I (cmd_ps junk fuel).
Proof. unfold cmd_ps, puts_struct. keeps_place. Qed.

End Functions.

#[export] Hint Resolve place_local place_sys_puts place_puts place_puts_lit place_blank_argument place_cd_loop
  place_print_dir_tree : place.

Section Invariant.
Context {D T : Type} `{!Disk D, !Terminal T} (junk : nat -> mem) (fuel : nat).
Implicit Types s : shell_state D T.

Lemma u16_range x : 0 <= u16 x < 65536.
Proof. apply Z.mod_pos_bound. lia. Qed.

(** The cluster that the path leads to is a value of 16 bits, as the one it
    starts from. *)
Lemma cd_loop_range n m buffer progress c found s r s' :
  0 <= c < 65536 -> cd_loop junk n m buffer progress c found s = Ret (r, s') -> 0 <= snd (fst r) < 65536.
Proof.
  revert buffer progress c found s. induction n as [|n IH]; intros buffer progress c found s Hc Hr; [done|].
  cbn [cd_loop] in Hr. unfold mbind, M_bind in Hr.
  destruct (lift _ s) as [[rest s1]| |]; [|done..]. destruct (negb _); [injection Hr as <- <-; done|].
  destruct (component_length _ _ _ _ s1) as [[len s2]| |]; [|done..]. destruct (_ && _).
  - destruct (puts_lit _ _ s2) as [[x s3]| |]; [|done..]. by injection Hr as <- <-.
  - destruct (read_directory_interface _ _ _ _ _ _ s2) as [[x s3]| |]; [|done..].
    destruct (negb _); [by injection Hr as <- <-|]. eapply IH; [|exact Hr]. case_match; [apply u16_range|done].
Qed.

(** The index is at most [k]. *)
Definition up_to (k : Z) (p : Z * list Z * Z) : Prop := place_ok p /\ fst (fst p) <= k.

Lemma up_to_succ k p : up_to k p -> up_to (k + 1) p.
Proof. intros [Hp Hk]. split; [done|lia]. Qed.

Abbreviation place_from k := (at_place (D := D) (T := T) (up_to k)).

(** ".." takes the position below the top. *)
Lemma place_cd_up k s (i : Z) (l : list Z) x s' :
  i = idx s -> l = cluster_stack s -> idx s <> 0 ->
  (set_place (i - 1) l (current_cluster_pos s) ;; puts_lit "Successfully changed directory." 0xF ;;
   c ← clusters_get (i - 1); set_place (i - 1) l (u16 c)) s = Ret (x, s') ->
  place_from k s -> place_from k s'.
Proof.
  intros -> -> E Hr [(Hi & Hl & Hall & Htop) Hk]. cbn [fst place_of] in Hk. 
  apply bind_Ret_inv in Hr as (? & s1 & [= _ <-] & Hr). set (s1 := ShellState _ _ _ _ _ _ _) in Hr.
  apply bind_Ret_inv in Hr as (y & s2 & E2 & Hr).
  pose proof (place_puts_lit (fun p => p = place_of s1) _ _ s1 y s2 E2 eq_refl) as Hp.
  apply bind_Ret_inv in Hr as (c & s3 & Hc3 & Hr). unfold clusters_get in Hc3.
  unfold at_place, place_of, s1 in Hp. cbn [idx cluster_stack current_cluster_pos] in Hp. injection Hp as Hp1 Hp2 Hp3.
  rewrite (proj2 (Z.leb_le 0 _)), (proj2 (Z.ltb_lt _ 100)) in Hc3 by lia. cbn [andb] in Hc3. injection Hc3 as <- <-. injection Hr as _ <-.
  destruct (lookup_lt_is_Some_2 (cluster_stack s) (Z.to_nat (idx s - 1)) ltac:(lia)) as [c Hc].
  rewrite Forall_forall in Hall. pose proof (Hall c (list_elem_of_lookup_2 _ _ _ Hc)) as Hcr.
  unfold at_place, place_of, up_to, place_ok. cbn [idx cluster_stack current_cluster_pos fst].
  split; [|lia]. split; [lia|]. split; [done|]. split; [by apply Forall_forall|].
  rewrite Hp2, (nth_lookup_Some _ _ _ _ Hc), u16_small by done. done.
Qed.

(** A path puts a new position on top. *)
Lemma place_cd_down k s c x s' :
  0 <= c < 65536 ->
  (i ← gets idx; stack ← gets cluster_stack; set_place (u32 (i + 1)) stack (current_cluster_pos s) ;;
   clusters_set (u32 (i + 1)) c ;; stack ← gets cluster_stack; set_place (u32 (i + 1)) stack c ;;
   puts_lit "Successfully changed directory." 0xF) s = Ret (x, s') ->
  place_from k s -> place_from (k + 1) s'.
Proof.
  intros Hc Hr [(Hi & Hl & Hall & Htop) Hk]. cbn [fst place_of] in Hk.
  apply bind_Ret_inv in Hr as (? & ? & [= <- <-] & Hr). apply bind_Ret_inv in Hr as (? & ? & [= <- <-] & Hr).
  rewrite u32_small in Hr by lia.
  apply bind_Ret_inv in Hr as (? & s4 & [= _ <-] & Hr). apply bind_Ret_inv in Hr as (? & s5 & H5 & Hr).
  unfold clusters_set in H5. destruct (_ && _) eqn:Eb; [|done]. apply andb_true_iff in Eb as [_ Eb%Z.ltb_lt].
  injection H5 as _ <-. apply bind_Ret_inv in Hr as (? & ? & [= <- <-] & Hr). apply bind_Ret_inv in Hr as (? & s6 & [= _ <-] & Hr).
  eapply (place_puts_lit (up_to (k + 1)) _ _ _ x s' Hr). unfold at_place, place_of, up_to, place_ok.
  cbn [idx cluster_stack current_cluster_pos fst]. split; [|lia]. split; [lia|]. split; [by rewrite length_insert|]. split.
  - by apply Forall_insert.
  - apply list_lookup_insert_eq. lia.
Qed.

(** cd keeps the invariant, and the index grows by at most one. *)
Lemma place_cd k m argument : leads (place_from k) (place_from (k + 1)) (cmd_cd junk m argument).
Proof.
  unfold cmd_cd. destruct (memcmp _ _ _ _ _ =? 0).
  - intros s x s' Hr Hs. apply up_to_succ.
    apply bind_Ret_inv in Hr as (i & ? & [= <- <-] & Hr). destruct (Z.eqb_spec (idx s) 0) as [E|E].
    + by apply (place_puts_lit (up_to k) _ _ s x s' Hr).
    + apply bind_Ret_inv in Hr as (? & ? & [= <- <-] & Hr). apply bind_Ret_inv in Hr as (? & ? & [= <- <-] & Hr).
      by eapply (place_cd_up k s _ _ x s' eq_refl eq_refl E Hr).
  - intros s x s' Hr Hs. apply bind_Ret_inv in Hr as (blank & s1 & H1 & Hr).
    apply (place_blank_argument (up_to k) _ _ _ _ _ H1) in Hs. destruct blank; [injection Hr as _ <-; by apply up_to_succ|].
    pose proof Hs as [(Hi & Hl & Hall & Htop) Hk]. apply bind_Ret_inv in Hr as (? & ? & [= <- <-] & Hr).
    apply bind_Ret_inv in Hr as (buffer & s2 & H2 & Hr). apply bind_Ret_inv in Hr as ([[code c] found] & s3 & H3 & Hr).
    rewrite Forall_forall in Hall. pose proof (Hall _ (list_elem_of_lookup_2 _ _ _ Htop)) as Hcr.
    pose proof (cd_loop_range _ _ _ _ _ _ _ _ _ Hcr H3) as Hc. cbn [fst snd] in Hc.
    pose proof (place_uninit junk (fun p => p = place_of s1) _ _ _ H2 eq_refl) as Hp2.
    pose proof (place_cd_loop junk (fun p => p = place_of s1) _ _ _ _ _ _ _ _ _ H3 Hp2) as Hp3.
    assert (Hok : place_from k s3) by (unfold at_place in *; by rewrite Hp3).
    destruct found; cbn [negb] in Hr; [|by apply up_to_succ, (place_puts_lit (up_to k) _ _ s3 x s' Hr)].
    destruct (code =? 0); [|by apply up_to_succ, (place_ret (up_to k) tt s3 x s' Hr)].
    apply (place_cd_down k s3 c x s' Hc); [|done]. unfold at_place, place_of in Hp3. injection Hp3 as _ _ ->. exact Hr.
Qed.

(** Code that keeps the position, before cd. *)
Lemma leads_place {A B} k (c : M (shell_state D T) A) (f : A -> M (shell_state D T) B) :
  keeps (place_from k) c -> (forall a, leads (place_from k) (place_from (k + 1)) (f a)) ->
  leads (place_from k) (place_from (k + 1)) (c ≫= f).
Proof. intros Hc Hf. eapply leads_bind; [exact Hc|exact Hf]. Qed.

Lemma keeps_leads {A} (P : shell_state D T -> Prop) (c : M (shell_state D T) A) : keeps P c -> leads P P c.
Proof. done. Qed.

Lemma leads_kept {A} k (c : M (shell_state D T) A) : keeps (place_from k) c -> leads (place_from k) (place_from (k + 1)) c.
Proof. intros Hc s a s' Hr Hs. by eapply up_to_succ, Hc. Qed.

Lemma place_parseCommand k buffer : leads (place_from k) (place_from (k + 1)) (parseCommand junk fuel buffer).
Proof.
  unfold parseCommand. apply leads_place; [apply place_lift|]. intros [[command m] next].
  apply leads_place; [apply place_lift|]. intros [[argument m2] next2]. destruct command; [|apply leads_kept, place_undefined].
  repeat lazymatch goal with
    | |- leads _ _ (_ ≫= _) => apply leads_place; [apply place_streq|intros ?]
    | |- leads _ _ (if ?b then _ else _) => destruct b
    | |- leads _ _ (cmd_cd _ _ _) => apply place_cd
    | |- leads _ _ (cmd_ls _ _ _) => apply leads_kept, place_ls
    | |- leads _ _ (cmd_mkdir _ _) => apply leads_kept, place_mkdir
    | |- leads _ _ (cmd_cat _ _ _) => apply leads_kept, place_cat
    | |- leads _ _ (cmd_cp _ _) => apply leads_kept, place_cp
    | |- leads _ _ (cmd_rm _ _ _) => apply leads_kept, place_rm
    | |- leads _ _ (cmd_mv _ _ _) => apply leads_kept, place_mv
    | |- leads _ _ (cmd_find _ _ _) => apply leads_kept, place_find
    | |- leads _ _ (cmd_ps _ _) => apply leads_kept, place_ps
    | |- leads _ _ (mret _) => apply leads_kept, place_ret
    | |- leads _ _ (puts_lit _ _) => apply leads_kept, place_puts_lit
    end.
Qed.

Lemma place_handleInput P n buffer len : keeps (at_place (D := D) (T := T) P) (handleInput n buffer len).
Proof. revert buffer len. induction n as [|n IH]; intros; cbn [handleInput]; unfold sys_putchar; keeps_place; apply IH. Qed.

Lemma place_round k a b : leads (place_from k) (place_from (k + 1)) (shell_round junk fuel a b).
Proof.
  unfold shell_round. repeat lazymatch goal with
  | |- leads _ _ (parseCommand _ _ _ ≫= _) => eapply leads_bind; [apply place_parseCommand|intros ?]
  | |- leads (place_from k) (place_from (k + 1)) (_ ≫= _) => apply leads_place; [|intros ?]
  | |- keeps _ (handleInput _ _ _) => apply place_handleInput
  | |- keeps _ _ => keeps_place
  | |- leads _ _ _ => apply keeps_leads
  end.
Qed.

(** The states at the head of the loop of [shell] after [n] rounds, with the
    contents of its two local buffers. *)
Inductive reachable (s0 : shell_state D T) : nat -> mem * mem -> shell_state D T -> Prop :=
| reachable_start b s : shell_start junk s0 = Ret (b, s) -> reachable s0 0 b s
| reachable_round n b s b' s' :
    reachable s0 n b s -> shell_round junk fuel (fst b) (snd b) s = Ret (b', s') -> reachable s0 (S n) b' s'.

(** From the zeros of the globals the position is as it should be, and the index
    has grown by at most one in each round. *)
Lemma reachable_place s0 n b s :
  idx s0 = 0 -> cluster_stack s0 = replicate 100 0 -> reachable s0 n b s -> up_to (Z.of_nat n) (place_of s).
Proof.
  intros Hi Hl Hreach. induction Hreach as [b s Hs|n b s b' s' Hreach IH Hr].
  - unfold shell_start, mbind, M_bind, uninit, gets, set_place, modify in Hs. cbn [idx cluster_stack] in Hs.
    unfold clusters_set, set_place, modify in Hs. cbn [Z.leb Z.ltb andb Z.compare] in Hs. injection Hs as _ <-.
    unfold place_of. cbn [idx cluster_stack current_cluster_pos]. rewrite Hi, Hl.
    split; [|done]. apply (bool_decide_unpack _). reflexivity.
  - rewrite Nat2Z.inj_succ. by eapply (place_round (Z.of_nat n) (fst b) (snd b) s b' s').
Qed.

End Invariant.
