(* ===== verification/ShellCd.v ===== *)
(** Theorems about the command cd: walking a path, going back, and the end of
    the array [clusters]. *)
From Stdlib Require Import ZArith Lia.
From Stdlib Require Strings.String.
From stdpp Require Import base numbers option strings zmap functions list.
From S2P Require Import Prelude CString Disk FatTypes Fat32 FatView FatRead FatWrite FatCreate Process Interrupt Terminal Shell Commands ShellRules ShellPath ShellParse ShellPlace.

(** ** Blank arguments *)

Lemma strspn_member_spec fuel m p a ds :
  is_cstr m a ds -> (length ds < fuel)%nat ->
  strspn_member fuel m p a = Ret (bool_decide (mget m p ∈ ds)).
Proof.
  revert fuel a. induction ds as [|b ds IH]; intros fuel a Hs Hf; (destruct fuel as [|fuel]; [lia|]); cbn [strspn_member].
  - apply is_cstr_nil, char_at_zero in Hs. rewrite Hs. cbn. by rewrite bool_decide_eq_false_2 by apply not_elem_of_nil.
  - apply is_cstr_cons in Hs as (Hb & Hnz & Hs).
    rewrite (proj2 (Z.eqb_neq _ _)) by (rewrite char_at_zero; congruence).
    destruct (Z.eqb_spec (char_at m p) (char_at m a)) as [E|E]; rewrite char_at_eq, Hb in E.
    + rewrite bool_decide_eq_true_2; [done|]. rewrite E. apply elem_of_cons. by left.
    + rewrite IH by (done || cbn [length] in Hf; lia). do 2 f_equal. apply bool_decide_ext. rewrite elem_of_cons. tauto.
Qed.

(** An argument that starts with another character is not blank. *)
Lemma wp_blank {D T} (s : shell_state D T) m a x b arg (Q : bool -> shell_state D T -> Prop) :
  is_cstr m a x -> is_cstr m blanks_addr blanks -> x = b :: arg -> b ∉ blanks -> (length arg < 255)%nat -> Q false s ->
  wp (blank_argument m (Some a)) Q s.
Proof.
  intros Hs Hb -> Hnb Hl HQ. unfold blank_argument. apply wp_bind.
  eapply wp_lift_ret; [apply (strlen_spec _ _ (b :: arg) Hs); unfold string_fuel; cbn [length]; lia|].
  apply wp_bind. eapply (wp_lift_ret _ 0).
  - unfold strspn. replace string_fuel with (S (Z.to_nat 4095)) by (unfold string_fuel; lia).
    apply is_cstr_cons in Hs as (Hc & Hnz & _). cbn [strspn_loop].
    rewrite (proj2 (Z.eqb_neq _ _)) by (rewrite char_at_zero; congruence).
    rewrite (strspn_member_spec _ _ _ _ blanks) by (done || unfold blanks; cbn [length]; lia).
    by rewrite bool_decide_eq_false_2 by (rewrite Hc; done).
  - apply wp_ret. rewrite (proj2 (Z.eqb_neq _ 0)); [done|]. cbn [length]. lia.
Qed.

Lemma wp_argument {D T} (s : shell_state D T) m cmd b arg (Q : bool -> shell_state D T -> Prop) :
  one_argument m cmd (b :: arg) -> b ∉ blanks -> (length arg < 255)%nat -> Q false s ->
  wp (blank_argument m (Some (Z.of_nat (length cmd) + 1))) Q s.
Proof. intros [Hs _ Hb]. by eapply wp_blank. Qed.

(** ** Components of a path *)

Section Cd.
Context {D T : Type} `{DiskSpec D, TerminalSpec T} (junk : nat -> mem).
Implicit Types (s : shell_state D T) (v : view).

(** A component: one to seven characters, none of them a backslash. *)
Definition component (x : list byte) : Prop := plain x /\ (1 <= length x <= 7)%nat.

Lemma wp_component_length m a x rest (Q : Z -> shell_state D T -> Prop) s :
  component x -> is_cstr m a (x ++ rest) -> (length (x ++ rest) < string_fuel)%nat ->
  (rest = [] \/ exists l, rest = z2b 92 :: l) -> Q (Z.of_nat (length x)) s ->
  wp (component_length 10 m a 0) Q s.
Proof.
  intros [[Hx0 Hx92] Hlen] Hs Hf Hrest HQ.
  enough (Hgo : forall n k, (length x - k < n)%nat -> (k <= length x)%nat ->
    wp (component_length n m a (Z.of_nat k)) Q s) by (apply (Hgo 10%nat 0%nat); lia).
  induction n as [|n IH]; intros k Hn Hk; [lia|]. cbn [component_length].
  assert (Hdrop : is_cstr m (a + Z.of_nat k) (drop k (x ++ rest))).
  { replace k with (length (take k (x ++ rest))) at 1 by (rewrite length_take, length_app; lia).
    apply is_cstr_drop. by rewrite take_drop. }
  destruct (decide (k = length x)) as [->|Hne].
  - destruct Hrest as [->|[l ->]].
    + rewrite app_nil_r, drop_all in Hdrop. apply is_cstr_nil in Hdrop as Hz.
      rewrite (proj2 (Z.eqb_neq (char_at _ _) 92)).
      2: { rewrite char_92, Hz. by apply (bool_decide_unpack _). }
      rewrite (proj2 (Z.ltb_lt _ 8)) by lia. cbn [negb andb]. apply wp_bind.
      eapply wp_lift_ret; [by apply (strlen_spec _ _ []); [|unfold string_fuel; cbn [length]; lia]|]. by apply wp_ret.
    + rewrite drop_app_length in Hdrop. apply is_cstr_cons in Hdrop as (Hc & _). apply char_92 in Hc. rewrite Hc. by apply wp_ret.
  - destruct (lookup_lt_is_Some_2 x k ltac:(lia)) as [b Hb].
    rewrite drop_app_le in Hdrop by lia. rewrite (drop_S _ _ _ Hb) in Hdrop. cbn [app] in Hdrop.
    pose proof Hdrop as Hd2. apply is_cstr_cons in Hd2 as (Hc & _).
    rewrite (proj2 (Z.eqb_neq (char_at _ _) 92)).
    2: { rewrite char_92, Hc. intros ->. apply Hx92. by apply list_elem_of_lookup_2 with k. }
    rewrite (proj2 (Z.ltb_lt _ 8)) by lia. cbn [negb andb]. apply wp_bind.
    eapply wp_lift_ret; [apply (strlen_spec _ _ _ Hdrop)|].
    { cbn [length]. rewrite length_app, length_drop in *. lia. }
    rewrite (proj2 (Z.gtb_lt _ 0)) by (cbn [length]; lia).
    replace (Z.of_nat k + 1) with (Z.of_nat (S k)) by lia. apply IH; lia.
Qed.

(** ** Directories on the way *)

(** [x] names in directory [c] the directory [t]: the first entry with that name
    leads to a table whose own entry leads back to it and whose name is in use. *)
Definition child (V : clusters) (c : Z) (x : list byte) (t : Z) : Prop :=
  0 <= c < CLUSTER_MAP_SIZE /\ 0 <= t < CLUSTER_MAP_SIZE /\
  (exists i, directory_index (dir V c) (name8 x) = Some i /\ entry_cluster (dir V c i) = t) /\
  entry_cluster (dir V t 0) = t /\
  (forall b l, name (dir V t 0) = b :: l -> b2z b <> 0 /\ b2z b <> 0xE5).

Inductive walk (V : clusters) : Z -> list (list byte) -> Z -> Prop :=
| walk_here c : walk V c [] c
| walk_down c x t l c' : child V c x t -> walk V t l c' -> walk V c (x :: l) c'.

Lemma wp_interface x buffer ms a c t v s (Q : Z * mem -> shell_state D T -> Prop) :
  is_view s v -> child (disk_view v) c x t -> (length x <= 8)%nat -> load ms a (length x) = x ->
  (forall s', is_view s' v -> Q (0, store buffer 0 (disk_view v t)) s') ->
  wp (read_directory_interface junk buffer ms a (Z.of_nat (length x)) c) Q s.
Proof.
  intros Hv (Hc & Ht & (i & Hi & Hit) & Hself & Hname) Hx Hload HQ. unfold read_directory_interface. apply wp_bind.
  rewrite u16_small by fat_lia.
  eapply (wp_request junk (Request 0 (zeros 8) (zeros 3) c 0)); [exact Hv|split; [done|]; split; [done|]; cbn; fat_lia|done|].
  intros req s1 Hv1 Hreq. unfold u8. rewrite Z.mod_small, Nat2Z.id, Hload by lia. apply wp_bind, wp_put; [lia|lia|].
  pose proof (request_of_name req x Hx) as Hreq2. rewrite Hreq in Hreq2. cbn [buf req_name req_ext parent_cluster_number buffer_size] in Hreq2.
  assert (Hn8 : x ++ drop (length x) (zeros 8) = name8 x).
  { rewrite name8_short by done. f_equal. unfold zeros. by rewrite drop_replicate. }
  rewrite Hn8 in Hreq2. apply wp_bind.
  apply (wp_sys_read_directory _ i _ _ v _ _ Hv1 Hreq2); cbn [parent_cluster_number req_name];
    [split; [apply length_name8|]; split; [done|]; cbn; fat_lia|done|done|done|by rewrite Hit|].
  rewrite Hit. intros s2 Hv2. cbn [fst snd].
  assert (Hb : mget (store buffer 0 (disk_view v t)) (name_addr 0) = mget (obj (disk_view v t)) 0).
  { apply (window_store_obj buffer 0 _ 2048); [|lia]. by rewrite (disk_is_length _ _ _ (view_disk _ _ Hv) Ht). }
  rewrite Hb. destruct (Hname (mget (obj (disk_view v t)) 0) (load (obj (disk_view v t)) 1 7) eq_refl) as [Hb1 Hb2].
  change (i8 0 =? 0) with true. rewrite (proj2 (Z.eqb_neq _ _) Hb1), (proj2 (Z.eqb_neq _ _) Hb2). cbn [andb orb].
  apply wp_ret. by apply HQ.
Qed.

Lemma table_of_buffer buffer v t s i :
  is_view s v -> 0 <= t < CLUSTER_MAP_SIZE -> 0 <= i < 64 ->
  table_entry (store buffer 0 (disk_view v t)) 0 i = dir (disk_view v) t i.
Proof.
  intros Hv Ht Hi. apply (window_table_entry _ _ (obj (disk_view v t)) 0); [|done].
  apply window_store_obj. by rewrite (disk_is_length _ _ _ (view_disk _ _ Hv) Ht).
Qed.

Lemma wp_cd_loop V c l c' : walk V c l c' -> forall n m buffer progress found v s (Q : Z * Z * bool -> shell_state D T -> Prop),
  disk_view v = V -> is_view s v -> Forall component l -> is_cstr m progress (join l) ->
  (forall a, progress + Z.of_nat (length (join l)) <= a < 256 -> mget m a = z2b 0) ->
  0 <= progress < 256 -> (l = [] \/ progress + Z.of_nat (length (join l)) <= 254) -> (length l < n)%nat ->
  (forall s', is_view s' v -> Q (0, c', match l with [] => found | _ => true end) s') ->
  wp (cd_loop junk n m buffer progress c found) Q s.
Proof.
  intros Hw. induction Hw as [c|c x t l c' Hch Hw IH];
    intros n m buffer progress found v s Q HV Hv Hl Hs Hz Hp Hb Hn HQ; subst V; (destruct n as [|n]; [lia|]); cbn [cd_loop].
  - apply wp_bind. eapply wp_lift_ret; [apply (strlen_spec _ _ [] Hs); unfold string_fuel; cbn [length]; lia|].
    apply wp_ret. by apply HQ.
  - apply Forall_cons in Hl as [Hx Hl]. destruct Hb as [|Hb]; [done|].
    set (rest := match l with [] => [] | _ => z2b 92 :: join l end).
    assert (Hj : join (x :: l) = x ++ rest) by (destruct l; [by rewrite app_nil_r|done]). rewrite Hj in *.
    pose proof (proj2 Hx) as Hlen. rewrite length_app in Hb, Hz.
    assert (Hfl : (length (x ++ rest) < string_fuel)%nat) by (rewrite length_app; unfold string_fuel; lia).
    apply wp_bind. eapply wp_lift_ret; [by apply (strlen_spec _ _ _ Hs)|].
    rewrite (proj2 (Z.gtb_lt _ 0)) by (rewrite length_app; lia). cbn [negb].
    apply wp_bind. eapply (wp_component_length m progress x rest); [done|done|done|destruct l; [by left|right; by eexists]|].
    rewrite (proj2 (Z.eqb_neq _ 8)) by lia. cbn [andb]. apply wp_bind.
    eapply wp_interface; [exact Hv|exact Hch|lia|by apply (is_cstr_prefix_load _ _ _ _ Hs)|].
    intros s1 Hv1. cbn [fst snd]. change (negb (u32 0 =? 0)) with false. cbv iota zeta.
    destruct Hch as (_ & Ht & _ & Hself & Hname). rewrite (table_of_buffer _ _ _ _ 0 Hv Ht) by lia.
    assert (Hb0 : mget (store buffer 0 (disk_view v t)) (name_addr 0) = mget (obj (disk_view v t)) 0).
    { apply (window_store_obj buffer 0 _ 2048); [|lia]. by rewrite (disk_is_length _ _ _ (view_disk _ _ Hv) Ht). }
    rewrite Hb0. destruct (Hname (mget (obj (disk_view v t)) 0) (load (obj (disk_view v t)) 1 7) eq_refl) as [Hb1 _].
    rewrite (proj2 (Z.eqb_neq _ _) Hb1). cbn [negb]. rewrite Hself, u16_small by fat_lia.
    assert (Hnext : u8 (progress + Z.of_nat (length x) + 1) = progress + Z.of_nat (length x) + 1).
    { unfold u8. apply Z.mod_small. lia. }
    rewrite Hnext. apply is_cstr_drop in Hs. eapply IH; [done|exact Hv1|done|..].
    + destruct l as [|y l]; [|by apply is_cstr_cons in Hs as (_ & _ & Hs)]. apply is_cstr_nil, Hz. unfold rest. cbn [length]. lia.
    + intros a Ha. apply Hz. unfold rest. destruct l; cbn [join length] in *; lia.
    + lia.
    + destruct l as [|y l]; [by left|right]. unfold rest in Hb. cbn [length] in Hb. lia.
    + cbn [length] in Hn. lia.
    + intros s2 Hv2. specialize (HQ s2 Hv2). by destruct l.
Qed.

(** ** The command *)

Definition cd_line (path : list byte) : list byte := cstring "cd" ++ z2b 32 :: path.

(** A path that cd can walk: it does not start with "..", and its first
    character is not blank. *)
Definition walkable (path : list byte) (l : list (list byte)) : Prop :=
  path = join l /\ l <> [] /\ Forall component l /\ (z2b 32 ∉ path) /\ (length path <= 249)%nat /\
  ~ cstring ".." `prefix_of` path /\ exists b p, path = b :: p /\ b ∉ blanks.

Definition cd_message : output := Puts (cstring "Successfully changed directory.") 0xF.

(** Up to the place where the new directory is put on top of [clusters]. *)
Lemma cd_walk (P : res (unit * shell_state D T) -> Prop) m path l c' v s :
  is_view s v -> one_argument m (cstring "cd") path -> walkable path l -> walk (disk_view v) (here v) l c' ->
  (forall s', is_view s' v -> P (
     (i ← gets idx; stack ← gets cluster_stack; set_place (u32 (i + 1)) stack (here v) ;;
      clusters_set (u32 (i + 1)) c' ;; stack ← gets cluster_stack; set_place (u32 (i + 1)) stack c' ;;
      puts_lit "Successfully changed directory." 0xF) s')) ->
  P (cmd_cd junk m (Some (Z.of_nat (length (cstring "cd")) + 1)) s).
Proof.
  intros Hv Harg (Hpath & Hne & Hcomp & Hsp & Hlen & Hdots & b & p & Hbp & Hblank) Hw HR. unfold cmd_cd.
  pose proof Harg as [Hs Hz _]. change (Z.of_nat (length (cstring "cd")) + 1) with 3 in *.
  rewrite (prefix_eval m 3 path ".." 2) by first [exact Hs|by apply (bool_decide_unpack _)|done].
  rewrite bool_decide_eq_false_2 by done.
  apply wp_bind_in. rewrite Hbp in Harg, Hlen. eapply (wp_argument _ _ (cstring "cd")); [exact Harg|done|cbn [length] in Hlen; lia|].
  apply wp_bind_in. eapply wp_here; [exact Hv|]. apply wp_bind_in. eapply wp_uninit; [exact Hv|]. intros buffer s1 Hv1.
  rewrite <- Hbp in Hlen. apply wp_bind_in. rewrite Hpath in *.
  eapply (wp_cd_loop _ _ _ _ Hw); [done|exact Hv1|done|exact Hs|..].
  - intros a Ha. apply Hz. change (length (cstring "cd")) with 2%nat. lia.
  - lia.
  - right. lia.
  - assert (length l <= length (join l))%nat; [|lia]. clear - Hcomp Hne. induction Hcomp as [|x l [_ Hx] Hl IH]; [done|].
    destruct l as [|y l]; [cbn [join length]; lia|]. rewrite join_cons, length_app. cbn [length] in *. specialize (IH ltac:(done)). lia.
  - intros s2 Hv2. destruct l as [|x l]; [done|]. cbn [negb]. by apply HR.
Qed.

Lemma printed_printed o1 o2 v : printed o2 (printed o1 v) = printed (o1 ++ o2) v.
Proof. unfold printed. cbn. by rewrite app_assoc. Qed.

(** The place after a directory is put on top. *)
Definition pushed (c : Z) (v : view) : view :=
  with_place (fst (fst (place v)) + 1, <[Z.to_nat (fst (fst (place v)) + 1) := c]> (snd (fst (place v))), c) v.

Lemma wp_push c v s (Q : unit -> shell_state D T -> Prop) :
  is_view s v -> 0 <= fst (fst (place v)) < 99 ->
  (forall s', is_view s' (printed [cd_message] (pushed c v)) -> Q tt s') ->
  wp (i ← gets idx; stack ← gets cluster_stack; set_place (u32 (i + 1)) stack (here v) ;;
      clusters_set (u32 (i + 1)) c ;; stack ← gets cluster_stack; set_place (u32 (i + 1)) stack c ;;
      puts_lit "Successfully changed directory." 0xF) Q s.
Proof.
  intros Hv Hi HQ. apply wp_bind. eapply wp_idx; [exact Hv|]. rewrite u32_small by lia.
  apply wp_bind. eapply wp_stack; [exact Hv|]. apply wp_bind. eapply wp_set_place; [exact Hv|]. intros s1 Hv1.
  apply wp_bind. eapply wp_clusters_set; [exact Hv1|lia|]. intros s2 Hv2.
  apply wp_bind. eapply wp_stack; [exact Hv2|]. apply wp_bind. eapply wp_set_place; [exact Hv2|]. intros s3 Hv3.
  eapply wp_puts_lit; [exact Hv3|]. exact HQ.
Qed.

Context (fuel : nat).

(** A line "cd" with an argument runs the command. *)
Lemma parse_cd m arg s :
  holds_line m (cd_line arg) -> z2b 32 ∉ arg ->
  exists m', one_argument m' (cstring "cd") arg /\ parseCommand junk fuel m s = cmd_cd junk m' (Some 3) s.
Proof.
  intros Hm Harg. destruct (parse_one_argument junk fuel m (cstring "cd") arg s Hm) as (m' & Hone & _ & Hp); [|done|].
  - by apply (bool_decide_unpack _).
  - exists m'. split; [done|]. rewrite Hp. reflexivity.
Qed.

Lemma parse_cd_walk (P : res (unit * shell_state D T) -> Prop) m path l c' v s :
  is_view s v -> holds_line m (cd_line path) -> walkable path l -> walk (disk_view v) (here v) l c' ->
  (forall s', is_view s' v -> P (
     (i ← gets idx; stack ← gets cluster_stack; set_place (u32 (i + 1)) stack (here v) ;;
      clusters_set (u32 (i + 1)) c' ;; stack ← gets cluster_stack; set_place (u32 (i + 1)) stack c' ;;
      puts_lit "Successfully changed directory." 0xF) s')) ->
  P (parseCommand junk fuel m s).
Proof.
  intros Hv Hm Hpath Hw HP. destruct (parse_cd m path s Hm) as (m' & Hone & ->); [apply Hpath|].
  by apply (cd_walk P m' path l c' v s).
Qed.

Lemma wp_cd m path l c' v s (Q : unit -> shell_state D T -> Prop) :
  is_view s v -> holds_line m (cd_line path) -> walkable path l -> walk (disk_view v) (here v) l c' ->
  0 <= fst (fst (place v)) < 99 ->
  (forall s', is_view s' (printed [cd_message] (pushed c' v)) -> Q tt s') ->
  wp (parseCommand junk fuel m) Q s.
Proof.
  intros Hv Hm Hpath Hw Hi HQ.
  rewrite wp_ends. apply (parse_cd_walk (ends Q) m path l c' v s); try done.
  intros s' Hv'. rewrite <- wp_ends. by apply (wp_push c' v s' Q).
Qed.

(** A line "cd .." takes the position down by one. *)
Lemma parse_cd_up m s :
  holds_line m (cd_line (cstring "..")) ->
  parseCommand junk fuel m s =
    (i ← gets idx;
     if i =? 0 then puts_lit "Already in root" 0x4
     else
       stack ← gets cluster_stack;
       pos ← gets current_cluster_pos;
       set_place (i - 1) stack pos ;;
       puts_lit "Successfully changed directory." 0xF ;;
       c ← clusters_get (i - 1);
       set_place (i - 1) stack (u16 c)) s.
Proof.
  intros Hm. destruct (parse_cd m (cstring "..") s Hm) as (m' & Hone & ->); [by apply (bool_decide_unpack _)|]. unfold cmd_cd.
  pose proof (arg_string _ _ _ Hone) as Hs. change (Z.of_nat (length (cstring "cd")) + 1) with 3 in Hs.
  rewrite (prefix_eval m' 3 (cstring "..") ".." 2) by first [exact Hs|by apply (bool_decide_unpack _)|done].
  reflexivity.
Qed.

(** Going back: "cd ..". *)
Lemma wp_cd_up m v s (Q : unit -> shell_state D T -> Prop) :
  is_view s v -> holds_line m (cd_line (cstring "..")) ->
  let i := fst (fst (place v)) in
  let l := snd (fst (place v)) in
  0 < i < 101 ->
  (forall s', is_view s' (with_place (i - 1, l, u16 (nth (Z.to_nat (i - 1)) l 0)) (printed [cd_message] v)) -> Q tt s') ->
  wp (parseCommand junk fuel m) Q s.
Proof.
  intros Hv Hm i l Hi HQ. rewrite wp_ends, (parse_cd_up m s Hm), <- wp_ends.
  apply wp_bind. eapply wp_idx; [exact Hv|]. fold i. rewrite (proj2 (Z.eqb_neq i 0)) by lia.
  apply wp_bind. eapply wp_stack; [exact Hv|]. apply wp_bind. eapply wp_here; [exact Hv|].
  apply wp_bind. eapply wp_set_place; [exact Hv|]. intros s1 Hv1.
  apply wp_bind. eapply wp_puts_lit; [exact Hv1|]. intros s2 Hv2.
  apply wp_bind. eapply wp_clusters_get; [exact Hv2|lia|].
  eapply wp_set_place; [exact Hv2|]. exact HQ.
Qed.

(** "cd .." at the start of the array. *)
Definition root_message : output := Puts (cstring "Already in root") 0x4.

Lemma wp_cd_top m v s (Q : unit -> shell_state D T -> Prop) :
  is_view s v -> holds_line m (cd_line (cstring "..")) -> fst (fst (place v)) = 0 ->
  (forall s', is_view s' (printed [root_message] v) -> Q tt s') -> wp (parseCommand junk fuel m) Q s.
Proof.
  intros Hv Hm Hi HQ. rewrite wp_ends, (parse_cd_up m s Hm), <- wp_ends.
  apply wp_bind. eapply wp_idx; [exact Hv|]. rewrite Hi. by eapply wp_puts_lit.
Qed.

(** cd with a path of directories that exist, each name of one to seven
    characters: the current directory becomes the one at the end of the path,
    it is put on top of [clusters], and the success is reported; the disk, the
    processes and the typed keys are as before. *)
Theorem cd_correct m path l c' v s :
  is_view s v -> holds_line m (cd_line path) -> walkable path l -> walk (disk_view v) (here v) l c' ->
  0 <= fst (fst (place v)) < 99 ->
  exists s', parseCommand junk fuel m s = Ret (tt, s') /\ is_view s' (printed [cd_message] (pushed c' v)).
Proof.
  intros Hv Hm Hpath Hw Hi.
  destruct (wp_elim (parseCommand junk fuel m) (fun _ s' => is_view s' (printed [cd_message] (pushed c' v))) s)
    as ([] & s' & Hr & Hv'); [|by exists s'].
  by apply (wp_cd m path l c' v).
Qed.

(** C30: cd with a path and then "cd ..": the current directory is the one before
    the path, however many directories the path has; so ".." goes back to the
    place before the last cd and not to the parent directory. *)
Theorem cd_back_roundtrip m m2 path l c' v s :
  is_view s v -> place_ok (place v) -> holds_line m (cd_line path) -> holds_line m2 (cd_line (cstring "..")) ->
  walkable path l -> walk (disk_view v) (here v) l c' -> fst (fst (place v)) < 99 ->
  exists s', (parseCommand junk fuel m ;; parseCommand junk fuel m2) s = Ret (tt, s') /\
    is_view s' (printed [cd_message; cd_message] (with_place (fst (fst (place v)), snd (fst (place (pushed c' v))), here v) v)).
Proof.
  intros Hv Hok Hm Hm2 Hpath Hw Hi.
  match goal with |- exists s', _ = _ /\ is_view s' ?w =>
    destruct (wp_elim (parseCommand junk fuel m ;; parseCommand junk fuel m2) (fun _ s' => is_view s' w) s)
      as ([] & s' & Hr & Hv'); [|by exists s'] end.
  destruct (place v) as [[i stack] c] eqn:Hplace. destruct Hok as (Hi0 & Hlen & Hrange & Hc). cbn [fst snd] in *.
  apply wp_bind. apply (wp_cd m path l c' v); [done..|rewrite Hplace; cbn [fst]; lia|]. intros s1 Hv1.
  apply (wp_cd_up _ _ _ _ Hv1 Hm2); unfold pushed; cbn [place with_place printed fst snd]; rewrite Hplace; cbn [fst snd]; [lia|].
  intros s2 Hv2. replace (i + 1 - 1) with i in Hv2 by lia.
  assert (Hback : u16 (nth (Z.to_nat i) (<[Z.to_nat (i + 1) := c']> stack) 0) = here v).
  { erewrite nth_lookup_Some; [|rewrite list_lookup_insert_ne by lia; exact Hc].
    rewrite u16_small; [unfold here; by rewrite Hplace|]. rewrite Forall_forall in Hrange.
    apply Hrange. by apply list_elem_of_lookup_2 with (Z.to_nat i). }
  rewrite Hback in Hv2. by rewrite printed_printed in Hv2.
Qed.

(** the array [clusters] has 100 elements and cd does not look at the index: at
    99 a cd to a directory that exists writes behind the array. *)
Theorem cd_overflow m path l c' v s :
  is_view s v -> holds_line m (cd_line path) -> walkable path l -> walk (disk_view v) (here v) l c' ->
  fst (fst (place v)) = 99 -> parseCommand junk fuel m s = Undef.
Proof.
  intros Hv Hm Hpath Hw Hi. apply (parse_cd_walk (fun r => r = Undef) m path l c' v s); try done. intros s' Hv'.
  apply wp_bind_in. eapply wp_idx; [exact Hv'|]. rewrite Hi. apply wp_bind_in. eapply wp_stack; [exact Hv'|].
  apply wp_bind_in. eapply wp_set_place; [exact Hv'|]. intros s1 Hv1. reflexivity.
Qed.

End Cd.
