(* ===== verification/ShellFiles.v ===== *)
(** Theorems about the commands of the shell that read and write files: mkdir,
    rm, cat, cp and mv. *)
From Stdlib Require Import ZArith Lia.
From Stdlib Require Strings.String.
From stdpp Require Import base numbers option strings zmap functions list.
From S2P Require Import Prelude CString Disk FatTypes Fat32 FatView FatRead FatWrite FatCreate FatDelete FatDir Process Interrupt Terminal Shell Commands ShellRules ShellPath ShellParse ShellCd.

(** ** Names with an extension *)

(** "name" or "name.ext". *)
Definition file_text (x e : list byte) : list byte := match e with [] => x | _ => x ++ z2b 46 :: e end.

(** The extension of the request: three bytes, zeros when there is none. *)
Definition ext3 (e : list byte) : list byte := match e with [] => zeros 3 | _ => e end.

Record file_name (x e : list byte) : Prop := {
  name_plain : z2b 46 ∉ x;
  name_fits : (1 <= length x <= 8)%nat;
  ext_fits : e = [] \/ length e = 3%nat;
}.

#[export] Instance file_name_dec x e : Decision (file_name x e).
Proof.
  destruct (decide ((z2b 46 ∉ x) /\ (1 <= length x <= 8)%nat /\ (e = [] \/ length e = 3%nat))) as [(?&?&?)|Hn]; [by left|].
  right. intros []. by apply Hn.
Defined.

Lemma length_ext3 x e : file_name x e -> length (ext3 e) = 3%nat.
Proof. intros [_ _ [->|He]]; [done|]. by destruct e. Qed.

Lemma char_byte m a c : 0 <= c < 128 -> (char_at m a =? c) = bool_decide (mget m a = z2b c).
Proof.
  intros Hc. apply eq_bool_prop_intro. rewrite bool_decide_spec, Is_true_true, Z.eqb_eq. unfold char_at.
  pose proof (b2z_range (mget m a)) as Hr. split.
  - intros Hi. rewrite <- (z2b_b2z (mget m a)). f_equal. unfold i8 in Hi. Z.div_mod_to_equations. lia.
  - intros ->. rewrite b2z_z2b. unfold u8, i8. Z.div_mod_to_equations. lia.
Qed.

(** The loop over the name stops at the first dot or at the end. *)
Lemma name_length_spec fuel m a x l rest :
  z2b 46 ∉ x -> is_cstr m a (l ++ x ++ rest) -> (length x < fuel)%nat -> (length (l ++ x ++ rest) < string_fuel)%nat ->
  rest = [] \/ (exists r, rest = z2b 46 :: r) ->
  name_length fuel m a (Z.of_nat (length l)) = Ret (Z.of_nat (length (l ++ x)), bool_decide (rest <> [])).
Proof.
  intros Hx Hs Hf Hlen Hrest. revert l fuel Hs Hf Hlen. induction x as [|b x IH]; intros l fuel Hs Hf Hlen;
    (destruct fuel as [|fuel]; [cbn [length] in Hf; lia|]); cbn [name_length]; rewrite (strlen_spec _ _ _ Hs) by done; unfold mbind, res_mbind; cbn [res_bind].
  - cbn [app] in *. rewrite app_nil_r. destruct Hrest as [->|[r ->]].
    + rewrite app_nil_r, (proj2 (Z.ltb_ge _ _)) by lia. done.
    + rewrite (proj2 (Z.ltb_lt _ _)) by (rewrite length_app; cbn [length]; lia).
      apply is_cstr_drop, is_cstr_cons in Hs as (Hc & _). rewrite char_byte by lia. rewrite Hc. done.
  - rewrite (proj2 (Z.ltb_lt _ _)) by (rewrite !length_app; cbn [length]; lia).
    pose proof Hs as Hs'. apply is_cstr_drop in Hs'. cbn [app] in Hs'. apply is_cstr_cons in Hs' as (Hc & _).
    apply not_elem_of_cons in Hx as [Hb Hx]. rewrite char_byte by lia. rewrite Hc, bool_decide_eq_false_2 by congruence.
    replace (l ++ (b :: x) ++ rest) with ((l ++ [b]) ++ x ++ rest) in * by by rewrite <- !app_assoc.
    replace (Z.of_nat (length l) + 1) with (Z.of_nat (length (l ++ [b]))) by (rewrite length_app; cbn [length]; lia).
    rewrite IH by (done || cbn [length] in Hf; lia). by rewrite <- app_assoc.
Qed.

Lemma request_of_ext m bs :
  length bs = 3%nat ->
  request_of (load (store m 12 bs) 0 23) =
    Request (buf (request_of (load m 0 23))) (req_name (request_of (load m 0 23))) bs
      (parent_cluster_number (request_of (load m 0 23))) (buffer_size (request_of (load m 0 23))).
Proof.
  intros Hl. rewrite !request_of_load. cbn [buf req_name req_ext parent_cluster_number buffer_size].
  unfold load_le. rewrite load_store_eq by done. f_equal; by rewrite load_store_ne by lia.
Qed.

(** ** Rules for the calls *)

Section Files.
Context {D T : Type} `{DiskSpec D, TerminalSpec T} (junk : nat -> mem).
Implicit Types (s : shell_state D T) (v : view).

Lemma request_name8 x e c size : (length x <= 8)%nat -> x ++ drop (length x) (req_name (Request 0 (zeros 8) e c size)) = name8 x.
Proof. intros Hx. rewrite name8_short by done. cbn [req_name]. unfold zeros. by rewrite drop_replicate. Qed.

Lemma wp_named_request m a x e c size v s (Q : mem * Z -> shell_state D T -> Prop) :
  is_view s v -> file_name x e -> is_cstr m a (file_text x e) -> 0 <= c < CLUSTER_MAP_SIZE -> 0 <= size < 2147483648 ->
  (forall req s', is_view s' v -> request_of (load req 0 23) = Request 0 (name8 x) (ext3 e) c size ->
     Q (req, Z.of_nat (length x)) s') ->
  wp (named_request junk m a c size) Q s.
Proof.
  intros Hv [Hdot Hx He] Hs Hc Hsize HQ. unfold named_request. apply wp_bind.
  eapply (wp_request junk (Request 0 (zeros 8) (zeros 3) c size)); [exact Hv|split; [done|]; split; [done|]; cbn; fat_lia|done|].
  intros req s1 Hv1 Hreq. apply wp_bind.
  set (rest := match e with [] => [] | _ => z2b 46 :: e end).
  assert (Htext : file_text x e = x ++ rest) by (destruct e; [by rewrite app_nil_r|done]).
  rewrite Htext in Hs.
  assert (Hrl : (length rest <= 4)%nat) by (destruct He as [->|He]; unfold rest; [cbn; lia|destruct e; cbn [length] in *; lia]).
  eapply wp_lift_ret.
  { apply (name_length_spec _ _ _ x [] rest); [done|done|unfold string_fuel; lia|cbn [app]; rewrite length_app; unfold string_fuel; lia|].
    destruct e; [by left|right; by eexists]. }
  cbn [app]. rewrite Nat2Z.id. apply wp_bind.
  enough (Hext : forall req2, request_of (load req2 0 23) = Request 0 (zeros 8) (ext3 e) c size ->
    wp (req ← put 23 req2 4 (load m a (length x)); mret (req, Z.of_nat (length x))) Q s1).
  { destruct e as [|b e']; [by apply wp_ret, Hext|]. destruct He as [|He]; [done|].
    unfold rest in *. rewrite bool_decide_eq_true_2 by done. apply is_cstr_drop, is_cstr_cons in Hs as (_ & _ & Hs).
    apply wp_put; [done|by rewrite length_load|]. apply Hext. rewrite request_of_ext, Hreq by apply length_load.
    cbn [ext3]. destruct Hs as (Hl & _). rewrite He in Hl. by rewrite Hl. }
  intros req2 Hreq2. rewrite (is_cstr_prefix_load _ _ _ _ Hs). apply wp_bind, wp_put; [done|lia|]. apply wp_ret, HQ; [done|].
  rewrite request_of_name, Hreq2 by lia. rewrite request_name8 by lia. done.
Qed.

(** Call 0, of a file that fits the buffer. *)
Lemma wp_sys_read r i l size buffer req v (Q : Z * mem -> shell_state D T -> Prop) s :
  is_view s v -> request_of (load req 0 23) = r -> request_ok r -> buf r = 0 ->
  let p := parent_cluster_number r in
  0 <= p < CLUSTER_MAP_SIZE ->
  let e := dir (disk_view v) p i in
  dir_find (dir (disk_view v) p) (req_name r) (req_ext r) = Some i -> readable e r = true ->
  chain (cached v) (entry_cluster e) l -> Z.of_nat (length l) = filesize e / CLUSTER_SIZE + 1 ->
  Z.of_nat (length (concat (disk_view v <$> l))) <= size ->
  (forall s', is_view s' v -> Q (0, store buffer 0 (concat (disk_view v <$> l))) s') ->
  wp (sys_read size buffer req) Q s.
Proof.
  intros Hv Hreq Hr Hb p Hp e Hfind Hread Hch Hlen Hsize HQ. pose proof (view_disk _ _ Hv) as Hdisk. pose proof (view_cached _ _ Hv) as Hcached. apply wp_bind.
  eapply wp_file_call; [exact Hv|]. rewrite Hreq. eapply (wp_read_file r (disk_view v) _ i l); [done..| |done|].
  { cbn [memory]. apply (chain_ext (cached v)); [|exact Hch]. intros x Hx.
    pose proof (chain_range _ _ _ Hch) as Hg. rewrite Forall_forall in Hg. by apply Hcached, Hg. }
  cbn [user memory disk]. intros f Hu Hd Hm. exists (disk_view v), (cached v). split; [done|].
  split; [intros x Hx; rewrite Hm by done; by apply Hcached|].
  rewrite with_disk_same. intros s' Hs'. cbn [fst snd]. rewrite Hu, Hb, within_store by done.
  apply wp_ret. rewrite store_empty_union. by apply HQ.
Qed.

(** A file that does not fit is written behind the buffer. *)
Lemma sys_read_overflow r i l size buffer req v s :
  is_view s v -> request_of (load req 0 23) = r -> request_ok r -> buf r = 0 ->
  let p := parent_cluster_number r in
  0 <= p < CLUSTER_MAP_SIZE ->
  let e := dir (disk_view v) p i in
  dir_find (dir (disk_view v) p) (req_name r) (req_ext r) = Some i -> readable e r = true ->
  chain (cached v) (entry_cluster e) l -> Z.of_nat (length l) = filesize e / CLUSTER_SIZE + 1 ->
  0 <= size < Z.of_nat (length (concat (disk_view v <$> l))) ->
  sys_read size buffer req s = Undef.
Proof.
  intros Hv Hreq Hr Hb p Hp e Hfind Hread Hch Hlen Hsize. pose proof (view_disk _ _ Hv) as Hdisk. pose proof (view_cached _ _ Hv) as Hcached. unfold sys_read, fill_call.
  apply (wp_bind_in (fun r => r = Undef)). eapply wp_file_call; [exact Hv|]. rewrite Hreq.
  eapply (wp_read_file r (disk_view v) _ i l); [done..| |done|].
  { cbn [memory]. apply (chain_ext (cached v)); [|exact Hch]. intros x Hx.
    pose proof (chain_range _ _ _ Hch) as Hg. rewrite Forall_forall in Hg. by apply Hcached, Hg. }
  cbn [user memory disk]. intros f Hu Hd Hm. exists (disk_view v), (cached v). split; [done|].
  split; [intros x Hx; rewrite Hm by done; by apply Hcached|].
  intros s' Hs'. cbn [fst snd]. rewrite Hu, Hb, not_within_store by done. reflexivity.
Qed.

(** Call 0, turned down. *)
Lemma wp_sys_read_error r size buffer req v (Q : Z * mem -> shell_state D T -> Prop) s :
  is_view s v -> request_of (load req 0 23) = r -> request_ok r ->
  let p := parent_cluster_number r in
  0 <= p < CLUSTER_MAP_SIZE ->
  let found := dir_find (dir (disk_view v) p) (req_name r) (req_ext r) in
  match found with None => True | Some i => readable (dir (disk_view v) p i) r = false end ->
  (forall s', is_view s' v -> Q (if found is Some _ then 1 else 2, buffer) s') ->
  wp (sys_read size buffer req) Q s.
Proof.
  intros Hv Hreq Hr p Hp found Hcase HQ. pose proof (view_disk _ _ Hv) as Hdisk. pose proof (view_cached _ _ Hv) as Hcached. apply wp_bind. eapply wp_file_call; [exact Hv|]. rewrite Hreq.
  eapply (wp_read_error r (disk_view v)); [done..|]. cbn [user memory disk]. intros f Hd Hu Hm.
  exists (disk_view v), (cached v). split; [done|]. split; [intros x Hx; rewrite Hm by done; by apply Hcached|].
  rewrite with_disk_same. intros s' Hs'. cbn [fst snd]. rewrite Hu, within_empty. apply wp_ret.
  rewrite (left_id_L ∅ (∪)). by apply HQ.
Qed.

(** Calls 2 and 3, from the rules for [write] and [delete]. *)
Lemma wp_sys_write (P : Z -> clusters -> Prop) r data req v (Q : Z -> shell_state D T -> Prop) s :
  is_view s v -> request_of (load req 0 23) = r ->
  wp (write r) (fun code f => exists V, disk_is (disk f) V /\ P code V) (Fs (driver (krn s)) (device (krn s)) data) ->
  (forall code V g s', P code V -> is_view s' (with_disk V g v) -> Q code s') ->
  wp (sys_write data req) Q s.
Proof.
  intros Hv Hreq Hwp HQ. apply wp_bind. eapply wp_file_call; [exact Hv|]. rewrite Hreq. eapply wp_mono; [exact Hwp|].
  intros code f (V & Hd & HP). exists V, (cluster_map (memory f)). split; [done|]. split; [done|].
  intros s' Hs'. apply wp_ret. by eapply HQ.
Qed.

Lemma wp_sys_delete (P : Z -> clusters -> Prop) r req v (Q : Z -> shell_state D T -> Prop) s :
  is_view s v -> request_of (load req 0 23) = r ->
  wp (delete delete_fuel r) (fun code f => exists V, disk_is (disk f) V /\ P code V) (Fs (driver (krn s)) (device (krn s)) ∅) ->
  (forall code V g s', P code V -> is_view s' (with_disk V g v) -> Q code s') ->
  wp (sys_delete req) Q s.
Proof.
  intros Hv Hreq Hwp HQ. apply wp_bind. eapply wp_file_call; [exact Hv|]. rewrite Hreq. eapply wp_mono; [exact Hwp|].
  intros code f (V & Hd & HP). exists V, (cluster_map (memory f)). split; [done|]. split; [done|].
  intros s' Hs'. apply wp_ret. by eapply HQ.
Qed.

End Files.
