(* ===== verification/ShellMkdir.v ===== *)
(** Theorems about the commands that change directories: mkdir and rm, and that
    rm undoes mkdir. *)
From Stdlib Require Import ZArith Lia.
From Stdlib Require Strings.String.
From stdpp Require Import base numbers option strings zmap functions list.
From S2P Require Import Prelude CString Disk FatTypes Fat32 FatView FatRead FatWrite FatCreate FatDelete FatDir Process Interrupt Terminal Shell Commands ShellRules ShellPath ShellParse ShellCd ShellFiles.

(** ** Messages *)

Definition mkdir_message (code : Z) : output :=
  if code =? 0 then Puts (cstring "Folder created successfully") 0x2
  else if code =? 1 then Puts (cstring "Folder already exists") 0x4
  else if code =? 2 then Puts (cstring "Invalid parent cluster") 0x4
  else Puts (cstring "Unknown error") 0x4.

Definition rm_message (code : Z) : output :=
  if code =? 0 then Puts (cstring "File or directory removed successfully.") 0xF
  else Puts (cstring "Failed to remove file or directory.") 0x4.

(** ** The folder name *)

Lemma cname_load m a x n : is_cstr m a x -> cname (load m a n) = take n x.
Proof.
  revert m a x. induction n as [|n IH]; intros m a x Hs; [done|]. cbn [load cname].
  destruct x as [|b x].
  - apply is_cstr_nil in Hs. by rewrite decide_True.
  - apply is_cstr_cons in Hs as (Hb & Hnz & Hs). rewrite Hb, decide_False by done. cbn [take]. f_equal. by apply IH.
Qed.

(** A copy of [n] bytes with a NUL behind them. *)
Lemma memcpy_copy_cstr n md ms src :
  is_cstr (<[Z.of_nat n := z2b 0]> (memcpy md 0 ms src n)) 0 (cname (load ms src n)).
Proof.
  rewrite memcpy_store. set (bs := load ms src n). assert (Hl : length bs = n) by apply length_load.
  assert (Hload : load (<[Z.of_nat n := z2b 0]> (store md 0 bs)) 0 (n + 1) = bs ++ [z2b 0]).
  { rewrite load_app. f_equal.
    - transitivity (load (store md 0 bs) 0 n).
      + apply load_ext. intros i Hi. rewrite mget_insert, decide_False by lia. done.
      + by apply load_store_eq.
    - cbn [load]. by rewrite mget_insert, decide_True by lia. }
  clearbody bs. assert (Hex : exists r, bs ++ [z2b 0] = cname bs ++ z2b 0 :: r).
  { clear. induction bs as [|b bs [r IH]]; cbn [cname]; [by exists []|]. case_decide as E; [subst b; by eexists|].
    exists r. cbn [app]. by rewrite IH. }
  destruct Hex as [r Hr]. eapply is_cstr_load; [by rewrite Hload, Hr|]. apply cname_nonzero.
Qed.

Section Directories.
Context {D T : Type} `{DiskSpec D, TerminalSpec T} (junk : nat -> mem) (fuel : nat).
Implicit Types (s : shell_state D T) (v : view).

(** ** mkdir *)

Definition mkdir_line (nm : list byte) : list byte := cstring "mkdir" ++ z2b 32 :: nm.

(** The request for a name in the current directory. *)
Definition here_request (nm : list byte) (v : view) : request := Request 0 (name8 nm) (zeros 3) (here v) 0.

Lemma here_request_ok nm v : 0 <= here v < CLUSTER_MAP_SIZE -> request_ok (here_request nm v).
Proof. intros Hc. split; [apply length_name8|]. split; [done|]. cbn. fat_lia. Qed.

Lemma name8_take nm : name8 (take 8 nm) = name8 nm.
Proof.
  unfold name8. destruct (decide (length nm <= 8)%nat) as [Hle|Hgt]; [by rewrite (take_ge nm 8)|].
  rewrite !take_app_le by (rewrite ?length_take; lia). by rewrite take_take.
Qed.

Lemma wp_mkdir (P : Z -> clusters -> Prop) m nm v s (Q : unit -> shell_state D T -> Prop) :
  is_view s v -> holds_line m (mkdir_line nm) -> z2b 32 ∉ nm -> 0 <= here v < CLUSTER_MAP_SIZE ->
  (forall f : fs D, disk_is (disk f) (disk_view v) ->
     wp (write (here_request nm v)) (fun code f' => exists V, disk_is (disk f') V /\ P code V) f) ->
  (forall code V g s', P code V -> is_view s' (printed [mkdir_message (i8 code)] (with_disk V g v)) -> Q tt s') ->
  wp (parseCommand junk fuel m) Q s.
Proof.
  intros Hv Hm Hsp Hc Hwrite HQ. rewrite wp_ends.
  destruct (parse_one_argument junk fuel m (cstring "mkdir") nm s Hm) as (m' & Harg & _ & ->);
    [by apply (bool_decide_unpack _)|done|].
  change (command_of (cstring "mkdir")) with Mkdir. cbn [run_command]. rewrite <- wp_ends.
  pose proof (arg_string _ _ _ Harg) as Hs. change (Z.of_nat (length (cstring "mkdir")) + 1) with 6 in Hs.
  apply wp_bind. eapply wp_uninit; [exact Hv|]. intros md s1 Hv1. cbv zeta.
  pose proof (memcpy_copy_cstr 8 md m' 6) as Hcopy. change (Z.of_nat 8) with 8 in Hcopy. rewrite (cname_load m' 6 nm 8 Hs) in Hcopy.
  set (folder := <[8 := z2b 0]> _) in *. apply wp_bind. eapply wp_here; [exact Hv1|].
  assert (Hlen : (length (take 8 nm) <= 8)%nat) by (rewrite length_take; lia).
  apply wp_bind. eapply (wp_request junk (Request 0 (zeros 8) (zeros 3) (here v) 0)); [exact Hv1|split; [done|]; split; [done|]; cbn; fat_lia|done|].
  intros req s2 Hv2 Hreq. apply wp_bind. eapply wp_lift_ret; [apply (strlen_spec _ _ _ Hcopy); unfold string_fuel; lia|].
  rewrite Nat2Z.id. pose proof Hcopy as (Hload & _). rewrite Hload.
  apply wp_bind, wp_put; [done|lia|]. apply wp_bind.
  assert (Hreq2 : request_of (load (store req 4 (take 8 nm)) 0 23) = here_request nm v).
  { rewrite request_of_name, Hreq by done. rewrite request_name8 by done. by rewrite name8_take. }
  eapply (wp_sys_write P); [exact Hv2|exact Hreq2|apply Hwrite, (view_disk _ _ Hv2)|].
  intros code V g s3 HP Hv3. cbv zeta. pose proof (fun s' => HQ code V g s' HP) as HQ'. unfold mkdir_message in HQ'.
  destruct (i8 code =? 0); [by eapply wp_puts_lit|]. destruct (i8 code =? 1); [by eapply wp_puts_lit|].
  destruct (i8 code =? 2); by eapply wp_puts_lit.
Qed.

(** ** rm *)

Definition rm_line (nm : list byte) : list byte := cstring "rm" ++ z2b 32 :: nm.

(** A name that rm takes: at most eight characters, not blank and not the root. *)
Definition rm_name (nm : list byte) : Prop :=
  (length nm <= 8)%nat /\ (z2b 32 ∉ nm) /\ nm <> cstring "/" /\ exists b l, nm = b :: l /\ b ∉ blanks.

Lemma wp_is_in_directory m a nm path v s (Q : bool * mem -> shell_state D T -> Prop) :
  is_view s v -> is_cstr m a nm -> (length nm <= 8)%nat -> nm <> [] -> nm <> cstring "/" -> 0 <= here v < CLUSTER_MAP_SIZE ->
  0 <= entry_cluster (dir (disk_view v) (here v) 0) < CLUSTER_MAP_SIZE ->
  (forall s', is_view s' v -> Q (true, path) s') ->
  wp (is_in_directory junk (here v) m a path) Q s.
Proof.
  intros Hv Hs Hlen Hne Hroot Hc Hself HQ. unfold is_in_directory.
  assert (Hf : (length nm < string_fuel)%nat) by (unfold string_fuel; lia).
  apply wp_bind. eapply wp_intro; [apply (streq_eval _ m a nm "/" Hs); [by apply (bool_decide_unpack _)|done]|].
  rewrite bool_decide_eq_false_2 by done.
  apply wp_bind. eapply wp_intro; [apply (streq_eval _ m a nm "" Hs); [by apply (bool_decide_unpack _)|done]|].
  rewrite bool_decide_eq_false_2 by done.
  apply wp_bind. eapply wp_uninit; [exact Hv|]. intros b s1 Hv1. rewrite u16_small by fat_lia.
  eapply (wp_read_self junk); [exact Hv1|done|lia|done|]. intros s2 Hv2. cbn [fst snd]. apply wp_ret. by apply HQ.
Qed.

Lemma wp_rm (P : Z -> clusters -> Prop) m nm v s (Q : unit -> shell_state D T -> Prop) :
  is_view s v -> holds_line m (rm_line nm) -> rm_name nm -> 0 <= here v < CLUSTER_MAP_SIZE ->
  0 <= entry_cluster (dir (disk_view v) (here v) 0) < CLUSTER_MAP_SIZE ->
  (forall f : fs D, disk_is (disk f) (disk_view v) ->
     wp (delete delete_fuel (here_request nm v)) (fun code f' => exists V, disk_is (disk f') V /\ P code V) f) ->
  (forall code V g s', P code V -> is_view s' (printed [rm_message (u8 code)] (with_disk V g v)) -> Q tt s') ->
  wp (parseCommand junk fuel m) Q s.
Proof.
  intros Hv Hm (Hlen & Hsp & Hroot & b & l & Hnm & Hb) Hc Hself Hdelete HQ. rewrite wp_ends.
  destruct (parse_one_argument junk fuel m (cstring "rm") nm s Hm) as (m' & Harg & _ & ->);
    [by apply (bool_decide_unpack _)|done|].
  change (command_of (cstring "rm")) with Rm. cbn [run_command]. rewrite <- wp_ends.
  pose proof (arg_string _ _ _ Harg) as Hs. change (Z.of_nat (length (cstring "rm")) + 1) with 3 in *.
  apply wp_bind. pose proof Harg as Harg'. rewrite Hnm in Harg'. pose proof Hlen as Hlen'. rewrite Hnm in Hlen'. cbn [length] in Hlen'.
  apply (wp_argument _ _ (cstring "rm") b l); [done|done|lia|]. cbv iota.
  apply wp_bind. eapply wp_local; [exact Hv|]. intros path s1 Hv1. apply wp_bind. eapply wp_here; [exact Hv1|].
  apply wp_bind. eapply wp_is_in_directory; [exact Hv1|exact Hs|done|by rewrite Hnm|done|done|done|].
  intros s2 Hv2. cbn [fst]. apply wp_bind.
  eapply (wp_request junk (Request 0 (zeros 8) (zeros 3) (here v) 0)); [exact Hv2|split; [done|]; split; [done|]; cbn; fat_lia|done|].
  intros req s3 Hv3 Hreq. apply wp_bind. eapply wp_lift_ret; [apply (strlen_spec _ _ _ Hs); unfold string_fuel; lia|].
  rewrite Nat2Z.id. destruct Hs as (Hload & _). rewrite Hload.
  apply wp_bind, wp_put; [done|lia|]. apply wp_bind.
  assert (Hreq2 : request_of (load (store req 4 nm) 0 23) = here_request nm v).
  { rewrite request_of_name, Hreq by done. by rewrite request_name8. }
  eapply (wp_sys_delete P); [exact Hv3|exact Hreq2|apply Hdelete, (view_disk _ _ Hv3)|].
  intros code V g s4 HP Hv4. pose proof (fun s' => HQ code V g s' HP) as HQ'. unfold rm_message in HQ'.
  destruct (u8 code =? 0); by eapply wp_puts_lit.
Qed.

(** ** What the commands do *)

(** Without a size [write] makes a directory. *)
Lemma wp_write_folder r V (f : fs D) :
  request_ok r -> disk_is (disk f) V -> directory V (parent_cluster_number r) -> buffer_size r = 0 ->
  fat V FAT_CLUSTER_NUMBER <> FAT32_FAT_EMPTY_ENTRY -> fat V ROOT_CLUSTER_NUMBER <> FAT32_FAT_EMPTY_ENTRY ->
  wp (write r) (fun code f' => exists V', disk_is (disk f') V' /\
    match write_rejects V r with
    | Some c => code = c /\ V' = V
    | None => code = 0 /\ exists k c L, dir_free (dir V (parent_cluster_number r)) = Some k /\
        free_list (fat V) 3 = c :: L /\ directory_created V V' r k c
    end) f.
Proof.
  intros Hr HV Hdir Hsize Hz1 Hz2.
  eapply wp_mono; [apply (wp_write_any r V f); try done; [apply Hdir..|lia]|]. intros code f' (V' & Hd & Hout). exists V'. split; [done|].
  destruct (write_rejects V r); [done|]. unfold written in Hout. by rewrite Hsize in Hout.
Qed.

(** mkdir with a name: it asks for a directory of the first eight characters in
    the current directory, and reports the outcome.  When the file system turns
    the request down the disk is as before, and the message is "Folder already
    exists" for a name that is there and "Unknown error" otherwise; when it
    does not, the disk has the new directory.  Where the shell is, and the
    processes, are as before. *)
Theorem mkdir_correct m nm v s :
  is_view s v -> holds_line m (mkdir_line nm) -> z2b 32 ∉ nm -> directory (disk_view v) (here v) ->
  fat (disk_view v) FAT_CLUSTER_NUMBER <> FAT32_FAT_EMPTY_ENTRY ->
  fat (disk_view v) ROOT_CLUSTER_NUMBER <> FAT32_FAT_EMPTY_ENTRY ->
  let V := disk_view v in
  let r := here_request nm v in
  exists code V' g s', parseCommand junk fuel m s = Ret (tt, s') /\
    is_view s' (printed [mkdir_message code] (with_disk V' g v)) /\
    match write_rejects V r with
    | Some c => code = c /\ V' = V
    | None => code = 0 /\ exists k c, directory_created V V' r k c
    end.
Proof.
  intros Hv Hm Hsp Hdir Hf1 Hf2 V r.
  enough (Hwp : wp (parseCommand junk fuel m) (fun _ s' => exists code V' g,
    is_view s' (printed [mkdir_message code] (with_disk V' g v)) /\
    match write_rejects V r with
    | Some c => code = c /\ V' = V
    | None => code = 0 /\ exists k c, directory_created V V' r k c
    end) s).
  { apply wp_elim in Hwp as ([] & s' & Hr & code & V' & g & Hs'). by exists code, V', g, s'. }
  pose proof (here_request_ok nm v (proj1 Hdir)) as Hok.
  eapply wp_mkdir; [exact Hv|exact Hm|done|apply Hdir|by intros f Hf; apply (wp_write_folder r V f)|].
  intros code V' g s' Hout Hv'. cbv beta in Hout. exists code, V', g. destruct (write_rejects V r) as [c|] eqn:Hrej.
  - destruct Hout as [-> ->]. split; [|done]. by destruct (write_rejects_code _ _ _ Hrej) as [-> | ->].
  - destruct Hout as (-> & k & c & L & _ & _ & Hcr). split; [exact Hv'|]. split; [done|]. by exists k, c.
Qed.

(** An entry that [delete] can remove: a file with its chain, or an empty
    directory. *)
Definition removable (V : clusters) (p k : Z) : Prop :=
  let e := dir V p k in
  entry_cluster e <> ROOT_CLUSTER_NUMBER /\
  ((filesize e <> 0 /\ exists l, chain (fat V) (entry_cluster e) l /\ (FAT_CLUSTER_NUMBER ∉ l) /\ (p ∉ l)) \/
   (filesize e = 0 /\ dir_empty V (entry_cluster e) = true /\ 0 <= entry_cluster e < CLUSTER_MAP_SIZE /\
    entry_cluster e <> FAT_CLUSTER_NUMBER /\ entry_cluster e <> p)).

Lemma wp_delete_removable r V k (f : fs D) :
  request_ok r -> disk_is (disk f) V -> directory V (parent_cluster_number r) ->
  dir_find (dir V (parent_cluster_number r)) (req_name r) (req_ext r) = Some k ->
  removable V (parent_cluster_number r) k ->
  wp (delete delete_fuel r) (fun code f' => exists V', disk_is (disk f') V' /\ code = 0 /\
    entry_removed V V' (parent_cluster_number r) k) f.
Proof.
  intros Hr HV Hdir Hfind (Hroot & [(Hsize & l & Hch & Hfl & Hpl)|(Hsize & Hempty & Hc & Hcf & Hcp)]).
  - eapply wp_mono.
    { apply (wp_delete_file delete_fuel r V f k l); try done. etransitivity; [by eapply chain_length|]. unfold delete_fuel. lia. }
    intros a f' (-> & V' & Hd & _ & _ & Hrem & _). by exists V'.
  - eapply wp_mono; [by apply (wp_delete_directory delete_fuel r V f k)|].
    intros a f' (-> & V' & Hd & _ & _ & Hrem & _). by exists V'.
Qed.

(** rm with a name of at most eight characters: when the current directory has
    an entry of that name without extension that can be removed, the entry, and
    no other of the directory, is cleared and the success is reported; when the
    file system turns the request down nothing changes and the failure is
    reported.  The extension of the request is always empty, so that no file
    with an extension is ever found. *)
Theorem rm_correct m nm v s :
  is_view s v -> holds_line m (rm_line nm) -> rm_name nm -> directory (disk_view v) (here v) ->
  0 <= entry_cluster (dir (disk_view v) (here v) 0) < CLUSTER_MAP_SIZE ->
  let V := disk_view v in
  let r := here_request nm v in
  match delete_rejects V r with
  | Some _ => forall i, dir_find (dir V (here v)) (name8 nm) (zeros 3) = Some i -> 0 <= entry_cluster (dir V (here v) i) < CLUSTER_MAP_SIZE
  | None => forall i, dir_find (dir V (here v)) (name8 nm) (zeros 3) = Some i -> removable V (here v) i
  end ->
  exists V' g s', parseCommand junk fuel m s = Ret (tt, s') /\
    match delete_rejects V r with
    | Some code => V' = V /\ is_view s' (printed [Puts (cstring "Failed to remove file or directory.") 0x4] (with_disk V' g v))
    | None => is_view s' (printed [Puts (cstring "File or directory removed successfully.") 0xF] (with_disk V' g v)) /\
        exists k, name (dir V (here v) k) = name8 nm /\ entry_removed V V' (here v) k
    end.
Proof.
  intros Hv Hm Hnm Hdir Hself V r Hcase. pose proof (here_request_ok nm v (proj1 Hdir)) as Hok.
  destruct (delete_rejects V r) as [code|] eqn:Hrej.
  - destruct (wp_elim (parseCommand junk fuel m) (fun _ s' => exists g,
      is_view s' (printed [Puts (cstring "Failed to remove file or directory.") 0x4] (with_disk V g v))) s) as ([] & s' & Hr & g & Hv'); [|by exists V, g, s'].
    eapply (wp_rm (fun c V' => c = code /\ V' = V)); [exact Hv|exact Hm|done|apply Hdir|done| |].
    + intros f Hf. eapply wp_mono; [by apply (wp_delete_rejected delete_fuel r V f code); [| |apply Hdir| |]|].
      intros a f' (-> & Hd & _). by exists V.
    + intros c V' g s' [-> ->] Hv'. exists g. enough (Hu : (u8 code =? 0) = false) by (unfold rm_message in Hv'; by rewrite Hu in Hv').
      unfold delete_rejects in Hrej. by repeat case_match; simplify_eq.
  - unfold delete_rejects in Hrej. fold V in Hrej. change (req_name r) with (name8 nm) in *. change (req_ext r) with (zeros 3) in *.
    change (parent_cluster_number r) with (here v) in *. destruct (dir_find _ _ _) as [k|] eqn:Hfind; [|done].
    destruct (wp_elim (parseCommand junk fuel m) (fun _ s' => exists V' g, entry_removed V V' (here v) k /\
      is_view s' (printed [Puts (cstring "File or directory removed successfully.") 0xF] (with_disk V' g v))) s)
      as ([] & s' & Hr & V' & g & Hrem & Hv').
    + eapply (wp_rm (fun c V' => c = 0 /\ entry_removed V V' (here v) k)); [exact Hv|exact Hm|done|apply Hdir|done| |].
      * intros f Hf. apply (wp_delete_removable r V k f); [done|done|done|done|by apply Hcase].
      * intros c V' g s' [-> Hrem] Hv'. by exists V', g.
    + exists V', g, s'. split; [done|]. split; [done|]. exists k. split; [by apply dir_find_Some in Hfind as (_ & ? & _)|done].
Qed.

(** The new directory is the one that its name finds, and can be removed. *)
Lemma created_removable V V' r k c L :
  directory V (parent_cluster_number r) -> length (req_name r) = 8%nat -> req_ext r = zeros 3 ->
  dir_find (dir V (parent_cluster_number r)) (req_name r) (req_ext r) = None ->
  dir_free (dir V (parent_cluster_number r)) = Some k ->
  free_list (fat V) 3 = c :: L -> directory_created V V' r k c ->
  dir_find (dir V' (parent_cluster_number r)) (req_name r) (req_ext r) = Some k /\
  entry_cluster (dir V' (parent_cluster_number r) k) = c /\ filesize (dir V' (parent_cluster_number r) k) = 0 /\
  dir_empty V' c = true /\ c <> parent_cluster_number r /\ 3 <= c < CLUSTER_MAP_SIZE /\
  fat V c = FAT32_FAT_EMPTY_ENTRY /\ k <> 0.
Proof.
  intros (Hp & Hp1 & Hpf & Hpu) Hn He Hnone Hfree HL [Hentry [Hself [_ Hrest]] Hfat Hframe].
  pose proof Hfree as Hk. apply find_up_Some in Hk as (Hk & Hku & _).
  assert (Hk0 : k <> 0) by (intros ->; by rewrite Hpu in Hku).
  destruct (free_list_cons _ _ _ _ HL) as (_ & Hc & Hcf). set (p := parent_cluster_number r) in *.
  assert (Hcp : c <> p) by (intros ->; done).
  pose proof (Hentry k Hk) as Hek. rewrite decide_True in Hek by done.
  assert (Hcl : entry_cluster (self_entry c (req_name r)) = c) by (apply (entry_cluster_low c c); [done|done|fat_lia..]).
  rewrite Hek, Hcl. split; [|split; [done|split; [done|split; [|split; [done|split; [fat_lia|done]]]]]].
  - apply find_up_Some. split; [lia|]. split.
    + rewrite Hek. apply bool_decide_eq_true. by rewrite He.
    + intros j Hj. rewrite Hentry, decide_False by lia. apply bool_decide_eq_false. intros [Hx Hy].
      by apply (dir_find_None _ _ _ j Hnone ltac:(lia) Hx).
  - unfold dir_empty. destruct (find_up _ 2 62) as [i|] eqn:Hi; [|done].
    apply find_up_Some in Hi as (Hi & Hu & _). by rewrite Hrest in Hu by lia.
Qed.

(** C31: rm undoes mkdir: after "mkdir name" and "rm name", for a new name of at most
    eight characters in a directory with an entry to spare and a free cluster,
    both commands have reported success, every entry of the current directory
    is what it was before, but for the one that was used, which is cleared, and
    the allocation table is the one from before. *)
Theorem mkdir_rm_roundtrip m m2 nm v s k c L :
  is_view s v -> holds_line m (mkdir_line nm) -> holds_line m2 (rm_line nm) -> rm_name nm ->
  let V := disk_view v in
  directory V (here v) -> 0 <= entry_cluster (dir V (here v) 0) < CLUSTER_MAP_SIZE ->
  fat V FAT_CLUSTER_NUMBER <> FAT32_FAT_EMPTY_ENTRY -> fat V ROOT_CLUSTER_NUMBER <> FAT32_FAT_EMPTY_ENTRY ->
  dir_find (dir V (here v)) (name8 nm) (zeros 3) = None -> dir_free (dir V (here v)) = Some k ->
  free_list (fat V) 3 = c :: L ->
  exists V' g s', (parseCommand junk fuel m ;; parseCommand junk fuel m2) s = Ret (tt, s') /\
    is_view s' (printed [mkdir_message 0; rm_message 0] (with_disk V' g v)) /\
    entry_removed V V' (here v) k /\ (forall x, (0 <= x < CLUSTER_MAP_SIZE) -> fat V' x = fat V x).
Proof.
  intros Hv Hm Hm2 Hnm V Hdir Hself Hf1 Hf2 Hnone Hfree HL. set (r := here_request nm v).
  pose proof (here_request_ok nm v (proj1 Hdir)) as Hok. pose proof Hdir as (Hp & Hp1 & Hpf & Hpu).
  enough (Hwp : wp (parseCommand junk fuel m ;; parseCommand junk fuel m2) (fun _ s' => exists V' g,
    is_view s' (printed [mkdir_message 0; rm_message 0] (with_disk V' g v)) /\ entry_removed V V' (here v) k /\
    (forall x, (0 <= x < CLUSTER_MAP_SIZE) -> fat V' x = fat V x)) s).
  { apply wp_elim in Hwp as ([] & s' & Hr & V' & g & Hs'). by exists V', g, s'. }
  apply wp_bind. eapply (wp_mkdir (fun code V1 => code = 0 /\ directory_created V V1 r k c)); [exact Hv|exact Hm|apply Hnm|done| |].
  { intros f Hf. eapply wp_mono; [by apply (wp_write_directory r V f k c L)|].
    intros a f' (-> & V1 & Hd & _ & _ & Hcr). by exists V1. }
  intros code V1 g1 s1 [-> Hcr] Hv1.
  destruct (created_removable V V1 r k c L Hdir (length_name8 nm) eq_refl Hnone Hfree HL Hcr)
    as (Hfind & Hcl & Hsize & Hempty & Hcp & Hc & Hcf & Hk0). change (parent_cluster_number r) with (here v) in *.
  pose proof (dir_find_Some _ _ _ _ Hfind) as (Hk & _). destruct Hcr as [Hentry Htable Hfat Hframe].
  change (parent_cluster_number r) with (here v) in *.
  assert (He0 : dir V1 (here v) 0 = dir V (here v) 0) by by rewrite Hentry, decide_False by lia.
  eapply (wp_rm (fun code V2 => code = 0 /\ entry_removed V1 V2 (here v) k /\
    forall x, (0 <= x < CLUSTER_MAP_SIZE) -> fat V2 x = if decide (x = c) then FAT32_FAT_EMPTY_ENTRY else fat V1 x));
    [exact Hv1|exact Hm2|done|done|change (0 <= entry_cluster (dir V1 (here v) 0) < CLUSTER_MAP_SIZE); by rewrite He0| |].
  - intros f Hf. cbn [disk_view printed with_disk] in Hf. eapply wp_mono.
    { apply (wp_delete_directory delete_fuel r V1 f k); change (parent_cluster_number r) with (here v);
        rewrite ?Hcl; try done; try fat_lia.
      split; [done|]. split; [done|]. rewrite Hfat, decide_False by (done || congruence). by rewrite He0. }
    intros a f' (-> & V2 & Hd & _ & _ & Hrem & _ & Hf2x & _). exists V2. change (parent_cluster_number r) with (here v) in Hf2x. by rewrite Hcl in Hf2x.
  - intros code V2 g2 s2 (-> & Hrem & Hfat2) Hv2. exists V2, g2. split; [|split].
    + change (is_view s2 (printed [rm_message 0] (printed [mkdir_message 0] (with_disk V2 g2 v)))) in Hv2.
      by rewrite printed_printed in Hv2.
    + intros i Hi. rewrite Hrem by done. case_decide; [done|]. by rewrite Hentry, decide_False.
    + intros x Hx. rewrite Hfat2 by done. case_decide; [by subst x|]. by rewrite Hfat, decide_False.
Qed.

End Directories.
