(* ===== verification/ShellCat.v ===== *)
(** Theorems about the commands that read files: cat, cp and mv. *)
From Stdlib Require Import ZArith Lia.
From Stdlib Require Strings.String.
From stdpp Require Import base numbers option strings zmap functions list.
From S2P Require Import Prelude CString Disk FatTypes Fat32 FatView FatRead FatWrite FatCreate Process Interrupt Terminal Shell Commands ShellRules ShellPath ShellParse ShellCd ShellFiles.

(** ** Two arguments *)

(** The memory in which a command with two arguments runs; [strtok] has cut the
    line behind the first one. *)
Record two_arguments (m : mem) (cmd a1 a2 : list byte) : Prop := {
  first_string : is_cstr m (Z.of_nat (length cmd) + 1) a1;
  second_string : is_cstr m (Z.of_nat (length cmd) + 1 + Z.of_nat (length a1) + 1) a2;
  second_behind a : Z.of_nat (length cmd + 1 + length a1 + 1 + length a2) <= a < 256 -> mget m a = z2b 0;
  second_blanks : is_cstr m blanks_addr blanks;
}.

Lemma two_arguments_tokens m cmd a1 a2 :
  holds_line m (cmd ++ z2b 32 :: a1 ++ z2b 32 :: a2) -> z2b 32 ∉ cmd -> z2b 32 ∉ a1 ->
  let line := cmd ++ z2b 32 :: a1 ++ z2b 32 :: a2 in
  first_token line = cmd /\ argument_addr line = Z.of_nat (length cmd) + 1 /\ two_arguments (tokens m line) cmd a1 a2.
Proof.
  intros (Hs & Hl & Hz) Hcmd Ha1 line. pose proof (token_end_app cmd (a1 ++ z2b 32 :: a2) Hcmd) as He. fold line in He, Hs, Hl, Hz.
  pose proof (is_cstr_literals m _ Hs ltac:(lia)) as Hs'. apply is_cstr_drop in Hs'. rewrite Z.add_0_l in Hs'.
  apply is_cstr_cons in Hs' as (_ & _ & Hs'). pose proof Hs' as Hs2. apply is_cstr_drop, is_cstr_cons in Hs2 as (_ & _ & Hs2).
  assert (Hlen : length line = (length cmd + 1 + length a1 + 1 + length a2)%nat).
  { unfold line. rewrite !length_app. cbn [length]. rewrite length_app. cbn [length]. lia. }
  split; [unfold first_token; rewrite He; apply take_app_length|]. split; [unfold argument_addr; by rewrite He|].
  unfold tokens. rewrite He. replace (drop (S (length cmd)) line) with (a1 ++ z2b 32 :: a2).
  2: { unfold line. replace (S (length cmd)) with (length (cmd ++ [z2b 32])) by (rewrite length_app; cbn [length]; lia).
       change (cmd ++ z2b 32 :: a1 ++ z2b 32 :: a2) with (cmd ++ [z2b 32] ++ a1 ++ z2b 32 :: a2).
       by rewrite (app_assoc cmd), drop_app_length. }
  rewrite token_end_app by done.
  pose proof (token_end_app a1 a2 Ha1) as Hj.
  assert (Hcut : is_cstr (<[Z.of_nat (length cmd) + 1 + Z.of_nat (length a1) := z2b 0]> (with_literals m)) (Z.of_nat (length cmd) + 1) a1).
  { assert (Hlt : (length a1 < length (a1 ++ z2b 32 :: a2))%nat) by (rewrite length_app; cbn [length]; lia).
    destruct (is_cstr_split _ _ _ _ Hs' Hlt) as [Hcut _]. by rewrite take_app_length in Hcut. }
  split.
  - rewrite insert_insert_ne by lia. apply is_cstr_insert; [exact Hcut|lia].
  - apply is_cstr_insert; [|left; lia]. apply is_cstr_insert; [exact Hs2|left; lia].
  - intros a Ha. rewrite !mget_insert, !decide_False by lia. rewrite mget_literals by lia. apply Hz. lia.
  - apply is_cstr_insert; [|left; unfold blanks_addr; lia]. apply is_cstr_insert; [|left; unfold blanks_addr; lia].
    unfold with_literals. split; [by rewrite load_store_within by (cbn; lia)|].
    split; [by apply mget_store_in|by apply (bool_decide_unpack _)].
Qed.

(** ** Files *)

(** The file that a name in the current directory stands for: entry [i], not
    marked with the attribute that [read] refuses, and the clusters [l] that
    [read] asks for. *)
Record source (v : view) (x e : list byte) (i : Z) (l : list Z) : Prop := {
  source_here : 0 <= here v < CLUSTER_MAP_SIZE;
  source_found : dir_find (dir (disk_view v) (here v)) (name8 x) (ext3 e) = Some i;
  source_file : attribute (dir (disk_view v) (here v) i) <> 1;
  source_chain : chain (cached v) (entry_cluster (dir (disk_view v) (here v) i)) l;
  source_length : Z.of_nat (length l) = filesize (dir (disk_view v) (here v) i) / CLUSTER_SIZE + 1;
}.

(** A name for which [read] gives an error: the code. *)
Definition source_error (v : view) (x e : list byte) : option Z :=
  match dir_find (dir (disk_view v) (here v)) (name8 x) (ext3 e) with
  | None => Some 2
  | Some i => if attribute (dir (disk_view v) (here v) i) =? 1 then Some 1 else None
  end.

(** The code in the first byte of a variable with arbitrary contents. *)
Lemma low_byte_zero old : 0 <= old < 4294967296 -> low_byte old 0 <> 1 /\ low_byte old 0 <> 2.
Proof.
  intros Ho. unfold low_byte, i32. rewrite u32_small by done. change (u8 0) with 0.
  split; Z.div_mod_to_equations; lia.
Qed.

Section Cat.
Context {D T : Type} `{DiskSpec D, TerminalSpec T} (junk : nat -> mem) (fuel : nat).
Implicit Types (s : shell_state D T) (v : view).

Definition source_request (x e : list byte) (v : view) (size : Z) : request := Request 0 (name8 x) (ext3 e) (here v) size.

Lemma source_request_ok x e v size :
  file_name x e -> 0 <= here v < CLUSTER_MAP_SIZE -> 0 <= size < 4294967296 -> request_ok (source_request x e v size).
Proof. intros Hx Hc Hs. split; [apply length_name8|]. split; [by eapply length_ext3|]. cbn. fat_lia. Qed.

Lemma source_readable e0 r : attribute e0 <> 1 -> buffer_size r <> 0 -> readable e0 r = true.
Proof. intros Ha Hs. unfold readable. by rewrite (proj2 (Z.eqb_neq _ _) Ha), (proj2 (Z.eqb_neq _ _) Hs). Qed.

(** Call 0 for a source that fits, and for one that does not. *)
Lemma wp_read_source_file x e i l bufsize size buffer req v s (Q : Z * mem -> shell_state D T -> Prop) :
  is_view s v -> file_name x e -> source v x e i l -> request_of (load req 0 23) = source_request x e v size ->
  0 < size < 4294967296 -> 2048 * Z.of_nat (length l) <= bufsize ->
  (forall s', is_view s' v -> Q (0, store buffer 0 (concat (disk_view v <$> l))) s') ->
  wp (sys_read bufsize buffer req) Q s.
Proof.
  intros Hv Hx [Hc Hf Ha Hch Hl] Hreq Hsize Hb HQ.
  apply (wp_sys_read _ i l _ _ _ _ _ _ Hv Hreq); cbn [source_request parent_cluster_number req_name req_ext buf]; try done.
  - apply source_request_ok; [done..|lia].
  - apply source_readable; [done|cbn; lia].
  - rewrite (length_chain_data _ _ _ _ _ (view_disk _ _ Hv) Hch). lia.
Qed.

Lemma read_source_overflow x e i l bufsize size buffer req v s :
  is_view s v -> file_name x e -> source v x e i l -> request_of (load req 0 23) = source_request x e v size ->
  0 < size < 4294967296 -> 0 <= bufsize < 2048 * Z.of_nat (length l) -> sys_read bufsize buffer req s = Undef.
Proof.
  intros Hv Hx [Hc Hf Ha Hch Hl] Hreq Hsize Hb.
  apply (sys_read_overflow _ i l _ _ _ _ _ Hv Hreq); cbn [source_request parent_cluster_number req_name req_ext buf]; try done.
  - apply source_request_ok; [done..|lia].
  - apply source_readable; [done|cbn; lia].
  - rewrite (length_chain_data _ _ _ _ _ (view_disk _ _ Hv) Hch). lia.
Qed.

Lemma wp_read_source_error x e code bufsize size buffer req v s (Q : Z * mem -> shell_state D T -> Prop) :
  is_view s v -> file_name x e -> source_error v x e = Some code -> 0 <= here v < CLUSTER_MAP_SIZE ->
  request_of (load req 0 23) = source_request x e v size -> 0 < size < 4294967296 ->
  (forall s', is_view s' v -> Q (code, buffer) s') -> wp (sys_read bufsize buffer req) Q s.
Proof.
  intros Hv Hx He Hc Hreq Hsize HQ. unfold source_error in He.
  apply (wp_sys_read_error _ _ _ _ _ _ _ Hv Hreq); cbn [source_request parent_cluster_number req_name req_ext].
  - apply source_request_ok; [done..|lia].
  - done.
  - destruct (dir_find _ _ _) as [i|]; [|done]. unfold readable. by destruct (_ =? 1).
  - intros s' Hs'. destruct (dir_find _ _ _) as [i|]; [|injection He as <-; by apply HQ].
    destruct (_ =? 1); [|done]. injection He as <-. by apply HQ.
Qed.

Lemma source_error_code v x e code : source_error v x e = Some code -> code = 1 \/ code = 2.
Proof. unfold source_error. repeat case_match; intros [= <-]; auto. Qed.

(** ** cat *)

Definition cat_line (arg : list byte) : list byte := cstring "cat" ++ z2b 32 :: arg.

(** Up to the call that reads the file. *)
Lemma cat_request (P : res (unit * shell_state D T) -> Prop) m x e v s :
  is_view s v -> holds_line m (cat_line (file_text x e)) -> file_name x e -> z2b 32 ∉ file_text x e ->
  0 <= here v < CLUSTER_MAP_SIZE ->
  (forall md req s', is_view s' v -> request_of (load req 0 23) = source_request x e v (4 * CLUSTER_SIZE) ->
     P ((r ← sys_read (4 * CLUSTER_SIZE) (store md 0 (zeros (4 * 2048))) req;
         let retcode := low_byte 0 (fst r) in
         if retcode =? 3 then puts_lit "The file size is too big to read!" 0x4
         else if retcode =? 2 then puts_lit "Can't find the file!" 0x4
         else if retcode =? 1 then puts_lit "Not a file!" 0x4
         else if retcode =? -1 then puts_lit "An error occured!" 0x4
         else
           sys_puts (load (snd r) 0 2048) 0xF ;;
           sys_puts (load (snd r) 2048 2048) 0xF ;;
           sys_putchar 10 0xF) s')) ->
  P (parseCommand junk fuel m s).
Proof.
  intros Hv Hm Hx Hsp Hc HP.
  destruct (parse_one_argument junk fuel m (cstring "cat") (file_text x e) s Hm) as (m' & Harg & _ & ->);
    [by apply (bool_decide_unpack _)|done|].
  change (command_of (cstring "cat")) with Cat. cbn [run_command]. unfold cmd_cat.
  pose proof (arg_string _ _ _ Harg) as Hs.
  apply wp_bind_in. eapply wp_local; [exact Hv|]. intros md s1 Hv1. apply wp_bind_in. eapply wp_here; [exact Hv1|].
  apply wp_bind_in. eapply wp_named_request; [exact Hv1|exact Hx|exact Hs|done|done|].
  intros req s2 Hv2 Hreq. cbn [fst]. by apply HP.
Qed.

(** What cat prints of a file: its first two clusters, whole. *)
Definition cat_output (V : clusters) (l : list Z) : list output :=
  match l with
  | [] => []
  | c :: l' => [Puts (V c) 0xF; Puts (match l' with [] => zeros 2048 | c2 :: _ => V c2 end) 0xF; Putchar 10 0xF]
  end.

Definition cat_error (code : Z) : output :=
  if code =? 2 then Puts (cstring "Can't find the file!") 0x4 else Puts (cstring "Not a file!") 0x4.

Lemma load_two_clusters md (bs1 bs2 : list byte) rest :
  length bs1 = 2048%nat -> length bs2 = 2048%nat ->
  load (store md 0 (bs1 ++ bs2 ++ rest)) 0 2048 = bs1 /\ load (store md 0 (bs1 ++ bs2 ++ rest)) 2048 2048 = bs2.
Proof.
  intros Hl1 Hl2. rewrite !load_store_within by (rewrite ?length_app; lia). split.
  - change (Z.to_nat (0 - 0)) with 0%nat. rewrite drop_0, <- Hl1. apply take_app_length.
  - change (Z.to_nat (2048 - 0)) with 2048%nat. by rewrite drop_app_length', take_app_length' by done.
Qed.

(** The buffer of cat with the clusters of a file. *)
Lemma cat_buffer d V f c l md :
  disk_is d V -> chain f c l -> (length l <= 4)%nat ->
  let m := store (store md 0 (zeros (4 * 2048))) 0 (concat (V <$> l)) in
  cat_output V l = [Puts (load m 0 2048) 0xF; Puts (load m 2048 2048) 0xF; Putchar 10 0xF].
Proof.
  intros Hd Hch Hl m. pose proof (chain_range _ _ _ Hch) as Hr. destruct (chain_head _ _ _ Hch) as [l' ->].
  apply Forall_cons in Hr as [Hc Hr]. pose proof (disk_is_length _ _ _ Hd Hc) as Hlc. unfold cat_output.
  destruct l' as [|c2 l'].
  - unfold m. cbn [fmap list_fmap concat]. rewrite app_nil_r.
    rewrite (load_store_eq _ _ (V c)) by done. rewrite load_store_ne by lia. rewrite load_store_within by (unfold zeros; rewrite ?length_replicate; lia).
    do 2 f_equal.
  - apply Forall_cons in Hr as [Hc2 _]. pose proof (disk_is_length _ _ _ Hd Hc2) as Hl2.
    unfold m. cbn [fmap list_fmap concat]. by destruct (load_two_clusters (store md 0 (zeros (4 * 2048))) (V c) (V c2) (concat (V <$> l')) Hlc Hl2) as [-> ->].
Qed.

(** C33: cat of a file of at most four clusters prints its first two clusters, whole
    and with whatever bytes lie behind the end of the file, and a newline; of a
    name that is not there, or that [read] refuses, it prints the error; nothing
    else changes. *)
Theorem cat_correct m x e v s :
  is_view s v -> holds_line m (cat_line (file_text x e)) -> file_name x e -> z2b 32 ∉ file_text x e ->
  0 <= here v < CLUSTER_MAP_SIZE ->
  (forall code, source_error v x e = Some code -> 
     exists s', parseCommand junk fuel m s = Ret (tt, s') /\ is_view s' (printed [cat_error code] v)) /\
  (forall i l, source v x e i l -> (length l <= 4)%nat ->
     exists s', parseCommand junk fuel m s = Ret (tt, s') /\ is_view s' (printed (cat_output (disk_view v) l) v)).
Proof.
  intros Hv Hm Hx Hsp Hc. split.
  - intros code Hcode.
    enough (Hwp : wp (parseCommand junk fuel m) (fun _ s' => is_view s' (printed [cat_error code] v)) s).
    { apply wp_elim in Hwp as ([] & s' & Hr & Hs'). by exists s'. }
    rewrite wp_ends. apply (cat_request (ends _) m x e v s); [done..|].
    intros md req s1 Hv1 Hreq. rewrite <- wp_ends. apply wp_bind.
    eapply (wp_read_source_error x e code); [exact Hv1|done..|]. intros s2 Hv2. cbn [fst snd].
    destruct (source_error_code _ _ _ _ Hcode) as [-> | ->]; by eapply (wp_puts_lit _ _ _ (fun _ s' => is_view s' _)); [exact Hv2|].
  - intros i l Hl Hfour.
    enough (Hwp : wp (parseCommand junk fuel m) (fun _ s' => is_view s' (printed (cat_output (disk_view v) l) v)) s).
    { apply wp_elim in Hwp as ([] & s' & Hr & Hs'). by exists s'. }
    rewrite wp_ends. apply (cat_request (ends _) m x e v s); [done..|].
    intros md req s1 Hv1 Hreq. rewrite <- wp_ends. apply wp_bind.
    eapply (wp_read_source_file x e i l); [exact Hv1|done..|fat_lia|]. intros s2 Hv2. cbn [fst snd].
    rewrite (cat_buffer _ _ _ _ _ md (view_disk _ _ Hv2) (source_chain _ _ _ _ _ Hl) Hfour).
    set (buffer := store _ 0 (concat _)).
    apply wp_bind. eapply wp_sys_puts; [exact Hv2|]. intros s3 Hv3.
    apply wp_bind. eapply wp_sys_puts; [exact Hv3|]. intros s4 Hv4. eapply wp_sys_putchar; [exact Hv4|].
    intros s5 Hv5. by rewrite !printed_printed in Hv5.
Qed.

(** cat has a buffer of four clusters and tells the kernel so, but [read] copies
    the whole file: one of five clusters or more is written over the end of the
    buffer. *)
Theorem cat_overflow m x e v s i l :
  is_view s v -> holds_line m (cat_line (file_text x e)) -> file_name x e -> z2b 32 ∉ file_text x e ->
  source v x e i l -> (4 < length l)%nat -> parseCommand junk fuel m s = Undef.
Proof.
  intros Hv Hm Hx Hsp Hl Hfive. apply (cat_request (fun r => r = Undef) m x e v s); [done..|apply Hl|].
  intros md req s1 Hv1 Hreq. unfold mbind, M_bind.
  by rewrite (read_source_overflow x e i l _ (4 * CLUSTER_SIZE) _ _ v s1) by (done || fat_lia).
Qed.

(** ** The source of cp and mv *)

Definition two_line (cmd src dst : list byte) : list byte := cmd ++ z2b 32 :: src ++ z2b 32 :: dst.

Lemma parse_two_arguments m cmd a1 a2 s :
  holds_line m (two_line cmd a1 a2) -> z2b 32 ∉ cmd -> z2b 32 ∉ a1 ->
  exists m', two_arguments m' cmd a1 a2 /\
    parseCommand junk fuel m s = run_command junk fuel (command_of cmd) m' (Some (Z.of_nat (length cmd) + 1)) s.
Proof.
  intros Hm Hcmd Harg. destruct (two_arguments_tokens m cmd a1 a2 Hm Hcmd Harg) as (Ht & Ha & Htwo).
  destruct Hm as (Hs & Hl & _). eexists. split; [exact Htwo|]. rewrite (parse_eval junk fuel m _ s Hs) by lia.
  unfold two_line. by rewrite Ht, Ha.
Qed.

(** Whether an extension was given is read off the request. *)
Lemma request_extension req r :
  request_of (load req 0 23) = r -> b2z (mget req 12) = b2z (nth 0 (req_ext r) (z2b 0)).
Proof. intros <-. rewrite request_of_load. reflexivity. Qed.

(** A name whose extension, if it has one, does not start with NUL. *)
Definition target_offset (x e : list byte) : Z := 3 + Z.of_nat (length (file_text x e)) + 1.

(** A new object without an initial value. *)
Lemma wp_uninit_junk v s (Q : mem -> shell_state D T -> Prop) :
  is_view s v -> (forall n s', is_view s' v -> Q (junk n) s') -> wp (uninit junk) Q s.
Proof. intros [] HQ. apply HQ. by split. Qed.

(** The read of the source: the buffer of one cluster is filled, and the code is
    in the first byte of a variable that has no initial value. *)
Lemma wp_read_source m x e i c v s (Q : Z * mem * mem * Z -> shell_state D T -> Prop) :
  is_view s v -> file_name x e -> z2b 0 ∉ e -> is_cstr m 3 (file_text x e) -> source v x e i [c] ->
  (forall md old req s', is_view s' v -> request_of (load req 0 23) = source_request x e v (5 * CLUSTER_SIZE) ->
     Q (low_byte (load_le 4 (junk old) 0) 0, store (store md 0 (zeros 2048)) 0 (disk_view v c), req, target_offset x e) s') ->
  wp (read_source junk m) Q s.
Proof.
  intros Hv Hx He0 Hs Hl HQ. unfold read_source. apply wp_bind. eapply wp_local; [exact Hv|]. intros md s1 Hv1.
  apply wp_bind. eapply wp_here; [exact Hv1|]. apply wp_bind.
  eapply wp_named_request; [exact Hv1|exact Hx|exact Hs|apply Hl|done|]. intros req s2 Hv2 Hreq. cbv beta iota zeta.
  apply wp_bind. eapply wp_uninit_junk; [exact Hv2|]. intros old s3 Hv3.
  assert (Hoff : (if b2z (mget req 12) =? 0 then 4 + Z.of_nat (length x) else 8 + Z.of_nat (length x)) = target_offset x e).
  { rewrite (request_extension _ _ Hreq). cbn [source_request req_ext]. unfold target_offset. destruct Hx as [_ _ [->|He]].
    - change (b2z (nth 0 (ext3 []) (z2b 0)) =? 0) with true. cbn [file_text]. lia.
    - destruct e as [|b e]; [done|]. apply not_elem_of_cons in He0 as [Hb _]. cbn [ext3 nth file_text].
      rewrite (proj2 (Z.eqb_neq _ _)); [rewrite length_app; cbn [length] in *; lia|].
      intros Hz. apply Hb, b2z_inj. by rewrite Hz. }
  rewrite Hoff. apply wp_bind. eapply (wp_read_source_file x e i [c]); [exact Hv3|done|exact Hl|exact Hreq|done|cbn; fat_lia|].
  intros s4 Hv4. cbn [fst snd fmap list_fmap concat]. rewrite app_nil_r. apply wp_ret. by apply HQ.
Qed.

(** ** mv *)

(** mv never moves anything: for a source of one cluster that exists, whatever
    the target, all it does is to read the source and to report an unknown
    error; the disk, the processes and the position are as before. *)
Theorem mv_never_moves m x e dst i c v s :
  is_view s v -> holds_line m (two_line (cstring "mv") (file_text x e) dst) -> file_name x e ->
  (z2b 0 ∉ e) -> (z2b 32 ∉ file_text x e) -> (exists b l, file_text x e = b :: l /\ b ∉ blanks) ->
  source v x e i [c] ->
  exists s', parseCommand junk fuel m s = Ret (tt, s') /\ is_view s' (printed [Puts (cstring "Unknown error") 0x4] v).
Proof.
  intros Hv Hm Hx He0 Hsp (b & l & Hb & Hnb) Hl.
  enough (Hwp : wp (parseCommand junk fuel m) (fun _ s' => is_view s' (printed [Puts (cstring "Unknown error") 0x4] v)) s).
  { apply wp_elim in Hwp as ([] & s' & Hr & Hs'). by exists s'. }
  rewrite wp_ends. destruct (parse_two_arguments m (cstring "mv") (file_text x e) dst s Hm) as (m' & [Hs _ _ Hbl] & ->);
    [by apply (bool_decide_unpack _)|done|].
  change (command_of (cstring "mv")) with Mv. cbn [run_command].
  change (Z.of_nat (length (cstring "mv")) + 1) with 3 in *.
  rewrite <- wp_ends.
  assert (Hlen : (length (file_text x e) <= 250)%nat).
  { destruct Hm as (_ & Hlen & _). unfold two_line in Hlen. rewrite length_app in Hlen. cbn [length] in Hlen. rewrite length_app in Hlen. cbn [length] in Hlen. lia. }
  apply wp_bind. eapply wp_blank; [exact Hs|exact Hbl|exact Hb|done|rewrite Hb in Hlen; cbn [length] in Hlen; lia|].
  apply wp_bind. eapply wp_read_source; [exact Hv|exact Hx|done|exact Hs|exact Hl|]. intros md old req s1 Hv1 _. cbv beta iota zeta.
  destruct (low_byte_zero (load_le 4 (junk old) 0) (load_le_range 4 _ _)) as [Hz1 Hz2].
  rewrite (proj2 (Z.eqb_neq _ _) Hz1), (proj2 (Z.eqb_neq _ _) Hz2). by eapply wp_puts_lit.
Qed.

End Cat.
