(* ===== verification/ShellCp.v ===== *)
(** Theorems about the command cp. *)
From Stdlib Require Import ZArith Lia.
From Stdlib Require Strings.String.
From stdpp Require Import base numbers option strings zmap functions list.
From S2P Require Import Prelude CString Disk FatTypes Fat32 FatView FatRead FatWrite FatCreate Process Interrupt Terminal Shell Commands ShellRules ShellPath ShellParse ShellCd ShellFiles ShellCat.

(** ** The request for the copy *)

Lemma request_of_parent m c :
  0 <= c < 4294967296 ->
  request_of (load (store_le 4 m 15 c) 0 23) =
    Request (buf (request_of (load m 0 23))) (req_name (request_of (load m 0 23))) (req_ext (request_of (load m 0 23)))
      c (buffer_size (request_of (load m 0 23))).
Proof.
  intros Hc. rewrite !request_of_load. cbn [buf req_name req_ext parent_cluster_number buffer_size].
  assert (Hle : load_le 4 (store_le 4 m 15 c) 15 = c) by (by rewrite load_le_store_eq; apply Z.mod_small).
  rewrite Hle, !load_le_store_ne by lia. unfold store_le. by rewrite !load_store_ne by (rewrite ?length_le_bytes; lia).
Qed.

(** The eight bytes of a name at the end of the line. *)
Lemma load_name8 m a x :
  is_cstr m a x -> (length x <= 8)%nat -> (forall i, a + Z.of_nat (length x) <= i < a + 8 -> mget m i = z2b 0) ->
  load m a 8 = name8 x.
Proof.
  intros (Hl & _) Hx Hz. rewrite name8_short by done.
  replace 8%nat with (length x + (8 - length x))%nat at 1 by lia. rewrite load_app, Hl. f_equal.
  apply list_eq_same_length with (n := (8 - length x)%nat); rewrite ?length_load; [unfold zeros; apply length_replicate|done|].
  intros i b1 b2 Hi. rewrite lookup_load by done. unfold zeros. rewrite lookup_replicate_2 by done. intros [= <-] [= <-].
  apply Hz. lia.
Qed.

(** The name of a request as a string: the extension behind it is empty. *)
Lemma request_name_cstr req x c size :
  request_of (load req 0 23) = Request 0 (name8 x) (zeros 3) c size -> (length x <= 8)%nat -> z2b 0 ∉ x -> is_cstr req 4 x.
Proof.
  intros Hr Hx H0. rewrite request_of_load in Hr.
  pose proof (f_equal req_name Hr) as Hn. pose proof (f_equal req_ext Hr) as He. change (load req 4 8 = name8 x) in Hn. change (load req 12 3 = zeros 3) in He.
  apply (is_cstr_load req 4 (8 + 3) x (zeros (8 - length x) ++ zeros 2)); [|done].
  rewrite load_app, Hn. change (4 + Z.of_nat 8) with 12. rewrite He, name8_short by done. rewrite <- app_assoc. f_equal.
  unfold zeros. rewrite <- replicate_add. change (z2b 0 :: replicate (8 - length x) (z2b 0) ++ replicate 2 (z2b 0)) with (replicate 1 (z2b 0) ++ replicate (8 - length x) (z2b 0) ++ replicate 2 (z2b 0)).
  rewrite <- !replicate_add. f_equal. lia.
Qed.

Section Cp.
Context {D T : Type} `{DiskSpec D, TerminalSpec T} (junk : nat -> mem) (fuel : nat).
Implicit Types (s : shell_state D T) (v : view).

(** [retcode] and [retcode2] have no initial value, and the call stores one byte
    of the four: what the local object number [n] held before decides what cp
    makes of a code 0. *)
Definition stale (n : nat) : bool := 256 <=? load_le 4 (junk n) 0.

Lemma low_byte_stale n : (low_byte (load_le 4 (junk n) 0) 0 =? 0) = negb (stale n).
Proof.
  pose proof (load_le_range 4 (junk n) 0) as Hr. unfold stale, low_byte, i32. rewrite u32_small by done. change (u8 0) with 0.
  destruct (Z.leb_spec 256 (load_le 4 (junk n) 0)); cbn [negb]; [apply Z.eqb_neq|apply Z.eqb_eq]; Z.div_mod_to_equations; lia.
Qed.

Lemma low_byte_other n :
  (low_byte (load_le 4 (junk n) 0) 0 =? 1) = false /\ (low_byte (load_le 4 (junk n) 0) 0 =? 2) = false.
Proof. destruct (low_byte_zero (load_le 4 (junk n) 0)); [apply load_le_range|]. by split; apply Z.eqb_neq. Qed.

(** The folder [dst] of the current directory, as cp finds it: an entry of that
    name, leading to a table whose first entry has the name and leads to
    itself. *)
Definition folder (V : clusters) (c : Z) (dst : list byte) (t : Z) : Prop :=
  (exists j, directory_index (dir V c) (name8 dst) = Some j /\ entry_cluster (dir V c j) = t) /\
  entry_cluster (dir V t 0) = t /\ name (dir V t 0) = name8 dst.

Lemma wp_match_entry V t dst req2 c size v md s (Q : option Z -> shell_state D T -> Prop) :
  is_view s v -> disk_view v = V -> 0 <= t < CLUSTER_MAP_SIZE -> name (dir V t 0) = name8 dst ->
  request_of (load req2 0 23) = Request 0 (name8 dst) (zeros 3) c size -> (length dst <= 8)%nat -> z2b 0 ∉ dst ->
  Q (Some 0) s -> wp (match_entry (store md 0 (V t)) req2) Q s.
Proof.
  intros Hv <- Ht Hname Hreq Hd H0d HQ. pose proof (request_name_cstr _ _ _ _ Hreq Hd H0d) as Hs. unfold match_entry.
  apply wp_bind. eapply wp_lift_ret; [apply (strlen_spec _ _ _ Hs); unfold string_fuel; lia|]. rewrite Nat2Z.id.
  apply wp_ret. cbn [find_up]. replace (memcmp _ _ _ _ _ =? 0) with true; [done|]. symmetry. apply Z.eqb_eq, memcmp_zero.
  destruct Hs as (-> & _). change (name_addr 0) with 0.
  pose proof (disk_is_length _ _ _ (view_disk _ _ Hv) Ht) as Hlt.
  change (name (dir (disk_view v) t 0)) with (load (obj (disk_view v t)) 0 8) in Hname.
  unfold obj in Hname. rewrite load_store_within in Hname by lia. rewrite load_store_within by lia.
  change (Z.to_nat (0 - 0)) with 0%nat in *. rewrite drop_0 in *.
  rewrite name8_short in Hname by done. replace (length dst) with (length dst `min` 8)%nat at 1 by lia.
  by rewrite <- take_take, Hname, take_app_length.
Qed.

(** The request with which the copy is written. *)
Definition copy_request (x e : list byte) (t : Z) : request := Request 0 (name8 x) (ext3 e) t (5 * CLUSTER_SIZE).

(** What cp says of the copy that it has written. *)
Definition copy_message (n : nat) : output :=
  if stale n then Puts (cstring "Target folder not found") 0x4 else Puts (cstring "Write success") 0x2.

(** The directory [t] has room for the copy. *)
Record has_room (V : clusters) (x e : list byte) (t k : Z) : Prop := {
  room_directory : directory V t;
  room_new : dir_find (dir V t) (name8 x) (ext3 e) = None;
  room_entry : dir_free (dir V t) = Some k;
  room_clusters : 5 <= Z.of_nat (length (free_list (fat V) 3));
}.

Definition copy_clusters (V : clusters) : list Z := take 5 (free_list (fat V) 3).

Lemma wp_cp_write m clusbuff req x e a dst t k v s (Q : unit -> shell_state D T -> Prop) :
  is_view s v -> 0 <= here v < CLUSTER_MAP_SIZE -> file_name x e ->
  request_of (load req 0 23) = source_request x e v (5 * CLUSTER_SIZE) ->
  load m a 8 = name8 dst -> (length dst <= 8)%nat -> z2b 0 ∉ dst ->
  folder (disk_view v) (here v) dst t -> has_room (disk_view v) x e t k ->
  (forall V' g n s', file_created (disk_view v) V' clusbuff (copy_request x e t) k (copy_clusters (disk_view v)) ->
     is_view s' (printed [copy_message n] (with_disk V' g v)) -> Q tt s') ->
  wp (cp_write junk m clusbuff req a) Q s.
Proof.
  intros Hv Hc Hx Hreq Hload Hd Hd0 ((j & Hfind & Hentry) & Hself & Hname) [Hdir Hnew Hfree Hroom] HQ.
  set (V := disk_view v) in *. assert (Ht : 0 <= t < CLUSTER_MAP_SIZE) by apply Hdir. unfold cp_write.
  apply wp_bind. eapply wp_here; [exact Hv|]. rewrite Hload. apply wp_bind.
  assert (Hok2 : request_ok (Request 0 (name8 dst) (zeros 3) (here v) 0)).
  { split; [apply length_name8|]. split; [done|]. cbn. fat_lia. }
  eapply (wp_request junk _ v); [exact Hv|exact Hok2|done|]. intros req2 s1 Hv1 Hreq2.
  apply wp_bind. eapply wp_uninit_junk; [exact Hv1|]. intros n s2 Hv2.
  apply wp_bind. eapply wp_local; [exact Hv2|]. intros md s3 Hv3.
  apply wp_bind. apply (wp_sys_read_directory _ j _ _ v _ _ Hv3 Hreq2); [done|done|done|done|fold V; cbn; by rewrite Hentry|].
  cbn [parent_cluster_number]. fold V. intros s4 Hv4. change (parent_cluster_number _) with (here v). fold V. rewrite Hentry.  cbn [fst snd].
  apply wp_bind. eapply (wp_match_entry V t dst); [exact Hv4|done|done|done|exact Hreq2|done|done|]. cbv beta iota zeta.
  assert (Htable : entry_cluster (table_entry (store (store md 0 (zeros 2048)) 0 (V t)) 0 0) = t).
  { rewrite (window_table_entry _ 0 (obj (V t)) 0); [exact Hself| |lia]. apply window_store_obj.
    by rewrite (disk_is_length _ V _ (view_disk _ _ Hv) Ht). }
  rewrite Htable. apply wp_bind, wp_bind.
  eapply (wp_sys_write (fun code V' => code = 0 /\ file_created V V' clusbuff (copy_request x e t) k (copy_clusters V)));
    [exact Hv4|by rewrite request_of_parent, Hreq by fat_lia| |].
  - pose proof (view_disk _ _ Hv4) as Hd4. fold V in Hd4.
    apply (wp_write_new (copy_request x e t) V _ k); cbn [copy_request parent_cluster_number req_name req_ext buffer_size]; try done.
    + split; [apply length_name8|]. split; [by eapply length_ext3|]. cbn. fat_lia.
    + intros f V' Hdf _ _ Hcr. exists V'. done.
  - intros code V' g s5 [-> Hcr] Hv5. apply wp_ret.
    destruct (low_byte_other n) as [E1 E2]. rewrite low_byte_stale, E1, E2. specialize (HQ V' g n).
    unfold copy_message in HQ. destruct (stale n); cbn [negb]; (eapply wp_puts_lit; [exact Hv5|]); intros s6 Hv6; by apply HQ.
Qed.

(** What cp leaves of the disk: in the directory [t] the entry [k] is a file of
    the name and the extension of the source, whose first cluster is the one [c]
    of the source. *)
Definition copied (V V' : clusters) (x e : list byte) (c t k : Z) : Prop :=
  exists l, length l = 5%nat /\ chain (fat V') (first_of l) l /\ V' (first_of l) = V c /\
    (forall y, 0 <= y < 64 -> dir V' t y = if decide (y = k) then file_entry (copy_request x e t) (first_of l) else dir V t y) /\
    (forall y, 0 <= y < CLUSTER_MAP_SIZE -> (y ∉ l) -> y <> FAT_CLUSTER_NUMBER -> y <> t -> V' y = V y).

Lemma created_copied V V' md x e c t k :
  file_created V V' (store md 0 (V c)) (copy_request x e t) k (copy_clusters V) ->
  5 <= Z.of_nat (length (free_list (fat V) 3)) -> length (V c) = 2048%nat -> copied V V' x e c t k.
Proof.
  intros Hcr Hfive Hlc. exists (copy_clusters V).
  assert (Hl5 : length (copy_clusters V) = 5%nat) by (unfold copy_clusters; rewrite length_take; lia).
  split; [done|]. split; [apply Hcr|]. split; [|split; [apply Hcr|apply Hcr]].
  destruct (copy_clusters V) as [|c0 l'] eqn:Hcopy; [done|]. change (first_of (c0 :: l')) with c0.
  rewrite (created_data _ _ _ _ _ _ Hcr 0 c0) by done. unfold data_cluster.
  change (Z.to_nat (Z.min CLUSTER_SIZE _)) with 2048%nat. change (buf _ + _) with 0. rewrite app_nil_r.
  by apply load_store_eq.
Qed.

(** C32: cp of a file of one cluster into a folder of the current directory with room
    for it, whatever the stack held before.  What happens depends on two local
    variables without an initial value, of which the calls store one byte of
    four.  When the upper bytes of the first, [retcode], were not zero, cp prints
    an unknown error and copies nothing, although the file was read.  Otherwise
    the folder has a new file of the name and the extension, whose first cluster
    is the one of the source; its size is always 10240 bytes in five clusters,
    whatever the size of the source: the four others are what lies behind the
    buffer.  The source, and every other directory, are as before.  The copy is
    reported, or, when the upper bytes of the second, [retcode2], were not zero,
    cp says that the folder was not found. *)
Theorem cp_correct m x e dst i c t k v s :
  is_view s v -> holds_line m (two_line (cstring "cp") (file_text x e) dst) -> file_name x e ->
  (z2b 0 ∉ e) -> (z2b 32 ∉ file_text x e) -> (length dst <= 8)%nat -> (length (file_text x e) <= 200)%nat ->
  source v x e i [c] -> folder (disk_view v) (here v) dst t -> has_room (disk_view v) x e t k ->
  exists n1 n2 s', parseCommand junk fuel m s = Ret (tt, s') /\
    if stale n1 then is_view s' (printed [Puts (cstring "Unknown error") 0x4] v)
    else exists V' g, copied (disk_view v) V' x e c t k /\
      is_view s' (printed [Puts (cstring "Read success") 0x2;
        if stale n2 then Puts (cstring "Target folder not found") 0x4 else Puts (cstring "Write success") 0x2] (with_disk V' g v)).
Proof.
  intros Hv Hm Hx He0 Hsp Hd Hlen Hl Hfolder Hroom. set (V := disk_view v) in *.
  enough (Hwp : wp (parseCommand junk fuel m) (fun _ s' => exists n1 n2,
    if stale n1 then is_view s' (printed [Puts (cstring "Unknown error") 0x4] v)
    else exists V' g, copied V V' x e c t k /\
      is_view s' (printed [Puts (cstring "Read success") 0x2; copy_message n2] (with_disk V' g v))) s).
  { apply wp_elim in Hwp as ([] & s' & Hr & n1 & n2 & Hv'). by exists n1, n2, s'. }
  match goal with |- wp _ ?R _ => set (Q := R) end. rewrite wp_ends.
  destruct (parse_two_arguments junk fuel m (cstring "cp") (file_text x e) dst s Hm) as (m' & [Hs Hs2 Hbehind _] & ->);
    [by apply (bool_decide_unpack _)|done|].
  change (command_of (cstring "cp")) with Cp. cbn [run_command].
  change (Z.of_nat (length (cstring "cp")) + 1) with 3 in *. rewrite <- wp_ends.
  change (length (cstring "cp") + 1)%nat with 3%nat in Hbehind.
  assert (Hload : load m' (target_offset x e) 8 = name8 dst).
  { apply load_name8; [exact Hs2|done|]. unfold target_offset. intros y Hy. apply Hbehind. lia. }
  pose proof (chain_range _ _ _ (source_chain _ _ _ _ _ Hl)) as Hrc. apply Forall_cons in Hrc as [Hrc _].
  apply wp_bind. eapply wp_read_source; [exact Hv|exact Hx|done|exact Hs|exact Hl|]. intros md n1 req s1 Hv1 Hreq. cbv beta iota zeta.
  destruct (low_byte_other n1) as [E1 E2]. rewrite low_byte_stale, E1, E2. destruct (stale n1) eqn:Hn1; cbn [negb].
  { eapply wp_puts_lit; [exact Hv1|]. intros s2 Hv2. exists n1, 0%nat. by rewrite Hn1. }
  apply wp_bind. eapply wp_puts_lit; [exact Hv1|]. intros s2 Hv2.
  eapply (wp_cp_write m' _ req x e _ dst t k _ s2 _ Hv2); [apply Hl|done|exact Hreq|exact Hload|done|apply Hs2|done|done|].
  intros V' g n2 s3 Hcr Hv3. exists n1, n2. rewrite Hn1. exists V', g. split.
  - eapply created_copied; [exact Hcr|apply Hroom|by apply (disk_is_length _ V _ (view_disk _ _ Hv))].
  - change (is_view s3 (printed [copy_message n2] (printed [Puts (cstring "Read success") 2] (with_disk V' g v)))) in Hv3.
    by rewrite printed_printed in Hv3.
Qed.

End Cp.
