(* ===== verification/ShellList.v ===== *)
(** Theorems about the commands that list: ls and ps. *)
From Stdlib Require Import ZArith Lia.
From Stdlib Require Strings.String.
From stdpp Require Import base numbers option strings zmap functions list.
From S2P Require Import Prelude CString Disk FatTypes Fat32 FatView FatRead FatWrite FatCreate Process Scheduler Interrupt Terminal Shell Commands ShellRules ShellPath ShellParse ShellCd ShellFiles ShellCat ShellCp.

(** ** What ls prints *)

(** The bytes from the name of an entry on. *)
Definition name_bytes (e : dirent) : list byte := name e ++ ext e ++ [z2b (attribute e)].

(** The name of an entry, up to the first NUL behind its start; for a file then
    a dot, when it has an extension, and the three bytes of the extension; and
    a space.  Entries that are not in use, and names that start with a dot, are
    left out. *)
Definition ls_text (e : dirent) : list output :=
  if user_attribute e =? 0 then []
  else if bool_decide (head (name e) = Some (z2b 46)) then []
  else
    Puts (cname (name_bytes e)) 0xF ::
    (if Z.land (attribute e) 0x10 =? 0 then
       (if bool_decide (head (ext e) = Some (z2b 0)) then [] else [Puts (cstring ".") 0xF]) ++ [Puts (ext e) 0xF]
     else []) ++
    [Puts (cstring " ") 0xF].

(** The name of every entry in use ends inside the entry. *)
Definition names_end (T : Z -> dirent) : Prop :=
  forall i, 0 <= i < 64 -> user_attribute (T i) <> 0 -> z2b 0 ∈ name_bytes (T i).

Lemma is_cstr_cname m a n bs : load m a n = bs -> z2b 0 ∈ bs -> is_cstr m a (cname bs).
Proof.
  intros Hl Hin. assert (Hex : exists r, bs = cname bs ++ z2b 0 :: r).
  { clear Hl. induction bs as [|b bs IH]; [by apply elem_of_nil in Hin|]. cbn [cname]. case_decide as E; [subst b; by eexists|].
    apply elem_of_cons in Hin as [Heq|Hin]; [congruence|]. destruct (IH Hin) as [r Hr]. exists r. cbn [app]. by rewrite <- Hr. }
  destruct Hex as [r Hr]. eapply is_cstr_load; [rewrite Hl; exact Hr|]. apply cname_nonzero.
Qed.

Lemma load_name_bytes m i : load m (name_addr i) 12 = name_bytes (table_entry m 0 i).
Proof.
  unfold name_bytes, name_addr, table_entry, entry_at. cbn [name ext attribute].
  change 12%nat with (8 + (3 + 1))%nat. rewrite !load_app. do 2 f_equal. cbn [load].
  f_equal. unfold load_le. cbn [load le_val]. rewrite Z.mul_0_r, Z.add_0_r, z2b_b2z. f_equal. lia.
Qed.

Section List.
Context {D T : Type} `{DiskSpec D, TerminalSpec T} (junk : nat -> mem) (fuel : nat).
Implicit Types (s : shell_state D T) (v : view).

Lemma wp_ls_entry m i e v s (Q : unit -> shell_state D T -> Prop) :
  is_view s v -> table_entry m 0 i = e -> (user_attribute e <> 0 -> z2b 0 ∈ name_bytes e) ->
  (forall s', is_view s' (printed (ls_text e) v) -> Q tt s') -> wp (ls_entry m i) Q s.
Proof.
  intros Hv He Hend HQ. unfold ls_entry, table_user_attribute. rewrite He. unfold ls_text in HQ.
  destruct (Z.eqb_spec (user_attribute e) 0) as [E|E].
  { apply wp_ret, HQ. unfold printed. rewrite app_nil_r. by destruct v. }
  pose proof (load_name_bytes m i) as Hload. rewrite He in Hload. specialize (Hend E).
  pose proof (is_cstr_cname _ _ _ _ Hload Hend) as Hs.
  assert (Hdot : (memcmp m (name_addr i) (lit ".") 0 1 =? 0) = bool_decide (head (name e) = Some (z2b 46))).
  { apply eq_bool_prop_intro. rewrite bool_decide_spec, Is_true_true, Z.eqb_eq, memcmp_zero, <- He, load_lit by (cbn; lia).
    unfold table_entry, entry_at, name_addr. cbn [name load head take cstring]. split; [by intros [= ->]|by intros [= ->]]. }
  assert (Hdd : (memcmp m (name_addr i) (lit "..") 0 2 =? 0) = true -> (memcmp m (name_addr i) (lit ".") 0 1 =? 0) = true).
  { rewrite !Z.eqb_eq, !memcmp_zero, !load_lit by done. cbn. by intros [= -> _]. }
  rewrite Hdot in *. case_bool_decide as Hd; cbn [orb].
  { apply wp_ret, HQ. unfold printed. rewrite app_nil_r. by destruct v. }
  destruct (memcmp m (name_addr i) (lit "..") 0 2 =? 0); [by specialize (Hdd eq_refl)|]. clear Hdd.
  assert (Hlen : (length (cname (name_bytes e)) < string_fuel)%nat).
  { pose proof (cname_length (name_bytes e)) as Hc. rewrite <- Hload, length_load in Hc. unfold string_fuel. rewrite <- Hload. lia. }
  apply wp_bind. eapply wp_lift_ret; [by apply (strlen_spec _ _ _ Hs)|]. rewrite Nat2Z.id.
  destruct Hs as (Hn & _). rewrite Hn.
  assert (Hext : load m (ext_addr i) 3 = ext e) by by rewrite <- He.
  assert (He0 : (char_at m (ext_addr i) =? 0) = bool_decide (head (ext e) = Some (z2b 0))).
  { rewrite char_byte by lia. apply bool_decide_ext. rewrite <- Hext. cbn [load head]. split; [by intros ->|by intros [= ->]]. }
  rewrite Hext, He0. apply wp_bind.
  destruct (Z.land (attribute e) 0x10 =? 0); cbn [negb].
  - apply wp_bind. case_bool_decide.
    + eapply wp_sys_puts; [exact Hv|]. intros s1 Hv1. eapply wp_sys_puts; [exact Hv1|]. intros s2 Hv2.
      eapply wp_sys_puts; [exact Hv2|]. intros s3 Hv3. apply HQ. by rewrite !printed_printed in Hv3.
    + apply wp_bind. eapply wp_sys_puts; [exact Hv|]. intros s1 Hv1. eapply wp_sys_puts; [exact Hv1|]. intros s2 Hv2.
      eapply wp_sys_puts; [exact Hv2|]. intros s3 Hv3. eapply wp_sys_puts; [exact Hv3|]. intros s4 Hv4.
      apply HQ. by rewrite !printed_printed in Hv4.
  - eapply wp_sys_puts; [exact Hv|]. intros s1 Hv1. eapply wp_sys_puts; [exact Hv1|]. intros s2 Hv2.
    apply HQ. by rewrite !printed_printed in Hv2.
Qed.

(** The listing of a directory. *)
Definition listing (E : Z -> dirent) (n : nat) : list output := concat ((fun i => ls_text (E (Z.of_nat i))) <$> seq 0 n).

Lemma listing_S E n : listing E (S n) = listing E n ++ ls_text (E (Z.of_nat n)).
Proof. unfold listing. rewrite seq_S, fmap_app, concat_app. cbn. by rewrite app_nil_r. Qed.

Lemma wp_ls m v s (Q : unit -> shell_state D T -> Prop) :
  is_view s v -> holds_line m (cstring "ls") -> 0 <= here v < CLUSTER_MAP_SIZE ->
  let E0 := dir (disk_view v) (here v) in
  entry_cluster (E0 0) = here v -> names_end E0 ->
  (forall s', is_view s' (printed (listing E0 64) v) -> Q tt s') ->
  wp (parseCommand junk fuel m) Q s.
Proof.
  intros Hv (Hs & Hl & Hz) Hc E0 Hself Hend HQ. rewrite wp_ends, (parse_eval junk fuel m _ s Hs) by (cbn; lia).
  change (command_of _) with Ls. change (argument_addr _) with 2. change (tokens m _) with (with_literals m). cbn [run_command].
  rewrite <- wp_ends.
  apply wp_bind. eapply wp_uninit; [exact Hv|]. intros b s1 Hv1. apply wp_bind. eapply wp_here; [exact Hv1|].
  eapply (wp_read_self junk); [exact Hv1|done|lia|by fold E0; rewrite Hself|]. fold E0. rewrite Hself. intros s2 Hv2. cbn [fst snd].
  assert (Hnil : is_cstr (with_literals m) 2 []) by (apply is_cstr_nil; rewrite mget_literals by lia; apply Hz; cbn; lia).
  apply wp_bind. eapply wp_lift_ret; [apply (strlen_spec _ _ [] Hnil); unfold string_fuel; cbn [length]; lia|]. cbn [length Z.of_nat Z.gtb Z.compare].
  set (dt := store b 0 _).
  assert (Hdir : forall i, 0 <= i < 64 -> table_entry dt 0 i = E0 i) by (intros i Hi; by apply (table_of_buffer b v (here v) s2)).
  apply (wp_for (fun i s' => is_view s' (printed (listing E0 (Z.to_nat i)) v))).
  - unfold printed. rewrite app_nil_r. by destruct v.
  - intros j s3 Hj Hv3. eapply (wp_ls_entry dt j (E0 j)); [exact Hv3|apply Hdir; lia|apply Hend; lia|].
    intros s4 Hv4. rewrite printed_printed in Hv4. rewrite Z2Nat.inj_add, Nat.add_1_r, listing_S, Z2Nat.id by lia. exact Hv4.
  - intros s3 Hv3. by apply HQ.
Qed.

(** C35: ls without an argument lists the entries in use of the current directory, in
    order, the directory's own entry included, as it carries the name of the
    directory and not "."; nothing else changes. *)
Theorem ls_correct m v s :
  is_view s v -> holds_line m (cstring "ls") -> 0 <= here v < CLUSTER_MAP_SIZE ->
  let E0 := dir (disk_view v) (here v) in
  entry_cluster (E0 0) = here v -> names_end E0 ->
  exists s', parseCommand junk fuel m s = Ret (tt, s') /\ is_view s' (printed (listing E0 64) v).
Proof.
  intros Hv Hm Hc E0 Hself Hend.
  destruct (wp_elim (parseCommand junk fuel m) (fun _ s' => is_view s' (printed (listing E0 64) v)) s) as ([] & s' & Hr & Hs'); [|by exists s'].
  by apply (wp_ls m v).
Qed.

(** ** ps *)

Lemma wp_puts_struct v s (Q : unit -> shell_state D T -> Prop) :
  is_view s v -> (forall s', is_view s' (printed [Puts [] 0] v) -> Q tt s') -> wp puts_struct Q s.
Proof. apply wp_sys_puts. Qed.

(** The padding loop makes no progress: it prints nothing, so that the column
    that is reported never changes. *)
Lemma pad_loop_diverges n : forall old limit v s,
  is_view s v -> 0 <= old < 256 -> 0 <= at_column v < 256 -> at_column v < limit -> pad_loop n old limit s = NoFuel.
Proof.
  induction n as [|n IH]; intros old limit v s Hv Ho Hcol Hlt; [done|]. cbn [pad_loop].
  apply (wp_bind_in (fun r => r = NoFuel)). eapply wp_puts_struct; [exact Hv|]. intros s1 Hv1.
  apply (wp_bind_in (fun r => r = NoFuel)). eapply wp_cursor_column; [exact Hv1|]. intros s2 Hv2.
  cbn [at_column printed]. cbv zeta.
  assert (Hb : u32 (low_byte old (at_column v)) = at_column v).
  { unfold low_byte. rewrite (u32_small old), (Z.div_small old) by lia. unfold u8. rewrite Z.mod_small, i32_small by lia. apply u32_small. lia. }
  rewrite Hb, (proj2 (Z.ltb_lt _ _)) by lia. by eapply IH; [exact Hv2|..].
Qed.

Lemma ps_loop_diverges n : forall old i v s,
  is_view s v -> 0 <= old < 256 -> 0 <= at_column v < 11 ->
  (exists j, i <= j < i + Z.of_nat n /\ occupied (processes_view v) j = true) -> ps_loop fuel n old i s = NoFuel.
Proof.
  induction n as [|n IH]; intros old i v s Hv Ho Hcol (j & Hj & Hocc); [lia|]. cbn [ps_loop]. unfold ps_entry.
  destruct (occupied (procs (krn s)) i) eqn:Ei.
  - unfold mbind at 1, M_bind at 1. replace ((k ← gets krn; _) s) with (@NoFuel (Z * shell_state D T)); [done|]. symmetry.
    apply (wp_bind_in (fun r => r = NoFuel)), wp_gets. rewrite Ei.
    apply (wp_bind_in (fun r => r = NoFuel)). eapply wp_puts_struct; [exact Hv|]. intros s1 Hv1.
    apply (wp_bind_in (fun r => r = NoFuel)). eapply wp_puts_struct; [exact Hv1|]. intros s2 Hv2.
    unfold mbind at 1, M_bind at 1. by rewrite (pad_loop_diverges fuel old 11 _ s2 Hv2) by (done || cbn [at_column printed]; lia).
  - apply (wp_bind_in (fun r => r = NoFuel)), wp_bind, wp_gets. rewrite Ei. apply wp_ret.
    apply (IH old (i + 1) v s Hv Ho Hcol). exists j. split; [|done].
    destruct (decide (j = i)) as [->|]; [|lia]. by rewrite (view_procs _ _ Hv), Hocc in Ei.
Qed.

(** ps never returns once there is a process, which the shell itself is, when
    the column that is reported is left of the column of the names: what it
    passes to the kernel as the text to print is a struct, with length 0, so
    that the blanks it waits for are never printed. *)
Theorem ps_never_returns m v s :
  is_view s v -> holds_line m (cstring "ps") -> (forall n, stale junk n = false) -> 0 <= at_column v < 11 ->
  (exists j, 0 <= j < PROCESS_COUNT_MAX /\ occupied (processes_view v) j = true) ->
  parseCommand junk fuel m s = NoFuel.
Proof.
  intros Hv (Hs & Hl & Hz) Hj Hcol Hocc. rewrite (parse_eval junk fuel m _ s Hs) by (cbn; lia).
  change (command_of _) with Ps. cbn [run_command]. unfold cmd_ps.
  apply (wp_bind_in (fun r => r = NoFuel)). eapply wp_puts_struct; [exact Hv|]. intros s1 Hv1.
  apply (wp_bind_in (fun r => r = NoFuel)). eapply wp_uninit_junk; [exact Hv1|]. intros n s2 Hv2.
  eapply (ps_loop_diverges _ _ 0 _ s2 Hv2); [split; [apply load_le_range|apply Z.leb_gt, Hj]|done|].
  change (Z.of_nat (Z.to_nat PROCESS_COUNT_MAX)) with PROCESS_COUNT_MAX. done.
Qed.

End List.
