(* ===== verification/ShellFind.v ===== *)
(** Theorems about the command find: the search through the tree of
    directories, as the reference on a stack that is clear, and what holds of its
    answers on any stack. *)
From Stdlib Require Import ZArith Lia.
From Stdlib Require Strings.String.
From stdpp Require Import base numbers option strings zmap functions list.
From S2P Require Import Prelude CString Disk FatTypes Fat32 FatView FatRead FatWrite FatCreate Process Interrupt Terminal Shell Commands ShellRules ShellPath ShellParse ShellCd ShellFiles ShellMkdir ShellCat ShellList.

(** ** Strings in buffers *)

(** A buffer of 256 bytes with a string, and zeros behind it. *)
Record text_in (m : mem) (t : list byte) : Prop := {
  text_plain : z2b 0 ∉ t;
  text_fits : (length t <= 255)%nat;
  text_load : load m 0 256 = t ++ zeros (256 - length t);
}.

Lemma text_in_cstr m t : text_in m t -> is_cstr m 0 t.
Proof.
  intros [Hp Hf Hl]. eapply is_cstr_load; [|exact Hp]. rewrite Hl. replace (256 - length t)%nat with (S (255 - length t)) by lia.
  reflexivity.
Qed.

(** The byte at an index of the buffer. *)
Lemma text_in_byte m t k : text_in m t -> 0 <= k < 256 -> mget m k = nth (Z.to_nat k) t (z2b 0).
Proof.
  intros [_ Hf Hl] Hk. assert (Hb : load m 0 256 !! Z.to_nat k = Some (mget m k)).
  { rewrite lookup_load by lia. do 2 f_equal. lia. }
  rewrite Hl in Hb. destruct (decide (Z.to_nat k < length t)%nat) as [Hlt|Hge].
  - rewrite lookup_app_l in Hb by done. symmetry. by apply nth_lookup_Some.
  - rewrite lookup_app_r in Hb by lia. rewrite nth_overflow by lia.
    apply lookup_replicate in Hb as [-> _]. done.
Qed.

(** A window with some of its bytes written. *)
Lemma load_store_mid m bs k n :
  (k + length bs <= n)%nat ->
  load (store m (Z.of_nat k) bs) 0 n = take k (load m 0 n) ++ bs ++ drop (k + length bs) (load m 0 n).
Proof.
  intros Hn. replace n with (k + (length bs + (n - k - length bs)))%nat by lia. rewrite !load_app.
  rewrite (load_store_ne m) by lia. rewrite load_store_eq by lia. rewrite load_store_ne by lia.
  rewrite take_app_length', drop_app_ge by (rewrite length_load; lia). rewrite length_load.
  replace (k + length bs - k)%nat with (length bs) by lia. by rewrite drop_app_length' by (by rewrite length_load).
Qed.

(** Text that is written behind the string, with its NUL. *)
Lemma text_in_append m d t :
  text_in m d -> z2b 0 ∉ t -> (length d + length t <= 255)%nat ->
  text_in (store m (Z.of_nat (length d)) (t ++ [z2b 0])) (d ++ t).
Proof.
  intros [Hp Hf Hl] Ht Hlen. split.
  - by apply not_elem_of_app.
  - rewrite length_app. lia.
  - rewrite load_store_mid by (rewrite length_app; cbn [length]; lia). rewrite Hl, take_app_length, <- !app_assoc. do 2 f_equal.
    rewrite length_app. cbn [length]. rewrite drop_app_ge by lia. unfold zeros. rewrite drop_replicate.
    change [z2b 0] with (replicate 1 (z2b 0)). rewrite <- replicate_add. f_equal. rewrite length_app. lia.
Qed.

(** A string at the start of a zeroed buffer. *)
Lemma text_in_store m t :
  (forall a, 0 <= a < 256 -> mget m a = z2b 0) -> z2b 0 ∉ t -> (length t <= 255)%nat -> text_in (store m 0 t) t.
Proof.
  intros Hm Ht Hf. split; [done|done|]. change 0 with (Z.of_nat 0) at 1. rewrite load_store_mid by lia. rewrite take_0. cbn [app Nat.add]. f_equal.
  assert (Hz : load m 0 256 = zeros 256).
  { apply list_eq_same_length with (n := 256%nat); rewrite ?length_load; try done. intros i x y Hi.
    rewrite lookup_load by done. intros [= <-]. unfold zeros. rewrite lookup_replicate. intros [-> _]. apply Hm. lia. }
  rewrite Hz. apply drop_replicate.
Qed.

(** The names of find: without the spaces at the end, but for the first
    character. *)
Fixpoint trim_rev (r : list byte) : list byte :=
  match r with
  | [] => []
  | b :: r' => if decide (b = z2b 32 /\ r' <> []) then trim_rev r' else r
  end.

Definition trim (s : list byte) : list byte := reverse (trim_rev (reverse s)).

Lemma trim_snoc s b : trim (s ++ [b]) = if decide (b = z2b 32 /\ s <> []) then trim s else s ++ [b].
Proof.
  unfold trim. rewrite reverse_snoc. cbn [trim_rev].
  assert (Hs : reverse s <> [] <-> s <> []).
  { split; intros H E; apply H; [by rewrite E|]. by rewrite <- (reverse_involutive s), E. }
  destruct (decide (b = z2b 32 /\ reverse s <> [])) as [[H1 H2]|H]; destruct (decide (b = z2b 32 /\ s <> [])) as [H'|H']; try tauto.
  by rewrite <- reverse_snoc, reverse_involutive.
Qed.

Lemma length_trim s : (length (trim s) <= length s)%nat.
Proof.
  unfold trim. rewrite length_reverse, <- (length_reverse s). induction (reverse s) as [|b r IH]; [done|].
  cbn [trim_rev]. case_decide; cbn [length]; lia.
Qed.

Lemma trim_loop_spec s : forall fuel m,
  is_cstr m 0 s -> (length s <= fuel)%nat -> is_cstr (trim_loop fuel m (Z.of_nat (length s) - 1)) 0 (trim s).
Proof.
  induction s as [|b s IH] using rev_ind; intros fuel m Hs Hf.
  - by destruct fuel.
  - rewrite length_app in *. cbn [length] in *. destruct fuel as [|fuel]; [lia|]. cbn [trim_loop].
    replace (Z.of_nat (length s + 1) - 1) with (Z.of_nat (length s)) by lia.
    pose proof (is_cstr_drop _ _ _ _ Hs) as Hb. apply is_cstr_cons in Hb as (Hb & _ & _). rewrite Z.add_0_l in Hb.
    rewrite char_byte, Hb, trim_snoc by lia.
    assert (Hpos : (Z.of_nat (length s) >? 0) = bool_decide (s <> [])).
    { destruct s; [done|]. cbn [length]. symmetry. rewrite bool_decide_eq_true_2 by done. symmetry. apply Z.gtb_lt. lia. }
    rewrite Hpos. case_decide as E.
    + destruct E as [-> Hne]. rewrite !bool_decide_eq_true_2 by done. cbn [andb]. apply IH; [|lia].
      pose proof (is_cstr_prefix_load _ _ _ _ Hs) as Hl. destruct Hs as (_ & _ & Hn). apply not_elem_of_app in Hn as [Hn _].
      split; [|split; [|exact Hn]].
      * etransitivity; [|exact Hl]. apply load_ext. intros k Hk. rewrite mget_insert, decide_False by lia. done.
      * by rewrite mget_insert, decide_True by lia.
    + replace (bool_decide (s <> []) && bool_decide (b = z2b 32)) with false; [exact Hs|].
      symmetry. rewrite andb_false_iff, !bool_decide_eq_false. destruct (decide (b = z2b 32)); [|tauto]. left. tauto.
Qed.

(** ** The search *)

(** What find compares with the name it looks for: the name and the extension
    up to the first NUL, trimmed; and the name that it puts in paths. *)
Definition entry_string (e : dirent) : list byte := cname (name e ++ ext e).
Definition shown_name (e : dirent) : list byte := trim (entry_string e).
Definition is_folder (e : dirent) : bool := negb (Z.land (attribute e) 0x10 =? 0).

Section Reference.
Context (E : Z -> Z -> dirent) (nm : list byte).

(** The entries of a table [t], which are [E t], in order, each folder with what is below it before
    the next entry.  [path] is the text for the table, and [flen] the length
    that the code keeps for it: it grows by one with every folder, and a folder
    is left out when the text would not fit by that length.  The result is the
    table and the index of the entry; [None] is outside of what the code is
    defined for: a name without a NUL, or a text that is too long. *)
Fixpoint scan_table (below : Z -> list byte -> option (option (Z * Z))) (t : Z) (path : list byte) (i : Z) (n : nat)
    (flen : Z) : option (option (Z * Z)) :=
  match n with
  | O => Some None
  | S n' =>
      let e := E t i in
      if decide (shown_name e = nm) then Some (Some (t, i))
      else if is_folder e then
        let slash := (flen >? 0) && negb (b2z (nth (Z.to_nat (flen - 1)) path (z2b 0)) =? 47) in
        if negb (bool_decide (z2b 0 ∈ name e ++ ext e)) || (256 <? flen) || (slash && (254 <? length path)%nat) then None
        else
          let flen := if slash then flen + 1 else flen in
          if flen + Z.of_nat (length (entry_string e)) <? 256 then
            match below (u16 (entry_cluster e)) ((if slash then path ++ [z2b 47] else path) ++ entry_string e) with
            | Some None => scan_table below t path (i + 1) n' flen
            | r => r
            end
          else scan_table below t path (i + 1) n' flen
      else scan_table below t path (i + 1) n' flen
  end.

(** The directory with the cluster [p], over the table that its own entry names. *)
Fixpoint search_tree (depth : nat) (p : Z) (path : list byte) : option (option (Z * Z)) :=
  match depth with
  | O => None
  | S depth' =>
      let t := entry_cluster (E p 0) in
      if bool_decide (0 <= p < CLUSTER_MAP_SIZE /\ 0 <= t < CLUSTER_MAP_SIZE)
      then scan_table (search_tree depth') t path 2 62 (Z.of_nat (length path))
      else None
  end.

End Reference.

(** The tables in the tree below the directory [p]. *)
Inductive tree_table (V : clusters) : Z -> Z -> Prop :=
  | tree_here p : tree_table V p (entry_cluster (dir V p 0))
  | tree_below p i t : 2 <= i < 64 -> is_folder (dir V (entry_cluster (dir V p 0)) i) = true ->
      tree_table V (u16 (entry_cluster (dir V (entry_cluster (dir V p 0)) i))) t -> tree_table V p t.

(** The directories of the tree, and that their numbers are clusters. *)
Inductive tree_dir (V : clusters) : Z -> Z -> Prop :=
  | dir_here p : tree_dir V p p
  | dir_below p i c : 2 <= i < 64 -> is_folder (dir V (entry_cluster (dir V p 0)) i) = true ->
      tree_dir V (u16 (entry_cluster (dir V (entry_cluster (dir V p 0)) i))) c -> tree_dir V p c.

Definition tree_in_range (V : clusters) (p : Z) : Prop :=
  forall c, tree_dir V p c -> 0 <= c < CLUSTER_MAP_SIZE /\ 0 <= entry_cluster (dir V c 0) < CLUSTER_MAP_SIZE.

(** An entry of the tree with the name that is looked for. *)
Definition hit (V : clusters) (nm : list byte) (p t i : Z) : Prop :=
  tree_table V p t /\ 2 <= i < 64 /\ shown_name (dir V t i) = nm.

(** A set of directories that the folders in their tables do not leave. *)
Definition closed_dirs (V : clusters) (l : list Z) : Prop :=
  forall c i, c ∈ l -> 2 <= i < 64 -> is_folder (dir V (entry_cluster (dir V c 0)) i) = true ->
    u16 (entry_cluster (dir V (entry_cluster (dir V c 0)) i)) ∈ l.

Lemma tree_dir_closed V l p c : closed_dirs V l -> tree_dir V p c -> p ∈ l -> c ∈ l.
Proof. intros Hl. induction 1 as [|p i c Hi Hf _ IH]; [done|]. intros Hp. apply IH. by apply Hl. Qed.

Lemma tree_table_dir V p t : tree_table V p t -> exists c, tree_dir V p c /\ t = entry_cluster (dir V c 0).
Proof.
  induction 1 as [p|p i t Hi Hf _ (c & Hc & ->)]; [exists p; by split; [constructor|]|].
  exists c. split; [|done]. by eapply dir_below.
Qed.

Lemma scan_table_sound V nm below p (Hb : forall c path t i, below c path = Some (Some (t, i)) -> hit V nm c t i) n :
  forall i path flen t' i',
  scan_table (dir V) nm below (entry_cluster (dir V p 0)) path i n flen = Some (Some (t', i')) -> 2 <= i -> i + Z.of_nat n <= 64 ->
  hit V nm p t' i'.
Proof.
  induction n as [|n IH]; intros i path flen t' i' Hs Hi Hn; cbn [scan_table] in Hs; [done|].
  assert (Hnext : forall flen, scan_table (dir V) nm below (entry_cluster (dir V p 0)) path (i + 1) n flen = Some (Some (t', i')) -> hit V nm p t' i').
  { intros f Hf. eapply IH; [exact Hf|lia..]. }
  case_decide as E; [injection Hs as <- <-; split; [constructor|]; split; [lia|done]|].
  destruct (is_folder _) eqn:Hd; [|by eapply Hnext]. destruct (_ || _); [done|].
  destruct (_ <? 256); [|by eapply Hnext].
  destruct (below _ _) as [[[t i0]|]|] eqn:Hbelow; [|by eapply Hnext|done].
  injection Hs as <- <-. destruct (Hb _ _ _ _ Hbelow) as (Ht & Hrest). split; [|exact Hrest].
  eapply tree_below; [|exact Hd|exact Ht]. lia.
Qed.

(** What is found is in the tree and has the name. *)
Lemma search_tree_sound V nm depth : forall p path t i, search_tree (dir V) nm depth p path = Some (Some (t, i)) -> hit V nm p t i.
Proof.
  induction depth as [|depth IH]; intros p path t i Hs; cbn [search_tree] in Hs; [done|]. case_bool_decide; [|done].
  eapply scan_table_sound; [exact IH|exact Hs|lia..].
Qed.

(** What is printed when a folder is found: the string [text], and again for
    every entry of the table with a name. *)
Definition contents (text : list byte) (T : Z -> dirent) (n : nat) : list output :=
  Puts text 0xF ::
  concat ((fun j => if bool_decide (head (name (T (2 + Z.of_nat j))) = Some (z2b 0)) then [] else [Puts text 0xF]) <$> seq 0 n).

Lemma contents_S o T n :
  contents o T (S n) = contents o T n ++ if bool_decide (head (name (T (2 + Z.of_nat n))) = Some (z2b 0)) then [] else [Puts o 0xF].
Proof. unfold contents. rewrite seq_S, fmap_app, concat_app. cbn. by rewrite app_nil_r. Qed.

Section Find.
Context {D T : Type} `{DiskSpec D, TerminalSpec T} (junk : nat -> mem) (fuel : nat).
Implicit Types (s : shell_state D T) (v : view).

(** The stack happens to be zero wherever an object is made. *)
Definition clear_stack : Prop := forall n a, 0 <= a < 256 -> mget (junk n) a = z2b 0.

Lemma wp_strcat_loop (Q : mem -> shell_state D T -> Prop) s size ms src dest_len t : forall n dest i,
  is_cstr ms (src + i) t -> (length t < n)%nat -> 0 <= dest_len + i -> dest_len + i + Z.of_nat (length t) < size ->
  Q (store dest (dest_len + i) (t ++ [z2b 0])) s -> wp (strcat_loop n size dest dest_len ms src i) Q s.
Proof.
  induction t as [|b t IH]; intros n dest i Ht Hn Hd Hs HQ; (destruct n as [|n]; [cbn in Hn; lia|]); cbn [strcat_loop length] in *.
  - apply is_cstr_nil, char_at_zero in Ht. rewrite Ht. cbn [Z.eqb]. apply wp_put; [lia|cbn; lia|exact HQ].
  - apply is_cstr_cons in Ht as (Hb & Hnz & Ht).
    rewrite (proj2 (Z.eqb_neq _ _)) by (rewrite char_at_zero; congruence). rewrite Hb.
    apply wp_bind, wp_put; [lia|cbn; lia|]. apply IH; [by rewrite Z.add_assoc|lia..|]. by rewrite Z.add_assoc.
Qed.

Lemma wp_strcat dest d ms src t s (Q : mem -> shell_state D T -> Prop) :
  text_in dest d -> is_cstr ms src t -> (length d + length t <= 255)%nat ->
  (forall dest', text_in dest' (d ++ t) -> Q dest' s) -> wp (strcat SHELL_MAX_LENGTH dest ms src) Q s.
Proof.
  intros Hd Ht Hlen HQ. unfold strcat. apply wp_bind.
  eapply wp_lift_ret; [apply (strlen_spec _ _ _ (text_in_cstr _ _ Hd)); unfold string_fuel; lia|].
  apply (wp_strcat_loop _ _ _ _ _ _ t); rewrite ?Z.add_0_r; [exact Ht|unfold string_fuel; lia|lia|unfold SHELL_MAX_LENGTH; lia|].
  apply HQ, text_in_append; [done|apply Ht|done].
Qed.

Lemma wp_trimmed_name m i e v s (Q : mem -> shell_state D T -> Prop) :
  is_view s v -> table_entry m 0 i = e ->
  (forall s' m', is_view s' v -> is_cstr m' 0 (shown_name e) -> Q m' s') -> wp (trimmed_name junk m i) Q s.
Proof.
  intros Hv He HQ. unfold trimmed_name. apply wp_bind. eapply wp_uninit; [exact Hv|]. intros md s1 Hv1. cbv zeta.
  pose proof (memcpy_copy_cstr 11 md m (name_addr i)) as Hs. change (Z.of_nat 11) with 11 in Hs. set (m1 := <[11 := z2b 0]> _) in *.
  assert (Hl : load m (name_addr i) 11 = name e ++ ext e).
  { rewrite <- He. unfold table_entry, entry_at, name_addr. cbn [name ext]. change 11%nat with (8 + 3)%nat. by rewrite load_app. }
  rewrite Hl in Hs. fold (entry_string e) in Hs.
  assert (Hlen : (length (entry_string e) <= 11)%nat).
  { unfold entry_string. rewrite <- Hl. etransitivity; [apply cname_length|]. by rewrite length_load. }
  apply wp_bind. eapply wp_lift_ret; [apply (strlen_spec _ _ _ Hs); unfold string_fuel; lia|].
  apply wp_ret, HQ; [done|]. apply trim_loop_spec; [exact Hs|lia].
Qed.

Lemma wp_puts_cstr m text color v s (Q : unit -> shell_state D T -> Prop) :
  is_view s v -> is_cstr m 0 text -> (length text <= 255)%nat ->
  (forall s', is_view s' (printed [Puts text color] v) -> Q tt s') -> wp (puts m 0 color) Q s.
Proof.
  intros Hv Hs Hl HQ. unfold puts. apply wp_bind. eapply wp_lift_ret; [apply (strlen_spec _ _ _ Hs); unfold string_fuel; lia|].
  rewrite Nat2Z.id. pose proof Hs as (-> & _). by eapply wp_sys_puts.
Qed.

(** What is printed for a folder once the string [output] has a length. *)
Lemma wp_print_lines output n m E v s (Q : unit -> shell_state D T -> Prop) :
  is_view s v -> (forall i, 0 <= i < 64 -> table_entry m 0 i = E i) -> strlen output 0 = Ret n ->
  (forall s', is_view s' (printed (contents (load output 0 (Z.to_nat n)) E 62) v) -> Q tt s') ->
  wp (puts output 0 0xF ;;
      for_up (fun j => if b2z (mget m (name_addr j)) =? 0 then mret tt else puts output 0 0xF) 2 62) Q s.
Proof.
  intros Hv HE Hn HQ. set (o := load output 0 (Z.to_nat n)) in *.
  assert (Hputs : forall v s (Q : unit -> shell_state D T -> Prop), is_view s v ->
    (forall s', is_view s' (printed [Puts o 0xF] v) -> Q tt s') -> wp (puts output 0 0xF) Q s).
  { intros v' s' Q' Hv' HQ'. unfold puts. apply wp_bind. eapply wp_lift_ret; [exact Hn|]. by eapply wp_sys_puts. }
  apply wp_bind. eapply Hputs; [exact Hv|]. intros s2 Hv2.
  apply (wp_for (fun i s' => is_view s' (printed (contents o E (Z.to_nat (i - 2))) v))); [exact Hv2| |].
  - intros j s3 Hj Hv3. replace (j + 1 - 2) with (Z.succ (j - 2)) by lia. rewrite Z2Nat.inj_succ, contents_S, Z2Nat.id by lia.
    replace (2 + (j - 2)) with j by lia.
    assert (Hb : (b2z (mget m (name_addr j)) =? 0) = bool_decide (head (name (E j)) = Some (z2b 0))).
    { rewrite <- HE by lia. change (head (name (table_entry m 0 j))) with (Some (mget m (name_addr j))).
      apply eq_bool_prop_intro. rewrite bool_decide_spec, Is_true_true, Z.eqb_eq. split; [|by intros [= ->]].
      intros Hb. f_equal. by apply b2z_inj. }
    rewrite Hb. case_bool_decide; rewrite <- printed_printed.
    + apply wp_ret. unfold printed at 1. rewrite app_nil_r. by destruct v.
    + eapply Hputs; [exact Hv3|]. intros s4 Hv4. exact Hv4.
  - exact HQ.
Qed.

Lemma wp_streq m1 a1 x m2 a2 y (Q : bool -> shell_state D T -> Prop) s :
  is_cstr m1 a1 x -> is_cstr m2 a2 y -> (length x <= 255)%nat -> Q (bool_decide (x = y)) s -> wp (streq m1 a1 m2 a2) Q s.
Proof.
  intros Hx Hy Hl HQ. destruct (strcmp_spec string_fuel _ _ _ _ _ _ Hx Hy) as (d & Hd & Heq); [unfold string_fuel; lia|].
  unfold streq. apply wp_bind. eapply wp_lift_ret; [exact Hd|]. apply wp_ret.
  replace (d =? 0) with (bool_decide (x = y)); [exact HQ|]. apply eq_bool_prop_intro.
  by rewrite bool_decide_spec, Is_true_true, Z.eqb_eq, Heq.
Qed.

Lemma slash_cstr : is_cstr (lit "/") 0 [z2b 47].
Proof. by apply (bool_decide_unpack _). Qed.

(** A path that is taken over from the search below. *)
Lemma take_over found new t : is_cstr new 0 t -> is_cstr (store found 0 (load new 0 (length t + 1))) 0 t.
Proof.
  intros (Hl & Hz & Hn). rewrite load_app, Hl. cbn [load]. rewrite Hz. split; [|split; [|exact Hn]].
  - rewrite load_store_within by (rewrite ?length_app; lia). change (Z.to_nat (0 - 0)) with 0%nat. rewrite drop_0. apply take_app_length.
  - apply mget_store_in; [lia|]. rewrite lookup_app_r by lia. by replace (Z.to_nat _ - length t)%nat with 0%nat by lia.
Qed.

Lemma entry_string_cstr m i : z2b 0 ∈ name (table_entry m 0 i) ++ ext (table_entry m 0 i) ->
  is_cstr m (name_addr i) (entry_string (table_entry m 0 i)).
Proof.
  intros Hin. apply (is_cstr_cname _ _ 11); [|exact Hin]. unfold table_entry, entry_at, name_addr. cbn [name ext].
  change 11%nat with (8 + 3)%nat. by rewrite load_app.
Qed.

Lemma length_entry_string m i : (length (entry_string (table_entry m 0 i)) <= 11)%nat.
Proof. etransitivity; [apply cname_length|]. rewrite length_app. unfold table_entry, entry_at. cbn [name ext]. by rewrite !length_load. Qed.

Section Clear.
Hypothesis Hclear : clear_stack.

(** An object that is not initialised. *)
Lemma wp_uninit_clear v s (Q : mem -> shell_state D T -> Prop) :
  is_view s v -> (forall m s', is_view s' v -> (forall a, 0 <= a < 256 -> mget m a = z2b 0) -> Q m s') -> wp (uninit junk) Q s.
Proof. intros Hv HQ. eapply wp_uninit_junk; [exact Hv|]. intros n s' Hs'. apply HQ; [done|]. intros a Ha. by apply Hclear. Qed.

Lemma wp_print_contents m E v s (Q : unit -> shell_state D T -> Prop) :
  is_view s v -> (forall i, 0 <= i < 64 -> table_entry m 0 i = E i) ->
  (forall s', is_view s' (printed (contents [] E 62) v) -> Q tt s') -> wp (print_contents junk m) Q s.
Proof.
  intros Hv HE HQ. unfold print_contents. apply wp_bind. eapply wp_uninit_clear; [exact Hv|]. intros output s1 Hv1 Hz.
  assert (Hs : is_cstr output 0 []) by (apply is_cstr_nil, Hz; lia).
  apply (wp_print_lines output 0 m E v s1); [exact Hv1|exact HE| |exact HQ].
  apply (strlen_spec _ _ [] Hs). unfold string_fuel. cbn [length]. lia.
Qed.

(** The copy of the path, with a slash behind it when the length says so. *)
Lemma wp_extend_path found path flen v s (Q : mem * Z -> shell_state D T -> Prop) :
  is_view s v -> text_in found path -> flen <= 256 ->
  let slash := (flen >? 0) && negb (b2z (nth (Z.to_nat (flen - 1)) path (z2b 0)) =? 47) in
  (slash = true -> (length path <= 254)%nat) ->
  (forall s' m, is_view s' v -> text_in m (if slash then path ++ [z2b 47] else path) ->
     Q (m, if slash then flen + 1 else flen) s') ->
  wp (extend_path junk found flen) Q s.
Proof.
  intros Hv Hp Hmax slash Hfit HQ. pose proof (text_in_cstr _ _ Hp) as Hs. pose proof Hp as [Hn Hlen _].
  unfold extend_path. apply wp_bind. eapply wp_uninit_clear; [exact Hv|]. intros m s1 Hv1 Hz.
  apply wp_bind. eapply wp_lift_ret; [apply (strlen_spec _ _ _ Hs); unfold string_fuel; lia|].
  rewrite Nat2Z.id. destruct Hs as (-> & _). apply wp_bind, wp_put; [done|unfold SHELL_MAX_LENGTH; lia|].
  assert (Hcopy : text_in (store m 0 path) path) by by apply text_in_store.
  replace ((flen >? 0) && negb (b2z (mget found (flen - 1)) =? 47)) with slash.
  - destruct slash.
    + apply wp_bind. eapply (wp_strcat _ path _ _ [z2b 47]); [exact Hcopy|exact slash_cstr|cbn [length]; specialize (Hfit eq_refl); lia|].
      intros m' Hm'. by apply wp_ret, HQ.
    + by apply wp_ret, HQ.
  - unfold slash. destruct (Z.gtb_spec flen 0); [|done]. cbn [andb]. by rewrite (text_in_byte _ _ _ Hp) by lia.
Qed.

Section Outcome.
Context (V : clusters) (nm : list byte) (l : list (list byte)) (ms : mem) (name_at : Z).
Hypothesis enough : (length l < fuel)%nat.
Hypothesis name_there : is_cstr ms name_at nm.

(** The entry that is found is a folder, and its path can be displayed. *)
Definition found_ok (r : option (Z * Z)) : Prop :=
  match r with
  | Some (t, i) => is_folder (dir V t i) = true /\ displayable V (entry_cluster (dir V t i)) l
  | None => True
  end.

Definition outcome v (found : mem) (r : option (Z * Z)) (Q : bool * mem -> shell_state D T -> Prop) : Prop :=
  match r with
  | None => forall s', is_view s' v -> Q (false, found) s'
  | Some (t, i) => forall s' found', is_view s' (printed (contents [] (dir V t) 62) v) ->
      is_cstr found' 0 (path_text V l) -> Q (true, found') s'
  end.

(** The entry itself is found. *)
Lemma wp_found m t i found v s (Q : bool * mem -> shell_state D T -> Prop) :
  disk_view v = V -> is_view s v -> found_ok (Some (t, i)) -> outcome v found (Some (t, i)) Q -> 0 <= i < 64 ->
  (forall j, 0 <= j < 64 -> table_entry m 0 j = dir V t j) ->
  wp (path ← print_dir_tree junk fuel (entry_cluster (table_entry m 0 i)) SHELL_MAX_LENGTH found;
      (if negb (Z.land (attribute (table_entry m 0 i)) 0x10 =? 0) then print_contents junk m else mret tt) ;;
      mret (true, path)) Q s.
Proof.
  intros HV Hv [Hf Hd] HQ Hi Hm. rewrite Hm by done. fold (is_folder (dir V t i)). rewrite Hf. rewrite <- HV in Hd.
  apply wp_bind. eapply wp_print_dir_tree; [exact Hv|rewrite <- HV; exact Hd|exact enough|unfold SHELL_MAX_LENGTH; lia|].
  intros s1 path Hv1 Hpath. rewrite HV in Hpath. apply wp_bind. eapply wp_print_contents; [exact Hv1|exact Hm|].
  intros s2 Hv2. by apply wp_ret, HQ.
Qed.

Section Scan.
Context (search : Z -> mem -> M (shell_state D T) (bool * mem)) (below : Z -> list byte -> option (option (Z * Z))).
Hypothesis search_ok : forall c path r found v s (Q : bool * mem -> shell_state D T -> Prop),
  below c path = Some r -> found_ok r -> disk_view v = V -> is_view s v -> text_in found path ->
  outcome v found r Q -> wp (search c found) Q s.

(** What is done with a path that the search below returns. *)
Lemma wp_adopt c new path found t i (K : M (shell_state D T) (bool * mem)) v s (Q : bool * mem -> shell_state D T -> Prop) :
  below c path = Some (Some (t, i)) -> found_ok (Some (t, i)) -> disk_view v = V -> is_view s v -> text_in new path ->
  outcome v found (Some (t, i)) Q ->
  wp (r ← search c new;
      if fst r : bool then
        len ← lift (strlen (snd r) 0);
        path ← put SHELL_MAX_LENGTH found 0 (load (snd r) 0 (Z.to_nat (len + 1)));
        mret (true, path)
      else K) Q s.
Proof.
  intros Hb Hok HV Hv Hp HQ. apply wp_bind. eapply search_ok; [exact Hb|exact Hok|exact HV|exact Hv|exact Hp|].
  intros s3 found' Hv3 Hpath. cbn [fst snd]. destruct Hok as (_ & _ & _ & _ & Hshort).
  apply wp_bind. eapply wp_lift_ret; [apply (strlen_spec _ _ _ Hpath); unfold string_fuel; lia|].
  replace (Z.to_nat (Z.of_nat (length (path_text V l)) + 1)) with (length (path_text V l) + 1)%nat by lia.
  apply wp_bind, wp_put; [lia|rewrite length_load; unfold SHELL_MAX_LENGTH; lia|]. apply wp_ret, HQ; [exact Hv3|by apply take_over].
Qed.

(** The loop over the entries. *)
Lemma wp_find_loop m t (Hm : forall j, 0 <= j < 64 -> table_entry m 0 j = dir V t j) n : forall i flen path r found v s (Q : bool * mem -> shell_state D T -> Prop),
  scan_table (dir V) nm below t path i n flen = Some r -> found_ok r -> disk_view v = V -> is_view s v -> text_in found path ->
  Z.of_nat (length path) <= flen -> 0 <= i -> i + Z.of_nat n <= 64 -> outcome v found r Q ->
  wp (find_loop junk fuel search m ms name_at i n found flen) Q s.
Proof.
  induction n as [|n IH]; intros i flen path r found v s Q Hscan Hok HV Hv Hp Hlen Hi Hin HQ; cbn [scan_table find_loop] in *.
  { injection Hscan as <-. by apply wp_ret, HQ. }
  pose proof (length_entry_string m i) as Hel. pose proof (entry_string_cstr m i) as Hes. rewrite Hm in Hel, Hes by lia.
  apply wp_bind. eapply wp_trimmed_name; [exact Hv|by apply Hm; lia|]. intros s1 trimmed Hv1 Htr.
  assert (Htl : (length (shown_name (dir V t i)) <= 255)%nat).
  { unfold shown_name. etransitivity; [apply length_trim|]. lia. }
  apply wp_bind. eapply wp_streq; [exact Htr|exact name_there|exact Htl|]. cbv zeta. destruct (decide (shown_name (dir V t i) = nm)) as [E|E].
  { injection Hscan as <-. rewrite bool_decide_eq_true_2 by done. eapply wp_found; [exact HV|exact Hv1|exact Hok|exact HQ|lia|exact Hm]. }
  rewrite bool_decide_eq_false_2 by done. rewrite Hm by lia. fold (is_folder (dir V t i)). destruct (is_folder (dir V t i)); [|eapply IH; [exact Hscan|exact Hok|exact HV|exact Hv1|exact Hp|lia..|exact HQ]].
  destruct (bool_decide_reflect (z2b 0 ∈ name (dir V t i) ++ ext (dir V t i))) as [Hnul|]; [|done]. cbn [negb orb] in Hscan.
  destruct (Z.ltb_spec 256 flen) as [|Hmax]; [done|]. cbn [orb] in Hscan.
  apply wp_bind. eapply wp_extend_path; [exact Hv1|exact Hp|exact Hmax| |].
  { intros E1. rewrite E1 in Hscan. cbn [andb] in Hscan. destruct (Nat.ltb_spec 254 (length path)); [done|lia]. }
  set (slash := (flen >? 0) && _) in *. intros s2 new Hv2 Hnew. cbn [fst snd]. set (base := if slash then path ++ [z2b 47] else path) in *.
  set (flen' := if slash then flen + 1 else flen) in *.
  assert (Hbase : Z.of_nat (length base) <= flen').
  { unfold base, flen'. destruct slash; [|done]. rewrite length_app. cbn [length]. lia. }
  assert (Hflen : flen <= flen') by (unfold flen'; destruct slash; lia).
  destruct (slash && (254 <? length path)%nat); [done|].
  apply wp_bind. eapply wp_lift_ret; [apply (strlen_spec _ _ _ (Hes Hnul)); unfold string_fuel; lia|].
  change SHELL_MAX_LENGTH with 256. destruct (Z.ltb_spec (flen' + Z.of_nat (length (entry_string (dir V t i)))) 256) as [Hfit|];
    [|eapply IH; [exact Hscan|exact Hok|exact HV|exact Hv2|exact Hp|lia..|exact HQ]].
  apply wp_bind. eapply wp_strcat; [exact Hnew|exact (Hes Hnul)|lia|]. intros new' Hnew'.
  destruct (below _ _) as [[[t' i']|]|] eqn:Hb; [| |done].
  - injection Hscan as <-. eapply wp_adopt; [exact Hb|exact Hok|exact HV|exact Hv2|exact Hnew'|exact HQ].
  - apply wp_bind. eapply search_ok; [exact Hb|done|exact HV|exact Hv2|exact Hnew'|]. intros s3 Hv3. cbn [fst].
    eapply IH; [exact Hscan|exact Hok|exact HV|exact Hv3|exact Hp|lia..|exact HQ].
Qed.

End Scan.

Hypothesis not_empty : nm <> [].
Hypothesis not_root : nm <> [z2b 47].
Hypothesis short : (length nm <= 255)%nat.

Lemma wp_is_lit (t : String.string) s (Q : bool -> shell_state D T -> Prop) :
  z2b 0 ∉ cstring t -> cstring t <> nm -> Q false s -> wp (streq ms name_at (lit t) 0) Q s.
Proof.
  intros Ht Hne HQ. eapply wp_streq; [exact name_there|by apply is_cstr_lit|exact short|].
  rewrite bool_decide_eq_false_2; [exact HQ|congruence].
Qed.

(** The search below a directory is the reference. *)
Lemma wp_find_in_directory depth : forall c path r found v s (Q : bool * mem -> shell_state D T -> Prop),
  search_tree (dir V) nm depth c path = Some r -> found_ok r -> disk_view v = V -> is_view s v -> text_in found path ->
  outcome v found r Q -> wp (find_in_directory junk fuel depth c ms name_at found) Q s.
Proof.
  induction depth as [|depth IH]; intros c path r found v s Q Hr Hok HV Hv Hp HQ; cbn [search_tree find_in_directory] in *; [done|].
  case_bool_decide as Hc; [|done]. destruct Hc as [Hc Ht].
  apply wp_bind, wp_is_lit; [refine (bool_decide_unpack _ _); exact I|by intros E; apply not_root|].
  apply wp_bind, wp_is_lit; [apply not_elem_of_nil|by intros E; apply not_empty|].
  apply wp_bind. eapply wp_uninit; [exact Hv|]. intros buffer s1 Hv1.
  rewrite u16_small by fat_lia.
  rewrite <- HV in Ht. eapply (wp_read_self junk); [exact Hv1|exact Hc|lia|exact Ht|]. rewrite HV. intros s2 Hv2. cbn [fst snd].
  change (negb (u8 0 =? 0)) with false. cbv iota.
  apply wp_bind. eapply wp_lift_ret; [apply (strlen_spec _ _ _ (text_in_cstr _ _ Hp)); pose proof (text_fits _ _ Hp); unfold string_fuel; lia|].
  eapply (wp_find_loop _ (search_tree (dir V) nm depth)); [exact IH| |exact Hr|exact Hok|exact HV|exact Hv2|exact Hp|lia..|exact HQ].
  intros j Hj. rewrite HV in Ht. rewrite <- HV. by apply (table_of_buffer buffer v _ s2); [exact Hv2|rewrite HV..|].
Qed.

End Outcome.

End Clear.

(** ** On any stack *)

Lemma partial_lift {A B} (Q : B -> shell_state D T -> Prop) (r : res A) (k : A -> M (shell_state D T) B) s :
  (forall a, r = Ret a -> partial Q (k a s)) -> partial Q ((a ← lift r; k a) s).
Proof. intros Hk. apply partial_bind. unfold lift. destruct r as [a| |]; cbn; [by apply Hk|done..]. Qed.

Lemma partial_put {B} (Q : B -> shell_state D T -> Prop) size m a bs (k : mem -> M (shell_state D T) B) s :
  partial Q (k (store m a bs) s) -> partial Q ((m ← put size m a bs; k m) s).
Proof. intros Hk. apply partial_bind. unfold put. by destruct (_ && _). Qed.

Lemma strcat_loop_same size ms src dest_len n : forall dest i s,
  partial (fun _ s' => s' = s) (strcat_loop n size dest dest_len ms src i s).
Proof.
  induction n as [|n IH]; intros dest i s; [done|]. cbn [strcat_loop]. destruct (_ =? 0).
  - unfold put. by destruct (_ && _).
  - by apply partial_put.
Qed.

Lemma partial_strcat {B} (Q : B -> shell_state D T -> Prop) size dest ms src (k : mem -> M (shell_state D T) B) s :
  (forall m, partial Q (k m s)) -> partial Q ((m ← strcat size dest ms src; k m) s).
Proof.
  intros Hk. apply partial_bind. unfold strcat. apply partial_lift. intros n _.
  eapply partial_mono; [apply strcat_loop_same|]. intros m s' ->. apply Hk.
Qed.

Lemma partial_extend {B} (Q : B -> shell_state D T -> Prop) found flen (k : mem * Z -> M (shell_state D T) B) v s :
  is_view s v -> (forall x s', is_view s' v -> partial Q (k x s')) -> partial Q ((x ← extend_path junk found flen; k x) s).
Proof.
  intros Hv Hk. apply partial_bind. unfold extend_path. apply (wp_bind_in (partial _)). eapply wp_uninit; [exact Hv|]. intros m s1 Hv1.
  apply partial_lift. intros n _. apply partial_put. destruct (_ && _).
  - apply partial_strcat. intros m'. by apply Hk.
  - by apply Hk.
Qed.

Section Any.
Context (V : clusters) (nm : list byte) (ms : mem) (name_at : Z).
Hypothesis name_there : is_cstr ms name_at nm.

(** Every folder of the tree below [p] with the name has a path that can be
    displayed. *)
Definition hits_displayable (p : Z) : Prop :=
  forall t i, hit V nm p t i -> exists l, found_ok V l (Some (t, i)) /\ (length l < fuel)%nat.

(** What the search gives when it returns: a folder of the tree with the name,
    whose path is in the buffer and for which lines have been printed, or
    nothing. *)
Definition answers (p : Z) v (r : bool * mem) s : Prop :=
  if fst r then exists text t i l, hit V nm p t i /\ found_ok V l (Some (t, i)) /\
    is_view s (printed (contents text (dir V t) 62) v) /\ is_cstr (snd r) 0 (path_text V l)
  else is_view s v.

Lemma partial_contents m E v s :
  is_view s v -> (forall i, 0 <= i < 64 -> table_entry m 0 i = E i) ->
  partial (fun _ s' => exists text, is_view s' (printed (contents text E 62) v)) (print_contents junk m s).
Proof.
  intros Hv HE. unfold print_contents. apply (wp_bind_in (partial _)). eapply wp_uninit; [exact Hv|]. intros output s1 Hv1.
  destruct (strlen output 0) as [n| |] eqn:Hn.
  - apply partial_wp. eapply wp_print_lines; [exact Hv1|exact HE|exact Hn|]. intros s' Hs'. by eexists.
  - unfold puts, mbind at 1, M_bind at 1, mbind at 1, M_bind at 1, lift. by rewrite Hn.
  - unfold puts, mbind at 1, M_bind at 1, mbind at 1, M_bind at 1, lift. by rewrite Hn.
Qed.

Lemma partial_found m p t i found v s :
  disk_view v = V -> is_view s v -> hit V nm p t i -> hits_displayable p ->
  (forall j, 0 <= j < 64 -> table_entry m 0 j = dir V t j) ->
  partial (answers p v) ((path ← print_dir_tree junk fuel (entry_cluster (table_entry m 0 i)) SHELL_MAX_LENGTH found;
      (if negb (Z.land (attribute (table_entry m 0 i)) 0x10 =? 0) then print_contents junk m else mret tt) ;;
      mret (true, path)) s).
Proof.
  intros HV Hv Hh Hd Hm. destruct (Hd t i Hh) as (l & Hok & Hl). destruct Hh as (Ht & Hi & Hn) eqn:Hhit. clear Hhit.
  rewrite Hm by lia. destruct Hok as [Hf Hdisp]. fold (is_folder (dir V t i)). rewrite Hf. assert (Hdisp' : displayable (disk_view v) (entry_cluster (dir V t i)) l) by by rewrite HV.
  apply (wp_bind_in (partial _)). eapply wp_print_dir_tree; [exact Hv|exact Hdisp'|exact Hl|unfold SHELL_MAX_LENGTH; lia|].
  intros s1 path Hv1 Hpath. rewrite HV in Hpath. apply partial_bind. eapply partial_mono; [by apply partial_contents; [exact Hv1|exact Hm]|].
  intros [] s2 [text Hv2]. exists text, t, i, l. done.
Qed.

Lemma hit_below p i t' i' :
  2 <= i < 64 -> is_folder (dir V (entry_cluster (dir V p 0)) i) = true ->
  hit V nm (u16 (entry_cluster (dir V (entry_cluster (dir V p 0)) i))) t' i' -> hit V nm p t' i'.
Proof. intros Hi Hf [Ht Hrest]. split; [|exact Hrest]. by eapply tree_below. Qed.

Lemma partial_find_loop search m p :
  let t := entry_cluster (dir V p 0) in
  (forall j, 0 <= j < 64 -> table_entry m 0 j = dir V t j) -> hits_displayable p ->
  (forall i found v s, 2 <= i < 64 -> is_folder (dir V t i) = true -> disk_view v = V -> is_view s v ->
     partial (answers (u16 (entry_cluster (dir V t i))) v) (search (u16 (entry_cluster (dir V t i))) found s)) ->
  forall n i flen found v s, disk_view v = V -> is_view s v -> 2 <= i -> i + Z.of_nat n <= 64 ->
  partial (answers p v) (find_loop junk fuel search m ms name_at i n found flen s).
Proof.
  intros t Hm Hd Hsearch. induction n as [|n IH]; intros i flen found v s HV Hv Hi Hin; cbn [find_loop]; [done|].
  apply (wp_bind_in (partial _)). eapply wp_trimmed_name; [exact Hv|apply Hm; lia|]. intros s1 trimmed Hv1 Htr.
  assert (Htl : (length (shown_name (dir V t i)) <= 255)%nat).
  { unfold shown_name. etransitivity; [apply length_trim|]. rewrite <- Hm by lia. pose proof (length_entry_string m i). lia. }
  apply (wp_bind_in (partial _)). eapply wp_streq; [exact Htr|exact name_there|exact Htl|]. cbv zeta. case_bool_decide as E.
  { eapply (partial_found m p t i); [exact HV|exact Hv1| |exact Hd|exact Hm]. split; [constructor|]. split; [lia|exact E]. }
  rewrite Hm by lia. fold (is_folder (dir V t i)). destruct (is_folder (dir V t i)) eqn:Hf; [|by apply IH; [..|lia|lia]].
  eapply partial_extend; [exact Hv1|]. intros x s2 Hv2. apply partial_lift. intros k _.
  destruct (_ <? SHELL_MAX_LENGTH); [|by apply IH; [..|lia|lia]].
  apply partial_strcat. intros new. apply partial_bind. eapply partial_mono; [by apply Hsearch; [lia|..]|].
  intros [[] path] s3; unfold answers at 1; cbn [fst snd].
  - intros (text & t' & i' & l & Hh & Hok & Hv3 & Hpath). apply partial_lift. intros len Hlen. apply partial_put.
    exists text, t', i', l. split; [by eapply hit_below; [|exact Hf|exact Hh]; lia|]. split; [done|]. split; [done|]. cbn [snd].
    pose proof Hok as (_ & _ & _ & _ & Hshort).
    rewrite (strlen_spec _ _ _ Hpath) in Hlen by (unfold string_fuel; lia). injection Hlen as <-.
    replace (Z.to_nat (Z.of_nat (length (path_text V l)) + 1)) with (length (path_text V l) + 1)%nat by lia. by apply take_over.
  - intros Hv3. by apply IH; [..|lia|lia].
Qed.

Hypothesis not_empty : nm <> [].
Hypothesis not_root : nm <> [z2b 47].
Hypothesis short : (length nm <= 255)%nat.

Lemma partial_find_in_directory depth : forall p found v s,
  tree_in_range V p -> hits_displayable p -> disk_view v = V -> is_view s v ->
  partial (answers p v) (find_in_directory junk fuel depth p ms name_at found s).
Proof.
  induction depth as [|depth IH]; intros p found v s Hrange Hd HV Hv; [done|]. cbn [find_in_directory].
  destruct (Hrange p (dir_here V p)) as [Hp Ht].
  apply (wp_bind_in (partial _)). eapply (wp_is_lit nm ms name_at); [exact name_there|exact short|refine (bool_decide_unpack _ _); exact I|by intros E; apply not_root|].
  apply (wp_bind_in (partial _)). eapply (wp_is_lit nm ms name_at); [exact name_there|exact short|apply not_elem_of_nil|by intros E; apply not_empty|].
  apply (wp_bind_in (partial _)). eapply wp_uninit; [exact Hv|]. intros buffer s1 Hv1. rewrite u16_small by fat_lia.
  apply (read_self_in junk (partial _) p 0 buffer v); [exact Hv1|exact Hp|lia|by rewrite HV|]. rewrite HV. intros s2 Hv2. cbn [fst snd].
  change (negb (u8 0 =? 0)) with false. cbv iota. apply partial_lift. intros n _.
  apply partial_find_loop; [|exact Hd| |exact HV|exact Hv2|lia|lia].
  - intros j Hj. rewrite <- HV in Ht |- *. by apply (table_of_buffer buffer v _ s2).
  - intros i found' v' s' Hi Hf HV' Hv'. apply IH; [| |done|done].
    + intros c Hc. apply Hrange. by eapply dir_below.
    + intros t i' Hh. apply Hd. by eapply hit_below.
Qed.

(** A table without folders and without the name is gone through for nothing. *)
Lemma wp_find_flat search m t : (forall j, 0 <= j < 64 -> table_entry m 0 j = dir V t j) ->
  forall n i flen found v s (Q : bool * mem -> shell_state D T -> Prop),
  (forall j, i <= j < i + Z.of_nat n -> is_folder (dir V t j) = false /\ shown_name (dir V t j) <> nm) ->
  is_view s v -> 0 <= i -> i + Z.of_nat n <= 64 -> (forall s', is_view s' v -> Q (false, found) s') ->
  wp (find_loop junk fuel search m ms name_at i n found flen) Q s.
Proof.
  intros Hm. induction n as [|n IH]; intros i flen found v s Q Hflat Hv Hi Hin HQ; cbn [find_loop]; [by apply wp_ret, HQ|].
  destruct (Hflat i ltac:(lia)) as [Hf Hne].
  apply wp_bind. eapply wp_trimmed_name; [exact Hv|apply Hm; lia|]. intros s1 trimmed Hv1 Htr.
  assert (Htl : (length (shown_name (dir V t i)) <= 255)%nat).
  { unfold shown_name. etransitivity; [apply length_trim|]. rewrite <- Hm by lia. pose proof (length_entry_string m i). lia. }
  apply wp_bind. eapply wp_streq; [exact Htr|exact name_there|exact Htl|]. cbv zeta. rewrite bool_decide_eq_false_2 by done.
  rewrite Hm by lia. fold (is_folder (dir V t i)). rewrite Hf. eapply IH; [|exact Hv1|lia|lia|exact HQ].
  intros j Hj. apply Hflat. lia.
Qed.

Lemma wp_find_empty depth p found path v s (Q : bool * mem -> shell_state D T -> Prop) :
  disk_view v = V -> is_view s v -> is_cstr found 0 path -> (length path <= 255)%nat ->
  0 <= p < CLUSTER_MAP_SIZE -> 0 <= entry_cluster (dir V p 0) < CLUSTER_MAP_SIZE ->
  (forall i, 2 <= i < 64 -> is_folder (dir V (entry_cluster (dir V p 0)) i) = false /\ shown_name (dir V (entry_cluster (dir V p 0)) i) <> nm) ->
  (forall s', is_view s' v -> Q (false, found) s') -> wp (find_in_directory junk fuel (S depth) p ms name_at found) Q s.
Proof.
  intros HV Hv Hpath Hlen Hp Ht Hflat HQ. cbn [find_in_directory].
  apply wp_bind. eapply (wp_is_lit nm ms name_at); [exact name_there|exact short|refine (bool_decide_unpack _ _); exact I|by intros E; apply not_root|].
  apply wp_bind. eapply (wp_is_lit nm ms name_at); [exact name_there|exact short|apply not_elem_of_nil|by intros E; apply not_empty|].
  apply wp_bind. eapply wp_uninit; [exact Hv|]. intros buffer s1 Hv1. rewrite u16_small by fat_lia.
  rewrite <- HV in Ht. eapply (wp_read_self junk); [exact Hv1|exact Hp|lia|exact Ht|]. rewrite HV in Ht |- *. intros s2 Hv2. cbn [fst snd].
  change (negb (u8 0 =? 0)) with false. cbv iota.
  apply wp_bind. eapply wp_lift_ret; [apply (strlen_spec _ _ _ Hpath); unfold string_fuel; lia|].
  eapply (wp_find_flat _ _ (entry_cluster (dir V p 0))); [|exact (fun j Hj => Hflat j Hj)|exact Hv2|lia|lia|exact HQ].
  intros j Hj. rewrite <- HV in Ht |- *. by apply (table_of_buffer buffer v _ s2).
Qed.

End Any.

(** What the command prints. *)
Definition find_output (V : clusters) (l : list (list byte)) (r : option (Z * Z)) : list output :=
  match r with
  | None => [Puts (cstring "Not found") 0x4]
  | Some (t, _) => contents [] (dir V t) 62 ++ [Puts (path_text V l) 0x2]
  end.

(** find on a line, up to the search. *)
Lemma find_search (P : res (unit * shell_state D T) -> Prop) m nm v s :
  is_view s v -> holds_line m (cstring "find" ++ z2b 32 :: nm) -> z2b 32 ∉ nm ->
  (forall ms found s', is_cstr ms 0 nm -> (length nm <= 250)%nat -> text_in (store found 0 (zeros 256)) [] -> is_view s' v ->
     P ((r ← find_in_directory junk fuel fuel (here v) ms 0 (store found 0 (zeros 256));
         if fst r : bool then puts (snd r) 0 0x2 else puts_lit "Not found" 0x4) s')) ->
  P (parseCommand junk fuel m s).
Proof.
  intros Hv Hm Hsp HP.
  destruct (parse_one_argument junk fuel m (cstring "find") nm s Hm) as (m' & [Hs _ _] & _ & ->); [|exact Hsp|].
  { exact (bool_decide_eq_true_1 (z2b 32 ∉ cstring "find") eq_refl). }
  change (command_of (cstring "find")) with Find. cbn [run_command]. destruct Hm as (_ & Hlen & _).
  rewrite length_app in Hlen. cbn [length cstring] in Hlen. change (length (cstring "find")) with 4%nat in Hlen.
  unfold cmd_find. apply (wp_bind_in P). eapply wp_uninit; [exact Hv|]. intros md s1 Hv1. cbv zeta.
  change (Z.of_nat (length (cstring "find")) + 1) with 5 in Hs.
  pose proof (memcpy_copy_cstr 255 md m' 5) as Hc. change (Z.of_nat 255) with 255 in Hc.
  rewrite (cname_load _ _ _ _ Hs), take_ge in Hc by lia.
  apply (wp_bind_in P). eapply wp_local; [exact Hv1|]. intros found s2 Hv2.
  apply (wp_bind_in P). eapply wp_here; [exact Hv2|]. apply HP; [exact Hc|lia| |exact Hv2].
  split; [apply not_elem_of_nil|cbn; lia|]. by apply load_store_eq.
Qed.

(** The reference is what happens on a clear stack. *)
Lemma wp_find_clear m nm r l v s :
  clear_stack -> is_view s v -> holds_line m (cstring "find" ++ z2b 32 :: nm) -> z2b 32 ∉ nm -> nm <> [] -> nm <> [z2b 47] ->
  (length l < fuel)%nat -> search_tree (dir (disk_view v)) nm fuel (here v) [] = Some r -> found_ok (disk_view v) l r ->
  wp (parseCommand junk fuel m) (fun _ s' => is_view s' (printed (find_output (disk_view v) l r) v)) s.
Proof.
  intros Hclear Hv Hm Hsp Hne Hroot Hl Hr Hok. rewrite wp_ends.
  eapply find_search; [exact Hv|exact Hm|exact Hsp|]. intros ms found s1 Hs Hlen Hz Hv1. rewrite <- wp_ends. apply wp_bind.
  eapply (wp_find_in_directory Hclear (disk_view v) nm l ms 0 Hl Hs); [done|done|lia|exact Hr|exact Hok|done|exact Hv1|exact Hz|].
  destruct r as [[t i]|]; cbn [outcome find_output].
  - intros s3 found' Hv3 Hp. cbn [fst snd]. destruct Hok as (_ & _ & _ & _ & Hshort).
    eapply wp_puts_cstr; [exact Hv3|exact Hp|lia|]. intros s4 Hv4. by rewrite printed_printed in Hv4.
  - intros s3 Hv3. cbn [fst]. by eapply wp_puts_lit; [exact Hv3|].
Qed.

(** What find has printed when it returns, whatever the stack held. *)
Definition find_answer v nm s : Prop :=
  is_view s (printed [Puts (cstring "Not found") 0x4] v) \/
  exists text t i l, hit (disk_view v) nm (here v) t i /\ found_ok (disk_view v) l (Some (t, i)) /\
    is_view s (printed (contents text (dir (disk_view v) t) 62 ++ [Puts (path_text (disk_view v) l) 0x2]) v).

Lemma partial_find m nm v s :
  is_view s v -> holds_line m (cstring "find" ++ z2b 32 :: nm) -> z2b 32 ∉ nm -> nm <> [] -> nm <> [z2b 47] ->
  tree_in_range (disk_view v) (here v) -> hits_displayable (disk_view v) nm (here v) ->
  partial (fun _ => find_answer v nm) (parseCommand junk fuel m s).
Proof.
  intros Hv Hm Hsp Hne Hroot Hrange Hd.
  eapply find_search; [exact Hv|exact Hm|exact Hsp|]. intros ms found s1 Hs Hlen _ Hv1. apply partial_bind. eapply partial_mono.
  { eapply (partial_find_in_directory (disk_view v) nm ms 0 Hs Hne Hroot); [lia|exact Hrange|exact Hd|done|exact Hv1]. }
  intros [[] path] s2; unfold answers; cbn [fst snd].
  - intros (text & t & i & l & Hh & Hok & Hv2 & Hp). apply partial_wp. pose proof Hok as (_ & _ & _ & _ & Hshort).
    eapply wp_puts_cstr; [exact Hv2|exact Hp|lia|]. intros s3 Hv3. rewrite printed_printed in Hv3. right. by exists text, t, i, l.
  - intros Hv2. apply partial_wp. eapply wp_puts_lit; [exact Hv2|]. intros s3 Hv3. by left.
Qed.

(** And what is certain on any stack. *)
Lemma wp_find_nothing m nm v s :
  is_view s v -> holds_line m (cstring "find" ++ z2b 32 :: nm) -> z2b 32 ∉ nm -> nm <> [] -> nm <> [z2b 47] -> (0 < fuel)%nat ->
  tree_in_range (disk_view v) (here v) -> hits_displayable (disk_view v) nm (here v) ->
  (forall i, 2 <= i < 64 -> is_folder (dir (disk_view v) (entry_cluster (dir (disk_view v) (here v) 0)) i) = false) ->
  wp (parseCommand junk fuel m) (fun _ s' => is_view s' (printed [Puts (cstring "Not found") 0x4] v)) s.
Proof.
  intros Hv Hm Hsp Hne Hroot Hfuel Hrange Hd Hflat. rewrite wp_ends. destruct (Hrange _ (dir_here _ _)) as [Hp Ht].
  eapply find_search; [exact Hv|exact Hm|exact Hsp|]. intros ms found s1 Hs Hlen Hz Hv1. rewrite <- wp_ends. apply wp_bind.
  destruct fuel as [|depth] eqn:Ef; [lia|]. rewrite <- Ef at 1.
  eapply (wp_find_empty (disk_view v) nm ms 0 Hs Hne Hroot ltac:(lia) depth _ _ []); [done|exact Hv1|by apply text_in_cstr|cbn; lia|exact Hp|exact Ht| |].
  - intros i Hi. split; [by apply Hflat|]. intros E. destruct (Hd (entry_cluster (dir (disk_view v) (here v) 0)) i) as (l & [Hf _] & _).
    { split; [constructor|]. by split. }
    by rewrite Hflat in Hf.
  - intros s2 Hv2. cbn [fst]. by eapply wp_puts_lit; [exact Hv2|].
Qed.

(** C34: find looks for a name in the tree below the current directory, where every
    entry of that name is a folder with a path that can be displayed.  (1)
    Whatever the stack held before, when find returns it has printed "Not found",
    or some lines, one for the directory and one for each of its entries with a
    name, and the path of a folder of the tree whose trimmed name is the name
    that was given; and nothing but the output has changed.  (2) Whatever the
    stack held, find returns, with "Not found", when the current directory has no
    folders.  (3) Otherwise what happens depends on the stack: the path for the
    search below is copied into a buffer without a terminator and appended to
    behind what the buffer held, and the lines are a buffer that is never
    written.  On a stack that is zero wherever a local object is made
    ([clear_stack]) find returns, gives what the reference search gives, the
    tables in depth-first order, and the lines are empty. *)
Theorem find_correct m nm v s :
  is_view s v -> holds_line m (cstring "find" ++ z2b 32 :: nm) -> z2b 32 ∉ nm -> nm <> [] -> nm <> [z2b 47] ->
  let V := disk_view v in
  tree_in_range V (here v) -> hits_displayable V nm (here v) -> (0 < fuel)%nat ->
  (forall s', parseCommand junk fuel m s = Ret (tt, s') -> find_answer v nm s') /\
  ((forall i, (2 <= i < 64) -> is_folder (dir V (entry_cluster (dir V (here v) 0)) i) = false) ->
   exists s', parseCommand junk fuel m s = Ret (tt, s') /\ is_view s' (printed [Puts (cstring "Not found") 0x4] v)) /\
  (clear_stack -> forall r, search_tree (dir V) nm fuel (here v) [] = Some r ->
   exists l s', parseCommand junk fuel m s = Ret (tt, s') /\ is_view s' (printed (find_output V l r) v) /\
     match r with Some (t, i) => hit V nm (here v) t i /\ found_ok V l r | None => True end).
Proof.
  intros Hv Hm Hsp Hne Hroot V Hrange Hd Hfuel. split; [|split].
  - intros s' Hr. pose proof (partial_find m nm v s Hv Hm Hsp Hne Hroot Hrange Hd) as Hp. by rewrite Hr in Hp.
  - intros Hflat. destruct (wp_elim _ _ _ (wp_find_nothing m nm v s Hv Hm Hsp Hne Hroot Hfuel Hrange Hd Hflat)) as ([] & s' & Hr & Hs'). by exists s'.
  - intros Hclear r Hr.
    assert (Hl : exists l, found_ok V l r /\ (length l < fuel)%nat).
    { destruct r as [[t i]|]; [|exists []; by split]. apply Hd. by eapply search_tree_sound. }
    destruct Hl as (l & Hok & Hl).
    destruct (wp_elim _ _ _ (wp_find_clear m nm r l v s Hclear Hv Hm Hsp Hne Hroot Hl Hr Hok)) as ([] & s' & He & Hs').
    exists l, s'. split; [done|]. split; [done|]. destruct r as [[t i]|]; [|done]. split; [by eapply search_tree_sound|done].
Qed.

End Find.

