(* ===== verification/ShellRound.v ===== *)
(** Theorems about the loop of the shell: a round as a whole, and the position in
    every state that rounds reach. *)
From Stdlib Require Import ZArith Lia.
From Stdlib Require Strings.String.
From stdpp Require Import base numbers option strings zmap functions list.
From S2P Require Import Prelude CString Disk FatTypes Fat32 FatView FatRead FatWrite FatCreate Process Interrupt Terminal Shell Commands ShellRules ShellPath ShellInput ShellParse ShellPlace ShellCd.

Section Round.
Context {D T : Type} `{DiskSpec D, TerminalSpec T} (junk : nat -> mem) (fuel : nat).
Implicit Types (s : shell_state D T) (v : view).

(** What is printed before a line is read. *)
Definition prompt (path : list byte) : list output :=
  [Puts (cstring "BEBAS@OS-IF2230>") 0x05; Puts path COLOR_WHITE_ON_BLACK; Puts (cstring "$") 0x2].

(** The view when the command starts: the prompt with the path and the echo of
    the line are printed, the keys of the line are taken, typing is off. *)
Definition ready (path : list byte) (ks rest : list Z) (col : Z) (v : view) : view :=
  with_keys rest false col
    (printed (prompt path ++ echo ([], z2b 0) ks ++ [Putchar 10 COLOR_WHITE_ON_BLACK]) v).

(** What is left of a round when the line is in the buffer. *)
Definition run_line (buffer current_dir : mem) : M (shell_state D T) (mem * mem) :=
  parseCommand junk fuel buffer ;; sys_puts [z2b 10] 0x0 ;; mret (buffer, current_dir).

Lemma run_line_eq buffer current_dir s :
  (parseCommand junk fuel buffer ;; sys_puts [z2b 10] 0x0 ;; mret (buffer, current_dir)) s = run_line buffer current_dir s.
Proof. unfold run_line. reflexivity. Qed.

Lemma round_runs_line (P : res (mem * mem * shell_state D T) -> Prop) a b ks rest l v s :
  is_view s v -> displayable (disk_view v) (here v) l -> (length l < fuel)%nat ->
  typed v = ks ++ 10 :: rest -> 10 ∉ ks -> (length ks < fuel)%nat ->
  (forall buffer dir col s', is_view s' (ready (path_text (disk_view v) l) ks rest col v) ->
     load buffer 0 256 = buffer_bytes (edit ks) -> is_cstr dir 0 (path_text (disk_view v) l) ->
     P (run_line buffer dir s')) ->
  P (shell_round junk fuel a b s).
Proof.
  intros Hv Hd Hl Hty Hnl Hf HP. unfold shell_round. apply wp_bind_in. eapply wp_here; [exact Hv|].
  apply wp_bind_in. eapply wp_print_dir_tree; [exact Hv|exact Hd|done|lia|]. intros s1 dir Hv1 Hdir.
  assert (Hlen : (length (path_text (disk_view v) l) < string_fuel)%nat).
  { destruct Hd as (_ & _ & _ & Hp). unfold string_fuel. lia. }
  apply wp_bind_in. eapply wp_puts_lit; [exact Hv1|]. intros s2 Hv2.
  apply wp_bind_in. unfold puts. apply wp_bind. eapply wp_lift_ret; [by apply (strlen_spec _ _ _ Hdir)|].
  rewrite Nat2Z.id. pose proof Hdir as (Hload & _). rewrite Hload. eapply wp_sys_puts; [exact Hv2|]. intros s3 Hv3.
  apply wp_bind_in. eapply wp_puts_lit; [exact Hv3|]. intros s4 Hv4. cbv zeta.
  apply wp_bind_in. eapply wp_set_typing; [exact Hv4|]. intros s5 Hv5. apply wp_bind_in.
  change 0 with (Z.of_nat (length (fst ([] : list byte, z2b 0)))) at 1.
  eapply (wp_handleInput ks fuel _ ([], z2b 0)); [exact Hv5|done|exact Hty|done|done|cbn; lia|apply clearBuffer_bytes|].
  intros s6 buffer col Hv6 Hbuf _. cbn [fst]. apply wp_bind_in. eapply wp_set_typing; [exact Hv6|]. intros s7 Hv7.
  rewrite run_line_eq. apply (HP buffer dir col s7); [|exact Hbuf|exact Hdir].
  destruct Hv7; split; try done. cbn [out with_keys printed line_read ready] in *. unfold prompt. by rewrite <- !app_assoc in *.
Qed.

(** a round of the shell's loop: the path of the current directory is displayed
    in the prompt, the keys up to the first newline are echoed and make the
    line that the reference editor computes, and what the round does then is to
    run that line and to print a newline. *)
Theorem shell_round_correct a b ks rest l v s :
  is_view s v -> displayable (disk_view v) (here v) l -> (length l < fuel)%nat ->
  typed v = ks ++ 10 :: rest -> 10 ∉ ks -> (length ks < fuel)%nat ->
  exists buffer dir col s',
    is_view s' (ready (path_text (disk_view v) l) ks rest col v) /\
    load buffer 0 256 = buffer_bytes (edit ks) /\ is_cstr dir 0 (path_text (disk_view v) l) /\
    shell_round junk fuel a b s = run_line buffer dir s'.
Proof.
  intros Hv Hd Hl Hty Hnl Hf.
  apply (round_runs_line (fun r => exists buffer dir col s', is_view s' (ready (path_text (disk_view v) l) ks rest col v) /\
    load buffer 0 256 = buffer_bytes (edit ks) /\ is_cstr dir 0 (path_text (disk_view v) l) /\
    r = run_line buffer dir s') a b ks rest l v s); [done..|].
  intros buffer dir col s' Hv' Hb Hdir. by exists buffer, dir, col, s'.
Qed.

(** A line typed without backspaces is the string in the buffer. *)
Lemma typed_holds_line m ks :
  Forall ordinary ks -> ks <> [] -> (length ks <= 252)%nat -> load m 0 256 = buffer_bytes (edit ks) ->
  holds_line m (z2b <$> ks).
Proof.
  intros Hks Hne Hlen Hm. pose proof (edit_ordinary ks [] (z2b 0) Hks ltac:(cbn [length]; lia) Hne) as He. cbn [app] in He.
  unfold edit in Hm. rewrite He in Hm. unfold buffer_bytes in Hm. cbn [fst snd] in Hm. rewrite length_fmap in Hm.
  split; [by eapply is_cstr_load, ordinary_nonzero|]. rewrite length_fmap. split; [lia|].
  intros y Hy. assert (Hy2 : load m 0 256 !! Z.to_nat y = Some (mget m y)).
  { rewrite lookup_load by lia. do 2 f_equal. lia. }
  rewrite Hm, lookup_app_r in Hy2 by (rewrite length_fmap; lia). rewrite length_fmap in Hy2.
  change (z2b 0 :: zeros (255 - length ks)) with (replicate (S (255 - length ks)) (z2b 0)) in Hy2.
  rewrite lookup_replicate_2 in Hy2 by lia. by injection Hy2.
Qed.

(** Up to the command, when "cd path" is typed. *)
Lemma round_cd (P : res (mem * mem * shell_state D T) -> Prop) a b ks rest l path v s :
  is_view s v -> displayable (disk_view v) (here v) l -> (length l < fuel)%nat ->
  typed v = ks ++ 10 :: rest -> Forall ordinary ks -> (length ks <= 252)%nat -> (length ks < fuel)%nat ->
  z2b <$> ks = cd_line path ->
  (forall buffer dir col s', is_view s' (ready (path_text (disk_view v) l) ks rest col v) -> holds_line buffer (cd_line path) ->
     P (run_line buffer dir s')) ->
  P (shell_round junk fuel a b s).
Proof.
  intros Hv Hd Hl Hty Hks Hlen Hf Hline HP.
  assert (Hnl : 10 ∉ ks).
  { intros Hin. rewrite Forall_forall in Hks. by destruct (Hks 10 Hin) as (_ & ? & _). }
  assert (Hne : ks <> []) by (intros ->; by apply (f_equal length) in Hline).
  apply (round_runs_line P a b ks rest l v s); [done..|]. intros buffer dir col s1 Hv1 Hb _.
  pose proof (typed_holds_line _ _ Hks Hne Hlen Hb) as Hm. rewrite Hline in Hm. by apply (HP buffer dir col s1).
Qed.

(** The round of a cd within the array. *)
Lemma wp_round_cd a b ks rest l path names c' v s (Q : mem * mem -> shell_state D T -> Prop) :
  is_view s v -> displayable (disk_view v) (here v) l -> (length l < fuel)%nat ->
  typed v = ks ++ 10 :: rest -> Forall ordinary ks -> (length ks <= 252)%nat -> (length ks < fuel)%nat ->
  z2b <$> ks = cd_line path -> walkable path names -> walk (disk_view v) (here v) names c' ->
  0 <= fst (fst (place v)) < 99 ->
  (forall r col s', is_view s' (with_keys rest false col (printed (prompt (path_text (disk_view v) l) ++ echo ([], z2b 0) ks ++
      [Putchar 10 COLOR_WHITE_ON_BLACK; cd_message; Puts [z2b 10] 0x0]) (pushed c' v))) -> Q r s') ->
  wp (shell_round junk fuel a b) Q s.
Proof.
  intros Hv Hd Hl Hty Hks Hlen Hf Hline Hpath Hw Hi HQ. rewrite wp_ends.
  apply (round_cd (ends Q) a b ks rest l path v s); [done..|]. intros buffer dir col s1 Hv1 Hm. rewrite <- wp_ends.
  apply wp_bind. eapply wp_cd; [exact Hv1|exact Hm|exact Hpath|exact Hw|done|]. intros s2 Hv2.
  apply wp_bind. eapply wp_sys_puts; [exact Hv2|]. intros s3 Hv3. apply wp_ret, (HQ _ col).
  destruct Hv3; split; try done. cbn [out with_keys printed ready pushed with_place] in *. by rewrite <- !app_assoc in *.
Qed.

(** C8: typing "cd path" at the prompt, end to end: the round shows the path of the
    current directory, echoes the keys, changes the directory and reports it;
    the new directory is the one at the end of the path; and the disk and the
    processes are as before. *)
Theorem shell_round_cd a b ks rest l path names c' v s :
  is_view s v -> displayable (disk_view v) (here v) l -> (length l < fuel)%nat ->
  typed v = ks ++ 10 :: rest -> Forall ordinary ks -> (length ks <= 252)%nat -> (length ks < fuel)%nat ->
  z2b <$> ks = cd_line path -> walkable path names -> walk (disk_view v) (here v) names c' ->
  0 <= fst (fst (place v)) < 99 ->
  exists r col s', shell_round junk fuel a b s = Ret (r, s') /\
    is_view s' (with_keys rest false col (printed (prompt (path_text (disk_view v) l) ++ echo ([], z2b 0) ks ++
      [Putchar 10 COLOR_WHITE_ON_BLACK; cd_message; Puts [z2b 10] 0x0]) (pushed c' v))).
Proof.
  intros Hv Hd Hl Hty Hks Hlen Hf Hline Hpath Hw Hi.
  destruct (wp_elim (shell_round junk fuel a b) (fun _ s' => exists col,
    is_view s' (with_keys rest false col (printed (prompt (path_text (disk_view v) l) ++ echo ([], z2b 0) ks ++
      [Putchar 10 COLOR_WHITE_ON_BLACK; cd_message; Puts [z2b 10] 0x0]) (pushed c' v)))) s) as (r & s' & Hr & col & Hs').
  { eapply wp_round_cd; [done..|]. intros r col s' Hs'. by exists col. }
  by exists r, col, s'.
Qed.

(** ** The position of the shell *)

(** At the prompt the keys of a "cd path" wait, with a path that leads somewhere. *)
Record cd_typed (v : view) (ks rest : list Z) (c' : Z) : Prop := {
  cd_shown : exists l, displayable (disk_view v) (here v) l /\ (length l < fuel)%nat;
  cd_keys : typed v = ks ++ 10 :: rest;
  cd_ordinary : Forall ordinary ks /\ (length ks <= 252)%nat /\ (length ks < fuel)%nat;
  cd_path : exists path names, z2b <$> ks = cd_line path /\ walkable path names /\ walk (disk_view v) (here v) names c';
}.

(** C17: the position of the shell in every state at the head of its loop, from the
    zeros of the globals, whatever is typed and whatever the file system holds.
    After [n] rounds the index of [clusters] is between 0 and [n]; the clusters fit 16
    bits and the current one is at the index.  The code has no bound for the
    index.  So what a "cd path" that leads somewhere does depends on it: below
    99, and hence in any of the first 99 rounds, it is stored in the array and
    the index grows by one; at 99 the store is behind the array, and the round
    has no defined result. *)
Theorem shell_place_invariant s0 n b s :
  idx s0 = 0 -> cluster_stack s0 = replicate 100 0 -> reachable junk fuel s0 n b s ->
  place_ok (place_of s) /\ 0 <= idx s <= Z.of_nat n /\
  (forall v ks rest c', is_view s v -> cd_typed v ks rest c' ->
     if decide (idx s < 99) then
       exists b' s', shell_round junk fuel (fst b) (snd b) s = Ret (b', s') /\
         idx s' = idx s + 1 /\ nth (Z.to_nat (idx s + 1)) (cluster_stack s') 0 = c' /\ current_cluster_pos s' = c'
     else shell_round junk fuel (fst b) (snd b) s = Undef).
Proof.
  intros Hi Hl Hreach. pose proof (reachable_place junk fuel s0 n b s Hi Hl Hreach) as [Hok Hn].
  pose proof Hok as (Hr & Hlen & _). split; [exact Hok|]. split; [split; [apply Hr|exact Hn]|].
  intros v ks rest c' Hv [(l & Hd & Hlf) Hty (Hks & Hk252 & Hkf) (path & names & Hline & Hpath & Hw)].
  pose proof (view_place _ _ Hv) as Hp. assert (Hidx : fst (fst (place v)) = idx s) by by rewrite <- Hp.
  case_decide as E.
  - destruct (wp_elim (shell_round junk fuel (fst b) (snd b)) (fun _ s' => place_of s' = place (pushed c' v)) s) as (b' & s' & Hrun & Hp').
    { eapply (wp_round_cd _ _ ks rest l path names c' v); [done..|lia|]. intros r col s' Hv'. exact (view_place _ _ Hv'). }
    exists b', s'. split; [done|]. unfold place_of, pushed in Hp'. cbn [place with_place] in Hp'. rewrite Hidx in Hp'.
    injection Hp' as -> -> ->. split; [done|]. split; [|done].
    apply nth_lookup_Some, list_lookup_insert_eq. rewrite <- Hp. cbn [fst snd]. rewrite Hlen. lia.
  - apply (round_cd (fun r => r = Undef) _ _ ks rest l path v s); [done..|]. intros buffer dir col s1 Hv1 Hm.
    unfold run_line, mbind, M_bind. rewrite (cd_overflow junk fuel buffer path names c' _ s1 Hv1 Hm Hpath Hw); [done|].
    cbn [place ready with_keys printed]. lia.
Qed.

End Round.
