(* ===== verification/ShellSession.v ===== *)
(** Sessions: the commands on directories, over the map that the file
    system refines; from the start of the shell, through any lines typed, the
    tree and the position of the shell in it are in order. *)
From Stdlib Require Import ZArith Lia.
From Stdlib Require Strings.String.
From stdpp Require Import base numbers option strings zmap functions list.
From S2P Require Import Prelude CString Disk FatTypes Fat32 FatView FatRead FatWrite FatCreate FatDelete FatDir FatInit FatInvariant FatHistory FatMap Process Interrupt Terminal Shell Commands ShellRules ShellPath ShellInput ShellParse ShellPlace ShellCd ShellFiles ShellMkdir ShellList ShellRound.

(** ** The invariant *)

(** The directories that "cd .." leads back to, with the current one at the end. *)
Definition trail (p : Z * list Z * Z) : list Z := take (S (Z.to_nat (fst (fst p)))) (snd (fst p)).

(** The file system is in order, and so is the position: every directory of the
    trail is one of the tree. *)
Record session_ok (V : clusters) (p : Z * list Z * Z) : Prop := {
  session_disk : fs_ok V;
  session_place : place_ok p;
  session_trail : Forall (reach V) (trail p);
}.

Lemma here_on_trail p : place_ok p -> snd p ∈ trail p.
Proof.
  destruct p as [[i l] c]. intros (Hi & _ & _ & Hc). apply (list_elem_of_lookup_2 _ (Z.to_nat i)). unfold trail. cbn [fst snd].
  by rewrite lookup_take_lt by lia.
Qed.

Lemma session_here V p : session_ok V p -> reach V (snd p).
Proof. intros [_ Hp Ht]. rewrite Forall_forall in Ht. by apply Ht, here_on_trail. Qed.

(** The position after a directory is put on top. *)
Definition push_place (c : Z) (p : Z * list Z * Z) : Z * list Z * Z :=
  (fst (fst p) + 1, <[Z.to_nat (fst (fst p) + 1) := c]> (snd (fst p)), c).

(** The position after "cd ..". *)
Definition pop_place (p : Z * list Z * Z) : Z * list Z * Z :=
  (fst (fst p) - 1, snd (fst p), nth (Z.to_nat (fst (fst p) - 1)) (snd (fst p)) 0).

Lemma trail_push c p : place_ok p -> fst (fst p) < 99 -> trail (push_place c p) = trail p ++ [c].
Proof.
  destruct p as [[i l] c0]. intros (Hi & Hl & _) Hi2. unfold trail, push_place. cbn [fst snd] in *.
  replace (Z.to_nat (i + 1)) with (S (Z.to_nat i)) by lia.
  rewrite (take_S_r _ _ c) by (apply list_lookup_insert_eq; lia). by rewrite take_insert_ge by lia.
Qed.

Lemma push_ok V c p : session_ok V p -> fst (fst p) < 99 -> reach V c -> session_ok V (push_place c p).
Proof.
  intros [Hok Hp Ht] Hi Hc. split; [done| |].
  - pose proof (reach_directory V Hok c Hc) as (Hr & _). destruct p as [[i l] c0]. destruct Hp as (Hi0 & Hl & Hall & _).
    unfold push_place. cbn [fst snd] in *. split; [lia|]. split; [by rewrite length_insert|]. split; [apply Forall_insert; [done|fat_lia]|]. apply list_lookup_insert_eq. lia.
  - rewrite trail_push by done. apply Forall_app. split; [done|]. by apply Forall_singleton.
Qed.

Lemma pop_ok V p : session_ok V p -> 0 < fst (fst p) -> session_ok V (pop_place p).
Proof.
  intros [Hok Hp Ht] Hi. destruct p as [[i l] c]. destruct Hp as (Hi0 & Hl & Hall & Hc). unfold pop_place, trail in *. cbn [fst snd] in *.
  split; [done| |].
  - do 3 (split; [done || lia|]). destruct (lookup_lt_is_Some_2 l (Z.to_nat (i - 1)) ltac:(lia)) as [x Hx].
    by rewrite (nth_lookup_Some _ _ _ _ Hx).
  - cbn [fst snd]. replace (Z.to_nat i) with (S (Z.to_nat (i - 1))) in Ht by lia.
    rewrite Forall_forall in Ht |- *. intros x Hx. apply Ht.
    unfold trail in Hx. cbn [fst snd] in Hx. apply elem_of_take in Hx as (j & Hj & Hlt). apply elem_of_take. exists j. split; [done|lia].
Qed.

(** ** Walking in the tree *)

(** The component [x] leads from [c] to [t], by an entry that is one of a
    directory. *)
Definition folder (V : clusters) (c : Z) (x : list byte) (t : Z) : Prop :=
  child V c x t /\ exists i, directory_index (dir V c) (name8 x) = Some i /\ filesize (dir V c i) = 0.

Inductive folders (V : clusters) : Z -> list (list byte) -> Z -> Prop :=
| folders_here c : folders V c [] c
| folders_down c x t l c' : folder V c x t -> folders V t l c' -> folders V c (x :: l) c'.

Lemma folders_walk V c l c' : folders V c l c' -> walk V c l c'.
Proof. induction 1 as [|c x t l c' [Hch _] _ IH]; [constructor|by econstructor]. Qed.

Lemma name8_real b x ex : b <> z2b 0 -> real_name (name8 (b :: x)) ex.
Proof. intros Hb [Hn _]. by injection Hn. Qed.

Lemma folder_reach V c x t : fs_ok V -> component x -> reach V c -> folder V c x t -> reach V t.
Proof.
  intros Hok [[Hx0 _] Hlen] Hc [(_ & _ & (i & Hi & <-) & _) (i' & Hi' & Hz)]. rewrite Hi in Hi'. injection Hi' as <-.
  destruct (reach_table V Hok c Hc) as (q & [_ [Hself _] (_ & Hpar & _) Hun]).
  unfold directory_index in Hi. case_bool_decide; [injection Hi as <-; by rewrite Hself|].
  apply find_up_Some in Hi as (Hi & Hn%bool_decide_eq_true & _).
  destruct (decide (i = 1)) as [->|Hne].
  - apply reach_inv in Hc as [->|(p & j & Hp & Hs & Hf & ->)].
    + destruct (table_parent _ _ _ (ok_root V Hok)) as (_ & -> & _). constructor.
    + by destruct (table_parent _ _ _ (ok_folder V Hok p j Hp Hs Hf)) as (_ & -> & _).
  - apply reach_sub; [done| |done]. split; [lia|].
    destruct (decide (user_attribute (dir V c i) = UATTR_NOT_EMPTY)) as [|Hu]; [done|].
    destruct (Hun i ltac:(lia) Hu) as [Hz8 _]. destruct x as [|b x]; [cbn [length] in Hlen; lia|].
    destruct (name8_real b x (zeros 3)); [|split; [congruence|done]]. intros ->. apply Hx0, elem_of_cons. by left.
Qed.

Lemma folders_reach V c l c' : fs_ok V -> Forall component l -> folders V c l c' -> reach V c -> reach V c'.
Proof.
  intros Hok Hl Hw. induction Hw as [|c x t l c' Hf Hw IH]; [done|]. apply Forall_cons in Hl as [Hx Hl].
  intros Hc. apply IH; [done|]. by eapply folder_reach.
Qed.

(** ** Lines *)

(** The lines of a session: cd with a path, "cd ..", mkdir and rm with a name,
    and ls. *)
Inductive session_line :=
| GoDown (path : list byte)
| GoBack
| MakeFolder (nm : list byte)
| Remove (nm : list byte)
| ShowFolder.

Definition line_of (c : session_line) : list byte :=
  match c with
  | GoDown path => cd_line path
  | GoBack => cd_line (cstring "..")
  | MakeFolder nm => mkdir_line nm
  | Remove nm => rm_line nm
  | ShowFolder => cstring "ls"
  end.

(** The request for a name in the directory [p]. *)
Definition request_at (nm : list byte) (p : Z) : request := Request 0 (name8 nm) (zeros 3) p 0.

(** What the lines rely on: a path has directories that exist, and there is an
    entry of [clusters] to spare; a name is not empty; rm does not remove a
    directory that "cd .." would lead back to, nor the current one; and ls finds
    a terminator behind every name. *)
Definition allowed (V : clusters) (p : Z * list Z * Z) (c : session_line) : Prop :=
  match c with
  | GoDown path => fst (fst p) < 99 /\ exists l c', walkable path l /\ folders V (snd p) l c'
  | GoBack => True
  | MakeFolder nm => nm <> [] /\ (z2b 32 ∉ nm)
  | Remove nm => rm_name nm /\ (delete_rejects V (request_at nm (snd p)) = None ->
      forall c, names V (snd p) (name8 nm) (zeros 3) = Some (Folder c) -> c ∉ trail p)
  | ShowFolder => names_end (dir V (snd p))
  end.

(** What a line does: the disk, the position and what is printed.  The commands that
    ask the file system get the answer of the map, and change it as the request
    does; they leave the position. *)
Definition served (V : clusters) (o : operation) (V' : clusters) (code : Z) : Prop :=
  answer V o (names V (fst (fst (target o))) (snd (fst (target o))) (snd (target o))) code /\
  refines V V' ∅ o code /\ directories_kept V V' o.

Definition effect (V : clusters) (p : Z * list Z * Z) (c : session_line)
    (V' : clusters) (p' : Z * list Z * Z) (message : list output) : Prop :=
  match c with
  | GoDown path => V' = V /\ message = [cd_message] /\
      exists l c', path = join l /\ folders V (snd p) l c' /\ p' = push_place c' p
  | GoBack => V' = V /\
      if fst (fst p) =? 0 then message = [root_message] /\ p' = p else message = [cd_message] /\ p' = pop_place p
  | MakeFolder nm => p' = p /\
      exists code, message = [mkdir_message code] /\ served V (Write (request_at nm (snd p))) V' code
  | Remove nm => p' = p /\
      exists code, message = [rm_message code] /\ served V (Delete (request_at nm (snd p))) V' code
  | ShowFolder => V' = V /\ p' = p /\ message = listing (dir V (snd p)) 64
  end.

Lemma trail_kept V V' p o :
  Forall (reach V) (trail p) -> directories_kept V V' o ->
  (forall r, o = Delete r -> delete_rejects V r = None ->
     forall c, names V (parent_cluster_number r) (req_name r) (req_ext r) = Some (Folder c) -> c ∉ trail p) ->
  Forall (reach V') (trail p).
Proof.
  rewrite !Forall_forall. intros Ht Hk Hne c Hc. apply (Hk c (Ht c Hc)). destruct o as [r|r]; [done|].
  intros Hrej Hn. by apply (Hne r eq_refl Hrej c Hn).
Qed.

Section Session.
Context {D T : Type} `{DiskSpec D, TerminalSpec T} (junk : nat -> mem) (fuel : nat).
Implicit Types (s : shell_state D T) (v : view) (V : clusters).

(** The view after a line. *)
Definition after (V : clusters) (g : Z -> Z) (p : Z * list Z * Z) (message : list output) (v : view) : view :=
  printed message (with_place p (with_disk V g v)).

(** The outcomes of a line, as a goal. *)
Definition leaves (c : session_line) (v : view) (Q : unit -> shell_state D T -> Prop) : Prop :=
  forall V' g p' message s', effect (disk_view v) (place v) c V' p' message -> session_ok V' p' ->
    is_view s' (after V' g p' message v) -> Q tt s'.

Lemma line_nonzero m b x cmd : holds_line m (cmd ++ z2b 32 :: b :: x) -> b <> z2b 0.
Proof.
  intros [Hs _] ->. replace (cmd ++ z2b 32 :: z2b 0 :: x) with ((cmd ++ [z2b 32]) ++ z2b 0 :: x) in Hs by by rewrite <- app_assoc.
  apply is_cstr_drop, is_cstr_cons in Hs. by destruct Hs as (_ & ? & _).
Qed.

Lemma wp_go_down m path v s Q :
  is_view s v -> session_ok (disk_view v) (place v) -> holds_line m (cd_line path) ->
  allowed (disk_view v) (place v) (GoDown path) -> leaves (GoDown path) v Q -> wp (parseCommand junk fuel m) Q s.
Proof.
  intros Hv Hok Hm (Hi & l & c' & Hpath & Hw) HQ.
  eapply (wp_cd junk fuel m path l c' v); [done..|by apply folders_walk| |].
  { pose proof (session_place _ _ Hok) as Hp. destruct (place v) as [[i st] c]. destruct Hp. cbn [fst] in *. lia. }
  intros s' Hv'. apply (HQ (disk_view v) (cached v) (push_place c' (place v)) [cd_message] s').
  - split; [done|]. split; [done|]. exists l, c'. split; [apply Hpath|done].
  - apply push_ok; [done..|]. eapply folders_reach; [apply Hok|apply Hpath|exact Hw|by apply session_here].
  - exact Hv'.
Qed.

Lemma wp_go_back m v s Q :
  is_view s v -> session_ok (disk_view v) (place v) -> holds_line m (line_of GoBack) -> leaves GoBack v Q ->
  wp (parseCommand junk fuel m) Q s.
Proof.
  intros Hv Hok Hm HQ. pose proof (session_place _ _ Hok) as Hp. destruct (Z.eqb_spec (fst (fst (place v))) 0) as [E|E].
  - eapply wp_cd_top; [exact Hv|exact Hm|done|]. intros s' Hv'.
    apply (HQ (disk_view v) (cached v) (place v) [root_message] s'); [|done|exact Hv']. split; [done|]. by rewrite E.
  - assert (Hi : 0 < fst (fst (place v)) < 100) by (destruct (place v) as [[i st] c]; destruct Hp; cbn [fst] in *; lia).
    eapply wp_cd_up; [exact Hv|exact Hm|lia|]. intros s' Hv'.
    assert (Hc : u16 (nth (Z.to_nat (fst (fst (place v)) - 1)) (snd (fst (place v))) 0) =
      nth (Z.to_nat (fst (fst (place v)) - 1)) (snd (fst (place v))) 0).
    { destruct (place v) as [[i st] c]. destruct Hp as (_ & Hl & Hall & _). cbn [fst snd] in *.
      destruct (lookup_lt_is_Some_2 st (Z.to_nat (i - 1)) ltac:(lia)) as [x Hx]. rewrite (nth_lookup_Some _ _ _ _ Hx).
      rewrite Forall_forall in Hall. by apply u16_small, Hall, (list_elem_of_lookup_2 _ _ _ Hx). }
    rewrite Hc in Hv'. apply (HQ (disk_view v) (cached v) (pop_place (place v)) [cd_message] s'); [|apply pop_ok; [done|lia]|exact Hv'].
    split; [done|]. by rewrite (proj2 (Z.eqb_neq _ _) E).
Qed.

(** The outcome of a request in the current directory, for the rules of mkdir and
    rm. *)
Definition request_left V (p : Z * list Z * Z) (o : operation) (code : Z) (V' : clusters) : Prop :=
  served V o V' code /\ session_ok V' p.

Lemma wp_make_folder m nm v s Q :
  is_view s v -> session_ok (disk_view v) (place v) -> holds_line m (mkdir_line nm) ->
  allowed (disk_view v) (place v) (MakeFolder nm) -> leaves (MakeFolder nm) v Q -> wp (parseCommand junk fuel m) Q s.
Proof.
  intros Hv Hok Hm [Hne Hsp] HQ. pose proof (session_here _ _ Hok) as Hhere. pose proof Hok as [Hfs Hp Ht].
  destruct (reach_directory _ Hfs _ Hhere) as (Hc & _). set (r := request_at nm (here v)).
  eapply (wp_mkdir junk fuel (request_left (disk_view v) (place v) (Write r))); [exact Hv|exact Hm|done|exact Hc| |].
  - intros f Hf. destruct nm as [|b x]; [done|]. eapply wp_mono; [apply (wp_write_refines r (disk_view v) f Hf Hfs)|].
    + split; [by apply (here_request_ok (b :: x) v)|]. split; [done|]. split; [done|]. split; [done|]. by intros [].
    + apply name8_real. by eapply line_nonzero.
    + intros code f' (V' & Hd & Hfs' & Ha & Href & Hk). exists V'. split; [done|]. split; [by split; [|split]|].
      split; [done|done|]. by eapply trail_kept.
  - intros code V' g s' [Hserved Hok'] Hv'.
    apply (HQ V' g (place v) [mkdir_message (i8 code)] s'); [|done|exact Hv']. split; [done|].
    exists code. split; [|exact Hserved]. do 2 f_equal. destruct Hserved as (Ha & _). unfold answer in Ha. destruct (names _ _ _ _).
    + by destruct Ha as [-> | ->].
    + by destruct (write_rejects _ _) in Ha; subst code.
Qed.

Lemma wp_remove m nm v s Q :
  is_view s v -> session_ok (disk_view v) (place v) -> holds_line m (rm_line nm) ->
  allowed (disk_view v) (place v) (Remove nm) -> leaves (Remove nm) v Q -> wp (parseCommand junk fuel m) Q s.
Proof.
  intros Hv Hok Hm [Hnm Hkeep] HQ. pose proof (session_here _ _ Hok) as Hhere. pose proof Hok as [Hfs Hp Ht].
  destruct (reach_directory _ Hfs _ Hhere) as (Hc & _). set (r := request_at nm (here v)).
  eapply (wp_rm junk fuel (request_left (disk_view v) (place v) (Delete r))); [exact Hv|exact Hm|done|exact Hc|by apply own_cluster| |].
  - intros f Hf. eapply wp_mono; [apply (wp_delete_refines r (disk_view v) f Hf Hfs)|].
    + split; [by apply (here_request_ok nm v)|]. split; [done|]. split.
      * destruct Hnm as (_ & _ & _ & b & x & -> & _). apply name8_real. by eapply line_nonzero.
      * intros Hrej Hfind. apply (Hkeep Hrej (here v)); [|by apply here_on_trail].
        destruct (reach_table _ Hfs _ Hhere) as (q & [_ [Hself Hz] _ _]).
        apply names_found in Hfind. rewrite node_of_folder in Hfind by done.
        by replace (here v) with (entry_cluster (dir (disk_view v) (here v) 0)).
    + intros code f' (V' & Hd & Hfs' & Ha & Href & Hk). exists V'. split; [done|]. split; [by split; [|split]|].
      split; [done|done|]. eapply trail_kept; [exact Ht|exact Hk|]. by intros r' [= <-].
  - intros code V' g s' [Hserved Hok'] Hv'.
    apply (HQ V' g (place v) [rm_message (u8 code)] s'); [|done|exact Hv']. split; [done|].
    exists code. split; [|exact Hserved]. destruct Hserved as (Ha & _). unfold answer in Ha. destruct (names _ _ _ _) as [[c|]|].
    + destruct (_ =? ROOT_CLUSTER_NUMBER); [by subst code|]. destruct (dir_empty _ _); by subst code.
    + by subst code.
    + by subst code.
Qed.

Lemma wp_show_folder m v s Q :
  is_view s v -> session_ok (disk_view v) (place v) -> holds_line m (line_of ShowFolder) ->
  allowed (disk_view v) (place v) ShowFolder -> leaves ShowFolder v Q -> wp (parseCommand junk fuel m) Q s.
Proof.
  intros Hv Hok Hm Hend HQ. pose proof (session_here _ _ Hok) as Hhere. pose proof Hok as [Hfs _ _].
  destruct (reach_table _ Hfs _ Hhere) as (q & [(Hc & _) [Hself _] _ _]).
  eapply (wp_ls junk fuel m v); [exact Hv|exact Hm|exact Hc|exact Hself|exact Hend|]. intros s' Hv'.
  by apply (HQ (disk_view v) (cached v) (place v) (listing (dir (disk_view v) (here v)) 64) s').
Qed.

(** A line that is allowed is served. *)
Lemma wp_line m c v s Q :
  is_view s v -> session_ok (disk_view v) (place v) -> holds_line m (line_of c) ->
  allowed (disk_view v) (place v) c -> leaves c v Q -> wp (parseCommand junk fuel m) Q s.
Proof.
  destruct c; intros; [by eapply wp_go_down|by eapply wp_go_back|by eapply wp_make_folder|by eapply wp_remove|by eapply wp_show_folder].
Qed.

(** ** Rounds *)

(** What is typed: the keys of a line and a newline, in a directory whose path
    can be displayed; the line is allowed. *)
Record typed_line (v : view) (ks rest : list Z) (path : list (list byte)) (c : session_line) : Prop := {
  line_path : displayable (disk_view v) (here v) path /\ (length path < fuel)%nat;
  line_typed : typed v = ks ++ 10 :: rest;
  line_keys : Forall ordinary ks /\ (length ks <= 252)%nat /\ (length ks < fuel)%nat;
  line_bytes : z2b <$> ks = line_of c;
  line_allowed : allowed (disk_view v) (place v) c;
}.

(** What a round prints. *)
Definition round_output (v : view) (ks : list Z) (path : list (list byte)) (message : list output) : list output :=
  prompt (path_text (disk_view v) path) ++ echo ([], z2b 0) ks ++
    [Putchar 10 COLOR_WHITE_ON_BLACK] ++ message ++ [Puts [z2b 10] 0x0].

(** The view after a round. *)
Definition after_round V (g : Z -> Z) (p : Z * list Z * Z) (o : list output) (rest : list Z) (col : Z) (v : view) : view :=
  with_keys rest false col (printed o (with_place p (with_disk V g v))).

Lemma line_of_nonempty c : line_of c <> [].
Proof. by destruct c. Qed.

Lemma wp_round a b ks rest path c v s (Q : mem * mem -> shell_state D T -> Prop) :
  is_view s v -> session_ok (disk_view v) (place v) -> typed_line v ks rest path c ->
  (forall V' g p' message col r s', effect (disk_view v) (place v) c V' p' message -> session_ok V' p' ->
     is_view s' (after_round V' g p' (round_output v ks path message) rest col v) -> Q r s') ->
  wp (shell_round junk fuel a b) Q s.
Proof.
  intros Hv Hok [[Hd Hdepth] Hty (Hks & Hlen & Hf) Hbytes Hall] HQ.
  assert (Hnl : 10 ∉ ks).
  { intros Hin. rewrite Forall_forall in Hks. by destruct (Hks 10 Hin) as (_ & ? & _). }
  assert (Hne : ks <> []) by (intros ->; by destruct (line_of_nonempty c)).
  rewrite wp_ends. apply (round_runs_line junk fuel (ends Q) a b ks rest path v s); [done..|].
  intros buffer dir col s1 Hv1 Hb _. rewrite <- wp_ends.
  pose proof (typed_holds_line _ _ Hks Hne Hlen Hb) as Hm. rewrite Hbytes in Hm.
  apply wp_bind. eapply wp_line; [exact Hv1|exact Hok|exact Hm|exact Hall|].
  intros V' g p' message s2 Heff Hok' Hv2.
  apply wp_bind. eapply wp_sys_puts; [exact Hv2|]. intros s3 Hv3. apply wp_ret.
  apply (HQ V' g p' message col _ s3 Heff Hok').
  destruct Hv3; split; try done. cbn [out with_keys printed ready after_round after with_place with_disk] in *.
  unfold round_output. by rewrite <- !app_assoc in *.
Qed.

(** The position at the start of the shell. *)
Definition start_place : Z * list Z * Z := (0, ROOT_CLUSTER_NUMBER :: replicate 99 0, ROOT_CLUSTER_NUMBER).

Lemma start_ok V : fs_ok V -> session_ok V start_place.
Proof. intros Hok. split; [done|by apply (bool_decide_unpack _)|]. apply Forall_singleton. constructor. Qed.

Lemma wp_shell_start v s (Q : mem * mem -> shell_state D T -> Prop) :
  is_view s v -> fst (place v) = (0, replicate 100 0) ->
  (forall r s', is_view s' (with_place start_place v) -> Q r s') -> wp (shell_start junk) Q s.
Proof.
  intros Hv Hp HQ. unfold shell_start. apply wp_bind. eapply wp_uninit; [exact Hv|]. intros b1 s1 Hv1.
  apply wp_bind. eapply wp_uninit; [exact Hv1|]. intros b2 s2 Hv2.
  apply wp_bind. eapply wp_idx; [exact Hv2|]. apply wp_bind. eapply wp_stack; [exact Hv2|]. rewrite Hp. cbn [fst snd].
  apply wp_bind. eapply wp_set_place; [exact Hv2|]. intros s3 Hv3.
  apply wp_bind. eapply wp_clusters_set; [exact Hv3|lia|]. intros s4 Hv4. apply wp_ret. apply HQ. exact Hv4.
Qed.

(** The states of a session at the head of the loop of [shell], with its two local
    buffers: from a start on a file system in order, through lines that are
    allowed. *)
Inductive session : mem * mem -> shell_state D T -> Prop :=
| session_start s0 v0 b s :
    is_view s0 v0 -> fs_ok (disk_view v0) -> fst (place v0) = (0, replicate 100 0) -> shell_start junk s0 = Ret (b, s) ->
    session b s
| session_round b s v ks rest path c b' s' :
    session b s -> is_view s v -> typed_line v ks rest path c -> shell_round junk fuel (fst b) (snd b) s = Ret (b', s') ->
    session b' s'.

(** Two views of one state. *)
Lemma session_agrees s v v2 :
  is_view s v -> is_view s v2 -> session_ok (disk_view v) (place v) -> session_ok (disk_view v2) (place v2).
Proof.
  intros Hv Hv2 [Hok Hp Ht]. assert (Hpp : place v2 = place v) by by rewrite <- (view_place _ _ Hv), <- (view_place _ _ Hv2).
  assert (HV : forall c, 0 <= c < CLUSTER_MAP_SIZE -> disk_view v2 c = disk_view v c).
  { intros c Hc. destruct (view_disk _ _ Hv) as [_ H3]. destruct (view_disk _ _ Hv2) as [_ H4]. by rewrite <- H3, <- H4. }
  assert (Hok2 : fs_ok (disk_view v2)) by by apply (fs_ok_ext (disk_view v)).
  rewrite Hpp. split; [done..|]. eapply Forall_impl; [exact Ht|]. intros c. apply reach_ext; [done|].
  intros x Hx. symmetry. by apply HV.
Qed.

Lemma session_invariant b s : session b s -> exists v, is_view s v /\ session_ok (disk_view v) (place v).
Proof.
  induction 1 as [s0 v0 b s Hv Hok Hp Hr|b s v ks rest path c b' s' _ (v1 & Hv1 & Hok1) Hv Hty Hr].
  - destruct (wp_elim (shell_start junk) (fun _ s' => is_view s' (with_place start_place v0)) s0) as (b2 & s2 & Hr2 & Hv2);
      [by eapply wp_shell_start|]. rewrite Hr in Hr2. injection Hr2 as <- <-.
    exists (with_place start_place v0). split; [done|]. by apply start_ok.
  - pose proof (session_agrees s v1 v Hv1 Hv Hok1) as Hok.
    destruct (wp_elim (shell_round junk fuel (fst b) (snd b))
      (fun _ s2 => exists v2, is_view s2 v2 /\ session_ok (disk_view v2) (place v2)) s) as (b2 & s2 & Hr2 & Hs2).
    { eapply wp_round; [done..|]. intros V' g p' message col r s2 _ Hok' Hv2. eexists. split; [exact Hv2|]. exact Hok'. }
    rewrite Hr in Hr2. by injection Hr2 as _ <-.
Qed.


(** Why rm must not remove a directory of the trail: the shell does not look
    whether "cd .." leads back to the directory that is removed, and then the
    current directory is a cluster that is free, and will be the next file's or
    directory's. *)
Theorem rm_on_trail m m2 nm v s k :
  is_view s v -> session_ok (disk_view v) (place v) -> 0 < fst (fst (place v)) ->
  holds_line m (rm_line nm) -> rm_name nm -> holds_line m2 (cd_line (cstring "..")) ->
  let V := disk_view v in
  let t := nth (Z.to_nat (fst (fst (place v)) - 1)) (snd (fst (place v))) 0 in
  dir_find (dir V (here v)) (name8 nm) (zeros 3) = Some k -> 2 <= k -> filesize (dir V (here v) k) = 0 ->
  entry_cluster (dir V (here v) k) = t -> dir_empty V t = true ->
  exists s' v', (parseCommand junk fuel m ;; parseCommand junk fuel m2) s = Ret (tt, s') /\ is_view s' v' /\
    here v' = t /\ fat (disk_view v') t = FAT32_FAT_EMPTY_ENTRY.
Proof.
  intros Hv Hok Hi Hm Hnm Hm2 V t Hfind Hk Hz Ht Hempty. pose proof Hok as [Hfs Hp _].
  assert (Hhere : reach V (here v)) by by apply session_here.
  destruct (reach_directory V Hfs _ Hhere) as (Hc & Hc1 & Hcf & Hcu). pose proof (dir_find_Some _ _ _ _ Hfind) as (Hk64 & Hname & Hext).
  assert (Hs : slot V (here v) k).
  { split; [lia|]. destruct Hnm as (_ & _ & _ & b & x & Hb & _). subst nm.
    apply (found_used V (here v) (name8 (b :: x)) (zeros 3) k Hfs Hhere); [|done]. apply name8_real. by eapply line_nonzero. }
  destruct (folder_cluster V Hfs _ k Hhere Hs Hz) as [Htc _]. rewrite Ht in Htc.
  assert (Hth : t <> here v) by (rewrite <- Ht; by apply (no_loop V Hfs (here v) Hhere k)).
  destruct (wp_elim (parseCommand junk fuel m ;; parseCommand junk fuel m2) (fun _ s' => exists v', is_view s' v' /\
    here v' = t /\ fat (disk_view v') t = FAT32_FAT_EMPTY_ENTRY) s) as ([] & s' & Hr & v' & Hpost); [|by exists s', v'].
  apply wp_bind. eapply (wp_rm junk fuel (fun _ V' => fat V' t = FAT32_FAT_EMPTY_ENTRY));
    [exact Hv|exact Hm|done|exact Hc|by apply own_cluster| |].
  - intros f Hf. eapply wp_mono; [apply (wp_delete_directory delete_fuel (here_request nm v) V f k)|].
    all: change (parent_cluster_number (here_request nm v)) with (here v); rewrite ?Ht; try first [done|fat_lia].
    + by apply here_request_ok.
    + intros a f' (_ & V' & Hd & _ & _ & _ & _ & Hfat & _). exists V'. split; [done|].
      rewrite Hfat, decide_True by (done || lia). done.
  - intros code V' g s1 Hfat Hv1. eapply (wp_cd_up junk fuel m2); [exact Hv1|exact Hm2| |].
    + cbn [place printed with_disk]. destruct (place v) as [[i st] c]. destruct Hp. cbn [fst] in *. lia.
    + intros s2 Hv2. eexists. split; [exact Hv2|]. cbn [here place with_place printed with_disk disk_view snd]. split; [|exact Hfat].
      apply u16_small. fold t. fat_lia.
Qed.

End Session.
