(* ===== verification/ShellSample.v ===== *)
(** The theorems about the shell at concrete states: the sample image, the
    processes of a kernel that has just started, and lines that are in the
    input buffer or that a script of keys types. *)
From Stdlib Require Import ZArith Lia.
From Stdlib Require Strings.String.
From stdpp Require Import base numbers option strings zmap functions list.
From S2P Require Import Prelude CString Disk FatTypes Fat32 FatView FatRead FatWrite FatCreate FatSample FatDelete FatDir Process ProcessSample Scheduler Interrupt Terminal Shell Commands ShellRules ShellPath ShellInput ShellParse ShellPlace ShellCd ShellFiles ShellMkdir ShellCat ShellCp ShellList ShellRound.

Module ShellSample.

(** Arbitrary memory that happens to be zero. *)
Definition junk : nat -> mem := fun _ => ∅.

Definition fresh_place : Z * list Z * Z := (0, 2 :: replicate 99 0, 2).

(** The shell at a position, with keys that will be typed. *)
Definition state (k : kernel Inserter.image) (p : Z * list Z * Z) (ks : list Z) (on : bool) : shell_state Inserter.image script :=
  ShellState k (Script ks on) (fst (fst p)) (snd (fst p)) (snd p) [] 0.

Definition look (k : kernel Inserter.image) (p : Z * list Z * Z) (ks : list Z) (on : bool) : view :=
  View (cluster (D := Inserter.image) (device k)) (cluster_map (driver k)) (procs k) p [] ks on 0.

Definition shell0 : shell_state Inserter.image script := state ProcessSample.kernel0 fresh_place [] false.
Definition view0 : view := look ProcessSample.kernel0 fresh_place [] false.

(** A line in the input buffer. *)
Definition buffer (l : String.string) : mem := obj (cstring l).
Arguments buffer l%_string_scope.

Definition keys_of (l : String.string) : list Z := b2z <$> cstring l.
Arguments keys_of l%_string_scope.

End ShellSample.

Lemma shell_sample_view k p ks on : is_view (ShellSample.state k p ks on) (ShellSample.look k p ks on).
Proof. split; try done; try (by destruct p as [[i l] c]); by apply disk_is_cluster. Qed.

Lemma sample_holds_line l :
  bool_decide (z2b 0 ∉ cstring l) = true -> (length (cstring l) <= 252)%nat -> holds_line (ShellSample.buffer l) (cstring l).
Proof.
  intros Hz%bool_decide_eq_true Hl. unfold ShellSample.buffer, obj. split; [|split; [done|]].
  - split; [by apply load_store_eq|]. split; [|done]. rewrite mget_store_out by lia. unfold mget. by rewrite lookup_empty.
  - intros a Ha. rewrite mget_store_out by lia. unfold mget. by rewrite lookup_empty.
Qed.

Lemma image_directory_index d p nm :
  0 <= p < CLUSTER_MAP_SIZE ->
  directory_index (dir (cluster (D := Inserter.image) d) p) nm =
    directory_index (fun i => entry_at (Inserter.image_storage d) (2048 * p + 32 * i)) nm.
Proof.
  intros Hp. unfold directory_index. case_bool_decide; [done|]. apply find_up_ext. intros i Hi. by rewrite image_dir by lia.
Qed.

Lemma image_dir_empty d p :
  0 <= p < CLUSTER_MAP_SIZE ->
  dir_empty (cluster (D := Inserter.image) d) p =
    match find_up (fun i => user_attribute (entry_at (Inserter.image_storage d) (2048 * p + 32 * i)) =? UATTR_NOT_EMPTY) 2 62 with
    | Some _ => false
    | None => true
    end.
Proof.
  intros Hp. unfold dir_empty. erewrite find_up_ext; [done|]. intros i Hi. cbv beta. by rewrite image_dir by lia.
Qed.

Lemma image_directory (d : Inserter.image) p :
  0 <= p < CLUSTER_MAP_SIZE -> p <> FAT_CLUSTER_NUMBER ->
  load_le 4 (Inserter.image_storage d) (2048 + 4 * p) <> FAT32_FAT_EMPTY_ENTRY ->
  user_attribute (entry_at (Inserter.image_storage d) (2048 * p + 32 * 0)) = UATTR_NOT_EMPTY ->
  directory (cluster (D := Inserter.image) d) p.
Proof.
  intros Hp H1 Hf Hu. split; [done|]. split; [done|]. rewrite image_fat by done. split; [done|]. by rewrite image_dir by (done || lia).
Qed.

(** Evaluate what a directory of the sample image holds. *)
Ltac by_compute := vm_compute; reflexivity.
Ltac line := apply sample_holds_line; [vm_compute; reflexivity|apply Nat.leb_le; vm_compute; reflexivity].

Lemma image_child (d : Inserter.image) c x t i :
  0 <= c < CLUSTER_MAP_SIZE -> 0 <= t < CLUSTER_MAP_SIZE ->
  let E := fun p j => entry_at (Inserter.image_storage d) (2048 * p + 32 * j) in
  directory_index (E c) (name8 x) = Some i -> 0 <= i < 64 -> entry_cluster (E c i) = t -> entry_cluster (E t 0) = t ->
  match name (E t 0) with b :: _ => negb ((b2z b =? 0) || (b2z b =? 0xE5)) | [] => true end = true ->
  child (cluster (D := Inserter.image) d) c x t.
Proof.
  intros Hc Ht E Hi Hr He Hs Hn. split; [done|]. split; [done|]. rewrite image_directory_index by done.
  assert (Hself : dir (cluster (D := Inserter.image) d) t 0 = E t 0) by (apply image_dir; [done|lia]).
  rewrite Hself. split; [|split; [done|]].
  - exists i. split; [exact Hi|]. by rewrite image_dir.
  - intros b l Hb. rewrite Hb in Hn.
    apply negb_true_iff, orb_false_iff in Hn as [H1%Z.eqb_neq H2%Z.eqb_neq]. by split.
Qed.

Lemma sample_sub : child (cluster (D := Inserter.image) Sample.image) 2 (cstring "sub") 4.
Proof. apply (image_child _ _ _ _ 3); try fat_lia; vm_compute; reflexivity. Qed.

Lemma sample_sub_sub : child (cluster (D := Inserter.image) Sample.image) 4 (cstring "sub") 4.
Proof. apply (image_child _ _ _ _ 1); try fat_lia; vm_compute; reflexivity. Qed.

(** The path "sub\sub". *)
Lemma sample_walk : walk (cluster (D := Inserter.image) Sample.image) 2 [cstring "sub"; cstring "sub"] 4.
Proof. eapply walk_down; [exact sample_sub|]. eapply walk_down; [exact sample_sub_sub|]. constructor. Qed.

Lemma sample_walkable : walkable (cstring "sub" ++ z2b 92 :: cstring "sub") [cstring "sub"; cstring "sub"].
Proof.
  split; [done|]. split; [done|]. split.
  { repeat constructor; try (apply (bool_decide_unpack _); done); cbn; lia. }
  split; [by apply (bool_decide_unpack _)|]. split; [apply Nat.leb_le; reflexivity|]. split; [by apply (bool_decide_unpack _)|].
  exists (z2b 115), (cstring "ub" ++ z2b 92 :: cstring "sub"). split; [done|]. by apply (bool_decide_unpack _).
Qed.

Definition sub_path_text : String.string := "cd sub\sub".

Lemma sample_cd_line : holds_line (ShellSample.buffer sub_path_text) (cd_line (cstring "sub" ++ z2b 92 :: cstring "sub")).
Proof. apply (sample_holds_line sub_path_text); [vm_compute; reflexivity|apply Nat.leb_le; vm_compute; reflexivity]. Qed.

Lemma cd_correct_witness :
  exists s', parseCommand ShellSample.junk 10 (ShellSample.buffer sub_path_text) ShellSample.shell0 = Ret (tt, s') /\
    is_view s' (printed [cd_message] (pushed 4 ShellSample.view0)).
Proof.
  apply (cd_correct ShellSample.junk 10 _ _ _ 4 ShellSample.view0 ShellSample.shell0 (shell_sample_view _ _ _ _) sample_cd_line sample_walkable sample_walk).
  cbn. lia.
Defined.

Lemma cd_back_roundtrip_witness :
  exists s', (parseCommand ShellSample.junk 10 (ShellSample.buffer sub_path_text) ;;
      parseCommand ShellSample.junk 10 (ShellSample.buffer "cd ..")) ShellSample.shell0 = Ret (tt, s') /\
    current_cluster_pos s' = 2 /\ idx s' = 0.
Proof.
  destruct (cd_back_roundtrip ShellSample.junk 10 (ShellSample.buffer sub_path_text) (ShellSample.buffer "cd ..")
    (cstring "sub" ++ z2b 92 :: cstring "sub") [cstring "sub"; cstring "sub"] 4 ShellSample.view0 ShellSample.shell0 (shell_sample_view _ _ _ _)) as (s' & Hr & Hv).
  - apply (bool_decide_unpack _). reflexivity.
  - exact sample_cd_line.
  - line.
  - exact sample_walkable.
  - exact sample_walk.
  - cbn. lia.
  - exists s'. split; [exact Hr|]. pose proof (view_place _ _ Hv) as Hp. split; [exact (f_equal snd Hp)|exact (f_equal (fun p => fst (fst p)) Hp)].
Defined.

Lemma cd_overflow_witness :
  parseCommand ShellSample.junk 10 (ShellSample.buffer sub_path_text)
    (ShellSample.state ProcessSample.kernel0 (99, replicate 100 2, 2) [] false) = Undef.
Proof.
  apply (cd_overflow ShellSample.junk 10 _ _ _ 4 (ShellSample.look ProcessSample.kernel0 (99, replicate 100 2, 2) [] false)
    _ (shell_sample_view _ _ _ _) sample_cd_line sample_walkable sample_walk).
  reflexivity.
Defined.

(** ** Paths *)

Lemma sample_entries p i : 
  0 <= p < CLUSTER_MAP_SIZE -> 0 <= i < 64 ->
  dir (cluster (D := Inserter.image) Sample.image) p i = entry_at (Inserter.image_storage Sample.image) (2048 * p + 32 * i).
Proof. apply image_dir. Qed.

Lemma sample_name p l :
  0 <= p < CLUSTER_MAP_SIZE ->
  cname (name (entry_at (Inserter.image_storage Sample.image) (2048 * p + 32 * 0))) = l ->
  directory_name (cluster (D := Inserter.image) Sample.image) p = l.
Proof. intros Hp Hl. unfold directory_name. by rewrite sample_entries by (done || lia). Qed.

Lemma sample_root_name : directory_name (cluster (D := Inserter.image) Sample.image) 2 = cstring "root".
Proof. apply sample_name; [fat_lia|by_compute]. Qed.

Lemma sample_empty_name : directory_name (cluster (D := Inserter.image) Sample.image) 6 = cstring "empty".
Proof. apply sample_name; [fat_lia|by_compute]. Qed.

Lemma sample_plain l : bool_decide ((z2b 0 ∉ l) /\ (z2b 92 ∉ l)) = true -> plain l.
Proof. apply bool_decide_eq_true_1. Qed.

Lemma sample_root_displayable : displayable (cluster (D := Inserter.image) Sample.image) 2 [].
Proof.
  split; [|rewrite sample_root_name; split; [by apply sample_plain|split; [constructor|]]].
  - constructor; rewrite sample_entries by fat_lia; by_compute.
  - unfold path_text. rewrite sample_root_name. apply Nat.leb_le. reflexivity.
Qed.

Lemma sample_empty_displayable : displayable (cluster (D := Inserter.image) Sample.image) 6 [cstring "empty"].
Proof.
  split; [|rewrite sample_root_name; split; [by apply sample_plain|split]].
  - rewrite <- sample_empty_name. apply located_top; [fat_lia|done|rewrite sample_entries by fat_lia; by_compute..].
  - apply Forall_singleton. by apply sample_plain.
  - apply Nat.leb_le. reflexivity.
Qed.

Lemma print_dir_tree_correct_witness :
  exists text' s', print_dir_tree ShellSample.junk 4 6 128 ∅ ShellSample.shell0 = Ret (text', s') /\
    is_cstr text' 0 (z2b 92 :: cstring "empty").
Proof.
  destruct (print_dir_tree_correct ShellSample.junk 4 6 128 ∅ ShellSample.view0 [cstring "empty"] ShellSample.shell0
    (shell_sample_view _ _ _ _) sample_empty_displayable) as (text' & s' & Hr & _ & Hs); [cbn; lia|lia|].
  exists text', s'. split; [exact Hr|exact Hs].
Defined.

(** ** A round *)

Lemma sample_ordinary l : bool_decide (Forall ordinary (ShellSample.keys_of l)) = true -> Forall ordinary (ShellSample.keys_of l).
Proof. apply bool_decide_eq_true_1. Qed.

Definition typed_state (l : String.string) : shell_state Inserter.image script :=
  ShellSample.state ProcessSample.kernel0 ShellSample.fresh_place (ShellSample.keys_of l ++ [10]) false.

Lemma shell_round_correct_witness :
  exists buffer dir s', load buffer 0 256 = buffer_bytes (edit (ShellSample.keys_of "ls")) /\
    shell_round ShellSample.junk 10 ∅ ∅ (typed_state "ls") = run_line ShellSample.junk 10 buffer dir s'.
Proof.
  destruct (shell_round_correct ShellSample.junk 10 ∅ ∅ (ShellSample.keys_of "ls") [] []
    (ShellSample.look ProcessSample.kernel0 ShellSample.fresh_place (ShellSample.keys_of "ls" ++ [10]) false) (typed_state "ls")
    (shell_sample_view _ _ _ _) sample_root_displayable) as (buffer & dir & col & s' & _ & Hb & _ & Hr).
  - cbn. lia.
  - reflexivity.
  - by apply (bool_decide_unpack _).
  - cbn. lia.
  - exists buffer, dir, s'. split; [exact Hb|exact Hr].
Defined.

Lemma shell_round_cd_witness :
  exists r s', shell_round ShellSample.junk 20 ∅ ∅ (typed_state sub_path_text) = Ret (r, s') /\ current_cluster_pos s' = 4.
Proof.
  destruct (shell_round_cd ShellSample.junk 20 ∅ ∅ (ShellSample.keys_of sub_path_text) [] []
    (cstring "sub" ++ z2b 92 :: cstring "sub") [cstring "sub"; cstring "sub"] 4
    (ShellSample.look ProcessSample.kernel0 ShellSample.fresh_place (ShellSample.keys_of sub_path_text ++ [10]) false)
    (typed_state sub_path_text) (shell_sample_view _ _ _ _) sample_root_displayable) as (r & col & s' & Hr & Hv).
  - cbn. lia.
  - reflexivity.
  - by apply sample_ordinary.
  - apply Nat.leb_le. reflexivity.
  - apply Nat.ltb_lt. reflexivity.
  - reflexivity.
  - exact sample_walkable.
  - exact sample_walk.
  - cbn. lia.
  - exists r, s'. split; [exact Hr|]. exact (f_equal snd (view_place _ _ Hv)).
Defined.

Lemma handle_input_correct_witness :
  exists m' s', handleInput 10 (clearBuffer ∅ 256) 0
      (ShellSample.state ProcessSample.kernel0 ShellSample.fresh_place (ShellSample.keys_of "lx" ++ [8; 115; 10]) true) = Ret ((m', 2), s') /\
    load m' 0 256 = buffer_bytes (cstring "ls", z2b 0).
Proof.
  destruct (handle_input_correct 10 ∅ (ShellSample.keys_of "lx" ++ [8; 115]) [] 
    (ShellSample.look ProcessSample.kernel0 ShellSample.fresh_place (ShellSample.keys_of "lx" ++ [8; 115; 10]) true) _
    (shell_sample_view _ _ _ _)) as (m' & s' & col & Hr & Hm & _).
  - reflexivity.
  - reflexivity.
  - by apply (bool_decide_unpack _).
  - apply Nat.ltb_lt. reflexivity.
  - exists m', s'. split; [exact Hr|exact Hm].
Defined.

Lemma backspace_keeps_character_witness :
  exists m' s', handleInput 10 (clearBuffer ∅ 256) 0
      (ShellSample.state ProcessSample.kernel0 ShellSample.fresh_place (ShellSample.keys_of "lsx" ++ [8; 10]) true) = Ret ((m', 2), s') /\
    is_cstr m' 0 (cstring "lsx").
Proof.
  destruct (backspace_keeps_character 10 ∅ (ShellSample.keys_of "lsx") []
    (ShellSample.look ProcessSample.kernel0 ShellSample.fresh_place (ShellSample.keys_of "lsx" ++ [8; 10]) true) _
    (shell_sample_view _ _ _ _)) as [_ Hback].
  - reflexivity.
  - by apply sample_ordinary.
  - discriminate.
  - apply Nat.leb_le. reflexivity.
  - apply Nat.ltb_lt. reflexivity.
  - destruct Hback as (m' & s' & Hr & Hs); [reflexivity|]. exists m', s'. split; [exact Hr|exact Hs].
Defined.

Lemma parse_command_dispatch_witness :
  parseCommand ShellSample.junk 10 (ShellSample.buffer "exec x") ShellSample.shell0 =
    run_command ShellSample.junk 10 NotFound (tokens (ShellSample.buffer "exec x") (cstring "exec x")) (Some 5) ShellSample.shell0.
Proof.
  destruct (sample_holds_line "exec x") as [Hs _]; [by_compute|apply Nat.leb_le; reflexivity|].
  destruct (parse_command_dispatch ShellSample.junk 10 (ShellSample.buffer "exec x") (cstring "exec x") ShellSample.shell0 Hs) as [Hr _];
    [apply Nat.leb_le; reflexivity|]. exact Hr.
Defined.

(** ** A hundred times "cd ." *)

Definition dot_keys : list Z := ShellSample.keys_of "cd .".

(** The keys of [n] lines. *)
Fixpoint dot_lines (n : nat) : list Z := match n with O => [] | S n' => dot_keys ++ 10 :: dot_lines n' end.

Definition dot_state : shell_state Inserter.image script :=
  ShellSample.state ProcessSample.kernel0 (0, replicate 100 0, 0) (dot_lines 100) false.

Lemma sample_dot : child (cluster (D := Inserter.image) Sample.image) 2 (cstring ".") 2.
Proof. apply (image_child _ _ _ _ 0); try fat_lia; vm_compute; reflexivity. Qed.

Lemma dot_walkable : walkable (cstring ".") [cstring "."].
Proof.
  split; [done|]. split; [done|]. split.
  { repeat constructor; try (apply (bool_decide_unpack _); done); cbn; lia. }
  split; [by apply (bool_decide_unpack _)|]. split; [apply Nat.leb_le; reflexivity|]. split; [by apply (bool_decide_unpack _)|].
  exists (z2b 46), []. split; [done|]. by apply (bool_decide_unpack _).
Qed.

Lemma dot_typed v n :
  disk_view v = cluster (D := Inserter.image) Sample.image -> here v = 2 -> typed v = dot_lines (S n) ->
  cd_typed 20 v dot_keys (dot_lines n) 2.
Proof.
  intros Hd Hh Hty. split; [|exact Hty| |].
  - exists []. rewrite Hd, Hh. split; [exact sample_root_displayable|apply Nat.ltb_lt; reflexivity].
  - split; [by apply sample_ordinary|]. split; [apply Nat.leb_le; reflexivity|apply Nat.ltb_lt; reflexivity].
  - exists (cstring "."), [cstring "."]. split; [reflexivity|]. split; [exact dot_walkable|]. rewrite Hd, Hh.
    eapply walk_down; [exact sample_dot|constructor].
Qed.

(** After [n] of them the index is [n]. *)
Lemma dots_reach n : (n <= 99)%nat ->
  exists b s v, reachable ShellSample.junk 20 dot_state n b s /\ is_view s v /\
    disk_view v = cluster (D := Inserter.image) Sample.image /\ typed v = dot_lines (100 - n) /\
    fst (fst (place v)) = Z.of_nat n /\ here v = 2.
Proof.
  induction n as [|n IH]; intros Hn.
  - eexists _, _, (ShellSample.look ProcessSample.kernel0 (0, <[0%nat := 2]> (replicate 100 0), 2) (dot_lines 100) false).
    split; [apply reachable_start; reflexivity|]. split; [|done]. by split.
  - destruct IH as (b & s & v & Hreach & Hv & Hd & Hty & Hi & Hh); [lia|].
    replace (100 - n)%nat with (S (100 - S n)) in Hty by lia.
    destruct (dot_typed v _ Hd Hh Hty) as [(l & Hdl & Hlf) _ (Hks & Hk252 & Hkf) (path & names & Hline & Hpath & Hw)].
    destruct (wp_elim (shell_round ShellSample.junk 20 (fst b) (snd b)) (fun _ s' => exists v', is_view s' v' /\
      disk_view v' = disk_view v /\ typed v' = dot_lines (100 - S n) /\ fst (fst (place v')) = fst (fst (place v)) + 1 /\ here v' = 2) s)
      as (b' & s' & Hr & v' & Hv' & Hd' & Hty' & Hi' & Hh').
    { eapply (wp_round_cd ShellSample.junk 20 _ _ dot_keys (dot_lines (100 - S n)) l path names 2 v); [done..|lia|].
      intros r col s' Hs'. eexists. split; [exact Hs'|]. done. }
    exists b', s', v'. split; [by eapply reachable_round|]. split; [exact Hv'|]. rewrite Hd', Hi', Hi, Nat2Z.inj_succ.
    split; [exact Hd|]. split; [exact Hty'|]. split; [lia|exact Hh'].
Qed.

(** From the start, 99 rounds of "cd ." fill the array, and the next one leaves it. *)
Lemma shell_place_invariant_witness :
  exists b s, reachable ShellSample.junk 20 dot_state 99 b s /\ place_ok (place_of s) /\ idx s = 99 /\
    shell_round ShellSample.junk 20 (fst b) (snd b) s = Undef.
Proof.
  destruct (dots_reach 99 (le_n 99)) as (b & s & v & Hreach & Hv & Hd & Hty & Hi & Hh).
  destruct (shell_place_invariant ShellSample.junk 20 dot_state 99 b s eq_refl eq_refl Hreach) as (Hok & _ & Hcd).
  assert (Hidx : idx s = 99) by (rewrite <- (view_place _ _ Hv) in Hi; exact Hi).
  specialize (Hcd v dot_keys (dot_lines 0) 2 Hv (dot_typed v 0 Hd Hh Hty)). rewrite Hidx in Hcd.
  rewrite decide_False in Hcd by lia. exists b, s. split; [exact Hreach|]. split; [exact Hok|]. split; [exact Hidx|exact Hcd].
Defined.
