(* ===== verification/ShellFileSample.v ===== *)
(** The theorems about the commands on files and directories at concrete states:
    the sample image, and an image with a file of five clusters. *)
From Stdlib Require Import ZArith Lia.
From Stdlib Require Strings.String.
From stdpp Require Import base numbers option strings zmap functions list.
From S2P Require Import Prelude CString Disk FatTypes Fat32 FatView FatRead FatWrite FatCreate FatSample FatDelete FatDir Paging PagingSpec Process ProcessSample Scheduler Interrupt Terminal Shell Commands ShellRules ShellPath ShellInput ShellParse ShellPlace ShellCd ShellFiles ShellMkdir ShellCat ShellCp ShellList ShellRound ShellSample.

Abbreviation SampleV := (cluster (D := Inserter.image) Sample.image).

(** ** Facts about the image *)

Lemma sample_is_directory p :
  p = 2 \/ p = 6 -> directory SampleV p.
Proof. intros [-> | ->]; (apply image_directory; [fat_lia|done|vm_compute; discriminate|by_compute]). Qed.

Lemma sample_find p nm ex :
  0 <= p < CLUSTER_MAP_SIZE ->
  dir_find (dir SampleV p) nm ex = dir_find (fun i => entry_at (Inserter.image_storage Sample.image) (2048 * p + 32 * i)) nm ex.
Proof. apply image_dir_find. Qed.

Lemma sample_dir_free p :
  0 <= p < CLUSTER_MAP_SIZE ->
  dir_free (dir SampleV p) = dir_free (fun i => entry_at (Inserter.image_storage Sample.image) (2048 * p + 32 * i)).
Proof. apply image_dir_free. Qed.

Lemma sample_fat c : 0 <= c < CLUSTER_MAP_SIZE -> fat SampleV c = load_le 4 (Inserter.image_storage Sample.image) (2048 + 4 * c).
Proof. apply image_fat. Qed.

(** Clusters that are free make the list of free clusters at least as long. *)
Lemma free_list_sub f l :
  NoDup l -> Forall (fun c => 3 <= c < CLUSTER_MAP_SIZE /\ f c = FAT32_FAT_EMPTY_ENTRY) l ->
  (length l <= length (free_list f 3))%nat.
Proof.
  intros Hd Hl. apply submseteq_length, NoDup_submseteq; [done|]. intros c Hc. rewrite Forall_forall in Hl.
  destruct (Hl c Hc) as [Hr Hf]. apply elem_of_free_list. split; [done|fat_lia].
Qed.

Lemma sample_room : 5 <= Z.of_nat (length (free_list (fat SampleV) 3)).
Proof.
  pose proof (free_list_sub (fat SampleV) [7; 8; 9; 10; 11]) as Hf. enough (5 <= length (free_list (fat SampleV) 3))%nat by lia.
  apply Hf; [by apply (bool_decide_unpack _)|].
  repeat constructor; try fat_lia; rewrite sample_fat by fat_lia; by_compute.
Qed.

(** ** mkdir and rm *)

Lemma mkdir_correct_witness :
  exists code V' g s',
    parseCommand ShellSample.junk 10 (ShellSample.buffer "mkdir new") ShellSample.shell0 = Ret (tt, s') /\
    is_view s' (printed [mkdir_message code] (with_disk V' g ShellSample.view0)).
Proof.
  destruct (mkdir_correct ShellSample.junk 10 (ShellSample.buffer "mkdir new") (cstring "new") ShellSample.view0 ShellSample.shell0
    (shell_sample_view _ _ _ _)) as (code & V' & g & s' & Hr & Hv & _).
  - line.
  - by apply (bool_decide_unpack _).
  - apply sample_is_directory. by left.
  - cbn [disk_view ShellSample.view0 ShellSample.look device ProcessSample.kernel0]. rewrite sample_fat by fat_lia. vm_compute. discriminate.
  - cbn [disk_view ShellSample.view0 ShellSample.look device ProcessSample.kernel0]. rewrite sample_fat by fat_lia. vm_compute. discriminate.
  - exists code, V', g, s'. split; [exact Hr|exact Hv].
Defined.

Lemma sample_new_is_new : dir_find (dir SampleV 2) (name8 (cstring "new")) (zeros 3) = None.
Proof. rewrite sample_find by fat_lia. by_compute. Qed.

Lemma sample_next_entry : dir_free (dir SampleV 2) = Some 6.
Proof. rewrite sample_dir_free by fat_lia. by_compute. Qed.

Lemma sample_root_self : entry_cluster (dir SampleV 2 0) = 2.
Proof. rewrite sample_entries by fat_lia. by_compute. Qed.

Lemma sample_rm_name l :
  bool_decide ((length l <= 8)%nat /\ (z2b 32 ∉ l) /\ l <> cstring "/") = true ->
  match l with b :: _ => bool_decide (b ∉ blanks) | [] => false end = true -> rm_name l.
Proof.
  intros (Hl & Hs & Hr)%bool_decide_eq_true Hb. split; [done|]. split; [done|]. split; [done|].
  destruct l as [|b l]; [done|]. exists b, l. split; [done|]. by apply bool_decide_eq_true in Hb.
Qed.

Lemma mkdir_rm_roundtrip_witness :
  exists V' g s',
    (parseCommand ShellSample.junk 10 (ShellSample.buffer "mkdir new") ;;
     parseCommand ShellSample.junk 10 (ShellSample.buffer "rm new")) ShellSample.shell0 = Ret (tt, s') /\
    is_view s' (printed [mkdir_message 0; rm_message 0] (with_disk V' g ShellSample.view0)).
Proof.
  destruct (free_list (fat SampleV) 3) as [|c L] eqn:HL; [pose proof sample_room as Hr; rewrite HL in Hr; cbn in Hr; lia|].
  destruct (mkdir_rm_roundtrip ShellSample.junk 10 (ShellSample.buffer "mkdir new") (ShellSample.buffer "rm new") (cstring "new")
    ShellSample.view0 ShellSample.shell0 6 c L (shell_sample_view _ _ _ _)) as (V' & g & s' & Hr & Hv & _).
  - line.
  - line.
  - apply sample_rm_name; by_compute.
  - apply sample_is_directory. by left.
  - change (0 <= entry_cluster (dir SampleV 2 0) < CLUSTER_MAP_SIZE). rewrite sample_root_self. fat_lia.
  - change (fat SampleV FAT_CLUSTER_NUMBER <> FAT32_FAT_EMPTY_ENTRY). rewrite sample_fat by fat_lia. vm_compute. discriminate.
  - change (fat SampleV ROOT_CLUSTER_NUMBER <> FAT32_FAT_EMPTY_ENTRY). rewrite sample_fat by fat_lia. vm_compute. discriminate.
  - exact sample_new_is_new.
  - exact sample_next_entry.
  - exact HL.
  - exists V', g, s'. split; [exact Hr|exact Hv].
Defined.

Lemma sample_empty_found : dir_find (dir SampleV 2) (name8 (cstring "empty")) (zeros 3) = Some 5.
Proof. rewrite sample_find by fat_lia. by_compute. Qed.

Lemma sample_empty_entry : entry_cluster (dir SampleV 2 5) = 6 /\ filesize (dir SampleV 2 5) = 0.
Proof. rewrite sample_entries by fat_lia. split; by_compute. Qed.

Lemma sample_empty_is_empty : dir_empty SampleV 6 = true.
Proof. rewrite image_dir_empty by fat_lia. by_compute. Qed.

Lemma rm_correct_witness :
  exists V' g s', parseCommand ShellSample.junk 10 (ShellSample.buffer "rm empty") ShellSample.shell0 = Ret (tt, s') /\
    is_view s' (printed [Puts (cstring "File or directory removed successfully.") 0xF] (with_disk V' g ShellSample.view0)).
Proof.
  assert (Hnone : delete_rejects SampleV (here_request (cstring "empty") ShellSample.view0) = None).
  { unfold delete_rejects. change (req_name _) with (name8 (cstring "empty")). change (req_ext _) with (zeros 3).
    change (parent_cluster_number _) with 2. rewrite sample_empty_found. destruct sample_empty_entry as [-> ->].
    by rewrite sample_empty_is_empty. }
  destruct (rm_correct ShellSample.junk 10 (ShellSample.buffer "rm empty") (cstring "empty") ShellSample.view0 ShellSample.shell0
    (shell_sample_view _ _ _ _)) as (V' & g & s' & Hr & Hcase).
  - line.
  - apply sample_rm_name; by_compute.
  - apply sample_is_directory. by left.
  - change (0 <= entry_cluster (dir SampleV 2 0) < CLUSTER_MAP_SIZE). rewrite sample_root_self. fat_lia.
  - cbv zeta. change (disk_view ShellSample.view0) with SampleV. rewrite Hnone. change (here ShellSample.view0) with 2.
    rewrite sample_empty_found. intros i [= <-]. unfold removable. destruct sample_empty_entry as [-> ->].
    split; [done|]. right. split; [done|]. split; [exact sample_empty_is_empty|fat_lia].
  - change (disk_view ShellSample.view0) with SampleV in Hcase. rewrite Hnone in Hcase. destruct Hcase as [Hv _].
    exists V', g, s'. split; [exact Hr|exact Hv].
Defined.

(** ** cat, mv and cp *)

Lemma sample_source : source ShellSample.view0 (cstring "a") (cstring "txt") 2 [3].
Proof.
  assert (He : dir SampleV 2 2 = entry_at (Inserter.image_storage Sample.image) (2048 * 2 + 32 * 2)) by (apply sample_entries; fat_lia).
  split; change (disk_view ShellSample.view0) with SampleV; change (here ShellSample.view0) with 2; rewrite ?He.
  - fat_lia.
  - rewrite sample_find by fat_lia. by_compute.
  - vm_compute. discriminate.
  - replace (entry_cluster _) with 3 by by_compute. constructor; [fat_lia|by_compute].
  - by_compute.
Qed.

Lemma sample_file_name : file_name (cstring "a") (cstring "txt").
Proof. by apply (bool_decide_unpack _). Qed.

Lemma cat_correct_witness :
  exists s', parseCommand ShellSample.junk 10 (ShellSample.buffer "cat a.txt") ShellSample.shell0 = Ret (tt, s') /\
    is_view s' (printed (cat_output SampleV [3]) ShellSample.view0).
Proof.
  destruct (cat_correct ShellSample.junk 10 (ShellSample.buffer "cat a.txt") (cstring "a") (cstring "txt") ShellSample.view0
    ShellSample.shell0 (shell_sample_view _ _ _ _)) as [_ Hcat].
  - line.
  - exact sample_file_name.
  - by apply (bool_decide_unpack _).
  - change (0 <= 2 < CLUSTER_MAP_SIZE). fat_lia.
  - apply (Hcat 2 [3] sample_source). cbn. lia.
Defined.

Lemma mv_never_moves_witness :
  exists s', parseCommand ShellSample.junk 10 (ShellSample.buffer "mv a.txt empty") ShellSample.shell0 = Ret (tt, s') /\
    is_view s' (printed [Puts (cstring "Unknown error") 0x4] ShellSample.view0).
Proof.
  apply (mv_never_moves ShellSample.junk 10 (ShellSample.buffer "mv a.txt empty") (cstring "a") (cstring "txt") (cstring "empty") 2 3
    ShellSample.view0 ShellSample.shell0 (shell_sample_view _ _ _ _)).
  - line.
  - exact sample_file_name.
  - by apply (bool_decide_unpack _).
  - by apply (bool_decide_unpack _).
  - exists (z2b 97), (cstring ".txt"). split; [reflexivity|]. by apply (bool_decide_unpack _).
  - exact sample_source.
Defined.

Lemma sample_folder : folder SampleV 2 (cstring "empty") 6.
Proof.
  split; [|split].
  - exists 5. rewrite image_directory_index by fat_lia. split; [by_compute|apply sample_empty_entry].
  - rewrite sample_entries by fat_lia. by_compute.
  - rewrite sample_entries by fat_lia. by_compute.
Qed.

Lemma sample_has_room : has_room SampleV (cstring "a") (cstring "txt") 6 2.
Proof.
  split.
  - apply sample_is_directory. by right.
  - rewrite sample_find by fat_lia. by_compute.
  - rewrite sample_dir_free by fat_lia. by_compute.
  - exact sample_room.
Qed.

Lemma sample_stale n : stale ShellSample.junk n = false.
Proof. by_compute. Qed.

(** A stack of which no byte is zero. *)
Definition dirty (n : nat) : mem := store ∅ 0 (replicate 256 (z2b 7)).

Lemma dirty_stale n : stale dirty n = true.
Proof. by_compute. Qed.

(** On a clear stack the copy is made; on a dirty one it is not. *)
Lemma cp_correct_witness :
  (exists V' g s', parseCommand ShellSample.junk 10 (ShellSample.buffer "cp a.txt empty") ShellSample.shell0 = Ret (tt, s') /\
    copied SampleV V' (cstring "a") (cstring "txt") 3 6 2 /\
    is_view s' (printed [Puts (cstring "Read success") 0x2; Puts (cstring "Write success") 0x2] (with_disk V' g ShellSample.view0))) /\
  (exists s', parseCommand dirty 10 (ShellSample.buffer "cp a.txt empty") ShellSample.shell0 = Ret (tt, s') /\
    is_view s' (printed [Puts (cstring "Unknown error") 0x4] ShellSample.view0)).
Proof.
  assert (Hcp : forall junk, exists n1 n2 s', parseCommand junk 10 (ShellSample.buffer "cp a.txt empty") ShellSample.shell0 = Ret (tt, s') /\
    if stale junk n1 then is_view s' (printed [Puts (cstring "Unknown error") 0x4] ShellSample.view0)
    else exists V' g, copied SampleV V' (cstring "a") (cstring "txt") 3 6 2 /\
      is_view s' (printed [Puts (cstring "Read success") 0x2;
        if stale junk n2 then Puts (cstring "Target folder not found") 0x4 else Puts (cstring "Write success") 0x2]
        (with_disk V' g ShellSample.view0))).
  { intros junk. apply (cp_correct junk 10 (ShellSample.buffer "cp a.txt empty") (cstring "a") (cstring "txt") (cstring "empty") 2 3 6 2
      ShellSample.view0 ShellSample.shell0 (shell_sample_view _ _ _ _)).
    - line.
    - exact sample_file_name.
    - by apply (bool_decide_unpack _).
    - by apply (bool_decide_unpack _).
    - apply Nat.leb_le. reflexivity.
    - apply Nat.leb_le. reflexivity.
    - exact sample_source.
    - exact sample_folder.
    - exact sample_has_room. }
  split.
  - destruct (Hcp ShellSample.junk) as (n1 & n2 & s' & Hr & Hs'). rewrite !sample_stale in Hs'.
    destruct Hs' as (V' & g & Hs'). exists V', g, s'. split; [exact Hr|exact Hs'].
  - destruct (Hcp dirty) as (n1 & n2 & s' & Hr & Hs'). rewrite !dirty_stale in Hs'. exists s'. split; [exact Hr|exact Hs'].
Defined.

(** ** A file of five clusters *)

Module Big.

Definition file : request := Request 0 (Sample.nm (cstring "big")) (zeros 3) 2 10000.

Definition map_bytes : list byte :=
  concat (le_bytes 4 <$> [CLUSTER_0_VALUE; CLUSTER_1_VALUE; FAT32_FAT_END_OF_FILE; 4; 5; 6; 7; FAT32_FAT_END_OF_FILE]).

Definition image : Inserter.image :=
  Inserter.Image (store (store ∅ 2048 map_bytes) 4096
    (concat (entry_bytes <$> [self_entry 2 (Sample.nm (cstring "root")); with_name dot_dot (self_entry 2 (Sample.nm (cstring "root")));
      file_entry file 3]))).

Definition kernel0 : kernel Inserter.image := Kernel PagingSample.init (store ∅ 0 map_bytes) image ∅ processes_init.

Definition view0 : view := ShellSample.look kernel0 ShellSample.fresh_place [] false.

End Big.

Lemma big_source : source Big.view0 (cstring "big") [] 2 [3; 4; 5; 6; 7].
Proof.
  assert (He : dir (cluster (D := Inserter.image) Big.image) 2 2 = entry_at (Inserter.image_storage Big.image) (2048 * 2 + 32 * 2))
    by (apply image_dir; fat_lia).
  split; change (disk_view Big.view0) with (cluster (D := Inserter.image) Big.image); change (here Big.view0) with 2; rewrite ?He.
  - fat_lia.
  - rewrite image_dir_find by fat_lia. by_compute.
  - vm_compute. discriminate.
  - replace (entry_cluster _) with 3 by by_compute.
    do 4 (eapply chain_next; [fat_lia|vm_compute; discriminate|];
      match goal with |- chain ?f (?f ?c) _ => replace (f c) with (c + 1) by by_compute end; cbn [Z.add Pos.add Pos.succ Pos.add_carry]).
    apply chain_last; [fat_lia|by_compute].
  - by_compute.
Qed.

Lemma cat_overflow_witness :
  parseCommand ShellSample.junk 10 (ShellSample.buffer "cat big")
    (ShellSample.state Big.kernel0 ShellSample.fresh_place [] false) = Undef.
Proof.
  apply (cat_overflow ShellSample.junk 10 (ShellSample.buffer "cat big") (cstring "big") [] Big.view0 _ 2 [3; 4; 5; 6; 7]
    (shell_sample_view _ _ _ _)).
  - line.
  - by apply (bool_decide_unpack _).
  - by apply (bool_decide_unpack _).
  - exact big_source.
  - cbn. lia.
Defined.

(** ** ls and ps *)

Lemma image_names_end d p :
  0 <= p < CLUSTER_MAP_SIZE ->
  forallb (fun i => let e := entry_at (Inserter.image_storage d) (2048 * p + 32 * Z.of_nat i) in
    (user_attribute e =? 0) || bool_decide (z2b 0 ∈ name_bytes e)) (seq 0 64) = true ->
  names_end (dir (cluster (D := Inserter.image) d) p).
Proof.
  intros Hp Hall i Hi Hu. rewrite forallb_forall in Hall. specialize (Hall (Z.to_nat i)).
  rewrite Z2Nat.id in Hall by lia. cbv zeta in Hall. rewrite image_dir in * by done.
  assert (Hin : In (Z.to_nat i) (seq 0 64)) by (apply in_seq; lia). specialize (Hall Hin).
  apply orb_true_iff in Hall as [Hz%Z.eqb_eq|Hd%bool_decide_eq_true]; done.
Qed.

Lemma ls_correct_witness :
  exists s', parseCommand ShellSample.junk 10 (ShellSample.buffer "ls") ShellSample.shell0 = Ret (tt, s') /\
    is_view s' (printed (listing (dir SampleV 2) 64) ShellSample.view0).
Proof.
  apply (ls_correct ShellSample.junk 10 (ShellSample.buffer "ls") ShellSample.view0 ShellSample.shell0 (shell_sample_view _ _ _ _)).
  - line.
  - change (0 <= 2 < CLUSTER_MAP_SIZE). fat_lia.
  - exact sample_root_self.
  - apply image_names_end; [change (0 <= 2 < CLUSTER_MAP_SIZE); fat_lia|by_compute].
Defined.

(** A kernel with one process. *)
Definition running_kernel : kernel Inserter.image :=
  Kernel PagingSample.init (store ∅ 0 Sample.map_bytes) Sample.image ∅
    (Processes (process_list processes_init) (true :: replicate 15 false) 1 0).

Lemma ps_never_returns_witness :
  parseCommand ShellSample.junk 1000 (ShellSample.buffer "ps")
    (ShellSample.state running_kernel ShellSample.fresh_place [] false) = NoFuel.
Proof.
  apply (ps_never_returns ShellSample.junk 1000 (ShellSample.buffer "ps") (ShellSample.look running_kernel ShellSample.fresh_place [] false)
    _ (shell_sample_view _ _ _ _)).
  - line.
  - exact sample_stale.
  - cbn. lia.
  - exists 0. split; [unfold PROCESS_COUNT_MAX; lia|reflexivity].
Defined.
