(* ===== verification/ShellSessionSample.v ===== *)
(** The theorem about sessions of the shell at a concrete state: the shell on a
    disk that has just been formatted, where "mkdir docs" is typed. *)
From Stdlib Require Import ZArith Lia.
From Stdlib Require Strings.String.
From stdpp Require Import base numbers option strings zmap functions list.
From S2P Require Import Prelude CString Disk FatTypes Fat32 FatView FatRead FatWrite FatCreate FatSample FatDelete FatDir FatInit FatInvariant FatHistory FatMap Process ProcessSample Scheduler Interrupt Terminal Shell Commands ShellRules ShellPath ShellInput ShellParse ShellPlace ShellCd ShellFiles ShellMkdir ShellRound ShellSession ShellSample ShellFileSample.

Module SessionSample.

(** The sample kernel with another disk. *)
Definition kernel_on (d : Inserter.image) : kernel Inserter.image :=
  Kernel (pages ProcessSample.kernel0) (driver ProcessSample.kernel0) d (phys ProcessSample.kernel0) (procs ProcessSample.kernel0).

(** The globals of the shell before it starts. *)
Definition zero_place : Z * list Z * Z := (0, replicate 100 0, 0).

Definition docs : session_line := MakeFolder (cstring "docs").
Definition keys : list Z := ShellSample.keys_of "mkdir docs".

(** The view of a state in which the keys are still to be typed. *)
Definition view_on (V : clusters) (p : Z * list Z * Z) : view :=
  View V (cluster_map (driver ProcessSample.kernel0)) (procs ProcessSample.kernel0) p [] (keys ++ [10]) false 0.

Definition state_on (d : Inserter.image) (p : Z * list Z * Z) : shell_state Inserter.image script :=
  ShellSample.state (kernel_on d) p (keys ++ [10]) false.

End SessionSample.

Lemma session_sample_view (d : Inserter.image) V p :
  disk_is d V -> is_view (SessionSample.state_on d p) (SessionSample.view_on V p).
Proof. intros HV. split; try done; by destruct p as [[i l] c]. Qed.

(** The root of a disk that has been formatted can be displayed. *)
Lemma formatted_displayable V tail : formatted V tail -> displayable V ROOT_CLUSTER_NUMBER [].
Proof.
  intros Hf. pose proof (formatted_root _ _ Hf) as (H0 & H1 & _).
  assert (Hn : directory_name V 2 = cstring "root").
  { unfold directory_name. change (dir V 2 0) with (dir V ROOT_CLUSTER_NUMBER 0). rewrite H0. reflexivity. }
  split; [|rewrite Hn; split; [by apply (bool_decide_unpack _)|split; [constructor|]]].
  - constructor; [change (dir V 2 0) with (dir V ROOT_CLUSTER_NUMBER 0); rewrite H0|change (dir V 2 1) with (dir V ROOT_CLUSTER_NUMBER 1); rewrite H1];
      by apply self_entry_cluster.
  - unfold path_text. rewrite Hn. apply Nat.leb_le. reflexivity.
Qed.

Lemma docs_line V tail p :
  formatted V tail -> snd p = ROOT_CLUSTER_NUMBER ->
  typed_line 20 (SessionSample.view_on V p) SessionSample.keys [] [] SessionSample.docs.
Proof.
  intros Hf Hp. split; [|done| |done|].
  - unfold here. cbn [place SessionSample.view_on disk_view]. rewrite Hp. split; [by eapply formatted_displayable|cbn; lia].
  - split; [by apply sample_ordinary|]. split; [apply Nat.leb_le; reflexivity|apply Nat.ltb_lt; reflexivity].
  - split; [done|by apply (bool_decide_unpack _)].
Qed.

(** The name stands for nothing yet, and the request is accepted. *)
Lemma docs_accepted V :
  formatted V (zeros 3) ->
  dir_find (dir V ROOT_CLUSTER_NUMBER) (name8 (cstring "docs")) (zeros 3) = None /\
  write_rejects V (request_at (cstring "docs") ROOT_CLUSTER_NUMBER) = None.
Proof.
  intros Hf. apply (formatted_accepts V (zeros 3) (request_at (cstring "docs") ROOT_CLUSTER_NUMBER)); try done; vm_compute; discriminate.
Qed.

(** mkdir on the new disk: its first free cluster is 3. *)
Lemma docs_served V V' p' message :
  formatted V (zeros 3) -> fs_ok V' -> effect V start_place SessionSample.docs V' p' message ->
  names V' ROOT_CLUSTER_NUMBER (name8 (cstring "docs")) (zeros 3) = Some (Folder 3).
Proof.
  intros Hf Hok (_ & code & _ & Ha & [Hmap _] & _). destruct (docs_accepted V Hf) as [Hno Hrej].
  assert (Hcode : code = 0).
  { cbn [target fst snd request_at req_name req_ext parent_cluster_number start_place] in Ha.
    rewrite names_none in Ha by exact Hno. unfold answer in Ha. rewrite Hrej in Ha. exact Ha. }
  assert (Hreal : real_name (name8 (cstring "docs")) (zeros 3)) by by apply (bool_decide_unpack _).
  rewrite (Hmap ROOT_CLUSTER_NUMBER _ _ (reach_root V) (reach_root V') Hreal), decide_True by done.
  cbn [outcome request_at buffer_size Z.eqb]. by rewrite (formatted_free_list _ _ Hf).
Qed.


(** ** A directory of the trail that is removed *)

(** The disk with the directory "docs" in cluster 3. *)
Lemma docs_made :
  exists (d : Inserter.image) V k, disk_is d V /\ fs_ok V /\
    dir_find (dir V ROOT_CLUSTER_NUMBER) (name8 (cstring "docs")) (zeros 3) = Some k /\ 2 <= k /\
    entry_cluster (dir V ROOT_CLUSTER_NUMBER k) = 3 /\ filesize (dir V ROOT_CLUSTER_NUMBER k) = 0 /\ dir_empty V 3 = true.
Proof.
  destruct notes_formatted as (f & V & HV & Hf & _). destruct (docs_accepted V Hf) as [Hno Hrej].
  set (r := request_at (cstring "docs") ROOT_CLUSTER_NUMBER) in *. pose proof (formatted_ok _ _ Hf) as Hok.
  pose proof (formatted_free V (zeros 3) Hf) as Hfree. pose proof (formatted_directory V (zeros 3) Hf) as Hdir.
  destruct (wp_elim (write r) (fun _ f' => exists V', disk_is (disk f') V' /\ directory_created V V' r 2 3) f) as (a & f' & _ & V' & Hd & Hcr).
  { assert (Hr : request_ok r) by by apply (bool_decide_unpack _).
    eapply wp_mono; [apply (wp_write_folder r V f Hr HV Hdir eq_refl); [apply Hok|by apply (reach_fat V Hok), reach_root]|].
    intros a f' (V' & Hd & Hcase). rewrite Hrej in Hcase. destruct Hcase as (_ & k & c & L & Hk & HL & Hcr).
    change (dir_free (dir V ROOT_CLUSTER_NUMBER) = Some k) in Hk. rewrite Hfree in Hk. injection Hk as <-.
    rewrite (formatted_free_list _ _ Hf) in HL. injection HL as <- _. by exists V'. }
  assert (HL : free_list (fat V) 3 = 3 :: seqZ 4 508) by by rewrite (formatted_free_list _ _ Hf).
  destruct (created_removable V V' r 2 3 _ Hdir eq_refl eq_refl Hno Hfree HL Hcr) as (Hfind & Hc & Hz & Hempty & _).
  exists (disk f'), V', 2. split; [exact Hd|]. split; [|done].
  eapply (edited_ok V V' ROOT_CLUSTER_NUMBER 2 (self_entry 3 (req_name r)) [] [3]); [exact Hok|constructor|].
  by apply (directory_edited V V' Hok r 2 3 _ (reach_root V) Hfree Hno eq_refl HL).
Qed.

(** The position after "cd docs" and "cd .\..", which leads up by the entry of the
    parent. *)
Definition up_again : Z * list Z * Z := push_place 2 (push_place 3 start_place).

Lemma rm_on_trail_witness :
  exists s s' v', (parseCommand ShellSample.junk 10 (ShellSample.buffer "rm docs") ;;
      parseCommand ShellSample.junk 10 (ShellSample.buffer "cd ..")) s = Ret (tt, s') /\
    is_view (D := Inserter.image) (T := script) s' v' /\ here v' = 3 /\ fat (disk_view v') 3 = FAT32_FAT_EMPTY_ENTRY.
Proof.
  destruct docs_made as (d & V & k & HV & Hok & Hfind & Hk & Hc & Hz & Hempty).
  pose proof (session_sample_view d V up_again HV) as Hv.
  assert (Hs : session_ok V up_again).
  { assert (Hs : slot V ROOT_CLUSTER_NUMBER k).
    { pose proof (dir_find_Some _ _ _ _ Hfind) as (Hk64 & _). split; [lia|].
      apply (found_used V ROOT_CLUSTER_NUMBER (name8 (cstring "docs")) (zeros 3) k Hok (reach_root V)); [|done].
      by apply (bool_decide_unpack _). }
    apply push_ok; [apply push_ok; [by apply start_ok|done|]|done|constructor].
    rewrite <- Hc. by apply (reach_sub V ROOT_CLUSTER_NUMBER k (reach_root V)). }
  destruct (rm_on_trail ShellSample.junk 10 (ShellSample.buffer "rm docs") (ShellSample.buffer "cd ..") (cstring "docs")
    (SessionSample.view_on V up_again) (SessionSample.state_on d up_again) k Hv Hs) as (s' & v' & Hr & Hpost); [reflexivity|line| |line|..].
  - apply sample_rm_name; by_compute.
  - exact Hfind.
  - exact Hk.
  - exact Hz.
  - exact Hc.
  - exact Hempty.
  - exists (SessionSample.state_on d up_again), s', v'. split; [exact Hr|exact Hpost].
Defined.
