(* ===== verification/ShellFindSample.v ===== *)
(** The search of find at a concrete image: the root with a file and a folder,
    and a folder below that one. *)
From Stdlib Require Import ZArith Lia.
From Stdlib Require Strings.String.
From stdpp Require Import base numbers option strings zmap functions list.
From S2P Require Import Prelude CString Disk FatTypes Fat32 FatView FatRead FatWrite FatCreate FatSample Process ProcessSample Paging PagingSpec Interrupt Terminal Shell Commands ShellRules ShellPath ShellParse ShellSample ShellFind.

Module FindSample.

(** The root in cluster 2 with a.txt and docs, and docs in cluster 4 with inner
    in cluster 6. *)
Definition root_table : list dirent :=
  [self_entry 2 (Sample.nm (cstring "root")); with_name dot_dot (self_entry 2 (Sample.nm (cstring "root")));
   file_entry (Sample.a_txt 5) 3; self_entry 4 (Sample.nm (cstring "docs"))].
Definition docs_table : list dirent :=
  [self_entry 4 (Sample.nm (cstring "docs")); with_name dot_dot (self_entry 2 (Sample.nm (cstring "root")));
   self_entry 6 (Sample.nm (cstring "inner"))].
Definition inner_table : list dirent :=
  [self_entry 6 (Sample.nm (cstring "inner")); with_name dot_dot (self_entry 4 (Sample.nm (cstring "docs")))].

Definition image : Inserter.image :=
  Inserter.Image
    (store (store (store (store (store ∅ 2048 Sample.map_bytes) 4096 (concat (entry_bytes <$> root_table)))
       6144 (cstring "data!")) 8192 (concat (entry_bytes <$> docs_table)))
       12288 (concat (entry_bytes <$> inner_table))).

Definition V : clusters := cluster image.

Definition kernel0 : kernel Inserter.image := Kernel PagingSample.init (store ∅ 0 Sample.map_bytes) image ∅ processes_init.
Definition shell0 : shell_state Inserter.image script := ShellSample.state kernel0 ShellSample.fresh_place [] false.
Definition view0 : view := ShellSample.look kernel0 ShellSample.fresh_place [] false.

End FindSample.

Lemma find_sample_dir p i : 0 <= p < CLUSTER_MAP_SIZE -> 0 <= i < 64 ->
  dir FindSample.V p i = entry_at (Inserter.image_storage FindSample.image) (2048 * p + 32 * i).
Proof. apply image_dir. Qed.

Lemma find_sample_name p l :
  0 <= p < CLUSTER_MAP_SIZE ->
  cname (name (entry_at (Inserter.image_storage FindSample.image) (2048 * p + 32 * 0))) = l ->
  directory_name FindSample.V p = l.
Proof. intros Hp Hl. unfold directory_name. by rewrite find_sample_dir by (done || lia). Qed.

Lemma find_sample_search : search_tree (dir FindSample.V) (cstring "inner") 4 2 [] = Some (Some (4, 2)).
Proof. by_compute. Qed.

Lemma find_sample_located : located FindSample.V 6 [cstring "inner"; cstring "docs"].
Proof.
  assert (H6 : directory_name FindSample.V 6 = cstring "inner") by (apply find_sample_name; [fat_lia|by_compute]).
  assert (H4 : directory_name FindSample.V 4 = cstring "docs") by (apply find_sample_name; [fat_lia|by_compute]).
  assert (Htop : located FindSample.V 4 [cstring "docs"]).
  { rewrite <- H4. apply located_top; [fat_lia|done|rewrite find_sample_dir by fat_lia; by_compute..]. }
  rewrite <- H6. apply (located_below _ 6 4); [fat_lia|done|done|rewrite find_sample_dir by fat_lia; by_compute..|done|exact Htop].
Qed.

Lemma find_sample_ok : found_ok FindSample.V [cstring "inner"; cstring "docs"] (Some (4, 2)).
Proof.
  assert (He : entry_cluster (dir FindSample.V 4 2) = 6) by (rewrite find_sample_dir by fat_lia; by_compute).
  assert (Hr : directory_name FindSample.V 2 = cstring "root") by (apply find_sample_name; [fat_lia|by_compute]).
  split; [unfold is_folder; rewrite find_sample_dir by fat_lia; by_compute|]. rewrite He.
  split; [exact find_sample_located|]. rewrite Hr.
  split; [by apply sample_plain|]. split; [|apply Nat.leb_le; reflexivity].
  repeat (apply Forall_cons; split; [by apply sample_plain|]). constructor.
Qed.

Lemma sample_clear_stack : clear_stack ShellSample.junk.
Proof. intros n a _. unfold ShellSample.junk, mget. by rewrite lookup_empty. Qed.

(** The directories are the clusters 2, 4 and 6, each with its own table. *)
Definition find_sample_dirs : list Z := [2; 4; 6].

Definition entry_of (p i : Z) : dirent := entry_at (Inserter.image_storage FindSample.image) (2048 * p + 32 * i).

Lemma find_sample_table c : c ∈ find_sample_dirs -> 0 <= c < CLUSTER_MAP_SIZE /\ entry_cluster (dir FindSample.V c 0) = c.
Proof.
  intros Hc. assert (Hr : 0 <= c < CLUSTER_MAP_SIZE) by (unfold find_sample_dirs in Hc; set_unfold in Hc; fat_lia).
  split; [done|]. rewrite find_sample_dir by (done || lia). fold (entry_of c 0).
  assert (Hall : Forall (fun c => entry_cluster (entry_of c 0) = c) find_sample_dirs) by (apply (bool_decide_unpack _); by_compute).
  rewrite Forall_forall in Hall. by apply Hall.
Qed.

(** A property of all the entries behind the first two. *)
Lemma find_sample_entries (P : Z -> Z -> dirent -> bool) :
  forallb (fun c => forallb (fun i => P c i (entry_of c i)) (seqZ 2 62)) find_sample_dirs = true ->
  forall c i, c ∈ find_sample_dirs -> 2 <= i < 64 -> P c i (dir FindSample.V c i) = true.
Proof.
  intros Hall c i Hc Hi. destruct (find_sample_table c Hc) as [Hr _]. rewrite find_sample_dir by (done || lia).
  rewrite forallb_forall in Hall. specialize (Hall c (proj1 (list_elem_of_In _ _) Hc)). rewrite forallb_forall in Hall.
  apply Hall, list_elem_of_In, elem_of_seqZ. lia.
Qed.

Lemma find_sample_root : 2 ∈ find_sample_dirs.
Proof. apply list_elem_of_In. cbn. by left. Qed.

Definition stays (_ _ : Z) (e : dirent) : bool := negb (is_folder e) || existsb (Z.eqb (u16 (entry_cluster e))) find_sample_dirs.
Definition only_inner (c i : Z) (e : dirent) : bool := negb (bool_decide (shown_name e = cstring "inner")) || ((c =? 4) && (i =? 2)).

Lemma find_sample_stays : forallb (fun c => forallb (fun i => stays c i (entry_of c i)) (seqZ 2 62)) find_sample_dirs = true.
Proof. by_compute. Qed.

Lemma find_sample_inner : forallb (fun c => forallb (fun i => only_inner c i (entry_of c i)) (seqZ 2 62)) find_sample_dirs = true.
Proof. by_compute. Qed.

Lemma find_sample_closed : closed_dirs FindSample.V find_sample_dirs.
Proof.
  intros c i Hc Hi. destruct (find_sample_table c Hc) as [_ ->]. intros Hf.
  pose proof (find_sample_entries stays find_sample_stays c i Hc Hi) as Hp. unfold stays in Hp. rewrite Hf in Hp.
  apply existsb_exists in Hp as (x & Hx & ->%Z.eqb_eq). by apply list_elem_of_In.
Qed.

Lemma find_sample_in_range : tree_in_range FindSample.V 2.
Proof.
  intros c Hc. destruct (find_sample_table c) as [Hr He].
  { apply (tree_dir_closed _ _ _ _ find_sample_closed Hc find_sample_root). }
  rewrite He. exact (conj Hr Hr).
Qed.

Lemma find_sample_hits fuel : (2 < fuel)%nat -> hits_displayable fuel FindSample.V (cstring "inner") 2.
Proof.
  intros Hfuel t i [(c & Hc & ->)%tree_table_dir [Hi Hn]].
  assert (Hin : c ∈ find_sample_dirs) by exact (tree_dir_closed _ _ _ _ find_sample_closed Hc find_sample_root).
  destruct (find_sample_table c Hin) as [_ He]. rewrite He in Hn |- *.
  pose proof (find_sample_entries only_inner find_sample_inner c i Hin Hi) as Hp. unfold only_inner in Hp.
  rewrite Hn, bool_decide_eq_true_2 in Hp by reflexivity. cbn [negb orb] in Hp.
  apply andb_true_iff in Hp as [->%Z.eqb_eq ->%Z.eqb_eq].
  exists [cstring "inner"; cstring "docs"]. split; [exact find_sample_ok|exact Hfuel].
Qed.

(** The path of a folder in the sample. *)
Lemma find_sample_path l : found_ok FindSample.V l (Some (4, 2)) -> path_text FindSample.V l = cstring "\docs\inner".
Proof.
  intros (_ & Hl & _). destruct find_sample_ok as (_ & Hl' & _). by rewrite (located_unique _ _ _ Hl _ Hl').
Qed.

(** On a clear stack the folder is found; on a dirty one, if find returns at all,
    it has said so or has said nothing wrong. *)
Lemma find_correct_witness :
  (exists s', parseCommand ShellSample.junk 4 (ShellSample.buffer "find inner") FindSample.shell0 = Ret (tt, s') /\
    hit FindSample.V (cstring "inner") 2 4 2 /\
    is_view s' (printed (contents [] (dir FindSample.V 4) 62 ++ [Puts (cstring "\docs\inner") 0x2]) FindSample.view0)) /\
  (forall junk s', parseCommand junk 4 (ShellSample.buffer "find inner") FindSample.shell0 = Ret (tt, s') ->
    find_answer FindSample.view0 (cstring "inner") s').
Proof.
  assert (Hline : holds_line (ShellSample.buffer "find inner") (cstring "find" ++ z2b 32 :: cstring "inner")).
  { apply (sample_holds_line "find inner"); [vm_compute; reflexivity|apply Nat.leb_le; vm_compute; reflexivity]. }
  assert (Hsp : z2b 32 ∉ cstring "inner") by (by apply (bool_decide_unpack _)).
  assert (Hhits : hits_displayable 4 FindSample.V (cstring "inner") 2) by (apply find_sample_hits; lia).
  split.
  - destruct (find_correct ShellSample.junk 4 (ShellSample.buffer "find inner") (cstring "inner") FindSample.view0 FindSample.shell0
      (shell_sample_view _ _ _ _) Hline Hsp ltac:(discriminate) ltac:(discriminate) find_sample_in_range Hhits ltac:(lia)) as (_ & _ & Hfind).
    destruct (Hfind sample_clear_stack _ find_sample_search) as (l & s' & Hr & Hs & Hh & Hok).
    unfold find_output in Hs. change (disk_view FindSample.view0) with FindSample.V in Hs. rewrite (find_sample_path l Hok) in Hs.
    exists s'. split; [exact Hr|]. split; [exact Hh|exact Hs].
  - intros junk s' Hr. by apply (find_correct junk 4 (ShellSample.buffer "find inner") (cstring "inner") FindSample.view0 FindSample.shell0
      (shell_sample_view _ _ _ _) Hline Hsp ltac:(discriminate) ltac:(discriminate) find_sample_in_range Hhits ltac:(lia)).
Defined.
