(* ===== verification/UserCalls.v ===== *)
(** The system calls as the shell makes them and as the kernel serves them: a
    call of the shell's code and the interrupt 0x30 of the machine, with the
    request, the buffer and the code in mapped user memory, have the same
    results. *)
From Stdlib Require Import ZArith Lia.
From Stdlib Require Strings.String.
From stdpp Require Import base numbers option strings zmap functions list.
From S2P Require Import Prelude CString Disk FatTypes Fat32 FatView FatRead FatWrite FatCreate FatSample Paging PagingSpec Process ProcessSpec ProcessSample Scheduler Ports Framebuffer FramebufferSpec Keyboard Interrupt InterruptSpec Terminal Shell Commands ShellRules ShellSample.

(** ** Storing through the page tables *)

(** What a driver has put at [va] of the caller's memory arrives, as a whole, at
    the physical address of [va]. *)
Lemma store_pages_mem (tr : Z -> option Z) m va pa bs :
  0 <= va -> (forall i, 0 <= i < Z.of_nat (length bs) -> tr (va + i) = Some (pa + i)) ->
  exists m', store_pages tr m (map_to_list (store ∅ va bs)) = Some m' /\ forall a, mget m' a = mget (store m pa bs) a.
Proof.
  intros Hva Htr.
  assert (Hin : forall x b, (x, b) ∈ map_to_list (store ∅ va bs) <->
    va <= x < va + Z.of_nat (length bs) /\ bs !! Z.to_nat (x - va) = Some b).
  { intros x b. rewrite elem_of_map_to_list, lookup_store. case_decide; [tauto|]. rewrite lookup_empty. split; [done|tauto]. }
  destruct (store_pages_spec tr (map_to_list (store ∅ va bs)) m) as (m' & Hm & Hget & Hout).
  - intros x b [Hx _]%Hin. exists (pa + (x - va)). rewrite <- Htr by lia. f_equal. lia.
  - intros x1 b1 x2 b2 [Hx1 _]%Hin [Hx2 _]%Hin Heq.
    replace x1 with (va + (x1 - va)) in Heq by lia. replace x2 with (va + (x2 - va)) in Heq by lia.
    rewrite !Htr in Heq by lia. injection Heq. lia.
  - apply NoDup_fst_map_to_list.
  - exists m'. split; [done|]. intros a. destruct (decide (pa <= a < pa + Z.of_nat (length bs))) as [Ha|Ha].
    + destruct (lookup_lt_is_Some_2 bs (Z.to_nat (a - pa)) ltac:(lia)) as [b Hb].
      rewrite (mget_store_in _ _ _ _ b) by (done || lia).
      apply (Hget (va + (a - pa))); [apply Hin; split; [lia|]|rewrite Htr by lia; f_equal; lia].
      rewrite <- Hb. f_equal. lia.
    + rewrite mget_store_out by lia. apply Hout. intros x b [Hx _]%Hin Heq.
      replace x with (va + (x - va)) in Heq by lia. rewrite Htr in Heq by lia. injection Heq. lia.
Qed.

(** ** Call 1 *)

Section Calls.
Context {D T P : Type} `{DiskSpec D, TerminalSpec T, !Ports P}.
Implicit Types (s : shell_state D T) (v : view) (m : machine D P).

(** The kernel of the machine looks as the shell's code sees it. *)
Record kernel_view (k : kernel D) (v : view) : Prop := {
  kview_disk : disk_is (device k) (disk_view v);
  kview_cached c : 0 <= c < CLUSTER_MAP_SIZE -> cluster_map (driver k) c = cached v c;
  kview_procs : procs k = processes_view v;
}.

(** Where the three objects of a call are: the request, the buffer of one
    cluster and the byte for the code, which is not in the buffer. *)
Record call_layout (k : kernel D) (va_r pa_r va_b pa_b va_c pa_c : Z) : Prop := {
  layout_request : mapped_at k va_r pa_r 23;
  layout_buffer : mapped_at k va_b pa_b CLUSTER_SIZE;
  layout_range : 0 <= va_b /\ va_b + CLUSTER_SIZE <= 4294967296;
  layout_code : mapped_at k va_c pa_c 1;
  layout_apart : pa_c < pa_b \/ pa_b + CLUSTER_SIZE <= pa_c;
}.

(** What the request finds: the code and the bytes of the buffer. *)
Definition directory_answer (V : clusters) (r : request) : Z * list byte :=
  match directory_index (dir V (parent_cluster_number r)) (req_name r) with
  | Some i => (0, V (entry_cluster (dir V (parent_cluster_number r) i)))
  | None => (2, [])
  end.

Definition answerable (V : clusters) (r : request) : Prop :=
  request_ok r /\ 0 <= parent_cluster_number r < CLUSTER_MAP_SIZE /\
  match directory_index (dir V (parent_cluster_number r)) (req_name r) with
  | Some i => 0 <= entry_cluster (dir V (parent_cluster_number r) i) < CLUSTER_MAP_SIZE
  | None => True
  end.

Lemma directory_answer_length (d : D) V r :
  disk_is d V -> answerable V r -> (length (snd (directory_answer V r)) <= 2048)%nat.
Proof.
  intros Hd (_ & _ & Hc). unfold directory_answer. destruct (directory_index _ _) as [i|]; cbn [snd length]; [|lia].
  by rewrite (disk_is_length _ _ _ Hd Hc).
Qed.

Lemma wp_sys_read_directory_answer r buffer req v s (Q : Z * mem -> shell_state D T -> Prop) :
  is_view s v -> request_of (load req 0 23) = r -> buf r = 0 -> answerable (disk_view v) r ->
  (forall s', is_view s' v -> Q (fst (directory_answer (disk_view v) r), store buffer 0 (snd (directory_answer (disk_view v) r))) s') ->
  wp (sys_read_directory buffer req) Q s.
Proof.
  intros Hv Hreq Hb (Hok & Hp & Hc) HQ. unfold directory_answer in HQ. destruct (directory_index _ _) as [i|] eqn:Hi.
  - by eapply (wp_sys_read_directory r i).
  - by eapply wp_sys_read_directory_none.
Qed.

(** The operation of the kernel, for the same request with the buffer's address. *)
Lemma read_directory_user_answer k va_b pa_b v r :
  kernel_view k v -> answerable (disk_view v) r -> buf r = va_b -> mapped_at k va_b pa_b CLUSTER_SIZE ->
  0 <= va_b -> va_b + CLUSTER_SIZE <= 4294967296 ->
  exists k', read_directory_user r k = Ret (fst (directory_answer (disk_view v) r), k') /\ kernel_view k' v /\ pages k' = pages k /\
    forall a, mget (phys k') a = mget (store (phys k) pa_b (snd (directory_answer (disk_view v) r))) a.
Proof.
  intros Hk Hans Hb Hm Hva Hend. pose proof Hans as (Hok & Hp & Hc). destruct Hk as [Hd Hcm Hpr].
  pose proof (directory_answer_length _ _ _ Hd Hans) as Hlen. unfold read_directory_user.
  pose proof (wp_read_directory r (disk_view v) (Fs (driver k) (device k) ∅) Hok Hd Hp Hc) as Hwp.
  apply wp_elim in Hwp as (code & f & -> & -> & Hu & Hd' & Hm'). unfold mbind, res_mbind. cbn [res_bind].
  assert (Huser : user f = store ∅ va_b (snd (directory_answer (disk_view v) r))).
  { rewrite Hu. unfold directory_answer. cbn [user]. rewrite Hb. by destruct (directory_index _ _). }
  rewrite Huser. destruct (store_pages_mem (translate (pages k)) (phys k) va_b pa_b (snd (directory_answer (disk_view v) r)))
    as (m' & -> & Hget); [done| |].
  { intros i Hi. rewrite <- (u32_small (va_b + i)) by fat_lia. apply Hm. fat_lia. }
  eexists. split; [unfold directory_answer; by destruct (directory_index _ _)|]. split; [|split; [done|exact Hget]].
  split; cbn [device driver procs]; [done| |done]. intros c Hcr. rewrite Hm' by fat_lia. by apply Hcm.
Qed.

(** C18: system call 1 is what the shell's code takes it for: from the same disk, for
    the same request, with the request, the buffer and the code byte mapped in
    user memory, the interrupt 0x30 with EAX 1 and the call of the shell both
    return; the byte at ECX is the code that the shell gets, the bytes at the
    buffer's address are those of the shell's buffer, nothing else in memory, on
    the screen or in the keyboard's state changes, and both sides have the same
    disk, cluster map and processes again. *)
Theorem read_directory_call_refines frame m v s req buffer va_b pa_r pa_b pa_c :
  is_view s v -> kernel_view (kern m) v -> int_number frame = 0x30 -> eax (frame_cpu frame) = 1 ->
  call_layout (kern m) (ebx (frame_cpu frame)) pa_r va_b pa_b (ecx (frame_cpu frame)) pa_c ->
  let r := request_of (load req 0 23) in
  buf r = 0 -> answerable (disk_view v) r ->
  request_of (load (phys (kern m)) pa_r 23) = Request va_b (req_name r) (req_ext r) (parent_cluster_number r) (buffer_size r) ->
  load (phys (kern m)) pa_b 2048 = load buffer 0 2048 ->
  exists code buffer' s' m',
    sys_read_directory buffer req s = Ret ((code, buffer'), s') /\ is_view s' v /\
    main_interrupt_handler frame m = Ret (None, m') /\ kernel_view (kern m') v /\
    mget (phys (kern m')) pa_c = z2b code /\ load (phys (kern m')) pa_b 2048 = load buffer' 0 2048 /\
    (forall a, a <> pa_c -> ~ (pa_b <= a < pa_b + CLUSTER_SIZE) -> mget (phys (kern m')) a = mget (phys (kern m)) a) /\
    pages (kern m') = pages (kern m) /\ kbd m' = kbd m /\ screen m' = screen m /\ io m' = io m.
Proof.
  intros Hv Hk Hint Heax [Hmr Hmb [Hva Hend] Hmc Hapart] r Hbuf Hans Hreq Hsame.
  set (V := disk_view v) in *. set (r' := Request va_b _ _ _ _) in Hreq.
  assert (Hans' : directory_answer V r' = directory_answer V r) by done.
  destruct (read_directory_user_answer (kern m) va_b pa_b v r' Hk Hans eq_refl Hmb Hva Hend) as (k1 & Hr1 & Hk1 & Hp1 & Hget1).
  fold V in Hr1, Hget1. rewrite Hans' in Hr1, Hget1.
  pose proof (directory_answer_length _ V r (view_disk _ _ Hv) Hans) as Hlen.
  destruct (wp_elim (sys_read_directory buffer req) (fun a s' => is_view s' v /\
    a = (fst (directory_answer V r), store buffer 0 (snd (directory_answer V r)))) s) as (a & s' & Hs & Hv' & ->).
  { eapply (wp_sys_read_directory_answer r); [exact Hv|done|done|done|]. intros s' Hs'. by split. }
  destruct (directory_answer V r) as [code bs]. cbn [fst snd] in *.
  eexists code, _, s', _. split; [exact Hs|]. split; [exact Hv'|]. split.
  { unfold main_interrupt_handler. rewrite Hint. change (0x30 =? PIC1_OFFSET + IRQ_TIMER) with false.
    change (0x30 =? PIC1_OFFSET + IRQ_KEYBOARD) with false. change (0x30 =? PIC1_OFFSET + IRQ_SYSCALL) with true. cbv iota.
    unfold syscall. rewrite Heax. unfold mbind, M_bind, lift_kernel, fs_call, load_request, mbind, M_bind.
    rewrite (load_user_mapped _ pa_r 23) by exact Hmr. unfold mret, M_ret. rewrite Hreq. fold r'. rewrite Hr1.
    rewrite (store_user_mapped _ pa_c) by (intros i Hi; rewrite Hp1; apply Hmc; exact Hi). reflexivity. }
  cbn [kern kbd screen io phys pages]. destruct Hk1 as [Hd1 Hc1 Hpr1].
  assert (Hload : load (phys k1) pa_b 2048 = load (store buffer 0 bs) 0 2048).
  { transitivity (load (store (phys (kern m)) pa_b bs) pa_b 2048); [apply load_ext; intros i _; apply Hget1|].
    rewrite !load_store_prefix by done. f_equal. apply load_ext. intros i Hi.
    apply (f_equal (fun l => l !! (length bs + Z.to_nat i)%nat)) in Hsame. rewrite !lookup_load in Hsame by lia.
    injection Hsame as Hsame. transitivity (mget (phys (kern m)) (pa_b + Z.of_nat (length bs + Z.to_nat i))); [f_equal; lia|].
    rewrite Hsame. f_equal. lia. }
  split; [by split|]. split; [apply mget_store_in; [cbn [length]; lia|]; by rewrite Z.sub_diag|].
  split; [rewrite load_store_ne by (cbn [length]; fat_lia); exact Hload|]. split; [|split; [exact Hp1|split; [reflexivity|split; reflexivity]]].
  intros x Hx Hb. rewrite mget_store_out by (cbn [length]; lia). rewrite Hget1. apply mget_store_out. fat_lia.
Qed.
End Calls.

(** ** The terminal *)

Section Console.
Context {D P : Type} `{!Disk D} `{KeyPort P}.
Implicit Types (m : machine D P) (t : kernel_terminal P) (f : InterruptFrame).

(** The machine's console and keyboard as a terminal: [arr] says how many key
    presses interrupt it before each of the next polls. *)
Definition terminal_of m (arr : list nat) : kernel_terminal P := KernelTerminal (kbd m) (screen m) (io m) arr.

(** [n] keyboard interrupts of the program that is interrupted at [f]. *)
Definition key_presses f (n : nat) : M (machine D P) unit :=
  for_up (fun _ => main_interrupt_handler (Frame (frame_cpu f) 0x21 (stack_eip f) (stack_eflags f)) ;; mret tt) 0 n.

(** A byte in the memory of the caller. *)
Definition byte_stored (pa : Z) (b : byte) (k : kernel D) : kernel D :=
  Kernel (pages k) (driver k) (device k) (store (phys k) pa [b]) (procs k).

(** The terminal still types or not, and gives the same keys. *)
Definition same_input t t' : Prop := typing_on t' = typing_on t /\ forall b, keys b t' = keys b t.

(** A character as a [char] and as a byte. *)
Lemma z2b_i8 x : z2b (i8 x) = z2b x.
Proof. apply b2z_inj. rewrite !b2z_z2b. unfold u8, i8. Z.div_mod_to_equations. lia. Qed.

Lemma key_presses_isrs f n m : key_presses f n m = lift_keyboard (for_up (fun _ => keyboard_isr) 0 n) m.
Proof.
  unfold key_presses. generalize 0. revert m. induction n as [|n IH]; intros m i; cbn [for_up]; [by destruct m|].
  unfold mbind at 1, M_bind at 1, mbind at 1, M_bind at 1. unfold main_interrupt_handler at 1. cbn [int_number].
  change (0x21 =? PIC1_OFFSET + IRQ_TIMER) with false. change (0x21 =? PIC1_OFFSET + IRQ_KEYBOARD) with true. cbv iota.
  unfold lift_keyboard, mbind, M_bind, res_mbind. destruct (keyboard_isr _) as [[[] k1]| |]; cbn [res_bind]; [|done..].
  unfold mret, M_ret. specialize (IH (Machine (kern m) (keyboard_status k1) (screen m) (ports k1)) (i + 1)).
  unfold lift_keyboard, res_mbind in IH. cbn [kbd io kern screen] in IH. destruct k1. exact IH.
Qed.

Lemma syscall_frame f m m' :
  int_number f = 0x30 -> syscall (frame_cpu f) m = Ret (tt, m') -> main_interrupt_handler f m = Ret (None, m').
Proof.
  intros Hf Hs. unfold main_interrupt_handler. rewrite Hf. change (0x30 =? PIC1_OFFSET + IRQ_TIMER) with false.
  change (0x30 =? PIC1_OFFSET + IRQ_KEYBOARD) with false. change (0x30 =? PIC1_OFFSET + IRQ_SYSCALL) with true. cbv iota.
  unfold mbind, M_bind. by rewrite Hs.
Qed.

(** A poll of the terminal is the key presses and the call. *)
Lemma call_reads f m pa arr ch t' :
  int_number f = 0x30 -> eax (frame_cpu f) = 4 -> mapped_at (kern m) (ebx (frame_cpu f)) pa 1 ->
  read_key (terminal_of m arr) = Ret (ch, t') ->
  exists m', (key_presses f (default 0%nat (head arr)) ;; main_interrupt_handler f) m = Ret (None, m') /\
    kern m' = byte_stored pa (z2b ch) (kern m) /\ screen m' = screen m /\ terminal_of m' (tail arr) = t'.
Proof.
  intros Hf Heax Hm Hr. cbn [read_key kernel_terminal_calls] in Hr. unfold keyboard_interrupts, on_keyboard, terminal_of in Hr.
  unfold mbind at 1, M_bind at 1, res_mbind in Hr. cbn [arrivals keyboard_driver hardware screen_memory] in Hr.
  unfold mbind at 1, M_bind at 1. rewrite key_presses_isrs. unfold lift_keyboard, res_mbind.
  destruct (for_up _ 0 _ _) as [[[] k1]| |]; cbn [res_bind] in Hr |- *; [|done..].
  set (m1 := Machine (kern m) (keyboard_status k1) (screen m) (ports k1)).
  set (st := Keyboard (read_extended_mode (keyboard_status k1)) (keyboard_input_on (keyboard_status k1)) 0 (col (keyboard_status k1))).
  exists (Machine (byte_stored pa (z2b ch) (kern m)) st (screen m) (ports k1)).
  assert (Hch : ch = i8 (keyboard_buffer (keyboard_status k1)) /\ t' = KernelTerminal st (screen m) (ports k1) (tail arr)).
  { by injection Hr as <- <-. }
  destruct Hch as [-> ->]. split; [|done]. apply syscall_frame; [done|]. unfold syscall. rewrite Heax.
  rewrite (bind_eval _ _ _ (keyboard_buffer (keyboard_status k1)) (Machine (kern m) st (screen m) (ports k1))) by reflexivity.
  unfold lift_kernel, mbind, res_mbind. cbn [kern]. rewrite (store_user_mapped _ pa) by exact Hm. cbn [res_bind].
  unfold byte_stored. rewrite z2b_i8. reflexivity.
Qed.

(** Printing on the machine and on the terminal. *)
Lemma console_call (c : M (console P) unit) m arr t' :
  on_console c (terminal_of m arr) = Ret (tt, t') ->
  exists m', lift_console c m = Ret (tt, m') /\ c (Console (screen m) (io m)) = Ret (tt, Console (screen m') (io m')) /\
    kern m' = kern m /\ kbd m' = kbd m /\ terminal_of m' arr = t'.
Proof.
  unfold on_console, lift_console, terminal_of, res_mbind. cbn [screen_memory hardware keyboard_driver arrivals].
  destruct (c _) as [[[] s']| |]; cbn [res_bind]; [|done..]. intros [= <-]. eexists. split; [reflexivity|]. by destruct s'.
Qed.

(** C29: the system calls 4 to 8, as interrupts 0x30 of the machine, keep what the
    programs of the shell rely on (the laws of [TerminalSpec], for which [keys]
    says what the polls will give, computed from the scan codes that wait at the
    port and from when they interrupt).  4, behind the key presses that interrupt
    before it: the byte at EBX is the next key, and the keys behind it are left;
    5 and 6: the character at EBX, or the ECX bytes there, go through the driver
    of the screen, which returns and keeps the screen in order, and no key is
    lost; 7 and 8: typing is on, and off, and no key is lost.  Nothing else of
    the kernel or of user memory changes. *)
Theorem terminal_calls_refine f m pa arr :
  let c := frame_cpu f in
  let t := terminal_of m arr in
  int_number f = 0x30 -> term_ok t -> mapped_at (kern m) (ebx c) pa (Z.max 1 (ecx c)) ->
  (eax c = 4 -> forall k ks, keys (typing_on t) t = k :: ks ->
     exists m', (key_presses f (default 0%nat (head arr)) ;; main_interrupt_handler f) m = Ret (None, m') /\
       kern m' = byte_stored pa (z2b k) (kern m) /\ screen m' = screen m /\
       let t' := terminal_of m' (tail arr) in term_ok t' /\ typing_on t' = typing_on t /\ keys (typing_on t') t' = ks) /\
  (eax c = 5 -> exists m', main_interrupt_handler f m = Ret (None, m') /\ kern m' = kern m /\
     putchar row_fuel (i8 (b2z (mget (phys (kern m)) pa))) (ecx c) (Console (screen m) (io m)) = Ret (tt, Console (screen m') (io m')) /\
     term_ok (terminal_of m' arr) /\ same_input t (terminal_of m' arr)) /\
  (eax c = 6 -> exists m', main_interrupt_handler f m = Ret (None, m') /\ kern m' = kern m /\
     Framebuffer.puts row_fuel (obj (load (phys (kern m)) pa (Z.to_nat (ecx c)))) 0 (Z.to_nat (ecx c)) (edx c)
       (Console (screen m) (io m)) = Ret (tt, Console (screen m') (io m')) /\
     term_ok (terminal_of m' arr) /\ same_input t (terminal_of m' arr)) /\
  (forall b : bool, eax c = (if b then 7 else 8) ->
     exists m', main_interrupt_handler f m = Ret (None, m') /\ kern m' = kern m /\ screen m' = screen m /\ io m' = io m /\
       let t' := terminal_of m' arr in term_ok t' /\ typing_on t' = b /\ forall b', keys b' t' = keys b' t).
Proof.
  intros c t Hf Hok Hm. assert (Hone : mapped_at (kern m) (ebx c) pa 1) by (intros i Hi; apply Hm; lia).
  split; [|split; [|split]].
  - intros Heax k ks Hk. destruct (read_key_ok t k ks Hok Hk) as (t' & Hr & Hok' & Hon & Hks).
    destruct (call_reads f m pa arr k t' Hf Heax Hone Hr) as (m' & Hrun & Hkern & Hscr & Ht'). exists m'. by rewrite Ht'.
  - intros Heax. destruct (print_char_ok t (b2z (mget (phys (kern m)) pa)) (ecx c) Hok) as (t' & Hr & Hok' & Hon & _ & Hk).
    destruct (console_call _ m arr t' Hr) as (m' & Hrun & Hc & Hkern & _ & Ht'). exists m'. rewrite Ht'. split; [|done].
    apply syscall_frame; [done|]. unfold syscall. fold c. rewrite Heax. unfold mbind at 1, M_bind at 1, lift_kernel.
    rewrite (load_user_mapped _ pa 1) by exact Hone. unfold mbind, res_mbind. cbn [res_bind load le_val]. rewrite Z.mul_0_r, Z.add_0_r.
    destruct m. exact Hrun.
  - intros Heax. destruct (print_ok t (load (phys (kern m)) pa (Z.to_nat (ecx c))) (edx c) Hok) as (t' & Hr & Hok' & Hon & _ & Hk).
    destruct (console_call _ m arr t' Hr) as (m' & Hrun & Hc & Hkern & _ & Ht'). rewrite length_load in Hrun, Hc.
    exists m'. rewrite Ht'. split; [|done].
    apply syscall_frame; [done|]. unfold syscall. fold c. rewrite Heax. unfold mbind at 1, M_bind at 1, lift_kernel.
    rewrite (load_user_mapped _ pa (Z.to_nat (ecx c))) by (intros i Hi; apply Hm; lia). unfold mbind, res_mbind. cbn [res_bind].
    destruct m. exact Hrun.
  - intros b Heax. destruct (set_typing_ok t b Hok) as (t' & Hr & Hok' & Hon & _ & Hk).
    set (st := Keyboard (read_extended_mode (kbd m)) b (keyboard_buffer (kbd m)) (col (kbd m))).
    exists (Machine (kern m) (keyboard_driver t') (screen m) (io m)).
    assert (Ht' : terminal_of (Machine (kern m) (keyboard_driver t') (screen m) (io m)) arr = t').
    { destruct b; injection Hr as <-; reflexivity. }
    rewrite Ht'. split; [|done]. apply syscall_frame; [done|]. unfold syscall. fold c. rewrite Heax.
    destruct b; injection Hr as <-; by destruct m.
Qed.
End Console.

(** ** The theorems at a concrete machine *)

Module CallSample.

(** The page at 0x400000 holds the request at its start and the buffer 1024
    bytes behind; the code is stored at offset 512. *)
Definition request_for (b : Z) : request := Request b (name8 (cstring "sub")) (zeros 3) 2 0.

Definition call (number b count : Z) : CPURegister :=
  Cpu 0 0 0 0 b 0 count number 0 0 0 0.

Definition state : machine Inserter.image pics :=
  Machine
    (Kernel (pages InterruptSample.in_user) (store ∅ 0 Sample.map_bytes) Sample.image
      (store ∅ 0x400000 (request_bytes (request_for 0x400400))) processes_init)
    (Keyboard false false 0 0) ∅ pics_sample.

Definition request_object : mem := store ∅ 0 (request_bytes (request_for 0)).

End CallSample.

(** The page is mapped to the physical page of the same address. *)
Lemma call_sample_mapped (k : kernel Inserter.image) a n :
  pages k = pages InterruptSample.in_user -> 0x400000 <= a -> a + n <= 0x800000 -> mapped_at k a a n.
Proof.
  intros Hk Ha Hn i Hi. unfold mapped_at. rewrite Hk, translate_frame_at.
  rewrite u32_small by lia. rewrite page_index_div by lia.
  replace ((a + i) / PAGE_FRAME_SIZE) with 1 by (unfold PAGE_FRAME_SIZE; Z.div_mod_to_equations; lia).
  replace (frame_at _ _ 1) with (Some 1) by (vm_compute; reflexivity). cbn. f_equal.
  unfold PAGE_FRAME_SIZE. Z.div_mod_to_equations. lia.
Qed.

Lemma call_sample_answerable : answerable (cluster (D := Inserter.image) Sample.image) (CallSample.request_for 0).
Proof.
  split; [by apply (bool_decide_unpack _)|]. split; [cbn; fat_lia|].
  change (parent_cluster_number _) with 2. change (req_name _) with (name8 (cstring "sub")).
  rewrite image_directory_index by fat_lia. replace (directory_index _ _) with (Some 3) by (vm_compute; reflexivity).
  rewrite sample_entries by fat_lia. replace (entry_cluster _) with 4 by (vm_compute; reflexivity). fat_lia.
Qed.

Lemma call_sample_view : kernel_view (kern CallSample.state) ShellSample.view0.
Proof. split; [by apply disk_is_cluster|done|done]. Qed.

Lemma call_sample_layout : call_layout (kern CallSample.state) 0x400000 0x400000 0x400400 0x400400 0x400200 0x400200.
Proof. split; try (apply call_sample_mapped; [reflexivity|lia|fat_lia]); fat_lia. Qed.

Lemma call_sample_request : request_of (load CallSample.request_object 0 23) = CallSample.request_for 0.
Proof. vm_compute. reflexivity. Qed.

Lemma call_sample_bytes : request_of (load (phys (kern CallSample.state)) 0x400000 23) = CallSample.request_for 0x400400.
Proof. vm_compute. reflexivity. Qed.

Lemma call_sample_buffer : load (phys (kern CallSample.state)) 0x400400 2048 = load ∅ 0 2048.
Proof.
  apply load_ext. intros i Hi. change (phys _) with (store ∅ 0x400000 (request_bytes (CallSample.request_for 0x400400))).
  rewrite mget_store_out; [unfold mget; by rewrite !lookup_empty|]. rewrite length_request_bytes by done. lia.
Qed.

Lemma read_directory_call_refines_witness :
  exists code s' m' buffer', sys_read_directory ∅ CallSample.request_object ShellSample.shell0 = Ret ((code, buffer'), s') /\
    main_interrupt_handler (Frame (CallSample.call 1 0x400000 0x400200) 0x30 0 0) CallSample.state = Ret (None, m') /\
    mget (phys (kern m')) 0x400200 = z2b code /\ load (phys (kern m')) 0x400400 2048 = load buffer' 0 2048.
Proof.
  destruct (read_directory_call_refines (Frame (CallSample.call 1 0x400000 0x400200) 0x30 0 0) CallSample.state
    ShellSample.view0 ShellSample.shell0 CallSample.request_object ∅ 0x400400 0x400000 0x400400 0x400200
    (shell_sample_view _ _ _ _) call_sample_view eq_refl eq_refl call_sample_layout)
    as (code & buffer' & s' & m' & Hs & _ & Hm & _ & Hcode & Hload & _).
  - rewrite call_sample_request. reflexivity.
  - rewrite call_sample_request. exact call_sample_answerable.
  - rewrite call_sample_request. exact call_sample_bytes.
  - exact call_sample_buffer.
  - exists code, s', m', buffer'. split; [exact Hs|]. split; [exact Hm|]. split; [exact Hcode|exact Hload].
Defined.

(** The same page with "h" at its start, a cleared screen, the release code 0x9E
    and the code 0x1E of "a" waiting, typing on. *)
Module ConsoleSample.

Definition state : machine Inserter.image key_ports :=
  Machine
    (Kernel (pages InterruptSample.in_user) (store ∅ 0 Sample.map_bytes) Sample.image (store ∅ 0x400000 (cstring "hi")) processes_init)
    (Keyboard false true 0 0) (fb console_sample) (KeyPorts (hw console_sample) [z2b 0x9E; z2b 0x1E]).

(** Both codes arrive before the first poll, none before the second. *)
Definition arriving : list nat := [2%nat; 0%nat].

Definition frame (number count : Z) : InterruptFrame := Frame (CallSample.call number 0x400000 count) 0x30 0x1234 0x202.

End ConsoleSample.

Lemma console_sample_ok : term_ok (terminal_of ConsoleSample.state ConsoleSample.arriving).
Proof. split; [exact sample_screen_ok|]. apply Nat.leb_le. reflexivity. Qed.

Lemma console_sample_calls number count :
  0 <= count <= 16 ->
  let f := ConsoleSample.frame number count in
  mapped_at (kern ConsoleSample.state) (ebx (frame_cpu f)) 0x400000 (Z.max 1 (ecx (frame_cpu f))).
Proof. intros Hc f. apply call_sample_mapped; [reflexivity|cbn; lia|cbn; lia]. Qed.

(** Call 4 gives the "a" whose code has arrived; 6 prints the two bytes, 5 the
    first; 8 and 7 switch typing off and on. *)
Lemma terminal_calls_refine_witness :
  (exists m', (key_presses (ConsoleSample.frame 4 0) 2 ;; main_interrupt_handler (ConsoleSample.frame 4 0)) ConsoleSample.state = Ret (None, m') /\
     mget (phys (kern m')) 0x400000 = z2b 97 /\ keys true (terminal_of m' [0%nat]) = [0]) /\
  (exists m', main_interrupt_handler (ConsoleSample.frame 5 7) ConsoleSample.state = Ret (None, m') /\
     cell (screen m') 0 = z2b 104) /\
  (exists m', main_interrupt_handler (ConsoleSample.frame 6 2) ConsoleSample.state = Ret (None, m') /\
     keys true (terminal_of m' ConsoleSample.arriving) = [97; 0]) /\
  (exists m', main_interrupt_handler (ConsoleSample.frame 7 0) ConsoleSample.state = Ret (None, m') /\
     typing_on (terminal_of m' ConsoleSample.arriving) = true) /\
  (exists m', main_interrupt_handler (ConsoleSample.frame 8 0) ConsoleSample.state = Ret (None, m') /\
     typing_on (terminal_of m' ConsoleSample.arriving) = false).
Proof.
  pose proof (fun n c Hc => terminal_calls_refine (ConsoleSample.frame n c) ConsoleSample.state 0x400000 ConsoleSample.arriving
    eq_refl console_sample_ok (console_sample_calls n c Hc)) as Hall.
  split; [|split; [|split; [|split]]].
  - destruct (Hall 4 0 ltac:(lia)) as (Hcall & _). destruct (Hcall eq_refl 97 [0] eq_refl) as (m' & Hr & Hk & _ & _ & Hon & Hks).
    exists m'. split; [exact Hr|]. split; [rewrite Hk; vm_compute; reflexivity|]. rewrite Hon in Hks. exact Hks.
  - destruct (Hall 5 7 ltac:(lia)) as (_ & Hcall & _). destruct (Hcall eq_refl) as (m' & Hr & _ & Hput & _). exists m'. split; [exact Hr|].
    assert (Hcell : match putchar row_fuel (i8 (b2z (mget (phys (kern ConsoleSample.state)) 0x400000))) 7
        (Console (screen ConsoleSample.state) (io ConsoleSample.state)) with Ret (_, s) => cell (fb s) 0 | _ => z2b 0 end = z2b 104)
      by (vm_compute; reflexivity).
    change (ecx (frame_cpu (ConsoleSample.frame 5 7))) with 7 in Hput. rewrite Hput in Hcell. exact Hcell.
  - destruct (Hall 6 2 ltac:(lia)) as (_ & _ & Hcall & _). destruct (Hcall eq_refl) as (m' & Hr & _ & _ & _ & _ & Hk).
    exists m'. split; [exact Hr|]. rewrite Hk. vm_compute. reflexivity.
  - destruct (Hall 7 0 ltac:(lia)) as (_ & _ & _ & Hcall). destruct (Hcall true eq_refl) as (m' & Hr & _ & _ & _ & _ & Hon & _).
    exists m'. split; [exact Hr|exact Hon].
  - destruct (Hall 8 0 ltac:(lia)) as (_ & _ & _ & Hcall). destruct (Hcall false eq_refl) as (m' & Hr & _ & _ & _ & _ & Hon & _).
    exists m'. split; [exact Hr|exact Hon].
Defined.
