(* ===== verification/Clock.v ===== *)
(** The clock program, src/src/clock.c.  The functions [out_byte] and [in_byte]
    are declared there and defined nowhere in the repository: they are the
    interface [Cmos], with the documented behaviour of a CMOS clock as its laws. *)
From Stdlib Require Import ZArith Lia.
From stdpp Require Import base numbers option list.
From S2P Require Import Prelude.

(** ** The hardware *)

Definition cmos_address : Z := 0x70.
Definition cmos_data : Z := 0x71.

Class Cmos (P : Type) := {
  out_byte : Z -> Z -> P -> P;
  in_byte : Z -> P -> Z * P;
}.

(** A clock whose registers take their course while the program runs: [course p
    n r] is what register [r] holds at the [n]th access; the byte written to
    port 0x70 selects the register that port 0x71 shows. *)
Class CmosSpec (P : Type) `{Cmos P} := {
  course : P -> nat -> Z -> Z;
  now : P -> nat;
  selected : P -> Z;
  course_out port v p : course (out_byte port v p) = course p;
  course_in port p : course (snd (in_byte port p)) = course p;
  now_out port v p : now (out_byte port v p) = S (now p);
  now_in port p : now (snd (in_byte port p)) = S (now p);
  selected_out v p : selected (out_byte cmos_address v p) = v;
  selected_in p : fst (in_byte cmos_data p) = course p (now p) (selected p);
  course_byte p n r : 0 <= course p n r < 256;
}.

(** A clock given by its course. *)
Record cmos_clock := CmosClock { ticks : nat; chosen : Z; registers : nat -> Z -> Z }.

#[export] Instance cmos_clock_ports : Cmos cmos_clock := {
  out_byte port v p := CmosClock (S (ticks p)) (if port =? cmos_address then v else chosen p) (registers p);
  in_byte port p :=
    (if port =? cmos_data then registers p (ticks p) (chosen p) mod 256 else 0, CmosClock (S (ticks p)) (chosen p) (registers p));
}.

#[export, program] Instance cmos_clock_spec : CmosSpec cmos_clock := {
  course p n r := registers p n r mod 256;
  now := ticks;
  selected := chosen;
}.
Next Obligation. done. Qed.
Next Obligation. done. Qed.
Next Obligation. done. Qed.
Next Obligation. done. Qed.
Next Obligation. done. Qed.
Next Obligation. done. Qed.
Next Obligation. intros p n r. by apply Z.mod_pos_bound. Qed.

(** ** State *)

Definition CURRENT_YEAR : Z := 2024.

(** The string literals that the program passes to the kernel. *)
Inductive literal := Zero | Colon.

(** System call 6: a pointer into a literal, the count in ECX, the colour in EDX. *)
Record puts_call := PutsCall { text : literal; text_offset : Z; count : Z; fg_color : Z }.

(** The globals, the hardware and the calls that were made. *)
Record clock (P : Type) := Clock {
  second : Z; minute : Z; hour : Z; day : Z; month : Z; year : Z;
  century_register : Z;
  cmos : P;
  made : list puts_call;
}.
Arguments Clock {P} second minute hour day month year century_register cmos made.
Arguments second {P} c. Arguments minute {P} c. Arguments hour {P} c. Arguments day {P} c.
Arguments month {P} c. Arguments year {P} c. Arguments century_register {P} c.
Arguments cmos {P} c. Arguments made {P} c.

Definition set_second {P} (v : Z) (c : clock P) : clock P :=
  Clock v (minute c) (hour c) (day c) (month c) (year c) (century_register c) (cmos c) (made c).
Definition set_minute {P} (v : Z) (c : clock P) : clock P :=
  Clock (second c) v (hour c) (day c) (month c) (year c) (century_register c) (cmos c) (made c).
Definition set_hour {P} (v : Z) (c : clock P) : clock P :=
  Clock (second c) (minute c) v (day c) (month c) (year c) (century_register c) (cmos c) (made c).
Definition set_day {P} (v : Z) (c : clock P) : clock P :=
  Clock (second c) (minute c) (hour c) v (month c) (year c) (century_register c) (cmos c) (made c).
Definition set_month {P} (v : Z) (c : clock P) : clock P :=
  Clock (second c) (minute c) (hour c) (day c) v (year c) (century_register c) (cmos c) (made c).
Definition set_year {P} (v : Z) (c : clock P) : clock P :=
  Clock (second c) (minute c) (hour c) (day c) (month c) v (century_register c) (cmos c) (made c).
Definition set_cmos {P} (p : P) (c : clock P) : clock P :=
  Clock (second c) (minute c) (hour c) (day c) (month c) (year c) (century_register c) p (made c).

Section Clock.
Context {P : Type} `{!Cmos P}.

Abbreviation St := (clock P).

(** ** Reading the clock *)

Definition select (reg : Z) : M St unit := modify (fun c => set_cmos (out_byte cmos_address reg (cmos c)) c).
Definition input : M St Z := fun c => let '(v, p) := in_byte cmos_data (cmos c) in Ret (v, set_cmos p c).

Definition get_update_in_progress_flag : M St Z := select 0x0A ;; v ← input; mret (Z.land v 0x80).

Definition get_RTC_register (reg : Z) : M St Z := select reg ;; v ← input; mret (u8 v).

(** [while (get_update_in_progress_flag());]. *)
Fixpoint wait_for_update (fuel : nat) : M St unit :=
  match fuel with
  | O => out_of_fuel
  | S fuel' =>
      flag ← get_update_in_progress_flag;
      if negb (flag =? 0) then wait_for_update fuel' else mret tt
  end.

(** The six registers, and the local [century] when there is a register for it. *)
Definition read_registers (century : Z) : M St Z :=
  v ← get_RTC_register 0x00; modify (set_second v) ;;
  v ← get_RTC_register 0x02; modify (set_minute v) ;;
  v ← get_RTC_register 0x04; modify (set_hour v) ;;
  v ← get_RTC_register 0x07; modify (set_day v) ;;
  v ← get_RTC_register 0x08; modify (set_month v) ;;
  v ← get_RTC_register 0x09; modify (set_year v) ;;
  cr ← gets century_register;
  if negb (cr =? 0) then get_RTC_register cr else mret century.

(** Until the same second, minute and hour are read twice in a row. *)
Fixpoint read_until_stable (fuel wait_fuel : nat) (century : Z) : M St Z :=
  match fuel with
  | O => out_of_fuel
  | S fuel' =>
      last_second ← gets second;
      last_minute ← gets minute;
      last_hour ← gets hour;
      wait_for_update wait_fuel ;;
      century ← read_registers century;
      c ← gets id;
      if negb (last_second =? second c) || negb (last_minute =? minute c) || negb (last_hour =? hour c)
      then read_until_stable fuel' wait_fuel century
      else mret century
  end.

(** [(x & 0x0F) + ((x / 16) * 10)], of a byte; the hour keeps its top bit. *)
Definition from_bcd (x : Z) : Z := u8 (Z.land x 0x0F + x / 16 * 10).
Definition hour_from_bcd (h : Z) : Z := u8 (Z.lor (Z.land h 0x0F + Z.land h 0x70 / 16 * 10) (Z.land h 0x80)).

Definition convert_bcd (c : St) : St :=
  Clock (from_bcd (second c)) (from_bcd (minute c)) (hour_from_bcd (hour c)) (from_bcd (day c)) (from_bcd (month c))
    (u32 (Z.land (year c) 0x0F + year c / 16 * 10)) (century_register c) (cmos c) (made c).

(** The hour of a 12 hour clock, in the afternoon. *)
Definition convert_hour (registerB h : Z) : Z :=
  if (Z.land registerB 0x02 =? 0) && negb (Z.land h 0x80 =? 0) then u8 (Z.rem (Z.land h 0x7F + 12) 24) else h.

Definition full_year (cr century y : Z) : Z :=
  if negb (cr =? 0) then u32 (y + century * 100)
  else
    let y := u32 (y + CURRENT_YEAR / 100 * 100) in
    if y <? CURRENT_YEAR then u32 (y + 100) else y.

(** [century] is not initialised; [fuel] bounds the rounds of each loop. *)
Definition read_rtc (fuel : nat) (century : Z) : M St unit :=
  wait_for_update fuel ;;
  century ← read_registers century;
  century ← read_until_stable fuel fuel century;
  registerB ← get_RTC_register 0x0B;
  let bcd := Z.land registerB 0x04 =? 0 in
  (if bcd then modify convert_bcd else mret tt) ;;
  modify (fun c => set_hour (convert_hour registerB (hour c)) c) ;;
  modify (fun c =>
    set_year (full_year (century_register c)
      (if bcd && negb (century_register c =? 0) then from_bcd century else century) (year c)) c).

(** ** Showing the time *)

Definition syscall_puts (t : literal) (off color : Z) : M St unit := modify (fun c =>
  Clock (second c) (minute c) (hour c) (day c) (month c) (year c) (century_register c) (cmos c)
    (made c ++ [PutsCall t off 24 color])).

(** Two digits: what is added to the literal is an offset of the pointer. *)
Definition show_pair (v color : Z) : M St unit :=
  if v >? 10 then syscall_puts Zero 0 color ;; syscall_puts Zero v (color + 1)
  else syscall_puts Zero (v / 10) color ;; syscall_puts Zero (v mod 10) (color + 1).

(** One round of the loop of [main]. *)
Definition main_round (fuel : nat) (century : Z) : M St unit :=
  read_rtc fuel century ;;
  modify (fun c => set_hour (u8 (hour c + 7)) c) ;;
  modify (fun c => if hour c >? 24 then set_hour (u8 (hour c - 24)) c else c) ;;
  h ← gets hour; show_pair h 72 ;;
  syscall_puts Colon 0 74 ;;
  modify (fun c => if minute c >? 60 then set_minute (u8 (minute c - 60)) c else c) ;;
  m ← gets minute; show_pair m 75 ;;
  syscall_puts Colon 0 77 ;;
  modify (fun c => if second c >? 60 then set_second (u8 (second c - 60)) c else c) ;;
  s ← gets second; show_pair s 78.

(** The local [century] of a round is whatever the last one left. *)
Fixpoint main_loop (rounds fuel : nat) (century : nat -> Z) : M St unit :=
  match rounds with
  | O => out_of_fuel
  | S rounds' => main_round fuel (century rounds) ;; main_loop rounds' fuel century
  end.

End Clock.
