(* ===== verification/ClockSpec.v ===== *)
(** Theorems about the clock program: when it gets a reading, which time the
    reading is, and what is shown. *)
From Stdlib Require Import ZArith Lia.
From stdpp Require Import base numbers option list.
From S2P Require Import Prelude Clock.

(** ** What the registers say *)

(** The six registers, as they are read from access [n] on. *)
Record reading := Reading { r_second : Z; r_minute : Z; r_hour : Z; r_day : Z; r_month : Z; r_year : Z }.

Definition reading_at (f : nat -> Z -> Z) (n : nat) : reading :=
  Reading (f (n + 1)%nat 0x00) (f (n + 3)%nat 0x02) (f (n + 5)%nat 0x04) (f (n + 7)%nat 0x07) (f (n + 9)%nat 0x08)
    (f (n + 11)%nat 0x09).

Definition same_time (a b : reading) : Prop := r_second a = r_second b /\ r_minute a = r_minute b /\ r_hour a = r_hour b.

(** The time of a reading in the format that register B describes. *)
Definition time_of (r : reading) (registerB : Z) : reading :=
  let bcd := Z.land registerB 0x04 =? 0 in
  let num := fun x => if bcd then from_bcd x else x in
  let y := if bcd then u32 (Z.land (r_year r) 0x0F + r_year r / 16 * 10) else r_year r in
  Reading (num (r_second r)) (num (r_minute r))
    (convert_hour registerB (if bcd then hour_from_bcd (r_hour r) else r_hour r))
    (num (r_day r)) (num (r_month r)) (full_year 0 0 y).

Definition globals {P} (c : clock P) : reading := Reading (second c) (minute c) (hour c) (day c) (month c) (year c).

(** During the [n] accesses from [n0] on no update is in progress and the
    registers keep their values. *)
Definition calm (f : nat -> Z -> Z) (n0 n : nat) : Prop :=
  forall k, (n0 <= k < n0 + n)%nat -> Z.land (f k 0x0A) 0x80 = 0 /\ forall r, f k r = f n0 r.

Lemma calm_reading f n0 n k :
  calm f n0 n -> (n0 <= k)%nat -> (k + 12 <= n0 + n)%nat -> reading_at f k = reading_at (fun _ => f n0) 0.
Proof. intros Hc Hk Hn. unfold reading_at. f_equal; apply Hc; lia. Qed.

Section Reads.
Context {P : Type} `{CmosSpec P}.
Implicit Types (s : clock P) (f : nat -> Z -> Z).

(** The clock takes the course [f] and [t] accesses were made; there is no
    register for the century. *)
Record at_time f (t : nat) (calls : list puts_call) s : Prop := {
  at_course : course (cmos s) = f;
  at_now : now (cmos s) = t;
  at_century : century_register s = 0;
  at_calls : made s = calls;
}.

(** Selecting a register and reading it takes two accesses. *)
Lemma wp_select_input {A} f t cs reg (k : Z -> M (clock P) A) (Q : A -> clock P -> Prop) s :
  at_time f t cs s ->
  (forall s', at_time f (t + 2) cs s' -> globals s' = globals s -> 0 <= f (t + 1)%nat reg < 256 -> wp (k (f (t + 1)%nat reg)) Q s') ->
  wp (select reg ;; v ← input; k v) Q s.
Proof.
  intros [Hf Ht Hc Hm] HQ. apply wp_bind, wp_modify, wp_bind. unfold wp at 1, input. cbn [cmos set_cmos].
  set (p0 := out_byte cmos_address reg (cmos s)). destruct (in_byte cmos_data p0) as [x p] eqn:E.
  pose proof (selected_in p0) as Hx. pose proof (now_in cmos_data p0) as Hn. pose proof (course_in cmos_data p0) as Hco.
  rewrite E in Hx, Hn, Hco. unfold p0 in *. rewrite selected_out, course_out, now_out, Hf, Ht in Hx. rewrite now_out, Ht in Hn.
  rewrite course_out, Hf in Hco. cbn [fst snd] in *. rewrite Hx. replace (S t) with (t + 1)%nat by lia.
  apply HQ; [|done|rewrite <- Hf; apply course_byte]. split; cbn [cmos century_register made set_cmos]; (done || lia).
Qed.

Lemma wp_rtc_register f t cs reg (Q : Z -> clock P -> Prop) s :
  at_time f t cs s ->
  (forall s', at_time f (t + 2) cs s' -> globals s' = globals s -> Q (f (t + 1)%nat reg) s') ->
  wp (get_RTC_register reg) Q s.
Proof.
  intros Ht HQ. eapply wp_select_input; [exact Ht|]. intros s' Ht' Hg Hb. apply wp_ret. unfold u8.
  rewrite Z.mod_small by done. by apply HQ.
Qed.

Lemma wp_flag f t cs (Q : Z -> clock P -> Prop) s :
  at_time f t cs s ->
  (forall s', at_time f (t + 2) cs s' -> globals s' = globals s -> Q (Z.land (f (t + 1)%nat 0x0A) 0x80) s') ->
  wp get_update_in_progress_flag Q s.
Proof.
  intros Ht HQ. eapply wp_select_input; [exact Ht|]. intros s' Ht' Hg _. apply wp_ret. by apply HQ.
Qed.

(** The wait ends with the first clear flag. *)
Lemma wp_wait f n0 n fuel : forall t cs (Q : unit -> clock P -> Prop) s,
  at_time f t cs s -> calm f n0 n -> (n0 + 1 - t < fuel)%nat -> (t + 2 <= n0 + n)%nat -> (2 <= n)%nat ->
  (forall s' t', at_time f t' cs s' -> globals s' = globals s -> (t + 2 <= t' <= t + 2 `max` (n0 + 2 - t))%nat -> Q tt s') ->
  wp (wait_for_update fuel) Q s.
Proof.
  induction fuel as [|fuel IH]; intros t cs Q s Ht Hc Hf Hn Hn2 HQ; [lia|]. cbn [wait_for_update].
  apply wp_bind. eapply wp_flag; [exact Ht|]. intros s1 Ht1 Hg1.
  destruct (Z.eqb_spec (Z.land (f (t + 1)%nat 0x0A) 0x80) 0) as [E|E]; cbn [negb].
  - apply wp_ret. eapply HQ; [exact Ht1|exact Hg1|lia].
  - assert (Hlt : (t + 1 < n0)%nat).
    { destruct (decide (t + 1 < n0)%nat) as [|Hge]; [done|]. exfalso. apply E, Hc. lia. }
    eapply (IH (t + 2)%nat cs); [exact Ht1|done|lia|lia|done|]. intros s2 t2 Ht2 Hg2 Hb. eapply HQ; [exact Ht2|congruence|lia].
Qed.

Lemma wp_registers f t cs century (Q : Z -> clock P -> Prop) s :
  at_time f t cs s ->
  (forall s', at_time f (t + 12) cs s' -> globals s' = reading_at f t -> Q century s') ->
  wp (read_registers century) Q s.
Proof.
  intros Ht HQ. unfold read_registers.
  apply wp_bind. eapply wp_rtc_register; [exact Ht|]. intros s1 [] Hg1. apply wp_bind, wp_modify.
  apply wp_bind. eapply (wp_rtc_register f (t + 2) cs); [by split|]. intros s2 [] Hg2. apply wp_bind, wp_modify.
  apply wp_bind. eapply (wp_rtc_register f (t + 4) cs); [split; cbn; try done; lia|]. intros s3 [] Hg3. apply wp_bind, wp_modify.
  apply wp_bind. eapply (wp_rtc_register f (t + 6) cs); [split; cbn; try done; lia|]. intros s4 [] Hg4. apply wp_bind, wp_modify.
  apply wp_bind. eapply (wp_rtc_register f (t + 8) cs); [split; cbn; try done; lia|]. intros s5 [] Hg5. apply wp_bind, wp_modify.
  apply wp_bind. eapply (wp_rtc_register f (t + 10) cs); [split; cbn; try done; lia|]. intros s6 [] Hg6. apply wp_bind, wp_modify.
  apply wp_bind, wp_gets. cbn [century_register set_year]. rewrite at_century5. cbn [Z.eqb negb]. apply wp_ret, HQ.
  - split; cbn; try done. lia.
  - unfold globals, reading_at in *. cbn [second minute hour day month year set_second set_minute set_hour set_day set_month set_year] in *.
    injection Hg6 as -> -> -> -> -> _. injection Hg5 as -> -> -> -> _ _. injection Hg4 as -> -> -> _ _ _.
    injection Hg3 as -> -> _ _ _ _. injection Hg2 as -> _ _ _ _ _. f_equal; f_equal; lia.
Qed.

(** The globals agree with the values of the calm time. *)
Definition settled f (n0 : nat) (g : reading) : Prop := same_time g (reading_at (fun _ => f n0) 0).

Lemma same_time_test a b :
  negb (r_second a =? r_second b) || negb (r_minute a =? r_minute b) || negb (r_hour a =? r_hour b) = false <-> same_time a b.
Proof. rewrite !orb_false_iff, !negb_false_iff, !Z.eqb_eq. unfold same_time. tauto. Qed.

(** A reading that agrees with the one before it is accepted: at the latest the
    second one inside a calm time of 60 accesses. *)
Lemma wp_stable f n0 fuel : forall wait t t1 cs century (Q : Z -> clock P -> Prop) s,
  at_time f t cs s -> calm f n0 60 -> globals s = reading_at f t1 -> (t1 + 12 <= t)%nat -> (n0 + 1 - t < wait)%nat ->
  ((t <= n0 + 14)%nat /\ (n0 - t + 3 <= fuel)%nat) \/
  ((n0 <= t <= n0 + 28)%nat /\ settled f n0 (globals s) /\ (1 <= fuel)%nat) ->
  (forall s' t1' t2, at_time f (t2 + 12) cs s' -> globals s' = reading_at f t2 -> (t1 <= t1')%nat -> (t1' + 12 <= t2 <= n0 + 30)%nat ->
     same_time (reading_at f t1') (reading_at f t2) -> Q century s') ->
  wp (read_until_stable fuel wait century) Q s.
Proof.
  induction fuel as [|fuel IH]; intros wait t t1 cs century Q s Ht Hc Hg H1t Hw Hcase HQ; [lia|]. cbn [read_until_stable].
  apply wp_bind, wp_gets, wp_bind, wp_gets, wp_bind, wp_gets, wp_bind.
  eapply (wp_wait f n0 60); [exact Ht|done|done|lia|lia|]. intros s1 t2 Ht1 Hg1 Hb.
  apply wp_bind. eapply wp_registers; [exact Ht1|]. intros s2 Ht2 Hg2. apply wp_bind, wp_gets. unfold id.
  change (second s) with (r_second (globals s)). change (minute s) with (r_minute (globals s)). change (hour s) with (r_hour (globals s)).
  change (second s2) with (r_second (globals s2)). change (minute s2) with (r_minute (globals s2)). change (hour s2) with (r_hour (globals s2)).
  destruct (_ || _) eqn:E.
  - assert (Hcalm : (n0 <= t2)%nat -> (t2 <= n0 + 48)%nat -> globals s2 = reading_at (fun _ => f n0) 0).
    { intros Hge Hle. rewrite Hg2. by apply (calm_reading f n0 60); [|lia|lia]. }
    eapply (IH wait (t2 + 12)%nat t2); [exact Ht2|done|done|lia|lia| |intros s3 t1' t3 Ht3 Hg3 Hlo; apply (HQ s3 t1' t3 Ht3 Hg3); lia].
    destruct Hcase as [[Hle Hf]|(Hr & Hset & _)].
    + destruct (decide (n0 <= t)%nat) as [Hge|Hlt]; [right|left; lia].
      split; [lia|]. split; [|lia]. rewrite Hcalm by lia. done.
    + exfalso. apply not_false_iff_true in E. apply E, same_time_test. rewrite Hcalm by lia. exact Hset.
  - apply wp_ret. apply same_time_test in E. apply (HQ s2 t1 t2 Ht2 Hg2); [lia|lia|by rewrite <- Hg, <- Hg2].
Qed.

(** What [read_rtc] leaves in the globals, from the reading and register B. *)
Lemma wp_convert f t cs century (Q : unit -> clock P -> Prop) s :
  at_time f t cs s ->
  (forall s', at_time f (t + 2) cs s' -> globals s' = time_of (globals s) (f (t + 1)%nat 0x0B) -> Q tt s') ->
  wp (registerB ← get_RTC_register 0x0B;
      let bcd := Z.land registerB 0x04 =? 0 in
      (if bcd then modify convert_bcd else mret tt) ;;
      modify (fun c => set_hour (convert_hour registerB (hour c)) c) ;;
      modify (fun c => set_year (full_year (century_register c)
        (if bcd && negb (century_register c =? 0) then from_bcd century else century) (year c)) c)) Q s.
Proof.
  intros Ht HQ. apply wp_bind. eapply wp_rtc_register; [exact Ht|]. intros s1 Ht1 Hg1. set (b := f _ _) in *. cbv zeta.
  pose proof Ht1 as [Hf Hn Hc Hm]. rewrite <- Hg1 in HQ. unfold time_of in HQ.
  destruct (Z.land b 0x04 =? 0); cbn [andb].
  - apply wp_bind, wp_modify, wp_bind, wp_modify, wp_modify. apply HQ; [by split|].
    unfold globals. cbn [convert_bcd set_hour set_year second minute hour day month year century_register]. by rewrite Hc.
  - apply wp_bind, wp_ret, wp_bind, wp_modify, wp_modify. apply HQ; [by split|].
    unfold globals. cbn [set_hour set_year second minute hour day month year century_register]. by rewrite Hc.
Qed.

(** [read_rtc], with a calm time of 60 accesses ahead. *)
Lemma wp_read_rtc f n0 fuel t cs century (Q : unit -> clock P -> Prop) s :
  at_time f t cs s -> calm f n0 60 -> (t <= n0)%nat -> (n0 - t + 3 <= fuel)%nat ->
  (forall s' t1 t2, at_time f (t2 + 14) cs s' -> (t <= t1)%nat -> (t1 + 12 <= t2 <= n0 + 30)%nat ->
     same_time (reading_at f t1) (reading_at f t2) ->
     globals s' = time_of (reading_at f t2) (f (t2 + 13)%nat 0x0B) -> Q tt s') ->
  wp (read_rtc fuel century) Q s.
Proof.
  intros Ht Hc Hn Hf HQ. unfold read_rtc. apply wp_bind. eapply (wp_wait f n0 60); [exact Ht|done|lia|lia|lia|].
  intros s1 t1 Ht1 _ Hb. apply wp_bind. eapply wp_registers; [exact Ht1|]. intros s2 Ht2 Hg2.
  apply wp_bind. eapply (wp_stable f n0 fuel fuel (t1 + 12) t1); [exact Ht2|done|done|lia|lia|left; lia|].
  intros s3 t1' t2 Ht3 Hg3 Hlo Hhi Hsame. eapply wp_convert; [exact Ht3|]. intros s4 Ht4 Hg4.
  apply (HQ s4 t1' t2); [by replace (t2 + 14)%nat with (t2 + 12 + 2)%nat by lia|lia|lia|done|].
  rewrite Hg4, Hg3. do 2 f_equal. lia.
Qed.

(** C39: reading the clock ends: when, however late, an update-free time of 60
    accesses comes, in which the registers keep their values, [read_rtc]
    returns; and the time it leaves is the conversion of a reading whose second,
    minute and hour were read twice in a row. *)
Theorem read_rtc_terminates f n0 fuel t cs century s :
  at_time f t cs s -> calm f n0 60 -> (t <= n0)%nat -> (n0 - t + 3 <= fuel)%nat ->
  exists s' t1 t2, read_rtc fuel century s = Ret (tt, s') /\ (t <= t1)%nat /\ (t1 + 12 <= t2)%nat /\
    same_time (reading_at f t1) (reading_at f t2) /\
    globals s' = time_of (reading_at f t2) (f (t2 + 13)%nat 0x0B).
Proof.
  intros Ht Hc Hn Hf.
  enough (Hwp : wp (read_rtc fuel century) (fun _ s' => exists t1 t2, (t <= t1)%nat /\ (t1 + 12 <= t2)%nat /\
    same_time (reading_at f t1) (reading_at f t2) /\
    globals s' = time_of (reading_at f t2) (f (t2 + 13)%nat 0x0B)) s).
  { apply wp_elim in Hwp as ([] & s' & Hr & t1 & t2 & Hs'). by exists s', t1, t2. }
  eapply wp_read_rtc; [exact Ht|exact Hc|done|done|]. intros s' t1 t2 _ H1t H2t Hsame Hg. exists t1, t2.
  split; [done|]. split; [lia|done].
Qed.

(** ** The time *)

(** A number in the format of the registers. *)
Definition encode (bcd : bool) (x : Z) : Z := if bcd then 16 * (x / 10) + x mod 10 else x.

(** An hour, in 24 hour format or as 12, 1 to 11 with the top bit after noon. *)
Definition encode_hour (bcd h24 : bool) (h : Z) : Z :=
  if h24 then encode bcd h
  else Z.lor (encode bcd (if h mod 12 =? 0 then 12 else h mod 12)) (if 12 <=? h then 0x80 else 0).

(** The registers hold the time, in the format that register B says. *)
Record shows (regs : Z -> Z) (bcd h24 : bool) (tm : reading) : Prop := {
  shows_second : regs 0x00 = encode bcd (r_second tm);
  shows_minute : regs 0x02 = encode bcd (r_minute tm);
  shows_hour : regs 0x04 = encode_hour bcd h24 (r_hour tm);
  shows_day : regs 0x07 = encode bcd (r_day tm);
  shows_month : regs 0x08 = encode bcd (r_month tm);
  shows_year : regs 0x09 = encode bcd (r_year tm);
  shows_bcd : (Z.land (regs 0x0B) 0x04 =? 0) = bcd;
  shows_h24 : (Z.land (regs 0x0B) 0x02 =? 0) = negb h24;
}.

Definition time_ok (tm : reading) : Prop :=
  0 <= r_second tm < 60 /\ 0 <= r_minute tm < 60 /\ 0 <= r_hour tm < 24 /\ 0 <= r_day tm < 32 /\ 0 <= r_month tm < 13 /\
  0 <= r_year tm < 100.

(** The hour that [read_rtc] makes of it: in 12 hour format midnight stays 12
    and noon becomes 0, the wrong way round. *)
Definition hour_read (h24 : bool) (h : Z) : Z :=
  if h24 then h else if h =? 0 then 12 else if h =? 12 then 0 else h.

Definition year_read (y : Z) : Z := if y <? 24 then 2100 + y else 2000 + y.

Definition time_read (h24 : bool) (tm : reading) : reading :=
  Reading (r_second tm) (r_minute tm) (hour_read h24 (r_hour tm)) (r_day tm) (r_month tm) (year_read (r_year tm)).

(** Check a property of all numbers below a bound by evaluation. *)
Lemma check_below (p : Z -> bool) n : forallb p (seqZ 0 n) = true -> forall x, 0 <= x < n -> p x = true.
Proof. rewrite forallb_forall. intros Hp x Hx. apply Hp, list_elem_of_In, elem_of_seqZ. lia. Qed.

Lemma decode_number (bcd : bool) x : 0 <= x < 100 -> (if bcd then from_bcd (encode bcd x) else encode bcd x) = x.
Proof.
  intros Hx. destruct bcd; [|done]. apply Z.eqb_eq.
  by apply (check_below (fun x => from_bcd (encode true x) =? x) 100).
Qed.

Lemma decode_hour (bcd h24 : bool) b h :
  0 <= h < 24 -> (Z.land b 0x02 =? 0) = negb h24 ->
  convert_hour b (if bcd then hour_from_bcd (encode_hour bcd h24 h) else encode_hour bcd h24 h) = hour_read h24 h.
Proof.
  intros Hh Hb. unfold convert_hour. rewrite Hb. apply Z.eqb_eq.
  destruct bcd, h24; cbn [negb andb];
    [apply (check_below (fun h => hour_from_bcd (encode_hour true true h) =? hour_read true h) 24); [vm_compute; reflexivity|done]
    |apply (check_below (fun h => (if negb (Z.land (hour_from_bcd (encode_hour true false h)) 0x80 =? 0)
       then u8 (Z.rem (Z.land (hour_from_bcd (encode_hour true false h)) 0x7F + 12) 24)
       else hour_from_bcd (encode_hour true false h)) =? hour_read false h) 24); [vm_compute; reflexivity|done]
    |apply (check_below (fun h => encode_hour false true h =? hour_read true h) 24); [vm_compute; reflexivity|done]
    |apply (check_below (fun h => (if negb (Z.land (encode_hour false false h) 0x80 =? 0)
       then u8 (Z.rem (Z.land (encode_hour false false h) 0x7F + 12) 24)
       else encode_hour false false h) =? hour_read false h) 24); [vm_compute; reflexivity|done]].
Qed.

Lemma decode_year (bcd : bool) y :
  0 <= y < 100 ->
  full_year 0 0 (if bcd then u32 (Z.land (encode bcd y) 0x0F + encode bcd y / 16 * 10) else encode bcd y) = year_read y.
Proof.
  intros Hy. apply Z.eqb_eq. destruct bcd.
  - apply (check_below (fun y => full_year 0 0 (u32 (Z.land (encode true y) 0x0F + encode true y / 16 * 10)) =? year_read y) 100);
      [vm_compute; reflexivity|done].
  - apply (check_below (fun y => full_year 0 0 (encode false y) =? year_read y) 100); [vm_compute; reflexivity|done].
Qed.

Lemma time_of_shows regs bcd h24 tm :
  shows regs bcd h24 tm -> time_ok tm -> time_of (reading_at (fun _ => regs) 0) (regs 0x0B) = time_read h24 tm.
Proof.
  intros [H1s H2s H3s H4s H5s H6s Hb H24] (R1 & R2 & R3 & R4 & R5 & R6). unfold time_of, reading_at, time_read.
  cbn [r_second r_minute r_hour r_day r_month r_year]. rewrite Hb, H1s, H2s, H3s, H4s, H5s, H6s.
  rewrite !decode_number, (decode_hour bcd h24), decode_year by (done || lia). done.
Qed.

Lemma wp_read_rtc_shows regs bcd h24 tm f fuel t cs century (Q : unit -> clock P -> Prop) s :
  at_time f t cs s -> calm f t 60 -> f t = regs -> shows regs bcd h24 tm -> time_ok tm -> (3 <= fuel)%nat ->
  (forall s' t', at_time f t' cs s' -> globals s' = time_read h24 tm -> Q tt s') ->
  wp (read_rtc fuel century) Q s.
Proof.
  intros Ht Hc <- Hs Htm Hf HQ. eapply (wp_read_rtc f t fuel t); [exact Ht|done|lia|lia|].
  intros s' t1 t2 Ht' H1t H2t _ Hg. eapply HQ; [exact Ht'|]. rewrite Hg.
  rewrite (calm_reading f t 60 t2) by (done || lia). rewrite (proj2 (Hc (t2 + 13)%nat ltac:(lia))).
  by eapply time_of_shows.
Qed.

(** C40: when the clock is calm and its registers hold a time, in BCD or binary and
    in 24 or 12 hour format, [read_rtc] leaves that time: the numbers are
    decoded, the year is the one of 2024 to 2123 with these two digits, and the
    hour is right but for the 12 hour format, where midnight becomes 12 and
    noon 0. *)
Theorem read_rtc_correct bcd h24 tm f fuel t cs century s :
  at_time f t cs s -> calm f t 60 -> shows (f t) bcd h24 tm -> time_ok tm -> (3 <= fuel)%nat ->
  exists s', read_rtc fuel century s = Ret (tt, s') /\ globals s' = time_read h24 tm /\
    2024 <= r_year (globals s') <= 2123 /\ r_year (globals s') mod 100 = r_year tm.
Proof.
  intros Ht Hc Hs Htm Hf.
  enough (Hwp : wp (read_rtc fuel century) (fun _ s' => globals s' = time_read h24 tm) s).
  { apply wp_elim in Hwp as ([] & s' & Hr & Hg). exists s'. split; [done|]. split; [done|]. rewrite Hg.
    destruct Htm as (_ & _ & _ & _ & _ & Hy). unfold time_read, year_read. cbn [r_year].
    destruct (Z.ltb_spec (r_year tm) 24); split; try lia; Z.div_mod_to_equations; lia. }
  by eapply wp_read_rtc_shows.
Qed.

(** ** What is shown *)

Definition pair_calls (v color : Z) : list puts_call :=
  if v >? 10 then [PutsCall Zero 0 24 color; PutsCall Zero v 24 (color + 1)]
  else [PutsCall Zero (v / 10) 24 color; PutsCall Zero (v mod 10) 24 (color + 1)].

Definition clock_calls (h m sec : Z) : list puts_call :=
  pair_calls h 72 ++ [PutsCall Colon 0 24 74] ++ pair_calls m 75 ++ [PutsCall Colon 0 24 77] ++ pair_calls sec 78.

(** Seven hours later; at 17 it is 24 and not 0. *)
Definition local_hour (h : Z) : Z := if h + 7 >? 24 then h - 17 else h + 7.

Lemma wp_show_pair v color f t cs (Q : unit -> clock P -> Prop) s :
  at_time f t cs s -> (forall s', at_time f t (cs ++ pair_calls v color) s' -> globals s' = globals s -> Q tt s') ->
  wp (show_pair v color) Q s.
Proof.
  intros [Hf Ht Hc Hm] HQ. unfold show_pair, pair_calls in *.
  destruct (v >? 10); apply wp_bind, wp_modify, wp_modify; (apply HQ; [|done]); split; cbn [cmos century_register made]; try done;
    by rewrite Hm, <- app_assoc.
Qed.

Lemma wp_colon color f t cs (Q : unit -> clock P -> Prop) s :
  at_time f t cs s -> (forall s', at_time f t (cs ++ [PutsCall Colon 0 24 color]) s' -> globals s' = globals s -> Q tt s') ->
  wp (syscall_puts Colon 0 color) Q s.
Proof. intros [Hf Ht Hc Hm] HQ. apply wp_modify, HQ; [|done]. split; cbn [cmos century_register made]; try done. by rewrite Hm. Qed.

Lemma hour_read_range h24 h : 0 <= h < 24 -> 0 <= hour_read h24 h < 24.
Proof. unfold hour_read. repeat case_match; lia. Qed.

(** The hour as the program shifts it. *)
Lemma local_hour_eval h : 0 <= h < 24 -> (if u8 (h + 7) >? 24 then u8 (u8 (h + 7) - 24) else u8 (h + 7)) = local_hour h.
Proof.
  intros Hh. apply Z.eqb_eq.
  apply (check_below (fun h => (if u8 (h + 7) >? 24 then u8 (u8 (h + 7) - 24) else u8 (h + 7)) =? local_hour h) 24);
    [vm_compute; reflexivity|done].
Qed.

(** a round of the program, when the clock is calm: the calls are made for the
    local hour, the minute and the second in turn.  The local hour is the hour
    read plus seven, modulo 24, but 24 instead of 0.  And no call passes a text
    of the length it says: every one of the 24 bytes ranges starts in a literal
    of two bytes, or behind it, and ends behind it, as the number that should be
    printed is added to the pointer. *)
Theorem clock_round_correct bcd h24 tm f fuel t cs century s :
  at_time f t cs s -> calm f t 60 -> shows (f t) bcd h24 tm -> time_ok tm -> (3 <= fuel)%nat ->
  let h := local_hour (hour_read h24 (r_hour tm)) in
  (exists s', main_round fuel century s = Ret (tt, s') /\
     made s' = cs ++ clock_calls h (r_minute tm) (r_second tm)) /\
  h mod 24 = (hour_read h24 (r_hour tm) + 7) mod 24 /\ (h = 24 <-> hour_read h24 (r_hour tm) = 17) /\
  Forall (fun c => count c = 24 /\ 0 <= text_offset c /\ 2 < text_offset c + count c)
    (clock_calls h (r_minute tm) (r_second tm)).
Proof.
  intros Ht Hc Hs Htm Hf h. pose proof Htm as (Hsec & Hmin & Hhour & _).
  pose proof (hour_read_range h24 _ Hhour) as Hrange. split; [|split; [|split]].
  - enough (Hwp : wp (main_round fuel century) (fun _ s' => made s' = cs ++ clock_calls h (r_minute tm) (r_second tm)) s).
    { apply wp_elim in Hwp as ([] & s' & Hr & Hm). by exists s'. }
    unfold main_round. apply wp_bind. eapply wp_read_rtc_shows; [exact Ht|done|done|exact Hs|done|done|].
    intros s1 t1 [Hf1 Hn1 Hc1 Hm1] Hg1. unfold globals, time_read in Hg1. injection Hg1 as Es Em Eh Ed Emo Ey.
    apply wp_bind, wp_modify, wp_bind, wp_modify. cbn [hour set_hour]. rewrite Eh.
    apply wp_bind, wp_gets. set (s2 := if _ >? 24 then _ else _).
    assert (Hs2 : at_time f t1 cs s2 /\ hour s2 = h /\ minute s2 = r_minute tm /\ second s2 = r_second tm).
    { unfold h. rewrite <- local_hour_eval by done. unfold s2. destruct (_ >? 24); by (split; [split|]). }
    destruct Hs2 as (Ht2 & Hh2 & Hm2 & Hse2). rewrite Hh2.
    apply wp_bind. eapply wp_show_pair; [exact Ht2|]. intros s3 Ht3 Hg3.
    apply wp_bind. eapply wp_colon; [exact Ht3|]. intros s4 Ht4 Hg4.
    assert (Hm4 : minute s4 = r_minute tm) by (change (minute s4) with (r_minute (globals s4)); by rewrite Hg4, Hg3).
    assert (Hse4 : second s4 = r_second tm) by (change (second s4) with (r_second (globals s4)); by rewrite Hg4, Hg3).
    apply wp_bind, wp_modify. rewrite Hm4. destruct (Z.gtb_spec (r_minute tm) 60); [lia|].
    apply wp_bind, wp_gets. rewrite Hm4. apply wp_bind. eapply wp_show_pair; [exact Ht4|]. intros s5 Ht5 Hg5.
    apply wp_bind. eapply wp_colon; [exact Ht5|]. intros s6 Ht6 Hg6.
    assert (Hse6 : second s6 = r_second tm) by (change (second s6) with (r_second (globals s6)); by rewrite Hg6, Hg5).
    apply wp_bind, wp_modify. rewrite Hse6. destruct (Z.gtb_spec (r_second tm) 60); [lia|].
    apply wp_bind, wp_gets. rewrite Hse6. eapply wp_show_pair; [exact Ht6|]. intros s7 [] _.
    rewrite at_calls0. unfold clock_calls. by rewrite <- !app_assoc.
  - unfold h, local_hour. destruct (Z.gtb_spec (hour_read h24 (r_hour tm) + 7) 24); [|done].
    Z.div_mod_to_equations. lia.
  - unfold h, local_hour. destruct (Z.gtb_spec (hour_read h24 (r_hour tm) + 7) 24); lia.
  - assert (Hpair : forall v color, 0 <= v < 256 ->
      Forall (fun c => count c = 24 /\ 0 <= text_offset c /\ 2 < text_offset c + count c) (pair_calls v color)).
    { intros v color Hv. unfold pair_calls. destruct (v >? 10); repeat constructor; cbn [count text_offset]; try done; try lia;
        Z.div_mod_to_equations; lia. }
    assert (Hcolon : forall color, Forall (fun c => count c = 24 /\ 0 <= text_offset c /\ 2 < text_offset c + count c)
      [PutsCall Colon 0 24 color]) by (intros color; apply Forall_singleton; cbn; lia).
    unfold clock_calls. rewrite !Forall_app. unfold h, local_hour.
    repeat (split; [apply Hcolon || (apply Hpair; repeat case_match; lia)|]). apply Hpair. lia.
Qed.
End Reads.

(** ** The theorems at a concrete clock *)

Module ClockSample.

(** Five past one in the afternoon of 6 March 2025, in BCD and 12 hour format. *)
Definition afternoon : reading := Reading 42 5 13 6 3 25.

Definition registers_at (r : Z) : Z :=
  if r =? 0x00 then 0x42 else if r =? 0x02 then 0x05 else if r =? 0x04 then 0x81 else if r =? 0x07 then 0x06
  else if r =? 0x08 then 0x03 else if r =? 0x09 then 0x25 else 0.

(** A clock with an update in progress at the first 20 accesses. *)
Definition busy (n : nat) (r : Z) : Z := if (n <? 20)%nat then (if r =? 0x0A then 0x80 else 0x59) else registers_at r.

Definition start (f : nat -> Z -> Z) : clock cmos_clock := Clock 0 0 0 0 0 0 0 (CmosClock 0 0 f) [].

End ClockSample.

Lemma sample_course (f : nat -> Z -> Z) : at_time (fun n r => f n r mod 256) 0 [] (ClockSample.start f).
Proof. by split. Qed.

Lemma registers_at_byte r : ClockSample.registers_at r mod 256 = ClockSample.registers_at r.
Proof. unfold ClockSample.registers_at. by repeat case_match. Qed.

Lemma sample_shows : shows (fun r => ClockSample.registers_at r mod 256) true false ClockSample.afternoon.
Proof. split; vm_compute; reflexivity. Qed.

Lemma sample_time_ok : time_ok ClockSample.afternoon.
Proof. unfold time_ok. cbn. lia. Qed.

Lemma read_rtc_terminates_witness :
  exists s' t1 t2, read_rtc 23 0 (ClockSample.start ClockSample.busy) = Ret (tt, s') /\ (0 <= t1)%nat /\ (t1 + 12 <= t2)%nat.
Proof.
  destruct (read_rtc_terminates (fun n r => ClockSample.busy n r mod 256) 20 23 0 [] 0 (ClockSample.start ClockSample.busy)
    (sample_course _)) as (s' & t1 & t2 & Hr & H1 & H2 & _).
  - intros k Hk. unfold ClockSample.busy. rewrite (proj2 (Nat.ltb_ge k 20)) by lia. split; [reflexivity|]. intros r. reflexivity.
  - lia.
  - lia.
  - exists s', t1, t2. split; [exact Hr|]. split; [exact H1|exact H2].
Defined.

Lemma read_rtc_correct_witness :
  exists s', read_rtc 3 0 (ClockSample.start (fun _ => ClockSample.registers_at)) = Ret (tt, s') /\
    globals s' = Reading 42 5 13 6 3 2025.
Proof.
  destruct (read_rtc_correct true false ClockSample.afternoon (fun _ r => ClockSample.registers_at r mod 256) 3 0 [] 0
    (ClockSample.start (fun _ => ClockSample.registers_at)) (sample_course _)) as (s' & Hr & Hg & _).
  - intros k Hk. split; [reflexivity|]. intros r. reflexivity.
  - exact sample_shows.
  - exact sample_time_ok.
  - lia.
  - exists s'. split; [exact Hr|exact Hg].
Defined.

Lemma clock_round_correct_witness :
  exists s', main_round 3 0 (ClockSample.start (fun _ => ClockSample.registers_at)) = Ret (tt, s') /\
    made s' = clock_calls 20 5 42.
Proof.
  destruct (clock_round_correct true false ClockSample.afternoon (fun _ r => ClockSample.registers_at r mod 256) 3 0 [] 0
    (ClockSample.start (fun _ => ClockSample.registers_at)) (sample_course _)) as [(s' & Hr & Hm) _].
  - intros k Hk. split; [reflexivity|]. intros r. reflexivity.
  - exact sample_shows.
  - exact sample_time_ok.
  - lia.
  - exists s'. split; [exact Hr|exact Hm].
Defined.
